(* ===== verification/_CoqProject ===== *)
-Q . S2P
Prelude.v
Memory.v
Types.v
Machine.v
Mmu.v
Screen.v
Pmm.v
Kheap.v
Paging.v
Interrupts.v
Process.v
Cstring.v
Scheduler.v
Asm.v
Switching.v
Device.v
Syscall.v
Userland.v
Fs.v
Ata.v
Console.v
Kernel.v
Boot.v
User.v
UserTest.v
