(* ===== verification/Prelude.v ===== *)
(** * Helios: a verification library for the kernel

    Helios is a small 32-bit x86 kernel in C (src/kernel, src/include) with a few
    assembly stubs.  This library translates the C files, function by function,
    into executable Rocq definitions on one kernel state and proves what each part
    promises to the others.

    ** The program's parts and where they are modelled

    - [Prelude], [Memory], [Types], [Machine], [Mmu]: no component.  Machine words as
      [Z] with the wrap-around written out; memory as a map from addresses to bytes,
      with the [memset] and [memcpy] macros of system.h; the types and constants of the
      headers, a Module per header; the state [kernel], with a field per C file for its
      static variables, the statement monad [K], and port accesses with their history;
      the processor's walk through the page tables, and accesses that go through it.
    - [Screen] (screen.c): the VGA text console.  Every other part prints through it;
      the class [Prints] is what they rely on: printing always returns and changes
      the screen and the port history only.
    - [Pmm] (pmm.c): the bitmap allocator of page frames.
    - [Kheap] (kheap.c): the kernel heap on bytes of memory, and its abstract
      specification, a list of blocks with first fit and full coalescing.
    - [Paging] (paging.c, vmm.c): what fills the page tables that [Mmu] walks.  It is
      written against the interface [PageAllocator], whose laws are
      [PageAllocatorSpec]; [Pmm.alloc_frame] is an instance.
    - [Interrupts] (timer.c, idt.c, irq.c): descriptors, dispatch, the two
      controllers, the tick counter.
    - [Process] (process.c): the table of processes and the ready queue threaded
      through it; creation, fork, exit, waiting, sleeping, kill.
    - [Scheduler] (scheduler.c): the second scheduler, with its own ready and blocked
      queues through the same links.
    - [Cstring] (string.c): strings and blocks of memory.
    - [Device] (device.c): the registry of devices, the null, zero and console drivers.
    - [Syscall] (syscall.c): the table of system calls, its dispatcher, the ramdisk and
      [execve], descriptors.  It calls Process, Paging, Device and Cstring, and it is
      called through Interrupts, whose interface [SyscallEntry] it implements.
    - [Fs] (fs.c): mounts and open files; files come from Kheap, data goes to Syscall.
    - [Ata] (ata.c): probing, reading and writing disks by programmed I/O.
    - [Console] (console.c): the command loop, over Syscall, Device and Screen.
    - [Kernel] (kernel.c): [kernel_main], which starts all of them in order.
    - [Asm] (isr.h, isr.asm, switch.asm): the entry stubs of the interrupts and the
      context switch, instruction by instruction on the registers of the processor,
      with the stack in memory; the CLI, STI and spin-lock macros of system.h.
      [Switching]: the scheduler of scheduler.c with that switch under it.
    - [Boot] (boot/boot.asm): the multiboot header and [_start], which calls
      [kernel_main].
    - [Userland]: what a user program is, an interaction tree over system calls and
      accesses to its own memory, and how it runs on the kernel, by [int 0x80] or by
      direct calls of syscall.c.  [User] (user/init.c, shell.c, test.c): the programs;
      [UserTest]: the run of test.c.

    A C function [f] of a file is the definition [f] of its file here; a loop or a
    group of lines that has lemmas of its own is a definition beside it, and its
    comment says which lines it is.  A function returns [K A]: [Done] with a result
    and the next state, [Fault] where the C code has undefined behaviour or the
    processor an exception (a NULL or wild pointer, an array index out of range),
    [Spin] where a loop used up its fuel.

    ** What the theorems show

    - Memory.  The frame allocator hands out the lowest free frame and, along every
      sequence of calls of its clients, never one that is in use.  [kmalloc], [kfree]
      and [krealloc] refine the block list: results are aligned, inside the heap and
      disjoint, payloads are preserved, and freeing undoes allocating.  [map_page] and
      [unmap_page] change the translation of exactly one page; [init_paging] maps the
      low 4 MB and nothing else.  [Kernel.boot_memory_faults] composes them: the
      allocator and paging start with their invariants together, and the heap's first
      store, to an address that is not mapped, ends the start of the kernel in a page
      fault.  The theorems on the parts that use the heap are about a heap that is
      mapped and well formed, which this start does not reach.
    - Processes.  The queue of process.c runs its processes round-robin, [fork] copies
      the parent, and what becomes of sleeping and of doubly queued processes is
      stated as it is.  The queues of scheduler.c refine lists; its choice of the next
      process and its waking of the blocked ones are functions on these lists.
    - Calls.  The dispatcher runs exactly the 15 calls of the header's numbers; [execve]
      loads a program to fresh frames, through the page tables, maps its stack and
      changes nothing else; [dup] and
      [close], [open] and [close], [mount] and [umount] undo each other, errors
      included.
    - Input and output.  The console keeps its cursor on the page and the numbers it
      prints read back; the line readers of device.c and console.c equal reference
      line editors on every sequence of keys; disk transfers make exactly the
      port accesses of a command and whole sectors, each after a wait that finds the
      drive ready, and move their words between the buffer and the data port.
    - User programs.  A program does the same through the interrupt as by direct calls;
      init.c yields forever, shell.c shows every key twice, and the output of test.c is
      given character by character for every outcome of its calls.
    - Assembly.  The stubs build the frame that the C handlers expect and restore the
      interrupted code, and a process that switched away is resumed where it was; but
      the handlers are called without the address of that frame, a created process has
      no context to switch to, and scheduler.c does not switch to the process that
      [current_process] names, which it never moves.
    - Strings.  [strstr] finds the first occurrence, [strcmp] is the dictionary order,
      [memmove] copies as if through a buffer.
    - Time.  Timer interrupts are counted and acknowledged; [delay_ms] waits for the
      ticks that cover it.

    Where the code does not do what its comments or callers expect the theorem states
    what it does (for instance [Process.double_enqueue_hangs], [Ata.probe_records],
    [Ata.init_ata_hangs], [Fs.high_descriptors_dead], [Scheduler.yield_twice_corrupts],
    [Asm.irq_line_lost], [Asm.first_switch_wild]).  [Interrupts] and [Userland] give the
    C handlers the frame the stubs build, as the code intends; [Asm] shows what the
    missing argument makes of that.

    ** Bounds and fuel

    Loops that a count bounds are [Fixpoint]s on it or folds over a range.  Walks over
    linked structures take fuel, one unit per node: the theorems ask for more than the
    length of the list, and then the walk returns.  String functions take more fuel
    than the string has characters, key readers a unit per key.  A busy wait on a
    device takes a unit per read of its status; [Ata.settles] says that the device
    needs no more.  Nested interrupts of [Syscall.syscall_entry] take a depth.  Endless
    loops ([console_process], [kernel_main]) are proved never to return, whatever the
    fuel.  A user program is run for a number of steps, one per call or memory access:
    [Userland.ends] says that some number is enough for its end, [Userland.runs_forever]
    that none is.

    ** Parameters, and what is not modelled

    What stands behind the ports is the class [Hardware], a function of the history of
    accesses.  Functions that the sources call and no file defines are parameters with
    the laws the callers need: [Ata.WordPorts] (inw, outw), [Kernel.BootEnv],
    [Scheduler.SchedEnv] (init_process, switch_process, update_ticks), the page mapper
    of [init_kheap], [Syscall.StatLayout], [Device.Drivers] (drivers of others),
    [Console.ConsoleFrame] and [User.UserFrame] (addresses of locals and literals),
    [Asm.CallAbi] (what a C function leaves in the scratch registers) and
    [Asm.TableAt] (where the linker puts the process table).  Two files define
    [add_to_ready_queue] and [init_scheduler]: [Kernel.Scheduling] has both.

    Structures that the code reaches only through typed pointers (processes, devices,
    files, mounts) are maps or lists of records, not bytes.  Memory is physical memory,
    read and written at the addresses of the code: the kernel and its data lie in the
    low 4 MB, which are mapped to themselves, and the heap, and the memory of the
    programs of [Userland], are addressed by their linear addresses (the heap's are
    above all frames of a machine with less than 3 GB).  The walk of the page tables is applied where the code
    leaves what it knows to be mapped, at the first headers of the heap
    ([Kheap.init_block]) and at the copying of a program ([Syscall.load_pages]); the
    directory in CR3 is taken to be page aligned; there is no TLB, and the accesses after
    the switch of CR3 in switch.asm are those of the addresses as they are.  Except in [Asm] the interrupt flag is
    not part of the state, and C code runs without being interrupted, save where a
    function waits for an interrupt.  The scheduler's call of [switch_process] is a
    parameter of [Scheduler], since C code does not see the registers;
    [Switching.asm_switch] is its instance from [Asm].  Not modelled: declarations of the headers that no code uses
    (console.h, inodes and directory entries of fs.h) and the build files. *)

From Stdlib Require Export ZArith Lia.
From stdpp Require Export base numbers list gmap strings option.

#[global] Open Scope Z_scope.

(** ** Machine words

    A C integer of width [w] is a [Z] that is reduced where the C code
    reduces it: [u8], [u16], [u32] are the conversions to the unsigned types
    of [include/system.h], [s8] and [s32] the conversions to [char] (signed on
    i386) and [int]. *)

Definition u8 (x : Z) : Z := x mod 256.
Definition u16 (x : Z) : Z := x mod 65536.
Definition u32 (x : Z) : Z := x mod 4294967296.
Definition s8 (x : Z) : Z := (x + 128) mod 256 - 128.
Definition s32 (x : Z) : Z := (x + 2147483648) mod 4294967296 - 2147483648.

Create HintDb word discriminated.
Create Rewrite HintDb word_simpl.

Lemma u8_range x : 0 ≤ u8 x < 256.
Proof. apply Z.mod_pos_bound; lia. Qed.

Lemma u16_range x : 0 ≤ u16 x < 65536.
Proof. apply Z.mod_pos_bound; lia. Qed.

Lemma u32_range x : 0 ≤ u32 x < 4294967296.
Proof. apply Z.mod_pos_bound; lia. Qed.

Lemma u8_small x : 0 ≤ x < 256 → u8 x = x.
Proof. apply Z.mod_small. Qed.

Lemma u16_small x : 0 ≤ x < 65536 → u16 x = x.
Proof. apply Z.mod_small. Qed.

Lemma u32_small x : 0 ≤ x < 4294967296 → u32 x = x.
Proof. apply Z.mod_small. Qed.

Lemma u8_idemp x : u8 (u8 x) = u8 x.
Proof. apply u8_small, u8_range. Qed.

Lemma u32_idemp x : u32 (u32 x) = u32 x.
Proof. apply u32_small, u32_range. Qed.

Lemma s32_small x : -2147483648 ≤ x < 2147483648 → s32 x = x.
Proof. intros. unfold s32. rewrite Z.mod_small; lia. Qed.

Lemma s8_small x : -128 ≤ x < 128 → s8 x = x.
Proof. intros. unfold s8. rewrite Z.mod_small; lia. Qed.

(** Conversions between [int] and [uint32_t] keep the bits. *)
Lemma s32_u32 x : s32 (u32 x) = s32 x.
Proof. unfold s32, u32. by rewrite Zplus_mod_idemp_l. Qed.

Lemma u32_s32 x : u32 (s32 x) = u32 x.
Proof. unfold s32, u32. rewrite Zminus_mod_idemp_l. f_equal. lia. Qed.

Lemma s32_idemp x : s32 (s32 x) = s32 x.
Proof. by rewrite <- (s32_u32 (s32 x)), u32_s32, s32_u32. Qed.

Lemma u32_add_l x y : u32 (u32 x + y) = u32 (x + y).
Proof. unfold u32. apply Zplus_mod_idemp_l. Qed.

Lemma u32_add_r x y : u32 (x + u32 y) = u32 (x + y).
Proof. unfold u32. apply Zplus_mod_idemp_r. Qed.

Lemma u32_sub_l x y : u32 (u32 x - y) = u32 (x - y).
Proof. unfold u32. apply Zminus_mod_idemp_l. Qed.

Lemma u32_sub_r x y : u32 (x - u32 y) = u32 (x - y).
Proof. unfold u32. apply Zminus_mod_idemp_r. Qed.

Lemma u32_sub_eq a b c : u32 a = u32 b → u32 (a - c) = u32 (b - c).
Proof. intros H. by rewrite <- (u32_sub_l a), H, u32_sub_l. Qed.

#[export] Hint Resolve u8_range u16_range u32_range : word.
#[export] Hint Rewrite u8_idemp u32_idemp u32_add_l u32_add_r u32_sub_l u32_sub_r
  : word_simpl.

(** [word_small] removes every conversion whose argument is in range;
    [word_lia] also gives [lia] the range of the conversions that remain. *)
Ltac word_small :=
  repeat first
    [ rewrite (u8_small _) by lia | rewrite (u16_small _) by lia
    | rewrite (u32_small _) by lia | rewrite (s32_small _) by lia
    | rewrite (s8_small _) by lia ].

Ltac word_ranges :=
  repeat match goal with
  | |- context [u8 ?x] => lazymatch goal with H : 0 ≤ u8 x < 256 |- _ => fail | _ => pose proof (u8_range x) end
  | |- context [u16 ?x] => lazymatch goal with H : 0 ≤ u16 x < 65536 |- _ => fail | _ => pose proof (u16_range x) end
  | |- context [u32 ?x] => lazymatch goal with H : 0 ≤ u32 x < 4294967296 |- _ => fail | _ => pose proof (u32_range x) end
  end.

Ltac word_lia := word_ranges; autorewrite with word_simpl in *; word_small; lia.

(** [dlia] is [lia] with the defining equations of [/] and [mod]. *)
Ltac dlia := Z.to_euclidean_division_equations; lia.

(** [zcases] splits on the Boolean integer comparisons of a goal, leaving the
    corresponding propositions in the context. *)
Ltac zcase_one :=
  match goal with
  | |- context [?a <? ?b] => destruct (Z.ltb_spec a b)
  | |- context [?a <=? ?b] => destruct (Z.leb_spec a b)
  | |- context [?a =? ?b] => destruct (Z.eqb_spec a b)
  end.

Ltac zcases := repeat (zcase_one; try lia; cbn [negb andb orb]).

(** ** Bits *)

Lemma land_shiftl_1 a n :
  0 ≤ n → Z.land a (Z.shiftl 1 n) = if Z.testbit a n then Z.shiftl 1 n else 0.
Proof.
  intros Hn. apply Z.bits_inj'. intros k Hk.
  rewrite Z.land_spec, Z.shiftl_1_l, Z.pow2_bits_eqb by done.
  destruct (Z.eqb_spec n k) as [->|Hne].
  - destruct (Z.testbit a k); cbn;
      [by rewrite Z.pow2_bits_true | by rewrite Z.bits_0].
  - rewrite andb_false_r. destruct (Z.testbit a n);
      [by rewrite Z.pow2_bits_false | by rewrite Z.bits_0].
Qed.

Lemma land_shiftl_1_eqb a n :
  0 ≤ n → (Z.land a (Z.shiftl 1 n) =? 0) = negb (Z.testbit a n).
Proof.
  intros Hn. rewrite land_shiftl_1 by done.
  destruct (Z.testbit a n); cbn; [|done].
  rewrite Z.shiftl_1_l. apply Z.eqb_neq.
  pose proof (Z.pow_pos_nonneg 2 n). lia.
Qed.

Lemma testbit_u32 x n : 0 ≤ n < 32 → Z.testbit (u32 x) n = Z.testbit x n.
Proof.
  intros. unfold u32. change 4294967296 with (2 ^ 32).
  apply Z.mod_pow2_bits_low. lia.
Qed.

Lemma testbit_lor_shiftl_1 a n k :
  0 ≤ n → 0 ≤ k →
  Z.testbit (Z.lor a (Z.shiftl 1 n)) k = Z.testbit a k || (n =? k).
Proof.
  intros. rewrite Z.lor_spec, Z.shiftl_1_l, Z.pow2_bits_eqb by done. done.
Qed.

Lemma testbit_ldiff_shiftl_1 a n k :
  0 ≤ n → 0 ≤ k →
  Z.testbit (Z.land a (Z.lnot (Z.shiftl 1 n))) k = Z.testbit a k && negb (n =? k).
Proof.
  intros. rewrite Z.land_spec, Z.lnot_spec, Z.shiftl_1_l, Z.pow2_bits_eqb by done. done.
Qed.

(** ** Counted loops

    [for_range lo n body s] is [for (i = lo; i < lo + n; i++) body] on the
    state [s]. *)

Definition for_range {S : Type} (lo n : Z) (body : Z → S → S) (s : S) : S :=
  fold_left (λ s i, body i s) (seqZ lo n) s.

Lemma for_range_ind {S : Type} (P : Z → S → Prop) lo n body s :
  0 ≤ n → P lo s →
  (∀ i s, lo ≤ i < lo + n → P i s → P (i + 1) (body i s)) →
  P (lo + n) (for_range lo n body s).
Proof.
  intros Hn Hs Hstep. unfold for_range.
  rewrite <- (Z2Nat.id n) in * by done.
  revert lo s Hs Hstep. induction (Z.to_nat n) as [|m IH]; intros lo s Hs Hstep.
  - rewrite seqZ_nil by lia. cbn. by replace (lo + Z.of_nat 0) with lo by lia.
  - rewrite seqZ_cons by lia. cbn [fold_left].
    replace (Z.pred (Z.of_nat (Datatypes.S m))) with (Z.of_nat m) by lia.
    replace (lo + Z.of_nat (Datatypes.S m)) with (Z.succ lo + Z.of_nat m) by lia.
    apply IH; [lia| |].
    + apply Hstep; [lia|done].
    + intros i s' ??. apply Hstep; [lia|done].
Qed.

Lemma for_range_S {S : Type} lo n (body : Z → S → S) s :
  0 ≤ n → for_range lo (n + 1) body s = body (lo + n) (for_range lo n body s).
Proof.
  intros. unfold for_range. rewrite seqZ_app by lia.
  rewrite fold_left_app. change (seqZ (lo + n) 1) with [lo + n]. done.
Qed.

(** The same for an invariant that does not mention the index. *)
Lemma for_range_inv {S : Type} (P : S → Prop) lo n body s :
  P s → (∀ i s, lo ≤ i < lo + n → P s → P (body i s)) → P (for_range lo n body s).
Proof.
  intros Hs Hstep. destruct (Z.le_gt_cases 0 n).
  - apply (for_range_ind (λ _, P)); auto.
  - unfold for_range. by rewrite seqZ_nil by lia.
Qed.

(** ** Finite sets *)

Lemma gset_size_pos (s : gset Z) i : i ∈ s → (0 < size s)%nat.
Proof.
  intros Hi. destruct (decide (size s = 0%nat)) as [E%size_empty_inv|]; [|lia].
  apply E in Hi. by apply not_elem_of_empty in Hi.
Qed.
