(* ===== verification/Memory.v ===== *)
(** * Byte-addressed memory

    The 32-bit address space the kernel's C code reads and writes, as a finite
    map from addresses to bytes (an address that was never written reads 0).
    Pointers are integers and pointer arithmetic wraps modulo 2^32.  Multi-byte
    accesses are little-endian, as on the i386.  [memset] and [memcpy] are the
    macros of [include/system.h], lines 37-47. *)

From S2P Require Import Prelude.

Abbreviation mem := (gmap Z Z).

Definition ld8 (m : mem) (a : Z) : Z := default 0 (m !! u32 a).
Definition st8 (m : mem) (a v : Z) : mem := <[u32 a := u8 v]> m.

Definition ld32 (m : mem) (a : Z) : Z :=
  ld8 m a + 256 * ld8 m (a + 1) + 65536 * ld8 m (a + 2) + 16777216 * ld8 m (a + 3).
Definition st32 (m : mem) (a v : Z) : mem :=
  st8 (st8 (st8 (st8 m a v) (a + 1) (v / 256)) (a + 2) (v / 65536)) (a + 3) (v / 16777216).

(** [memset(dest, val, len)] *)
Definition memset (m : mem) (dest val len : Z) : mem :=
  for_range 0 len (λ i m, st8 m (dest + i) val) m.

(** [memcpy(dest, src, len)] *)
Definition memcpy (m : mem) (dest src len : Z) : mem :=
  for_range 0 len (λ i m, st8 m (dest + i) (ld8 m (src + i))) m.

(** ** Loads over stores *)

(** A run of [n] bytes at [a] that does not wrap around the address space. *)
Definition in_space (a n : Z) : Prop := 0 ≤ a ∧ a + n ≤ 4294967296.

Lemma ld8_st8_eq m a v : ld8 (st8 m a v) a = u8 v.
Proof. unfold ld8, st8. by rewrite lookup_insert_eq. Qed.

Lemma ld8_st8_ne m a b v : u32 a ≠ u32 b → ld8 (st8 m a v) b = ld8 m b.
Proof. intros. unfold ld8, st8. by rewrite lookup_insert_ne. Qed.

Lemma ld8_st8 m a b v :
  in_space a 1 → in_space b 1 →
  ld8 (st8 m a v) b = if a =? b then u8 v else ld8 m b.
Proof.
  unfold in_space. intros. destruct (Z.eqb_spec a b) as [->|].
  - apply ld8_st8_eq.
  - apply ld8_st8_ne. word_small. lia.
Qed.

Lemma ld8_u32 m a : ld8 m (u32 a) = ld8 m a.
Proof. unfold ld8. by rewrite u32_idemp. Qed.

Lemma st32_bytes v :
  u8 v + 256 * u8 (v / 256) + 65536 * u8 (v / 65536) + 16777216 * u8 (v / 16777216) = u32 v.
Proof.
  unfold u8, u32.
  replace (v / 65536) with (v / 256 / 256) by (by rewrite Z.div_div by lia).
  replace (v / 16777216) with (v / 256 / 256 / 256) by (by rewrite !Z.div_div by lia).
  change 4294967296 with (256 * (256 * (256 * 256))).
  rewrite !Z.rem_mul_r by lia. lia.
Qed.

Lemma ld32_st32_eq m a v : in_space a 4 → ld32 (st32 m a v) a = u32 v.
Proof.
  unfold in_space. intros. unfold ld32, st32.
  rewrite !ld8_st8 by (unfold in_space; lia).
  rewrite !Z.eqb_refl. zcases. apply st32_bytes.
Qed.

Lemma ld8_st32_ne m a b v :
  in_space a 4 → in_space b 1 → b + 1 ≤ a ∨ a + 4 ≤ b →
  ld8 (st32 m a v) b = ld8 m b.
Proof.
  unfold in_space. intros. unfold st32.
  rewrite !ld8_st8 by (unfold in_space; lia). zcases.
Qed.

Lemma ld32_st32_ne m a b v :
  in_space a 4 → in_space b 4 → b + 4 ≤ a ∨ a + 4 ≤ b →
  ld32 (st32 m a v) b = ld32 m b.
Proof.
  unfold in_space. intros. unfold ld32.
  rewrite !ld8_st32_ne by (unfold in_space; lia). done.
Qed.

Lemma ld32_st8_ne m a b v :
  in_space a 1 → in_space b 4 → b + 4 ≤ a ∨ a + 1 ≤ b →
  ld32 (st8 m a v) b = ld32 m b.
Proof.
  unfold in_space. intros. unfold ld32.
  rewrite !ld8_st8 by (unfold in_space; lia). zcases.
Qed.

Lemma ld32_ext m1 m2 a :
  (∀ i, a ≤ i < a + 4 → ld8 m1 i = ld8 m2 i) → ld32 m1 a = ld32 m2 a.
Proof. intros H. unfold ld32. rewrite !H by lia. done. Qed.

Create Rewrite HintDb mem_simpl.

(** [mem_simpl] reads through stores, deciding overlap with [lia]. *)
Ltac mem_side := unfold in_space in *; lia.
Ltac mem_simpl :=
  repeat first
    [ rewrite ld32_st32_eq by mem_side | rewrite ld8_st8_eq
    | rewrite ld32_st32_ne by mem_side | rewrite ld8_st32_ne by mem_side
    | rewrite ld32_st8_ne by mem_side
    | rewrite ld8_st8_ne by (rewrite !u32_small by mem_side; mem_side) ].

(** Every byte and word that is loaded is in range when the memory holds
    bytes, which stores preserve. *)
Definition mem_wf (m : mem) : Prop := ∀ a, 0 ≤ ld8 m a < 256.

Lemma mem_wf_empty : mem_wf ∅.
Proof. intros a. unfold ld8. by rewrite lookup_empty. Qed.

Lemma mem_wf_st8 m a v : mem_wf m → mem_wf (st8 m a v).
Proof.
  intros H b. destruct (decide (u32 a = u32 b)) as [E|E].
  - unfold ld8, st8. rewrite E, lookup_insert_eq. cbn. apply u8_range.
  - rewrite ld8_st8_ne by done. apply H.
Qed.

Lemma mem_wf_st32 m a v : mem_wf m → mem_wf (st32 m a v).
Proof. intros. unfold st32. by do 4 apply mem_wf_st8. Qed.

Lemma ld32_range m a : mem_wf m → 0 ≤ ld32 m a < 4294967296.
Proof.
  intros H. unfold ld32.
  pose proof (H a). pose proof (H (a + 1)). pose proof (H (a + 2)). pose proof (H (a + 3)). lia.
Qed.

(** ** The copying macros *)

Lemma memset_ld8 m dest val len a :
  0 ≤ len → in_space dest len → in_space a 1 →
  ld8 (memset m dest val len) a =
    if (dest <=? a) && (a <? dest + len) then u8 val else ld8 m a.
Proof.
  intros Hlen Hd Ha. unfold memset.
  pose (P := λ i m', ld8 m' a = if (dest <=? a) && (a <? dest + i) then u8 val else ld8 m a).
  assert (P (0 + len) (for_range 0 len (λ i m, st8 m (dest + i) val) m)) as H; [|exact H].
  apply for_range_ind; [done| |]; unfold P.
  - zcases; done.
  - intros i m' Hi IH. unfold in_space in *. rewrite ld8_st8 by mem_side. rewrite IH.
    zcases; done.
Qed.

(** A forward byte copy yields the old source bytes when the destination does
    not start inside the source. *)
Lemma memcpy_ld8 m dest src len a :
  0 ≤ len → in_space dest len → in_space src len → in_space a 1 →
  dest ≤ src ∨ src + len ≤ dest → mem_wf m →
  ld8 (memcpy m dest src len) a =
    if (dest <=? a) && (a <? dest + len) then ld8 m (src + (a - dest)) else ld8 m a.
Proof.
  intros Hlen Hd Hs Ha Hov Hwf. unfold memcpy.
  pose (P := λ i m', ∀ a, in_space a 1 → ld8 m' a =
    if (dest <=? a) && (a <? dest + i) then ld8 m (src + (a - dest)) else ld8 m a).
  assert (P (0 + len)
    (for_range 0 len (λ i m, st8 m (dest + i) (ld8 m (src + i))) m)) as H; [|by apply H].
  apply for_range_ind; [done| |]; unfold P.
  - intros b Hb. zcases; done.
  - intros i m' Hi IH b Hb. unfold in_space in *.
    rewrite ld8_st8 by mem_side. rewrite (IH (src + i)) by lia. rewrite IH by lia.
    zcases; try done.
    all: rewrite u8_small by apply Hwf; f_equal; lia.
Qed.

Lemma memset_wf m dest val len : mem_wf m → mem_wf (memset m dest val len).
Proof. intros H. apply (for_range_inv mem_wf); [done|]. intros. by apply mem_wf_st8. Qed.

Lemma memcpy_wf m dest src len : mem_wf m → mem_wf (memcpy m dest src len).
Proof. intros H. apply (for_range_inv mem_wf); [done|]. intros. by apply mem_wf_st8. Qed.

#[export] Hint Resolve mem_wf_st8 mem_wf_st32 memset_wf memcpy_wf mem_wf_empty : word.
