(* ===== verification/Types.v ===== *)
(** * Data types of the kernel headers

    The structures, enumerations and constants of [include/*.h] and the static
    data of the [kernel/*.c] files, one Module per header or source file.
    [pmm_manager_t], [pmm_info_t], [heap_t] and [registers_t] are used by the
    sources but declared in no header: their fields are those the code reads
    and writes.  A [char] buffer that only holds a C string is the [list Z] of
    the bytes before its NUL; a pointer is an integer with NULL = 0, except
    pointers into the static [process_table], which are [option nat] indices. *)

From S2P Require Import Prelude Memory.

(** The bytes of a string literal, without the terminating NUL. *)
Definition cstr (s : string) : list Z :=
  (λ a, Z.of_nat (Ascii.nat_of_ascii a)) <$> String.list_ascii_of_string s.

#[global] Arguments cstr : simpl never.

Definition NULL : Z := 0.

(** ** include/screen.h *)
Module ScreenH.

Definition VGA_WIDTH : Z := 80.
Definition VGA_HEIGHT : Z := 25.
Definition VGA_MEMORY : Z := 0xB8000.

Definition COLOR_BLACK : Z := 0.
Definition COLOR_RED : Z := 4.
Definition COLOR_LIGHT_GREY : Z := 7.
Definition COLOR_LIGHT_GREEN : Z := 10.
Definition COLOR_LIGHT_CYAN : Z := 11.
Definition COLOR_LIGHT_RED : Z := 12.
Definition COLOR_LIGHT_BROWN : Z := 14.
(** [COLOR_YELLOW], which several files use, is not declared by the header;
    it is read as the VGA yellow, the header's [COLOR_LIGHT_BROWN]. *)
Definition COLOR_YELLOW : Z := COLOR_LIGHT_BROWN.

(** [buffer] maps a cell index (from VGA_MEMORY, in 16-bit units) to the
    cell; it is not bounded, a stray write lands in the map. *)
Record screen_t := mk_screen {
  buffer : gmap Z Z;
  color : Z;
  cursor_x : Z;
  cursor_y : Z
}.

End ScreenH.

(** ** kernel/pmm.c *)
Module PmmH.

Definition PAGE_SIZE : Z := 4096.

(** [bitmap] is the array of 32-bit words at 2 MB, by word index. *)
Record pmm_manager_t := mk_pmm {
  total_memory : Z;
  total_pages : Z;
  free_pages : Z;
  bitmap : gmap Z Z;
  initialized : bool
}.

Record pmm_info_t := mk_pmm_info {
  info_total_memory : Z;
  info_total_pages : Z;
  info_free_pages : Z;
  info_used_pages : Z
}.

End PmmH.

(** ** kernel/kheap.c *)
Module KheapH.

Record heap_t := mk_heap { heap_start : Z; heap_size : Z; heap_used : Z }.

(** [block_header_t] as it lies in memory: [size] at offset 0, [is_free]
    (one byte, three of padding) at 4, [next] at 8, [prev] at 12. *)
Definition sizeof_block_header : Z := 16.
Definition off_size : Z := 0.
Definition off_is_free : Z := 4.
Definition off_next : Z := 8.
Definition off_prev : Z := 12.

End KheapH.

(** ** include/paging.h and kernel/paging.c *)
Module PagingH.

Definition PAGE_PRESENT : Z := 0x01.
Definition PAGE_WRITE : Z := 0x02.
Definition PAGE_USER : Z := 0x04.
(** [PAGE_RW], used by the sources and declared nowhere, is read as the
    header's write flag. *)
Definition PAGE_RW : Z := PAGE_WRITE.

(** The bit-fields the code reads or writes; the others keep their value 0. *)
Record page_dir_entry_t := mk_pde {
  pd_present : Z; pd_rw : Z; pd_user : Z; pd_frame : Z }.
Record page_table_entry_t := mk_pte {
  pt_present : Z; pt_rw : Z; pt_user : Z; pt_frame : Z }.

Definition pde_zero : page_dir_entry_t := mk_pde 0 0 0 0.
Definition pte_zero : page_table_entry_t := mk_pte 0 0 0 0.

(** [page_directory_t] as [paging.c] uses it, with the [tables] array of
    table pointers that the header's declaration lacks. *)
Record page_directory_t := mk_pd {
  entries : gmap Z page_dir_entry_t;
  tables : gmap Z Z }.

Abbreviation page_table_t := (gmap Z page_table_entry_t).

(** A [page_directory_t *]: NULL, the static [kernel_page_dir], whose address
    the linker chooses, or a directory at some other address. *)
Inductive pd_ptr := pd_null | pd_kernel | pd_at (a : Z).

#[export] Instance pd_ptr_eq_dec : EqDecision pd_ptr.
Proof. solve_decision. Defined.

(** The directories, the page tables by address, [current_page_dir] and the
    control registers. *)
Record paging_state := mk_paging {
  kernel_page_dir : page_directory_t;
  other_dirs : gmap Z page_directory_t;
  ptables : gmap Z page_table_t;
  current_page_dir : pd_ptr;
  cr3 : pd_ptr;
  cr0 : Z }.

End PagingH.

(** ** include/process.h, kernel/process.c and kernel/scheduler.c *)
Module ProcessH.

Inductive process_state_t :=
  PROCESS_NEW | PROCESS_READY | PROCESS_RUNNING | PROCESS_BLOCKED | PROCESS_TERMINATED.

#[export] Instance process_state_eq_dec : EqDecision process_state_t.
Proof. solve_decision. Defined.

Definition MAX_PROCESSES : Z := 64.
Definition MAX_PROCESS_NAME : Z := 32.
Definition MAX_FD : Z := 16.

(** [process_control_block].  [priority] and [wakeup_time] are fields
    [scheduler.c] accesses and the header does not declare. *)
Record pcb_t := mk_pcb {
  kernel_esp : Z; eflags : Z; page_dir_phys : Z;
  pid : Z; name : list Z; state : process_state_t;
  eax : Z; ebx : Z; ecx : Z; edx : Z; esi : Z; edi : Z; ebp : Z; esp : Z; eip : Z;
  cs : Z; ds : Z; es : Z; fs : Z; gs : Z; ss : Z;
  page_dir : PagingH.pd_ptr; brk : Z; fd : list Z;
  parent : option nat; children : option nat; sibling : option nat; next : option nat;
  time_slice : Z; sleep_until : Z; exit_code : Z;
  priority : Z; wakeup_time : Z }.

(** What [memset(p, 0, sizeof( pcb_t ))] leaves. *)
Definition pcb_zero : pcb_t :=
  mk_pcb 0 0 0 0 [] PROCESS_NEW 0 0 0 0 0 0 0 0 0 0 0 0 0 0 0
    PagingH.pd_null 0 (replicate 16 0) None None None None 0 0 0 0 0.

(** The static data of [process.c]. *)
Record proc_state := mk_proc {
  process_table : list pcb_t;
  current_process : option nat;
  next_pid : Z;
  ready_queue : option nat }.

(** The static data of [scheduler.c]. *)
Record sched_state := mk_sched {
  s_ready_queue : option nat;
  s_ready_queue_tail : option nat;
  s_blocked_queue : option nat;
  s_tick_count : Z }.

End ProcessH.

(** ** kernel/timer.c and kernel/idt.c *)
Module InterruptH.

Record timer_state := mk_timer {
  tick_count : Z; frequency : Z; ms_per_tick : Z }.

(** The interrupt handlers the sources can register. *)
Inductive isr_t := isr_timer_callback | isr_syscall_handler.

Record idt_entry_t := mk_idt_entry {
  base_low : Z; selector : Z; zero : Z; flags : Z; base_high : Z }.

Record idt_state := mk_idt {
  idt : gmap Z idt_entry_t;
  idtp_limit : Z;
  idtp_base : Z;
  interrupt_handlers : gmap Z isr_t }.

(** The saved-register frame the assembly stubs build. *)
Record registers_t := mk_regs {
  r_ds : Z; r_edi : Z; r_esi : Z; r_ebp : Z; r_esp : Z; r_ebx : Z; r_edx : Z;
  r_ecx : Z; r_eax : Z; r_int_no : Z; r_err_code : Z; r_eip : Z; r_cs : Z; r_eflags : Z }.

End InterruptH.

(** ** include/device.h *)
Module DeviceH.

Definition DEV_UNKNOWN : Z := 0.
Definition DEV_CHAR : Z := 1.
Definition DEV_BLOCK : Z := 2.
Definition DEV_NET : Z := 3.
Definition DEV_READABLE : Z := 0x01.
Definition DEV_WRITABLE : Z := 0x02.
Definition DEV_SEEKABLE : Z := 0x04.
Definition DEV_NONBLOCK : Z := 0x08.
Definition DEV_CONSOLE : list Z := cstr "console".
Definition DEV_NULL : list Z := cstr "null".
Definition DEV_ZERO : list Z := cstr "zero".

(** The driver functions of [device.c], and those of drivers outside it. *)
Inductive dev_fn :=
| fn_null_init | fn_null_read | fn_null_write
| fn_zero_read | fn_zero_write
| fn_console_read | fn_console_write
| fn_driver (id : Z).

Record device_ops_t := mk_ops {
  op_init : option dev_fn;
  op_read : option dev_fn;
  op_write : option dev_fn;
  op_seek : option dev_fn;
  op_ioctl : option dev_fn;
  op_poll : option dev_fn;
  op_close : option dev_fn }.

(** [ops] is a pointer to a static table, [None] when NULL; [next] the
    address of the next device of [device_list]. *)
Record device_t := mk_device {
  dev_name : list Z;
  dev_type : Z;
  dev_flags : Z;
  dev_size : Z;
  private_data : Z;
  ops : option device_ops_t;
  dev_next : Z }.

Record device_state := mk_device_state {
  devices : gmap Z device_t;
  device_list : Z }.

End DeviceH.

(** ** include/fs.h *)
Module FsH.

Definition FS_MAGIC : Z := 0xDEADBEEF.
Definition BLOCK_SIZE : Z := 512.
Definition MAX_FILES : Z := 1024.
Definition sizeof_file : Z := 24.
Definition sizeof_mounted_fs : Z := 304.
Definition sizeof_superblock : Z := 68.

Record superblock_t := mk_sb {
  magic : Z; block_size : Z; blocks_count : Z; free_blocks : Z;
  inodes_count : Z; free_inodes : Z; first_data_block : Z;
  inode_table_block : Z; root_inode : Z; volume_name : list Z }.

Record file_t := mk_file { inode : Z; f_mode : Z; pos : Z; f_flags : Z }.

Record mounted_fs_t := mk_mounted {
  mnt_device : list Z; mountpoint : list Z; sb : Z; mnt_next : Z }.

(** Open files, superblocks and mounts by address; [open_files] holds the
    non-NULL entries of the descriptor table. *)
Record fs_state := mk_fs {
  files : gmap Z file_t;
  superblocks : gmap Z superblock_t;
  mounts : gmap Z mounted_fs_t;
  mounted_fs_list : Z;
  open_files : gmap Z Z }.

End FsH.

(** ** include/ata.h *)
Module AtaH.

Definition ATA_DATA : Z := 0x1F0.
Definition ATA_SECTOR_COUNT : Z := 0x1F2.
Definition ATA_SECTOR_NUM : Z := 0x1F3.
Definition ATA_CYL_LOW : Z := 0x1F4.
Definition ATA_CYL_HIGH : Z := 0x1F5.
Definition ATA_DRIVE_HEAD : Z := 0x1F6.
Definition ATA_STATUS : Z := 0x1F7.
Definition ATA_COMMAND : Z := 0x1F7.
Definition ATA_ALT_STATUS : Z := 0x3F6.
Definition ATA_SR_BSY : Z := 0x80.
Definition ATA_SR_DRDY : Z := 0x40.
Definition ATA_SR_DF : Z := 0x20.
Definition ATA_SR_DRQ : Z := 0x08.
Definition ATA_SR_ERR : Z := 0x01.
Definition ATA_CMD_READ_PIO : Z := 0x20.
Definition ATA_CMD_WRITE_PIO : Z := 0x30.
Definition ATA_CMD_CACHE_FLUSH : Z := 0xE7.
Definition ATA_CMD_IDENTIFY : Z := 0xEC.
Definition ATA_ATA : Z := 0.

(** Byte offsets of the packed [ata_identify_t], and its size. *)
Definition off_cylinders : Z := 2.
Definition off_heads : Z := 6.
Definition off_sectors : Z := 12.
Definition off_serial : Z := 20.
Definition off_firmware : Z := 44.
Definition off_model : Z := 52.
Definition off_total_sectors : Z := 102.
Definition sizeof_ata_identify : Z := 494.

(** Byte offsets of [ata_device_t] as the i386 lays it out, and its size: the
    packed [identify] follows the 41 bytes of [model] directly, and a byte of
    padding follows it. *)
Definition dev_present : Z := 0.
Definition dev_type : Z := 1.
Definition dev_channel : Z := 2.
Definition dev_drive : Z := 3.
Definition dev_size : Z := 12.
Definition dev_model : Z := 16.
Definition dev_identify : Z := 57.
Definition sizeof_ata_device : Z := 552.

Record ata_channel_t := mk_channel { base : Z; ctrl : Z; bmide : Z; nIEN : Z }.

(** [devices] is the memory of the four devices: writes to a member that run over
    its end reach the next ones. *)
Record ata_state := mk_ata_state {
  channels : list ata_channel_t;
  devices : gmap Z Z;
  ata_initialized : bool }.

End AtaH.

(** ** include/syscall.h *)
Module SyscallH.

Definition MAX_SYSCALLS : Z := 32.
Definition SYS_EXIT : Z := 0.
Definition SYS_FORK : Z := 1.
Definition SYS_READ : Z := 2.
Definition SYS_WRITE : Z := 3.
Definition SYS_OPEN : Z := 4.
Definition SYS_CLOSE : Z := 5.
Definition SYS_EXECVE : Z := 6.
Definition SYS_WAITPID : Z := 7.
Definition SYS_BRK : Z := 8.
Definition SYS_GETPID : Z := 9.
Definition SYS_SLEEP : Z := 10.
Definition SYS_GETTIME : Z := 11.
Definition SYS_YIELD : Z := 12.
Definition SYS_SBRK : Z := 13.
Definition SYS_KILL : Z := 14.

(** The functions of [syscall.c] that the table points to. *)
Inductive syscall_t :=
| h_sys_exit | h_sys_fork | h_sys_read | h_sys_write | h_sys_open | h_sys_close
| h_sys_execve | h_sys_waitpid | h_sys_brk | h_sys_getpid | h_sys_sleep
| h_sys_gettime | h_sys_yield | h_sys_sbrk | h_sys_kill.

Record syscall_info_t := mk_syscall_info {
  num : Z; sys_name : list Z; handler : option syscall_t }.

Record ramdisk_entry := mk_ramdisk {
  rd_name : option (list Z); rd_data : Z; rd_size : Z }.

Record syscall_state := mk_syscall_state {
  syscall_table : list syscall_info_t;
  syscall_count : Z;
  ramdisk : list ramdisk_entry }.

End SyscallH.
