(* ===== verification/Machine.v ===== *)
(** * The machine: global state, port I/O and the statement monad

    The kernel's C files keep their state in static variables.  [kernel]
    gathers them, one field per source file, with the memory and the history
    of port accesses.  A C function is a [K A]: from a kernel state it is
    [Done] with a result and a new state, [Fault]s (undefined behaviour or a
    CPU exception), or [Spin]s (a loop that exhausted its fuel).

    The devices behind the ports are not part of the sources: [Hardware] gives
    the value a port returns as a function of the whole history of port
    accesses, so that a register may answer differently every time. *)

From S2P Require Import Prelude Memory Types.

Inductive io_event :=
| Out8 (port val : Z)
| Out16 (port val : Z)
| In8 (port val : Z)
| In16 (port val : Z).

Class Hardware := {
  hw_in8 : list io_event → Z → Z;
  hw_in16 : list io_event → Z → Z }.

Record kernel := Kernel {
  k_io : list io_event;
  k_mem : mem;
  k_screen : ScreenH.screen_t;
  k_pmm : PmmH.pmm_manager_t;
  k_heap : KheapH.heap_t;
  k_paging : PagingH.paging_state;
  k_proc : ProcessH.proc_state;
  k_sched : ProcessH.sched_state;
  k_timer : InterruptH.timer_state;
  k_idt : InterruptH.idt_state;
  k_dev : DeviceH.device_state;
  k_fs : FsH.fs_state;
  k_ata : AtaH.ata_state;
  k_sys : SyscallH.syscall_state }.

Definition set_io (v : list io_event) (k : kernel) : kernel :=
  Kernel v (k_mem k) (k_screen k) (k_pmm k) (k_heap k) (k_paging k) (k_proc k) (k_sched k)
    (k_timer k) (k_idt k) (k_dev k) (k_fs k) (k_ata k) (k_sys k).
Definition set_mem (v : mem) (k : kernel) : kernel :=
  Kernel (k_io k) v (k_screen k) (k_pmm k) (k_heap k) (k_paging k) (k_proc k) (k_sched k)
    (k_timer k) (k_idt k) (k_dev k) (k_fs k) (k_ata k) (k_sys k).
Definition set_screen (v : ScreenH.screen_t) (k : kernel) : kernel :=
  Kernel (k_io k) (k_mem k) v (k_pmm k) (k_heap k) (k_paging k) (k_proc k) (k_sched k)
    (k_timer k) (k_idt k) (k_dev k) (k_fs k) (k_ata k) (k_sys k).
Definition set_pmm (v : PmmH.pmm_manager_t) (k : kernel) : kernel :=
  Kernel (k_io k) (k_mem k) (k_screen k) v (k_heap k) (k_paging k) (k_proc k) (k_sched k)
    (k_timer k) (k_idt k) (k_dev k) (k_fs k) (k_ata k) (k_sys k).
Definition set_heap (v : KheapH.heap_t) (k : kernel) : kernel :=
  Kernel (k_io k) (k_mem k) (k_screen k) (k_pmm k) v (k_paging k) (k_proc k) (k_sched k)
    (k_timer k) (k_idt k) (k_dev k) (k_fs k) (k_ata k) (k_sys k).
Definition set_paging (v : PagingH.paging_state) (k : kernel) : kernel :=
  Kernel (k_io k) (k_mem k) (k_screen k) (k_pmm k) (k_heap k) v (k_proc k) (k_sched k)
    (k_timer k) (k_idt k) (k_dev k) (k_fs k) (k_ata k) (k_sys k).
Definition set_proc (v : ProcessH.proc_state) (k : kernel) : kernel :=
  Kernel (k_io k) (k_mem k) (k_screen k) (k_pmm k) (k_heap k) (k_paging k) v (k_sched k)
    (k_timer k) (k_idt k) (k_dev k) (k_fs k) (k_ata k) (k_sys k).
Definition set_sched (v : ProcessH.sched_state) (k : kernel) : kernel :=
  Kernel (k_io k) (k_mem k) (k_screen k) (k_pmm k) (k_heap k) (k_paging k) (k_proc k) v
    (k_timer k) (k_idt k) (k_dev k) (k_fs k) (k_ata k) (k_sys k).
Definition set_timer (v : InterruptH.timer_state) (k : kernel) : kernel :=
  Kernel (k_io k) (k_mem k) (k_screen k) (k_pmm k) (k_heap k) (k_paging k) (k_proc k)
    (k_sched k) v (k_idt k) (k_dev k) (k_fs k) (k_ata k) (k_sys k).
Definition set_idt (v : InterruptH.idt_state) (k : kernel) : kernel :=
  Kernel (k_io k) (k_mem k) (k_screen k) (k_pmm k) (k_heap k) (k_paging k) (k_proc k)
    (k_sched k) (k_timer k) v (k_dev k) (k_fs k) (k_ata k) (k_sys k).
Definition set_dev (v : DeviceH.device_state) (k : kernel) : kernel :=
  Kernel (k_io k) (k_mem k) (k_screen k) (k_pmm k) (k_heap k) (k_paging k) (k_proc k)
    (k_sched k) (k_timer k) (k_idt k) v (k_fs k) (k_ata k) (k_sys k).
Definition set_fs (v : FsH.fs_state) (k : kernel) : kernel :=
  Kernel (k_io k) (k_mem k) (k_screen k) (k_pmm k) (k_heap k) (k_paging k) (k_proc k)
    (k_sched k) (k_timer k) (k_idt k) (k_dev k) v (k_ata k) (k_sys k).
Definition set_ata (v : AtaH.ata_state) (k : kernel) : kernel :=
  Kernel (k_io k) (k_mem k) (k_screen k) (k_pmm k) (k_heap k) (k_paging k) (k_proc k)
    (k_sched k) (k_timer k) (k_idt k) (k_dev k) (k_fs k) v (k_sys k).
Definition set_sys (v : SyscallH.syscall_state) (k : kernel) : kernel :=
  Kernel (k_io k) (k_mem k) (k_screen k) (k_pmm k) (k_heap k) (k_paging k) (k_proc k)
    (k_sched k) (k_timer k) (k_idt k) (k_dev k) (k_fs k) (k_ata k) v.

(** ** The monad *)

Inductive outcome (A : Type) : Type :=
| Done (a : A) (k : kernel)
| Fault
| Spin.
Arguments Done {A} a k.
Arguments Fault {A}.
Arguments Spin {A}.

Definition K (A : Type) : Type := kernel → outcome A.

Definition ret {A} (a : A) : K A := λ k, Done a k.
Definition bind {A B} (c : K A) (f : A → K B) : K B := λ k,
  match c k with Done a k' => f a k' | Fault => Fault | Spin => Spin end.
Definition fault {A} : K A := λ _, Fault.
Definition spin {A} : K A := λ _, Spin.
Definition gets {A} (f : kernel → A) : K A := λ k, Done (f k) k.
Definition modify (f : kernel → kernel) : K unit := λ k, Done tt (f k).

Declare Scope kernel_scope.
Delimit Scope kernel_scope with kernel.
Notation "'let*' x ':=' c 'in' f" := (bind c (λ x, f))
  (at level 10, x pattern, c at level 100, f at level 200,
   format "'let*'  x  ':='  c  'in' '//' f") : kernel_scope.
Notation "c1 ;;; c2" := (bind c1 (λ _, c2))
  (at level 199, c2 at level 200, right associativity) : kernel_scope.
Notation "'when' b 'then' c" := (if b then c else ret tt)
  (at level 198, c at level 198) : kernel_scope.
#[global] Open Scope kernel_scope.

(** [for_list l body] runs [body] on every element of [l] in order. *)
Fixpoint for_list {A} (l : list A) (body : A → K unit) : K unit :=
  match l with
  | [] => ret tt
  | x :: l => body x ;;; for_list l body
  end.

Lemma bind_ret {A B} (a : A) (f : A → K B) k : bind (ret a) f k = f a k.
Proof. done. Qed.

Lemma Done_inj {A} (a b : A) k k' : Done a k = Done b k' → a = b ∧ k = k'.
Proof. by intros [= -> ->]. Qed.

Lemma bind_gets {A B} (f : kernel → A) (g : A → K B) k : bind (gets f) g k = g (f k) k.
Proof. done. Qed.

Lemma bind_modify {B} (f : kernel → kernel) (g : unit → K B) k :
  bind (modify f) g k = g tt (f k).
Proof. done. Qed.

Lemma bind_ret_tt (c : K unit) k : (c ;;; ret tt) k = c k.
Proof. unfold bind, ret. by destruct (c k) as [[] ?| |]. Qed.

Lemma bind_assoc {A B C} (c : K A) (f : A → K B) (g : B → K C) k :
  bind (bind c f) g k = bind c (λ a, bind (f a) g) k.
Proof. unfold bind. by destruct (c k). Qed.

Lemma bind_done {A B} (c : K A) (f : A → K B) k a k' :
  c k = Done a k' → bind c f k = f a k'.
Proof. unfold bind. by intros ->. Qed.

Lemma bind_done_inv {A B} (c : K A) (f : A → K B) k b k' :
  bind c f k = Done b k' → ∃ a k1, c k = Done a k1 ∧ f a k1 = Done b k'.
Proof. unfold bind. destruct (c k); naive_solver. Qed.

Lemma bind_ext {A B} (c : K A) (f g : A → K B) k :
  (∀ a k', c k = Done a k' → f a k' = g a k') → bind c f k = bind c g k.
Proof. unfold bind. intros E. destruct (c k) as [a k'| |]; [by apply E|done..]. Qed.

Lemma bind_for_list_app {A B} (l1 l2 : list A) body (f : unit → K B) k :
  bind (for_list (l1 ++ l2) body) f k = bind (for_list l1 body) (λ _, bind (for_list l2 body) f) k.
Proof.
  revert k. induction l1 as [|x l1 IH]; intros k; cbn [app for_list]; [done|].
  rewrite !bind_assoc. unfold bind in *. destruct (body x k); [apply IH|done|done].
Qed.

(** The state a command leaves behind, used to name the states of concrete runs. *)
Definition after {A} (c : K A) (k : kernel) : kernel :=
  match c k with Done _ k' => k' | _ => k end.

Lemma after_eq {A} (c : K A) k a k' : c k = Done a k' → after c k = k'.
Proof. unfold after. by intros ->. Qed.

Lemma after_run {A} (c : K A) k a k' : c k = Done a k' → c k = Done a (after c k).
Proof. unfold after. by intros ->. Qed.

(** ** Port I/O ([include/system.h], lines 22-35) *)

Definition outb (port val : Z) : K unit :=
  modify (λ k, set_io (Out8 (u16 port) (u8 val) :: k_io k) k).

Definition inb `{Hardware} (port : Z) : K Z := λ k,
  let v := u8 (hw_in8 (k_io k) (u16 port)) in
  Done v (set_io (In8 (u16 port) v :: k_io k) k).

Definition io_wait : K unit := outb 0x80 0.

(** ** Memory accesses *)

Definition load8 (a : Z) : K Z := gets (λ k, ld8 (k_mem k) a).
Definition load32 (a : Z) : K Z := gets (λ k, ld32 (k_mem k) a).
Definition store8 (a v : Z) : K unit := modify (λ k, set_mem (st8 (k_mem k) a v) k).
Definition store32 (a v : Z) : K unit := modify (λ k, set_mem (st32 (k_mem k) a v) k).

#[global] Typeclasses Opaque ret bind fault spin gets modify outb for_list.

(** ** Console output as an effect

    A command that only writes to the console changes the screen and sends bytes
    to ports, and nothing else; it always returns.  [Prints c] is that promise,
    and instances propagate it through sequences of such commands, so that the
    other components reason about their diagnostics without knowing how the
    screen works. *)

Definition with_console (s : ScreenH.screen_t) (io : list io_event) (k : kernel) : kernel :=
  set_screen s (set_io io k).

Definition is_out8 (e : io_event) : Prop := match e with Out8 _ _ => True | _ => False end.

(** The history only grew, by bytes sent. *)
Definition sends (io io' : list io_event) : Prop := ∃ l, io' = l ++ io ∧ Forall is_out8 l.

#[export] Instance sends_preorder : PreOrder sends.
Proof.
  split.
  - intros io. by exists [].
  - intros io1 io2 io3 (l1 & -> & H1) (l2 & -> & H2). exists (l2 ++ l1).
    by rewrite app_assoc, list.Forall_app.
Qed.

Class Prints (c : K unit) : Prop :=
  prints : ∀ k, ∃ s io, c k = Done tt (with_console s io k) ∧ sends (k_io k) io.

#[export] Instance prints_ret : Prints (ret tt).
Proof. intros k. exists (k_screen k), (k_io k). by destruct k. Qed.

#[export] Instance prints_bind c1 c2 : Prints c1 → Prints c2 → Prints (c1 ;;; c2).
Proof.
  intros H1 H2 k. destruct (H1 k) as (s1 & io1 & E1 & Hs1).
  destruct (H2 (with_console s1 io1 k)) as (s2 & io2 & E2 & Hs2).
  exists s2, io2. unfold bind. rewrite E1, E2. split; [done|]. by etrans.
Qed.

#[export] Instance prints_if (b : bool) c1 c2 :
  Prints c1 → Prints c2 → Prints (if b then c1 else c2).
Proof. by destruct b. Qed.

Lemma prints_for_list {A} (l : list A) body :
  (∀ x, Prints (body x)) → Prints (for_list l body).
Proof. intros H. induction l; cbn; apply _. Qed.

#[export] Instance prints_outb p v : Prints (outb p v).
Proof.
  intros k. exists (k_screen k), (Out8 (u16 p) (u8 v) :: k_io k).
  split; [by destruct k|]. exists [Out8 (u16 p) (u8 v)]. split; [done|by constructor].
Qed.

Lemma bind_prints_sends {A} c (f : unit → K A) k `{!Prints c} :
  ∃ s io, bind c f k = f tt (with_console s io k) ∧ sends (k_io k) io.
Proof.
  destruct (prints (c:=c) k) as (s & io & E & Hs). exists s, io.
  split; [exact (bind_done c f _ _ _ E)|done].
Qed.

Lemma bind_prints {A} c (f : unit → K A) k `{!Prints c} :
  ∃ s io, bind c f k = f tt (with_console s io k).
Proof. destruct (bind_prints_sends c f k) as (s & io & E & _). by exists s, io. Qed.

(** [print_step] executes the console command at the head of a sequence in the
    goal, [print_last] a command that is a whole program. *)
Ltac print_step :=
  match goal with |- context [bind ?c ?f ?k] =>
    let s := fresh "s" in let io := fresh "io" in let E := fresh "E" in
    destruct (bind_prints c f k) as (s & io & E); rewrite E; clear E
  end.
Ltac print_last :=
  match goal with |- context [?c ?k = Done _ _] =>
    let s := fresh "s" in let io := fresh "io" in let E := fresh "E" in
    let H := constr:(_ : Prints c) in
    destruct (H k) as (s & io & E & _); rewrite E; clear E
  end.

(** [ksimpl] computes the fields of updated kernel states; [krun] also runs the
    monad's operators. *)
Ltac ksimpl := cbn [k_io k_mem k_screen k_pmm k_heap k_paging k_proc
  k_sched k_timer k_idt k_dev k_fs k_ata k_sys 
  set_io set_mem set_screen set_pmm set_heap set_paging set_proc
  set_sched set_timer set_idt set_dev set_fs set_ata set_sys with_console] in *.
Ltac krun := cbn beta iota zeta delta [bind ret gets modify fault spin load8 load32
  store8 store32 k_io k_mem k_screen k_pmm k_heap k_paging k_proc
  k_sched k_timer k_idt k_dev k_fs k_ata k_sys 
  set_io set_mem set_screen set_pmm set_heap set_paging set_proc
  set_sched set_timer set_idt set_dev set_fs set_ata set_sys with_console].

(** The state of a kernel but for its console: what a printing command keeps. *)
Definition same_but_console (k k' : kernel) : Prop :=
  k' = with_console (k_screen k') (k_io k') k.

#[export] Instance same_but_console_equiv : Equivalence same_but_console.
Proof.
  split.
  - by intros [].
  - intros [] []. unfold same_but_console, with_console, set_screen, set_io; cbn.
    intros H; by injection H as -> -> -> -> -> -> -> -> -> -> -> ->.
  - intros [] [] []. unfold same_but_console, with_console, set_screen, set_io; cbn.
    intros H1 H2. injection H1 as -> -> -> -> -> -> -> -> -> -> -> ->.
    by injection H2 as -> -> -> -> -> -> -> -> -> -> -> ->.
Qed.

Lemma same_but_console_with s io k : same_but_console k (with_console s io k).
Proof. by destruct k. Qed.

#[export] Hint Resolve same_but_console_with : word.

(** ** The static data before the kernel runs

    Everything is zero but for the explicit initialisers of [paging.c] (line
    10), [process.c] (line 13) and [timer.c] (lines 9-11). *)
Definition kernel_bss : kernel :=
  Kernel [] ∅
    (ScreenH.mk_screen ∅ 0 0 0)
    (PmmH.mk_pmm 0 0 0 ∅ false)
    (KheapH.mk_heap 0 0 0)
    (PagingH.mk_paging (PagingH.mk_pd ∅ ∅) ∅ ∅ PagingH.pd_kernel PagingH.pd_null 0)
    (ProcessH.mk_proc (replicate 64 ProcessH.pcb_zero) None 1 None)
    (ProcessH.mk_sched None None None 0)
    (InterruptH.mk_timer 0 100 10)
    (InterruptH.mk_idt ∅ 0 0 ∅)
    (DeviceH.mk_device_state ∅ 0)
    (FsH.mk_fs ∅ ∅ ∅ 0 ∅)
    (AtaH.mk_ata_state (replicate 2 (AtaH.mk_channel 0 0 0 0))
       ∅ false)
    (SyscallH.mk_syscall_state (replicate 32 (SyscallH.mk_syscall_info 0 [] None)) 0
       (replicate 8 (SyscallH.mk_ramdisk None 0 0))).
