(* ===== verification/Mmu.v ===== *)
(** * The memory management unit

    How the processor turns the addresses of the program into addresses of memory:
    [mmu_walk] is the i386's walk through the directory in CR3, over the page tables
    that [kernel/paging.c] writes ([Paging]).  [k_mem] is physical memory.  The
    kernel's own code and data lie in the low 4 MB, which [init_paging] maps to
    itself, so the components access [k_mem] directly; the accesses here go through
    the walk, for the two places where the kernel leaves that area: the first headers
    of the heap and the pages of a user program. *)

From S2P Require Import Prelude Memory Types Machine.
Import PagingH.

(** ** The walk *)

Definition pde_at (d : page_directory_t) (i : Z) : page_dir_entry_t := default pde_zero (entries d !! i).
Definition table_ptr (d : page_directory_t) (i : Z) : Z := default 0 (tables d !! i).
Definition pte_at (t : page_table_t) (i : Z) : page_table_entry_t := default pte_zero (t !! i).
Definition table_at (s : paging_state) (a : Z) : page_table_t := default ∅ (ptables s !! a).

Definition get_dir (s : paging_state) (d : pd_ptr) : page_directory_t :=
  match d with
  | pd_null => mk_pd ∅ ∅
  | pd_kernel => kernel_page_dir s
  | pd_at a => default (mk_pd ∅ ∅) (other_dirs s !! a)
  end.

(** The physical address an access to [v] reaches, with the write and user
    rights (an access needs the bit in both levels), or [None] for a page
    fault.  With paging off every address is itself. *)
Definition mmu_walk (s : paging_state) (v : Z) : option (Z * Z * Z) :=
  if negb (Z.testbit (cr0 s) 31) then Some (v, 1, 1)
  else
    let pde := pde_at (get_dir s (cr3 s)) (v / 4194304) in
    if pd_present pde =? 0 then None
    else
      let pte := pte_at (table_at s (pd_frame pde * 4096)) (v / 4096 mod 1024) in
      if pt_present pte =? 0 then None
      else Some (pt_frame pte * 4096 + v mod 4096,
                 Z.land (pd_rw pde) (pt_rw pte), Z.land (pd_user pde) (pt_user pte)).

(** ** Accesses of the kernel

    In kernel mode the rights do not matter: [init_paging] leaves the write
    protection bit of CR0 clear. *)

Definition phys (k : kernel) (a : Z) : option Z := (λ t, t.1.1) <$> mmu_walk (k_paging k) (u32 a).

(** The byte that is read at [a]. *)
Definition read_byte (k : kernel) (a : Z) : option Z := ld8 (k_mem k) <$> phys k a.

Definition vload8 (a : Z) : K Z := λ k,
  match phys k a with Some p => Done (ld8 (k_mem k) p) k | None => Fault end.
Definition vstore8 (a v : Z) : K unit := λ k,
  match phys k a with Some p => Done tt (set_mem (st8 (k_mem k) p v) k) | None => Fault end.

(** [memcpy(dest, src, len)], lines 43-47 of [include/system.h]. *)
Definition vmemcpy (dest src len : Z) : K unit :=
  for_list (seqZ 0 len) (λ i, let* c := vload8 (src + i) in vstore8 (dest + i) c).

(** An access to the [n] bytes at [a]: it faults unless all are mapped. *)
Definition touch (a n : Z) : K unit := λ k,
  if forallb (λ i, bool_decide (is_Some (phys k (a + i)))) (seqZ 0 n) then Done tt k else Fault.

Definition accessible (k : kernel) (a n : Z) : Prop := ∀ i, 0 ≤ i < n → is_Some (phys k (a + i)).

#[global] Typeclasses Opaque vload8 vstore8 vmemcpy touch.

(** ** Lemmas *)

Lemma phys_ext k k' a : k_paging k' = k_paging k → phys k' a = phys k a.
Proof. unfold phys. by intros ->. Qed.

Lemma phys_off k a : Z.testbit (cr0 (k_paging k)) 31 = false → phys k a = Some (u32 a).
Proof. unfold phys, mmu_walk. by intros ->. Qed.

Lemma accessible_ext k k' a n : k_paging k' = k_paging k → accessible k a n → accessible k' a n.
Proof. intros E H i Hi. rewrite (phys_ext k k') by done. by apply H. Qed.

Lemma accessible_sub k a n b m : accessible k a n → a ≤ b → b + m ≤ a + n → accessible k b m.
Proof. intros H Hb Hm i Hi. replace (b + i) with (a + (b - a + i)) by lia. apply H. lia. Qed.

Lemma touch_run k a n : accessible k a n → touch a n k = Done tt k.
Proof.
  intros H. unfold touch. destruct (forallb _ _) eqn:E; [done|]. exfalso.
  apply not_true_iff_false in E. apply E, forallb_forall. intros i Hi%list_elem_of_In%elem_of_seqZ.
  apply bool_decide_eq_true_2, H. lia.
Qed.

Lemma touch_fault k a n i : 0 ≤ i < n → phys k (a + i) = None → touch a n k = Fault.
Proof.
  intros Hi Hn. unfold touch. destruct (forallb _ _) eqn:E; [|done]. exfalso.
  rewrite forallb_forall in E. specialize (E i). rewrite bool_decide_eq_true, Hn in E.
  destruct E as [? ?]; [|done]. apply list_elem_of_In, elem_of_seqZ. lia.
Qed.

Lemma bind_touch {A} k a n (f : unit → K A) : accessible k a n → bind (touch a n) f k = f tt k.
Proof. intros H. by apply bind_done, touch_run. Qed.

(** A copy to the [n] bytes from [f] on, which are mapped at [dest], from bytes that
    are mapped elsewhere. *)
Lemma vmemcpy_run dest src n f k :
  0 ≤ n → in_space f n → mem_wf (k_mem k) →
  (∀ i, 0 ≤ i < n → phys k (dest + i) = Some (f + i)) →
  (∀ i, 0 ≤ i < n → ∃ p, phys k (src + i) = Some p ∧ in_space p 1 ∧ (p < f ∨ f + n ≤ p)) →
  ∃ m, vmemcpy dest src n k = Done tt (set_mem m k) ∧ mem_wf m ∧
    (∀ i, 0 ≤ i < n → read_byte k (src + i) = Some (ld8 m (f + i))) ∧
    (∀ a, in_space a 1 → a < f ∨ f + n ≤ a → ld8 m a = ld8 (k_mem k) a).
Proof.
  intros Hn Hf Hwf Hd Hs.
  assert (Hgen : ∀ (j : nat) m0, Z.of_nat j ≤ n → mem_wf m0 →
    (∀ i, 0 ≤ i < n - Z.of_nat j → read_byte k (src + i) = Some (ld8 m0 (f + i))) →
    (∀ a, in_space a 1 → a < f ∨ f + n ≤ a → ld8 m0 a = ld8 (k_mem k) a) →
    ∃ m, for_list (seqZ (n - Z.of_nat j) (Z.of_nat j))
      (λ i, let* c := vload8 (src + i) in vstore8 (dest + i) c) (set_mem m0 k) = Done tt (set_mem m k) ∧
      mem_wf m ∧ (∀ i, 0 ≤ i < n → read_byte k (src + i) = Some (ld8 m (f + i))) ∧
      (∀ a, in_space a 1 → a < f ∨ f + n ≤ a → ld8 m a = ld8 (k_mem k) a)).
  { induction j as [|j IH]; intros m0 Hj Hw0 Hr0 Ho0.
    { exists m0. split; [done|]. split; [done|]. split; [intros i Hi; apply Hr0; lia|done]. }
    rewrite seqZ_cons by lia. cbn [for_list]. set (i := n - Z.of_nat (S j)).
    destruct (Hs i) as (p & Hp & Hpr & Hpf); [lia|]. unfold in_space in *.
    set (c := ld8 m0 p). assert (Hc : c = ld8 (k_mem k) p) by (apply Ho0; [done|lia]).
    rewrite bind_assoc, (bind_done _ _ _ c (set_mem m0 k))
      by (unfold vload8; by rewrite (phys_ext k), Hp).
    rewrite (bind_done _ _ _ tt (set_mem (st8 m0 (f + i) c) k))
      by (unfold vstore8; rewrite (phys_ext k), Hd by (done || lia); by destruct k).
    replace (Z.succ i) with (n - Z.of_nat j) by lia. replace (Z.pred (Z.of_nat (S j))) with (Z.of_nat j) by lia.
    apply IH; [lia|by apply mem_wf_st8| |].
    - intros i' Hi'. rewrite ld8_st8 by (unfold in_space; lia).
      destruct (Z.eqb_spec (f + i) (f + i')) as [Ei|Ei]; [|apply Hr0; lia].
      replace i' with i by lia. unfold read_byte. rewrite Hp. cbn [fmap option_fmap option_map].
      by rewrite u8_small, Hc by apply Hw0.
    - intros a Ha Hr. rewrite ld8_st8_ne; [by apply Ho0|]. rewrite !u32_small; lia. }
  destruct (Hgen (Z.to_nat n) (k_mem k)) as (m & E & H); [lia|done|lia|done|].
  exists m. rewrite Z2Nat.id, Z.sub_diag in E by done. split; [|done].
  unfold vmemcpy. rewrite <- E. by destruct k.
Qed.
