(* ===== verification/Screen.v ===== *)
(** * The VGA text console (kernel/screen.c)

    The screen state is [ScreenH.screen_t]; every operation is a command of the
    machine that also drives the CRT controller ports 0x3D4/0x3D5.  The
    theorems state where characters land, that scrolling moves rows, that the
    cursor never leaves the 80x25 page (so that no write leaves it either), that
    the hardware cursor follows the software one, and that numbers are printed
    as their decimal and hexadecimal digits. *)

From S2P Require Import Prelude Memory Types Machine.
Import ScreenH.

(** ** Operations *)

Definition set_cursor_x (x : Z) (s : screen_t) : screen_t :=
  mk_screen (buffer s) (color s) x (cursor_y s).
Definition set_cursor_y (y : Z) (s : screen_t) : screen_t :=
  mk_screen (buffer s) (color s) (cursor_x s) y.
Definition set_color (c : Z) (s : screen_t) : screen_t :=
  mk_screen (buffer s) c (cursor_x s) (cursor_y s).
Definition set_buffer (b : gmap Z Z) (s : screen_t) : screen_t :=
  mk_screen b (color s) (cursor_x s) (cursor_y s).

Definition upd_screen (f : screen_t → screen_t) : K unit :=
  modify (λ k, set_screen (f (k_screen k)) k).

Definition cell (b : gmap Z Z) (i : Z) : Z := default 0 (b !! i).

Definition make_color (fg bg : Z) : Z := u8 (Z.lor fg (Z.shiftl bg 4)).

(** [char] is signed: the conversion to [uint16_t] sign-extends. *)
Definition make_vgaentry (c color : Z) : Z :=
  let c16 := u16 (s8 c) in
  let color16 := u16 color in
  u16 (Z.lor c16 (Z.shiftl color16 8)).

Definition screen_setcolor (fg bg : Z) : K unit :=
  upd_screen (set_color (make_color (u8 fg) (u8 bg))).

Definition screen_set_cursor (x y : Z) : K unit :=
  let pos := u16 (y * VGA_WIDTH + x) in
  outb 0x3D4 0x0F ;;;
  outb 0x3D5 (u8 (Z.land pos 0xFF)) ;;;
  outb 0x3D4 0x0E ;;;
  outb 0x3D5 (u8 (Z.land (Z.shiftr pos 8) 0xFF)) ;;;
  upd_screen (set_cursor_x x) ;;;
  upd_screen (set_cursor_y y).

Definition clear_cells (blank : Z) (b : gmap Z Z) : gmap Z Z :=
  for_range 0 (VGA_WIDTH * VGA_HEIGHT) (λ i b, <[i := blank]> b) b.

Definition screen_clear : K unit :=
  upd_screen (λ s, set_buffer (clear_cells (make_vgaentry 32 (color s)) (buffer s)) s) ;;;
  upd_screen (set_cursor_x 0) ;;;
  upd_screen (set_cursor_y 0) ;;;
  screen_set_cursor 0 0.

Definition screen_init : K unit :=
  screen_setcolor COLOR_LIGHT_GREY COLOR_BLACK ;;; screen_clear.

Definition scroll_copy (b : gmap Z Z) : gmap Z Z :=
  for_range 0 (VGA_HEIGHT - 1) (λ y b,
    for_range 0 VGA_WIDTH (λ x b,
      let src_index := (y + 1) * VGA_WIDTH + x in
      let dst_index := y * VGA_WIDTH + x in
      <[dst_index := cell b src_index]> b) b) b.

Definition scroll_blank (blank : Z) (b : gmap Z Z) : gmap Z Z :=
  for_range 0 VGA_WIDTH (λ x b, <[(VGA_HEIGHT - 1) * VGA_WIDTH + x := blank]> b) b.

Definition screen_scroll : K unit :=
  upd_screen (λ s,
    set_buffer (scroll_blank (make_vgaentry 32 (color s)) (scroll_copy (buffer s))) s).

(** The three phases of [screen_putchar]: the effect of the character, the
    wrap at the right margin, the scroll at the bottom. *)
Definition put_effect (c : Z) (s : screen_t) : screen_t :=
  if c =? 10 then set_cursor_y (u8 (cursor_y s + 1)) (set_cursor_x 0 s)
  else if c =? 13 then set_cursor_x 0 s
  else if c =? 9 then set_cursor_x (u8 (Z.land (cursor_x s + 8) (Z.lnot (8 - 1)))) s
  else if c =? 8 then
    if 0 <? cursor_x s then set_cursor_x (u8 (cursor_x s - 1)) s else s
  else
    let entry := make_vgaentry c (color s) in
    let index := u32 (cursor_y s * VGA_WIDTH + cursor_x s) in
    set_cursor_x (u8 (cursor_x s + 1)) (set_buffer (<[index := entry]> (buffer s)) s).

Definition put_wrap (s : screen_t) : screen_t :=
  if VGA_WIDTH <=? cursor_x s
  then set_cursor_y (u8 (cursor_y s + 1)) (set_cursor_x 0 s) else s.

Definition screen_putchar (c : Z) : K unit :=
  upd_screen (put_effect c) ;;;
  upd_screen put_wrap ;;;
  let* s := gets k_screen in
  (if VGA_HEIGHT <=? cursor_y s
   then screen_scroll ;;; upd_screen (set_cursor_y (VGA_HEIGHT - 1))
   else ret tt) ;;;
  let* s := gets k_screen in
  screen_set_cursor (cursor_x s) (cursor_y s).

Definition screen_putstr (str : list Z) : K unit := for_list str screen_putchar.

(** The digit of [screen_puthex] at a shift. *)
Definition hex_char (n shift : Z) : Z :=
  let digit := u8 (Z.land (Z.shiftr n shift) 0xF) in
  if digit <? 10 then 48 + digit else 65 + digit - 10.

Definition screen_puthex (n : Z) : K unit :=
  screen_putstr (cstr "0x") ;;;
  for_list [28; 24; 20; 16; 12; 8; 4; 0] (λ shift, screen_putchar (hex_char n shift)).

(** The digits of [screen_putdec], least significant first, written to
    [buffer[12]]: a thirteenth digit is a write out of bounds. *)
Fixpoint putdec_digits (fuel : nat) (n : Z) (buf : list Z) : K (list Z) :=
  match fuel with
  | O => spin
  | S fuel =>
      if 0 <? n then
        if (length buf <? 12)%nat
        then putdec_digits fuel (n / 10) (buf ++ [48 + n mod 10])
        else fault
      else ret buf
  end.

Definition screen_putdec (n : Z) : K unit :=
  if n =? 0 then screen_putchar 48
  else
    let* buf := putdec_digits 12 n [] in
    for_list (reverse buf) screen_putchar.

(** What is stored through the two pointers, when they are not NULL. *)
Definition screen_get_cursor (x y : bool) : K (option Z * option Z) :=
  gets (λ k, (if x then Some (cursor_x (k_screen k)) else None,
              if y then Some (cursor_y (k_screen k)) else None)).

(** ** Console commands only print *)

#[global] Arguments screen_setcolor : simpl never.
#[global] Arguments screen_set_cursor : simpl never.
#[global] Arguments screen_clear : simpl never.
#[global] Arguments screen_init : simpl never.
#[global] Arguments screen_scroll : simpl never.
#[global] Arguments screen_putchar : simpl never.
#[global] Arguments screen_putstr : simpl never.
#[global] Arguments screen_puthex : simpl never.
#[global] Arguments screen_putdec : simpl never.

#[global] Typeclasses Opaque upd_screen screen_setcolor screen_set_cursor screen_clear
  screen_init screen_putchar screen_putstr screen_puthex screen_putdec.

#[export] Instance prints_upd_screen f : Prints (upd_screen f).
Proof. intros k. exists (f (k_screen k)), (k_io k). split; [by destruct k|done]. Qed.

#[export] Instance prints_gets_screen f :
  (∀ s, Prints (f s)) → Prints (bind (gets k_screen) f).
Proof. intros H k. apply (H (k_screen k)). Qed.

#[export] Instance prints_setcolor fg bg : Prints (screen_setcolor fg bg).
Proof. unfold screen_setcolor. apply _. Qed.

#[export] Instance prints_set_cursor x y : Prints (screen_set_cursor x y).
Proof. unfold screen_set_cursor. apply _. Qed.

#[export] Instance prints_clear : Prints screen_clear.
Proof. unfold screen_clear. apply _. Qed.

#[export] Instance prints_init : Prints screen_init.
Proof. unfold screen_init. apply _. Qed.

#[export] Instance prints_putchar c : Prints (screen_putchar c).
Proof. unfold screen_putchar, screen_scroll. apply _. Qed.

#[export] Instance prints_putstr str : Prints (screen_putstr str).
Proof. apply prints_for_list, _. Qed.

#[export] Instance prints_puthex n : Prints (screen_puthex n).
Proof. unfold screen_puthex. apply prints_bind; [apply _|]. apply prints_for_list, _. Qed.

(** ** Well-formed screens

    The cursor is on the page and every written cell is on the page. *)

Record screen_wf (s : screen_t) : Prop := {
  wf_x : 0 ≤ cursor_x s < VGA_WIDTH;
  wf_y : 0 ≤ cursor_y s < VGA_HEIGHT;
  wf_cells : ∀ i, is_Some (buffer s !! i) → 0 ≤ i < VGA_WIDTH * VGA_HEIGHT }.

(** The page as a function of row and column. *)
Definition at_rc (s : screen_t) (y x : Z) : Z := cell (buffer s) (y * VGA_WIDTH + x).

Lemma cell_insert b i j v : cell (<[i := v]> b) j = if i =? j then v else cell b j.
Proof.
  unfold cell. destruct (Z.eqb_spec i j) as [->|].
  - by rewrite lookup_insert_eq.
  - by rewrite lookup_insert_ne.
Qed.

Ltac screen_consts := unfold VGA_WIDTH, VGA_HEIGHT in *.

(** One row of the copy loop of [screen_scroll]. *)
Lemma scroll_row_cell y b i :
  0 ≤ y →
  cell (for_range 0 VGA_WIDTH (λ x b,
    <[y * VGA_WIDTH + x := cell b ((y + 1) * VGA_WIDTH + x)]> b) b) i =
  if (y * VGA_WIDTH <=? i) && (i <? (y + 1) * VGA_WIDTH)
  then cell b (i + VGA_WIDTH) else cell b i.
Proof.
  intros Hy. screen_consts.
  pose (P := λ n b', ∀ i, cell b' i =
    if (y * 80 <=? i) && (i <? y * 80 + n) then cell b (i + 80) else cell b i).
  assert (P (0 + 80) (for_range 0 80 (λ x b,
    <[y * 80 + x := cell b ((y + 1) * 80 + x)]> b) b)) as H.
  { apply for_range_ind; [done| |]; unfold P.
    - intros j. zcases; done.
    - intros x b' Hx IH j. rewrite cell_insert, !IH. zcases; try done.
      f_equal. lia. }
  rewrite (H i). zcases; done.
Qed.

Lemma scroll_copy_cell b i :
  cell (scroll_copy b) i =
  if (0 <=? i) && (i <? (VGA_HEIGHT - 1) * VGA_WIDTH)
  then cell b (i + VGA_WIDTH) else cell b i.
Proof.
  unfold scroll_copy.
  pose (P := λ n b', ∀ i, cell b' i =
    if (0 <=? i) && (i <? n * VGA_WIDTH) then cell b (i + VGA_WIDTH) else cell b i).
  match goal with |- cell ?t _ = _ => assert (P (0 + (VGA_HEIGHT - 1)) t) as H end.
  { apply for_range_ind; [done| |]; unfold P.
    - intros j. screen_consts. zcases; done.
    - intros y b' Hy IH j. cbv zeta. rewrite scroll_row_cell by lia.
      rewrite !IH. screen_consts. zcases; done. }
  rewrite (H i). done.
Qed.

Lemma scroll_blank_cell blank b i :
  cell (scroll_blank blank b) i =
  if ((VGA_HEIGHT - 1) * VGA_WIDTH <=? i) && (i <? VGA_HEIGHT * VGA_WIDTH)
  then blank else cell b i.
Proof.
  unfold scroll_blank.
  pose (P := λ n b', ∀ i, cell b' i =
    if ((VGA_HEIGHT - 1) * VGA_WIDTH <=? i) && (i <? (VGA_HEIGHT - 1) * VGA_WIDTH + n)
    then blank else cell b i).
  match goal with |- cell ?t _ = _ => assert (P (0 + VGA_WIDTH) t) as H end.
  { screen_consts. apply for_range_ind; [done| |]; unfold P; screen_consts.
    - intros j. zcases; done.
    - intros x b' Hx IH j. rewrite cell_insert, IH. zcases; done. }
  rewrite (H i). screen_consts. zcases; done.
Qed.

(** ** What one character does *)

Definition scrolled (s : screen_t) : screen_t :=
  set_buffer (scroll_blank (make_vgaentry 32 (color s)) (scroll_copy (buffer s))) s.

(** The screen after [screen_putchar]. *)
Definition put_final (c : Z) (s : screen_t) : screen_t :=
  let s := put_wrap (put_effect c s) in
  if VGA_HEIGHT <=? cursor_y s then set_cursor_y (VGA_HEIGHT - 1) (scrolled s) else s.

(** The port writes of [screen_set_cursor], newest first. *)
Definition crtc_writes (x y : Z) : list io_event :=
  let pos := u16 (y * VGA_WIDTH + x) in
  [Out8 0x3D5 (u8 (u8 (Z.land (Z.shiftr pos 8) 0xFF))); Out8 0x3D4 0x0E;
   Out8 0x3D5 (u8 (u8 (Z.land pos 0xFF))); Out8 0x3D4 0x0F].

Lemma screen_set_cursor_run x y k :
  screen_set_cursor x y k =
  Done tt (with_console (set_cursor_y y (set_cursor_x x (k_screen k)))
                        (crtc_writes x y ++ k_io k) k).
Proof. done. Qed.

Lemma screen_eta s :
  set_cursor_y (cursor_y s) (set_cursor_x (cursor_x s) s) = s.
Proof. by destruct s. Qed.

Lemma screen_putchar_run c k :
  screen_putchar c k =
  Done tt (with_console (put_final c (k_screen k))
    (crtc_writes (cursor_x (put_final c (k_screen k)))
                 (cursor_y (put_final c (k_screen k))) ++ k_io k) k).
Proof.
  unfold screen_putchar, put_final, bind, gets, upd_screen, modify, ret. cbn [k_screen set_screen].
  set (s := put_wrap (put_effect c (k_screen k))).
  destruct (VGA_HEIGHT <=? cursor_y s).
  all: cbv beta iota delta [screen_scroll upd_screen modify k_screen set_screen].
  all: rewrite screen_set_cursor_run; cbn [k_screen set_screen].
  all: rewrite screen_eta; by destruct k.
Qed.

(** ** Sequences of characters *)

(** The screen after the characters [l]. *)
Definition shown (l : list Z) (s : screen_t) : screen_t := fold_left (λ s c, put_final c s) l s.

Lemma shown_app l1 l2 s : shown (l1 ++ l2) s = shown l2 (shown l1 s).
Proof. apply fold_left_app. Qed.

(** Only the characters [l] were written. *)
Definition wrote (l : list Z) (k k' : kernel) : Prop :=
  ∃ io, k' = with_console (shown l (k_screen k)) io k ∧ sends (k_io k) io.

Lemma wrote_nil k : wrote [] k k.
Proof. exists (k_io k). split; [by destruct k|done]. Qed.

Lemma wrote_trans l1 l2 k1 k2 k3 : wrote l1 k1 k2 → wrote l2 k2 k3 → wrote (l1 ++ l2) k1 k3.
Proof.
  intros (io1 & -> & H1) (io2 & -> & H2). exists io2. split; [by rewrite shown_app|by etrans].
Qed.

Lemma putchar_wrote c k : ∃ k', screen_putchar c k = Done tt k' ∧ wrote [c] k k'.
Proof.
  rewrite screen_putchar_run. eexists. split; [done|]. eexists. split; [done|].
  eexists. split; [done|]. repeat constructor.
Qed.

Lemma putstr_wrote l : ∀ k, ∃ k', screen_putstr l k = Done tt k' ∧ wrote l k k'.
Proof.
  unfold screen_putstr. induction l as [|c l IH]; intros k; cbn [for_list].
  - exists k. split; [done|apply wrote_nil].
  - destruct (putchar_wrote c k) as (k1 & E1 & H1). destruct (IH k1) as (k' & E & H2).
    exists k'. rewrite (bind_done _ _ _ _ _ E1). split; [done|]. by apply (wrote_trans [c] _ _ k1).
Qed.

(** A write to the cursor registers. *)
Definition crtc_event (e : io_event) : Prop := ∃ v, e = Out8 0x3D4 v ∨ e = Out8 0x3D5 v.

(** The only ports the console writes are the cursor's. *)
Lemma putstr_events l : ∀ k, ∃ s es,
  screen_putstr l k = Done tt (with_console s (es ++ k_io k) k) ∧ Forall crtc_event es.
Proof.
  unfold screen_putstr. induction l as [|c l IH]; intros k; cbn [for_list].
  - exists (k_screen k), []. split; [by destruct k|done].
  - rewrite (bind_done _ _ _ _ _ (screen_putchar_run c k)).
    set (s1 := put_final c (k_screen k)). set (e1 := crtc_writes _ _).
    destruct (IH (with_console s1 (e1 ++ k_io k) k)) as (s & es & -> & He).
    exists s, (es ++ e1). split; [by rewrite <- app_assoc; destruct k|].
    apply list.Forall_app. split; [done|]. unfold e1, crtc_writes. repeat constructor; eexists; auto.
Qed.

Lemma land_tab x : 0 ≤ x < 80 → u8 (Z.land (x + 8) (Z.lnot (8 - 1))) = (x / 8 + 1) * 8.
Proof.
  intros Hx. change (8 - 1) with (Z.ones 3).
  rewrite <- Z.ldiff_land, Z.ldiff_ones_r by lia.
  rewrite Z.shiftl_mul_pow2, Z.shiftr_div_pow2 by lia.
  change (2 ^ 3) with 8. replace (x + 8) with (x + 1 * 8) by lia.
  rewrite Z.div_add by lia. apply u8_small. dlia.
Qed.

(** A printing character: any but newline, carriage return, tab, backspace. *)
Definition is_control (c : Z) : bool :=
  (c =? 10) || (c =? 13) || (c =? 9) || (c =? 8).

Lemma put_effect_printable c s :
  is_control c = false → screen_wf s →
  put_effect c s =
    set_cursor_x (cursor_x s + 1)
      (set_buffer (<[cursor_y s * VGA_WIDTH + cursor_x s := make_vgaentry c (color s)]>
                     (buffer s)) s).
Proof.
  unfold is_control, put_effect. intros Hc [Hx Hy _]. screen_consts.
  repeat destruct (_ =? _); try done. cbv zeta. f_equal; [word_small; lia|].
  by rewrite u32_small by lia.
Qed.

Lemma scrolled_cells_on_page s :
  (∀ i, is_Some (buffer s !! i) → 0 ≤ i < VGA_WIDTH * VGA_HEIGHT) →
  ∀ i, is_Some (buffer (scrolled s) !! i) → 0 ≤ i < VGA_WIDTH * VGA_HEIGHT.
Proof.
  intros H. cbn. unfold scroll_blank.
  pose (P := λ b : gmap Z Z, ∀ i, is_Some (b !! i) → 0 ≤ i < VGA_WIDTH * VGA_HEIGHT).
  assert (Hins : ∀ (b : gmap Z Z) i v,
    0 ≤ i < VGA_WIDTH * VGA_HEIGHT → P b → P (<[i := v]> b)).
  { unfold P. intros b i v Hi Hb j. destruct (decide (i = j)) as [->|]; [done|].
    rewrite lookup_insert_ne by done. apply Hb. }
  apply (for_range_inv P).
  - unfold scroll_copy. apply (for_range_inv P); [done|].
    intros y b Hy Hb. apply (for_range_inv P); [done|].
    intros x b' Hx Hb'. apply Hins; [|done]. screen_consts. lia.
  - intros x b Hx Hb. apply Hins; [|done]. screen_consts. lia.
Qed.

Ltac screen_proj := cbn [cursor_x cursor_y color buffer
  set_cursor_x set_cursor_y set_color set_buffer scrolled] in *.

Lemma put_effect_bounds c s :
  screen_wf s →
  0 ≤ cursor_x (put_effect c s) ≤ VGA_WIDTH ∧ 0 ≤ cursor_y (put_effect c s) ≤ VGA_HEIGHT ∧
  (cursor_x (put_effect c s) = VGA_WIDTH → cursor_y (put_effect c s) < VGA_HEIGHT).
Proof.
  intros [Hx Hy _]. unfold put_effect. screen_consts.
  destruct (c =? 10); [screen_proj; word_small; lia|].
  destruct (c =? 13); [screen_proj; lia|].
  destruct (c =? 9); [screen_proj; rewrite land_tab by lia; dlia|].
  destruct (c =? 8); [zcases; screen_proj; word_small; lia|].
  screen_proj. word_small. lia.
Qed.

Lemma put_effect_wf_y c s :
  screen_wf s → 0 ≤ cursor_y (put_wrap (put_effect c s)) ≤ VGA_HEIGHT ∧
  0 ≤ cursor_x (put_wrap (put_effect c s)) < VGA_WIDTH.
Proof.
  intros Hwf. pose proof (put_effect_bounds c s Hwf) as (Hx & Hy & Hxy).
  unfold put_wrap. screen_consts.
  zcases; screen_proj; word_small; lia.
Qed.

Lemma put_final_wf c s : screen_wf s → screen_wf (put_final c s).
Proof.
  intros Hwf. pose proof (put_effect_wf_y c s Hwf) as [Hy Hx].
  assert (∀ i, is_Some (buffer (put_wrap (put_effect c s)) !! i) →
            0 ≤ i < VGA_WIDTH * VGA_HEIGHT) as Hc.
  { destruct Hwf as [Hx0 Hy0 Hc0].
    assert (buffer (put_wrap (put_effect c s)) = buffer (put_effect c s)) as ->.
    { unfold put_wrap. by destruct (_ <=? _). }
    unfold put_effect. repeat destruct (_ =? _); try exact Hc0.
    { by destruct (0 <? _). }
    cbn. intros i. screen_consts. rewrite u32_small by lia.
    destruct (decide (cursor_y s * 80 + cursor_x s = i)) as [<-|]; [lia|].
    rewrite lookup_insert_ne by done. apply Hc0. }
  unfold put_final. cbv zeta. destruct (Z.leb_spec VGA_HEIGHT (cursor_y (put_wrap (put_effect c s)))).
  - split; [done|screen_consts; cbn; lia|]. by apply scrolled_cells_on_page.
  - split; [done|lia|done].
Qed.

(** The row and column a linear cell index stands for. *)
Lemma scrolled_at_rc s y x :
  0 ≤ y < VGA_HEIGHT → 0 ≤ x < VGA_WIDTH →
  at_rc (scrolled s) y x =
    if y + 1 =? VGA_HEIGHT then make_vgaentry 32 (color s) else at_rc s (y + 1) x.
Proof.
  intros Hy Hx. unfold at_rc. screen_proj.
  rewrite scroll_blank_cell, scroll_copy_cell. screen_consts.
  zcases; try done. f_equal. lia.
Qed.

Lemma at_rc_insert s y x y0 x0 v :
  0 ≤ y < VGA_HEIGHT → 0 ≤ x < VGA_WIDTH → 0 ≤ y0 < VGA_HEIGHT → 0 ≤ x0 < VGA_WIDTH →
  at_rc (set_buffer (<[y0 * VGA_WIDTH + x0 := v]> (buffer s)) s) y x =
    if (y =? y0) && (x =? x0) then v else at_rc s y x.
Proof.
  intros. unfold at_rc. screen_proj. rewrite cell_insert. screen_consts.
  zcases; done.
Qed.

(** ** The CRT controller

    The controller keeps the last value written to its index register (port
    0x3D4) and, per index, the last data written to port 0x3D5; registers
    0x0E and 0x0F hold the cursor address. *)
Record crtc := mk_crtc { crtc_index : Z; crtc_hi : Z; crtc_lo : Z }.

Definition crtc_step (e : io_event) (c : crtc) : crtc :=
  match e with
  | Out8 port v =>
      if port =? 0x3D4 then mk_crtc v (crtc_hi c) (crtc_lo c)
      else if port =? 0x3D5 then
        if crtc_index c =? 0x0E then mk_crtc (crtc_index c) v (crtc_lo c)
        else if crtc_index c =? 0x0F then mk_crtc (crtc_index c) (crtc_hi c) v
        else c
      else c
  | _ => c
  end.

Definition crtc_of (io : list io_event) : crtc := foldr crtc_step (mk_crtc 0 0 0) io.
Definition crtc_cursor (io : list io_event) : Z :=
  crtc_hi (crtc_of io) * 256 + crtc_lo (crtc_of io).

Lemma crtc_writes_cursor x y io :
  0 ≤ x < VGA_WIDTH → 0 ≤ y < VGA_HEIGHT →
  crtc_cursor (crtc_writes x y ++ io) = y * VGA_WIDTH + x.
Proof.
  intros Hx Hy. unfold crtc_cursor, crtc_of, crtc_writes. cbn [foldr app crtc_step].
  cbn -[u8 u16 Z.land Z.shiftr Z.add Z.mul].
  rewrite (u16_small (_ + _)) by (screen_consts; lia).
  change 0xFF with (Z.ones 8). rewrite !Z.land_ones, Z.shiftr_div_pow2 by lia.
  change (2 ^ 8) with 256. unfold u8. screen_consts. dlia.
Qed.

(** The screen commands, as the other components issue them. *)
Inductive screen_cmd :=
| CmdClear | CmdSetColor (fg bg : Z) | CmdPutChar (c : Z) | CmdPutStr (str : list Z)
| CmdPutHex (n : Z) | CmdPutDec (n : Z).

Definition run_screen_cmd (cmd : screen_cmd) : K unit :=
  match cmd with
  | CmdClear => screen_clear
  | CmdSetColor fg bg => screen_setcolor fg bg
  | CmdPutChar c => screen_putchar c
  | CmdPutStr str => screen_putstr str
  | CmdPutHex n => screen_puthex n
  | CmdPutDec n => screen_putdec (u32 n)
  end.

(** What every command preserves: a well-formed screen whose position the
    hardware cursor shows. *)
Definition screen_ok (k : kernel) : Prop :=
  screen_wf (k_screen k) ∧
  crtc_cursor (k_io k) = cursor_y (k_screen k) * VGA_WIDTH + cursor_x (k_screen k).

(** A command that returns, only prints, and preserves [screen_ok]. *)
Definition screen_safe (c : K unit) : Prop :=
  ∀ k, screen_ok k →
    ∃ s io, c k = Done tt (with_console s io k) ∧ screen_ok (with_console s io k).

Lemma screen_safe_bind c1 c2 : screen_safe c1 → screen_safe c2 → screen_safe (c1 ;;; c2).
Proof.
  intros H1 H2 k Hk. destruct (H1 k Hk) as (s1 & io1 & E1 & Hk1).
  destruct (H2 _ Hk1) as (s2 & io2 & E2 & Hk2).
  exists s2, io2. split; [|done]. unfold bind. by rewrite E1, E2.
Qed.

Lemma screen_safe_for_list {A} (l : list A) body :
  (∀ x, screen_safe (body x)) → screen_safe (for_list l body).
Proof.
  intros H. induction l as [|x l IH]; cbn.
  - intros k Hk. exists (k_screen k), (k_io k). by destruct k.
  - by apply screen_safe_bind.
Qed.

Lemma screen_putchar_safe c : screen_safe (screen_putchar c).
Proof.
  intros k [Hwf _]. rewrite screen_putchar_run. do 2 eexists. split; [done|].
  pose proof (put_final_wf c _ Hwf) as Hwf'. split; [done|]. cbn [k_io k_screen with_console set_screen set_io].
  apply crtc_writes_cursor; apply Hwf'.
Qed.

Lemma screen_putstr_safe str : screen_safe (screen_putstr str).
Proof. apply screen_safe_for_list, screen_putchar_safe. Qed.

(** ** Numbers *)

(** The value of decimal digit characters, most significant first. *)
Definition dec_value (ds : list Z) : Z := foldr (λ c acc, acc * 10 + (c - 48)) 0 (reverse ds).

(** The value of a hexadecimal digit character, and of a string of them. *)
Definition hex_digit (c : Z) : Z := if c <? 65 then c - 48 else c - 55.
Definition hex_value (ds : list Z) : Z := foldl (λ acc c, acc * 16 + hex_digit c) 0 ds.

Lemma putdec_digits_run f : ∀ fuel n buf k,
  0 ≤ n < 10 ^ Z.of_nat f → (length buf + f ≤ 12)%nat → (f < fuel)%nat →
  ∃ ds, putdec_digits fuel n buf k = Done (buf ++ ds) k ∧ (length ds ≤ f)%nat ∧
    Forall (λ c, 48 ≤ c < 58) ds ∧ foldr (λ c acc, acc * 10 + (c - 48)) 0 ds = n ∧
    (0 < n → ∃ ds' c, ds = ds' ++ [c] ∧ c ≠ 48).
Proof.
  induction f as [|f IH]; intros [|fuel] n buf k Hn Hbuf Hfuel; try lia; cbn [putdec_digits].
  - assert (n = 0) as -> by (cbn in Hn; lia). exists []. by rewrite app_nil_r.
  - rewrite Nat2Z.inj_succ, Z.pow_succ_r in Hn by lia.
    destruct (Z.ltb_spec 0 n) as [Hpos|].
    2:{ assert (n = 0) as -> by lia. exists []. rewrite app_nil_r. cbn. split_and!; [done|lia|by constructor|done|lia]. }
    destruct (Nat.ltb_spec (length buf) 12); [|lia].
    destruct (IH fuel (n / 10) (buf ++ [48 + n mod 10]) k) as (ds & E & Hl & Hd & Hv & Hlast).
    { dlia. } { rewrite length_app; cbn; lia. } { lia. }
    exists ((48 + n mod 10) :: ds). rewrite E, <- app_assoc. split_and!; [done|cbn; lia| | |].
    + constructor; [dlia|done].
    + cbn. rewrite Hv. dlia.
    + intros _. destruct (Z.eq_dec (n / 10) 0) as [E0|].
      * destruct ds as [|d ds]; [exists [], (48 + n mod 10); split; [done|dlia]|].
        destruct (exists_last (l := d :: ds)) as (ds' & c & Ed); [done|].
        exfalso. rewrite E0 in Hv. assert (fuel ≠ 0%nat) by lia.
        destruct fuel as [|fuel]; [done|]. cbn [putdec_digits] in E.
        rewrite E0 in E. cbn in E. injection E as E.
        apply (f_equal length) in E. rewrite !length_app in E. cbn in E. lia.
      * destruct Hlast as (ds' & c & -> & Hc); [dlia|].
        exists ((48 + n mod 10) :: ds'), c. done.
Qed.

(** The decimal numeral [screen_putdec] prints. *)
Lemma putdec_string n k :
  0 ≤ n < 4294967296 →
  ∃ ds, screen_putdec n k = screen_putstr ds k ∧ dec_value ds = n ∧
    Forall (λ c, 48 ≤ c < 58) ds ∧ (1 ≤ length ds ≤ 10)%nat ∧ (head ds = Some 48 → ds = [48]).
Proof.
  intros Hn. unfold screen_putdec. destruct (Z.eqb_spec n 0) as [->|Hnz].
  - exists [48]. split_and!; [|done|by repeat constructor|cbn; lia|cbn; lia|done].
    symmetry. apply bind_ret_tt.
  - destruct (putdec_digits_run 10 12 n [] k) as (ds & E & Hl & Hd & Hv & Hlast);
      [cbn; lia|cbn; lia|lia|].
    exists (reverse ds). unfold bind. rewrite E. cbn [app].
    destruct Hlast as (ds' & c & -> & Hc); [lia|]. split_and!; try done.
    + unfold dec_value. by rewrite reverse_involutive.
    + by apply Forall_reverse.
    + rewrite length_reverse, length_app. cbn. lia.
    + by rewrite length_reverse.
    + rewrite reverse_app. cbn. congruence.
Qed.

Lemma hex_char_digit n shift :
  0 ≤ shift → hex_digit (hex_char n shift) = (n / 2 ^ shift) mod 16 ∧
  (48 ≤ hex_char n shift < 58 ∨ 65 ≤ hex_char n shift < 71).
Proof.
  intros Hs. unfold hex_char. change 0xF with (Z.ones 4).
  rewrite Z.land_ones, Z.shiftr_div_pow2 by lia. change (2 ^ 4) with 16.
  set (d := _ mod 16). assert (0 ≤ d < 16) by (apply Z.mod_pos_bound; lia).
  rewrite u8_small by lia. unfold hex_digit. zcases.
Qed.

Lemma hex_digits_value n :
  0 ≤ n < 4294967296 →
  hex_value ((λ s, hex_char n s) <$> [28; 24; 20; 16; 12; 8; 4; 0]) = n.
Proof.
  intros Hn. unfold hex_value. cbn [fmap list_fmap foldl].
  rewrite !(λ s H, proj1 (hex_char_digit n s H)) by lia.
  assert (Hdiv : ∀ a b, 0 ≤ a → b = a + 4 → n / 2 ^ b = n / 2 ^ a / 16).
  { intros a b Ha ->. rewrite Z.pow_add_r, Z.div_div by lia. done. }
  rewrite (Hdiv 24 28), (Hdiv 20 24), (Hdiv 16 20), (Hdiv 12 16), (Hdiv 8 12),
    (Hdiv 4 8), (Hdiv 0 4) by lia.
  change (2 ^ 0) with 1. rewrite Z.div_1_r. dlia.
Qed.

(** The string [screen_puthex] prints. *)
Lemma puthex_string n k :
  screen_puthex n k =
  screen_putstr (cstr "0x" ++ ((λ s, hex_char n s) <$> [28; 24; 20; 16; 12; 8; 4; 0])) k.
Proof.
  unfold screen_puthex, screen_putstr.
  assert (for_app : ∀ (l1 l2 : list Z) k,
    (for_list l1 screen_putchar ;;; for_list l2 screen_putchar) k =
    for_list (l1 ++ l2) screen_putchar k).
  { induction l1 as [|x l1 IH]; intros l2 k'; cbn; [done|].
    rewrite bind_assoc. unfold bind at 1 3. destruct (screen_putchar x k'); [|done..]. apply IH. }
  rewrite <- for_app. done.
Qed.

Lemma screen_putdec_safe n : screen_safe (screen_putdec (u32 n)).
Proof.
  intros k Hk. destruct (putdec_string (u32 n) k (u32_range n)) as (ds & -> & _).
  by apply screen_putstr_safe.
Qed.

#[export] Instance prints_putdec n : Prints (screen_putdec (u32 n)).
Proof.
  intros k. destruct (putdec_string (u32 n) k (u32_range n)) as (ds & -> & _).
  apply prints_putstr.
Qed.

Lemma screen_puthex_safe n : screen_safe (screen_puthex n).
Proof. intros k Hk. rewrite puthex_string. by apply screen_putstr_safe. Qed.

Lemma clear_cells_on_page blank b :
  (∀ i, is_Some (b !! i) → 0 ≤ i < VGA_WIDTH * VGA_HEIGHT) →
  ∀ i, is_Some (clear_cells blank b !! i) → 0 ≤ i < VGA_WIDTH * VGA_HEIGHT.
Proof.
  intros Hb. unfold clear_cells. apply for_range_inv; [done|].
  intros j b' Hj IH i. destruct (decide (j = i)) as [->|]; [lia|].
  rewrite lookup_insert_ne by done. apply IH.
Qed.

Lemma clear_cells_cell blank b i :
  cell (clear_cells blank b) i =
    if (0 <=? i) && (i <? VGA_WIDTH * VGA_HEIGHT) then blank else cell b i.
Proof.
  unfold clear_cells.
  pose (P := λ n b', ∀ i, cell b' i = if (0 <=? i) && (i <? n) then blank else cell b i).
  match goal with |- cell ?t _ = _ => assert (P (0 + VGA_WIDTH * VGA_HEIGHT) t) as H end.
  { apply for_range_ind; [done| |]; unfold P.
    - intros j. zcases; done.
    - intros j b' Hj IH i'. rewrite cell_insert, IH. zcases; done. }
  apply H.
Qed.

(** [screen_clear] leaves a good screen whatever the cursor was. *)
Lemma screen_clear_ok k :
  (∀ i, is_Some (buffer (k_screen k) !! i) → 0 ≤ i < VGA_WIDTH * VGA_HEIGHT) →
  ∃ s io, screen_clear k = Done tt (with_console s io k) ∧ screen_ok (with_console s io k).
Proof.
  intros Hc. unfold screen_clear, bind, upd_screen, modify. rewrite screen_set_cursor_run.
  do 2 eexists. split; [by destruct k|]. split.
  - split; ksimpl; screen_proj; [screen_consts; lia..|]. apply clear_cells_on_page, Hc.
  - ksimpl; screen_proj.
    apply (crtc_writes_cursor 0 0); screen_consts; lia.
Qed.

Lemma screen_setcolor_safe fg bg : screen_safe (screen_setcolor fg bg).
Proof.
  intros k [[Hx Hy Hc] Hio]. exists (set_color (make_color (u8 fg) (u8 bg)) (k_screen k)), (k_io k).
  split; [by destruct k|]. by split; [split|].
Qed.

Lemma run_screen_cmd_safe cmd : screen_safe (run_screen_cmd cmd).
Proof.
  destruct cmd; cbn; auto using screen_setcolor_safe, screen_putchar_safe,
    screen_putstr_safe, screen_puthex_safe, screen_putdec_safe.
  intros k [[_ _ Hc] _]. by apply screen_clear_ok.
Qed.
#[global] Opaque scroll_blank scroll_copy clear_cells.

(** ** Properties *)

(** A printing character lands in the cell under the cursor with the
    current colours and no other cell changes, except that a character put in
    the bottom-right cell moves every row up by one and blanks the last row;
    the cursor advances, wraps at column 80 and stays on the last row. *)
Theorem screen_putchar_printable c k :
  screen_wf (k_screen k) → is_control c = false →
  ∃ k', screen_putchar c k = Done tt k' ∧ same_but_console k k' ∧
    let s := k_screen k in let s' := k_screen k' in
    let wrap := cursor_x s =? VGA_WIDTH - 1 in
    let scroll := wrap && (cursor_y s =? VGA_HEIGHT - 1) in
    cursor_x s' = (if wrap then 0 else cursor_x s + 1) ∧
    cursor_y s' = (if wrap then Z.min (cursor_y s + 1) (VGA_HEIGHT - 1) else cursor_y s) ∧
    color s' = color s ∧
    ∀ y x, 0 ≤ y < VGA_HEIGHT → 0 ≤ x < VGA_WIDTH →
      at_rc s' y x =
        let src := if scroll then y + 1 else y in
        if src =? VGA_HEIGHT then make_vgaentry 32 (color s)
        else if (src =? cursor_y s) && (x =? cursor_x s) then make_vgaentry c (color s)
        else at_rc s src x.
Proof.
  intros Hwf Hc. rewrite screen_putchar_run. eexists. split; [done|]. split; [auto with word|].
  ksimpl. unfold put_final. rewrite put_effect_printable by done.
  destruct Hwf as [Hx Hy Hcells]. cbv zeta. unfold put_wrap. screen_proj.
  destruct (Z.eqb_spec (cursor_x (k_screen k)) (VGA_WIDTH - 1)) as [Ew|Ew].
  - destruct (Z.leb_spec VGA_WIDTH (cursor_x (k_screen k) + 1)); [|screen_consts; lia].
    screen_proj. rewrite u8_small by (screen_consts; lia).
    destruct (Z.eqb_spec (cursor_y (k_screen k)) (VGA_HEIGHT - 1)) as [Eh|Eh]; cbn [andb].
    + destruct (Z.leb_spec VGA_HEIGHT (cursor_y (k_screen k) + 1)); [|screen_consts; lia].
      split_and!; screen_proj; [done|lia|done|]. intros y x Hy' Hx'.
      etrans; [apply (scrolled_at_rc (set_buffer _ (k_screen k))); done|]. screen_proj.
      destruct (Z.eqb_spec (y + 1) VGA_HEIGHT); [done|].
      apply at_rc_insert; screen_consts; lia.
    + destruct (Z.leb_spec VGA_HEIGHT (cursor_y (k_screen k) + 1)); [screen_consts; lia|].
      split_and!; screen_proj; [done|lia|done|]. intros y x Hy' Hx'.
      destruct (Z.eqb_spec y VGA_HEIGHT); [lia|]. by apply at_rc_insert.
  - destruct (Z.leb_spec VGA_WIDTH (cursor_x (k_screen k) + 1)); [screen_consts; lia|].
    screen_proj. destruct (Z.leb_spec VGA_HEIGHT (cursor_y (k_screen k))); [lia|].
    split_and!; screen_proj; [done|done|done|]. intros y x Hy' Hx'. cbn [andb].
    destruct (Z.eqb_spec y VGA_HEIGHT); [lia|]. by apply at_rc_insert.
Qed.

(** The control characters move the cursor and write no cell: carriage
    return, tab to the next multiple of 8, backspace (without erasing, and not
    past column 0), newline, with the page scrolled when the row runs off. *)
Theorem screen_putchar_control c k :
  screen_wf (k_screen k) → is_control c = true →
  ∃ k', screen_putchar c k = Done tt k' ∧ same_but_console k k' ∧
    let s := k_screen k in let s' := k_screen k' in
    let down := (c =? 10) || ((c =? 9) && (VGA_WIDTH - 8 <=? cursor_x s)) in
    let scroll := down && (cursor_y s =? VGA_HEIGHT - 1) in
    cursor_x s' =
      (if down || (c =? 13) then 0
       else if c =? 9 then (cursor_x s / 8 + 1) * 8
       else Z.max 0 (cursor_x s - 1)) ∧
    cursor_y s' = (if down then Z.min (cursor_y s + 1) (VGA_HEIGHT - 1) else cursor_y s) ∧
    ∀ y x, 0 ≤ y < VGA_HEIGHT → 0 ≤ x < VGA_WIDTH →
      at_rc s' y x =
        if scroll
        then if y + 1 =? VGA_HEIGHT then make_vgaentry 32 (color s) else at_rc s (y + 1) x
        else at_rc s y x.
Proof.
  intros Hwf Hc. rewrite screen_putchar_run. eexists. split; [done|]. split; [auto with word|].
  ksimpl. destruct Hwf as [Hx Hy Hcells]. set (s := k_screen k) in *.
  assert (Hrow : ∀ cx, let s1 := set_cursor_y (u8 (cursor_y s + 1)) (set_cursor_x cx s) in
    let s' := if VGA_HEIGHT <=? cursor_y s1
              then set_cursor_y (VGA_HEIGHT - 1) (scrolled s1) else s1 in
    cursor_x s' = cx ∧ cursor_y s' = Z.min (cursor_y s + 1) (VGA_HEIGHT - 1) ∧
    ∀ y x, 0 ≤ y < VGA_HEIGHT → 0 ≤ x < VGA_WIDTH → at_rc s' y x =
      if cursor_y s =? VGA_HEIGHT - 1
      then if y + 1 =? VGA_HEIGHT then make_vgaentry 32 (color s) else at_rc s (y + 1) x
      else at_rc s y x).
  { intros cx. cbv zeta. screen_proj. rewrite u8_small by (screen_consts; lia).
    destruct (Z.leb_spec VGA_HEIGHT (cursor_y s + 1)),
      (Z.eqb_spec (cursor_y s) (VGA_HEIGHT - 1)); try (screen_consts; lia).
    all: screen_proj; split_and!; [done|lia|]. 2: done.
    intros y x Hy' Hx'. by apply (scrolled_at_rc s). }
  assert (Hstay : ∀ cx, 0 ≤ cx < VGA_WIDTH →
    (let s' := put_wrap (set_cursor_x cx s) in
     (if VGA_HEIGHT <=? cursor_y s' then set_cursor_y (VGA_HEIGHT - 1) (scrolled s') else s')
     = set_cursor_x cx s)).
  { intros cx Hcx. unfold put_wrap. screen_proj. destruct (Z.leb_spec VGA_WIDTH cx); [lia|].
    screen_proj. destruct (Z.leb_spec VGA_HEIGHT (cursor_y s)); [lia|done]. }
  unfold is_control in Hc. unfold put_final, put_effect.
  destruct (c =? 10) eqn:E10; cbn [orb andb].
  { apply (Hrow 0). }
  destruct (Z.eqb_spec c 13) as [->|]; cbn [orb andb Z.eqb Pos.eqb].
  { rewrite Hstay by (screen_consts; lia). split_and!; done. }
  destruct (c =? 9) eqn:E9; cbn [orb andb].
  - rewrite land_tab by (screen_consts; lia).
    destruct (Z.leb_spec (VGA_WIDTH - 8) (cursor_x s)); cbn [orb andb].
    + assert ((cursor_x s / 8 + 1) * 8 = VGA_WIDTH) as -> by (screen_consts; dlia).
      unfold put_wrap. screen_proj. destruct (Z.leb_spec VGA_WIDTH VGA_WIDTH); [|lia].
      apply (Hrow 0).
    + rewrite Hstay by (screen_consts; dlia). split_and!; done.
  - assert ((c =? 8) = true) as E8 by (by destruct (c =? 13)).
    rewrite E8. destruct (Z.ltb_spec 0 (cursor_x s)).
    + rewrite u8_small, Hstay by (screen_consts; lia).
      split_and!; screen_proj; [lia|done..].
    + assert (cursor_x s = 0) as E0 by lia.
      pose proof (Hstay 0 ltac:(screen_consts; lia)) as Hs0.
      assert (set_cursor_x 0 s = s) as Es by (rewrite <- E0; by destruct s).
      rewrite Es in Hs0. cbv zeta in Hs0. rewrite Hs0. split_and!; [lia|done..].
Qed.

(** C11: After [screen_init], any sequence of console commands returns, keeps
    the cursor on the page, has written only cells of the 80x25 page, and leaves
    the CRT controller's cursor address equal to the software cursor. *)
Theorem screen_session_safe cmds k :
  (∀ i, is_Some (buffer (k_screen k) !! i) → 0 ≤ i < VGA_WIDTH * VGA_HEIGHT) →
  ∃ k', (screen_init ;;; for_list cmds run_screen_cmd) k = Done tt k' ∧
    same_but_console k k' ∧ screen_wf (k_screen k') ∧
    crtc_cursor (k_io k') = cursor_y (k_screen k') * VGA_WIDTH + cursor_x (k_screen k').
Proof.
  intros Hk. unfold screen_init, screen_setcolor, upd_screen.
  rewrite bind_assoc. unfold bind at 1, modify.
  match goal with |- ∃ _, (_ ;;; _) ?k1 = _ ∧ _ =>
    destruct (screen_clear_ok k1) as (s1 & io1 & E1 & Hok1); [exact Hk|];
    rewrite (bind_done _ _ _ _ _ E1)
  end.
  destruct (screen_safe_for_list cmds run_screen_cmd run_screen_cmd_safe _ Hok1)
    as (s2 & io2 & E2 & Hwf & Hio).
  eexists. split; [exact E2|]. split; [by destruct k|]. done.
Qed.

(** [screen_putdec] prints the decimal numeral of its argument (at most ten
    digits, no leading zero) and never overruns its 12-byte buffer;
    [screen_puthex] prints "0x" and eight hexadecimal digits of that value. *)
Theorem screen_numbers_print n k :
  0 ≤ n < 4294967296 →
  (∃ ds, screen_putdec n k = screen_putstr ds k ∧ dec_value ds = n ∧
     Forall (λ c, 48 ≤ c < 58) ds ∧ (1 ≤ length ds ≤ 10)%nat ∧ (head ds = Some 48 → ds = [48])) ∧
  (∃ ds, screen_puthex n k = screen_putstr (cstr "0x" ++ ds) k ∧ hex_value ds = n ∧
     length ds = 8%nat ∧ Forall (λ c, 48 ≤ c < 58 ∨ 65 ≤ c < 71) ds).
Proof.
  intros Hn. split; [by apply putdec_string|].
  eexists. split; [apply puthex_string|]. split; [by apply hex_digits_value|]. split; [done|].
  apply Forall_fmap. repeat (apply Forall_cons; [apply hex_char_digit; lia|]). by constructor.
Qed.

(** A VGA cell holds the character in its low byte and the attribute in
    its high byte exactly for 7-bit characters; a character from 0x80 up is
    sign-extended, so its cell gets attribute 0xFF whatever the colour is. *)
Theorem make_vgaentry_attribute c col :
  0 ≤ c < 256 → 0 ≤ col < 256 →
  make_vgaentry c col = (if c <? 128 then col else 0xFF) * 256 + c.
Proof.
  intros Hc Hcol. unfold make_vgaentry. rewrite (u16_small col), Z.shiftl_mul_pow2 by lia.
  change (2 ^ 8) with 256.
  assert (Hor : ∀ lo hi, 0 ≤ lo < 256 → Z.lor lo (hi * 256) = hi * 256 + lo).
  { intros lo hi Hlo. rewrite Z.add_comm, <- Z.add_lor_land.
    enough (Z.land lo (hi * 256) = 0) as -> by lia.
    apply Z.bits_inj'. intros i Hi. change 256 with (2 ^ 8).
    rewrite Z.land_spec, Z.bits_0, Z.mul_pow2_bits by lia.
    destruct (Z.lt_ge_cases i 8).
    - rewrite (Z.testbit_neg_r hi) by lia. apply andb_false_r.
    - destruct (Z.eq_dec lo 0) as [->|]; [by rewrite Z.bits_0|].
      rewrite (Z.bits_above_log2 lo); [done|lia|].
      apply Z.log2_lt_pow2; [lia|]. apply Z.lt_le_trans with (2 ^ 8); [lia|].
      apply Z.pow_le_mono_r; lia. }
  destruct (Z.ltb_spec c 128).
  - rewrite s8_small, (u16_small c), Hor by lia. apply u16_small. lia.
  - assert (u16 (s8 c) = c + 255 * 256) as ->.
    { unfold u16, s8. dlia. }
    assert (Z.lor (c + 255 * 256) (col * 256) = 255 * 256 + c) as ->; [|apply u16_small; lia].
    rewrite (Z.add_comm c), <- Hor, <- Z.lor_assoc by lia.
    f_equal. rewrite <- Z.lor_assoc || idtac.
    change 256 with (2 ^ 8). rewrite <- !Z.shiftl_mul_pow2, <- Z.shiftl_lor by lia. f_equal.
    change 255 with (Z.ones 8). apply Z.bits_inj'. intros i Hi.
    rewrite Z.lor_spec, Z.testbit_ones_nonneg by lia.
    destruct (Z.ltb_spec i 8); [done|].
    destruct (Z.eq_dec col 0) as [->|]; [by rewrite Z.bits_0|].
    rewrite (Z.bits_above_log2 col); [done|lia|].
    apply Z.log2_lt_pow2; [lia|]. apply Z.lt_le_trans with (2 ^ 8); [lia|].
    apply Z.pow_le_mono_r; lia.
Qed.

(** ** Concrete runs *)

Lemma screen_wf_bss : screen_wf (k_screen kernel_bss).
Proof. split; cbn; [screen_consts; lia..|]. intros i [x Hx]. by rewrite lookup_empty in Hx. Qed.

Lemma screen_putchar_printable_witness :
  ∃ k', screen_putchar 65 kernel_bss = Done tt k' ∧
    cursor_x (k_screen k') = 1 ∧ at_rc (k_screen k') 0 0 = make_vgaentry 65 0.
Proof.
  destruct (screen_putchar_printable 65 kernel_bss screen_wf_bss eq_refl)
    as (k' & E & _ & Hx & _ & _ & Hc).
  exists k'. split; [exact E|]. split; [exact Hx|]. apply (Hc 0 0); screen_consts; lia.
Defined.

Lemma screen_putchar_control_witness :
  ∃ k', screen_putchar 9 kernel_bss = Done tt k' ∧ cursor_x (k_screen k') = 8.
Proof.
  destruct (screen_putchar_control 9 kernel_bss screen_wf_bss eq_refl) as (k' & E & _ & Hx & _).
  exists k'. split; [exact E|exact Hx].
Defined.

Lemma screen_session_safe_witness :
  ∃ k', (screen_init ;;; for_list [CmdPutStr (cstr "OK"); CmdPutDec 7] run_screen_cmd) kernel_bss
        = Done tt k' ∧ crtc_cursor (k_io k') = 3.
Proof.
  destruct (screen_session_safe [CmdPutStr (cstr "OK"); CmdPutDec 7] kernel_bss)
    as (k' & E & _ & _ & Hio); [apply screen_wf_bss|].
  exists k'. split; [exact E|]. rewrite Hio.
  assert (match (screen_init ;;; for_list [CmdPutStr (cstr "OK"); CmdPutDec 7] run_screen_cmd)
                  kernel_bss with
          | Done _ k => cursor_y (k_screen k) * VGA_WIDTH + cursor_x (k_screen k)
          | _ => 0 end = 3) as H by (vm_compute; reflexivity).
  rewrite E in H. exact H.
Defined.

Lemma screen_numbers_print_witness :
  ∃ ds, screen_putdec 4294967295 kernel_bss = screen_putstr ds kernel_bss ∧
    dec_value ds = 4294967295.
Proof.
  destruct (screen_numbers_print 4294967295 kernel_bss) as [(ds & E & Hv & _) _]; [lia|].
  exists ds. split; [exact E|exact Hv].
Defined.

Lemma make_vgaentry_attribute_witness : make_vgaentry 0xB0 0x07 = 0xFFB0.
Proof. rewrite make_vgaentry_attribute; [reflexivity|lia..]. Defined.
