(* ===== verification/Pmm.v ===== *)
(** * The physical frame allocator (kernel/pmm.c)

    A bitmap with one bit per 4 KB frame (1 = in use) and a count of free
    frames.  The theorems: what [init_pmm] reserves, the functional behaviour
    of [alloc_frame] and [free_frame] on every branch, and, over all sequences
    of allocations and frees of owned frames, that no frame is handed out twice
    and that the count is exact. *)

From S2P Require Import Prelude Memory Types Machine Screen.
Import ScreenH PmmH.

(** ** Operations *)

Definition word_at (b : gmap Z Z) (i : Z) : Z := default 0 (b !! i).

Definition BITMAP_INDEX (bit : Z) : Z := bit / 32.
Definition BITMAP_OFFSET (bit : Z) : Z := bit mod 32.
Definition BITMAP_SET (bit : Z) (b : gmap Z Z) : gmap Z Z :=
  <[BITMAP_INDEX bit :=
     u32 (Z.lor (word_at b (BITMAP_INDEX bit)) (Z.shiftl 1 (BITMAP_OFFSET bit)))]> b.
Definition BITMAP_CLEAR (bit : Z) (b : gmap Z Z) : gmap Z Z :=
  <[BITMAP_INDEX bit :=
     u32 (Z.land (word_at b (BITMAP_INDEX bit)) (Z.lnot (Z.shiftl 1 (BITMAP_OFFSET bit))))]> b.
Definition BITMAP_TEST (bit : Z) (b : gmap Z Z) : Z :=
  Z.land (word_at b (BITMAP_INDEX bit)) (Z.shiftl 1 (BITMAP_OFFSET bit)).

Definition upd_pmm (f : pmm_manager_t → pmm_manager_t) : K unit :=
  modify (λ k, set_pmm (f (k_pmm k)) k).

Definition set_bitmap (b : gmap Z Z) (p : pmm_manager_t) : pmm_manager_t :=
  mk_pmm (total_memory p) (total_pages p) (free_pages p) b (initialized p).
Definition set_free_pages (n : Z) (p : pmm_manager_t) : pmm_manager_t :=
  mk_pmm (total_memory p) (total_pages p) n (bitmap p) (initialized p).
Definition set_initialized (b : bool) (p : pmm_manager_t) : pmm_manager_t :=
  mk_pmm (total_memory p) (total_pages p) (free_pages p) (bitmap p) b.

(** [for (i = 0; i < n; i++) { BITMAP_SET(start + i); pmm.free_pages--; }] *)
Definition reserve_pages (start n : Z) (p : pmm_manager_t) : pmm_manager_t :=
  for_range 0 n (λ i p,
    set_free_pages (u32 (free_pages p - 1)) (set_bitmap (BITMAP_SET (start + i) (bitmap p)) p)) p.

(** Words of the bitmap, rounded up to a multiple of four. *)
Definition bitmap_words (pages : Z) : Z :=
  Z.land (u32 (u32 (pages + 31) / 32 + 3)) (u32 (Z.lnot 3)).

Definition BITMAP_ADDR : Z := 0x200000.

Definition zero_words (n : Z) (b : gmap Z Z) : gmap Z Z :=
  for_range 0 n (λ i b, <[i := 0]> b) b.

(** The frames the bitmap itself takes. *)
Definition bitmap_pages (words : Z) : Z := u32 (u32 (words * 4) + PAGE_SIZE - 1) / PAGE_SIZE.

(** The assignments of [init_pmm], lines 20-57. *)
Definition init_pmm_state (total_memory_kb : Z) (p : pmm_manager_t) : pmm_manager_t :=
  let total_memory := u32 (total_memory_kb * 1024) in
  let total_pages := total_memory / PAGE_SIZE in
  let bitmap_size := bitmap_words total_pages in
  let p := mk_pmm total_memory total_pages total_pages (bitmap p) (initialized p) in
  let p := set_bitmap (zero_words bitmap_size (bitmap p)) p in
  let p := reserve_pages 0 256 p in
  let p := reserve_pages (BITMAP_ADDR / PAGE_SIZE) (bitmap_pages bitmap_size) p in
  let p := reserve_pages (0x100000 / PAGE_SIZE) 256 p in
  set_initialized true p.

Definition init_pmm (total_memory_kb : Z) : K unit :=
  screen_putstr (cstr "Initializing Physical Memory Manager... ") ;;;
  upd_pmm (init_pmm_state total_memory_kb) ;;;
  let* p := gets k_pmm in
  screen_setcolor COLOR_LIGHT_GREEN COLOR_BLACK ;;;
  screen_putstr (cstr "OK" ++ [10]) ;;;
  screen_setcolor COLOR_LIGHT_GREY COLOR_BLACK ;;;
  screen_putstr (cstr "  Total memory: ") ;;;
  screen_putdec (u32 (total_memory p / 1024 / 1024)) ;;;
  screen_putstr (cstr " MB" ++ [10]) ;;;
  screen_putstr (cstr "  Total pages: ") ;;;
  screen_putdec (u32 (total_pages p)) ;;;
  screen_putstr (cstr " (") ;;;
  screen_putdec (u32 (u32 (total_pages p * PAGE_SIZE) / 1024)) ;;;
  screen_putstr (cstr " KB)" ++ [10]) ;;;
  screen_putstr (cstr "  Free pages: ") ;;;
  screen_putdec (u32 (free_pages p)) ;;;
  screen_putstr (cstr " (") ;;;
  screen_putdec (u32 (u32 (free_pages p * PAGE_SIZE) / 1024)) ;;;
  screen_putstr (cstr " KB)" ++ [10]).

(** The scan of [alloc_frame]: the first clear bit among [n] bits from [i]. *)
Fixpoint find_clear (n : nat) (i : Z) (b : gmap Z Z) : option Z :=
  match n with
  | O => None
  | S n => if BITMAP_TEST i b =? 0 then Some i else find_clear n (i + 1) b
  end.

Definition alloc_frame : K Z :=
  let* p := gets k_pmm in
  if negb (initialized p) then
    screen_setcolor COLOR_LIGHT_RED COLOR_BLACK ;;;
    screen_putstr (cstr "PMM not initialized!" ++ [10]) ;;;
    ret NULL
  else if free_pages p =? 0 then
    screen_setcolor COLOR_LIGHT_RED COLOR_BLACK ;;;
    screen_putstr (cstr "Out of physical memory!" ++ [10]) ;;;
    ret NULL
  else
    match find_clear (Z.to_nat (total_pages p)) 0 (bitmap p) with
    | Some i =>
        upd_pmm (λ p, set_bitmap (BITMAP_SET i (bitmap p)) p) ;;;
        upd_pmm (λ p, set_free_pages (u32 (free_pages p - 1)) p) ;;;
        ret (u32 (i * PAGE_SIZE))
    | None => ret NULL
    end.

Definition free_frame (frame : Z) : K unit :=
  let* p := gets k_pmm in
  if negb (initialized p) || (frame =? NULL) then ret tt
  else
    let index := u32 frame / PAGE_SIZE in
    if total_pages p <=? index then
      screen_setcolor COLOR_LIGHT_RED COLOR_BLACK ;;;
      screen_putstr (cstr "Invalid frame to free: ") ;;;
      screen_puthex (u32 frame) ;;;
      screen_putstr [10]
    else if BITMAP_TEST index (bitmap p) =? 0 then
      screen_setcolor COLOR_YELLOW COLOR_BLACK ;;;
      screen_putstr (cstr "Warning: Double free of frame ") ;;;
      screen_puthex (u32 frame) ;;;
      screen_putstr [10]
    else
      upd_pmm (λ p, set_bitmap (BITMAP_CLEAR index (bitmap p)) p) ;;;
      upd_pmm (λ p, set_free_pages (u32 (free_pages p + 1)) p).

Definition alloc_frames (count : Z) : K Z :=
  let* p := gets k_pmm in
  if (count =? 0) || (free_pages p <? count) then ret NULL
  else
    let* frame := alloc_frame in
    if frame =? NULL then ret NULL else ret frame.

(** What is stored through [info] when it is not NULL. *)
Definition get_pmm_info (info : bool) : K (option pmm_info_t) :=
  let* p := gets k_pmm in
  ret (if info
       then Some (mk_pmm_info (total_memory p) (total_pages p) (free_pages p)
                              (u32 (total_pages p - free_pages p)))
       else None).

Definition show_memory_status : K unit :=
  let* p := gets k_pmm in
  screen_setcolor COLOR_LIGHT_CYAN COLOR_BLACK ;;;
  screen_putstr ([10] ++ cstr "Physical Memory Status:" ++ [10]) ;;;
  screen_setcolor COLOR_LIGHT_GREY COLOR_BLACK ;;;
  screen_putstr (cstr "  Total: ") ;;;
  screen_putdec (u32 (total_memory p / 1024)) ;;;
  screen_putstr (cstr " KB (") ;;;
  screen_putdec (u32 (total_memory p / 1024 / 1024)) ;;;
  screen_putstr (cstr " MB)" ++ [10]) ;;;
  screen_putstr (cstr "  Free:  ") ;;;
  screen_putdec (u32 (u32 (free_pages p * PAGE_SIZE) / 1024)) ;;;
  screen_putstr (cstr " KB (") ;;;
  screen_putdec (u32 (free_pages p)) ;;;
  screen_putstr (cstr " pages)" ++ [10]) ;;;
  screen_putstr (cstr "  Used:  ") ;;;
  screen_putdec (u32 (u32 (u32 (total_pages p - free_pages p) * PAGE_SIZE) / 1024)) ;;;
  screen_putstr (cstr " KB" ++ [10]) ;;;
  screen_putstr ([10] ++ cstr "Memory bitmap (first 32 pages): ") ;;;
  for_list (seqZ 0 32) (λ i,
    (if i mod 8 =? 0 then screen_putstr (cstr " ") else ret tt) ;;;
    screen_putchar (if BITMAP_TEST i (bitmap p) =? 0 then 46 else 88)) ;;;
  screen_putstr [10].

#[global] Arguments init_pmm : simpl never.
#[global] Arguments alloc_frame : simpl never.
#[global] Arguments free_frame : simpl never.
#[global] Arguments alloc_frames : simpl never.
#[global] Arguments show_memory_status : simpl never.
#[global] Arguments init_pmm_state : simpl never.

(** ** Bits of the bitmap *)

Definition frame_used (b : gmap Z Z) (i : Z) : bool :=
  Z.testbit (word_at b (BITMAP_INDEX i)) (BITMAP_OFFSET i).

Lemma offset_range i : 0 ≤ BITMAP_OFFSET i < 32.
Proof. apply Z.mod_pos_bound. lia. Qed.

Lemma word_at_insert b i j v : word_at (<[i := v]> b) j = if i =? j then v else word_at b j.
Proof.
  unfold word_at. destruct (Z.eqb_spec i j) as [->|].
  - by rewrite lookup_insert_eq.
  - by rewrite lookup_insert_ne.
Qed.

Lemma index_offset_inj i j :
  BITMAP_INDEX i = BITMAP_INDEX j → BITMAP_OFFSET i = BITMAP_OFFSET j → i = j.
Proof. unfold BITMAP_INDEX, BITMAP_OFFSET. dlia. Qed.

Lemma bitmap_test_used i b : (BITMAP_TEST i b =? 0) = negb (frame_used b i).
Proof. apply land_shiftl_1_eqb, offset_range. Qed.

Lemma used_set i j b : frame_used (BITMAP_SET i b) j = frame_used b j || (i =? j).
Proof.
  unfold frame_used, BITMAP_SET. rewrite word_at_insert.
  pose proof (offset_range i). pose proof (offset_range j).
  destruct (Z.eqb_spec (BITMAP_INDEX i) (BITMAP_INDEX j)) as [Ei|Ei].
  - rewrite testbit_u32, testbit_lor_shiftl_1, Ei by lia. f_equal.
    destruct (Z.eqb_spec (BITMAP_OFFSET i) (BITMAP_OFFSET j)) as [Eo|Eo].
    + rewrite (index_offset_inj i j) by done. by rewrite Z.eqb_refl.
    + symmetry. apply Z.eqb_neq. congruence.
  - rewrite (proj2 (Z.eqb_neq i j)) by congruence. by rewrite orb_false_r.
Qed.

Lemma used_clear i j b : frame_used (BITMAP_CLEAR i b) j = frame_used b j && negb (i =? j).
Proof.
  unfold frame_used, BITMAP_CLEAR. rewrite word_at_insert.
  pose proof (offset_range i). pose proof (offset_range j).
  destruct (Z.eqb_spec (BITMAP_INDEX i) (BITMAP_INDEX j)) as [Ei|Ei].
  - rewrite testbit_u32, testbit_ldiff_shiftl_1, Ei by lia. do 2 f_equal.
    destruct (Z.eqb_spec (BITMAP_OFFSET i) (BITMAP_OFFSET j)) as [Eo|Eo].
    + rewrite (index_offset_inj i j) by done. by rewrite Z.eqb_refl.
    + symmetry. apply Z.eqb_neq. congruence.
  - rewrite (proj2 (Z.eqb_neq i j)) by congruence. by rewrite andb_true_r.
Qed.

(** ** The set of free frames and the invariant *)

Definition free_set (p : pmm_manager_t) : gset Z :=
  list_to_set (filter (λ i, frame_used (bitmap p) i = false) (seqZ 0 (total_pages p))).

Lemma elem_of_free_set p i :
  i ∈ free_set p ↔ 0 ≤ i < total_pages p ∧ frame_used (bitmap p) i = false.
Proof.
  unfold free_set. rewrite elem_of_list_to_set, list_elem_of_filter, elem_of_seqZ.
  rewrite Z.add_0_l. tauto.
Qed.

Record pmm_inv (p : pmm_manager_t) : Prop := {
  pmm_init : initialized p = true;
  pmm_pages : 0 ≤ total_pages p < 1048576;
  pmm_count : free_pages p = Z.of_nat (size (free_set p)) }.

Lemma size_free_set_le p : 0 ≤ total_pages p → Z.of_nat (size (free_set p)) ≤ total_pages p.
Proof.
  intros. unfold free_set. rewrite size_list_to_set.
  - pose proof (length_filter (λ i, frame_used (bitmap p) i = false) (seqZ 0 (total_pages p))).
    rewrite length_seqZ in *. lia.
  - apply list.NoDup_filter, NoDup_seqZ.
Qed.

Lemma size_empty_iff (s : gset Z) : Z.of_nat (size s) = 0 ↔ s = ∅.
Proof. split; [intros H; apply leibniz_equiv, size_empty_inv; lia|by intros ->]. Qed.

(** The frame [alloc_frame] takes: the least element of the free set. *)
Definition is_least (i : Z) (s : gset Z) : Prop := i ∈ s ∧ ∀ j, j ∈ s → i ≤ j.

Lemma find_clear_some n : ∀ i b j,
  find_clear n i b = Some j →
  i ≤ j < i + Z.of_nat n ∧ frame_used b j = false ∧
  ∀ l, i ≤ l < j → frame_used b l = true.
Proof.
  induction n as [|n IH]; intros i b j; cbn [find_clear]; [done|].
  rewrite bitmap_test_used. destruct (frame_used b i) eqn:Ei; cbn [negb].
  - intros H. apply IH in H as (Hr & Hu & Hl). split; [lia|]. split; [done|].
    intros l Hl'. destruct (Z.eq_dec l i) as [->|]; [done|]. apply Hl. lia.
  - intros [= <-]. split; [lia|]. split; [done|]. lia.
Qed.

Lemma find_clear_none n : ∀ i b,
  find_clear n i b = None → ∀ l, i ≤ l < i + Z.of_nat n → frame_used b l = true.
Proof.
  induction n as [|n IH]; intros i b; cbn [find_clear]; [lia|].
  rewrite bitmap_test_used. destruct (frame_used b i) eqn:Ei; cbn [negb]; [|done].
  intros H l Hl. destruct (Z.eq_dec l i) as [->|]; [done|]. apply (IH (i + 1)); [done|lia].
Qed.

(** The state after taking frame [i], and after returning it. *)
Definition take_frame (i : Z) (p : pmm_manager_t) : pmm_manager_t :=
  set_free_pages (u32 (free_pages p - 1)) (set_bitmap (BITMAP_SET i (bitmap p)) p).
Definition give_frame (i : Z) (p : pmm_manager_t) : pmm_manager_t :=
  set_free_pages (u32 (free_pages p + 1)) (set_bitmap (BITMAP_CLEAR i (bitmap p)) p).

Lemma free_set_take i p : free_set (take_frame i p) = free_set p ∖ {[i]}.
Proof.
  apply set_eq. intros j. rewrite elem_of_difference, !elem_of_free_set, elem_of_singleton.
  cbn. rewrite used_set, orb_false_iff, Z.eqb_neq. intuition congruence.
Qed.

Lemma free_set_give i p :
  0 ≤ i < total_pages p → free_set (give_frame i p) = {[i]} ∪ free_set p.
Proof.
  intros Hi. apply set_eq. intros j.
  rewrite elem_of_union, !elem_of_free_set, elem_of_singleton. cbn.
  rewrite used_clear, andb_false_iff, negb_false_iff, Z.eqb_eq.
  split; [intros [H1 [H2 | H2]]; auto|]. intros [-> | [? ?] ]; auto.
Qed.

Lemma pmm_inv_take i p : pmm_inv p → i ∈ free_set p → pmm_inv (take_frame i p).
Proof.
  intros [Hi Hp Hc] Hin. split; [done|done|].
  rewrite free_set_take, size_difference by (by apply singleton_subseteq_l).
  rewrite size_singleton.
  pose proof (size_free_set_le p ltac:(lia)).
  pose proof (gset_size_pos (free_set p) i ltac:(done)).
  cbn. rewrite Hc. rewrite u32_small; lia.
Qed.

Lemma pmm_inv_give i p :
  pmm_inv p → 0 ≤ i < total_pages p → i ∉ free_set p → pmm_inv (give_frame i p).
Proof.
  intros [Hi Hp Hc] Hr Hin. split; [done|done|].
  rewrite free_set_give by done.
  rewrite size_union by (by apply disjoint_singleton_l). rewrite size_singleton.
  pose proof (size_free_set_le p ltac:(lia)). cbn. rewrite Hc. rewrite u32_small; lia.
Qed.

#[export] Hint Resolve pmm_inv_take pmm_inv_give : word.

(** ** Running the operations *)

Lemma alloc_frame_run k :
  pmm_inv (k_pmm k) →
  (free_set (k_pmm k) = ∅ ∧
     ∃ k', alloc_frame k = Done NULL k' ∧ same_but_console k k') ∨
  (∃ i, is_least i (free_set (k_pmm k)) ∧
     alloc_frame k = Done (i * PAGE_SIZE) (set_pmm (take_frame i (k_pmm k)) k)).
Proof.
  intros Hinv. pose proof Hinv as [Hi Hp Hc]. unfold alloc_frame. rewrite !bind_gets.
  rewrite Hi. cbn [negb]. destruct (Z.eqb_spec (free_pages (k_pmm k)) 0) as [E0|E0].
  - left. split; [apply size_empty_iff; lia|].
    do 2 print_step. eexists. split; [done|]. by destruct k.
  - right. destruct (find_clear _ _ _) as [i|] eqn:E.
    + apply find_clear_some in E as (Hr & Hu & Hl). exists i. split; [split|].
      * apply elem_of_free_set. split; [lia|done].
      * intros j [Hj Hju]%elem_of_free_set. destruct (Z.le_gt_cases i j); [done|].
        rewrite Hl in Hju by lia. done.
      * rewrite u32_small by (unfold PAGE_SIZE; lia). by destruct k.
    + exfalso. apply E0. rewrite Hc. apply size_empty_iff. apply set_eq. intros j.
      rewrite elem_of_free_set. split; [|set_solver]. intros [Hj Hju].
      rewrite (find_clear_none _ _ _ E j) in Hju by lia. done.
Qed.

(** Without the invariant: [alloc_frame] returns, and keeps the heap and the page
    tables. *)
Lemma alloc_frame_frame k :
  ∃ f k', alloc_frame k = Done f k' ∧ k_heap k' = k_heap k ∧ k_mem k' = k_mem k ∧
    k_paging k' = k_paging k.
Proof.
  unfold alloc_frame. rewrite bind_gets.
  destruct (negb _); [do 2 print_step; by eexists _, _|].
  destruct (_ =? 0); [do 2 print_step; by eexists _, _|].
  destruct (find_clear _ _ _); by eexists _, _.
Qed.

Lemma free_frame_run frame k :
  pmm_inv (k_pmm k) → 0 < frame < 4294967296 →
  let i := frame / PAGE_SIZE in
  (i < total_pages (k_pmm k) ∧ (i ∉ free_set (k_pmm k)) ∧
     free_frame frame k = Done tt (set_pmm (give_frame i (k_pmm k)) k)) ∨
  ((total_pages (k_pmm k) ≤ i ∨ i ∈ free_set (k_pmm k)) ∧
     ∃ k', free_frame frame k = Done tt k' ∧ same_but_console k k').
Proof.
  intros [Hi Hp Hc] Hf. cbv zeta. unfold free_frame. rewrite !bind_gets, Hi.
  destruct (Z.eqb_spec frame NULL); [unfold NULL in *; lia|]. cbn [negb orb].
  rewrite (u32_small frame) by lia.
  assert (0 ≤ frame / PAGE_SIZE) by (apply Z.div_pos; unfold PAGE_SIZE; lia).
  destruct (Z.leb_spec (total_pages (k_pmm k)) (frame / PAGE_SIZE)).
  - right. split; [by left|]. print_last.
    eexists. split; [done|]. by destruct k.
  - rewrite bitmap_test_used. destruct (frame_used _ _) eqn:Eu; cbn [negb].
    + left. split; [done|]. split; [intros [_ ?]%elem_of_free_set; congruence|]. by destruct k.
    + right. split; [right; by apply elem_of_free_set|].
      print_last. eexists. split; [done|]. by destruct k.
Qed.

(** ** What initialisation reserves *)

Lemma zero_words_at n b i : word_at (zero_words n b) i = if (0 <=? i) && (i <? n) then 0 else word_at b i.
Proof.
  unfold zero_words. destruct (Z.le_gt_cases 0 n).
  - pose (P := λ m b', ∀ i, word_at b' i = if (0 <=? i) && (i <? m) then 0 else word_at b i).
    match goal with |- word_at ?t _ = _ => assert (P (0 + n) t) as H' end; [|apply H'].
    apply for_range_ind; [done| |]; unfold P.
    + intros j. zcases; done.
    + intros j b' Hj IH l. rewrite word_at_insert, IH. zcases; done.
  - unfold for_range. rewrite seqZ_nil by lia. cbn. zcases; done.
Qed.

Lemma reserve_pages_spec start n p :
  0 ≤ n →
  let p' := reserve_pages start n p in
  total_pages p' = total_pages p ∧ total_memory p' = total_memory p ∧
  initialized p' = initialized p ∧
  u32 (free_pages p') = u32 (free_pages p - n) ∧
  (0 < n → u32 (free_pages p') = free_pages p') ∧
  ∀ j, frame_used (bitmap p') j = frame_used (bitmap p) j || ((start <=? j) && (j <? start + n)).
Proof.
  intros Hn. unfold reserve_pages. cbv zeta.
  pose (P := λ m p', total_pages p' = total_pages p ∧ total_memory p' = total_memory p ∧
    initialized p' = initialized p ∧ u32 (free_pages p') = u32 (free_pages p - m) ∧
    (0 < m → u32 (free_pages p') = free_pages p') ∧
    ∀ j, frame_used (bitmap p') j = frame_used (bitmap p) j || ((start <=? j) && (j <? start + m))).
  match goal with |- context [for_range 0 n ?b p] => assert (P (0 + n) (for_range 0 n b p)) as H end;
    [|exact H].
  apply for_range_ind; [done| |]; unfold P.
  - split_and!; try done; [by rewrite Z.sub_0_r|].
    intros j. zcases; by rewrite orb_false_r.
  - intros i p' Hi (H1 & H2 & H3 & H4 & _ & H5). cbn. split_and!; try done.
    + rewrite u32_idemp, <- u32_sub_l, H4, u32_sub_l. f_equal. lia.
    + by rewrite u32_idemp.
    + intros j. rewrite used_set, H5, <- orb_assoc. f_equal. zcases; done.
Qed.

(** The words cover every page of the machine. *)
Lemma bitmap_words_cover pages :
  0 ≤ pages < 1048576 →
  (pages + 31) / 32 ≤ bitmap_words pages < (pages + 31) / 32 + 4 ∧
  bitmap_words pages mod 4 = 0.
Proof.
  intros Hp. unfold bitmap_words. rewrite (u32_small (pages + 31)) by lia. rewrite u32_small by dlia.
  change (u32 (Z.lnot 3)) with (Z.shiftl (Z.ones 30) 2).
  set (x := (pages + 31) / 32 + 3). assert (0 ≤ x < 2 ^ 30) by (unfold x; change (2 ^ 30) with 1073741824; dlia).
  assert (Z.land x (Z.shiftl (Z.ones 30) 2) = x / 4 * 4) as ->; [|dlia].
  change 4 with (2 ^ 2). rewrite <- Z.shiftr_div_pow2, <- Z.shiftl_mul_pow2 by lia.
  apply Z.bits_inj'. intros i Hi. rewrite Z.land_spec, !Z.shiftl_spec by lia.
  destruct (Z.lt_ge_cases i 2).
  - rewrite !(Z.testbit_neg_r _ (i - 2)) by lia. apply andb_false_r.
  - rewrite Z.shiftr_spec, Z.testbit_ones_nonneg by lia. replace (i - 2 + 2) with i by lia.
    destruct (Z.ltb_spec (i - 2) 30); [by rewrite andb_true_r|]. rewrite andb_false_r.
    destruct (Z.eq_dec x 0) as [->|]; [by rewrite Z.bits_0|].
    rewrite Z.bits_above_log2; [done|lia|]. apply Z.log2_lt_pow2; [lia|].
    apply Z.lt_le_trans with (2 ^ 30); [lia|]. apply Z.pow_le_mono_r; lia.
Qed.

(** The pages of a machine with [kb] KB, and how many of them [init_pmm]
    reserves: the first MB, the kernel's MB and the bitmap. *)
Definition machine_pages (kb : Z) : Z := u32 (kb * 1024) / PAGE_SIZE.
Definition reserved_pages (kb : Z) : Z := 512 + bitmap_pages (bitmap_words (machine_pages kb)).

Lemma machine_pages_range kb : 0 ≤ machine_pages kb < 1048576.
Proof. unfold machine_pages, PAGE_SIZE. pose proof (u32_range (kb * 1024)). dlia. Qed.

Lemma bitmap_pages_range pages :
  0 ≤ pages < 1048576 → 0 ≤ bitmap_pages (bitmap_words pages) ≤ 33.
Proof.
  intros Hp. destruct (bitmap_words_cover pages Hp) as [Hw _].
  unfold bitmap_pages, PAGE_SIZE. rewrite (u32_small (_ * 4)) by dlia.
  rewrite u32_small by dlia. dlia.
Qed.

Lemma init_pmm_state_spec kb p :
  let p' := init_pmm_state kb p in
  initialized p' = true ∧ total_memory p' = u32 (kb * 1024) ∧
  total_pages p' = machine_pages kb ∧
  free_pages p' = u32 (machine_pages kb - reserved_pages kb) ∧
  ∀ i, 0 ≤ i < machine_pages kb →
    frame_used (bitmap p') i = (i <? reserved_pages kb).
Proof.
  pose proof (machine_pages_range kb) as Hr.
  pose proof (bitmap_pages_range _ Hr) as Hb.
  unfold init_pmm_state. cbv zeta. fold (machine_pages kb).
  set (p1 := set_bitmap _ _).
  destruct (reserve_pages_spec 0 256 p1 ltac:(lia)) as (A1 & A2 & A3 & A4 & A6 & A5).
  set (p2 := reserve_pages 0 256 p1) in *.
  destruct (reserve_pages_spec (BITMAP_ADDR / PAGE_SIZE)
    (bitmap_pages (bitmap_words (machine_pages kb))) p2 ltac:(lia)) as (B1 & B2 & B3 & B4 & B6 & B5).
  set (p3 := reserve_pages (BITMAP_ADDR / PAGE_SIZE) _ p2) in *.
  destruct (reserve_pages_spec (0x100000 / PAGE_SIZE) 256 p3 ltac:(lia)) as (C1 & C2 & C3 & C4 & C6 & C5).
  set (p4 := reserve_pages (0x100000 / PAGE_SIZE) 256 p3) in *.
  cbn [set_initialized initialized total_memory total_pages free_pages bitmap].
  split_and!; [done|by rewrite C2, B2, A2|by rewrite C1, B1, A1| |].
  - rewrite <- C6, C4 by lia. rewrite (u32_sub_eq _ _ _ B4).
    replace (free_pages p2 - _ - 256) with
      (free_pages p2 - (bitmap_pages (bitmap_words (machine_pages kb)) + 256)) by lia.
    rewrite (u32_sub_eq _ _ _ A4).
    cbn [p1 set_bitmap free_pages]. unfold reserved_pages. f_equal. lia.
  - intros i Hi. rewrite C5, B5, A5. unfold frame_used at 1. cbn [p1 set_bitmap bitmap].
    destruct (bitmap_words_cover _ Hr) as [Hw _].
    rewrite zero_words_at. pose proof (offset_range i).
    destruct (Z.leb_spec 0 (BITMAP_INDEX i)); [|unfold BITMAP_INDEX in *; dlia].
    destruct (Z.ltb_spec (BITMAP_INDEX i) (bitmap_words (machine_pages kb)));
      [|unfold BITMAP_INDEX in *; dlia].
    cbn [andb]. rewrite Z.bits_0. unfold reserved_pages.
    change (0x100000 / PAGE_SIZE) with 256. change (BITMAP_ADDR / PAGE_SIZE) with 512.
    zcases; done.
Qed.

Lemma init_pmm_inv kb p :
  reserved_pages kb ≤ machine_pages kb →
  pmm_inv (init_pmm_state kb p) ∧
  ∀ i, i ∈ free_set (init_pmm_state kb p) ↔ reserved_pages kb ≤ i < machine_pages kb.
Proof.
  intros Hle. destruct (init_pmm_state_spec kb p) as (H1 & H2 & H3 & H4 & H5).
  pose proof (machine_pages_range kb) as Hr.
  pose proof (bitmap_pages_range _ Hr) as Hb.
  assert (Hset : ∀ i, i ∈ free_set (init_pmm_state kb p) ↔
            reserved_pages kb ≤ i < machine_pages kb).
  { intros i. rewrite elem_of_free_set, H3. split.
    - intros [Hi Hu]. rewrite H5 in Hu by done. apply Z.ltb_ge in Hu. lia.
    - intros Hi. assert (0 ≤ i) by (unfold reserved_pages in Hi; lia).
      split; [lia|]. rewrite H5 by lia. apply Z.ltb_ge. lia. }
  split; [|done]. split; [done|lia|].
  rewrite H4. replace (free_set (init_pmm_state kb p)) with
    (list_to_set (seqZ (reserved_pages kb) (machine_pages kb - reserved_pages kb)) : gset Z).
  - rewrite size_list_to_set by apply NoDup_seqZ. rewrite length_seqZ.
    unfold reserved_pages in *. rewrite u32_small; lia.
  - apply set_eq. intros i. rewrite elem_of_list_to_set, elem_of_seqZ, Hset. lia.
Qed.

#[export] Instance prints_gets_pmm f :
  (∀ p, Prints (f p)) → Prints (bind (gets k_pmm) f).
Proof. intros H k. apply (H (k_pmm k)). Qed.

Lemma init_pmm_run kb k :
  ∃ s io, init_pmm kb k = Done tt (with_console s io (set_pmm (init_pmm_state kb (k_pmm k)) k)).
Proof.
  unfold init_pmm, upd_pmm. print_step. rewrite bind_modify.
  edestruct @prints as (s' & io' & -> & _); [apply _|].
  do 2 eexists. by destruct k.
Qed.

(** ** Clients

    A client allocates frames and frees only frames it owns; [owned] is the
    set of addresses it holds. *)
Inductive client_step : kernel * gset Z → kernel * gset Z → Prop :=
| client_alloc k k' owned f :
    alloc_frame k = Done f k' → f ≠ NULL → client_step (k, owned) (k', {[f]} ∪ owned)
| client_alloc_fail k k' owned :
    alloc_frame k = Done NULL k' → client_step (k, owned) (k', owned)
| client_free k k' owned f :
    f ∈ owned → free_frame f k = Done tt k' → client_step (k, owned) (k', owned ∖ {[f]}).

(** The frames [lo], ..., [hi - 1] are either free or owned, never both. *)
Record client_inv (lo hi : Z) (k : kernel) (owned : gset Z) : Prop := {
  ci_pmm : pmm_inv (k_pmm k);
  ci_total : total_pages (k_pmm k) = hi;
  ci_owned : ∀ f, f ∈ owned → ∃ i, f = i * PAGE_SIZE ∧ lo ≤ i < hi ∧ (i ∉ free_set (k_pmm k));
  ci_free : ∀ i, i ∈ free_set (k_pmm k) → lo ≤ i < hi;
  ci_count : Z.of_nat (size (free_set (k_pmm k))) + Z.of_nat (size owned) = hi - lo }.

Lemma client_inv_same lo hi k k' owned :
  k_pmm k' = k_pmm k → client_inv lo hi k owned → client_inv lo hi k' owned.
Proof. intros E [H1 H2 H3 H4 H5]. split; by rewrite ?E. Qed.

Lemma same_but_console_pmm k k' : same_but_console k k' → k_pmm k' = k_pmm k.
Proof. by intros ->. Qed.

Lemma client_inv_take lo hi k owned i :
  0 < lo → client_inv lo hi k owned → i ∈ free_set (k_pmm k) →
  (i * PAGE_SIZE ∉ owned) ∧
  client_inv lo hi (set_pmm (take_frame i (k_pmm k)) k) ({[i * PAGE_SIZE]} ∪ owned).
Proof.
  intros Hlo [Hpmm Hth Ho Hf Hc] Hi.
  assert (Hni : i * PAGE_SIZE ∉ owned).
  { intros (j & Ej & _ & Hj)%Ho. unfold PAGE_SIZE in Ej. by replace j with i in Hj by lia. }
  split; [done|]. split; ksimpl; [auto with word|done| | |].
  - intros f [->%elem_of_singleton|Hof]%elem_of_union.
    + exists i. rewrite free_set_take. split; [done|]. split; [by apply Hf|]. set_solver.
    + destruct (Ho f Hof) as (j & -> & Hj & Hjf). exists j. rewrite free_set_take. set_solver.
  - intros j. rewrite free_set_take. intros [Hj _]%elem_of_difference. by apply Hf.
  - rewrite free_set_take, size_difference by (by apply singleton_subseteq_l).
    rewrite size_union by (by apply disjoint_singleton_l). rewrite !size_singleton.
    pose proof (gset_size_pos (free_set (k_pmm k)) i ltac:(done)).
    lia.
Qed.

Lemma client_inv_give lo hi k owned i :
  0 < lo → client_inv lo hi k owned → i * PAGE_SIZE ∈ owned →
  client_inv lo hi (set_pmm (give_frame i (k_pmm k)) k) (owned ∖ {[i * PAGE_SIZE]}).
Proof.
  intros Hlo [Hpmm Hth Ho Hf Hc] Hin.
  destruct (Ho _ Hin) as (j & Ej & Hj & Hjf). assert (j = i) as -> by (unfold PAGE_SIZE in *; lia).
  assert (Hi : 0 ≤ i < total_pages (k_pmm k)) by lia.
  split; ksimpl; [by apply pmm_inv_give|done| | |].
  - intros f [Hof Hne]%elem_of_difference. destruct (Ho f Hof) as (l & -> & Hl & Hlf).
    exists l. rewrite free_set_give by done. set_solver.
  - intros l. rewrite free_set_give by done.
    intros [->%elem_of_singleton|Hl]%elem_of_union; [done|]. by apply Hf.
  - rewrite free_set_give by done.
    rewrite size_union by (by apply disjoint_singleton_l).
    rewrite size_difference by (by apply singleton_subseteq_l). rewrite !size_singleton.
    pose proof (gset_size_pos owned _ Hin).
    lia.
Qed.

Lemma client_inv_step lo hi s s' :
  0 < lo → client_inv lo hi s.1 s.2 → client_step s s' → client_inv lo hi s'.1 s'.2.
Proof.
  intros Hlo Hinv Hs. destruct Hs as [k k' o f E Hf|k k' o E|k k' o f Hf E]; cbn [fst snd] in *.
  - destruct (alloc_frame_run k (ci_pmm _ _ _ _ Hinv)) as [(_ & k1 & E1 & _)|(i & [Hi _] & E1)];
      rewrite E in E1; injection E1 as -> ->; [done|].
    by apply client_inv_take.
  - destruct (alloc_frame_run k (ci_pmm _ _ _ _ Hinv)) as [(_ & k1 & E1 & Hk)|(i & [Hi _] & E1)];
      rewrite E in E1; injection E1.
    + intros ->. apply (client_inv_same lo hi k); [by apply same_but_console_pmm|done].
    + intros _ E0. pose proof (ci_free _ _ _ _ Hinv i Hi). unfold NULL, PAGE_SIZE in *. lia.
  - destruct (ci_owned _ _ _ _ Hinv f Hf) as (i & -> & Hi & Hif).
    pose proof (pmm_pages _ (ci_pmm _ _ _ _ Hinv)) as Hp. pose proof (ci_total _ _ _ _ Hinv) as Ht.
    destruct (free_frame_run (i * PAGE_SIZE) k (ci_pmm _ _ _ _ Hinv)) as [(_ & _ & E1)|[Hbad _]].
    { unfold PAGE_SIZE. lia. }
    + rewrite E in E1. injection E1 as ->. rewrite Z.div_mul by done. by apply client_inv_give.
    + rewrite Z.div_mul in Hbad by done. destruct Hbad; [lia|done].
Qed.

(** ** Properties *)

(** [init_pmm] records the machine's pages (the memory size is taken
    modulo 4 GB), marks exactly the first MB, the kernel's MB and the frames of
    the bitmap as used whatever garbage the bitmap memory held, and touches
    nothing but the allocator and the console; on a machine that has the
    reserved frames the free count is exact. *)
Theorem init_pmm_reserves kb k :
  ∃ k' p', init_pmm kb k = Done tt k' ∧ same_but_console (set_pmm p' k) k' ∧ k_pmm k' = p' ∧
    initialized p' = true ∧ total_memory p' = u32 (kb * 1024) ∧
    total_pages p' = machine_pages kb ∧
    (∀ i, 0 ≤ i < total_pages p' → frame_used (bitmap p') i = (i <? reserved_pages kb)) ∧
    (reserved_pages kb ≤ machine_pages kb →
       pmm_inv p' ∧ free_pages p' = machine_pages kb - reserved_pages kb).
Proof.
  destruct (init_pmm_run kb k) as (s & io & E).
  destruct (init_pmm_state_spec kb (k_pmm k)) as (H1 & H2 & H3 & H4 & H5).
  exists (with_console s io (set_pmm (init_pmm_state kb (k_pmm k)) k)), (init_pmm_state kb (k_pmm k)).
  split_and!; [done|auto with word|done..|by rewrite H3|].
  intros Hle. destruct (init_pmm_inv kb (k_pmm k) Hle) as [Hinv _]. split; [done|].
  rewrite H4. pose proof (machine_pages_range kb) as Hr. pose proof (bitmap_pages_range _ Hr).
  unfold reserved_pages in *. apply u32_small. lia.
Qed.

(** On a machine with fewer pages than [init_pmm] reserves (under about
    2 MB) the unsigned free count wraps below zero: it exceeds the number of
    pages, and [alloc_frame], finding every bit set, returns NULL although the
    count is not zero. *)
Theorem init_pmm_small_machine kb k k' :
  machine_pages kb < reserved_pages kb → init_pmm kb k = Done tt k' →
  total_pages (k_pmm k') < free_pages (k_pmm k') ∧ alloc_frame k' = Done NULL k'.
Proof.
  intros Hlt E. destruct (init_pmm_run kb k) as (s & io & E'). rewrite E in E'. injection E' as ->.
  destruct (init_pmm_state_spec kb (k_pmm k)) as (H1 & _ & H3 & H4 & H5).
  pose proof (machine_pages_range kb) as Hr. pose proof (bitmap_pages_range _ Hr) as Hb.
  set (p' := init_pmm_state kb (k_pmm k)) in *. ksimpl.
  assert (Hfree : free_pages p' = machine_pages kb - reserved_pages kb + 4294967296).
  { rewrite H4. unfold u32, reserved_pages in *.
    rewrite <- (Z_mod_plus_full _ 1), Z.mod_small; lia. }
  unfold reserved_pages in *. split; [lia|].
  unfold alloc_frame. rewrite bind_gets. ksimpl. rewrite H1. cbn [negb].
  destruct (Z.eqb_spec (free_pages p') 0); [lia|].
  destruct (find_clear _ 0 (bitmap p')) as [i|] eqn:Ef; [|done].
  apply find_clear_some in Ef as (Hi & Hu & _). rewrite H5 in Hu by lia.
  apply Z.ltb_ge in Hu. lia.
Qed.

(** On an initialised allocator [alloc_frame] returns the lowest free
    frame and marks only that frame, or, when there is none, NULL with the
    allocator unchanged; the exact count is preserved, and no other part of the
    kernel changes. *)
Theorem alloc_frame_lowest k :
  pmm_inv (k_pmm k) →
  ∃ f k', alloc_frame k = Done f k' ∧ pmm_inv (k_pmm k') ∧
    same_but_console (set_pmm (k_pmm k') k) k' ∧
    ((free_set (k_pmm k) = ∅ ∧ f = NULL ∧ k_pmm k' = k_pmm k) ∨
     (∃ i, is_least i (free_set (k_pmm k)) ∧ f = i * PAGE_SIZE ∧
        free_set (k_pmm k') = free_set (k_pmm k) ∖ {[i]} ∧
        free_pages (k_pmm k') = free_pages (k_pmm k) - 1)).
Proof.
  intros Hinv. destruct (alloc_frame_run k Hinv) as [(Hemp & k' & E & Hk)|(i & Hleast & E)].
  - exists NULL, k'. pose proof (same_but_console_pmm _ _ Hk) as Ep. rewrite Ep.
    split_and!; [done|done| |by left].
    by replace (set_pmm (k_pmm k) k) with k by (by destruct k).
  - eexists _, _. split; [exact E|]. ksimpl. pose proof (proj1 Hleast).
    assert (Hinv' : pmm_inv (take_frame i (k_pmm k))) by auto with word.
    split_and!; [done|done|]. right. exists i. split_and!; [done|done|apply free_set_take|].
    cbn. rewrite (pmm_count _ Hinv). pose proof (pmm_pages _ Hinv).
    pose proof (size_free_set_le (k_pmm k) ltac:(lia)).
    pose proof (gset_size_pos (free_set (k_pmm k)) i ltac:(done)).
    apply u32_small. lia.
Qed.

(** [free_frame] of a frame in use (its address may point anywhere into the
    frame) makes exactly that frame free again; NULL, a frame past the end of
    memory and a frame already free leave the allocator unchanged. *)
Theorem free_frame_branches frame k :
  pmm_inv (k_pmm k) → 0 ≤ frame < 4294967296 →
  ∃ k', free_frame frame k = Done tt k' ∧ pmm_inv (k_pmm k') ∧
    same_but_console (set_pmm (k_pmm k') k) k' ∧
    let i := frame / PAGE_SIZE in
    if (frame =? NULL) || (total_pages (k_pmm k) <=? i) || negb (frame_used (bitmap (k_pmm k)) i)
    then k_pmm k' = k_pmm k
    else free_set (k_pmm k') = {[i]} ∪ free_set (k_pmm k) ∧
         free_pages (k_pmm k') = free_pages (k_pmm k) + 1.
Proof.
  intros Hinv Hf. assert (Hsame : ∀ k', same_but_console k k' →
    same_but_console (set_pmm (k_pmm k') k) k').
  { intros k' Hk. rewrite (same_but_console_pmm _ _ Hk).
    by replace (set_pmm (k_pmm k) k) with k by (by destruct k). }
  destruct (Z.eqb_spec frame NULL) as [->|Hnz].
  { exists k. cbn [orb]. split; [|split_and!; [done|by apply Hsame|done]].
    unfold free_frame. rewrite bind_gets. by rewrite orb_true_r. }
  assert (Hi : 0 ≤ frame / PAGE_SIZE) by (apply Z.div_pos; unfold PAGE_SIZE; lia).
  unfold NULL in Hnz. cbn [orb].
  destruct (free_frame_run frame k Hinv ltac:(lia)) as [(Hlt & Hni & E)|(Hor & k' & E & Hk)].
  - assert (Hu : frame_used (bitmap (k_pmm k)) (frame / PAGE_SIZE) = true).
    { destruct (frame_used _ _) eqn:E'; [done|]. exfalso. by apply Hni, elem_of_free_set. }
    eexists. split; [exact E|]. ksimpl. split; [by apply pmm_inv_give|]. split; [done|].
    rewrite Hu, (proj2 (Z.leb_gt _ _) Hlt). cbn [orb negb].
    split; [by apply free_set_give|].
    cbn. rewrite (pmm_count _ Hinv). pose proof (pmm_pages _ Hinv).
    pose proof (size_free_set_le (k_pmm k) ltac:(lia)). apply u32_small. lia.
  - exists k'. pose proof (same_but_console_pmm _ _ Hk) as Ep. rewrite Ep.
    split_and!; [done|done|rewrite <- Ep; by apply Hsame|].
    destruct Hor as [Hle|[_ Hu]%elem_of_free_set].
    + by rewrite (proj2 (Z.leb_le _ _) Hle).
    + by rewrite Hu, orb_true_r.
Qed.

(** C5: After [init_pmm], along every sequence of allocations and of frees of
    owned frames: an allocation never returns a frame that is still owned or
    reserved, fails only when no frame is left, and the free count is the number
    of unreserved frames not owned. *)
Theorem no_double_allocation kb k0 k1 k owned :
  reserved_pages kb ≤ machine_pages kb → init_pmm kb k0 = Done tt k1 →
  rtc client_step (k1, ∅) (k, owned) →
  free_pages (k_pmm k) = machine_pages kb - reserved_pages kb - Z.of_nat (size owned) ∧
  ∃ f k', alloc_frame k = Done f k' ∧ (f ∉ owned) ∧
    (f = NULL ↔ free_pages (k_pmm k) = 0) ∧
    (f ≠ NULL → ∃ i, f = i * PAGE_SIZE ∧ reserved_pages kb ≤ i < machine_pages kb).
Proof.
  intros Hle Einit Hrun.
  pose proof (machine_pages_range kb) as Hr. pose proof (bitmap_pages_range _ Hr) as Hb.
  assert (Hlo : 0 < reserved_pages kb) by (unfold reserved_pages; lia).
  assert (Hinv : client_inv (reserved_pages kb) (machine_pages kb) k owned).
  { change k with (k, owned).1. change owned with (k, owned).2 at 2.
    refine (rtc_ind_r (λ s, client_inv _ _ s.1 s.2) (k1, ∅) _ _ _ Hrun).
    2:{ intros s s' _ Hs Hi. by apply (client_inv_step _ _ s). }
    destruct (init_pmm_run kb k0) as (s & io & E). rewrite Einit in E. injection E as ->.
    destruct (init_pmm_inv kb (k_pmm k0) Hle) as [Hi Hset].
    destruct (init_pmm_state_spec kb (k_pmm k0)) as (_ & _ & H3 & H4 & _).
    revert Hi Hset H3 H4. generalize (init_pmm_state kb (k_pmm k0)). intros p' Hi Hset H3 H4.
    split; cbn [fst snd]; ksimpl; [done|done|set_solver| |].
    - intros i Hin. by apply Hset.
    - rewrite size_empty, <- (pmm_count _ Hi), H4. rewrite u32_small; lia. }
  destruct Hinv as [Hpmm Hth Ho Hf Hc].
  pose proof (pmm_count _ Hpmm) as Hcount. split; [lia|].
  destruct (alloc_frame_run k Hpmm) as [(Hemp & k' & E & _)|(i & [Hi _] & E)].
  - exists NULL, k'. split; [done|]. split.
    + intros (j & Ej & Hj & _)%Ho. unfold NULL, PAGE_SIZE in *. lia.
    + split; [|done]. split; [|done]. intros _. rewrite Hcount, Hemp. done.
  - exists (i * PAGE_SIZE). eexists. split; [exact E|]. pose proof (Hf i Hi). split_and!.
    + intros (j & Ej & _ & Hj)%Ho. unfold PAGE_SIZE in Ej. by replace j with i in Hj by lia.
    + split; [unfold NULL, PAGE_SIZE; lia|].
      rewrite Hcount, size_empty_iff. intros E0. by rewrite E0 in Hi.
    + intros _. by exists i.
Qed.

(** ** Concrete runs *)

Definition pmm0 : kernel := after (init_pmm 4096) kernel_bss.

Lemma pmm0_run : init_pmm 4096 kernel_bss = Done tt pmm0.
Proof. destruct (init_pmm_run 4096 kernel_bss) as (s & io & E). exact (after_run _ _ _ _ E). Qed.

Record pmm0_facts (k : kernel) : Prop := {
  p0_inv : pmm_inv (k_pmm k);
  p0_free i : i ∈ free_set (k_pmm k) ↔ 513 ≤ i < 1024;
  p0_pages : total_pages (k_pmm k) = 1024;
  p0_count : free_pages (k_pmm k) = 511;
  p0_paging : k_paging k = k_paging kernel_bss }.

Lemma pmm0_spec : pmm0_facts pmm0.
Proof.
  destruct (init_pmm_run 4096 kernel_bss) as (s & io & E).
  assert (Hle : reserved_pages 4096 ≤ machine_pages 4096) by (vm_compute; congruence).
  destruct (init_pmm_inv 4096 (k_pmm kernel_bss) Hle) as [Hinv Hset].
  destruct (init_pmm_state_spec 4096 (k_pmm kernel_bss)) as (_ & _ & H3 & H4 & _).
  pose proof (after_eq _ _ _ _ E : pmm0 = _) as Ek. clear E Hle.
  revert Ek Hinv Hset H3 H4. generalize (init_pmm_state 4096 (k_pmm kernel_bss)) pmm0.
  intros p k -> Hinv Hset H3 H4.
  change (reserved_pages 4096) with 513 in *. change (machine_pages 4096) with 1024 in *.
  split; ksimpl; [exact Hinv|exact Hset|exact H3|rewrite H4; vm_compute; reflexivity|reflexivity].
Qed.

#[global] Opaque pmm0.

Lemma init_pmm_reserves_witness :
  reserved_pages 4096 = 513 ∧ machine_pages 4096 = 1024 ∧
  ∃ k' p', init_pmm 4096 kernel_bss = Done tt k' ∧ k_pmm k' = p' ∧ free_pages p' = 511.
Proof.
  split; [reflexivity|]. split; [reflexivity|].
  destruct (init_pmm_reserves 4096 kernel_bss) as (k' & p' & E & _ & Ep & _ & _ & _ & _ & Hf).
  exists k', p'. split; [exact E|]. split; [exact Ep|].
  destruct Hf as [_ Hf]; [vm_compute; congruence|]. rewrite Hf. reflexivity.
Defined.

Lemma pmm0_inv : pmm_inv (k_pmm pmm0).
Proof. apply pmm0_spec. Qed.

(** The state after one allocation. *)
Definition pmm1 : kernel := after alloc_frame pmm0.

Lemma pmm1_take : alloc_frame pmm0 = Done 2101248 (set_pmm (take_frame 513 (k_pmm pmm0)) pmm0).
Proof.
  pose proof pmm0_spec as [Hinv Hfree _ _ _].
  destruct (alloc_frame_run pmm0 Hinv) as [(He & _)|(i & [Hi Hl] & E)].
  - assert (H : 513 ∈ free_set (k_pmm pmm0)) by (apply Hfree; lia).
    rewrite He in H. destruct (not_elem_of_empty 513 H).
  - apply Hfree in Hi. pose proof (Hl 513 (proj2 (Hfree 513) ltac:(lia))).
    replace i with 513 in E by lia. exact E.
Qed.

Lemma pmm1_eq : pmm1 = set_pmm (take_frame 513 (k_pmm pmm0)) pmm0.
Proof. unfold pmm1. apply (after_eq alloc_frame pmm0 2101248). apply pmm1_take. Qed.

Lemma pmm1_run : alloc_frame pmm0 = Done 2101248 pmm1.
Proof. rewrite pmm1_eq. apply pmm1_take. Qed.

#[global] Opaque pmm1.

Lemma pmm1_inv : pmm_inv (k_pmm pmm1).
Proof.
  rewrite pmm1_eq. apply pmm_inv_take; [apply pmm0_inv|]. apply (p0_free _ pmm0_spec). lia.
Qed.

Lemma init_pmm_small_machine_witness :
  ∃ k', init_pmm 1024 kernel_bss = Done tt k' ∧
    total_pages (k_pmm k') < free_pages (k_pmm k') ∧ alloc_frame k' = Done NULL k'.
Proof.
  destruct (init_pmm_run 1024 kernel_bss) as (s & io & E).
  eexists. split; [exact E|]. apply (init_pmm_small_machine 1024 kernel_bss); [|exact E].
  vm_compute. reflexivity.
Defined.

Lemma alloc_frame_lowest_witness :
  ∃ f k', alloc_frame pmm0 = Done f k' ∧ pmm_inv (k_pmm k') ∧ f = 2101248.
Proof.
  destruct (alloc_frame_lowest pmm0 pmm0_inv) as (f & k' & E & Hi & _).
  exists f, k'. split; [exact E|]. split; [exact Hi|].
  rewrite pmm1_run in E. apply Done_inj in E as [<- _]. reflexivity.
Defined.

Lemma pmm1_frees k (F : pmm0_facts k) (p := take_frame 513 (k_pmm k)) :
  (2101250 =? NULL) || (total_pages p <=? 2101250 / PAGE_SIZE) ||
    negb (frame_used (bitmap p) (2101250 / PAGE_SIZE)) = false ∧
  u32 (free_pages p + 1) = 512 - 1.
Proof.
  change (2101250 / PAGE_SIZE) with 513. subst p. unfold take_frame. cbn [total_pages bitmap free_pages set_free_pages set_bitmap].
  rewrite (p0_pages _ F), (p0_count _ F), used_set by lia. by rewrite orb_true_r.
Qed.

Lemma free_frame_branches_witness :
  ∃ k', free_frame 2101250 pmm1 = Done tt k' ∧ pmm_inv (k_pmm k') ∧
    free_pages (k_pmm k') = 511.
Proof.
  destruct (free_frame_branches 2101250 pmm1 pmm1_inv) as (k' & E & Hi & _ & Hb); [lia|].
  exists k'. split; [exact E|]. split; [exact Hi|].
  destruct (pmm1_frees pmm0 pmm0_spec) as [Hc Hn]. cbv zeta in Hb.
  rewrite pmm1_eq in Hb. cbn [k_pmm set_pmm] in Hb. rewrite Hc in Hb. destruct Hb as [_ Hb].
  rewrite Hb. exact Hn.
Defined.

Lemma no_double_allocation_witness :
  ∃ f k', alloc_frame pmm1 = Done f k' ∧ f ∉ ({[2101248]} ∪ ∅ : gset Z).
Proof.
  destruct (no_double_allocation 4096 kernel_bss pmm0 pmm1 ({[2101248]} ∪ ∅))
    as (_ & f & k' & E & Hf & _).
  - vm_compute. congruence.
  - exact pmm0_run.
  - apply rtc_once, client_alloc; [exact pmm1_run|discriminate].
  - exists f, k'. split; [exact E|exact Hf].
Defined.
