(* ===== verification/Kheap.v ===== *)
(** * The kernel heap (kernel/kheap.c)

    Blocks tile the heap region; each starts with a 16-byte [block_header_t]
    and the headers form a doubly linked list in address order.  The model works
    on the bytes of memory.  The abstract specification is a list of blocks with
    first-fit allocation and full coalescing on free; the theorems show that
    [kmalloc] and [kfree] refine it, that payloads are in bounds, aligned,
    disjoint and preserved, that an allocation undone restores the heap, and
    what happens when the size computations wrap. *)

From S2P Require Import Prelude Memory Types Machine Mmu Screen Pmm.
Import ScreenH KheapH.

(** ** Operations *)

Definition upd_heap (f : heap_t → heap_t) : K unit :=
  modify (λ k, set_heap (f (k_heap k)) k).
Definition set_used (u : Z) (h : heap_t) : heap_t := mk_heap (heap_start h) (heap_size h) u.

(** Field accesses through a [block_header_t *]. *)
Definition get_size (b : Z) : K Z := load32 (b + off_size).
Definition get_is_free (b : Z) : K Z := load8 (b + off_is_free).
Definition get_next (b : Z) : K Z := load32 (b + off_next).
Definition get_prev (b : Z) : K Z := load32 (b + off_prev).
Definition put_size (b v : Z) : K unit := store32 (b + off_size) v.
Definition put_is_free (b v : Z) : K unit := store8 (b + off_is_free) v.
Definition put_next (b v : Z) : K unit := store32 (b + off_next) v.
Definition put_prev (b v : Z) : K unit := store32 (b + off_prev) v.

(** [size = (size + 7) & ~7; size += sizeof(block_header_t);] *)
Definition block_need (size : Z) : Z :=
  u32 (Z.land (u32 (size + 7)) (u32 (Z.lnot 7)) + sizeof_block_header).

(** Lines 80-94: cut the tail of [current] off as a new free block. *)
Definition split_block (current size : Z) : K unit :=
  let new_block := u32 (current + size) in
  let* cur_size := get_size current in
  put_size new_block (u32 (cur_size - size)) ;;;
  put_is_free new_block 1 ;;;
  let* next := get_next current in
  put_next new_block next ;;;
  put_prev new_block current ;;;
  let* next := get_next current in
  (if next =? NULL then ret tt
   else let* next := get_next current in put_prev next new_block) ;;;
  put_size current size ;;;
  put_next current new_block.

(** The search loop of [kmalloc], lines 75-111. *)
Fixpoint kmalloc_loop (fuel : nat) (size current : Z) : K Z :=
  match fuel with
  | O => spin
  | S fuel =>
      if current =? NULL then
        screen_setcolor COLOR_YELLOW COLOR_BLACK ;;;
        screen_putstr (cstr "Heap fragmentation! Attempting to expand heap..." ++ [10]) ;;;
        ret NULL
      else
        let* is_free := get_is_free current in
        let* cur_size := get_size current in
        if negb (is_free =? 0) && (size <=? cur_size) then
          (if u32 (size + sizeof_block_header + 8) <=? cur_size
           then split_block current size else ret tt) ;;;
          put_is_free current 0 ;;;
          let* cur_size := get_size current in
          upd_heap (λ h, set_used (u32 (heap_used h + cur_size)) h) ;;;
          ret (u32 (current + sizeof_block_header))
        else
          let* next := get_next current in
          kmalloc_loop fuel size next
  end.

Definition kmalloc (fuel : nat) (size : Z) : K Z :=
  let* start := gets (λ k, heap_start (k_heap k)) in
  kmalloc_loop fuel (block_need size) start.

(** Lines 182-189. *)
Definition merge_next (block : Z) : K unit :=
  let* next := get_next block in
  let* next_free := (if next =? NULL then ret 0 else get_is_free next) in
  if next_free =? 0 then ret tt
  else
    let* size := get_size block in
    let* next := get_next block in
    let* next_size := get_size next in
    put_size block (u32 (size + next_size)) ;;;
    let* next_next := get_next next in
    put_next block next_next ;;;
    let* next := get_next block in
    if next =? NULL then ret tt else put_prev next block.

(** Lines 192-199. *)
Definition merge_prev (block : Z) : K unit :=
  let* prev := get_prev block in
  let* prev_free := (if prev =? NULL then ret 0 else get_is_free prev) in
  if prev_free =? 0 then ret tt
  else
    let* prev_size := get_size prev in
    let* size := get_size block in
    put_size prev (u32 (prev_size + size)) ;;;
    let* next := get_next block in
    put_next prev next ;;;
    let* next := get_next block in
    if next =? NULL then ret tt
    else let* prev := get_prev block in put_prev next prev.

Definition kfree (ptr : Z) : K unit :=
  if ptr =? NULL then ret tt
  else
    let block := u32 (ptr - sizeof_block_header) in
    let* is_free := get_is_free block in
    if negb (is_free =? 0) then
      screen_setcolor COLOR_YELLOW COLOR_BLACK ;;;
      screen_putstr (cstr "Warning: Double free detected!" ++ [10])
    else
      put_is_free block 1 ;;;
      let* size := get_size block in
      upd_heap (λ h, set_used (u32 (heap_used h - size)) h) ;;;
      merge_next block ;;;
      merge_prev block.

Definition krealloc (fuel : nat) (ptr size : Z) : K Z :=
  if ptr =? NULL then kmalloc fuel size
  else if size =? 0 then kfree ptr ;;; ret NULL
  else
    let block := u32 (ptr - sizeof_block_header) in
    let* block_size := get_size block in
    let old_size := u32 (block_size - sizeof_block_header) in
    if size <=? old_size then ret ptr
    else
      let* new_ptr := kmalloc fuel size in
      if new_ptr =? NULL then ret NULL
      else
        modify (λ k, set_mem (memcpy (k_mem k) new_ptr ptr old_size) k) ;;;
        kfree ptr ;;;
        ret new_ptr.

Definition kcalloc (fuel : nat) (num size : Z) : K Z :=
  let total := u32 (num * size) in
  let* ptr := kmalloc fuel total in
  (if ptr =? NULL then ret tt
   else modify (λ k, set_mem (memset (k_mem k) ptr 0 total) k)) ;;;
  ret ptr.

(** Lines 26-30 and 48-52: the header of a first block of [size] bytes at [b].  The
    first accesses to a region may find it unmapped and fault. *)
Definition init_block (b size : Z) : K unit :=
  touch (b + off_size) 4 ;;; put_size b size ;;;
  touch (b + off_is_free) 1 ;;; put_is_free b 1 ;;;
  touch (b + off_next) 4 ;;; put_next b NULL ;;;
  touch (b + off_prev) 4 ;;; put_prev b NULL.

(** [init_kheap] maps its region through [get_kernel_page_dir] and a
    four-argument [map_page], which [include/paging.h] declares and no source
    file defines: [map_kernel_page virt phys flags] stands for the pair. *)
Section InitKheap.
Variable map_kernel_page : Z → Z → Z → K unit.

Definition init_kheap (start size : Z) : K unit :=
  screen_putstr (cstr "Initializing Kernel Heap... ") ;;;
  upd_heap (λ _, mk_heap start size sizeof_block_header) ;;;
  init_block start size ;;;
  upd_heap (λ h, mk_heap 0xD0000000 0x10000000 (heap_used h)) ;;;
  for_list (seqZ 0 (0x10000000 / PmmH.PAGE_SIZE)) (λ i,
    let* phys := alloc_frame in
    if phys =? NULL then ret tt
    else map_kernel_page (u32 (0xD0000000 + i * PmmH.PAGE_SIZE)) phys
           (Z.lor PagingH.PAGE_PRESENT PagingH.PAGE_WRITE)) ;;;
  let* h := gets k_heap in
  init_block (heap_start h) (heap_size h) ;;;
  screen_setcolor COLOR_LIGHT_GREEN COLOR_BLACK ;;;
  screen_putstr (cstr "OK" ++ [10]) ;;;
  screen_setcolor COLOR_LIGHT_GREY COLOR_BLACK ;;;
  screen_putstr (cstr "  Heap: ") ;;;
  screen_puthex (heap_start h) ;;;
  screen_putstr (cstr " - ") ;;;
  screen_puthex (u32 (heap_start h + heap_size h)) ;;;
  screen_putstr (cstr " (") ;;;
  screen_putdec (u32 (heap_size h / 1024 / 1024)) ;;;
  screen_putstr (cstr " MB)" ++ [10]).

End InitKheap.

(** The listing loop of [show_heap_status], and the counts it prints. *)
Fixpoint show_blocks (fuel : nat) (block block_count free_blocks : Z) : K (Z * Z) :=
  match fuel with
  | O => spin
  | S fuel =>
      if block =? NULL then ret (block_count, free_blocks)
      else
        let* size := get_size block in
        let* is_free := get_is_free block in
        screen_putstr (cstr "  Block ") ;;;
        screen_putdec (u32 block_count) ;;;
        screen_putstr (cstr ": ") ;;;
        screen_puthex block ;;;
        screen_putstr (cstr " - ") ;;;
        screen_puthex (u32 (block + size)) ;;;
        screen_putstr (cstr " (") ;;;
        screen_putdec (u32 size) ;;;
        screen_putstr (cstr " bytes) ") ;;;
        screen_putstr (if is_free =? 0 then cstr "[USED]" else cstr "[FREE]") ;;;
        screen_putstr [10] ;;;
        let* next := get_next block in
        show_blocks fuel next (u32 (block_count + 1))
          (if is_free =? 0 then free_blocks else u32 (free_blocks + 1))
  end.

(** A zero [size] makes the percentage a division by zero. *)
Definition show_heap_status (fuel : nat) : K unit :=
  screen_setcolor COLOR_LIGHT_CYAN COLOR_BLACK ;;;
  screen_putstr ([10] ++ cstr "Heap Status:" ++ [10]) ;;;
  screen_setcolor COLOR_LIGHT_GREY COLOR_BLACK ;;;
  let* h := gets k_heap in
  screen_putstr (cstr "  Start: ") ;;;
  screen_puthex (heap_start h) ;;;
  screen_putstr [10] ;;;
  screen_putstr (cstr "  Size:  ") ;;;
  screen_putdec (u32 (heap_size h / 1024)) ;;;
  screen_putstr (cstr " KB" ++ [10]) ;;;
  screen_putstr (cstr "  Used:  ") ;;;
  screen_putdec (u32 (heap_used h / 1024)) ;;;
  screen_putstr (cstr " KB (") ;;;
  (if heap_size h =? 0 then fault
   else screen_putdec (u32 (u32 (heap_used h * 100) / heap_size h))) ;;;
  screen_putstr (cstr "%)" ++ [10]) ;;;
  screen_putstr (cstr "  Free:  ") ;;;
  screen_putdec (u32 (u32 (heap_size h - heap_used h) / 1024)) ;;;
  screen_putstr (cstr " KB" ++ [10]) ;;;
  screen_putstr ([10] ++ cstr "Memory blocks:" ++ [10]) ;;;
  let* counts := show_blocks fuel (heap_start h) 0 0 in
  screen_putstr (cstr "  Total blocks: ") ;;;
  screen_putdec (u32 counts.1) ;;;
  screen_putstr (cstr ", Free blocks: ") ;;;
  screen_putdec (u32 counts.2) ;;;
  screen_putstr [10].

#[global] Arguments kmalloc : simpl never.
#[global] Arguments kfree : simpl never.
#[global] Arguments krealloc : simpl never.
#[global] Arguments kcalloc : simpl never.

(** ** Abstract specification: block lists *)

Record blk := mk_blk { b_addr : Z; b_size : Z; b_free : bool }.

(** What a free block becomes when it serves a request of [need] bytes, header
    included: it is split when 24 bytes or more are left. *)
Definition serve (need : Z) (b : blk) : list blk :=
  if need + 24 <=? b_size b
  then [mk_blk (b_addr b) need false; mk_blk (b_addr b + need) (b_size b - need) true]
  else [mk_blk (b_addr b) (b_size b) false].

(** First fit. *)
Fixpoint alloc_blocks (need : Z) (bs : list blk) : option (Z * list blk) :=
  match bs with
  | [] => None
  | b :: bs =>
      if b_free b && (need <=? b_size b) then Some (b_addr b, serve need b ++ bs)
      else
        match alloc_blocks need bs with
        | Some (a, bs') => Some (a, b :: bs')
        | None => None
        end
  end.

(** Freeing: the block is marked free and all adjacent free blocks merge. *)
Definition mark_free (a : Z) (bs : list blk) : list blk :=
  (λ b, if b_addr b =? a then mk_blk a (b_size b) true else b) <$> bs.

Definition cons_merge (b : blk) (bs : list blk) : list blk :=
  match bs with
  | c :: bs' =>
      if b_free b && b_free c then mk_blk (b_addr b) (b_size b + b_size c) true :: bs'
      else b :: bs
  | [] => [b]
  end.

Definition coalesce (bs : list blk) : list blk := foldr cons_merge [] bs.

(** Well-formed block lists: they tile the region, no two neighbours are both
    free. *)
Fixpoint tiles (lo : Z) (bs : list blk) (hi : Z) : Prop :=
  match bs with
  | [] => lo = hi
  | b :: bs =>
      b_addr b = lo ∧ 16 ≤ b_size b ∧ b_size b mod 8 = 0 ∧ tiles (lo + b_size b) bs hi
  end.

Fixpoint coalesced (bs : list blk) : Prop :=
  match bs with
  | b :: (c :: _) as bs => (b_free b = true → b_free c = true → False) ∧ coalesced bs
  | _ => True
  end.

(** Bytes in used blocks, headers included. *)
Definition used_bytes (bs : list blk) : Z :=
  foldr (λ b acc, (if b_free b then 0 else b_size b) + acc) 0 bs.

Lemma tiles_app lo l r hi : tiles lo (l ++ r) hi ↔ ∃ mid, tiles lo l mid ∧ tiles mid r hi.
Proof.
  revert lo. induction l as [|b l IH]; intros lo; cbn.
  - split; [eauto|]. by intros (? & -> & ?).
  - rewrite IH. firstorder eauto.
Qed.

Lemma tiles_le lo bs hi : tiles lo bs hi → lo ≤ hi.
Proof.
  revert lo. induction bs as [|b bs IH]; intros lo; cbn; [lia|].
  intros (_ & H1 & _ & H2%IH). lia.
Qed.

Lemma tiles_elem lo bs hi b :
  tiles lo bs hi → b ∈ bs → lo ≤ b_addr b ∧ 16 ≤ b_size b ∧ b_addr b + b_size b ≤ hi.
Proof.
  revert lo. induction bs as [|c bs IH]; intros lo; cbn; [by intros _ ?%elem_of_nil|].
  intros (Ha & Hs & _ & Ht) [->|Hb]%elem_of_cons.
  - apply tiles_le in Ht. lia.
  - destruct (IH _ Ht Hb). lia.
Qed.

Lemma tiles_aligned lo bs hi b : lo mod 8 = 0 → tiles lo bs hi → b ∈ bs → b_addr b mod 8 = 0.
Proof.
  revert lo. induction bs as [|c bs IH]; intros lo Hlo; cbn; [by intros _ ?%elem_of_nil|].
  intros (Ha & _ & Hm & Ht) [->|Hb]%elem_of_cons; [by rewrite Ha|].
  apply (IH (lo + b_size c)); [dlia|done..].
Qed.

(** Two blocks of a tiling are the same or disjoint. *)
Lemma tiles_disjoint lo bs hi b c :
  tiles lo bs hi → b ∈ bs → c ∈ bs →
  b = c ∨ b_addr b + b_size b ≤ b_addr c ∨ b_addr c + b_size c ≤ b_addr b.
Proof.
  revert lo. induction bs as [|d bs IH]; intros lo; cbn; [by intros _ ?%elem_of_nil|].
  intros (Ha & Hs & _ & Ht) [->|Hb]%elem_of_cons [->|Hc]%elem_of_cons.
  - by left.
  - right; left. destruct (tiles_elem _ _ _ _ Ht Hc). lia.
  - right; right. destruct (tiles_elem _ _ _ _ Ht Hb). lia.
  - by apply (IH _ Ht).
Qed.

Lemma coalesced_cons b bs : coalesced (b :: bs) → coalesced bs.
Proof. destruct bs; [done|]. by intros [_ ?]. Qed.

Lemma coalesced_app_r l r : coalesced (l ++ r) → coalesced r.
Proof. induction l as [|b l IH]; [done|]. intros H%coalesced_cons. by apply IH. Qed.

Lemma coalesce_id bs : coalesced bs → coalesce bs = bs.
Proof.
  induction bs as [|b bs IH]; [done|]. intros H.
  change (coalesce (b :: bs)) with (cons_merge b (coalesce bs)). rewrite IH by (by eapply coalesced_cons). destruct bs as [|c bs]; [done|].
  destruct H as [H _]. cbn. destruct (b_free b), (b_free c); [by destruct H|done..].
Qed.

(** The first block and its flag, as far as coalescing sees it. *)
Definition head_free (bs : list blk) : bool :=
  match bs with b :: _ => b_free b | [] => false end.

(** Coalescing in front of an already coalesced suffix whose head has the flag
    the old suffix had does nothing more. *)
Lemma coalesce_prefix l p r Y :
  coalesced (l ++ p :: r) → coalesce Y = Y → head_free Y = b_free p →
  coalesce (l ++ Y) = l ++ Y.
Proof.
  intros Hc HY Hh. induction l as [|b l IH]; [done|].
  pose proof (coalesced_cons _ _ Hc) as Hc'.
  change (coalesce ((b :: l) ++ Y)) with (cons_merge b (coalesce (l ++ Y))). rewrite IH by done.
  destruct l as [|c l]; cbn in *.
  - destruct Y as [|y Y]; [done|]. cbn in *. destruct Hc as [Hbp _].
    rewrite Hh. destruct (b_free b), (b_free p); [by destruct Hbp|done..].
  - destruct Hc as [Hbc _]. destruct (b_free b), (b_free c); [by destruct Hbc|done..].
Qed.

Lemma coalesce_app l r : coalesce (l ++ r) = foldr cons_merge (coalesce r) l.
Proof. unfold coalesce. by rewrite foldr_app. Qed.

(** ** Representation in memory *)

Definition addr_of (bs : list blk) (nx : Z) : Z :=
  match bs with b :: _ => b_addr b | [] => nx end.

Fixpoint last_addr (prev : Z) (bs : list blk) : Z :=
  match bs with b :: bs => last_addr (b_addr b) bs | [] => prev end.

(** The header of [b], linked to [prev] and [nx]. *)
Definition hdr (m : mem) (b : blk) (prev nx : Z) : Prop :=
  ld32 m (b_addr b + off_size) = b_size b ∧
  ld8 m (b_addr b + off_is_free) = (if b_free b then 1 else 0) ∧
  ld32 m (b_addr b + off_next) = nx ∧
  ld32 m (b_addr b + off_prev) = prev.

(** A run of linked headers, entered from [prev] and left to [nx]. *)
Fixpoint seg (m : mem) (prev : Z) (bs : list blk) (nx : Z) : Prop :=
  match bs with
  | [] => True
  | b :: bs => hdr m b prev (addr_of bs nx) ∧ seg m (b_addr b) bs nx
  end.

Definition agree (m m' : mem) (a n : Z) : Prop := ∀ i, a ≤ i < a + n → ld8 m' i = ld8 m i.

Ltac offs := unfold off_size, off_is_free, off_next, off_prev, sizeof_block_header, NULL in *.

Lemma seg_app m prev l r nx :
  seg m prev (l ++ r) nx ↔ seg m prev l (addr_of r nx) ∧ seg m (last_addr prev l) r nx.
Proof.
  revert prev. induction l as [|b l IH]; intros prev; cbn; [tauto|].
  rewrite IH. replace (addr_of (l ++ r) nx) with (addr_of l (addr_of r nx)) by (by destruct l).
  tauto.
Qed.

Lemma agree_ld32 m m' a n i : agree m m' a n → a ≤ i → i + 4 ≤ a + n → ld32 m' i = ld32 m i.
Proof. intros H ??. apply ld32_ext. intros j Hj. apply H. lia. Qed.

Lemma hdr_agree m m' b prev nx : agree m m' (b_addr b) 16 → hdr m b prev nx → hdr m' b prev nx.
Proof.
  unfold hdr. offs. intros H (<- & <- & <- & <-).
  rewrite !(agree_ld32 _ _ _ _ _ H) by lia. rewrite (H (b_addr b + 4)) by lia. done.
Qed.

Lemma seg_agree m m' prev bs nx :
  (∀ b, b ∈ bs → agree m m' (b_addr b) 16) → seg m prev bs nx → seg m' prev bs nx.
Proof.
  revert prev. induction bs as [|b bs IH]; intros prev Hag; cbn; [done|].
  intros [Hh Hs]. split.
  - apply (hdr_agree m); [|done]. apply Hag. set_solver.
  - apply IH; [|done]. intros c Hc. apply Hag. set_solver.
Qed.

(** Changing the [prev] field of the first block of a run. *)
Lemma seg_set_prev m m' prev prev' b bs nx :
  (∀ c, c ∈ bs → agree m m' (b_addr c) 16) → agree m m' (b_addr b) 12 →
  ld32 m' (b_addr b + off_prev) = prev' →
  seg m prev (b :: bs) nx → seg m' prev' (b :: bs) nx.
Proof.
  intros Hag Hb Hp [(H1 & H2 & H3 & _) Hs]. split.
  - unfold hdr. offs. rewrite !(agree_ld32 _ _ _ _ _ Hb), (Hb (b_addr b + 4)) by lia. done.
  - by apply (seg_agree m).
Qed.

(** The heap holds the block list [bs]: the headers in memory describe [bs],
    which tiles the heap region.  In [heap_rep] no two neighbours are free. *)
Record heap_wf (k : kernel) (bs : list blk) : Prop := {
  hr_start : 32 ≤ heap_start (k_heap k) ∧ 0 < heap_size (k_heap k);
  hr_align : heap_start (k_heap k) mod 8 = 0;
  hr_end : heap_start (k_heap k) + heap_size (k_heap k) < 4294967296;
  hr_tiles : tiles (heap_start (k_heap k)) bs (heap_start (k_heap k) + heap_size (k_heap k));
  hr_seg : seg (k_mem k) 0 bs 0;
  hr_used : heap_used (k_heap k) = 16 + used_bytes bs;
  hr_wf : mem_wf (k_mem k) }.

Definition heap_rep (k : kernel) (bs : list blk) : Prop := heap_wf k bs ∧ coalesced bs.

(** Bytes [kmalloc] and [kfree] may write: those of free blocks and headers.
    The payload of a block used in [bs] is preserved. *)
Definition payloads_preserved (m m' : mem) (bs : list blk) : Prop :=
  ∀ b, b ∈ bs → b_free b = false → agree m m' (b_addr b + 16) (b_size b - 16).

Lemma used_bytes_app l r : used_bytes (l ++ r) = used_bytes l + used_bytes r.
Proof. induction l as [|b l IH]; cbn; [done|]. fold (used_bytes (l ++ r)) (used_bytes l). lia. Qed.

Lemma used_bytes_bounds lo bs hi : tiles lo bs hi → 0 ≤ used_bytes bs ≤ hi - lo.
Proof.
  revert lo. induction bs as [|b bs IH]; intros lo; cbn; [lia|].
  intros (_ & Hs & _ & Ht%IH). fold (used_bytes bs). destruct (b_free b); lia.
Qed.

(** ** Allocation *)

Definition split_mem (a need sz nx : Z) (m : mem) : mem :=
  let nb := a + need in
  let m := st32 m (nb + off_size) (u32 (sz - need)) in
  let m := st8 m (nb + off_is_free) 1 in
  let m := st32 m (nb + off_next) nx in
  let m := st32 m (nb + off_prev) a in
  let m := if nx =? NULL then m else st32 m (nx + off_prev) nb in
  let m := st32 m (a + off_size) need in
  st32 m (a + off_next) nb.

Lemma split_block_run k a need sz nx :
  16 ≤ a → 16 ≤ need → a + need + 16 ≤ 4294967296 →
  ld32 (k_mem k) (a + off_size) = sz → ld32 (k_mem k) (a + off_next) = nx →
  split_block a need k = Done tt (set_mem (split_mem a need sz nx (k_mem k)) k).
Proof.
  intros Ha Hn Hend Hsz Hnx.
  unfold split_block, get_size, get_next, put_size, put_is_free, put_next, put_prev, split_mem.
  rewrite (u32_small (a + need)) by lia. offs. krun. rewrite Hsz. mem_simpl. rewrite Hnx.
  destruct (Z.eqb_spec nx 0); cbn; mem_simpl; rewrite ?Hnx; by destruct k.
Qed.

(** *** Writes inside a run of blocks

    [frame m m' x y r] says that only the bytes between [x] and [y] change, and
    the [prev] link of the block that follows, the first of [r]. *)
Definition frame (m m' : mem) (x y : Z) (r : list blk) : Prop :=
  ∀ i, 0 ≤ i < 4294967296 → i < x ∨ y ≤ i →
    (r ≠ [] → i < y + 12 ∨ y + 16 ≤ i) → ld8 m' i = ld8 m i.

Lemma frame_agree m m' x y r a n :
  frame m m' x y r → 0 ≤ a → a + n ≤ 4294967296 → a + n ≤ x ∨ y + 16 ≤ a →
  x ≤ y → agree m m' a n.
Proof. intros H Ha Hn Hd Hxy i Hi. apply H; lia. Qed.

Lemma seg_frame m m' lo hi l r x y p p' :
  0 ≤ lo → hi ≤ 4294967296 → tiles lo l x → tiles y r hi → x ≤ y →
  frame m m' x y r → (r ≠ [] → ld32 m' (y + off_prev) = p') →
  seg m 0 l x → seg m p r 0 → seg m' 0 l x ∧ seg m' p' r 0.
Proof.
  intros Hlo Hhi Hl Hr Hxy Hf Hp Sl Sr. pose proof (tiles_le _ _ _ Hl). split.
  - apply (seg_agree m); [|done]. intros b Hb. pose proof (tiles_le _ _ _ Hr).
    destruct (tiles_elem _ _ _ _ Hl Hb). apply (frame_agree _ _ _ _ _ _ _ Hf); lia.
  - destruct r as [|c r]; [done|]. destruct Hr as (Hc & Hs & _ & Hr).
    pose proof (tiles_le _ _ _ Hr).
    apply (seg_set_prev m _ p); [..|done].
    + intros d Hd. destruct (tiles_elem _ _ _ _ Hr Hd).
      apply (frame_agree _ _ _ _ _ _ _ Hf); lia.
    + intros i Hi. apply Hf; lia.
    + rewrite Hc. by apply Hp.
Qed.

Lemma used_preserved m m' lo hi l mid r x y :
  0 ≤ lo → hi ≤ 4294967296 → tiles lo l x → tiles x mid y → tiles y r hi →
  frame m m' x y r → payloads_preserved m m' mid →
  payloads_preserved m m' (l ++ mid ++ r).
Proof.
  intros Hlo Hhi Hl Hm Hr Hf Hp b Hb Hu.
  pose proof (tiles_le _ _ _ Hl). pose proof (tiles_le _ _ _ Hm). pose proof (tiles_le _ _ _ Hr).
  apply elem_of_app in Hb as [Hb|[Hb|Hb]%elem_of_app].
  - destruct (tiles_elem _ _ _ _ Hl Hb). apply (frame_agree _ _ _ _ _ _ _ Hf); lia.
  - by apply Hp.
  - destruct (tiles_elem _ _ _ _ Hr Hb).
    intros i Hi. apply Hf; [lia..|]. intros _.
    destruct r as [|c r]; [by apply elem_of_nil in Hb|].
    destruct Hr as (Hc & Hs & _ & Hr). apply elem_of_cons in Hb as [->|Hb]; [lia|].
    destruct (tiles_elem _ _ _ _ Hr Hb). lia.
Qed.

(** Replacing the middle of a heap: what a write to the run [mid], and to the
    link back to it, has to establish. *)
Lemma heap_wf_replace k m' u l mid mid' r :
  heap_wf k (l ++ mid ++ r) →
  let x := addr_of (mid ++ r) (heap_start (k_heap k) + heap_size (k_heap k)) in
  let nx := addr_of r 0 in
  (∀ y, tiles x mid y → tiles y r (heap_start (k_heap k) + heap_size (k_heap k)) →
    tiles x mid' y ∧
    frame (k_mem k) m' x y r ∧
    (r ≠ [] → ld32 m' (y + off_prev) = last_addr (last_addr 0 l) mid') ∧
    seg m' (last_addr 0 l) mid' nx) →
  mid' ≠ [] → mid ≠ [] →
  u = heap_used (k_heap k) - used_bytes mid + used_bytes mid' → mem_wf m' →
  heap_wf (set_heap (set_used u (k_heap k)) (set_mem m' k)) (l ++ mid' ++ r).
Proof.
  intros [Hst Hal Hend Ht Hs Hu Hw] x nx Hmid Hne' Hne -> Hw'.
  apply tiles_app in Ht as (x' & Hl & (y & Hm & Hr)%tiles_app).
  assert (x' = x) as ->.
  { subst x. destruct mid as [|b mid]; [done|]. by destruct Hm as (<- & _). }
  apply seg_app in Hs as [Sl (Sm & Sr)%seg_app].
  pose proof (tiles_le _ _ _ Hm). pose proof (tiles_le _ _ _ Hr). pose proof (tiles_le _ _ _ Hl).
  destruct (Hmid y Hm Hr) as (Hm' & Hf & Hp & Sm').
  assert (addr_of (mid ++ r) 0 = x) as Ex.
  { destruct mid as [|b mid]; [done|]. by destruct Hm as (<- & _). }
  assert (addr_of (mid' ++ r) 0 = x) as Ex'.
  { destruct mid' as [|b mid']; [done|]. by destruct Hm' as (<- & _). }
  rewrite Ex in Sl.
  destruct (seg_frame (k_mem k) m' (heap_start (k_heap k)) (heap_start (k_heap k) + heap_size (k_heap k))
    l r x y (last_addr (last_addr 0 l) mid) (last_addr (last_addr 0 l) mid'))
    as [Sl' Sr']; [lia|lia|done..|].
  split; ksimpl; cbn [heap_start heap_size heap_used set_used]; try done.
  - apply tiles_app. exists x. split; [done|]. apply tiles_app. eauto.
  - apply seg_app. rewrite Ex'. split; [done|]. apply seg_app. done.
  - rewrite Hu, !used_bytes_app. lia.
Qed.

(** *** Allocation *)

Definition hit_mem (a need sz nx : Z) (m : mem) : mem :=
  st8 (if need + 24 <=? sz then split_mem a need sz nx m else m) (a + off_is_free) 0.

Lemma serve_ne need b : serve need b ≠ [].
Proof. unfold serve. by case_match. Qed.

Lemma serve_used need b :
  b_free b = true → used_bytes (serve need b) =
    (if need + 24 <=? b_size b then need else b_size b).
Proof. unfold serve. intros. case_match; cbn; lia. Qed.

Lemma serve_tiles need b y :
  16 ≤ need → need mod 8 = 0 → need ≤ b_size b →
  tiles (b_addr b) [b] y → tiles (b_addr b) (serve need b) y.
Proof.
  unfold serve. intros Hn Hm Hle (_ & Hs & Hm2 & Hy). case_match; cbn in *; [|done].
  repeat split; try lia. dlia.
Qed.

Lemma addr_of_pos lo r hi : 32 ≤ lo → tiles lo r hi → r ≠ [] → addr_of r 0 = lo ∧ (addr_of r 0 =? NULL) = false.
Proof.
  intros Hlo Ht Hne. destruct r as [|c r]; [done|]. destruct Ht as (E & _).
  split; [done|]. change (addr_of (c :: r) 0) with (b_addr c). apply Z.eqb_neq. unfold NULL. lia.
Qed.

Ltac mem_wf_tac := repeat first [apply mem_wf_st32 | apply mem_wf_st8]; done.

(** The writes of a hit, on the memory alone: [nx] is the block after [x]. *)
Lemma hit_mem_spec m x need sz prev nx (y := x + sz) (m' := hit_mem x need sz nx m) :
  32 ≤ x → 16 ≤ need ≤ sz → (nx = 0 ∧ y ≤ 4294967296) ∨ (nx = y ∧ y + 16 ≤ 4294967296) →
  hdr m (mk_blk x sz true) prev nx →
  ld32 m' (x + off_size) = (if need + 24 <=? sz then need else sz) ∧
  (∀ i, 0 ≤ i < 4294967296 → i < x ∨ y ≤ i → nx = 0 ∨ i < y + 12 ∨ y + 16 ≤ i →
    ld8 m' i = ld8 m i) ∧
  (nx = y → ld32 m (y + off_prev) = x →
    ld32 m' (y + off_prev) = if need + 24 <=? sz then x + need else x) ∧
  seg m' prev (serve need (mk_blk x sz true)) nx.
Proof.
  intros Hx Hn Hnx (H1 & H2 & H3 & H4). cbn [b_addr b_size b_free] in *.
  subst m' y. unfold hit_mem, split_mem, serve. offs. cbn [b_addr b_size].
  destruct (Z.leb_spec (need + 24) sz).
  2:{ split_and!; [by mem_simpl|intros; by mem_simpl| |cbn [seg addr_of]].
      - intros E. by mem_simpl.
      - unfold hdr. offs. cbn [b_addr b_size b_free]. by mem_simpl. }
  destruct Hnx as [[-> Hy]|[-> Hy]]; cbn [Z.eqb].
  all: rewrite ?(proj2 (Z.eqb_neq (x + sz) 0)) by lia.
  all: split_and!; [mem_simpl; by rewrite u32_small by lia|intros; by mem_simpl| |].
  1, 3: intros; first [lia | mem_simpl; by rewrite ?u32_small by lia].
  all: cbn [seg addr_of]; unfold hdr; cbn [b_addr b_size b_free]; offs; mem_simpl;
    split_and!; rewrite ?u32_idemp, ?u32_small by lia; done.
Qed.

Lemma hit_mem_wf x need sz nx m : mem_wf m → mem_wf (hit_mem x need sz nx m).
Proof. intros. unfold hit_mem, split_mem. repeat case_match; mem_wf_tac. Qed.

(** What follows a block of a heap: nothing, or a block at its end. *)
Lemma next_cases lo r hi :
  32 ≤ lo → hi < 4294967296 → tiles lo r hi →
  (addr_of r 0 = 0 ∧ lo ≤ 4294967296 ∧ r = []) ∨
  (addr_of r 0 = lo ∧ lo + 16 ≤ 4294967296 ∧ r ≠ []).
Proof.
  intros Hlo Hhi Ht. pose proof (tiles_le _ _ _ Ht). destruct r as [|c r]; cbn.
  - left. auto with lia.
  - right. destruct Ht as (E & ? & _ & ?%tiles_le). split_and!; [done|lia|done].
Qed.

(** The effect of serving a request from block [b] on the representation. *)
Lemma heap_wf_serve k l b r need :
  heap_wf k (l ++ b :: r) → b_free b = true → 16 ≤ need → need mod 8 = 0 → need ≤ b_size b →
  let m' := hit_mem (b_addr b) need (b_size b) (addr_of r 0) (k_mem k) in
  heap_wf (set_heap (set_used (heap_used (k_heap k) + ld32 m' (b_addr b + off_size)) (k_heap k))
    (set_mem m' k)) (l ++ serve need b ++ r) ∧
  ld32 m' (b_addr b + off_size) = (if need + 24 <=? b_size b then need else b_size b) ∧
  payloads_preserved (k_mem k) m' (l ++ b :: r).
Proof.
  intros Hrep Hfree Hn Hm Hle m'. destruct b as [x sz []]; [|done]; clear Hfree.
  cbn [b_addr b_size] in *. pose proof Hrep as [Hst Hal Hend Ht Hs Hu Hw].
  apply tiles_app in Ht as (x' & Hl & (Ex & Hsz & Hsm & Hr)). cbn in Ex. subst x'.
  cbn [b_size] in *. pose proof (tiles_le _ _ _ Hl).
  apply seg_app in Hs as [_ [Hh Sr]]. cbn [b_addr] in Sr.
  destruct (next_cases (x + sz) r _ ltac:(lia) Hend Hr) as [(E & Hy & Er)|(E & Hy & Er)];
    destruct (hit_mem_spec (k_mem k) x need sz (last_addr 0 l) (addr_of r 0) ltac:(lia) ltac:(lia) ltac:(lia) Hh)
      as (Hsize & Hfr & Hlink & Hseg); fold m' in Hsize, Hfr, Hlink, Hseg.
  all: assert (Hframe : frame (k_mem k) m' x (x + sz) r)
    by (intros i Hi Hxy Hlk; apply Hfr; [done..|]; try specialize (Hlk Er); lia).
  all: split_and!; [|done|apply (used_preserved _ m' (heap_start (k_heap k))
      (heap_start (k_heap k) + heap_size (k_heap k)) l [mk_blk x sz true] r x (x + sz));
      [lia|lia|done| |done|done|]; [cbn; auto|]; by intros c ->%list_elem_of_singleton].
  all: apply (heap_wf_replace k m' _ l [mk_blk x sz true] (serve need _) r Hrep);
    [|apply serve_ne|done|rewrite Hsize, serve_used by done; cbn; lia|by apply hit_mem_wf].
  all: cbn [app addr_of b_addr]; intros y (_ & _ & _ & <-) _; cbn [b_size].
  all: split; [apply (serve_tiles need (mk_blk x sz true)); cbn; auto|split; [done|split; [|done]]].
  - by rewrite Er.
  - intros _. rewrite Hlink; [|done|].
    + unfold serve. cbn [b_size]. by case_match.
    + destruct r as [|c r]; [done|]. destruct Hr as (<- & _), Sr as [(_ & _ & _ & Hp) _]. done.
Qed.

Lemma coalesced_app l r :
  coalesced (l ++ r) ↔ coalesced l ∧ coalesced r ∧
    (∀ b, list.last l = Some b → b_free b = true → head_free r = true → False).
Proof.
  induction l as [|b l IH]; [naive_solver|]. destruct l as [|c l].
  - destruct r as [|d r]; cbn; naive_solver.
  - change (coalesced ((b :: c :: l) ++ r)) with
      ((b_free b = true → b_free c = true → False) ∧ coalesced ((c :: l) ++ r)).
    rewrite IH. change (list.last (b :: c :: l)) with (list.last (c :: l)). cbn [coalesced]. tauto.
Qed.

Lemma coalesced_serve l b r need :
  b_free b = true → coalesced (l ++ b :: r) → coalesced (l ++ serve need b ++ r).
Proof.
  intros Hb. change (b :: r) with ([b] ++ r). rewrite !coalesced_app. unfold serve.
  intros (H1 & (H2 & H3 & H4) & H5). specialize (H4 b eq_refl Hb).
  case_match; cbn; split_and!; try done; naive_solver.
Qed.

(** The heap is only changed by its operations: memory and [kernel_heap]. *)
Definition heap_only (k k' : kernel) : Prop := k' = set_heap (k_heap k') (set_mem (k_mem k') k).

#[export] Instance heap_only_preorder : PreOrder heap_only.
Proof.
  split; [by intros []|]. intros [] [] []. unfold heap_only, set_heap, set_mem; cbn.
  intros E1 E2. injection E1 as -> -> -> -> -> -> -> -> -> -> -> ->.
  by injection E2 as -> -> -> -> -> -> -> -> -> -> -> ->.
Qed.

(** One iteration of the loop. *)
Lemma kmalloc_loop_hit fuel k l b r need :
  heap_wf k (l ++ b :: r) → b_free b = true → 16 ≤ need → need mod 8 = 0 → need ≤ b_size b →
  ∃ k', kmalloc_loop (S fuel) need (b_addr b) k = Done (b_addr b + 16) k' ∧
    heap_wf k' (l ++ serve need b ++ r) ∧ heap_only k k' ∧
    payloads_preserved (k_mem k) (k_mem k') (l ++ b :: r).
Proof.
  intros Hrep Hf Hn Hm Hle.
  destruct (heap_wf_serve _ _ _ _ _ Hrep Hf Hn Hm Hle) as (Hrep' & Hsz & Hpay).
  pose proof Hrep as [Hst _ Hend Ht Hs Hu _]. pose proof (hr_used _ _ Hrep') as Hu'.
  pose proof (used_bytes_bounds _ _ _ (hr_tiles _ _ Hrep')) as Hub.
  destruct (tiles_elem _ _ _ b Ht ltac:(set_solver)) as (Hlo & Hmin & Hhi).
  apply seg_app in Hs as [_ [(H1 & H2 & H3 & H4) _]].
  eexists. split; [|split; [exact Hrep'|split; [by destruct k|exact Hpay]]].
  ksimpl. cbn [heap_start heap_size heap_used set_used] in *.
  cbn [kmalloc_loop]. rewrite (proj2 (Z.eqb_neq _ NULL)) by (unfold NULL; lia).
  unfold get_is_free, get_size, put_is_free, upd_heap, load8, load32.
  rewrite !bind_gets. cbv beta. rewrite H2, Hf, H1. cbn [Z.eqb negb andb].
  rewrite (proj2 (Z.leb_le need _)) by done.
  replace (u32 (need + sizeof_block_header + 8)) with (need + 24) by (offs; word_small; lia).
  unfold hit_mem in *. destruct (Z.leb_spec (need + 24) (b_size b)).
  - rewrite (bind_done _ _ _ _ _ (split_block_run k (b_addr b) need (b_size b) (addr_of r 0)
      ltac:(lia) ltac:(lia) ltac:(lia) H1 H3)).
    krun. unfold set_used. offs. rewrite (u32_small (b_addr b + 16)), (u32_small (heap_used _ + _)) by lia. by destruct k.
  - krun. unfold set_used. offs. rewrite (u32_small (b_addr b + 16)), (u32_small (heap_used _ + _)) by lia. by destruct k.
Qed.

Lemma kmalloc_loop_run fuel k l suf need :
  heap_wf k (l ++ suf) → coalesced (l ++ suf) → 16 ≤ need → need mod 8 = 0 →
  (length suf < fuel)%nat →
  ∃ p k', kmalloc_loop fuel need (addr_of suf 0) k = Done p k' ∧
    match alloc_blocks need suf with
    | None => p = NULL ∧ same_but_console k k'
    | Some (a, suf') => p = a + 16 ∧ heap_rep k' (l ++ suf') ∧ heap_only k k' ∧
        payloads_preserved (k_mem k) (k_mem k') (l ++ suf)
    end.
Proof.
  intros Hrep Hc Hn Hm. revert l fuel Hrep Hc.
  induction suf as [|b suf IH]; intros l fuel Hrep Hc Hfuel; (destruct fuel as [|fuel]; [cbn in Hfuel; lia|]).
  - cbn -[screen_putstr screen_setcolor]. print_step. print_step.
    eexists _, _. split; [reflexivity|]. split; [done|]. etrans; apply same_but_console_with.
  - destruct (b_free b && (need <=? b_size b)) eqn:E.
    + apply andb_true_iff in E as [Ef Ele%Z.leb_le].
      destruct (kmalloc_loop_hit fuel k l b suf need Hrep Ef Hn Hm Ele) as (k' & E & H1 & H2 & H3).
      exists (b_addr b + 16), k'. cbn [alloc_blocks]. rewrite Ef, (proj2 (Z.leb_le need _)) by done.
      cbn [andb]. split; [done|]. split; [done|]. split; [|done]. split; [done|]. by apply coalesced_serve.
    + destruct (IH (l ++ [b]) fuel) as (p & k' & Ep & H); [by rewrite <- app_assoc..|cbn in Hfuel; lia|].
      exists p, k'. split.
      * pose proof Hrep as [Hst _ _ Ht Hs _ _].
        destruct (tiles_elem _ _ _ b Ht ltac:(set_solver)) as (Hlo & Hmin & Hhi).
        apply seg_app in Hs as [_ [(H1 & H2 & H3 & H4) _]].
        cbn [kmalloc_loop addr_of]. rewrite (proj2 (Z.eqb_neq _ NULL)) by (unfold NULL; lia).
        unfold get_is_free, get_size, get_next, load8, load32.
        rewrite !bind_gets. cbv beta. rewrite H1, H2.
        replace (negb ((if b_free b then 1 else 0) =? 0)) with (b_free b) by (by destruct (b_free b)).
        rewrite E, bind_gets. cbv beta. by rewrite H3.
      * cbn [alloc_blocks]. rewrite E. destruct (alloc_blocks need suf) as [[a suf']|]; [|done].
        by rewrite <- !app_assoc in H.
Qed.

Lemma block_need_eq size : block_need size = u32 (8 * (u32 (size + 7) / 8) + 16).
Proof.
  unfold block_need, sizeof_block_header. f_equal. f_equal.
  assert (H : ∀ x, 0 ≤ x < 4294967296 → Z.land x (u32 (Z.lnot 7)) = 8 * (x / 8)).
  { intros x Hx. change (u32 (Z.lnot 7)) with (Z.land (Z.ones 32) (Z.lnot (Z.ones 3))).
    rewrite Z.land_assoc, Z.land_ones, Z.mod_small by lia.
    rewrite <- Z.ldiff_land, Z.ldiff_ones_r, Z.shiftl_mul_pow2, Z.shiftr_div_pow2 by lia. change (2 ^ 3) with 8. lia. }
  apply H, u32_range.
Qed.

Lemma block_need_ok size :
  0 ≤ size ≤ 4294967272 →
  block_need size mod 8 = 0 ∧ size + 16 ≤ block_need size < size + 24.
Proof. intros Hs. rewrite block_need_eq. unfold u32. dlia. Qed.

Lemma block_need_aligned size : block_need size mod 8 = 0 ∧ 16 ≤ block_need size ∨ block_need size = 0 ∨ block_need size = 8.
Proof. rewrite block_need_eq. unfold u32. dlia. Qed.

(** *** Freeing *)

Lemma payloads_preserved_trans m1 m2 m3 bs bs' :
  payloads_preserved m1 m2 bs → payloads_preserved m2 m3 bs' →
  (∀ b, b ∈ bs → b_free b = false → b ∈ bs') → payloads_preserved m1 m3 bs.
Proof. intros H1 H2 Hin b Hb Hu i Hi. rewrite (H2 b (Hin b Hb Hu) Hu i Hi). by apply (H1 b). Qed.

Lemma payloads_preserved_refl m bs : payloads_preserved m m bs.
Proof. by intros b _ _ i _. Qed.

Definition merge_mem (p sz nx : Z) (m : mem) : mem :=
  let m := st32 m (p + off_size) sz in
  let m := st32 m (p + off_next) nx in
  if nx =? NULL then m else st32 m (nx + off_prev) p.

Lemma heap_wf_set_used k bs : heap_wf k bs →
  heap_wf (set_heap (set_used (heap_used (k_heap k)) (k_heap k)) k) bs.
Proof. intros [H1 H2 H3 H4 H5 H6 H7]. by split. Qed.

Lemma heap_wf_merge k l p c r :
  heap_wf k (l ++ p :: c :: r) → b_free p = true → b_free c = true →
  let m' := merge_mem (b_addr p) (b_size p + b_size c) (addr_of r 0) (k_mem k) in
  heap_wf (set_mem m' k) (l ++ mk_blk (b_addr p) (b_size p + b_size c) true :: r) ∧
  payloads_preserved (k_mem k) m' (l ++ p :: c :: r).
Proof.
  intros Hrep Hp Hc m'. pose proof Hrep as [Hst Hal Hend Ht Hs Hu Hw].
  apply tiles_app in Ht as (x & Hl & (Ex & Hps & Hpm & (Ey & Hcs & Hcm & Hr))).
  subst x. pose proof (tiles_le _ _ _ Hl). pose proof (tiles_le _ _ _ Hr).
  apply seg_app in Hs as [_ [(H1 & H2 & H3 & H4) _]].
  pose proof (next_cases (b_addr p + b_size p + b_size c) r _ ltac:(lia) Hend Hr) as Hnx.
  assert (Hframe : frame (k_mem k) m' (b_addr p) (b_addr p + b_size p + b_size c) r).
  { intros i Hi Hxy Hlk. subst m'. unfold merge_mem. offs.
    destruct Hnx as [(-> & Hy & Er)|(-> & Hy & Er)]; cbn [Z.eqb]; [by mem_simpl|].
    specialize (Hlk Er). rewrite (proj2 (Z.eqb_neq _ 0)) by lia. by mem_simpl. }
  split.
  - assert (E : set_mem m' k = set_heap (set_used (heap_used (k_heap k)) (k_heap k)) (set_mem m' k)).
    { by destruct k as [? ? ? ? [] ? ? ? ? ? ? ? ? ?]. }
    rewrite E. apply (heap_wf_replace k m' _ l [p; c] [mk_blk (b_addr p) (b_size p + b_size c) true] r);
      [done| |done|done|cbn; rewrite Hp, Hc; lia|subst m'; unfold merge_mem; destruct (addr_of r 0 =? NULL); mem_wf_tac].
    cbn [app addr_of]. intros y (_ & _ & _ & (_ & _ & _ & <-)) _.
    split; [|split; [done|]].
    + cbn. split_and!; try done; [lia|dlia|lia].
    + subst m'. unfold merge_mem. cbn [last_addr b_addr seg addr_of]. unfold hdr.
      cbn [b_addr b_size b_free]. offs. rewrite Hp in H2.
      destruct Hnx as [(-> & Hy & Er)|(-> & Hy & Er)]; cbn [Z.eqb].
      * split_and!; [done|..|done]; mem_simpl; by rewrite ?u32_small by lia.
      * rewrite (proj2 (Z.eqb_neq _ 0)) by lia.
        split_and!; [intros _|..|done]; mem_simpl; by rewrite ?u32_small by lia.
  - apply (used_preserved _ m' (heap_start (k_heap k))
      (heap_start (k_heap k) + heap_size (k_heap k)) l [p; c] r (b_addr p) (b_addr p + b_size p + b_size c));
      [lia|lia|done| |done|done|].
    + by split_and!.
    + intros d [->| ->%list_elem_of_singleton]%elem_of_cons; by rewrite ?Hp, ?Hc.
Qed.

Lemma heap_wf_mark k l b r :
  heap_wf k (l ++ b :: r) → b_free b = false →
  let m' := st8 (k_mem k) (b_addr b + off_is_free) 1 in
  heap_wf (set_heap (set_used (heap_used (k_heap k) - b_size b) (k_heap k)) (set_mem m' k))
    (l ++ mk_blk (b_addr b) (b_size b) true :: r) ∧
  payloads_preserved (k_mem k) m' (l ++ b :: r).
Proof.
  intros Hrep Hb m'. pose proof Hrep as [Hst Hal Hend Ht Hs Hu Hw].
  apply tiles_app in Ht as (x & Hl & (Ex & Hps & Hpm & Hr)).
  subst x. pose proof (tiles_le _ _ _ Hl). pose proof (tiles_le _ _ _ Hr).
  apply seg_app in Hs as [_ [(H1 & H2 & H3 & H4) Sr]].
  assert (Hframe : frame (k_mem k) m' (b_addr b) (b_addr b + b_size b) r).
  { intros i Hi Hxy Hlk. subst m'. offs. by mem_simpl. }
  split.
  - apply (heap_wf_replace k m' _ l [b] [mk_blk (b_addr b) (b_size b) true] r);
      [done| |done|done|cbn; rewrite Hb; lia|subst m'; mem_wf_tac].
    cbn [app addr_of]. intros y (_ & _ & _ & <-) _.
    split; [cbn; auto|split; [done|]]. cbn [last_addr b_addr seg addr_of]. split; [|split; [|done]].
    + intros Er. subst m'. destruct (next_cases (b_addr b + b_size b) r _ ltac:(lia) Hend Hr) as [(_ & _ & ?)|(_ & ? & _)]; [done|].
      offs. mem_simpl. destruct r as [|c r]; [done|].
      destruct Hr as (<- & _), Sr as [(_ & _ & _ & Hp) _]. done.
    + subst m'. unfold hdr. cbn [b_addr b_size b_free]. offs. by mem_simpl.
  - apply (used_preserved _ m' (heap_start (k_heap k))
      (heap_start (k_heap k) + heap_size (k_heap k)) l [b] r (b_addr b) (b_addr b + b_size b));
      [lia|lia|done| |done|done|].
    + by split_and!.
    + intros d ->%list_elem_of_singleton _ i Hi. subst m'. offs. by mem_simpl.
Qed.

(** The headers of two neighbours of a heap, with the bounds reading them
    needs. *)
Lemma heap_wf_pair k l p c r :
  heap_wf k (l ++ p :: c :: r) →
  hdr (k_mem k) p (last_addr 0 l) (b_addr c) ∧ hdr (k_mem k) c (b_addr p) (addr_of r 0) ∧
  32 ≤ b_addr p ∧ b_addr c = b_addr p + b_size p ∧ 16 ≤ b_size p ∧ 16 ≤ b_size c ∧
  ((addr_of r 0 = 0 ∧ b_addr c + b_size c ≤ 4294967296) ∨
   (addr_of r 0 = b_addr c + b_size c ∧ b_addr c + b_size c + 16 ≤ 4294967296)).
Proof.
  intros [Hst Hal Hend Ht Hs Hu Hw].
  apply tiles_app in Ht as (x & Hl & (Ex & Hps & Hpm & (Ey & Hcs & Hcm & Hr))).
  pose proof (tiles_le _ _ _ Hl). pose proof (tiles_le _ _ _ Hr).
  apply seg_app in Hs as [_ [H1 [H2 _]]].
  pose proof (next_cases (x + b_size p + b_size c) r _ ltac:(lia) Hend Hr) as Hnx.
  split_and!; try done; lia.
Qed.

(** The writes of a merge of [c] into [p], from either side. *)
Lemma merge_writes k l p c r :
  heap_wf k (l ++ p :: c :: r) → b_free p = true → b_free c = true →
  ∃ k', k' = set_mem (merge_mem (b_addr p) (b_size p + b_size c) (addr_of r 0) (k_mem k)) k ∧
    heap_wf k' (l ++ cons_merge p (c :: r)) ∧ heap_only k k' ∧
    payloads_preserved (k_mem k) (k_mem k') (l ++ p :: c :: r).
Proof.
  intros Hrep Hp Hc. destruct (heap_wf_merge k l p c r Hrep Hp Hc) as [H1 H2].
  eexists. split; [reflexivity|]. cbn [cons_merge]. rewrite Hp, Hc.
  split; [done|]. split; [by destruct k|done].
Qed.

Lemma merge_next_run k l b r :
  heap_wf k (l ++ b :: r) → b_free b = true →
  ∃ k', merge_next (b_addr b) k = Done tt k' ∧ heap_wf k' (l ++ cons_merge b r) ∧
    heap_only k k' ∧ payloads_preserved (k_mem k) (k_mem k') (l ++ b :: r).
Proof.
  intros Hrep Hb. unfold merge_next, get_next, get_is_free, get_size, put_size, put_next, put_prev.
  destruct r as [|c r].
  - pose proof (hr_seg _ _ Hrep) as [_ [(_ & _ & H3 & _) _]]%seg_app. cbn in H3.
    exists k. krun. rewrite H3. split_and!; try done; apply payloads_preserved_refl.
  - destruct (heap_wf_pair _ _ _ _ _ Hrep) as ((H1 & H2 & H3 & H4) & (G1 & G2 & G3 & G4) & Hb1 & Hbc & Hbs & Hcs & Hnx).
    krun. rewrite H3, (proj2 (Z.eqb_neq _ NULL)) by (offs; lia). krun. rewrite G2.
    destruct (b_free c) eqn:Hc; cbn [Z.eqb].
    2:{ exists k. cbn [cons_merge]. rewrite Hb, Hc. split_and!; try done; apply payloads_preserved_refl. }
    destruct (merge_writes k l b c r Hrep Hb Hc) as (k' & -> & Hres). eexists. split; [|exact Hres].
    unfold merge_mem. krun. rewrite H3, H1, G1. offs. mem_simpl. rewrite G3.
    destruct Hnx as [[-> Hy]|[-> Hy]]; rewrite !u32_small by lia;
      [|rewrite !(proj2 (Z.eqb_neq _ 0)) by lia]; by destruct k.
Qed.

Lemma merge_prev_run k l p b r :
  heap_wf k (l ++ p :: b :: r) → b_free b = true →
  ∃ k', merge_prev (b_addr b) k = Done tt k' ∧ heap_wf k' (l ++ cons_merge p (b :: r)) ∧
    heap_only k k' ∧ payloads_preserved (k_mem k) (k_mem k') (l ++ p :: b :: r).
Proof.
  intros Hrep Hb. unfold merge_prev, get_next, get_prev, get_is_free, get_size, put_size, put_next, put_prev.
  destruct (heap_wf_pair _ _ _ _ _ Hrep) as ((H1 & H2 & H3 & H4) & (G1 & G2 & G3 & G4) & Hb1 & Hbc & Hbs & Hcs & Hnx).
  krun. rewrite G4, (proj2 (Z.eqb_neq _ NULL)) by (offs; lia). krun. rewrite H2.
  destruct (b_free p) eqn:Hp; cbn [Z.eqb].
  2:{ exists k. cbn [cons_merge]. rewrite Hp. split_and!; try done; apply payloads_preserved_refl. }
  destruct (merge_writes k l p b r Hrep Hp Hb) as (k' & -> & Hres). eexists. split; [|exact Hres].
  unfold merge_mem. krun. rewrite H1, G1. offs. mem_simpl. rewrite G3.
  destruct Hnx as [[-> Hy]|[-> Hy]]; rewrite !u32_small by lia;
    [|rewrite !(proj2 (Z.eqb_neq _ 0)) by lia; krun; mem_simpl; rewrite G4]; by destruct k.
Qed.

Lemma mark_free_at lo l b r hi :
  tiles lo (l ++ b :: r) hi →
  mark_free (b_addr b) (l ++ b :: r) = l ++ mk_blk (b_addr b) (b_size b) true :: r.
Proof.
  intros Ht. apply tiles_app in Ht as (x & Hl & (Ex & Hs & _ & Hr)).
  unfold mark_free. rewrite fmap_app, fmap_cons, Z.eqb_refl.
  assert (Hid : ∀ bs, (∀ c, c ∈ bs → b_addr c ≠ b_addr b) →
    (λ c, if b_addr c =? b_addr b then mk_blk (b_addr b) (b_size c) true else c) <$> (bs : list blk) = bs).
  { induction bs as [|c bs IH]; [done|]. intros H. rewrite fmap_cons, IH by set_solver.
    by rewrite (proj2 (Z.eqb_neq _ _)) by (apply H; set_solver). }
  rewrite !Hid; [done| |]; intros c Hc.
  - destruct (tiles_elem _ _ _ _ Hr Hc). lia.
  - destruct (tiles_elem _ _ _ _ Hl Hc). lia.
Qed.

(** The merges of [kfree] coalesce the whole list. *)
Lemma coalesced_cons_merge b r : coalesced r → coalesced (cons_merge b r).
Proof.
  destruct r as [|c r]; [done|]. intros Hr. cbn [cons_merge].
  destruct (b_free b) eqn:Hb, (b_free c) eqn:Hc; cbn [andb]; try (split; [congruence|done]).
  destruct r as [|d r]; [done|]. destruct Hr as [Hcd Hr]. by split; [auto|].
Qed.

Lemma coalesced_coalesce bs : coalesced (coalesce bs).
Proof. induction bs; [done|]. by apply coalesced_cons_merge. Qed.

Lemma cons_merge_free b r :
  b_free b = true →
  ∃ M r', cons_merge b r = M :: r' ∧ b_free M = true ∧ b_addr M = b_addr b ∧
    (∀ c, c ∈ r → b_free c = false → c ∈ r').
Proof.
  intros Hb. destruct r as [|c r]; cbn; [by exists b, []|]. rewrite Hb.
  destruct (b_free c) eqn:Hc; cbn; eexists _, _; split_and!; try done.
  by intros d [->|Hd]%elem_of_cons ?; [congruence|].
Qed.

Lemma coalesce_freed l b r (bf := mk_blk (b_addr b) (b_size b) true) :
  coalesced (l ++ b :: r) →
  coalesce (bf :: r) = cons_merge bf r ∧
  (∀ l' p, l = l' ++ [p] → coalesce (l ++ bf :: r) = l' ++ cons_merge p (cons_merge bf r)).
Proof.
  intros Hc. pose proof (coalesced_cons _ _ (coalesced_app_r _ _ Hc)) as Hr'.
  assert (Hbf : coalesce (bf :: r) = cons_merge bf r)
    by (cbn; fold (coalesce r); by rewrite (coalesce_id r)).
  split; [done|]. intros l' p ->. rewrite <- app_assoc in *. cbn [app] in *.
  destruct (cons_merge_free bf r eq_refl) as (M & r' & E & HM & _).
  assert (HY : coalesce (cons_merge p (cons_merge bf r)) = cons_merge p (cons_merge bf r)).
  { by apply coalesce_id, coalesced_cons_merge, coalesced_cons_merge. }
  transitivity (coalesce (l' ++ cons_merge p (cons_merge bf r))).
  - rewrite !coalesce_app, HY. f_equal.
    change (coalesce (p :: bf :: r)) with (cons_merge p (coalesce (bf :: r))). by rewrite Hbf.
  - eapply coalesce_prefix; [exact Hc|done|]. rewrite E. cbn. rewrite HM, andb_true_r.
    by destruct (b_free p) eqn:Hp; cbn.
Qed.

Lemma heap_only_mark k u m : heap_only k (set_heap u (set_mem m k)).
Proof. by destruct k. Qed.

(** [kfree] on a used block. *)
Lemma kfree_run k l b r :
  heap_rep k (l ++ b :: r) → b_free b = false →
  let bs' := coalesce (l ++ mk_blk (b_addr b) (b_size b) true :: r) in
  ∃ k', kfree (b_addr b + 16) k = Done tt k' ∧ heap_rep k' bs' ∧ heap_only k k' ∧
    payloads_preserved (k_mem k) (k_mem k') (l ++ mk_blk (b_addr b) (b_size b) true :: r).
Proof.
  intros [Hrep Hc] Hb bs'. set (bf := mk_blk (b_addr b) (b_size b) true) in *.
  destruct (heap_wf_mark k l b r Hrep Hb) as [Hrep1 Hpay1].
  pose proof Hrep as [Hst Hal Hend Ht Hs Hu Hw].
  pose proof (used_bytes_bounds _ _ _ (hr_tiles _ _ Hrep1)) as Hub.
  pose proof (hr_used _ _ Hrep1) as Hu1. ksimpl. cbn [heap_start heap_size heap_used set_used] in *.
  destruct (tiles_elem _ _ _ b Ht ltac:(set_solver)) as (Hlo & Hmin & Hhi).
  apply seg_app in Hs as [_ [(H1 & H2 & _ & _) _]].
  destruct (merge_next_run _ _ bf _ Hrep1 eq_refl) as (k2 & E2 & Hrep2 & Hho2 & Hpay2).
  assert (Erun : kfree (b_addr b + 16) k = merge_prev (b_addr b) k2).
  { unfold kfree, get_is_free, get_size, put_is_free, upd_heap.
    rewrite (proj2 (Z.eqb_neq _ NULL)) by (unfold NULL; lia).
    replace (u32 (b_addr b + 16 - sizeof_block_header)) with (b_addr b) by (offs; rewrite u32_small; lia).
    cbn [b_addr] in E2. krun. rewrite H2, Hb. cbn [Z.eqb negb]. krun.
    offs. mem_simpl. rewrite H1, u32_small by lia.
    change (b_addr bf) with (b_addr b) in E2.
    exact (bind_done _ _ _ _ _ E2). }
  rewrite Erun. destruct (coalesce_freed _ _ _ Hc) as [Hco1 Hco2]; fold bf in Hco1, Hco2.
  destruct (cons_merge_free bf r eq_refl) as (M & r' & EM & HM & HMa & Hin).
  assert (Hho : heap_only k k2) by (etrans; [|exact Hho2]; apply heap_only_mark).
  assert (Hpay : payloads_preserved (k_mem k) (k_mem k2) (l ++ bf :: r)).
  { eapply payloads_preserved_trans; [|exact Hpay2|auto].
    intros c Hc1 Hc2. apply Hpay1; [|done]. set_solver. }
  change (b_addr bf) with (b_addr b) in HMa. rewrite EM in Hrep2.
  destruct l as [|p l _] using rev_ind.
  - exists k2. subst bs'. cbn [app] in *. rewrite Hco1, EM. split_and!; try done.
    + unfold merge_prev, get_prev. krun. destruct (hr_seg _ _ Hrep2) as [(_ & _ & _ & Hp) _].
      rewrite <- HMa, Hp. done.
    + split; [done|]. rewrite <- EM, <- Hco1. apply coalesced_coalesce.
  - rewrite <- app_assoc in Hrep2. destruct (merge_prev_run _ _ _ _ _ Hrep2 HM) as (k' & Ek & Hrep' & Hho' & Hpay').
    exists k'. rewrite <- HMa. split; [done|]. subst bs'. split; [split|split].
    + by rewrite (Hco2 l p), EM.
    + apply coalesced_coalesce.
    + by etrans.
    + eapply payloads_preserved_trans; [exact Hpay|exact Hpay'|].
      intros c Hc1 Hc2. set_solver.
Qed.

(** *** Both operations together *)

Lemma alloc_blocks_spec need bs :
  match alloc_blocks need bs with
  | None => ∀ b, b ∈ bs → b_free b = true → b_size b < need
  | Some (a, bs') => ∃ l b r, bs = l ++ b :: r ∧ bs' = l ++ serve need b ++ r ∧ a = b_addr b ∧
      b_free b = true ∧ need ≤ b_size b ∧ (∀ c, c ∈ l → b_free c = true → b_size c < need)
  end.
Proof.
  induction bs as [|b bs IH]; cbn [alloc_blocks]; [by intros b ?%elem_of_nil|].
  destruct (b_free b) eqn:Hf, (Z.leb_spec need (b_size b)); cbn [andb].
  1: exists [], b, bs; split_and!; try done; by intros c ?%elem_of_nil.
  all: destruct (alloc_blocks need bs) as [[a bs']|].
  all: try (destruct IH as (l & c & r & -> & -> & -> & Hc & Hn & Hl);
            exists (b :: l), c, r; split_and!; try done).
  all: intros d [->|Hd]%elem_of_cons ?; [congruence || lia|auto].
Qed.

Lemma kmalloc_run fuel size k bs :
  heap_rep k bs → (length bs < fuel)%nat → 16 ≤ block_need size → block_need size mod 8 = 0 →
  ∃ p k', kmalloc fuel size k = Done p k' ∧
    match alloc_blocks (block_need size) bs with
    | None => p = NULL ∧ same_but_console k k'
    | Some (a, bs') => p = a + 16 ∧ heap_rep k' bs' ∧ heap_only k k' ∧
        payloads_preserved (k_mem k) (k_mem k') bs
    end.
Proof.
  intros [Hrep Hc] Hf Hn Hm.
  destruct (kmalloc_loop_run fuel k [] bs (block_need size) Hrep Hc Hn Hm Hf) as (p & k' & E & H).
  exists p, k'. split; [|exact H]. unfold kmalloc. rewrite bind_gets. rewrite <- E. f_equal.
  destruct Hrep as [Hst _ Hend Ht Hs _ _]. destruct bs as [|b bs]; cbn in *.
  - lia.
  - by destruct Ht as (<- & _).
Qed.

(** Undoing an allocation. *)
Lemma coalesce_serve l b r need :
  coalesced (l ++ b :: r) → b_free b = true → 16 ≤ need →
  coalesce (mark_free (b_addr b) (serve need b) ++ r) = coalesce (b :: r).
Proof.
  intros Hc Hb Hn. pose proof (coalesced_cons _ _ (coalesced_app_r _ _ Hc)) as Hr.
  destruct b as [a s []]; [|done]. unfold serve, mark_free. cbn [b_addr b_size].
  case_match; cbn [fmap list_fmap b_addr b_size app].
  - rewrite Z.eqb_refl, (proj2 (Z.eqb_neq (a + need) a)) by lia.
    change (coalesce ([mk_blk a need true; mk_blk (a + need) (s - need) true] ++ r)) with
      (cons_merge (mk_blk a need true) (cons_merge (mk_blk (a + need) (s - need) true) (coalesce r))).
    cbn [coalesce foldr]. fold (coalesce r). rewrite coalesce_id by done.
    destruct r as [|c r]; cbn; [by replace (need + (s - need)) with s by lia|].
    destruct (coalesced_app_r _ _ Hc) as [Hbc _]. cbn in Hbc.
    destruct (b_free c); [by destruct Hbc|]. cbn. by replace (need + (s - need)) with s by lia.
  - by rewrite Z.eqb_refl.
Qed.

Lemma serve_elem need b :
  16 ≤ need → need ≤ b_size b → ∃ c, c ∈ serve need b ∧ b_addr c = b_addr b ∧
    b_free c = false ∧ need ≤ b_size c ≤ b_size b.
Proof.
  intros. unfold serve. case_match; eexists; (split; [apply elem_of_cons; by left|]);
    cbn; split_and!; (done || lia).
Qed.

(** A used block that was there before is still there, elsewhere. *)
Lemma serve_keeps need l b r c :
  b_free b = true → c ∈ l ++ b :: r → b_free c = false → c ∈ l ++ serve need b ++ r.
Proof. intros Hb Hc Hf. assert (c ≠ b) by congruence. set_solver. Qed.

Definition in_payload (b : blk) (p n : Z) : Prop :=
  b_addr b + 16 ≤ p ∧ p + n ≤ b_addr b + b_size b.

(** The representation does not depend on the payload of used blocks, nor on the
    rest of the kernel. *)
Lemma heap_rep_payload k m' bs b p n :
  heap_rep k bs → b ∈ bs → in_payload b p n → 0 ≤ n → mem_wf m' →
  (∀ i, 0 ≤ i < 4294967296 → i < p ∨ p + n ≤ i → ld8 m' i = ld8 (k_mem k) i) →
  heap_rep (set_mem m' k) bs.
Proof.
  intros [[Hst Hal Hend Ht Hs Hu Hw] Hc] Hb [Hp Hpn] Hn Hw' Hag. split; [|done].
  split; ksimpl; try done. apply (seg_agree (k_mem k)); [|done].
  intros c Hcin i Hi. destruct (tiles_elem _ _ _ _ Ht Hcin). destruct (tiles_elem _ _ _ _ Ht Hb).
  apply Hag; [lia|]. destruct (tiles_disjoint _ _ _ _ _ Ht Hcin Hb) as [->|]; lia.
Qed.

Lemma elem_of_mark_free a bs d :
  d ∈ mark_free a bs → b_free d = false → d ∈ bs ∧ b_addr d ≠ a.
Proof.
  unfold mark_free. intros (c & -> & Hc)%list_elem_of_fmap. cbn.
  destruct (Z.eqb_spec (b_addr c) a); [done|]. done.
Qed.

Lemma mark_free_elem a bs d : d ∈ bs → b_addr d ≠ a → d ∈ mark_free a bs.
Proof.
  intros Hd Ha. unfold mark_free. apply list_elem_of_fmap. exists d.
  by rewrite (proj2 (Z.eqb_neq _ _) Ha).
Qed.

(** The block an allocation returns: it holds the request and is apart from
    everything that was used. *)
Lemma new_block k k1 bs a bs1 size :
  heap_rep k bs → 0 ≤ size ≤ 4294967272 →
  alloc_blocks (block_need size) bs = Some (a, bs1) → heap_rep k1 bs1 →
  ∃ c, c ∈ bs1 ∧ b_addr c = a ∧ b_free c = false ∧ in_payload c (a + 16) size ∧ 32 ≤ a ∧
    (∀ d, d ∈ bs → b_free d = false →
       d ∈ bs1 ∧ (b_addr d + b_size d ≤ a ∨ a + 16 + size ≤ b_addr d)).
Proof.
  intros [[Hst _ _ Ht _ _ _] _] Hs Ea Hrep1. destruct (block_need_ok size Hs) as [Hm Hn].
  pose proof (alloc_blocks_spec (block_need size) bs) as Hspec. rewrite Ea in Hspec.
  destruct Hspec as (l & b & r & -> & -> & -> & Hb & Hsz & _).
  assert (Hin : b ∈ l ++ b :: r) by set_solver. destruct (tiles_elem _ _ _ b Ht Hin).
  destruct (serve_elem (block_need size) b ltac:(lia) Hsz) as (c & Hc & Ec & Hcf & Hcs).
  exists c. split; [set_solver|]. split; [done|]. split; [done|]. split; [unfold in_payload; lia|]. split; [lia|].
  intros d Hd Hdf. split; [by apply (serve_keeps _ _ b)|].
  destruct (tiles_disjoint _ _ _ _ _ Ht Hin Hd) as [->|?]; [congruence|lia].
Qed.

(** [krealloc] of a live block, unfolded up to the size test. *)
Lemma krealloc_head fuel size k bs b :
  heap_rep k bs → b ∈ bs →
  let ptr := b_addr b + 16 in
  krealloc fuel ptr size k =
    (if size =? 0 then kfree ptr ;;; ret NULL
     else if size <=? b_size b - 16 then ret ptr
     else
       let* new_ptr := kmalloc fuel size in
       if new_ptr =? NULL then ret NULL
       else modify (λ k, set_mem (memcpy (k_mem k) new_ptr ptr (b_size b - 16)) k) ;;;
         kfree ptr ;;; ret new_ptr) k ∧ ptr ≠ NULL.
Proof.
  intros Hrep Hb ptr. apply list_elem_of_split in Hb as (l & r & ->).
  destruct Hrep as [[Hst _ Hend Ht Hs _ _] _].
  destruct (tiles_elem _ _ _ b Ht ltac:(set_solver)) as (Hlo & Hsz & Hhi).
  apply seg_app in Hs as [_ [(H1 & _) _]].
  assert (Hn : ptr ≠ NULL) by (subst ptr; unfold NULL; lia). split; [|done].
  unfold krealloc. rewrite (proj2 (Z.eqb_neq _ _) Hn). destruct (size =? 0); [done|].
  replace (u32 (ptr - sizeof_block_header)) with (b_addr b) by (subst ptr; offs; rewrite u32_small; lia).
  unfold get_size, load32. rewrite bind_gets. cbv beta. rewrite H1.
  replace (u32 (b_size b - sizeof_block_header)) with (b_size b - 16) by (offs; rewrite u32_small; lia).
  done.
Qed.

(** The copy and the free that end [krealloc]. *)
Lemma krealloc_move k k1 bs b a bs1 size (ptr := b_addr b + 16) (old := b_size b - 16) :
  heap_rep k bs → b ∈ bs → b_free b = false → 0 ≤ size ≤ 4294967272 → old < size →
  alloc_blocks (block_need size) bs = Some (a, bs1) → heap_rep k1 bs1 →
  payloads_preserved (k_mem k) (k_mem k1) bs →
  ∃ k', (modify (λ k, set_mem (memcpy (k_mem k) (a + 16) ptr old) k) ;;;
         kfree ptr ;;; ret (a + 16)) k1 = Done (a + 16) k' ∧ a + 16 ≠ NULL ∧
    heap_rep k' (coalesce (mark_free (b_addr b) bs1)) ∧
    (∀ i, 0 ≤ i < old → ld8 (k_mem k') (a + 16 + i) = ld8 (k_mem k) (ptr + i)) ∧
    payloads_preserved (k_mem k) (k_mem k') (mark_free (b_addr b) bs).
Proof.
  intros Hrep Hb Hf Hs Hold Ea Hrep1 Hpay.
  destruct (new_block k k1 bs a bs1 size Hrep Hs Ea Hrep1) as (c & Hc & Eca & Hcf & [Hcp1 Hcp2] & Ha & Hdis).
  destruct (Hdis b Hb Hf) as [Hb1 Hbdis].
  pose proof Hrep1 as [[Hst1 _ Hend1 Ht1 _ _ Hw1] _]. pose proof Hrep as [[Hst _ Hend Ht _ _ _] _].
  destruct (tiles_elem _ _ _ _ Ht1 Hc), (tiles_elem _ _ _ _ Ht1 Hb1) as (? & Hbs & ?).
  set (m2 := memcpy (k_mem k1) (a + 16) ptr old).
  assert (Hm2 : ∀ i, 0 ≤ i < 4294967296 → ld8 m2 i =
    if (a + 16 <=? i) && (i <? a + 16 + old) then ld8 (k_mem k1) (ptr + (i - (a + 16))) else ld8 (k_mem k1) i).
  { intros i Hi. apply memcpy_ld8; unfold in_space; try done; subst ptr old; lia. }
  assert (Hrep2 : heap_rep (set_mem m2 k1) bs1).
  { apply (heap_rep_payload k1 m2 bs1 c (a + 16) old); [done|done|split; lia|subst old; lia| |].
    - by apply memcpy_wf.
    - intros i Hi Hout. rewrite Hm2 by done. zcases; done. }
  apply list_elem_of_split in Hb1 as (l & r & El).
  assert (Emark : mark_free (b_addr b) bs1 = l ++ mk_blk (b_addr b) (b_size b) true :: r).
  { rewrite El in *. by apply (mark_free_at _ _ _ _ _ Ht1). }
  rewrite Emark. destruct (kfree_run (set_mem m2 k1) l b r) as (k' & E & Hrep' & _ & Hpay'); [by rewrite <- El|done|].
  rewrite <- Emark in Hpay'. exists k'. split_and!; [|unfold NULL; lia|exact Hrep'| |].
  - rewrite bind_modify. fold m2. by rewrite (bind_done _ _ _ _ _ E).
  - intros i Hi. assert (Hcb : b_addr c ≠ b_addr b) by lia.
    rewrite (Hpay' c (mark_free_elem _ _ _ Hc Hcb) Hcf) by lia.
    ksimpl. rewrite Hm2 by lia. rewrite <- (Hpay b Hb Hf) by (subst ptr old; lia). zcases; subst ptr.
    f_equal. lia.
  - intros d Hd Hdf i Hi. destruct (elem_of_mark_free _ _ _ Hd Hdf) as [Hdb Hda].
    destruct (Hdis d Hdb Hdf) as [Hd1 Hdd]. destruct (tiles_elem _ _ _ _ Ht Hdb).
    rewrite (Hpay' d (mark_free_elem _ _ _ Hd1 Hda) Hdf i Hi). ksimpl. rewrite Hm2 by lia.
    rewrite <- (Hpay d Hdb Hdf i Hi). zcases; done.
Qed.

(** The memory with the header of a first block at [b]. *)
Definition first_header (b size : Z) (m : mem) : mem :=
  st32 (st32 (st8 (st32 m (b + off_size) size) (b + off_is_free) 1) (b + off_next) NULL) (b + off_prev) NULL.

Lemma init_block_run b size k :
  accessible k b sizeof_block_header →
  init_block b size k = Done tt (set_mem (first_header b size (k_mem k)) k).
Proof.
  intros Ha. unfold init_block, put_size, put_is_free, put_next, put_prev, store32, store8.
  assert (Hacc : ∀ m off n, 0 ≤ off → off + n ≤ sizeof_block_header → accessible (set_mem m k) (b + off) n).
  { intros m off n Hoff Hon. apply (accessible_ext k); [done|]. eapply accessible_sub; [exact Ha|lia|lia]. }
  rewrite bind_touch by (eapply accessible_sub; [exact Ha|..]; offs; lia). rewrite bind_modify.
  do 2 (rewrite bind_touch by (apply Hacc; offs; lia); rewrite bind_modify).
  rewrite bind_touch by (apply Hacc; offs; lia). by destruct k.
Qed.

Lemma init_block_faults b size k : phys k b = None → init_block b size k = Fault.
Proof.
  intros Hb. unfold init_block, bind. rewrite (touch_fault _ _ _ 0); [done|lia|].
  unfold off_size. by rewrite !Z.add_0_r.
Qed.

Lemma first_header_wf b size m : mem_wf m → mem_wf (first_header b size m).
Proof. unfold first_header. eauto 10 with word. Qed.

(** [init_kheap] on a page mapper that keeps the heap record, well-formed memory and
    any property [P] of the allocator and the page tables, under which the two
    regions it writes are mapped. *)
Section InitRun.
Variable map_kernel_page : Z → Z → Z → K unit.
Variable P : kernel → Prop.
Hypothesis map_keeps : ∀ v p f k, ∃ k', map_kernel_page v p f k = Done tt k' ∧ k_heap k' = k_heap k ∧
  (mem_wf (k_mem k) → mem_wf (k_mem k')) ∧ (P k → P k').
Hypothesis alloc_keeps : ∀ k f k', alloc_frame k = Done f k' → P k → P k'.
Hypothesis P_ext : ∀ k k', k_pmm k' = k_pmm k → k_paging k' = k_paging k → P k → P k'.

Lemma init_kheap_map l k :
  ∃ k', for_list l (λ i,
    let* phys := alloc_frame in
    if phys =? NULL then ret tt
    else map_kernel_page (u32 (0xD0000000 + i * PmmH.PAGE_SIZE)) phys
           (Z.lor PagingH.PAGE_PRESENT PagingH.PAGE_WRITE)) k = Done tt k' ∧
    k_heap k' = k_heap k ∧ (mem_wf (k_mem k) → mem_wf (k_mem k')) ∧ (P k → P k').
Proof.
  revert k. induction l as [|i l IH]; intros k; cbn [for_list]; [by exists k|].
  destruct (alloc_frame_frame k) as (f & k1 & E1 & Hh1 & Hm1 & _). pose proof (alloc_keeps _ _ _ E1) as HP1.
  rewrite bind_assoc, (bind_done _ _ _ _ _ E1).
  destruct (f =? NULL).
  - rewrite bind_ret. destruct (IH k1) as (k' & E & Hh & Hm & HP). exists k'. rewrite Hh, Hh1, <- Hm1. split_and!; [done..|auto].
  - destruct (map_keeps (u32 (0xD0000000 + i * PmmH.PAGE_SIZE)) f (Z.lor PagingH.PAGE_PRESENT PagingH.PAGE_WRITE) k1)
      as (k2 & E2 & Hh2 & Hm2 & HP2).
    rewrite (bind_done _ _ _ _ _ E2). destruct (IH k2) as (k' & E & Hh & Hm & HP).
    exists k'. rewrite Hh, Hh2, Hh1, <- Hm1. split_and!; [done..|auto|auto].
Qed.

Lemma init_kheap_run start size k :
  mem_wf (k_mem k) → P k → accessible k start sizeof_block_header →
  (∀ k, P k → accessible k 0xD0000000 sizeof_block_header) →
  ∃ k', init_kheap map_kernel_page start size k = Done tt k' ∧
    heap_rep k' [mk_blk 0xD0000000 0x10000000 true] ∧ P k'.
Proof.
  intros Hw HP Hstart Hacc. unfold init_kheap, upd_heap.
  print_step. rewrite !bind_modify.
  match goal with |- context [bind (init_block _ _) _ ?k0] =>
    rewrite (bind_done _ _ _ _ _ (init_block_run start size k0 (accessible_ext k k0 _ _ eq_refl Hstart))) end.
  rewrite bind_modify.
  match goal with |- context [bind _ _ ?k0] => assert (Hk0 : k_heap k0 = mk_heap 0xD0000000 0x10000000 16
    ∧ mem_wf (k_mem k0) ∧ P k0) by (split_and!; ksimpl; [done|by apply first_header_wf|by apply (P_ext k)]);
    revert Hk0; generalize k0 end.
  intros k0 (Hh0 & Hm0 & HP0). destruct (init_kheap_map (seqZ 0 (0x10000000 / PmmH.PAGE_SIZE)) k0)
    as (k1 & E & Hh & Hm & HP1).
  rewrite (bind_done _ _ _ _ _ E), bind_gets.
  rewrite Hh, Hh0. specialize (Hm Hm0). cbn [heap_start heap_size heap_used] in *.
  rewrite (bind_done _ _ _ _ _ (init_block_run 0xD0000000 0x10000000 k1 (Hacc k1 (HP1 HP0)))).
  do 9 print_step. print_last. eexists. split; [reflexivity|].
  split; [|by apply (P_ext k1); [done..|apply HP1]].
  split; [|done]. split; ksimpl; rewrite ?Hh, ?Hh0; cbn [heap_start heap_size heap_used]; try done.
  - split; [|done]. unfold hdr, first_header. cbn [b_addr b_size b_free addr_of]. offs.
    split_and!; mem_simpl; by rewrite ?u32_small by lia.
  - by apply first_header_wf.
Qed.

End InitRun.

(** At a [start] that is not mapped the first store is a page fault. *)
Lemma init_kheap_faults map_kernel_page start size k :
  phys k start = None → init_kheap map_kernel_page start size k = Fault.
Proof.
  intros Hs. unfold init_kheap, upd_heap. print_step. rewrite bind_modify.
  unfold bind at 1. by rewrite init_block_faults.
Qed.

(** ** Properties *)

(** C1: [kmalloc] refines first-fit allocation on the block list: with fuel for
    the blocks it always returns; it serves the request from the first free
    block that is large enough, splitting it when 24 bytes or more remain, and
    returns that block's payload; the heap stays well formed, no byte of any
    used block's payload changes, and nothing outside the heap does.  It
    returns NULL exactly when no free block is large enough, the heap then being
    unchanged. *)
Theorem kmalloc_refines fuel size k bs :
  heap_rep k bs → (length bs < fuel)%nat → 0 ≤ size ≤ 4294967272 →
  ∃ p k', kmalloc fuel size k = Done p k' ∧
    match alloc_blocks (block_need size) bs with
    | None => p = NULL ∧ same_but_console k k' ∧
        (∀ b, b ∈ bs → b_free b = true → b_size b < block_need size)
    | Some (a, bs') => p = a + 16 ∧ p ≠ NULL ∧ heap_rep k' bs' ∧ heap_only k k' ∧
        payloads_preserved (k_mem k) (k_mem k') bs
    end.
Proof.
  intros Hrep Hf Hs. destruct (block_need_ok size Hs) as [Hm Hn].
  destruct (kmalloc_run fuel size k bs Hrep Hf ltac:(lia) Hm) as (p & k' & E & H).
  exists p, k'. split; [done|]. pose proof (alloc_blocks_spec (block_need size) bs) as Hspec.
  destruct (alloc_blocks _ bs) as [[a bs']|]; [|by destruct H].
  destruct Hspec as (l & b & r & -> & _ & -> & _), H as (-> & H).
  split; [done|]. split; [|done]. destruct Hrep as [[Hst _ _ Ht _ _ _] _].
  destruct (tiles_elem _ _ _ b Ht ltac:(set_solver)). unfold NULL. lia.
Qed.

(** C20: A pointer [kmalloc] returns is aligned to 8 bytes, the [size] bytes
    behind it lie in the heap and in a block that is now used, and they overlap
    no block, header included, that was in use. *)
Theorem kmalloc_safe fuel size k bs p k' :
  heap_rep k bs → (length bs < fuel)%nat → 0 ≤ size ≤ 4294967272 →
  kmalloc fuel size k = Done p k' → p ≠ NULL →
  p mod 8 = 0 ∧
  heap_start (k_heap k) + 16 ≤ p ∧ p + size ≤ heap_start (k_heap k) + heap_size (k_heap k) ∧
  (∀ c, c ∈ bs → b_free c = false → p + size ≤ b_addr c ∨ b_addr c + b_size c + 16 ≤ p) ∧
  ∃ bs' b, heap_rep k' bs' ∧ b ∈ bs' ∧ b_free b = false ∧ b_addr b = p - 16 ∧ in_payload b p size.
Proof.
  intros Hrep Hf Hs E Hp. destruct (block_need_ok size Hs) as [Hm Hn].
  destruct (kmalloc_run fuel size k bs Hrep Hf ltac:(lia) Hm) as (p1 & k1 & E1 & H).
  rewrite E in E1. apply Done_inj in E1 as [<- <-].
  pose proof (alloc_blocks_spec (block_need size) bs) as Hspec.
  destruct (alloc_blocks _ bs) as [[a bs']|]; [|by destruct H].
  destruct H as (-> & Hrep' & _).
  destruct Hspec as (l & b & r & -> & -> & -> & Hb & Hsz & _), Hrep as [[Hst Hal _ Ht _ _ _] _].
  assert (Hin : b ∈ l ++ b :: r) by set_solver.
  destruct (tiles_elem _ _ _ b Ht Hin) as (Hlo & _ & Hhi).
  pose proof (tiles_aligned _ _ _ b Hal Ht Hin). split_and!; [dlia|lia|lia| |].
  - intros c Hc Hcf. destruct (tiles_disjoint _ _ _ _ _ Ht Hin Hc) as [->|Hd]; [congruence|lia].
  - destruct (serve_elem (block_need size) b ltac:(lia) Hsz) as (c & Hc & Ec & Hcf & Hcs).
    eexists _, c. split; [exact Hrep'|]. split; [set_solver|]. unfold in_payload. split_and!; try done; lia.
Qed.

(** C2: [kfree] refines the specification: freeing the payload of a used block
    marks it free and merges every pair of free neighbours, without a change to
    any other used payload; NULL, and a block already free, change nothing but
    the console. *)
Theorem kfree_refines k bs b :
  heap_rep k bs → b ∈ bs →
  (∃ k', kfree NULL k = Done tt k' ∧ k' = k) ∧
  ∃ k', kfree (b_addr b + 16) k = Done tt k' ∧
    if b_free b then same_but_console k k'
    else let bs' := mark_free (b_addr b) bs in
      heap_rep k' (coalesce bs') ∧ heap_only k k' ∧
      payloads_preserved (k_mem k) (k_mem k') bs'.
Proof.
  intros Hrep Hb. split; [by exists k|].
  apply list_elem_of_split in Hb as (l & r & ->). destruct (b_free b) eqn:Hf.
  - destruct Hrep as [[Hst _ Hend Ht Hs _ _] _]. destruct (tiles_elem _ _ _ b Ht ltac:(set_solver)).
    apply seg_app in Hs as [_ [(H1 & H2 & _) _]].
    unfold kfree. rewrite (proj2 (Z.eqb_neq _ NULL)) by (unfold NULL; lia).
    replace (u32 (b_addr b + 16 - sizeof_block_header)) with (b_addr b) by (offs; rewrite u32_small; lia).
    unfold get_is_free, load8. rewrite bind_gets. cbv beta. rewrite H2, Hf. cbn [Z.eqb negb].
    print_step. print_last. eexists. split; [done|]. etrans; apply same_but_console_with.
  - destruct (kfree_run k l b r Hrep Hf) as (k' & E & H1 & H2 & H3).
    exists k'. split; [done|]. cbv zeta.
    by rewrite (mark_free_at _ _ _ _ _ (hr_tiles _ _ (proj1 Hrep))).
Qed.

(** The two outcomes of an allocation, and that freeing the block later, in any
    state with the same block list, gives back the list of before. *)
Lemma kmalloc_paired fuel size k bs :
  heap_rep k bs → (length bs < fuel)%nat → 0 ≤ size ≤ 4294967272 →
  ∃ p k', kmalloc fuel size k = Done p k' ∧
    ((p = NULL ∧ same_but_console k k' ∧ alloc_blocks (block_need size) bs = None) ∨
     (p ≠ NULL ∧ heap_only k k' ∧ ∃ bs', heap_rep k' bs' ∧
        ∀ k2, heap_rep k2 bs' →
          ∃ k3, kfree p k2 = Done tt k3 ∧ heap_rep k3 bs ∧ heap_only k2 k3)).
Proof.
  intros Hrep Hf Hs. destruct (block_need_ok size Hs) as [Hm Hn].
  destruct (kmalloc_run fuel size k bs Hrep Hf ltac:(lia) Hm) as (p & k' & E & H).
  exists p, k'. split; [done|].
  pose proof (alloc_blocks_spec (block_need size) bs) as Hspec.
  destruct (alloc_blocks _ bs) as [[a bs']|]; [right|by left; destruct H].
  destruct H as (-> & Hrep' & Ho & _), Hspec as (l & b & r & -> & -> & -> & Hb & Hsz & _).
  destruct Hrep as [Hwf Hc].
  pose proof (coalesce_serve l b r (block_need size) Hc Hb ltac:(lia)) as Hco.
  assert (∃ c s, serve (block_need size) b = c :: s ∧ b_addr c = b_addr b ∧ b_free c = false)
    as (c & s & Es & Ec & Hcf) by (unfold serve; case_match; by eexists _, _).
  pose proof (hr_tiles _ _ (proj1 Hrep')) as Ht'.
  assert (b_addr b + 16 ≠ NULL).
  { destruct Hwf as [Hst _ _ Ht _ _ _]. destruct (tiles_elem _ _ _ b Ht ltac:(set_solver)). unfold NULL. lia. }
  split; [done|]. split; [done|]. exists (l ++ serve (block_need size) b ++ r). split; [done|].
  rewrite Es in *. cbn [app] in *. intros k2 Hrep2.
  destruct (kfree_run k2 l c (s ++ r) Hrep2 Hcf) as (k'' & E'' & H'' & Ho'' & _).
  exists k''. rewrite <- Ec. split; [done|]. split; [|done].
  replace (l ++ b :: r) with (coalesce (l ++ mk_blk (b_addr c) (b_size c) true :: s ++ r)); [done|].
  rewrite coalesce_app. rewrite <- Ec in Hco.
  assert (Hs' : mark_free (b_addr c) (c :: s) = mk_blk (b_addr c) (b_size c) true :: s).
  { pose proof (proj1 (tiles_app _ _ _ _) Ht') as (x & _ & Hx).
    change (c :: s ++ r) with ((c :: s) ++ r) in Hx. apply tiles_app in Hx as (y & Hx & _).
    by apply (mark_free_at _ [] c s y Hx). }
  rewrite Hs' in Hco. cbn [app] in Hco. rewrite Hco, <- coalesce_app. by apply coalesce_id.
Qed.

(** C21: Allocating and freeing at once restores the block list: the split is
    undone by the merge, so a balanced workload does not fragment the heap. *)
Theorem kmalloc_kfree_restores fuel size k bs p k' :
  heap_rep k bs → (length bs < fuel)%nat → 0 ≤ size ≤ 4294967272 →
  kmalloc fuel size k = Done p k' →
  ∃ k'', kfree p k' = Done tt k'' ∧ heap_rep k'' bs.
Proof.
  intros Hrep Hf Hs E. destruct (kmalloc_paired fuel size k bs Hrep Hf Hs) as (p1 & k1 & E1 & H).
  rewrite E in E1. apply Done_inj in E1 as [<- <-].
  destruct H as [(-> & Hk & _)|(_ & _ & bs' & Hrep' & Hfree)].
  - exists k'. split; [done|]. rewrite Hk. by destruct Hrep as [[] ?].
  - destruct (Hfree k' Hrep') as (k3 & E3 & H3 & _). by exists k3.
Qed.

(** C37: [krealloc] on every branch: NULL allocates, size 0 frees, a size that
    fits returns the same pointer, and a larger one moves the data: the old
    payload is copied byte by byte, every other used payload is kept, the old
    block is merged away, and when no block is large enough the old allocation
    survives untouched. *)
Theorem krealloc_branches fuel size k bs b (ptr := b_addr b + 16) (old := b_size b - 16) :
  heap_rep k bs → b ∈ bs → b_free b = false → (length bs < fuel)%nat → 0 ≤ size ≤ 4294967272 →
  krealloc fuel NULL size k = kmalloc fuel size k ∧
  ∃ q k', krealloc fuel ptr size k = Done q k' ∧
    if size =? 0 then q = NULL ∧ kfree ptr k = Done tt k'
    else if size <=? old then q = ptr ∧ k' = k
    else match alloc_blocks (block_need size) bs with
    | None => q = NULL ∧ same_but_console k k'
    | Some (a, bs1) => q = a + 16 ∧ heap_rep k' (coalesce (mark_free (b_addr b) bs1)) ∧
        (∀ i, 0 ≤ i < old → ld8 (k_mem k') (q + i) = ld8 (k_mem k) (ptr + i)) ∧
        payloads_preserved (k_mem k) (k_mem k') (mark_free (b_addr b) bs)
    end.
Proof.
  intros Hrep Hb Hf Hfuel Hs. split; [done|].
  destruct (krealloc_head fuel size k bs b Hrep Hb) as [Hk Hptr]. fold ptr old in Hk, Hptr.
  rewrite Hk. destruct (Z.eqb_spec size 0) as [->|Hs0].
  { apply list_elem_of_split in Hb as (l & r & ->).
    destruct (kfree_run k l b r Hrep Hf) as (k' & E & _). exists NULL, k'.
    by rewrite (bind_done _ _ _ _ _ E). }
  destruct (Z.leb_spec size old) as [|Hold]; [by exists ptr, k|].
  destruct (block_need_ok size Hs) as [Hm Hn].
  destruct (kmalloc_run fuel size k bs Hrep Hfuel ltac:(lia) Hm) as (p & k1 & E1 & H).
  rewrite (bind_done _ _ _ _ _ E1).
  destruct (alloc_blocks _ bs) as [[a bs1]|] eqn:Ea; [|destruct H as [-> H]; by exists NULL, k1].
  destruct H as (-> & Hrep1 & _ & Hpay1).
  destruct (krealloc_move k k1 bs b a bs1 size Hrep Hb Hf Hs Hold Ea Hrep1 Hpay1)
    as (k' & E & Hnull & H). exists (a + 16), k'.
  rewrite (proj2 (Z.eqb_neq _ _) Hnull). fold ptr old in E. split; [exact E|done].
Qed.

(** [kcalloc] returns a block of [u32 (num * size)] bytes, all zero, in a
    heap that stays well formed, and keeps every used payload. *)
Theorem kcalloc_zeroes fuel num size k bs (total := u32 (num * size)) :
  heap_rep k bs → (length bs < fuel)%nat → total ≤ 4294967272 →
  ∃ p k', kcalloc fuel num size k = Done p k' ∧
    match alloc_blocks (block_need total) bs with
    | None => p = NULL ∧ same_but_console k k'
    | Some (a, bs') => p = a + 16 ∧ heap_rep k' bs' ∧
        (∀ i, 0 ≤ i < total → ld8 (k_mem k') (p + i) = 0) ∧
        payloads_preserved (k_mem k) (k_mem k') bs
    end.
Proof.
  intros Hrep Hfuel Hs. pose proof (u32_range (num * size)) as Hr. fold total in Hr.
  destruct (block_need_ok total ltac:(lia)) as [Hm Hn].
  destruct (kmalloc_run fuel total k bs Hrep Hfuel ltac:(lia) Hm) as (p & k1 & E1 & H).
  unfold kcalloc. fold total. rewrite (bind_done _ _ _ _ _ E1).
  destruct (alloc_blocks _ bs) as [[a bs1]|] eqn:Ea; [|destruct H as [-> H]; by exists NULL, k1].
  destruct H as (-> & Hrep1 & _ & Hpay1).
  destruct (new_block k k1 bs a bs1 total Hrep ltac:(lia) Ea Hrep1) as (c & Hc & _ & _ & Hcp & Ha & Hdis).
  rewrite (proj2 (Z.eqb_neq _ NULL)) by (unfold NULL; lia).
  assert (Hsp : in_space (a + 16) total).
  { destruct Hrep1 as [[? _ ? Ht _ _ _] _]. destruct (tiles_elem _ _ _ _ Ht Hc), Hcp.
    unfold in_space. lia. }
  eexists (a + 16), _. split; [reflexivity|]. split; [done|]. split_and!.
  - apply (heap_rep_payload _ _ _ c (a + 16) total); [done..|lia| |].
    + apply memset_wf, (hr_wf _ _ (proj1 Hrep1)).
    + intros i Hi Hout. rewrite memset_ld8; [|lia|done|unfold in_space; lia]. zcases; done.
  - intros i Hi. ksimpl. rewrite memset_ld8; [|lia|done|unfold in_space in *; lia]. zcases; done.
  - intros d Hd Hdf i Hi. rewrite <- (Hpay1 d Hd Hdf i Hi). ksimpl.
    destruct Hrep as [[? _ ? Ht _ _ _] _]. destruct (tiles_elem _ _ _ _ Ht Hd).
    specialize (Hdis d Hd Hdf).
    rewrite memset_ld8; [|lia|done|unfold in_space in *; lia]. zcases; done.
Qed.

(** The size computation of [kmalloc] wraps: a request of 0xFFFFFFF9 bytes
    or more looks for 16 bytes, a bare header, so on a heap with any free block
    it succeeds and returns a block of less than 40 bytes. *)
Theorem kmalloc_size_wraps fuel size k bs b :
  heap_rep k bs → (length bs < fuel)%nat → 4294967289 ≤ size < 4294967296 →
  b ∈ bs → b_free b = true →
  ∃ p k' bs' c, kmalloc fuel size k = Done p k' ∧ p ≠ NULL ∧ heap_rep k' bs' ∧
    c ∈ bs' ∧ b_free c = false ∧ b_addr c = p - 16 ∧ b_size c < 40.
Proof.
  intros Hrep Hfuel Hs Hb Hbf.
  assert (En : block_need size = 16) by (rewrite block_need_eq; unfold u32; dlia).
  destruct (kmalloc_run fuel size k bs Hrep Hfuel ltac:(lia) ltac:(by rewrite En)) as (p & k1 & E1 & H).
  exists p, k1. pose proof (alloc_blocks_spec (block_need size) bs) as Hspec. rewrite En in *.
  destruct Hrep as [[Hst _ _ Ht _ _ _] _].
  destruct (alloc_blocks _ bs) as [[a bs1]|].
  - destruct H as (-> & Hrep1 & _), Hspec as (l & c & r & -> & -> & -> & Hcf & Hsz & _).
    destruct (tiles_elem _ _ _ c Ht ltac:(set_solver)).
    assert (∃ d, d ∈ serve 16 c ∧ b_free d = false ∧ b_addr d = b_addr c ∧ b_size d < 40)
      as (d & Hd & Hdf & Hda & Hds).
    { unfold serve. destruct (Z.leb_spec (16 + 24) (b_size c)); eexists;
        (split; [apply elem_of_cons; by left|]); cbn; split_and!; (done || lia). }
    eexists _, d. split; [done|]. unfold NULL. split; [lia|]. split; [done|].
    split; [set_solver|]. split_and!; (done || lia).
  - specialize (Hspec b Hb Hbf). destruct (tiles_elem _ _ _ b Ht Hb). lia.
Qed.

(** Before paging is on, whatever the memory held and however many frames are left,
    [init_kheap] ends with a well-formed heap of one free block of 256 MB at
    0xD0000000: the [start] and [size] it is called with are overwritten by those
    constants.  The page mapper is asked to keep paging off; with paging on, a
    [start] that is not mapped is a page fault. *)
Theorem init_kheap_rep map_kernel_page start size k (off := λ k, Z.testbit (PagingH.cr0 (k_paging k)) 31 = false) :
  (∀ v p f k, ∃ k', map_kernel_page v p f k = Done tt k' ∧ k_heap k' = k_heap k ∧
    (mem_wf (k_mem k) → mem_wf (k_mem k')) ∧ (off k → off k')) →
  mem_wf (k_mem k) →
  (off k → ∃ k', init_kheap map_kernel_page start size k = Done tt k' ∧
    heap_rep k' [mk_blk 0xD0000000 0x10000000 true]) ∧
  (phys k start = None → init_kheap map_kernel_page start size k = Fault).
Proof.
  intros Hmap Hw. split; [intros Hoff|apply init_kheap_faults].
  assert (Hacc : ∀ k a n, off k → accessible k a n) by (intros k1 a n H1 i _; rewrite phys_off by done; by eexists).
  destruct (init_kheap_run map_kernel_page off Hmap) with (start := start) (size := size) (k := k)
    as (k' & E & Hrep & _); [|by intros k1 k2 _ E; unfold off; rewrite E|done|done|by apply Hacc|by intros; apply Hacc|by exists k'].
  intros k1 f k2 E. destruct (alloc_frame_frame k1) as (f' & k2' & E' & _ & _ & Hp).
  rewrite E in E'. apply Done_inj in E' as [_ <-]. unfold off. by rewrite Hp.
Qed.

(** *** Witnesses: a heap of 256 bytes at 0x1000, and after one allocation *)

Definition heap0 : kernel :=
  set_heap (mk_heap 4096 256 16)
    (set_mem (st32 (st32 (st8 (st32 ∅ 4096 256) 4100 1) 4104 0) 4108 0) kernel_bss).

Definition heap0_blocks : list blk := [mk_blk 4096 256 true].

Lemma heap0_rep : heap_rep heap0 heap0_blocks.
Proof.
  split; [|done]. split; [by vm_compute|by vm_compute|by vm_compute| | |by vm_compute|].
  - by vm_compute.
  - by vm_compute.
  - cbn. auto 10 with word.
Qed.

Definition heap1 : kernel := after (kmalloc 2 20) heap0.

Definition heap1_blocks : list blk := [mk_blk 4096 40 false; mk_blk 4136 216 true].

Lemma heap1_spec : kmalloc 2 20 heap0 = Done 4112 heap1 ∧ heap_rep heap1 heap1_blocks.
Proof.
  destruct (kmalloc_run 2 20 heap0 _ heap0_rep) as (p & k' & E & Hp & H & _); [cbn; lia|by vm_compute..|].
  change (heap_rep k' heap1_blocks) in H.
  rewrite (after_eq _ _ _ _ E : heap1 = k'). split; [|exact H]. rewrite E, Hp. reflexivity.
Qed.

#[global] Opaque heap0 heap1.

Lemma heap1_run : kmalloc 2 20 heap0 = Done 4112 heap1.
Proof. apply heap1_spec. Qed.

Lemma heap1_rep : heap_rep heap1 heap1_blocks.
Proof. apply heap1_spec. Qed.

Lemma kmalloc_refines_witness :
  ∃ k', kmalloc 2 20 heap0 = Done 4112 k' ∧ heap_rep k' heap1_blocks.
Proof.
  destruct (kmalloc_refines 2 20 heap0 _ heap0_rep) as (p & k' & E & H); [cbn; lia|lia|].
  vm_compute (alloc_blocks _ _) in H. destruct H as (-> & _ & H & _). exists k'. split; [exact E|exact H].
Defined.

Lemma kmalloc_safe_witness :
  4112 mod 8 = 0 ∧ 4112 + 20 ≤ heap_start (k_heap heap0) + heap_size (k_heap heap0).
Proof.
  destruct (kmalloc_safe 2 20 heap0 _ 4112 heap1 heap0_rep) as (H1 & _ & H2 & _);
    [cbn; lia|lia|exact heap1_run|discriminate|]. split; [exact H1|exact H2].
Defined.

Lemma kfree_refines_witness :
  ∃ k', kfree 4112 heap1 = Done tt k' ∧ heap_rep k' heap0_blocks.
Proof.
  destruct (kfree_refines heap1 heap1_blocks (mk_blk 4096 40 false) heap1_rep) as (_ & k' & E & H & _);
    [left|]. exists k'. split; [exact E|exact H].
Defined.

Lemma kmalloc_kfree_restores_witness :
  ∃ k', kfree 4112 heap1 = Done tt k' ∧ heap_rep k' heap0_blocks.
Proof.
  apply (kmalloc_kfree_restores 2 20 heap0 heap0_blocks); [exact heap0_rep|cbn; lia|lia|exact heap1_run].
Defined.

Lemma krealloc_branches_witness :
  ∃ k', krealloc 3 4112 60 heap1 = Done 4152 k' ∧
    heap_rep k' [mk_blk 4096 40 true; mk_blk 4136 80 false; mk_blk 4216 136 true].
Proof.
  destruct (krealloc_branches 3 60 heap1 heap1_blocks (mk_blk 4096 40 false) heap1_rep)
    as (_ & q & k' & E & H); [left|done|cbn; lia|lia|].
  vm_compute (alloc_blocks _ _) in H. destruct H as (-> & H & _). exists k'. split; [exact E|exact H].
Defined.

Lemma kcalloc_zeroes_witness :
  ∃ k', kcalloc 3 2 8 heap1 = Done 4152 k' ∧ ld8 (k_mem k') 4160 = 0.
Proof.
  destruct (kcalloc_zeroes 3 2 8 heap1 heap1_blocks heap1_rep) as (p & k' & E & H); [cbn; lia|vm_compute; congruence|].
  vm_compute (alloc_blocks _ _) in H. destruct H as (-> & _ & H & _). exists k'.
  split; [exact E|]. apply (H 8). vm_compute. split; congruence.
Defined.

Lemma kmalloc_size_wraps_witness :
  ∃ p k' bs' c, kmalloc 3 4294967295 heap1 = Done p k' ∧ p ≠ NULL ∧ heap_rep k' bs' ∧
    c ∈ bs' ∧ b_free c = false ∧ b_addr c = p - 16 ∧ b_size c < 40.
Proof.
  apply (kmalloc_size_wraps 3 4294967295 heap1 heap1_blocks (mk_blk 4136 216 true));
    [exact heap1_rep|cbn; lia|lia|right; left|reflexivity].
Defined.

Lemma init_kheap_rep_witness :
  ∃ k', init_kheap (λ _ _ _, ret tt) 0xE0000000 0x10000000 kernel_bss = Done tt k' ∧
    heap_rep k' [mk_blk 0xD0000000 0x10000000 true].
Proof.
  refine (proj1 (init_kheap_rep (λ _ _ _, ret tt) 0xE0000000 0x10000000 kernel_bss _ _) eq_refl).
  - intros v p f k. exists k. split; [reflexivity|]. split; [reflexivity|]. split; exact (λ H, H).
  - exact mem_wf_empty.
Defined.
