(* ===== verification/Paging.v ===== *)
(** * Paging (kernel/paging.c and kernel/vmm.c)

    Two-level page directories.  [pmm_alloc_page], which [include/pmm.h]
    declares and no source file defines, is the interface [PageAllocator] with
    the laws [PageAllocatorSpec]; [Pmm.alloc_frame] implements them.  The
    correctness criterion is the hardware's: [Mmu.mmu_walk] translates an address as
    the i386 does from CR3, and the theorems say what [init_paging],
    [map_page] and [unmap_page] do to that translation.

    CR3 holds a directory, [pd_ptr], and not a number: [kernel_page_dir] is an object
    without an [aligned(4096)], and the processor drops the low 12 bits of its
    address, so the theorems stand for an image in which the linker puts it at the
    start of a page. *)

From S2P Require Import Prelude Memory Types Machine Mmu Screen Pmm.
Import ScreenH PagingH.

(** ** The interface to the page allocator *)

Class PageAllocator := pmm_alloc_page : K Z.

(** The allocator changes its own state and the console only. *)
Definition alloc_only (k k' : kernel) : Prop :=
  k' = set_pmm (k_pmm k') (with_console (k_screen k') (k_io k') k).

Lemma alloc_only_paging k k' : alloc_only k k' → k_paging k' = k_paging k.
Proof. unfold alloc_only. by intros ->. Qed.

Lemma alloc_only_set s k k' :
  alloc_only k k' →
  set_paging s k' = set_paging s (set_pmm (k_pmm k') (with_console (k_screen k') (k_io k') k)).
Proof. unfold alloc_only. intros H. by rewrite H at 1. Qed.

Lemma alloc_only_frame k k' :
  alloc_only k k' →
  k' = set_paging (k_paging k') (set_pmm (k_pmm k') (with_console (k_screen k') (k_io k') k)).
Proof. intros H. rewrite (alloc_only_paging _ _ H). unfold alloc_only in H. rewrite H at 1. by destruct k. Qed.

(** An allocator state [pa_inv] in which [pa_free] are the pages left: a page
    that is handed out was free, is aligned, and is the only one that is free no
    longer; NULL means that no page was left; and the allocator looks at its own
    state only. *)
Class PageAllocatorSpec (A : PageAllocator) := {
  pa_inv : kernel → Prop;
  pa_free : kernel → Z → Prop;
  pa_alloc k : pa_inv k → ∃ p k', pmm_alloc_page k = Done p k' ∧ pa_inv k' ∧ alloc_only k k' ∧
    ((p = NULL ∧ (∀ q, ¬ pa_free k q) ∧ ∀ q, ¬ pa_free k' q) ∨
     (p ≠ NULL ∧ 0 ≤ p < 4294967296 ∧ p mod 4096 = 0 ∧ pa_free k p ∧
        ∀ q, pa_free k' q ↔ pa_free k q ∧ q ≠ p));
  pa_ext k k' : k_pmm k' = k_pmm k → pa_inv k → pa_inv k';
  pa_free_ext k k' q : k_pmm k' = k_pmm k → pa_free k q ↔ pa_free k' q }.

#[export] Instance alloc_frame_allocator : PageAllocator := alloc_frame.

#[export] Program Instance alloc_frame_spec : PageAllocatorSpec alloc_frame_allocator := {|
  pa_inv k := pmm_inv (k_pmm k) ∧ 0 ∉ free_set (k_pmm k);
  pa_free k q := ∃ i, i ∈ free_set (k_pmm k) ∧ q = i * PmmH.PAGE_SIZE |}.
Next Obligation.
  intros k [Hinv H0]. destruct (alloc_frame_run k Hinv) as [(He & k' & E & Hk)|(i & [Hi Hl] & E)].
  - exists NULL, k'. pose proof (same_but_console_pmm _ _ Hk) as Ep. split; [done|].
    split; [by rewrite Ep|]. rewrite Ep. split; [rewrite Hk; by destruct k|]. left.
    rewrite He. split; [done|]. split; intros q (i & Hi & _); by apply not_elem_of_empty in Hi.
  - pose proof Hi as [Hr _]%elem_of_free_set. pose proof (pmm_pages _ Hinv).
    eexists _, _. split; [exact E|]. ksimpl. rewrite free_set_take. unfold PmmH.PAGE_SIZE, NULL.
    split; [split; [by apply pmm_inv_take|set_solver]|]. split; [by destruct k|]. right.
    assert (i ≠ 0) by (intros ->; done).
    split; [lia|]. split; [lia|]. split; [by apply Z.mod_mul|]. split; [by exists i|].
    intros q. split.
    + intros (j & Hj & ->). split; [exists j; set_solver|]. assert (j ≠ i) by set_solver. lia.
    + intros [(j & Hj & ->) Hne]. exists j. split; [|done].
      apply elem_of_difference. split; [done|]. rewrite elem_of_singleton. by intros ->.
Qed.
Next Obligation. intros k k' E [H1 H2]. by rewrite E. Qed.
Next Obligation. intros k k' q E. cbn. by rewrite E. Qed.

(** ** Operations *)

Definition set_dir (p : pd_ptr) (d : page_directory_t) (s : paging_state) : paging_state :=
  match p with
  | pd_null => s
  | pd_kernel => mk_paging d (other_dirs s) (ptables s) (current_page_dir s) (cr3 s) (cr0 s)
  | pd_at a => mk_paging (kernel_page_dir s) (<[a := d]> (other_dirs s)) (ptables s)
                 (current_page_dir s) (cr3 s) (cr0 s)
  end.

Definition set_table (a : Z) (t : page_table_t) (s : paging_state) : paging_state :=
  mk_paging (kernel_page_dir s) (other_dirs s) (<[a := t]> (ptables s)) (current_page_dir s)
    (cr3 s) (cr0 s).
Definition set_cr3 (d : pd_ptr) (s : paging_state) : paging_state :=
  mk_paging (kernel_page_dir s) (other_dirs s) (ptables s) (current_page_dir s) d (cr0 s).
Definition set_cr0 (v : Z) (s : paging_state) : paging_state :=
  mk_paging (kernel_page_dir s) (other_dirs s) (ptables s) (current_page_dir s) (cr3 s) v.
Definition set_current_dir (d : pd_ptr) (s : paging_state) : paging_state :=
  mk_paging (kernel_page_dir s) (other_dirs s) (ptables s) d (cr3 s) (cr0 s).

Definition upd_paging (f : paging_state → paging_state) : K unit :=
  modify (λ k, set_paging (f (k_paging k)) k).

(** [(flags & f) ? 1 : 0] *)
Definition flag (flags f : Z) : Z := if Z.land flags f =? 0 then 0 else 1.

(** The directory [map_page] and [unmap_page] work on. *)
Definition active_dir (s : paging_state) : pd_ptr :=
  match current_page_dir s with pd_null => pd_kernel | d => d end.

Section Operations.
Context `{PageAllocator}.

Definition create_page_table : K Z :=
  let* table := pmm_alloc_page in
  if table =? NULL then ret NULL
  else upd_paging (set_table table ∅) ;;; ret table.

(** The entries [init_paging] writes to the identity table, lines 35-41. *)
Definition identity_pages (t : page_table_t) : page_table_t :=
  (for_range 0 1024 (λ i st,
     let '(t, phys) := st in
     (<[i := mk_pte 1 1 (pt_user (pte_at t i)) (Z.shiftr phys 12)]> t, u32 (phys + 0x1000)))
   (t, 0)).1.

Definition init_paging : K unit :=
  screen_putstr (cstr "Initializing Paging... ") ;;;
  upd_paging (set_dir pd_kernel (mk_pd ∅ ∅)) ;;;
  let* identity_table := create_page_table in
  if identity_table =? NULL then
    screen_setcolor COLOR_RED COLOR_BLACK ;;;
    screen_putstr (cstr "FAILED" ++ [10])
  else
    upd_paging (λ s, set_table identity_table (identity_pages (table_at s identity_table)) s) ;;;
    upd_paging (λ s,
      let d := kernel_page_dir s in
      set_dir pd_kernel
        (mk_pd (<[0 := mk_pde 1 1 (pd_user (pde_at d 0)) (Z.shiftr identity_table 12)]> (entries d))
           (<[0 := identity_table]> (tables d))) s) ;;;
    upd_paging (set_cr3 pd_kernel) ;;;
    upd_paging (λ s, set_cr0 (Z.lor (cr0 s) 0x80000000) s) ;;;
    screen_setcolor COLOR_LIGHT_GREEN COLOR_BLACK ;;;
    screen_putstr (cstr "OK" ++ [10]) ;;;
    screen_setcolor COLOR_LIGHT_GREY COLOR_BLACK.

(** Lines 83-87. *)
Definition write_pte (dir : pd_ptr) (pd_index pt_index paddr flags : Z) (s : paging_state)
    : paging_state :=
  let table := table_ptr (get_dir s dir) pd_index in
  set_table table
    (<[pt_index := mk_pte 1 (flag flags PAGE_RW) (flag flags PAGE_USER) (Z.shiftr paddr 12)]>
       (table_at s table)) s.

Definition map_page (v paddr flags : Z) : K unit :=
  let pd_index := Z.shiftr v 22 in
  let pt_index := Z.land (Z.shiftr v 12) 0x3FF in
  let* s := gets k_paging in
  let dir := active_dir s in
  if table_ptr (get_dir s dir) pd_index =? NULL then
    let* table := create_page_table in
    if table =? NULL then ret tt
    else
      upd_paging (λ s,
        let d := get_dir s dir in
        set_dir dir
          (mk_pd (<[pd_index := mk_pde 1 (flag flags PAGE_RW) (flag flags PAGE_USER)
                                  (Z.shiftr table 12)]> (entries d))
             (<[pd_index := table]> (tables d))) s) ;;;
      upd_paging (write_pte dir pd_index pt_index paddr flags)
  else upd_paging (write_pte dir pd_index pt_index paddr flags).

(** [invlpg] has no effect here: translations are not cached in the model. *)
Definition unmap_page (v : Z) : K unit :=
  let pd_index := Z.shiftr v 22 in
  let pt_index := Z.land (Z.shiftr v 12) 0x3FF in
  let* s := gets k_paging in
  let dir := active_dir s in
  let table := table_ptr (get_dir s dir) pd_index in
  if table =? NULL then ret tt
  else upd_paging (λ s,
    let e := pte_at (table_at s table) pt_index in
    set_table table (<[pt_index := mk_pte 0 (pt_rw e) (pt_user e) 0]> (table_at s table)) s).

Definition switch_page_directory (dir : pd_ptr) : K unit :=
  match dir with
  | pd_null => ret tt
  | _ => upd_paging (set_current_dir dir) ;;; upd_paging (set_cr3 dir)
  end.

Definition vmm_get_kernel_directory : pd_ptr := pd_kernel.

Definition init_vmm : K unit :=
  screen_setcolor COLOR_LIGHT_GREEN COLOR_BLACK ;;;
  screen_putstr (cstr "VMM initialized" ++ [10]) ;;;
  screen_setcolor COLOR_LIGHT_GREY COLOR_BLACK.

Definition vmm_map_page (v paddr flags : Z) : K unit := map_page v paddr flags.
Definition vmm_unmap_page (v : Z) : K unit := unmap_page v.

End Operations.

#[global] Arguments init_paging : simpl never.
#[global] Arguments map_page : simpl never.
#[global] Arguments unmap_page : simpl never.
#[global] Arguments switch_page_directory : simpl never.

(** ** Well-formed directories *)

Lemma pd_index_eq v : Z.shiftr v 22 = v / 4194304.
Proof. by rewrite Z.shiftr_div_pow2 by lia. Qed.

Lemma pt_index_eq x : Z.land x 0x3FF = x mod 1024.
Proof. change 0x3FF with (Z.ones 10). by rewrite Z.land_ones by lia. Qed.

Lemma frame_eq v : Z.shiftr v 12 = v / 4096.
Proof. by rewrite Z.shiftr_div_pow2 by lia. Qed.

#[export] Hint Rewrite pd_index_eq pt_index_eq frame_eq : word_simpl.

(** Every table pointer has its directory entry, pointing at the same page, in
    use, and at no other region's table. *)
Record dir_wf (free : Z → Prop) (d : page_directory_t) : Prop := {
  dw_present i : table_ptr d i ≠ NULL →
    pd_present (pde_at d i) = 1 ∧ pd_frame (pde_at d i) * 4096 = table_ptr d i ∧
    ¬ free (table_ptr d i);
  dw_absent i : table_ptr d i = NULL → pd_present (pde_at d i) = 0;
  dw_inj i j : table_ptr d i = table_ptr d j → table_ptr d i ≠ NULL → i = j }.

(** What the processor sees through [s]: paging is on, CR3 holds the directory
    the kernel works on, and that directory is well formed. *)
Record view_ok (free : Z → Prop) (s : paging_state) : Prop := {
  vo_cr3 : cr3 s = active_dir s;
  vo_pg : Z.testbit (cr0 s) 31 = true;
  vo_dir : dir_wf free (get_dir s (active_dir s)) }.

(** The entry for [w], when its table exists. *)
Definition pte_of (s : paging_state) (w : Z) : page_table_entry_t :=
  pte_at (table_at s (table_ptr (get_dir s (active_dir s)) (w / 4194304))) (w / 4096 mod 1024).

Lemma walk_via free s w :
  view_ok free s →
  mmu_walk s w =
    let d := get_dir s (active_dir s) in
    if table_ptr d (w / 4194304) =? NULL then None
    else if pt_present (pte_of s w) =? 0 then None
    else Some (pt_frame (pte_of s w) * 4096 + w mod 4096,
               Z.land (pd_rw (pde_at d (w / 4194304))) (pt_rw (pte_of s w)),
               Z.land (pd_user (pde_at d (w / 4194304))) (pt_user (pte_of s w))).
Proof.
  intros [Hc Hg Hd]. unfold mmu_walk, pte_of. rewrite Hg, Hc. cbn [negb]. cbv zeta.
  destruct (Z.eqb_spec (table_ptr (get_dir s (active_dir s)) (w / 4194304)) NULL) as [E|E].
  - by rewrite (dw_absent _ _ Hd _ E).
  - destruct (dw_present _ _ Hd _ E) as (-> & -> & _). done.
Qed.

Lemma get_set_dir p d s : p ≠ pd_null → get_dir (set_dir p d s) p = d.
Proof. destruct p; [done|done|]. intros _. cbn [get_dir set_dir other_dirs]. by rewrite lookup_insert_eq. Qed.

Lemma active_dir_ne s : active_dir s ≠ pd_null.
Proof. unfold active_dir. by destruct (current_page_dir s). Qed.

Lemma active_set_dir p d s : active_dir (set_dir p d s) = active_dir s.
Proof. by destruct p. Qed.

Lemma table_at_set a t s b : table_at (set_table a t s) b = if a =? b then t else table_at s b.
Proof.
  unfold table_at, set_table; cbn [ptables]. destruct (Z.eqb_spec a b) as [->|];
    [by rewrite lookup_insert_eq|by rewrite lookup_insert_ne].
Qed.

Lemma table_at_set_dir p d s a : table_at (set_dir p d s) a = table_at s a.
Proof. by destruct p. Qed.

Lemma get_dir_set_table a t s p : get_dir (set_table a t s) p = get_dir s p.
Proof. by destruct p. Qed.

Lemma pte_at_insert t i j e : pte_at (<[i := e]> t) j = if i =? j then e else pte_at t j.
Proof.
  unfold pte_at. destruct (Z.eqb_spec i j) as [->|];
    [by rewrite lookup_insert_eq|by rewrite lookup_insert_ne].
Qed.

(** Two addresses have the same entry exactly when they are on the same page. *)
Lemma same_page v w :
  v / 4194304 = w / 4194304 → v / 4096 mod 1024 = w / 4096 mod 1024 → v / 4096 = w / 4096.
Proof.
  intros H1 H2. rewrite (Z.div_mod (v / 4096) 1024), (Z.div_mod (w / 4096) 1024) by lia.
  rewrite !Z.div_div by lia. change (4096 * 1024) with 4194304. by rewrite H1, H2.
Qed.

Lemma page_region v w : v / 4096 = w / 4096 → v / 4194304 = w / 4194304.
Proof.
  intros H. replace (v / 4194304) with (v / 4096 / 1024) by (by rewrite Z.div_div by lia).
  replace (w / 4194304) with (w / 4096 / 1024) by (by rewrite Z.div_div by lia). by rewrite H.
Qed.

(** Writing an entry of an existing table: the page of [v] gets the entry, every
    other translation is unchanged. *)
Lemma view_set_pte free s v e (t := table_ptr (get_dir s (active_dir s)) (v / 4194304))
    (s' := set_table t (<[v / 4096 mod 1024 := e]> (table_at s t)) s) :
  view_ok free s → t ≠ NULL →
  view_ok free s' ∧ get_dir s' (active_dir s') = get_dir s (active_dir s) ∧
  ∀ w, pte_of s' w = if negb (table_ptr (get_dir s (active_dir s)) (w / 4194304) =? NULL) && (w / 4096 =? v / 4096)
       then e else pte_of s w.
Proof.
  intros [Hc Hg Hd] Ht. assert (Ea : active_dir s' = active_dir s) by done.
  assert (Eg : get_dir s' (active_dir s) = get_dir s (active_dir s)) by apply get_dir_set_table.
  split; [|split; [by rewrite Ea|]].
  - split; [done|done|]. by rewrite Ea, Eg.
  - intros w. unfold pte_of. rewrite Ea, Eg. subst s'. rewrite table_at_set.
    set (d := get_dir s (active_dir s)) in *.
    destruct (Z.eqb_spec t (table_ptr d (w / 4194304))) as [E|E].
    + rewrite <- E, (proj2 (Z.eqb_neq t NULL)) by done. cbn [negb andb].
      pose proof (dw_inj _ _ Hd (v / 4194304) (w / 4194304) E Ht) as Ei.
      rewrite pte_at_insert. destruct (Z.eqb_spec (v / 4096 mod 1024) (w / 4096 mod 1024)) as [Ej|Ej].
      * by rewrite (same_page v w Ei Ej), Z.eqb_refl.
      * rewrite (proj2 (Z.eqb_neq _ _)); [done|]. congruence.
    + destruct (Z.eqb_spec (w / 4096) (v / 4096)) as [Ew|]; [|by rewrite andb_false_r].
      exfalso. apply E. subst t. by rewrite (page_region _ _ Ew).
Qed.

(** Entering a fresh table changes no translation. *)
Definition add_table (i rw user table : Z) (s : paging_state) : paging_state :=
  let d := get_dir s (active_dir s) in
  set_dir (active_dir s) (mk_pd (<[i := mk_pde 1 rw user (table / 4096)]> (entries d))
    (<[i := table]> (tables d))) (set_table table ∅ s).

Lemma view_add_table (free free' : Z → Prop) s i rw user table (d := get_dir s (active_dir s))
    (s' := add_table i rw user table s) :
  view_ok free s → table_ptr d i = NULL → table ≠ NULL → table mod 4096 = 0 → free table →
  (∀ q, free' q → free q ∧ q ≠ table) →
  view_ok free' s' ∧
  (∀ j, table_ptr (get_dir s' (active_dir s')) j = if i =? j then table else table_ptr d j) ∧
  (∀ j, pde_at (get_dir s' (active_dir s')) j =
     if i =? j then mk_pde 1 rw user (table / 4096) else pde_at d j) ∧
  (∀ w, mmu_walk s' w = mmu_walk s w).
Proof.
  intros Hok Hi Ht Hal Hfree Hfree'. pose proof Hok as [Hc Hg Hd].
  assert (Ea : active_dir s' = active_dir s) by (subst s'; unfold add_table; by rewrite active_set_dir).
  assert (Eg : get_dir s' (active_dir s') =
    mk_pd (<[i := mk_pde 1 rw user (table / 4096)]> (entries d)) (<[i := table]> (tables d))).
  { rewrite Ea. subst s'. unfold add_table. by rewrite get_set_dir by apply active_dir_ne. }
  assert (Ht' : ∀ j, table_ptr (get_dir s' (active_dir s')) j = if i =? j then table else table_ptr d j).
  { intros j. rewrite Eg. unfold table_ptr; cbn [tables]. destruct (Z.eqb_spec i j) as [->|];
      [by rewrite lookup_insert_eq|by rewrite lookup_insert_ne]. }
  assert (He' : ∀ j, pde_at (get_dir s' (active_dir s')) j =
     if i =? j then mk_pde 1 rw user (table / 4096) else pde_at d j).
  { intros j. rewrite Eg. unfold pde_at; cbn [entries]. destruct (Z.eqb_spec i j) as [->|];
      [by rewrite lookup_insert_eq|by rewrite lookup_insert_ne]. }
  assert (Hnew : ∀ j, table_ptr d j ≠ NULL → table_ptr d j ≠ table).
  { intros j Hj E. destruct (dw_present _ _ Hd j Hj) as (_ & _ & Hn). apply Hn. fold d. by rewrite E. }
  assert (Hok' : view_ok free' s').
  { split; [rewrite Ea, <- Hc; subst s'; unfold add_table; by destruct (active_dir s)
           |rewrite <- Hg; subst s'; unfold add_table; by destruct (active_dir s)|].
    split.
    - intros j. rewrite Ht', He'. destruct (Z.eqb_spec i j) as [->|].
      + intros _. cbn. split; [done|]. split; [dlia|]. intros Hf. by apply Hfree' in Hf as [_ ?].
      + intros Hj. destruct (dw_present _ _ Hd j Hj) as (H1 & H2 & Hn). split_and!; [done|done|].
        intros Hf. by apply Hfree' in Hf as [? _].
    - intros j. rewrite Ht', He'. destruct (Z.eqb_spec i j) as [->|]; [done|]. apply (dw_absent _ _ Hd).
    - intros j j'. rewrite !Ht'. destruct (Z.eqb_spec i j), (Z.eqb_spec i j'); intros E H.
      + congruence.
      + destruct (Hnew j'); congruence.
      + destruct (Hnew j); congruence.
      + by apply (dw_inj _ _ Hd). }
  split_and!; [done..|]. intros w. rewrite (walk_via _ _ _ Hok), (walk_via _ _ _ Hok'). cbv zeta.
  rewrite Ht', He'. fold d. destruct (Z.eqb_spec i (w / 4194304)) as [E|E].
  - rewrite <- E, Hi, (proj2 (Z.eqb_neq table NULL)) by done. cbn.
    unfold pte_of. rewrite Ht', E, Z.eqb_refl. subst s'. unfold add_table.
    by rewrite table_at_set_dir, table_at_set, Z.eqb_refl.
  - destruct (Z.eqb_spec (table_ptr d (w / 4194304)) NULL) as [Ez|Ez]; [done|].
    assert (Ep : pte_of s' w = pte_of s w); [|by rewrite Ep].
    unfold pte_of. rewrite Ht', (proj2 (Z.eqb_neq i _)) by done. fold d. subst s'. unfold add_table.
    rewrite table_at_set_dir, table_at_set. specialize (Hnew _ Ez).
    by rewrite (proj2 (Z.eqb_neq table _)) by done.
Qed.

(** ** The operations, against the processor's view *)

Lemma dir_wf_weaken (free free' : Z → Prop) d :
  (∀ q, free' q → free q) → dir_wf free d → dir_wf free' d.
Proof. intros Hf [H1 H2 H3]. split; [|done..]. intros i Hi. destruct (H1 i Hi) as (E1 & E2 & Hn). do 2 (split; [done|]). auto. Qed.

Lemma view_ok_weaken (free free' : Z → Prop) s :
  (∀ q, free' q → free q) → view_ok free s → view_ok free' s.
Proof. intros Hf [H1 H2 H3]. split; [done..|]. by eapply dir_wf_weaken. Qed.

Section Spec.
Context `{Spec : PageAllocatorSpec}.

Lemma pa_set_paging s k : pa_inv k → pa_inv (set_paging s k).
Proof. by apply pa_ext. Qed.

Lemma pa_free_paging s k q : pa_free (set_paging s k) q ↔ pa_free k q.
Proof. by apply pa_free_ext. Qed.

Lemma pa_free_mem m k q : pa_free (set_mem m k) q ↔ pa_free k q.
Proof. by apply pa_free_ext. Qed.

Lemma pa_free_console s io k q : pa_free (with_console s io k) q ↔ pa_free k q.
Proof. by apply pa_free_ext. Qed.

Definition paging_ok (k : kernel) : Prop := pa_inv k ∧ view_ok (pa_free k) (k_paging k).

Lemma paging_ok_set k s :
  pa_inv k → view_ok (pa_free k) s → paging_ok (set_paging s k).
Proof.
  intros H1 H2. split; [by apply pa_set_paging|]. ksimpl.
  eapply view_ok_weaken; [|exact H2]. intros q. apply pa_free_paging.
Qed.

(** The rest of the kernel does not matter. *)
Lemma paging_ok_ext k k' :
  k_pmm k' = k_pmm k → k_paging k' = k_paging k → paging_ok k → paging_ok k'.
Proof.
  intros Hm Hp [H1 H2]. split; [by apply (pa_ext k)|]. rewrite Hp.
  eapply view_ok_weaken; [|exact H2]. intros q. by apply pa_free_ext.
Qed.

Lemma paging_ok_console s io k : paging_ok k → paging_ok (with_console s io k).
Proof. by apply paging_ok_ext. Qed.

Lemma paging_ok_mem m k : paging_ok k → paging_ok (set_mem m k).
Proof. by apply paging_ok_ext. Qed.

(** At least [n] pages are left. *)
Definition free_at_least (k : kernel) (n : nat) : Prop :=
  ∃ l, NoDup l ∧ length l = n ∧ Forall (pa_free k) l.

Lemma free_at_least_mono k k' n n' :
  (∀ q, pa_free k q → pa_free k' q) → (n' ≤ n)%nat → free_at_least k n → free_at_least k' n'.
Proof.
  intros Hq Hn (l & Hnd & Hl & Hf). exists (take n' l). split; [|split].
  - rewrite <- (take_drop n' l) in Hnd. by apply list.NoDup_app in Hnd as [Hnd _].
  - rewrite length_take. lia.
  - apply Forall_take. eapply list.Forall_impl; [exact Hf|]. exact Hq.
Qed.

Lemma free_at_least_take k k' p n :
  (∀ q, pa_free k' q ↔ pa_free k q ∧ q ≠ p) → free_at_least k (S n) → free_at_least k' n.
Proof.
  intros Hq (l & Hnd & Hl & Hf). rewrite list.Forall_forall in Hf.
  destruct (decide (p ∈ l)) as [Hp|Hp].
  - apply list_elem_of_split in Hp as (l1 & l2 & ->). exists (l1 ++ l2).
    apply list.NoDup_app in Hnd as (H1 & Hd & H2). apply list.NoDup_cons in H2 as [Hp2 H2].
    split; [|split].
    + apply list.NoDup_app. split_and!; [done|set_solver|done].
    + rewrite !length_app in *. cbn in Hl. lia.
    + apply list.Forall_forall. intros q Hin. apply Hq. split; [apply Hf; set_solver|].
      intros ->. apply elem_of_app in Hin as [Hin|Hin]; [|done]. apply (Hd p Hin). set_solver.
  - destruct l as [|q l]; [done|]. exists l. apply list.NoDup_cons in Hnd as [_ Hnd].
    split; [done|]. split; [by injection Hl|]. apply list.Forall_forall. intros q' Hin.
    apply Hq. split; [apply Hf; set_solver|]. set_solver.
Qed.

Lemma free_at_least_some k n : free_at_least k (S n) → ∃ q, pa_free k q.
Proof. intros ([|q l] & _ & Hl & Hf); [done|]. exists q. by apply list.Forall_cons in Hf as [? _]. Qed.

(** [create_page_table]: NULL, or a fresh page that now holds an empty table. *)
Lemma create_page_table_run k :
  pa_inv k → ∃ p k1, pa_inv k1 ∧ alloc_only k k1 ∧
    ((p = NULL ∧ create_page_table k = Done NULL k1 ∧ (∀ q, ¬ pa_free k q) ∧ ∀ q, ¬ pa_free k1 q) ∨
     (p ≠ NULL ∧ create_page_table k = Done p (set_paging (set_table p ∅ (k_paging k)) k1) ∧
        0 ≤ p < 4294967296 ∧ p mod 4096 = 0 ∧ pa_free k p ∧
        ∀ q, pa_free k1 q ↔ pa_free k q ∧ q ≠ p)).
Proof.
  intros Hinv. destruct (pa_alloc k Hinv) as (p & k1 & E & Hinv1 & Ho & H).
  exists p, k1. do 2 (split; [done|]). unfold create_page_table. rewrite (bind_done _ _ _ _ _ E).
  destruct H as [[-> H]|(Hn & H)]; [by left|right].
  assert (Hp : k_paging k1 = k_paging k) by (rewrite Ho; done).
  rewrite (proj2 (Z.eqb_neq _ _) Hn), <- Hp. split; [done|]. split; [by destruct k1|]. tauto.
Qed.

(** The rights of the region [v] lies in, once it is mapped with [flags]. *)
Definition region_right (get : page_dir_entry_t → Z) (k : kernel) (v flags f : Z) : Z :=
  let d := get_dir (k_paging k) (active_dir (k_paging k)) in
  if table_ptr d (v / 4194304) =? NULL then flag flags f else get (pde_at d (v / 4194304)).

(** Region [j] has no table yet, or its directory entry gives all rights. *)
Definition region_open (s : paging_state) (j : Z) : Prop :=
  let d := get_dir s (active_dir s) in
  table_ptr d j = NULL ∨ (pd_rw (pde_at d j) = 1 ∧ pd_user (pde_at d j) = 1).

(** What [map_page] does besides the translation: it changes the paging state and
    what the allocator changes, takes at most one page, and opens regions when
    its flags do. *)
Record map_frame (flags : Z) (k k' : kernel) : Prop := {
  mf_only : k' = set_paging (k_paging k') (set_pmm (k_pmm k') (with_console (k_screen k') (k_io k') k));
  mf_free q : pa_free k' q → pa_free k q;
  mf_count n : free_at_least k (S n) → free_at_least k' n;
  mf_open j : flag flags PAGE_RW = 1 → flag flags PAGE_USER = 1 →
    region_open (k_paging k) j → region_open (k_paging k') j }.

Lemma map_page_run v p flags k :
  paging_ok k →
  ∃ k', map_page v p flags k = Done tt k' ∧ paging_ok k' ∧ map_frame flags k k' ∧
    ((table_ptr (get_dir (k_paging k) (active_dir (k_paging k))) (v / 4194304) = NULL ∧
        (∀ q, ¬ pa_free k q) ∧ k_paging k' = k_paging k) ∨
     ∀ w, mmu_walk (k_paging k') w =
       if w / 4096 =? v / 4096 then
         Some (p / 4096 * 4096 + w mod 4096,
           Z.land (region_right pd_rw k v flags PAGE_RW) (flag flags PAGE_RW),
           Z.land (region_right pd_user k v flags PAGE_USER) (flag flags PAGE_USER))
       else mmu_walk (k_paging k) w).
Proof.
  intros [Hinv Hok]. unfold map_page. rewrite bind_gets. cbv zeta.
  set (s := k_paging k) in *. set (dir := active_dir s). unfold region_right. fold s dir.
  autorewrite with word_simpl.
  destruct (Z.eqb_spec (table_ptr (get_dir s dir) (v / 4194304)) NULL) as [Ez|Ez].
  - destruct (create_page_table_run k Hinv) as (t & k1 & Hinv1 & Ho1 & [(-> & E & Hno & Hf)|H]);
      assert (Hk1 : k_paging k1 = s) by apply (alloc_only_paging _ _ Ho1).
    { rewrite (bind_done _ _ _ _ _ E). exists k1. split; [done|]. split; [|split; [|by left]].
      - split; [done|]. rewrite Hk1. eapply view_ok_weaken; [|exact Hok]. intros q Hq. by destruct (Hf q).
      - split.
        + by apply alloc_only_frame.
        + intros q Hq. by destruct (Hf q).
        + intros n Hn. destruct (free_at_least_some _ _ Hn) as [q Hq]. by destruct (Hno q).
        + intros j _ _. by rewrite Hk1. }
    destruct H as (Hn & E & Hr & Hal & Hfree & Hf). rewrite (bind_done _ _ _ _ _ E).
    rewrite (proj2 (Z.eqb_neq _ _) Hn).
    destruct (view_add_table _ _ s (v / 4194304) (flag flags PAGE_RW) (flag flags PAGE_USER) t
      Hok Ez Hn Hal Hfree (λ q, proj1 (Hf q))) as (Hok1 & Ht1 & He1 & Hw1).
    set (s1 := add_table _ _ _ _ _) in *.
    destruct (view_set_pte _ s1 v (mk_pte 1 (flag flags PAGE_RW) (flag flags PAGE_USER) (p / 4096)) Hok1)
      as (Hok2 & Eg2 & Hp2); [by rewrite Ht1, Z.eqb_refl|].
    assert (Ea : active_dir s1 = dir) by apply active_set_dir. rewrite Ea in *.
    set (s2 := set_table _ _ s1) in *.
    exists (set_paging s2 k1). split; [|split; [exact (paging_ok_set k1 _ Hinv1 Hok2)|split]].
    + unfold upd_paging. krun. unfold write_pte. autorewrite with word_simpl. fold s.
      rewrite get_dir_set_table. krun. done.
    + split; ksimpl.
      * apply (alloc_only_set _ _ _ Ho1).
      * intros q Hq%pa_free_paging. by apply Hf in Hq as [? _].
      * intros n Hc. eapply (free_at_least_take k _ t); [|exact Hc]. intros q. by rewrite pa_free_paging, Hf.
      * intros j Hrw Hus. unfold region_open. rewrite Eg2, Ht1, He1. fold s dir.
        destruct (v / 4194304 =? j); [right; split; [exact Hrw|exact Hus]|done].
    + right. intros w. ksimpl. rewrite (walk_via _ _ _ Hok2), Eg2. cbv zeta.
      rewrite Hp2, <- Hw1. destruct (Z.eqb_spec (w / 4096) (v / 4096)) as [Ew|Ew].
      * rewrite (page_region _ _ Ew), Ht1, He1, Z.eqb_refl, (proj2 (Z.eqb_neq _ _) Hn). done.
      * rewrite andb_false_r. rewrite (walk_via _ _ _ Hok1). cbv zeta. by rewrite Ea.
  - destruct (view_set_pte _ s v (mk_pte 1 (flag flags PAGE_RW) (flag flags PAGE_USER) (p / 4096)) Hok Ez)
      as (Hok2 & Eg2 & Hp2). fold dir in Hok2, Eg2, Hp2. set (s2 := set_table _ _ s) in *.
    exists (set_paging s2 k). split; [|split; [exact (paging_ok_set k _ Hinv Hok2)|split]].
    + unfold upd_paging. krun. unfold write_pte. autorewrite with word_simpl. done.
    + split; ksimpl.
      * by destruct k.
      * intros q. apply pa_free_paging.
      * intros n Hc. apply (free_at_least_mono k _ (S n)); [|lia|exact Hc].
        intros q. apply pa_free_paging.
      * intros j _ _. unfold region_open. fold s dir. by rewrite Eg2.
    + right. intros w. ksimpl. rewrite (walk_via _ _ _ Hok2), Eg2. cbv zeta.
      rewrite Hp2. destruct (Z.eqb_spec (w / 4096) (v / 4096)) as [Ew|Ew].
      * by rewrite (page_region _ _ Ew), (proj2 (Z.eqb_neq _ _) Ez).
      * rewrite andb_false_r. by rewrite (walk_via _ _ _ Hok).
Qed.

Lemma identity_pages_at i :
  0 ≤ i < 1024 → pte_at (identity_pages ∅) i = mk_pte 1 1 0 i.
Proof.
  intros Hi. unfold identity_pages.
  set (body := λ (i : Z) (st : page_table_t * Z), _).
  pose (P := λ n (st : page_table_t * Z), st.2 = n * 4096 ∧
    ∀ j, pte_at st.1 j = if (0 <=? j) && (j <? n) then mk_pte 1 1 0 j else pte_zero).
  assert (HP : P (0 + 1024) (for_range 0 1024 body (∅, 0))).
  { apply for_range_ind; [lia| |].
    - split; [done|]. intros j. zcases; done.
    - intros n [t phys] Hn [Hp Ht]. cbn [fst snd] in *. subst phys. unfold body. split; cbn [fst snd].
      + rewrite u32_small; lia.
      + intros j. rewrite pte_at_insert, !Ht. autorewrite with word_simpl.
        rewrite Z.div_mul by lia. zcases; subst; done. }
  destruct HP as [_ ->]. zcases; done.
Qed.

#[global] Opaque identity_pages.

(** The paging state a successful [init_paging] leaves. *)
Definition identity_state (t : Z) (s : paging_state) : paging_state :=
  mk_paging (mk_pd {[0 := mk_pde 1 1 0 (t / 4096)]} {[0 := t]}) (other_dirs s)
    (<[t := identity_pages ∅]> (ptables s)) (current_page_dir s) pd_kernel
    (Z.lor (cr0 s) 0x80000000).

Lemma identity_view (free : Z → Prop) t s :
  active_dir s = pd_kernel → t ≠ NULL → t mod 4096 = 0 → ¬ free t →
  view_ok free (identity_state t s) ∧
  ∀ w, 0 ≤ w < 4294967296 →
    mmu_walk (identity_state t s) w = if w <? 0x400000 then Some (w, 1, 0) else None.
Proof.
  intros Hact Ht Hal Hf. set (s' := identity_state t s).
  assert (Ea : active_dir s' = pd_kernel) by exact Hact.
  assert (Et : ∀ i, table_ptr (kernel_page_dir s') i = if i =? 0 then t else NULL).
  { intros i. unfold table_ptr. cbn [kernel_page_dir identity_state s' tables].
    destruct (Z.eqb_spec i 0) as [->|]; [by rewrite lookup_singleton_eq|by rewrite lookup_singleton_ne]. }
  assert (Ee : ∀ i, pde_at (kernel_page_dir s') i = if i =? 0 then mk_pde 1 1 0 (t / 4096) else pde_zero).
  { intros i. unfold pde_at. cbn [kernel_page_dir identity_state s' entries].
    destruct (Z.eqb_spec i 0) as [->|]; [by rewrite lookup_singleton_eq|by rewrite lookup_singleton_ne]. }
  assert (Hok : view_ok free s').
  { split; [by rewrite Ea| |].
    - cbn [cr0 identity_state s']. by rewrite Z.lor_spec, orb_true_r.
    - rewrite Ea. cbn [get_dir]. split.
      + intros i. rewrite Et, Ee. destruct (i =? 0); [|done]. intros _. cbn. split_and!; [done|dlia|done].
      + intros i. rewrite Et, Ee. by destruct (i =? 0).
      + intros i j. rewrite !Et. destruct (Z.eqb_spec i 0), (Z.eqb_spec j 0); congruence. }
  split; [done|]. intros w Hw. rewrite (walk_via _ _ _ Hok). cbv zeta.
  unfold pte_of. rewrite Ea. cbn [get_dir]. rewrite Et, Ee.
  destruct (Z.ltb_spec w 0x400000) as [Hlt|Hge].
  - rewrite (Z.div_small w 4194304) by lia. cbn [Z.eqb]. rewrite (proj2 (Z.eqb_neq t NULL)) by done.
    replace (table_at s' t) with (identity_pages ∅)
      by (unfold table_at; cbn [ptables identity_state s']; by rewrite lookup_insert_eq).
    rewrite identity_pages_at by (apply Z.mod_pos_bound; lia). cbn.
    do 3 f_equal. dlia.
  - rewrite (proj2 (Z.eqb_neq (w / 4194304) 0)) by dlia. done.
Qed.

Lemma set_paging_set_paging s1 s2 k : set_paging s1 (set_paging s2 k) = set_paging s1 k.
Proof. by destruct k. Qed.

Lemma init_paging_run k :
  pa_inv k → active_dir (k_paging k) = pd_kernel →
  ∃ k', init_paging k = Done tt k' ∧ k_mem k' = k_mem k ∧
    (((∀ q, ¬ pa_free k q) ∧ cr0 (k_paging k') = cr0 (k_paging k) ∧ cr3 (k_paging k') = cr3 (k_paging k)) ∨
     ∃ t, t ≠ NULL ∧ t mod 4096 = 0 ∧ paging_ok k' ∧
       k_paging k' = identity_state t (k_paging k) ∧
       (∀ n, free_at_least k (S n) → free_at_least k' n) ∧ ∀ q, pa_free k' q → pa_free k q).
Proof.
  intros Hinv Hact. unfold init_paging, upd_paging. print_step. rewrite !bind_modify.
  set (k0 := set_paging _ _).
  assert (Hinv0 : pa_inv k0) by (by apply (pa_ext k)).
  destruct (create_page_table_run k0 Hinv0) as (t & k1 & Hinv1 & Ho1 & [(-> & E & Hno & _)|H]);
    assert (Hk1 : k_paging k1 = k_paging k0) by apply (alloc_only_paging _ _ Ho1);
    assert (Hm1 : k_mem k1 = k_mem k) by (rewrite Ho1; done).
  { rewrite (bind_done _ _ _ _ _ E). cbn [Z.eqb NULL]. print_step. print_last.
    eexists. split; [done|]. split; [done|]. left. ksimpl. rewrite Hk1. split; [|done].
    intros q Hq. apply (Hno q). subst k0. apply pa_free_paging, pa_free_console, Hq. }
  destruct H as (Hn & E & Hr & Hal & Hfree & Hf). rewrite (bind_done _ _ _ _ _ E).
  rewrite (proj2 (Z.eqb_neq _ _) Hn), !bind_modify.
  do 2 print_step. print_last. eexists. split; [done|]. split; [done|]. right. exists t. do 2 (split; [done|]).
  match goal with |- paging_ok (with_console _ _ (with_console _ _ (with_console _ _ ?k2))) ∧ _ =>
    assert (Ek2 : k2 = set_paging (identity_state t (k_paging k)) k1) end.
  { ksimpl. rewrite !set_paging_set_paging. f_equal. subst k0. cbn [k_paging set_paging].
    unfold identity_state. cbn [set_dir set_table set_cr3 set_cr0 kernel_page_dir other_dirs ptables
      current_page_dir cr3 cr0]. rewrite (table_at_set t ∅), Z.eqb_refl, frame_eq.
    rewrite insert_insert_eq. done. }
  rewrite Ek2. split; [|split; [done|split]].
  - do 3 apply paging_ok_console. apply paging_ok_set; [done|].
    apply identity_view; [done..|]. intros Hft. by apply Hf in Hft as [_ ?].
  - intros n Hcnt. apply (free_at_least_take k0 _ t).
    + intros q. rewrite <- Hf. symmetry. by apply pa_free_ext.
    + apply (free_at_least_mono k _ (S n)); [|lia|done]. intros q. by apply pa_free_ext.
  - intros q Hq. apply (pa_free_ext k k0 q eq_refl). apply (Hf q).
    eapply pa_free_ext; [|exact Hq]. reflexivity.
Qed.

Lemma unmap_page_run v k :
  paging_ok k →
  ∃ k', unmap_page v k = Done tt k' ∧ paging_ok k' ∧
    ∀ w, mmu_walk (k_paging k') w =
      if w / 4096 =? v / 4096 then None else mmu_walk (k_paging k) w.
Proof.
  intros [Hinv Hok]. unfold unmap_page. rewrite bind_gets. cbv zeta.
  autorewrite with word_simpl. set (s := k_paging k) in *.
  set (t := table_ptr (get_dir s (active_dir s)) (v / 4194304)).
  destruct (Z.eqb_spec t NULL) as [Ez|Ez].
  - exists k. split; [done|]. split; [done|]. intros w. fold s.
    destruct (Z.eqb_spec (w / 4096) (v / 4096)) as [Ew|]; [|done].
    rewrite (walk_via _ _ _ Hok). cbv zeta. rewrite (page_region _ _ Ew). fold t. by rewrite Ez.
  - set (e := pte_at (table_at s t) (v / 4096 mod 1024)).
    destruct (view_set_pte _ s v (mk_pte 0 (pt_rw e) (pt_user e) 0) Hok Ez) as (Hok2 & Eg2 & Hp2).
    eexists. split; [|split; [exact (paging_ok_set k _ Hinv Hok2)|]]; [done|].
    intros w. ksimpl. rewrite (walk_via _ _ _ Hok2), Eg2. cbv zeta. rewrite Hp2.
    destruct (Z.eqb_spec (w / 4096) (v / 4096)) as [Ew|Ew].
    + rewrite (page_region _ _ Ew). fold t. by rewrite (proj2 (Z.eqb_neq _ _) Ez).
    + rewrite andb_false_r. by rewrite (walk_via _ _ _ Hok).
Qed.

End Spec.

(** ** Properties *)

(** C36: On a kernel directory [init_paging] turns paging on with a view that
    maps exactly the low 4 MB, each address to itself, for the kernel only and
    writable; every other address faults, the 256 MB at 0xE0000000 that
    [kernel.c] gives the heap included.  When no page is left it reports FAILED
    and leaves CR0 and CR3 alone. *)
Theorem init_paging_identity `{PageAllocatorSpec} k :
  pa_inv k → active_dir (k_paging k) = pd_kernel →
  ∃ k', init_paging k = Done tt k' ∧
    (((∀ q, ¬ pa_free k q) ∧ cr0 (k_paging k') = cr0 (k_paging k) ∧ cr3 (k_paging k') = cr3 (k_paging k)) ∨
     (paging_ok k' ∧
      ∀ w, 0 ≤ w < 4294967296 →
        mmu_walk (k_paging k') w = if w <? 0x400000 then Some (w, 1, 0) else None)).
Proof.
  intros Hinv Hact. destruct (init_paging_run k Hinv Hact) as (k' & E & _ & Hk).
  exists k'. split; [done|]. destruct Hk as [Hk|(t & Ht & Hal & Hok & Hp & _)]; [by left|right].
  split; [done|]. rewrite Hp. by destruct (identity_view (λ _, False) t (k_paging k) Hact Ht Hal (λ x, x)).
Qed.



(** The user right of a region is fixed by its first mapping: below 4 MB,
    where [init_paging] made the table, no [map_page], whatever its flags, gives
    user mode access to a page. *)
Theorem map_page_user_shadowed `{PageAllocatorSpec} k k1 v p flags :
  pa_inv k → active_dir (k_paging k) = pd_kernel → init_paging k = Done tt k1 →
  Z.testbit (cr0 (k_paging k)) 31 = false → Z.testbit (cr0 (k_paging k1)) 31 = true →
  0 ≤ v < 0x400000 →
  ∃ k2 rw, map_page v p flags k1 = Done tt k2 ∧
    mmu_walk (k_paging k2) v = Some (p / 4096 * 4096 + v mod 4096, rw, 0).
Proof.
  intros Hinv Hact E Hoff Hon Hv. destruct (init_paging_run k Hinv Hact) as (k' & E' & _ & Hk).
  rewrite E in E'. apply Done_inj in E' as [_ <-].
  destruct Hk as [(_ & Hc & _)|(t & Ht & Hal & Hok & Hp & _)]; [congruence|].
  destruct (map_page_run v p flags k1 Hok) as (k2 & E2 & _ & _ & [[Hno _]|Hw]).
  - exfalso. revert Hno. rewrite Hp. unfold active_dir in *. cbn [identity_state current_page_dir].
    rewrite Hact, (Z.div_small v) by lia. exact Ht.
  - eexists k2, _. split; [done|]. rewrite Hw, Z.eqb_refl. do 2 f_equal.
    unfold region_right. rewrite Hp. cbv zeta.
    change (active_dir (identity_state t (k_paging k))) with (active_dir (k_paging k)). rewrite Hact.
    rewrite (Z.div_small v) by lia.
    change (table_ptr (get_dir (identity_state t (k_paging k)) pd_kernel) 0) with t.
    by rewrite (proj2 (Z.eqb_neq t NULL) Ht).
Qed.

(** ** Concrete runs: the allocator of a 4 MB machine *)

Lemma pmm0_pa_inv : pa_inv pmm0.
Proof.
  split; [exact pmm0_inv|]. intros H0. apply (p0_free _ pmm0_spec) in H0. lia.
Qed.

Lemma pmm0_pa_free : pa_free pmm0 2101248.
Proof. exists 513. split; [apply (p0_free _ pmm0_spec); lia|reflexivity]. Qed.

Lemma pmm0_dir : active_dir (k_paging pmm0) = pd_kernel.
Proof. rewrite (p0_paging _ pmm0_spec). reflexivity. Qed.

Definition paging0 : kernel := after init_paging pmm0.

Lemma paging0_run : init_paging pmm0 = Done tt paging0.
Proof.
  destruct (init_paging_run pmm0 pmm0_pa_inv pmm0_dir) as (k' & E & _).
  exact (after_run _ _ _ _ E).
Qed.

Lemma paging0_spec :
  ∃ t, t ≠ NULL ∧ paging_ok paging0 ∧ k_paging paging0 = identity_state t (k_paging kernel_bss) ∧
    (∀ n, free_at_least pmm0 (S n) → free_at_least paging0 n) ∧
    ∀ q, pa_free paging0 q → pa_free pmm0 q.
Proof.
  destruct (init_paging_run pmm0 pmm0_pa_inv pmm0_dir) as (k' & E & _ & Hk).
  rewrite paging0_run in E. apply Done_inj in E as [_ <-]. rewrite (p0_paging _ pmm0_spec) in Hk.
  destruct Hk as [(Hno & _)|(t & Ht & _ & Hok & Hp & Hn)];
    [|exists t; exact (conj Ht (conj Hok (conj Hp Hn)))].
  destruct (Hno _ pmm0_pa_free).
Qed.

Lemma paging0_free : free_at_least paging0 10.
Proof.
  destruct paging0_spec as (t & _ & _ & _ & Hn & _). apply Hn.
  exists ((λ i, i * PmmH.PAGE_SIZE) <$> seqZ 513 11). split; [|split].
  - apply list.NoDup_fmap_2; [|apply NoDup_seqZ]. intros i j. unfold PmmH.PAGE_SIZE. lia.
  - reflexivity.
  - apply list.Forall_fmap, list.Forall_forall. intros i Hi%elem_of_seqZ.
    exists i. split; [|reflexivity]. apply (p0_free _ pmm0_spec). lia.
Qed.

(** The first 2 MB are in use, and the low 4 MB are where they were. *)
Lemma paging0_used q : q < 0x200000 → ¬ pa_free paging0 q.
Proof.
  destruct paging0_spec as (t & _ & _ & _ & _ & Hf). intros Hq (i & Hi & ->)%Hf.
  apply (p0_free _ pmm0_spec) in Hi. unfold PmmH.PAGE_SIZE in Hq. lia.
Qed.

Lemma paging0_walk w : 0 ≤ w < 0x400000 → mmu_walk (k_paging paging0) w = Some (w, 1, 0).
Proof.
  intros Hw. destruct (init_paging_run pmm0 pmm0_pa_inv pmm0_dir) as (k' & E & _ & Hk).
  rewrite paging0_run in E. apply Done_inj in E as [_ <-].
  destruct Hk as [(Hno & _)|(t & Ht & Hal & _ & -> & _)]; [destruct (Hno _ pmm0_pa_free)|].
  destruct (identity_view (λ _, False) t (k_paging pmm0) pmm0_dir Ht Hal (λ x, x)) as [_ ->]; [|lia].
  rewrite (proj2 (Z.ltb_lt _ _)) by lia. reflexivity.
Qed.

Lemma paging0_ok : paging_ok paging0.
Proof. destruct paging0_spec as (t & _ & Hok & _). exact Hok. Qed.

Lemma pmm0_cr0 : Z.testbit (cr0 (k_paging pmm0)) 31 = false.
Proof. rewrite (p0_paging _ pmm0_spec). reflexivity. Qed.

Lemma paging0_on : Z.testbit (cr0 (k_paging paging0)) 31 = true.
Proof. destruct paging0_spec as (t & _ & _ & -> & _). reflexivity. Qed.

#[global] Opaque paging0.

Lemma init_paging_identity_witness :
  ∃ k', init_paging pmm0 = Done tt k' ∧ mmu_walk (k_paging k') 0xB8000 = Some (0xB8000, 1, 0) ∧
    mmu_walk (k_paging k') 0xE0000000 = None.
Proof.
  destruct (init_paging_identity pmm0 pmm0_pa_inv pmm0_dir) as (k' & E & Hk).
  exists k'. split; [exact E|]. destruct Hk as [(Hno & _)|[_ Hw]].
  - destruct (Hno _ pmm0_pa_free).
  - split; rewrite Hw by lia; reflexivity.
Defined.

(** The region at 1 GB has no table yet, so it takes the rights of the first mapping. *)
Lemma paging0_region get v flags f :
  4194304 ≤ v → region_right get paging0 v flags f = flag flags f.
Proof.
  intros Hv. unfold region_right. destruct paging0_spec as (t & _ & _ & -> & _).
  change (get_dir _ _) with (kernel_page_dir (identity_state t (k_paging kernel_bss))).
  unfold table_ptr. cbn [identity_state kernel_page_dir tables].
  rewrite lookup_singleton_ne by dlia. reflexivity.
Qed.

Lemma paging0_open j : j ≠ 0 → region_open (k_paging paging0) j.
Proof.
  intros Hj. left. destruct paging0_spec as (t & _ & _ & -> & _).
  change (get_dir _ _) with (kernel_page_dir (identity_state t (k_paging kernel_bss))).
  unfold table_ptr. cbn [identity_state kernel_page_dir tables]. by rewrite lookup_singleton_ne.
Qed.



Lemma map_page_user_shadowed_witness :
  ∃ k2 rw, map_page 0x300000 0x300000 7 paging0 = Done tt k2 ∧
    mmu_walk (k_paging k2) 0x300000 = Some (0x300000, rw, 0).
Proof.
  apply (map_page_user_shadowed pmm0 paging0 0x300000 0x300000 7);
    [exact pmm0_pa_inv|exact pmm0_dir|exact paging0_run|exact pmm0_cr0|exact paging0_on|lia].
Defined.
