(* ===== verification/Interrupts.v ===== *)
(** * Interrupts and time (kernel/idt.c, kernel/irq.c, kernel/timer.c)

    The interrupt descriptor table and handler table, the dispatch of exceptions
    and IRQs, the programming of the two 8259 controllers and of the PIT, and
    the tick counter.  The addresses of the assembly stubs are the linker's
    ([Stubs]); the system call entry point is [syscall.c]'s ([SyscallEntry]). *)

From S2P Require Import Prelude Memory Types Machine Screen.
Import ScreenH InterruptH.

(** The symbols [isr0]..[isr31], [isr128], [irq0]..[irq15] and [&idt]. *)
Class Stubs := { isr_addr : Z → Z; irq_addr : Z → Z; idt_addr : Z }.

(** [syscall_handler] receives the saved registers and may change them. *)
Class SyscallEntry := syscall_handler : registers_t → K registers_t.

(** ** kernel/timer.c *)

Definition PIT_BASE_FREQUENCY : Z := 1193180.

Definition upd_timer (f : timer_state → timer_state) : K unit :=
  modify (λ k, set_timer (f (k_timer k)) k).

Definition timer_callback : K unit :=
  upd_timer (λ t, mk_timer (u32 (tick_count t + 1)) (frequency t) (ms_per_tick t)).

Definition upd_idt (f : idt_state → idt_state) : K unit :=
  modify (λ k, set_idt (f (k_idt k)) k).

Definition register_interrupt_handler (n : Z) (handler : isr_t) : K unit :=
  upd_idt (λ s, mk_idt (idt s) (idtp_limit s) (idtp_base s) (<[u8 n := handler]> (interrupt_handlers s))).

Definition init_timer (freq : Z) : K unit :=
  let freq := if freq =? 0 then 100 else freq in
  upd_timer (λ t, mk_timer (tick_count t) freq (ms_per_tick t)) ;;;
  let divisor := PIT_BASE_FREQUENCY / freq in
  upd_timer (λ t, mk_timer (tick_count t) (frequency t) (1000 / freq)) ;;;
  outb 0x43 0x36 ;;;
  outb 0x40 (u8 (Z.land divisor 0xFF)) ;;;
  outb 0x40 (u8 (Z.land (Z.shiftr divisor 8) 0xFF)) ;;;
  register_interrupt_handler 32 isr_timer_callback ;;;
  screen_setcolor COLOR_LIGHT_GREEN COLOR_BLACK ;;;
  screen_putstr (cstr "Timer initialized: ") ;;;
  screen_putdec (u32 freq) ;;;
  screen_putstr (cstr " Hz" ++ [10]) ;;;
  screen_setcolor COLOR_LIGHT_GREY COLOR_BLACK.

Definition get_time_ms : K Z :=
  gets (λ k, u32 (tick_count (k_timer k) * ms_per_tick (k_timer k))).

Definition get_ticks : K Z := gets (λ k, tick_count (k_timer k)).

(** [hlt] waits for an interrupt: [interrupt] is what that interrupt does. *)
Section Delay.
Variable interrupt : K unit.

Fixpoint delay_loop (fuel : nat) (start ms : Z) : K unit :=
  match fuel with
  | O => spin
  | S fuel =>
      let* now := get_time_ms in
      if u32 (now - start) <? ms then interrupt ;;; delay_loop fuel start ms
      else ret tt
  end.

Definition delay_ms (fuel : nat) (ms : Z) : K unit :=
  let* start := get_time_ms in
  delay_loop fuel start ms.

End Delay.

(** ** kernel/idt.c *)

Definition idt_entry (s : idt_state) (num : Z) : idt_entry_t :=
  default (mk_idt_entry 0 0 0 0 0) (idt s !! num).

Definition idt_set_gate (num base sel flags : Z) : K unit :=
  upd_idt (λ s, mk_idt
    (<[u8 num := mk_idt_entry (Z.land base 0xFFFF) sel 0 (u8 (Z.lor flags 0x60))
                   (Z.land (Z.shiftr base 16) 0xFFFF)]> (idt s))
    (idtp_limit s) (idtp_base s) (interrupt_handlers s)).

Definition idt_load `{Stubs} : K unit :=
  upd_idt (λ s, mk_idt (idt s) (8 * 256 - 1) idt_addr (interrupt_handlers s)).

Definition init_idt `{Stubs} : K unit :=
  upd_idt (λ s, mk_idt (idt s) (idtp_limit s) (idtp_base s) ∅) ;;;
  for_list (seqZ 0 32) (λ i, idt_set_gate i (isr_addr i) 0x08 0x8E) ;;;
  for_list (seqZ 0 16) (λ i, idt_set_gate (32 + i) (irq_addr i) 0x08 0x8E) ;;;
  idt_set_gate 0x80 (isr_addr 128) 0x08 0xEE ;;;
  idt_load.

(** Calls through a pointer of [interrupt_handlers]. *)
Definition call_handler `{SyscallEntry} (h : isr_t) (regs : registers_t) : K registers_t :=
  match h with
  | isr_timer_callback => timer_callback ;;; ret regs
  | isr_syscall_handler => syscall_handler regs
  end.

(** The dump of an unhandled interrupt, lines 83-104. *)
Definition dump_registers (regs : registers_t) : K unit :=
  screen_setcolor COLOR_LIGHT_RED COLOR_BLACK ;;;
  screen_putstr ([10] ++ cstr "Unhandled interrupt ") ;;;
  screen_putdec (u32 (r_int_no regs)) ;;;
  screen_putstr (cstr ": error=") ;;;
  screen_puthex (r_err_code regs) ;;;
  screen_putstr [10] ;;;
  screen_putstr (cstr "EAX=") ;;; screen_puthex (r_eax regs) ;;;
  screen_putstr (cstr " EBX=") ;;; screen_puthex (r_ebx regs) ;;;
  screen_putstr (cstr " ECX=") ;;; screen_puthex (r_ecx regs) ;;;
  screen_putstr (cstr " EDX=") ;;; screen_puthex (r_edx regs) ;;;
  screen_putstr [10] ;;;
  screen_putstr (cstr "ESI=") ;;; screen_puthex (r_esi regs) ;;;
  screen_putstr (cstr " EDI=") ;;; screen_puthex (r_edi regs) ;;;
  screen_putstr (cstr " EBP=") ;;; screen_puthex (r_ebp regs) ;;;
  screen_putstr (cstr " ESP=") ;;; screen_puthex (r_esp regs) ;;;
  screen_putstr [10] ;;;
  screen_putstr (cstr "EIP=") ;;; screen_puthex (r_eip regs) ;;;
  screen_putstr (cstr " CS=") ;;; screen_puthex (r_cs regs) ;;;
  screen_putstr (cstr " EFLAGS=") ;;; screen_puthex (r_eflags regs) ;;;
  screen_putstr [10].

(** An [int_no] of 256 or more reads past the handler table. *)
Definition isr_handler `{SyscallEntry} (regs : registers_t) : K registers_t :=
  if 256 <=? r_int_no regs then fault
  else
    let* s := gets k_idt in
    match interrupt_handlers s !! r_int_no regs with
    | Some h => call_handler h regs
    | None => dump_registers regs ;;; ret regs
    end.

Definition irq_handler `{SyscallEntry} (regs : registers_t) : K registers_t :=
  (if 40 <=? r_int_no regs then outb 0xA0 0x20 else ret tt) ;;;
  outb 0x20 0x20 ;;;
  if 256 <=? r_int_no regs then fault
  else
    let* s := gets k_idt in
    match interrupt_handlers s !! r_int_no regs with
    | Some h => call_handler h regs
    | None => ret regs
    end.

(** ** kernel/irq.c *)

Definition PIC1_CMD : Z := 0x20.
Definition PIC1_DATA : Z := 0x21.
Definition PIC2_CMD : Z := 0xA0.
Definition PIC2_DATA : Z := 0xA1.
Definition PIC_EOI : Z := 0x20.
Definition PIC_INIT : Z := 0x11.
Definition PIC_8086 : Z := 0x01.
Definition PIC1_OFFSET : Z := 0x20.
Definition PIC2_OFFSET : Z := 0x28.

Definition init_pic `{Hardware} : K unit :=
  let* a1 := inb PIC1_DATA in
  let* a2 := inb PIC2_DATA in
  outb PIC1_CMD PIC_INIT ;;; io_wait ;;;
  outb PIC1_DATA PIC1_OFFSET ;;; io_wait ;;;
  outb PIC1_DATA 0x04 ;;; io_wait ;;;
  outb PIC1_DATA PIC_8086 ;;; io_wait ;;;
  outb PIC2_CMD PIC_INIT ;;; io_wait ;;;
  outb PIC2_DATA PIC2_OFFSET ;;; io_wait ;;;
  outb PIC2_DATA 0x02 ;;; io_wait ;;;
  outb PIC2_DATA PIC_8086 ;;; io_wait ;;;
  outb PIC1_DATA a1 ;;;
  outb PIC2_DATA a2 ;;;
  outb PIC1_DATA 0x00 ;;;
  outb PIC2_DATA 0x00.

Definition send_eoi (irq : Z) : K unit :=
  (if 8 <=? irq then outb PIC2_CMD PIC_EOI else ret tt) ;;;
  outb PIC1_CMD PIC_EOI.

(** The port and bit of an IRQ line. *)
Definition irq_line (irq : Z) : Z * Z :=
  if irq <? 8 then (PIC1_DATA, irq) else (PIC2_DATA, u8 (irq - 8)).

(** [irq] is a [uint8_t]; shifting an [int] by 32 or more is undefined. *)
Definition enable_irq `{Hardware} (irq : Z) : K unit :=
  let '(port, bit) := irq_line irq in
  let* v := inb port in
  if 32 <=? bit then fault
  else outb port (u8 (Z.land v (Z.lnot (Z.shiftl 1 bit)))).

Definition disable_irq `{Hardware} (irq : Z) : K unit :=
  let '(port, bit) := irq_line irq in
  let* v := inb port in
  if 32 <=? bit then fault
  else outb port (u8 (Z.lor v (Z.shiftl 1 bit))).

#[global] Arguments init_timer : simpl never.
#[global] Arguments init_idt : simpl never.
#[global] Arguments init_pic : simpl never.
#[global] Arguments isr_handler : simpl never.
#[global] Arguments irq_handler : simpl never.
#[global] Arguments delay_ms : simpl never.

(** ** What the hardware sees *)

(** The gate descriptor the processor reads: handler address, privilege level
    that may call it by [int], present bit. *)
Definition gate_target (e : idt_entry_t) : Z := base_low e + 65536 * base_high e.
Definition gate_dpl (e : idt_entry_t) : Z := flags e / 32 mod 4.
Definition gate_present (e : idt_entry_t) : bool := Z.testbit (flags e) 7.

(** The value last written to an 8-bit port. *)
Fixpoint last_out (io : list io_event) (port : Z) : Z :=
  match io with
  | Out8 p v :: io => if p =? port then v else last_out io port
  | _ :: io => last_out io port
  | [] => 0
  end.

(** The counter reload of the PIT: two successive writes to port 0x40, low byte
    first; a reload of 0 counts 65536. *)
Definition pit_reload (lo hi : Z) : Z :=
  let n := lo + 256 * hi in if n =? 0 then 65536 else n.

Definition ticked (n : Z) (t : timer_state) : timer_state :=
  mk_timer (u32 (tick_count t + n)) (frequency t) (ms_per_tick t).

Lemma ticked_0 t : tick_count t = u32 (tick_count t) → ticked 0 t = t.
Proof. destruct t as [c f m]; unfold ticked; cbn. intros H. by rewrite Z.add_0_r, <- H. Qed.

Lemma ticked_add n m t : ticked m (ticked n t) = ticked (n + m) t.
Proof. unfold ticked; cbn. by rewrite u32_add_l, Z.add_assoc. Qed.

(** [n] successive IRQs on line [int_no]. *)
Fixpoint irqs `{SyscallEntry} (n : nat) (regs : registers_t) : K unit :=
  match n with
  | O => ret tt
  | S n => irq_handler regs ;;; irqs n regs
  end.

(** ** Lemmas *)

Definition gate (a : Z) : idt_entry_t := mk_idt_entry (a mod 65536) 8 0 0xEE (a / 65536).

Lemma land_mask x n : 0 ≤ n → Z.land x (Z.ones n) = x mod 2 ^ n.
Proof. apply Z.land_ones. Qed.

Lemma idt_set_gate_run num base fl k :
  0 ≤ num < 256 → 0 ≤ base < 4294967296 → fl = 0x8E ∨ fl = 0xEE →
  idt_set_gate num base 8 fl k = Done tt (set_idt (mk_idt (<[num := gate base]> (idt (k_idt k)))
    (idtp_limit (k_idt k)) (idtp_base (k_idt k)) (interrupt_handlers (k_idt k))) k).
Proof.
  intros Hn Hb Hf. unfold idt_set_gate, upd_idt, modify, gate. rewrite u8_small by lia.
  replace (u8 (Z.lor fl 0x60)) with 0xEE by (destruct Hf as [-> | ->]; by vm_compute).
  change 0xFFFF with (Z.ones 16). rewrite !land_mask, Z.shiftr_div_pow2 by lia.
  change (2 ^ 16) with 65536. rewrite (Z.mod_small (base / 65536)); [done|]. dlia.
Qed.

(** A run of gates set from a list of stub addresses. *)
Lemma gates_run lo n (addr : Z → Z) k :
  0 ≤ lo → 0 ≤ n → lo + n ≤ 256 → (∀ i, 0 ≤ addr i < 4294967296) →
  ∃ m, for_list (seqZ 0 n) (λ i, idt_set_gate (lo + i) (addr i) 0x08 0x8E) k =
    Done tt (set_idt (mk_idt m (idtp_limit (k_idt k)) (idtp_base (k_idt k))
      (interrupt_handlers (k_idt k))) k) ∧
    ∀ v, m !! v = if (lo <=? v) && (v <? lo + n) then Some (gate (addr (v - lo))) else idt (k_idt k) !! v.
Proof.
  intros Hlo Hn Hhi Ha. pose (P := λ j, ∀ k, ∃ m,
    for_list (seqZ j (n - j)) (λ i, idt_set_gate (lo + i) (addr i) 0x08 0x8E) k =
      Done tt (set_idt (mk_idt m (idtp_limit (k_idt k)) (idtp_base (k_idt k))
        (interrupt_handlers (k_idt k))) k) ∧
    ∀ v, m !! v = if (lo + j <=? v) && (v <? lo + n) then Some (gate (addr (v - lo))) else idt (k_idt k) !! v).
  assert (HP : ∀ d, 0 ≤ d → d ≤ n → P (n - d)).
  { intros d Hd. pattern d. revert d Hd. apply natlike_ind.
    - intros _ k'. replace (n - (n - 0)) with 0 by lia. cbn [seqZ]. exists (idt (k_idt k')).
      split; [by destruct k' as [? ? ? ? ? ? ? ? ? [] ? ? ? ?]|]. intros v. zcases; done.
    - intros d Hd IH Hdn k'. replace (n - (n - Z.succ d)) with (Z.succ d) by lia.
      rewrite seqZ_cons by lia. replace (Z.pred (Z.succ d)) with d by lia.
      replace (Z.succ (n - Z.succ d)) with (n - d) by lia. cbn [for_list].
      rewrite (bind_done _ _ _ _ _ (idt_set_gate_run (lo + (n - Z.succ d)) (addr (n - Z.succ d)) 0x8E k'
        ltac:(lia) (Ha _) (or_introl eq_refl))).
      destruct (IH ltac:(lia) (set_idt (mk_idt (<[lo + (n - Z.succ d) := gate (addr (n - Z.succ d))]>
        (idt (k_idt k'))) (idtp_limit (k_idt k')) (idtp_base (k_idt k'))
        (interrupt_handlers (k_idt k'))) k')) as (m & E & Hm).
      replace (n - (n - d)) with d in E by lia. exists m. split; [rewrite E; by destruct k'|].
      intros v. rewrite Hm. cbn [k_idt set_idt idt].
      destruct (decide (v = lo + (n - Z.succ d))) as [->|Hne].
      + rewrite lookup_insert_eq. replace (lo + (n - Z.succ d) - lo) with (n - Z.succ d) by lia.
        zcases; done.
      + rewrite lookup_insert_ne by done. zcases; done. }
  destruct (HP n Hn ltac:(lia) k) as (m & E & Hm). replace (n - n) with 0 in * by lia.
  rewrite Z.sub_0_r in E. exists m. split; [done|]. intros v. rewrite Hm. by rewrite Z.add_0_r.
Qed.

Lemma init_idt_run `{Stubs} k :
  (∀ i, 0 ≤ isr_addr i < 4294967296) → (∀ i, 0 ≤ irq_addr i < 4294967296) →
  ∃ m, init_idt k = Done tt (set_idt (mk_idt m 2047 idt_addr ∅) k) ∧
    ∀ v, 0 ≤ v < 256 → m !! v =
      if v <? 32 then Some (gate (isr_addr v))
      else if v <? 48 then Some (gate (irq_addr (v - 32)))
      else if v =? 128 then Some (gate (isr_addr 128))
      else idt (k_idt k) !! v.
Proof.
  intros Ha Hb. unfold init_idt, upd_idt at 1. rewrite bind_modify.
  set (k0 := set_idt _ k).
  destruct (gates_run 0 32 isr_addr k0 ltac:(lia) ltac:(lia) ltac:(lia) Ha) as (m1 & E1 & H1).
  change (λ i, idt_set_gate (0 + i) (isr_addr i) 8 142) with
    (λ i, idt_set_gate i (isr_addr i) 8 142) in E1.
  rewrite (bind_done _ _ _ _ _ E1).
  match goal with |- context [bind _ _ ?k2] => set (k1 := k2) end.
  destruct (gates_run 32 16 irq_addr k1 ltac:(lia) ltac:(lia) ltac:(lia) Hb) as (m2 & E2 & H2).
  rewrite (bind_done _ _ _ _ _ E2).
  rewrite (bind_done _ _ _ _ _ (idt_set_gate_run 128 (isr_addr 128) 0xEE _
    ltac:(lia) (Ha _) (or_intror eq_refl))).
  exists (<[128 := gate (isr_addr 128)]> m2). split; [subst k1 k0; unfold idt_load, upd_idt, modify; ksimpl; cbn [idt idtp_limit idtp_base interrupt_handlers]; done|].
  intros v Hv. destruct (Z.eqb_spec v 128) as [->|Hne].
  - rewrite lookup_insert_eq. zcases; done.
  - rewrite lookup_insert_ne by done. rewrite H2. subst k1 k0. cbn [k_idt set_idt idt] in *.
    rewrite H1, Z.sub_0_r. zcases; done.
Qed.

Lemma irq_handler_run `{SyscallEntry} regs k :
  0 ≤ r_int_no regs < 256 →
  let k1 := set_io (Out8 0x20 0x20 ::
    (if 40 <=? r_int_no regs then [Out8 0xA0 0x20] else []) ++ k_io k) k in
  irq_handler regs k =
    match interrupt_handlers (k_idt k) !! r_int_no regs with
    | Some h => call_handler h regs k1
    | None => Done regs k1
    end.
Proof.
  intros Hr. unfold irq_handler, outb. destruct (40 <=? r_int_no regs); krun;
    rewrite (proj2 (Z.leb_gt 256 _)) by lia; krun; by destruct (interrupt_handlers _ !! _).
Qed.

Lemma irqs_timer `{SyscallEntry} n regs k :
  r_int_no regs = 32 → interrupt_handlers (k_idt k) !! 32 = Some isr_timer_callback →
  tick_count (k_timer k) = u32 (tick_count (k_timer k)) →
  irqs n regs k = Done tt (set_io (replicate n (Out8 0x20 0x20) ++ k_io k)
    (set_timer (ticked (Z.of_nat n) (k_timer k)) k)).
Proof.
  intros Hr. revert k. induction n as [|n IH]; intros k Hh Ht.
  - cbn. rewrite ticked_0 by done. by destruct k.
  - cbn [irqs]. assert (E : irq_handler regs k = Done regs (set_io (Out8 0x20 0x20 :: k_io k)
      (set_timer (ticked 1 (k_timer k)) k))).
    { rewrite irq_handler_run by lia. rewrite Hr, Hh. by destruct k. }
    rewrite (bind_done _ _ _ _ _ E), IH; [|done|cbn; by rewrite u32_idemp].
    f_equal. ksimpl. rewrite ticked_add. replace (1 + Z.of_nat n) with (Z.of_nat (S n)) by lia.
    rewrite replicate_S_end, <- app_assoc. done.
Qed.

Lemma get_time_ticked t n :
  u32 (u32 (tick_count (ticked n t) * ms_per_tick t) - u32 (tick_count t * ms_per_tick t)) =
  u32 (n * ms_per_tick t).
Proof.
  cbn. unfold u32. rewrite Zmult_mod_idemp_l, <- Zminus_mod. f_equal. lia.
Qed.

(** [ticks] says what the interrupt that ends [hlt] does to the time. *)
Definition ticks (interrupt : K unit) : Prop :=
  ∀ k, ∃ k', interrupt k = Done tt k' ∧ k_timer k' = ticked 1 (k_timer k).

Lemma delay_loop_run interrupt t0 ms n d fuel k :
  ticks interrupt → 0 ≤ n → 0 ≤ d → k_timer k = ticked n t0 →
  ms_per_tick t0 * (n + d) < 4294967296 → 0 ≤ ms_per_tick t0 →
  (∀ j, n ≤ j < n + d → j * ms_per_tick t0 < ms) → ms ≤ (n + d) * ms_per_tick t0 →
  (Z.to_nat d < fuel)%nat →
  ∃ k', delay_loop interrupt fuel (u32 (tick_count t0 * ms_per_tick t0)) ms k = Done tt k' ∧
    k_timer k' = ticked (n + d) t0.
Proof.
  intros Hi Hn Hd. revert n fuel k Hn. pattern d. revert d Hd. apply natlike_ind.
  - intros n fuel k Hn Hk Hov Hm Hlt Hms Hf. destruct fuel as [|fuel]; [lia|].
    exists k. rewrite Z.add_0_r in *. split; [|done]. cbn [delay_loop]. unfold get_time_ms.
    rewrite bind_gets, Hk. cbn [ms_per_tick ticked]. fold (ticked n t0).
    change (u32 (tick_count t0 + n)) with (tick_count (ticked n t0)).
    rewrite get_time_ticked, u32_small by nia. by rewrite (proj2 (Z.ltb_ge _ _)) by lia.
  - intros d Hd IH n fuel k Hn Hk Hov Hm Hlt Hms Hf. destruct fuel as [|fuel]; [lia|].
    cbn [delay_loop]. unfold get_time_ms at 1. rewrite bind_gets, Hk. cbn [ms_per_tick ticked].
    change (u32 (tick_count t0 + n)) with (tick_count (ticked n t0)).
    rewrite get_time_ticked, u32_small by nia.
    rewrite (proj2 (Z.ltb_lt _ _)) by (apply Hlt; lia).
    destruct (Hi k) as (k1 & E1 & Hk1). rewrite (bind_done _ _ _ _ _ E1).
    rewrite Hk, ticked_add in Hk1.
    destruct (IH (n + 1) fuel k1) as (k' & E & Hk'); [lia|done|lia|done| |lia|lia|].
    { intros j Hj. apply Hlt. lia. }
    exists k'. split; [done|]. rewrite Hk'. f_equal. lia.
Qed.

Lemma delay_loop_stuck interrupt t0 ms fuel k n :
  ticks interrupt → k_timer k = ticked n t0 → ms_per_tick t0 = 0 → 0 < ms →
  delay_loop interrupt fuel (u32 (tick_count t0 * ms_per_tick t0)) ms k = Spin.
Proof.
  intros Hi Hk H0 Hms. revert k n Hk. induction fuel as [|fuel IH]; intros k n Hk; [done|].
  cbn [delay_loop]. unfold get_time_ms at 1. rewrite bind_gets, Hk. cbn [ms_per_tick ticked].
  rewrite H0, !Z.mul_0_r. rewrite (proj2 (Z.ltb_lt _ _)) by done.
  destruct (Hi k) as (k1 & E1 & Hk1). rewrite (bind_done _ _ _ _ _ E1).
  rewrite Hk, ticked_add in Hk1. specialize (IH k1 _ Hk1). by rewrite H0, Z.mul_0_r in IH.
Qed.

Lemma init_timer_run freq k (f := if freq =? 0 then 100 else freq) :
  ∃ s io, init_timer freq k = Done tt (with_console s io
    (set_idt (mk_idt (idt (k_idt k)) (idtp_limit (k_idt k)) (idtp_base (k_idt k))
       (<[32 := isr_timer_callback]> (interrupt_handlers (k_idt k))))
     (set_timer (mk_timer (tick_count (k_timer k)) f (1000 / f)) k))).
Proof.
  unfold init_timer, upd_timer, register_interrupt_handler, upd_idt. fold f. cbv zeta.
  rewrite !bind_modify. unfold outb. rewrite !bind_modify.
  do 4 print_step. print_last. eexists _, _. f_equal.
Qed.

(** The bit [enable_irq] or [disable_irq] leaves in the mask it writes. *)
Lemma mask_bit (on : bool) m b j :
  0 ≤ m < 256 → 0 ≤ b < 8 → 0 ≤ j < 8 →
  Z.testbit (u8 (u8 (if on then Z.land (u8 m) (Z.lnot (Z.shiftl 1 b))
                     else Z.lor (u8 m) (Z.shiftl 1 b)))) j =
    if j =? b then negb on else Z.testbit m j.
Proof.
  intros Hm Hb Hj. rewrite u8_idemp, (u8_small m) by done. unfold u8. change 256 with (2 ^ 8).
  rewrite Z.mod_pow2_bits_low by lia.
  destruct on; [rewrite testbit_ldiff_shiftl_1 by lia|rewrite testbit_lor_shiftl_1 by lia];
    destruct (Z.eqb_spec b j), (Z.eqb_spec j b); try lia; cbn [negb andb orb];
    by rewrite ?andb_true_r, ?andb_false_r, ?orb_true_r, ?orb_false_r.
Qed.

Lemma irq_line_run `{Hardware} irq k1 (on : bool) :
  (∀ io port, port = PIC1_DATA ∨ port = PIC2_DATA → hw_in8 io port = last_out io port) →
  0 ≤ irq < 16 →
  0 ≤ last_out (k_io k1) PIC1_DATA < 256 → 0 ≤ last_out (k_io k1) PIC2_DATA < 256 →
  ∃ k', (if on then enable_irq irq else disable_irq irq) k1 = Done tt k' ∧
    ∀ port j, port = PIC1_DATA ∨ port = PIC2_DATA → 0 ≤ j < 8 →
      Z.testbit (last_out (k_io k') port) j =
        if (port =? (irq_line irq).1) && (j =? (irq_line irq).2) then negb on
        else Z.testbit (last_out (k_io k1) port) j.
Proof.
  intros Hhw Hi H1 H2.
  assert (Hl : ∃ p b, irq_line irq = (p, b) ∧ (p = PIC1_DATA ∨ p = PIC2_DATA) ∧ 0 ≤ b < 8).
  { unfold irq_line. destruct (Z.ltb_spec irq 8); eexists _, _; split_and!; try done; auto.
    all: rewrite ?u8_small by lia; lia. }
  destruct Hl as (p & b & El & Hp & Hb).
  assert (Hm : 0 ≤ last_out (k_io k1) p < 256) by (by destruct Hp as [-> | ->]).
  assert (Eu : u16 p = p) by (by destruct Hp as [-> | ->]).
  exists (set_io (Out8 p (u8 (u8 (if on then Z.land (u8 (last_out (k_io k1) p)) (Z.lnot (Z.shiftl 1 b))
                     else Z.lor (u8 (last_out (k_io k1) p)) (Z.shiftl 1 b)))) ::
                  In8 p (u8 (last_out (k_io k1) p)) :: k_io k1) k1). split.
  - unfold enable_irq, disable_irq. rewrite El. unfold inb, outb. destruct on; krun.
    all: rewrite (proj2 (Z.leb_gt 32 _)) by lia; krun; by rewrite !Eu, !Hhw.
  - intros port j Hport Hj. rewrite El. cbn [k_io set_io last_out fst snd].
    destruct (Z.eqb_spec p port) as [->|Hne].
    + rewrite Z.eqb_refl, mask_bit by done. done.
    + by rewrite (proj2 (Z.eqb_neq port p)) by done.
Qed.

(** ** Properties *)

(** [init_idt] clears the handler table, loads a table of 256 gates, and
    points vectors 0-31, 32-47 and 0x80 at their stubs through selector 0x08,
    leaving the others as they were; every gate it sets, exceptions and IRQs
    included, is present and callable from user mode (privilege level 3). *)
Theorem init_idt_gates `{Stubs} k :
  (∀ i, 0 ≤ isr_addr i < 4294967296) → (∀ i, 0 ≤ irq_addr i < 4294967296) →
  ∃ k', init_idt k = Done tt k' ∧ k' = set_idt (k_idt k') k ∧
    interrupt_handlers (k_idt k') = ∅ ∧ idtp_limit (k_idt k') = 8 * 256 - 1 ∧
    idtp_base (k_idt k') = idt_addr ∧
    ∀ v, 0 ≤ v < 256 →
      let e := idt_entry (k_idt k') v in
      if (v <? 48) || (v =? 128) then
        gate_target e = (if (32 <=? v) && (v <? 48) then irq_addr (v - 32) else isr_addr v) ∧
        selector e = 0x08 ∧ gate_dpl e = 3 ∧ gate_present e = true
      else e = idt_entry (k_idt k) v.
Proof.
  intros Ha Hb. destruct (init_idt_run k Ha Hb) as (m & E & Hm).
  eexists. split; [exact E|]. split; [by destruct k|]. split_and!; try done.
  intros v Hv. unfold idt_entry. cbn [k_idt set_idt idt]. rewrite Hm by done.
  assert (Hg : ∀ a, gate_target (gate a) = a).
  { intros a. unfold gate_target, gate; cbn. dlia. }
  zcases; cbn [default from_option id]; subst; by rewrite ?Hg.
Qed.

(** Once the timer's handler is registered on vector 32, [n] timer
    interrupts advance the tick count by exactly [n] (modulo 2^32), acknowledge
    the master controller once each and the slave never, and change nothing
    else; the time then reads [n] periods more. *)
Theorem irq_timer_ticks `{SyscallEntry} n regs k :
  r_int_no regs = 32 → interrupt_handlers (k_idt k) !! 32 = Some isr_timer_callback →
  0 ≤ tick_count (k_timer k) < 4294967296 →
  ∃ k', irqs n regs k = Done tt k' ∧
    k' = set_io (replicate n (Out8 0x20 0x20) ++ k_io k) (set_timer (k_timer k') k) ∧
    tick_count (k_timer k') = u32 (tick_count (k_timer k) + Z.of_nat n) ∧
    get_time_ms k' = Done (u32 ((tick_count (k_timer k) + Z.of_nat n) * ms_per_tick (k_timer k))) k'.
Proof.
  intros Hr Hh Ht. eexists. split; [apply irqs_timer; [done..|by rewrite u32_small]|].
  split; [by destruct k|]. split; [done|]. unfold get_time_ms, gets. f_equal.
  cbn. unfold u32. by rewrite Zmult_mod_idemp_l.
Qed.

(** [init_pic] leaves every line of both controllers enabled, whatever
    masks it saved and wrote back before.  Then, with controllers that read back
    the mask last written, [disable_irq] and [enable_irq] set and clear exactly
    the bit of their line, on the right controller. *)
Theorem irq_mask_bits `{Hardware} irq k0 k :
  (∀ io port, port = PIC1_DATA ∨ port = PIC2_DATA → hw_in8 io port = last_out io port) →
  init_pic k0 = Done tt k → 0 ≤ irq < 16 →
  (last_out (k_io k) PIC1_DATA = 0 ∧ last_out (k_io k) PIC2_DATA = 0) ∧
  ∀ k1, 0 ≤ last_out (k_io k1) PIC1_DATA < 256 → 0 ≤ last_out (k_io k1) PIC2_DATA < 256 →
  ∀ on : bool, ∃ k', (if on then enable_irq irq else disable_irq irq) k1 = Done tt k' ∧
    ∀ port j, port = PIC1_DATA ∨ port = PIC2_DATA → 0 ≤ j < 8 →
      Z.testbit (last_out (k_io k') port) j =
        if (port =? PIC1_DATA) && (j =? irq) || (port =? PIC2_DATA) && (8 + j =? irq)
        then negb on else Z.testbit (last_out (k_io k1) port) j.
Proof.
  intros Hhw E Hi. split.
  { revert E. unfold init_pic, inb, outb, io_wait, outb. krun. intros E.
    apply Done_inj in E as [_ <-]. done. }
  intros k1 H1 H2 on.
  destruct (irq_line_run irq k1 on Hhw Hi H1 H2) as (k' & E' & Hk'). exists k'. split; [done|].
  intros port j Hp Hj. rewrite Hk' by done. unfold irq_line.
  destruct (Z.ltb_spec irq 8); cbn [fst snd].
  - destruct Hp as [-> | ->]; cbn; zcases; done.
  - rewrite u8_small by lia. destruct Hp as [-> | ->]; cbn; zcases; done.
Qed.

(** C38: [delay_ms], when every interrupt that ends its [hlt] is a timer tick,
    returns after exactly the ticks that cover [ms] when a tick lasts a positive
    number of milliseconds.  With the timer set above 1000 Hz a tick counts as
    0 ms, and [delay_ms] of a positive time never returns. *)
Theorem delay_ms_waits interrupt freq ms k0 k n :
  ticks interrupt → init_timer freq k0 = Done tt k → 0 ≤ freq → 0 < ms →
  0 ≤ tick_count (k_timer k0) < 4294967296 →
  (let mpt := ms_per_tick (k_timer k) in
   0 < mpt → ms + mpt ≤ 4294967296 → (Z.to_nat ((ms + mpt - 1) / mpt) < n)%nat →
   ∃ k', delay_ms interrupt n ms k = Done tt k' ∧
     k_timer k' = ticked ((ms + mpt - 1) / mpt) (k_timer k)) ∧
  (1000 < freq → delay_ms interrupt n ms k = Spin).
Proof.
  intros Hi E Hf Hms Ht. destruct (init_timer_run freq k0) as (s & io & E').
  rewrite E in E'. apply Done_inj in E' as [_ ->]. ksimpl. cbn [ms_per_tick tick_count].
  set (t0 := mk_timer _ _ _). set (k := with_console _ _ _).
  assert (H0 : k_timer k = ticked 0 t0) by (rewrite ticked_0; [done|cbn; by rewrite u32_small]).
  unfold delay_ms, get_time_ms. rewrite !bind_gets. split.
  - intros Hm Hov Hn. set (mpt := 1000 / _) in *. set (d := (ms + mpt - 1) / mpt) in *.
    assert (Hd : d * mpt ≤ ms + mpt - 1 < d * mpt + mpt) by (subst d; dlia).
    change (k_timer k) with t0.
    destruct (delay_loop_run interrupt t0 ms 0 d n k) as (k' & Ek & Hk'); try done; cbn; fold mpt; try nia.
    exists k'. split; [exact Ek|done].
  - intros Hgt. change (k_timer k) with t0. apply (delay_loop_stuck interrupt t0 ms n k 0); try done.
    cbn. destruct (Z.eqb_spec freq 0); [lia|]. apply Z.div_small. lia.
Qed.

(** *** Witnesses *)

Definition stubs0 : Stubs := {| isr_addr i := 0x100000 + u16 i; irq_addr i := 0x100800 + u16 i;
  idt_addr := 0x110000 |}.

Lemma init_idt_gates_witness :
  ∃ k', @init_idt stubs0 kernel_bss = Done tt k' ∧ gate_target (idt_entry (k_idt k') 14) = 0x10000E.
Proof.
  destruct (@init_idt_gates stubs0 kernel_bss) as (k' & E & _ & _ & _ & _ & H).
  - intros i. cbn. pose proof (u16_range i). lia.
  - intros i. cbn. pose proof (u16_range i). lia.
  - exists k'. split; [exact E|]. exact (proj1 (H 14 ltac:(lia))).
Defined.

Definition no_syscalls : SyscallEntry := ret.

Definition regs_int (n : Z) : registers_t := mk_regs 0 0 0 0 0 0 0 0 0 n 0 0 0 0.

Definition timer0 : kernel := after (init_timer 100) kernel_bss.

Lemma timer0_run : init_timer 100 kernel_bss = Done tt timer0.
Proof.
  destruct (init_timer_run 100 kernel_bss) as (s & io & E). exact (after_run _ _ _ _ E).
Qed.

Lemma timer0_spec :
  k_timer timer0 = mk_timer 0 100 10 ∧
  interrupt_handlers (k_idt timer0) !! 32 = Some isr_timer_callback.
Proof.
  destruct (init_timer_run 100 kernel_bss) as (s & io & E).
  pose proof (after_eq _ _ _ _ E : timer0 = _) as ->. split; reflexivity.
Qed.

#[global] Opaque timer0.

Lemma irq_timer_ticks_witness :
  ∃ k', @irqs no_syscalls 7 (regs_int 32) timer0 = Done tt k' ∧ tick_count (k_timer k') = 7.
Proof.
  destruct (@irq_timer_ticks no_syscalls 7 (regs_int 32) timer0) as (k' & E & _ & Ht & _);
    [reflexivity|apply timer0_spec|rewrite (proj1 timer0_spec); cbn; lia|].
  exists k'. split; [exact E|]. rewrite Ht, (proj1 timer0_spec). reflexivity.
Defined.

Definition pic_hardware : Hardware := {| hw_in8 := last_out; hw_in16 _ _ := 0 |}.

Definition pic0 : kernel :=
  after (@init_pic pic_hardware) kernel_bss.

Lemma irq_mask_bits_witness :
  ∃ k', @disable_irq pic_hardware 9 pic0 = Done tt k' ∧
    Z.testbit (last_out (k_io k') PIC2_DATA) 1 = true ∧
    Z.testbit (last_out (k_io k') PIC1_DATA) 1 = false.
Proof.
  destruct (@irq_mask_bits pic_hardware 9 kernel_bss pic0) as [_ H];
    [intros io port _; reflexivity|vm_compute; reflexivity|lia|].
  destruct (H pic0 ltac:(vm_compute; split; congruence) ltac:(vm_compute; split; congruence) false)
    as (k' & E & Hk'). exists k'. split; [exact E|].
  split; rewrite Hk' by (auto || lia); vm_compute; reflexivity.
Defined.

Lemma delay_ms_waits_witness :
  ∃ k', delay_ms timer_callback 4 25 timer0 = Done tt k' ∧ tick_count (k_timer k') = 3.
Proof.
  destruct (delay_ms_waits timer_callback 100 25 kernel_bss timer0 4) as [H _].
  - intros k. eexists. split; [reflexivity|]. reflexivity.
  - exact timer0_run.
  - lia.
  - lia.
  - vm_compute. split; congruence.
  - rewrite (proj1 timer0_spec) in H. destruct H as (k' & E & Ht); [reflexivity|cbn; lia|vm_compute; repeat constructor|].
    exists k'. split; [exact E|]. rewrite Ht. reflexivity.
Defined.
