(* ===== verification/Process.v ===== *)
(** * Processes (kernel/process.c)

    The process table, the ready queue threaded through the [next] fields of the
    table's slots, and the operations on them.  A [pcb_t *] is the index of a
    slot.  The abstract specification of the queue is a list of slots; the
    theorems show round-robin scheduling and what [fork] copies, and where the
    slot and queue handling breaks. *)

From S2P Require Import Prelude Memory Types Machine Screen Interrupts.
Import ScreenH ProcessH.

(** ** Field updates *)

Definition set_name (v : list Z) (p : pcb_t) : pcb_t :=
  mk_pcb (kernel_esp p) (eflags p) (page_dir_phys p) (pid p) v (state p) (eax p) (ebx p) (ecx p)
    (edx p) (esi p) (edi p) (ebp p) (esp p) (eip p) (cs p) (ds p) (es p) (fs p) (gs p) (ss p)
    (page_dir p) (brk p) (fd p) (parent p) (children p) (sibling p) (next p) (time_slice p)
    (sleep_until p) (exit_code p) (priority p) (wakeup_time p).
Definition set_state (v : process_state_t) (p : pcb_t) : pcb_t :=
  mk_pcb (kernel_esp p) (eflags p) (page_dir_phys p) (pid p) (name p) v (eax p) (ebx p) (ecx p)
    (edx p) (esi p) (edi p) (ebp p) (esp p) (eip p) (cs p) (ds p) (es p) (fs p) (gs p) (ss p)
    (page_dir p) (brk p) (fd p) (parent p) (children p) (sibling p) (next p) (time_slice p)
    (sleep_until p) (exit_code p) (priority p) (wakeup_time p).
Definition set_eip (v : Z) (p : pcb_t) : pcb_t :=
  mk_pcb (kernel_esp p) (eflags p) (page_dir_phys p) (pid p) (name p) (state p) (eax p) (ebx p)
    (ecx p) (edx p) (esi p) (edi p) (ebp p) (esp p) v (cs p) (ds p) (es p) (fs p) (gs p) (ss p)
    (page_dir p) (brk p) (fd p) (parent p) (children p) (sibling p) (next p) (time_slice p)
    (sleep_until p) (exit_code p) (priority p) (wakeup_time p).
Definition set_esp (v : Z) (p : pcb_t) : pcb_t :=
  mk_pcb (kernel_esp p) (eflags p) (page_dir_phys p) (pid p) (name p) (state p) (eax p) (ebx p)
    (ecx p) (edx p) (esi p) (edi p) (ebp p) v (eip p) (cs p) (ds p) (es p) (fs p) (gs p) (ss p)
    (page_dir p) (brk p) (fd p) (parent p) (children p) (sibling p) (next p) (time_slice p)
    (sleep_until p) (exit_code p) (priority p) (wakeup_time p).
Definition set_ebp (v : Z) (p : pcb_t) : pcb_t :=
  mk_pcb (kernel_esp p) (eflags p) (page_dir_phys p) (pid p) (name p) (state p) (eax p) (ebx p)
    (ecx p) (edx p) (esi p) (edi p) v (esp p) (eip p) (cs p) (ds p) (es p) (fs p) (gs p) (ss p)
    (page_dir p) (brk p) (fd p) (parent p) (children p) (sibling p) (next p) (time_slice p)
    (sleep_until p) (exit_code p) (priority p) (wakeup_time p).
Definition set_page_dir (v : PagingH.pd_ptr) (p : pcb_t) : pcb_t :=
  mk_pcb (kernel_esp p) (eflags p) (page_dir_phys p) (pid p) (name p) (state p) (eax p) (ebx p)
    (ecx p) (edx p) (esi p) (edi p) (ebp p) (esp p) (eip p) (cs p) (ds p) (es p) (fs p) (gs p)
    (ss p) v (brk p) (fd p) (parent p) (children p) (sibling p) (next p) (time_slice p)
    (sleep_until p) (exit_code p) (priority p) (wakeup_time p).
Definition set_brk (v : Z) (p : pcb_t) : pcb_t :=
  mk_pcb (kernel_esp p) (eflags p) (page_dir_phys p) (pid p) (name p) (state p) (eax p) (ebx p)
    (ecx p) (edx p) (esi p) (edi p) (ebp p) (esp p) (eip p) (cs p) (ds p) (es p) (fs p) (gs p)
    (ss p) (page_dir p) v (fd p) (parent p) (children p) (sibling p) (next p) (time_slice p)
    (sleep_until p) (exit_code p) (priority p) (wakeup_time p).
Definition set_next (v : option nat) (p : pcb_t) : pcb_t :=
  mk_pcb (kernel_esp p) (eflags p) (page_dir_phys p) (pid p) (name p) (state p) (eax p) (ebx p)
    (ecx p) (edx p) (esi p) (edi p) (ebp p) (esp p) (eip p) (cs p) (ds p) (es p) (fs p) (gs p)
    (ss p) (page_dir p) (brk p) (fd p) (parent p) (children p) (sibling p) v (time_slice p)
    (sleep_until p) (exit_code p) (priority p) (wakeup_time p).
Definition set_time_slice (v : Z) (p : pcb_t) : pcb_t :=
  mk_pcb (kernel_esp p) (eflags p) (page_dir_phys p) (pid p) (name p) (state p) (eax p) (ebx p)
    (ecx p) (edx p) (esi p) (edi p) (ebp p) (esp p) (eip p) (cs p) (ds p) (es p) (fs p) (gs p)
    (ss p) (page_dir p) (brk p) (fd p) (parent p) (children p) (sibling p) (next p) v
    (sleep_until p) (exit_code p) (priority p) (wakeup_time p).
Definition set_exit_code (v : Z) (p : pcb_t) : pcb_t :=
  mk_pcb (kernel_esp p) (eflags p) (page_dir_phys p) (pid p) (name p) (state p) (eax p) (ebx p)
    (ecx p) (edx p) (esi p) (edi p) (ebp p) (esp p) (eip p) (cs p) (ds p) (es p) (fs p) (gs p)
    (ss p) (page_dir p) (brk p) (fd p) (parent p) (children p) (sibling p) (next p) (time_slice p)
    (sleep_until p) v (priority p) (wakeup_time p).
Definition set_priority (v : Z) (p : pcb_t) : pcb_t :=
  mk_pcb (kernel_esp p) (eflags p) (page_dir_phys p) (pid p) (name p) (state p) (eax p) (ebx p)
    (ecx p) (edx p) (esi p) (edi p) (ebp p) (esp p) (eip p) (cs p) (ds p) (es p) (fs p) (gs p)
    (ss p) (page_dir p) (brk p) (fd p) (parent p) (children p) (sibling p) (next p) (time_slice p)
    (sleep_until p) (exit_code p) v (wakeup_time p).

Definition set_fork_context (c p : pcb_t) : pcb_t :=
  mk_pcb (kernel_esp p) (eflags c) (page_dir_phys p) (pid p) (name p) (state p)
    0 (ebx c) (ecx c) (edx c) (esi c) (edi c) (ebp c) (esp c) (eip c)
    (cs c) (ds c) (es c) (fs c) (gs c) (ss c)
    (page_dir c) (brk c) (fd c) (parent p) (children p) (sibling p) (next p) (time_slice p)
    (sleep_until p) (exit_code p) (priority p) (wakeup_time p).
Definition set_parent (v : option nat) (p : pcb_t) : pcb_t :=
  mk_pcb (kernel_esp p) (eflags p) (page_dir_phys p) (pid p) (name p) (state p) (eax p) (ebx p)
    (ecx p) (edx p) (esi p) (edi p) (ebp p) (esp p) (eip p) (cs p) (ds p) (es p) (fs p) (gs p)
    (ss p) (page_dir p) (brk p) (fd p) v (children p) (sibling p) (next p) (time_slice p)
    (sleep_until p) (exit_code p) (priority p) (wakeup_time p).

(** The assignments of [create_process_empty] after its [memset]. *)
Definition pcb_empty (new_pid : Z) : pcb_t :=
  mk_pcb 0 0 0 new_pid [] PROCESS_NEW 0 0 0 0 0 0 0 0 0 0 0 0 0 0 0
    PagingH.pd_null 0 (replicate 16 (-1)) None None None None 10 0 0 0 0.

(** The assignments of [init_process_manager] to the idle process. *)
Definition pcb_idle : pcb_t :=
  mk_pcb 0 0 0 0 (cstr "idle") PROCESS_RUNNING 0 0 0 0 0 0 0 0 0 0 0 0 0 0 0
    PagingH.pd_kernel 0x100000 (replicate 16 (-1)) None None None None 10 0 0 0 0.

(** ** Operations *)

Definition pcb (tbl : list pcb_t) (i : nat) : pcb_t := default pcb_zero (tbl !! i).

Definition upd_proc (f : proc_state → proc_state) : K unit :=
  modify (λ k, set_proc (f (k_proc k)) k).

Definition upd_table (f : list pcb_t → list pcb_t) (s : proc_state) : proc_state :=
  mk_proc (f (process_table s)) (current_process s) (next_pid s) (ready_queue s).
Definition upd_pcb (i : nat) (f : pcb_t → pcb_t) (s : proc_state) : proc_state :=
  upd_table (λ t, <[i := f (pcb t i)]> t) s.
Definition set_current (c : option nat) (s : proc_state) : proc_state :=
  mk_proc (process_table s) c (next_pid s) (ready_queue s).
Definition set_next_pid (n : Z) (s : proc_state) : proc_state :=
  mk_proc (process_table s) (current_process s) n (ready_queue s).
Definition set_ready_queue (q : option nat) (s : proc_state) : proc_state :=
  mk_proc (process_table s) (current_process s) (next_pid s) q.

(** [strcpy] into the 32-byte [name]: a longer string overruns the field. *)
Definition strcpy_name (i : nat) (str : list Z) : K unit :=
  if MAX_PROCESS_NAME <=? Z.of_nat (length str) then fault
  else upd_proc (upd_pcb i (set_name str)).

(** [while (p->next) p = p->next;] *)
Fixpoint queue_last (fuel : nat) (tbl : list pcb_t) (p : nat) : option nat :=
  match fuel with
  | O => None
  | S fuel => match next (pcb tbl p) with None => Some p | Some p' => queue_last fuel tbl p' end
  end.

Definition enqueue_process (fuel : nat) (proc : nat) : K unit :=
  upd_proc (upd_pcb proc (set_next None)) ;;;
  let* s := gets k_proc in
  match ready_queue s with
  | None => upd_proc (set_ready_queue (Some proc))
  | Some p =>
      match queue_last fuel (process_table s) p with
      | None => spin
      | Some p => upd_proc (upd_pcb p (set_next (Some proc)))
      end
  end.

Definition dequeue_process : K (option nat) :=
  let* s := gets k_proc in
  match ready_queue s with
  | None => ret None
  | Some p =>
      upd_proc (set_ready_queue (next (pcb (process_table s) p))) ;;;
      upd_proc (upd_pcb p (set_next None)) ;;;
      ret (Some p)
  end.

Definition state_of (s : proc_state) (i : nat) : process_state_t := state (pcb (process_table s) i).

Definition scheduler_get_next (fuel : nat) : K nat :=
  let* s := gets k_proc in
  match current_process s with
  | Some c =>
      if decide (state_of s c = PROCESS_RUNNING) then
        upd_proc (upd_pcb c (set_state PROCESS_READY)) ;;;
        enqueue_process fuel c
      else ret tt
  | None => ret tt
  end ;;;
  let* next := dequeue_process in
  let next := default 0%nat next in
  upd_proc (upd_pcb next (set_state PROCESS_RUNNING)) ;;;
  upd_proc (set_current (Some next)) ;;;
  ret next.

Definition get_current_process : K (option nat) := gets (λ k, current_process (k_proc k)).

Definition get_pid : K Z :=
  let* s := gets k_proc in
  match current_process s with
  | None => ret 0
  | Some c => ret (s32 (pid (pcb (process_table s) c)))
  end.

Definition init_process_manager : K unit :=
  screen_putstr (cstr "Initializing Process Manager... ") ;;;
  upd_proc (upd_table (λ _, replicate 64 pcb_zero)) ;;;
  upd_proc (set_ready_queue None) ;;;
  upd_proc (upd_pcb 0 (λ _, pcb_idle)) ;;;
  upd_proc (set_current (Some 0%nat)) ;;;
  upd_proc (set_next_pid 1) ;;;
  screen_setcolor COLOR_LIGHT_GREEN COLOR_BLACK ;;;
  screen_putstr (cstr "OK" ++ [10]).

(** The first slot that is terminated or has pid 0, among [n] from [i]. *)
Fixpoint find_slot (n : nat) (i : nat) (tbl : list pcb_t) : option nat :=
  match n with
  | O => None
  | S n =>
      if bool_decide (state (pcb tbl i) = PROCESS_TERMINATED) || (pid (pcb tbl i) =? 0)
      then Some i else find_slot n (S i) tbl
  end.

Definition create_process_empty : K (option nat) :=
  let* s := gets k_proc in
  match find_slot 64 0 (process_table s) with
  | None => ret None
  | Some i =>
      upd_proc (upd_pcb i (λ _, pcb_empty (next_pid s))) ;;;
      upd_proc (set_next_pid (u32 (next_pid s + 1))) ;;;
      ret (Some i)
  end.

(** The child may be the slot of the current process itself; the fields are
    copied from what that slot then holds. *)
Definition fork_process (fuel : nat) : K (option nat) :=
  let* s := gets k_proc in
  match current_process s with
  | None => ret None
  | Some c =>
      let* child := create_process_empty in
      match child with
      | None => ret None
      | Some i =>
          let* s := gets k_proc in
          strcpy_name i (name (pcb (process_table s) c)) ;;;
          upd_proc (upd_pcb i (set_parent (Some c))) ;;;
          upd_proc (λ s, upd_pcb i (set_fork_context (pcb (process_table s) c)) s) ;;;
          upd_proc (upd_pcb i (set_state PROCESS_READY)) ;;;
          enqueue_process fuel i ;;;
          ret (Some i)
      end
  end.

Definition exit_process (fuel : nat) (code : Z) : K unit :=
  let* s := gets k_proc in
  match current_process s with
  | None => ret tt
  | Some c =>
      upd_proc (upd_pcb c (set_exit_code (s32 code))) ;;;
      upd_proc (upd_pcb c (set_state PROCESS_TERMINATED)) ;;;
      let* _ := scheduler_get_next fuel in
      ret tt
  end.

(** [wait_process] and [sleep_process] ignore their arguments and dereference
    [current_process] unchecked. *)
Definition block_current (fuel : nat) : K unit :=
  let* s := gets k_proc in
  match current_process s with
  | None => fault
  | Some c =>
      upd_proc (upd_pcb c (set_state PROCESS_BLOCKED)) ;;;
      let* _ := scheduler_get_next fuel in
      ret tt
  end.

Definition wait_process (fuel : nat) (pid : Z) : K unit := block_current fuel.
Definition sleep_process (fuel : nat) (ms : Z) : K unit := block_current fuel.

Fixpoint find_victim (n : nat) (i : nat) (p : Z) (tbl : list pcb_t) : option nat :=
  match n with
  | O => None
  | S n =>
      if (pid (pcb tbl i) =? p) && negb (bool_decide (state (pcb tbl i) = PROCESS_TERMINATED))
      then Some i else find_victim n (S i) p tbl
  end.

(** [pid] is compared as unsigned; [sig] is not used. *)
Definition kill_process (p sig : Z) : K Z :=
  let* s := gets k_proc in
  match find_victim 64 0 (u32 p) (process_table s) with
  | None => ret (-1)
  | Some i => upd_proc (upd_pcb i (set_state PROCESS_TERMINATED)) ;;; ret 0
  end.

(** [int $0x20]: the stub of vector 32 calls [irq_handler] on the saved
    registers [regs] with the vector's number. *)
Definition yield `{SyscallEntry} (regs : InterruptH.registers_t) : K unit :=
  let* _ := irq_handler regs in
  ret tt.

Definition add_to_ready_queue (fuel : nat) (proc : option nat) : K unit :=
  match proc with
  | None => ret tt
  | Some i =>
      upd_proc (upd_pcb i (set_state PROCESS_READY)) ;;;
      enqueue_process fuel i
  end.

Definition create_process (fuel : nat) (pname : list Z) (entry stack_top : Z) : K (option nat) :=
  let* p := create_process_empty in
  match p with
  | None => ret None
  | Some i =>
      strcpy_name i pname ;;;
      upd_proc (upd_pcb i (set_eip entry)) ;;;
      upd_proc (upd_pcb i (set_esp stack_top)) ;;;
      upd_proc (upd_pcb i (set_ebp 0)) ;;;
      upd_proc (λ s, upd_pcb i (set_page_dir
        (match current_process s with
         | Some c => page_dir (pcb (process_table s) c)
         | None => PagingH.pd_kernel
         end)) s) ;;;
      upd_proc (upd_pcb i (set_brk 0x100000)) ;;;
      upd_proc (upd_pcb i (set_state PROCESS_READY)) ;;;
      enqueue_process fuel i ;;;
      ret (Some i)
  end.

#[global] Arguments enqueue_process : simpl never.
#[global] Arguments dequeue_process : simpl never.
#[global] Arguments scheduler_get_next : simpl never.
#[global] Arguments create_process_empty : simpl never.
#[global] Arguments fork_process : simpl never.
#[global] Arguments create_process : simpl never.
#[global] Arguments kill_process : simpl never.
#[global] Arguments init_process_manager : simpl never.

(** ** Abstract specification: the ready queue as a list of slots *)

(** [q] is the run of slots linked from [h] up to the pointer [e]. *)
Fixpoint qseg (tbl : list pcb_t) (h : option nat) (q : list nat) (e : option nat) : Prop :=
  match q with
  | [] => h = e
  | i :: q => h = Some i ∧ qseg tbl (next (pcb tbl i)) q e
  end.

Record queue_wf (s : proc_state) (q : list nat) : Prop := {
  qw_len : length (process_table s) = 64%nat;
  qw_seg : qseg (process_table s) (ready_queue s) q None;
  qw_nodup : NoDup q;
  qw_range : Forall (λ i, (i < 64)%nat) q;
  qw_out j : j ∉ q → next (pcb (process_table s) j) = None }.

(** The tables agree but for the queue links. *)
Definition same_but_next (t t' : list pcb_t) : Prop :=
  ∀ j, set_next None (pcb t' j) = set_next None (pcb t j).

#[export] Instance same_but_next_preorder : PreOrder same_but_next.
Proof. split; [done|]. intros t1 t2 t3 H1 H2 j. by rewrite H2. Qed.

Lemma same_next_state t t' j : same_but_next t t' → state (pcb t' j) = state (pcb t j).
Proof. intros H. by apply (f_equal state (H j)). Qed.

(** The tables agree but for the queue links and the states. *)
Definition same_but_sched (t t' : list pcb_t) : Prop :=
  ∀ j, set_state PROCESS_NEW (set_next None (pcb t' j)) = set_state PROCESS_NEW (set_next None (pcb t j)).

#[export] Instance same_but_sched_preorder : PreOrder same_but_sched.
Proof. split; [done|]. intros t1 t2 t3 H1 H2 j. by rewrite H2. Qed.

Lemma same_next_sched t t' : same_but_next t t' → same_but_sched t t'.
Proof. intros H j. by rewrite H. Qed.

Lemma same_next_pid t t' j : same_but_next t t' → pid (pcb t' j) = pid (pcb t j).
Proof. intros H. by apply (f_equal pid (H j)). Qed.

Lemma pcb_insert t i x j :
  (i < length t)%nat → pcb (<[i := x]> t) j = if decide (i = j) then x else pcb t j.
Proof.
  intros Hi. unfold pcb. destruct (decide (i = j)) as [->|Hne].
  - by rewrite list_lookup_insert_eq.
  - by rewrite list_lookup_insert_ne.
Qed.

Lemma qseg_app t h q1 q2 e : qseg t h (q1 ++ q2) e ↔ ∃ m, qseg t h q1 m ∧ qseg t m q2 e.
Proof.
  revert h. induction q1 as [|i q1 IH]; intros h; cbn.
  - split; [eauto|]. by intros (m & -> & ?).
  - rewrite IH. firstorder.
Qed.

Lemma qseg_ext t t' h q e :
  (∀ i, i ∈ q → next (pcb t' i) = next (pcb t i)) → qseg t h q e → qseg t' h q e.
Proof.
  revert h. induction q as [|i q IH]; intros h Hn; cbn; [done|]. intros [-> Hs].
  split; [done|]. rewrite Hn by set_solver. apply IH; [|done]. set_solver.
Qed.

Lemma queue_last_seg t p q l fuel :
  qseg t (Some p) (q ++ [l]) None → (length q < fuel)%nat → queue_last fuel t p = Some l.
Proof.
  revert p fuel. induction q as [|i q IH]; intros p fuel; cbn.
  - intros [[= ->] Hn] Hf. destruct fuel as [|fuel]; [lia|]. cbn. by rewrite Hn.
  - intros [[= ->] Hs] Hf. destruct fuel as [|fuel]; [lia|]. cbn.
    destruct q as [|j q]; cbn in Hs; destruct Hs as [Hj Hs]; rewrite Hj.
    + apply IH; [|lia]. by split.
    + apply IH; [|lia]. by split.
Qed.

Lemma set_proc_set_proc s1 s2 k : set_proc s1 (set_proc s2 k) = set_proc s1 k.
Proof. by destruct k. Qed.

(** The effect of [enqueue_process] and [dequeue_process]. *)
Definition table_only (s s' : proc_state) : Prop :=
  current_process s' = current_process s ∧ next_pid s' = next_pid s.

Lemma enqueue_run fuel i k q :
  queue_wf (k_proc k) q → i ∉ q → (i < 64)%nat → (length q <= fuel)%nat →
  ∃ s', enqueue_process fuel i k = Done tt (set_proc s' k) ∧ queue_wf s' (q ++ [i]) ∧
    table_only (k_proc k) s' ∧ same_but_next (process_table (k_proc k)) (process_table s').
Proof.
  intros [Hlen Hseg Hnd Hr Ho] Hi Hlt Hf. set (s := k_proc k) in *.
  set (t1 := <[i := set_next None (pcb (process_table s) i)]> (process_table s)).
  assert (Hlen1 : length t1 = 64%nat) by (subst t1; by rewrite length_insert).
  assert (Hseg1 : qseg t1 (ready_queue s) q None).
  { apply (qseg_ext (process_table s)); [|done]. intros j Hj. subst t1.
    rewrite pcb_insert by lia. destruct (decide (i = j)) as [->|]; done. }
  assert (Hsame1 : same_but_next (process_table s) t1).
  { intros j. subst t1. rewrite pcb_insert by lia. by destruct (decide (i = j)) as [->|]. }
  assert (Hi1 : next (pcb t1 i) = None) by (subst t1; rewrite pcb_insert by lia; by rewrite decide_True).
  assert (Ho1 : ∀ j, j ∉ q → next (pcb t1 j) = None).
  { intros j Hj. subst t1. rewrite pcb_insert by lia. destruct (decide (i = j)) as [->|]; [done|by apply Ho]. }
  assert (Hnd' : NoDup (q ++ [i])) by (apply list.NoDup_app; split_and!; [done|set_solver|apply list.NoDup_singleton]).
  assert (Hr' : Forall (λ i, (i < 64)%nat) (q ++ [i])) by (apply Forall_app; auto).
  unfold enqueue_process, upd_proc. rewrite bind_modify, bind_gets. fold s.
  cbn [k_proc set_proc upd_pcb upd_table ready_queue process_table]. fold t1.
  destruct q as [|l q _] using rev_ind.
  - cbn in Hseg1. rewrite Hseg1. eexists. split; [unfold modify; by rewrite set_proc_set_proc|].
    split; [|done]. split; cbn; try done. intros j Hj. apply Ho1, not_elem_of_nil.
  - destruct (ready_queue s) as [p|] eqn:Er; [|destruct q; by destruct Hseg1].
    rewrite (queue_last_seg t1 p q l fuel) by (try done; rewrite length_app in Hf; cbn in Hf; lia).
    set (t2 := <[l := set_next (Some i) (pcb t1 l)]> t1).
    assert (Hl : (l < 64)%nat) by (apply Forall_app in Hr as [_ Hr]; apply list.Forall_cons in Hr as [Hr _]; exact Hr).
    apply list.NoDup_app in Hnd as (Hndq & Hdis & _).
    assert (Hlq : l ∉ q) by set_solver. assert (Hli : l ≠ i) by set_solver.
    assert (Hp2 : ∀ j, pcb t2 j = if decide (l = j) then set_next (Some i) (pcb t1 l) else pcb t1 j)
      by (intros j; apply pcb_insert; lia).
    eexists. split; [unfold modify; by rewrite set_proc_set_proc|].
    split; [split|split; [done|]]; cbn [k_proc set_proc process_table upd_pcb upd_table ready_queue];
      fold t1; fold t2.
    + subst t2. by rewrite length_insert.
    + rewrite Er. apply qseg_app in Hseg1 as (m & Hs1 & [-> _]). rewrite <- app_assoc.
      apply qseg_app. exists (Some l). split.
      * apply (qseg_ext t1); [|done]. intros j Hj. rewrite Hp2. by rewrite decide_False by set_solver.
      * cbn. rewrite !Hp2, decide_True, decide_False by done. done.
    + done.
    + done.
    + intros j Hj. rewrite Hp2, decide_False by set_solver. apply Ho1. set_solver.
    + etrans; [exact Hsame1|]. intros j. rewrite Hp2. by destruct (decide (l = j)) as [->|].
Qed.

Lemma dequeue_run k i q :
  queue_wf (k_proc k) (i :: q) →
  ∃ s', dequeue_process k = Done (Some i) (set_proc s' k) ∧ queue_wf s' q ∧
    table_only (k_proc k) s' ∧ same_but_next (process_table (k_proc k)) (process_table s').
Proof.
  intros [Hlen [Hrq Hseg] Hnd Hr Ho]. unfold dequeue_process, upd_proc.
  rewrite bind_gets, Hrq, !bind_modify, set_proc_set_proc. eexists. split; [done|].
  apply list.Forall_cons in Hr as [Hi Hr]. apply list.NoDup_cons in Hnd as [Hiq Hnd].
  cbn [k_proc set_proc upd_pcb upd_table set_ready_queue process_table ready_queue].
  assert (Hp : ∀ j, pcb (<[i := set_next None (pcb (process_table (k_proc k)) i)]> (process_table (k_proc k))) j
    = if decide (i = j) then set_next None (pcb (process_table (k_proc k)) i) else pcb (process_table (k_proc k)) j)
    by (intros j; apply pcb_insert; lia).
  split; [split|split; [done|]];
    cbn [k_proc set_proc upd_pcb upd_table set_ready_queue process_table ready_queue].
  - by rewrite length_insert.
  - eapply qseg_ext; [|exact Hseg]. intros j Hj. rewrite Hp. by rewrite decide_False by set_solver.
  - done.
  - done.
  - intros j Hj. rewrite Hp. destruct (decide (i = j)); [done|]. apply Ho. set_solver.
  - intros j. rewrite Hp. by destruct (decide (i = j)) as [->|].
Qed.

Lemma dequeue_empty_run k :
  queue_wf (k_proc k) [] → dequeue_process k = Done None k.
Proof. intros [_ Hseg _ _ _]. unfold dequeue_process. rewrite bind_gets. cbn in Hseg. by rewrite Hseg. Qed.

(** A field update that keeps the links keeps the queue. *)
Lemma queue_wf_upd s q i f :
  queue_wf s q → (i < 64)%nat → (∀ p, next (f p) = next p) → queue_wf (upd_pcb i f s) q.
Proof.
  intros [Hlen Hseg Hnd Hr Ho] Hi Hf.
  assert (Hp : ∀ j, next (pcb (<[i := f (pcb (process_table s) i)]> (process_table s)) j)
    = next (pcb (process_table s) j)).
  { intros j. rewrite pcb_insert by lia. destruct (decide (i = j)) as [->|]; [apply Hf|done]. }
  split; cbn [upd_pcb upd_table process_table ready_queue]; try done.
  - by rewrite length_insert.
  - eapply qseg_ext; [|exact Hseg]. intros j _. apply Hp.
  - intros j Hj. rewrite Hp. by apply Ho.
Qed.

Lemma queue_wf_current s q c : queue_wf s q → queue_wf (set_current c s) q.
Proof. intros []. by split. Qed.

Lemma state_of_upd s i f j :
  (i < length (process_table s))%nat →
  state_of (upd_pcb i f s) j = if decide (i = j) then state (f (pcb (process_table s) i)) else state_of s j.
Proof. intros Hi. unfold state_of. cbn. rewrite pcb_insert by done. by destruct (decide (i = j)). Qed.

(** The tail of [scheduler_get_next]: the head of the queue runs next, slot 0
    when the queue is empty. *)
Definition dispatch : K nat :=
  let* next := dequeue_process in
  let next := default 0%nat next in
  upd_proc (upd_pcb next (set_state PROCESS_RUNNING)) ;;;
  upd_proc (set_current (Some next)) ;;;
  ret next.

Lemma dispatch_run k q (n := default 0%nat (head q)) :
  queue_wf (k_proc k) q →
  ∃ s', dispatch k = Done n (set_proc s' k) ∧ queue_wf s' (tail q) ∧
    current_process s' = Some n ∧ state_of s' n = PROCESS_RUNNING ∧
    (∀ j, j ≠ n → state_of s' j = state_of (k_proc k) j) ∧
    same_but_sched (process_table (k_proc k)) (process_table s').
Proof.
  intros Hwf. unfold dispatch.
  assert (∃ s1, dequeue_process k = Done (head q) (set_proc s1 k) ∧ queue_wf s1 (tail q) ∧ (n < 64)%nat ∧
    same_but_next (process_table (k_proc k)) (process_table s1)) as (s1 & E & Hwf1 & Hn & Hsame).
  { destruct q as [|i q].
    - exists (k_proc k). split; [rewrite dequeue_empty_run by done; by destruct k|]. split_and!; [done|cbn; lia|done].
    - destruct (dequeue_run k i q Hwf) as (s1 & E & Hwf1 & _ & Hs). exists s1. split_and!; try done.
      apply (qw_range) in Hwf. by apply list.Forall_cons in Hwf as [? _]. }
  rewrite (bind_done _ _ _ _ _ E). unfold upd_proc. rewrite !bind_modify. fold n.
  rewrite !set_proc_set_proc. eexists. split; [done|]. cbn [k_proc set_proc].
  pose proof (qw_len _ _ Hwf1) as Hlen. split_and!; try done.
  - apply queue_wf_current. by apply queue_wf_upd.
  - unfold state_of. cbn. rewrite pcb_insert by lia. by rewrite decide_True.
  - intros j Hj. unfold state_of. cbn. rewrite pcb_insert by lia. rewrite decide_False by done.
    by apply same_next_state.
  - etrans; [by apply same_next_sched|]. intros j. cbn. rewrite pcb_insert by lia. by destruct (decide (n = j)) as [<-|].
Qed.

Lemma get_next_not_running fuel k c :
  current_process (k_proc k) = Some c → state_of (k_proc k) c ≠ PROCESS_RUNNING →
  scheduler_get_next fuel k = dispatch k.
Proof.
  intros Hc Hs. unfold scheduler_get_next. rewrite bind_gets, Hc, decide_False by done. done.
Qed.

Lemma get_next_running fuel k c q :
  current_process (k_proc k) = Some c → state_of (k_proc k) c = PROCESS_RUNNING →
  queue_wf (k_proc k) q → c ∉ q → (c < 64)%nat → (length q <= fuel)%nat →
  ∃ s1, scheduler_get_next fuel k = dispatch (set_proc s1 k) ∧ queue_wf s1 (q ++ [c]) ∧
    (∀ j, j ≠ c → state_of s1 j = state_of (k_proc k) j) ∧ state_of s1 c = PROCESS_READY ∧
    (∀ j, pid (pcb (process_table s1) j) = pid (pcb (process_table (k_proc k)) j)).
Proof.
  intros Hc Hs Hwf Hcq Hlt Hf. unfold scheduler_get_next. rewrite bind_gets, Hc, decide_True by done.
  set (s0 := upd_pcb c (set_state PROCESS_READY) (k_proc k)).
  assert (Hwf0 : queue_wf s0 q) by (by apply queue_wf_upd).
  destruct (enqueue_run fuel c (set_proc s0 k) q Hwf0 Hcq Hlt Hf) as (s1 & E & Hwf1 & _ & Hsame).
  assert (E' : (upd_proc (upd_pcb c (set_state PROCESS_READY)) ;;; enqueue_process fuel c) k =
    Done tt (set_proc s1 k)).
  { unfold upd_proc. rewrite bind_modify. fold s0. by rewrite E, set_proc_set_proc. }
  exists s1. split; [by rewrite (bind_done _ _ _ _ _ E')|]. split; [done|].
  cbn [k_proc set_proc] in Hsame. pose proof (qw_len _ _ Hwf) as Hlen.
  assert (Hst : ∀ j, state_of s1 j = state_of s0 j) by (intros j; by apply same_next_state).
  split_and!.
  - intros j Hj. rewrite Hst. unfold s0. rewrite state_of_upd by lia. by rewrite decide_False.
  - rewrite Hst. unfold s0. rewrite state_of_upd by lia. by rewrite decide_True.
  - intros j. rewrite (same_next_pid _ _ j Hsame). unfold s0. cbn. rewrite pcb_insert by lia.
    by destruct (decide (c = j)) as [->|].
Qed.

(** No link leads to a slot that is not queued. *)
Lemma queue_wf_next s q c j : queue_wf s q → c ∉ q → next (pcb (process_table s) j) ≠ Some c.
Proof.
  intros [_ Hseg _ _ Ho] Hc. destruct (decide (j ∈ q)) as [Hj|Hj]; [|by rewrite (Ho j Hj)].
  apply list_elem_of_split in Hj as (q1 & q2 & ->). apply qseg_app in Hseg as (m & _ & [_ Hs]).
  destruct q2 as [|a q2]; cbn in Hs; [congruence|]. destruct Hs as [-> _]. set_solver.
Qed.

Lemma upd_pcb_twice i f g s :
  (i < length (process_table s))%nat → upd_pcb i f (upd_pcb i g s) = upd_pcb i (λ p, f (g p)) s.
Proof.
  intros Hi. unfold upd_pcb, upd_table. cbn [process_table current_process next_pid ready_queue].
  rewrite list_insert_insert_eq, pcb_insert by done. by rewrite decide_True.
Qed.

Lemma upd_pcb_pcb i f s j :
  (i < length (process_table s))%nat →
  pcb (process_table (upd_pcb i f s)) j =
    if decide (i = j) then f (pcb (process_table s) i) else pcb (process_table s) j.
Proof. intros Hi. cbn [upd_pcb upd_table process_table]. by rewrite pcb_insert. Qed.

(** Replacing a slot that is not queued, with an unlinked one. *)
Lemma queue_wf_replace s q i p :
  queue_wf s q → i ∉ q → (i < 64)%nat → next p = None → queue_wf (upd_pcb i (λ _, p) s) q.
Proof.
  intros [H1 H2 H3 H4 H5] Hi Hlt Hp.
  assert (Hn : ∀ j, next (pcb (process_table (upd_pcb i (λ _, p) s)) j) = next (pcb (process_table s) j)).
  { intros j. rewrite upd_pcb_pcb by lia. destruct (decide (i = j)) as [<-|]; [by rewrite H5|done]. }
  split; [cbn; by rewrite length_insert| |done|done|].
  - eapply qseg_ext; [|exact H2]. intros j _. apply Hn.
  - intros j Hj. rewrite Hn. by apply H5.
Qed.

Lemma queue_wf_next_pid s q n : queue_wf s q → queue_wf (set_next_pid n s) q.
Proof. intros []. by split. Qed.

Lemma table_next_pid n s : process_table (set_next_pid n s) = process_table s.
Proof. done. Qed.

Lemma upd_next_pid i f n s : upd_pcb i f (set_next_pid n s) = set_next_pid n (upd_pcb i f s).
Proof. done. Qed.

(** ** Slots *)

Definition slot_free (t : list pcb_t) (i : nat) : Prop :=
  state (pcb t i) = PROCESS_TERMINATED ∨ pid (pcb t i) = 0.

Lemma find_slot_some n i t j :
  find_slot n i t = Some j → (i ≤ j < i + n)%nat ∧ slot_free t j.
Proof.
  revert i. induction n as [|n IH]; intros i; cbn; [done|].
  destruct (bool_decide _ || _) eqn:E.
  - intros [= <-]. split; [lia|]. apply orb_true_iff in E as [E|E].
    + left. by apply bool_decide_eq_true in E.
    + right. by apply Z.eqb_eq.
  - intros [H1 H2]%IH. split; [lia|done].
Qed.

Lemma find_victim_some n i p t j :
  find_victim n i p t = Some j → (i ≤ j < i + n)%nat ∧ pid (pcb t j) = p.
Proof.
  revert i. induction n as [|n IH]; intros i; cbn; [done|].
  destruct (_ && _) eqn:E.
  - intros [= <-]. split; [lia|]. apply andb_true_iff in E as [E _]. by apply Z.eqb_eq.
  - intros [H1 H2]%IH. split; [lia|done].
Qed.

(** ** A blocked process

    [dormant i p]: slot [i] holds process [p], blocked, and neither the queue
    nor [current_process] refers to it. *)
Record dormant (i : nat) (p : Z) (s : proc_state) : Prop := {
  dm_state : state_of s i = PROCESS_BLOCKED;
  dm_pid : pid (pcb (process_table s) i) = p;
  dm_len : length (process_table s) = 64%nat;
  dm_ready : ready_queue s ≠ Some i;
  dm_current : current_process s ≠ Some i;
  dm_next j : next (pcb (process_table s) j) ≠ Some i }.

Lemma dormant_upd i p s j f :
  dormant i p s → j ≠ i → (∀ x, next x ≠ Some i → next (f x) ≠ Some i) →
  dormant i p (upd_pcb j f s).
Proof.
  intros [H1 H2 H3 H4 H5 H6] Hj Hf.
  assert (Hp : ∀ a, pcb (<[j := f (pcb (process_table s) j)]> (process_table s)) a = pcb (process_table s) a ∨
    (a = j ∧ pcb (<[j := f (pcb (process_table s) j)]> (process_table s)) a = f (pcb (process_table s) j))).
  { intros a. destruct (decide (j < 64)%nat).
    - rewrite pcb_insert by lia. destruct (decide (j = a)) as [->|]; auto.
    - rewrite list_insert_ge by lia. by left. }
  split; unfold state_of; cbn [upd_pcb upd_table process_table ready_queue current_process]; try done.
  - destruct (Hp i) as [->|[-> _]]; done.
  - destruct (Hp i) as [->|[-> _]]; done.
  - by rewrite length_insert.
  - intros a. destruct (Hp a) as [->|[-> ->]]; auto.
Qed.

Lemma dormant_ready i p s q : dormant i p s → q ≠ Some i → dormant i p (set_ready_queue q s).
Proof. by intros [] ?; split. Qed.

Lemma dormant_current i p s c : dormant i p s → c ≠ Some i → dormant i p (set_current c s).
Proof. by intros [] ?; split. Qed.

Lemma dormant_next_pid i p s n : dormant i p s → dormant i p (set_next_pid n s).
Proof. by intros []; split. Qed.

(** [keeps i p c]: when the command returns, the blocked process is as it was. *)
Definition keeps {A} (i : nat) (p : Z) (c : K A) (P : A → Prop) : Prop :=
  ∀ k, dormant i p (k_proc k) →
    match c k with Done a k' => dormant i p (k_proc k') ∧ P a | _ => True end.

Lemma keeps_bind {A B} i p (c : K A) (f : A → K B) P Q :
  keeps i p c P → (∀ a, P a → keeps i p (f a) Q) → keeps i p (bind c f) Q.
Proof.
  intros Hc Hf k Hk. unfold bind. specialize (Hc k Hk). destruct (c k) as [a k'| |]; [|done..].
  destruct Hc as [Hk' Ha]. by apply Hf.
Qed.

Lemma keeps_ret {A} i p (a : A) (P : A → Prop) : P a → keeps i p (ret a) P.
Proof. by intros Ha k Hk. Qed.

Lemma keeps_gets i p : keeps i p (gets k_proc) (dormant i p).
Proof. by intros k Hk. Qed.

Lemma keeps_upd i p f :
  (∀ s, dormant i p s → dormant i p (f s)) → keeps i p (upd_proc f) (λ _, True).
Proof. intros Hf k Hk. cbn. split; [by apply Hf|done]. Qed.

Lemma keeps_upd_pcb i p j f :
  j ≠ i → (∀ x, next x ≠ Some i → next (f x) ≠ Some i) →
  keeps i p (upd_proc (upd_pcb j f)) (λ _, True).
Proof. intros Hj Hf. apply keeps_upd. intros s Hs. by apply dormant_upd. Qed.

#[local] Hint Resolve keeps_ret keeps_gets keeps_upd_pcb : word.

Lemma queue_last_ne fuel t a l i :
  a ≠ i → (∀ j, next (pcb t j) ≠ Some i) → queue_last fuel t a = Some l → l ≠ i.
Proof.
  intros Ha Hn. revert a Ha. induction fuel as [|fuel IH]; intros a Ha; cbn; [done|].
  destruct (next (pcb t a)) as [b|] eqn:E; [|by intros [= <-]].
  apply IH. intros ->. by apply (Hn a).
Qed.

Lemma keeps_enqueue fuel i p j : j ≠ i → keeps i p (enqueue_process fuel j) (λ _, True).
Proof.
  intros Hj. unfold enqueue_process.
  eapply keeps_bind; [by apply keeps_upd_pcb|]. intros _ _.
  eapply keeps_bind; [apply keeps_gets|]. intros s Hs. cbn in Hs.
  destruct (ready_queue s) as [a|] eqn:Er.
  - destruct (queue_last fuel (process_table s) a) as [l|] eqn:El; [|by intros k Hk].
    apply keeps_upd_pcb; [|intros x _; cbn; congruence].
    eapply queue_last_ne; [|exact (dm_next _ _ _ Hs)|exact El].
    intros ->. by apply (dm_ready _ _ _ Hs).
  - apply keeps_upd. intros s' Hs'. apply dormant_ready; [done|congruence].
Qed.

Lemma keeps_dequeue i p : keeps i p dequeue_process (λ r, r ≠ Some i).
Proof.
  unfold dequeue_process. eapply keeps_bind; [apply keeps_gets|]. intros s Hs. cbn in Hs.
  destruct (ready_queue s) as [a|] eqn:Er; [|by apply keeps_ret].
  assert (Ha : a ≠ i) by (intros ->; by apply (dm_ready _ _ _ Hs)).
  eapply keeps_bind.
  { apply keeps_upd. intros s' Hs'. apply dormant_ready; [done|]. apply (dm_next _ _ _ Hs). }
  intros _ _. eapply keeps_bind; [by apply keeps_upd_pcb|]. intros _ _.
  apply keeps_ret. congruence.
Qed.

Lemma keeps_get_next fuel i p : i ≠ 0%nat → keeps i p (scheduler_get_next fuel) (λ _, True).
Proof.
  intros Hi. unfold scheduler_get_next. eapply keeps_bind; [apply keeps_gets|]. intros s Hs. cbn in Hs.
  eapply (keeps_bind _ _ _ _ (λ _, True)).
  { destruct (current_process s) as [c|] eqn:Ec; [|by apply keeps_ret].
    assert (Hc : c ≠ i) by (intros ->; by apply (dm_current _ _ _ Hs)).
    destruct (decide _); [|by apply keeps_ret].
    eapply keeps_bind; [by apply keeps_upd_pcb|]. intros _ _. by apply keeps_enqueue. }
  intros _ _. eapply keeps_bind; [apply keeps_dequeue|]. intros r Hr. cbn in Hr.
  assert (Hn : default 0%nat r ≠ i) by (destruct r; cbn; congruence).
  eapply keeps_bind; [by apply keeps_upd_pcb|]. intros _ _.
  eapply keeps_bind; [|intros _ _; by apply keeps_ret].
  apply keeps_upd. intros s' Hs'. apply dormant_current; [done|congruence].
Qed.

Lemma keeps_create_empty i p : p ≠ 0 → keeps i p create_process_empty (λ r, r ≠ Some i).
Proof.
  intros Hp. unfold create_process_empty. eapply keeps_bind; [apply keeps_gets|]. intros s Hs. cbn in Hs.
  destruct (find_slot _ _ _) as [j|] eqn:Ej; [|by apply keeps_ret].
  assert (Hj : j ≠ i).
  { intros ->. apply find_slot_some in Ej as [_ [Ej|Ej]].
    - pose proof (dm_state _ _ _ Hs) as H. unfold state_of in H. congruence.
    - apply Hp. by rewrite <- (dm_pid _ _ _ Hs). }
  eapply keeps_bind; [by apply keeps_upd_pcb|]. intros _ _.
  eapply keeps_bind; [apply keeps_upd; intros; by apply dormant_next_pid|]. intros _ _.
  apply keeps_ret. congruence.
Qed.

Lemma keeps_strcpy i p j str : j ≠ i → keeps i p (strcpy_name j str) (λ _, True).
Proof. intros Hj. unfold strcpy_name. destruct (_ <=? _); [by intros k Hk|by apply keeps_upd_pcb]. Qed.

(** A run of updates of one slot, ended by [enqueue_process] and a result. *)
Ltac keeps_updates :=
  repeat (eapply keeps_bind;
    [first [by apply keeps_strcpy | by apply keeps_enqueue | by apply keeps_upd_pcb
           | apply keeps_upd; intros; by apply dormant_upd]
    |intros _ _]); try by apply keeps_ret.

Lemma keeps_fork fuel i p : p ≠ 0 → keeps i p (fork_process fuel) (λ _, True).
Proof.
  intros Hp. unfold fork_process. eapply keeps_bind; [apply keeps_gets|]. intros s Hs.
  destruct (current_process s) as [c|]; [|by apply keeps_ret].
  eapply keeps_bind; [by apply keeps_create_empty|]. intros r Hr. cbn in Hr.
  destruct r as [j|]; [|by apply keeps_ret]. assert (Hj : j ≠ i) by congruence.
  eapply keeps_bind; [apply keeps_gets|]. intros s' Hs'. keeps_updates.
Qed.

Lemma keeps_create fuel nm e st i p : p ≠ 0 → keeps i p (create_process fuel nm e st) (λ _, True).
Proof.
  intros Hp. unfold create_process.
  eapply keeps_bind; [by apply keeps_create_empty|]. intros r Hr. cbn in Hr.
  destruct r as [j|]; [|by apply keeps_ret]. assert (Hj : j ≠ i) by congruence. keeps_updates.
Qed.

Lemma keeps_exit fuel code i p : i ≠ 0%nat → keeps i p (exit_process fuel code) (λ _, True).
Proof.
  intros Hi. unfold exit_process. eapply keeps_bind; [apply keeps_gets|]. intros s Hs. cbn in Hs.
  destruct (current_process s) as [c|] eqn:Ec; [|by apply keeps_ret].
  assert (Hc : c ≠ i) by (intros ->; by apply (dm_current _ _ _ Hs)). keeps_updates.
  eapply keeps_bind; [by apply keeps_get_next|]. intros _ _. by apply keeps_ret.
Qed.

Lemma keeps_block fuel i p : i ≠ 0%nat → keeps i p (block_current fuel) (λ _, True).
Proof.
  intros Hi. unfold block_current. eapply keeps_bind; [apply keeps_gets|]. intros s Hs. cbn in Hs.
  destruct (current_process s) as [c|] eqn:Ec; [|by intros k Hk].
  assert (Hc : c ≠ i) by (intros ->; by apply (dm_current _ _ _ Hs)). keeps_updates.
  eapply keeps_bind; [by apply keeps_get_next|]. intros _ _. by apply keeps_ret.
Qed.

Lemma keeps_kill v sig i p : u32 v ≠ p → keeps i p (kill_process v sig) (λ _, True).
Proof.
  intros Hv. unfold kill_process. eapply keeps_bind; [apply keeps_gets|]. intros s Hs. cbn in Hs.
  destruct (find_victim _ _ _ _) as [j|] eqn:Ej; [|by apply keeps_ret].
  apply find_victim_some in Ej as [_ Ej].
  assert (Hj : j ≠ i) by (intros ->; apply Hv; by rewrite <- Ej, (dm_pid _ _ _ Hs)).
  keeps_updates.
Qed.

Lemma keeps_add fuel r i p : r ≠ Some i → keeps i p (add_to_ready_queue fuel r) (λ _, True).
Proof.
  intros Hr. destruct r as [j|]; [|by apply keeps_ret]. assert (Hj : j ≠ i) by congruence.
  unfold add_to_ready_queue. eapply keeps_bind; [by apply keeps_upd_pcb|]. intros _ _.
  by apply keeps_enqueue.
Qed.

(** Any operation of [process.c], but one that makes slot [i] ready again or
    kills process [p]. *)
Inductive other_step (i : nat) (p : Z) : kernel → kernel → Prop :=
| os_switch fuel n k k' : scheduler_get_next fuel k = Done n k' → other_step i p k k'
| os_fork fuel r k k' : fork_process fuel k = Done r k' → other_step i p k k'
| os_create fuel nm e st r k k' : create_process fuel nm e st k = Done r k' → other_step i p k k'
| os_exit fuel code k k' : exit_process fuel code k = Done tt k' → other_step i p k k'
| os_wait fuel v k k' : wait_process fuel v k = Done tt k' → other_step i p k k'
| os_sleep fuel ms k k' : sleep_process fuel ms k = Done tt k' → other_step i p k k'
| os_kill v sig r k k' : u32 v ≠ p → kill_process v sig k = Done r k' → other_step i p k k'
| os_add fuel r k k' : r ≠ Some i → add_to_ready_queue fuel r k = Done tt k' → other_step i p k k'.

Lemma dormant_step i p k k' :
  i ≠ 0%nat → p ≠ 0 → other_step i p k k' → dormant i p (k_proc k) → dormant i p (k_proc k').
Proof.
  intros Hi Hp Hs Hk. destruct Hs as
    [f n k k' E|f r k k' E|f nm e st r k k' E|f c k k' E|f v k k' E|f ms k k' E|v sg r k k' Hv E|f r k k' Hr E].
  - pose proof (keeps_get_next f i p Hi k Hk) as H. rewrite E in H. by destruct H.
  - pose proof (keeps_fork f i p Hp k Hk) as H. rewrite E in H. by destruct H.
  - pose proof (keeps_create f nm e st i p Hp k Hk) as H. rewrite E in H. by destruct H.
  - pose proof (keeps_exit f c i p Hi k Hk) as H. rewrite E in H. by destruct H.
  - pose proof (keeps_block f i p Hi k Hk) as H. unfold wait_process in E. rewrite E in H. by destruct H.
  - pose proof (keeps_block f i p Hi k Hk) as H. unfold sleep_process in E. rewrite E in H. by destruct H.
  - pose proof (keeps_kill v sg i p Hv k Hk) as H. rewrite E in H. by destruct H.
  - pose proof (keeps_add f r i p Hr k Hk) as H. rewrite E in H. by destruct H.
Qed.

(** The running process leaves the processor in state [st], not queued: the head of
    the queue runs, slot 0 when there is none. *)
Lemma leave_run fuel k q c st f (n := default 0%nat (head q)) :
  queue_wf (k_proc k) q → current_process (k_proc k) = Some c → (c < 64)%nat →
  st ≠ PROCESS_RUNNING → (∀ p, state (f p) = st) → (∀ p, next (f p) = next p) →
  ∃ s', (let* _ := scheduler_get_next fuel in ret tt) (set_proc (upd_pcb c f (k_proc k)) k) =
      Done tt (set_proc s' k) ∧
    queue_wf s' (tail q) ∧ current_process s' = Some n ∧
    (∀ j, state_of s' j = if decide (n = j) then PROCESS_RUNNING
                          else if decide (c = j) then st else state_of (k_proc k) j) ∧
    same_but_sched (process_table (upd_pcb c f (k_proc k))) (process_table s').
Proof.
  intros Hwf Hc Hlt Hst Hf Hn. pose proof (qw_len _ _ Hwf) as Hlen.
  set (s1 := upd_pcb c f (k_proc k)).
  assert (Hs1 : state_of s1 c = st) by (unfold s1; rewrite state_of_upd by lia; by rewrite decide_True).
  destruct (dispatch_run (set_proc s1 k) q (queue_wf_upd _ _ _ _ Hwf Hlt Hn))
    as (s2 & E & Hwf2 & Hcur & Hrun & Hsts & Hsame).
  exists s2. split_and!; [|done|done| |done].
  - rewrite (bind_done _ _ _ n (set_proc s2 k)); [done|].
    rewrite (get_next_not_running fuel _ c); [by rewrite E, set_proc_set_proc|done|cbn; congruence].
  - intros j. destruct (decide (n = j)) as [<-|Hne]; [done|]. rewrite Hsts by done. cbn [k_proc set_proc].
    unfold s1. rewrite state_of_upd by lia. by destruct (decide (c = j)).
Qed.

Lemma block_run fuel k q c (n := default 0%nat (head q)) :
  queue_wf (k_proc k) q → current_process (k_proc k) = Some c → (c < 64)%nat →
  ∃ s', block_current fuel k = Done tt (set_proc s' k) ∧
    queue_wf s' (tail q) ∧ current_process s' = Some n ∧
    (∀ j, state_of s' j = if decide (n = j) then PROCESS_RUNNING
                          else if decide (c = j) then PROCESS_BLOCKED else state_of (k_proc k) j) ∧
    same_but_sched (process_table (k_proc k)) (process_table s').
Proof.
  intros Hwf Hc Hlt. pose proof (qw_len _ _ Hwf) as Hlen.
  destruct (leave_run fuel k q c PROCESS_BLOCKED (set_state PROCESS_BLOCKED) Hwf Hc Hlt)
    as (s' & E & H1 & H2 & H3 & H4); [done..|].
  exists s'. split; [|split_and!; [done..|]].
  - unfold block_current, upd_proc. by rewrite bind_gets, Hc, bind_modify, E.
  - etrans; [|exact H4]. intros j. rewrite upd_pcb_pcb by lia. by destruct (decide (c = j)) as [<-|].
Qed.

(** [sleep_process] of the running process makes it dormant. *)
Lemma sleep_dormant fuel ms k q c :
  queue_wf (k_proc k) q → current_process (k_proc k) = Some c → c ∉ q → (c < 64)%nat → c ≠ 0%nat →
  ∃ k', sleep_process fuel ms k = Done tt k' ∧
    dormant c (pid (pcb (process_table (k_proc k)) c)) (k_proc k') ∧
    queue_wf (k_proc k') (tail q) ∧ current_process (k_proc k') = Some (default 0%nat (head q)).
Proof.
  intros Hwf Hc Hcq Hlt Hc0.
  destruct (block_run fuel k q c Hwf Hc Hlt) as (s' & E & Hwf' & Hcur & Hst & Hsame).
  assert (Hnc : default 0%nat (head q) ≠ c) by (destruct q; cbn; set_solver).
  assert (Hct : c ∉ tail q) by (destruct q; set_solver).
  exists (set_proc s' k). split; [done|]. cbn [k_proc set_proc]. split; [|done]. split.
  - rewrite Hst. by rewrite decide_False, decide_True.
  - exact (f_equal pid (Hsame c)).
  - by apply (qw_len _ _ Hwf').
  - intros Hr. pose proof (qw_seg _ _ Hwf') as Hseg. destruct (tail q) as [|j l]; cbn in Hseg; [congruence|].
    destruct Hseg as [Hj _]. set_solver.
  - congruence.
  - intros j. by apply (queue_wf_next _ (tail q)).
Qed.

(** [n] calls of the scheduler in a row. *)
Fixpoint sched_run (fuel n : nat) : K unit :=
  match n with
  | O => ret tt
  | S n => let* _ := scheduler_get_next fuel in sched_run fuel n
  end.

(** A running process that is not queued, and the queue: a ring. *)
Record ring (k : kernel) (c : nat) (q : list nat) : Prop := {
  rg_wf : queue_wf (k_proc k) q;
  rg_current : current_process (k_proc k) = Some c;
  rg_running : state_of (k_proc k) c = PROCESS_RUNNING;
  rg_out : c ∉ q;
  rg_range : (c < 64)%nat }.

Lemma ring_step fuel k c n q :
  ring k c (n :: q) → (length q < fuel)%nat →
  ∃ k', scheduler_get_next fuel k = Done n k' ∧ ring k' n (q ++ [c]) ∧
    state_of (k_proc k') c = PROCESS_READY.
Proof.
  intros [Hwf Hc Hs Hout Hlt] Hf.
  destruct (get_next_running fuel k c (n :: q) Hc Hs Hwf Hout Hlt ltac:(cbn; lia))
    as (s1 & E1 & Hwf1 & Hst1 & Hc1 & _).
  destruct (dispatch_run (set_proc s1 k) ((n :: q) ++ [c]) Hwf1) as (s2 & E2 & Hwf2 & Hcur & Hrun & Hst2 & _).
  cbn [head app tail default from_option] in *.
  exists (set_proc s2 k). split; [by rewrite E1, E2, set_proc_set_proc|].
  pose proof (qw_nodup _ _ Hwf1) as Hnd. pose proof (qw_range _ _ Hwf1) as Hr.
  apply list.NoDup_cons in Hnd as [Hn _]. apply list.Forall_cons in Hr as [Hr _].
  split; [by split|]. cbn [k_proc set_proc]. rewrite Hst2; [done|]. set_solver.
Qed.

Lemma sched_run_ring fuel l1 : ∀ k c q p l2,
  ring k c q → c :: q = l1 ++ p :: l2 → (length q ≤ fuel)%nat →
  ∃ k', sched_run fuel (length l1) k = Done tt k' ∧ ring k' p (l2 ++ l1).
Proof.
  induction l1 as [|a l1 IH]; intros k c q p l2 Hring Heq Hf.
  - injection Heq as -> ->. exists k. split; [done|]. by rewrite app_nil_r.
  - injection Heq as -> ->. destruct (l1 ++ p :: l2) as [|n q'] eqn:Eq; [by destruct l1|].
    destruct (ring_step fuel k a n q' Hring ltac:(cbn in Hf; lia)) as (k1 & E1 & Hring1 & _).
    destruct (IH k1 n (q' ++ [a]) p (l2 ++ [a]) Hring1) as (k' & E & Hk').
    + rewrite app_comm_cons, <- Eq. by rewrite <- app_assoc.
    + rewrite length_app. cbn in *. lia.
    + exists k'. split; [cbn [length sched_run]; by rewrite (bind_done _ _ _ _ _ E1)|].
      by rewrite <- app_assoc in Hk'.
Qed.

(** The process state [init_process_manager] leaves. *)
Definition proc_init : proc_state :=
  mk_proc (<[0%nat := pcb_idle]> (replicate 64 pcb_zero)) (Some 0%nat) 1 None.

Lemma init_process_run k :
  ∃ s io, init_process_manager k = Done tt (with_console s io (set_proc proc_init k)).
Proof.
  unfold init_process_manager, upd_proc. print_step. rewrite !bind_modify.
  print_step. print_last. by eexists _, _.
Qed.

(** [create_process] up to its [enqueue_process]. *)
Lemma create_run fuel pname entry stack k i (s := k_proc k) :
  find_slot 64 0 (process_table s) = Some i → length (process_table s) = 64%nat →
  Z.of_nat (length pname) < 32 →
  let dir := match current_process s with
    | Some c => page_dir (if decide (i = c) then pcb_empty (next_pid s) else pcb (process_table s) c)
    | None => PagingH.pd_kernel end in
  create_process fuel pname entry stack k =
    (enqueue_process fuel i ;;; ret (Some i)) (set_proc
      (set_next_pid (u32 (next_pid s + 1)) (upd_pcb i (λ _,
         set_state PROCESS_READY (set_brk 0x100000 (set_page_dir dir (set_ebp 0 (set_esp stack
           (set_eip entry (set_name pname (pcb_empty (next_pid s)))))))) ) s)) k).
Proof.
  intros Hi Hlen Hn dir. pose proof (find_slot_some _ _ _ _ Hi) as [Hlt _].
  unfold create_process, create_process_empty, strcpy_name, upd_proc.
  rewrite (proj2 (Z.leb_gt MAX_PROCESS_NAME _)) by done.
  rewrite bind_assoc, bind_gets. fold s. rewrite Hi, !bind_assoc, !bind_modify, bind_assoc, bind_modify, bind_ret.
  rewrite !bind_modify, !set_proc_set_proc. cbn [k_proc set_proc]. fold s. f_equal. f_equal.
  assert (Hdir : ∀ f, (∀ p, page_dir (f p) = page_dir (pcb_empty (next_pid s))) →
    match current_process (set_next_pid (u32 (next_pid s + 1)) (upd_pcb i f s)) with
    | Some c => page_dir (pcb (process_table (set_next_pid (u32 (next_pid s + 1)) (upd_pcb i f s))) c)
    | None => PagingH.pd_kernel end = dir).
  { intros f Hf. unfold dir. change (current_process (set_next_pid _ _)) with (current_process s).
    destruct (current_process s) as [c|]; [|done]. cbn [process_table set_next_pid].
    change (process_table (mk_proc (process_table (upd_pcb i f s)) _ _ _)) with (process_table (upd_pcb i f s)).
    rewrite upd_pcb_pcb by lia. destruct (decide (i = c)); [apply Hf|done]. }
  rewrite !upd_next_pid, !upd_pcb_twice by (cbn; rewrite ?length_insert; lia). by rewrite Hdir.
Qed.

(** Enqueueing the head of a one-element queue again links it to itself. *)
Lemma enqueue_self fuel i k :
  ready_queue (k_proc k) = Some i → (i < length (process_table (k_proc k)))%nat →
  enqueue_process (S fuel) i k =
    Done tt (set_proc (upd_pcb i (λ p, set_next (Some i) (set_next None p)) (k_proc k)) k).
Proof.
  intros Hr Hi. unfold enqueue_process, upd_proc. rewrite bind_modify, bind_gets.
  cbn [k_proc set_proc]. change (ready_queue (upd_pcb i (set_next None) (k_proc k))) with (ready_queue (k_proc k)).
  rewrite Hr. cbn [queue_last]. rewrite upd_pcb_pcb, decide_True by done. cbn [next set_next].
  unfold modify. cbn [k_proc set_proc]. by rewrite set_proc_set_proc, upd_pcb_twice.
Qed.

Lemma queue_last_loop fuel t i : next (pcb t i) = Some i → queue_last fuel t i = None.
Proof. intros H. induction fuel as [|fuel IH]; [done|]. cbn. by rewrite H. Qed.

(** A queue whose head links to itself has no end: nothing else can be added. *)
Lemma enqueue_loop fuel i j k :
  ready_queue (k_proc k) = Some i → next (pcb (process_table (k_proc k)) i) = Some i → i ≠ j →
  (j < length (process_table (k_proc k)))%nat →
  enqueue_process fuel j k = Spin.
Proof.
  intros Hr Hn Hij Hj. unfold enqueue_process, upd_proc. rewrite bind_modify, bind_gets.
  cbn [k_proc set_proc upd_pcb upd_table ready_queue process_table]. rewrite Hr, queue_last_loop; [done|].
  rewrite pcb_insert by done. by rewrite decide_False.
Qed.

(** What [fork] is to copy: the memory and the register context, [eax] aside. *)
Definition user_context (p : pcb_t) :=
  (name p, page_dir p, brk p, fd p, (eip p, esp p, ebp p, ebx p, ecx p, edx p, esi p, edi p, eflags p),
   (cs p, ds p, es p, fs p, gs p, ss p)).

(** [fork_process] up to the queue. *)
Lemma fork_prefix_run fuel k c i (s := k_proc k) (parent0 := pcb (process_table s) c) :
  length (process_table s) = 64%nat → current_process s = Some c →
  find_slot 64 0 (process_table s) = Some i → i ≠ c →
  Z.of_nat (length (name parent0)) < 32 →
  fork_process fuel k = (enqueue_process fuel i ;;; ret (Some i)) (set_proc
    (upd_pcb i (λ _, set_state PROCESS_READY (set_fork_context parent0 (set_parent (Some c)
        (set_name (name parent0) (pcb_empty (next_pid s))))))
      (set_next_pid (u32 (next_pid s + 1)) (upd_pcb i (λ _, pcb_empty (next_pid s)) s))) k).
Proof.
  intros Hlen Hc Hi Hic Hname. pose proof (find_slot_some _ _ _ _ Hi) as [Hilt _].
  set (s1 := set_next_pid _ _).
  assert (Hempty : create_process_empty k = Done (Some i) (set_proc s1 k)).
  { unfold create_process_empty, upd_proc. fold s. rewrite bind_gets. fold s. rewrite Hi, !bind_modify.
    by rewrite set_proc_set_proc. }
  assert (Hpc : pcb (process_table s1) c = parent0).
  { unfold s1. cbn. rewrite pcb_insert by lia. by rewrite decide_False. }
  assert (Hlen1 : length (process_table s1) = 64%nat) by (unfold s1; cbn; by rewrite length_insert).
  unfold fork_process. rewrite bind_gets. fold s. rewrite Hc, (bind_done _ _ _ _ _ Hempty), bind_gets.
  cbn [k_proc set_proc]. rewrite Hpc. unfold strcpy_name, upd_proc.
  rewrite (proj2 (Z.leb_gt MAX_PROCESS_NAME _)) by done.
  rewrite !bind_modify, !set_proc_set_proc. f_equal. f_equal.
  cbn [k_proc set_proc]. rewrite (upd_pcb_twice i (set_parent _)) by lia.
  rewrite (upd_pcb_pcb i _ s1 c), decide_False, Hpc by (done || lia).
  rewrite !upd_pcb_twice by (cbn; rewrite ?length_insert; lia). unfold s1. rewrite !upd_next_pid. f_equal.
  rewrite !upd_pcb_twice by (cbn; rewrite ?length_insert; lia). done.
Qed.

Lemma fork_run fuel k q c i :
  queue_wf (k_proc k) q → current_process (k_proc k) = Some c → (c < 64)%nat →
  find_slot 64 0 (process_table (k_proc k)) = Some i → i ≠ c → i ∉ q →
  Z.of_nat (length (name (pcb (process_table (k_proc k)) c))) < 32 → (length q <= fuel)%nat →
  let parent0 := pcb (process_table (k_proc k)) c in
  let child := set_state PROCESS_READY (set_fork_context parent0 (set_parent (Some c)
      (set_name (name parent0) (pcb_empty (next_pid (k_proc k)))))) in
  ∃ s', fork_process fuel k = Done (Some i) (set_proc s' k) ∧ queue_wf s' (q ++ [i]) ∧
    current_process s' = Some c ∧ next_pid s' = u32 (next_pid (k_proc k) + 1) ∧
    set_next None (pcb (process_table s') i) = child ∧
    (∀ j, j ≠ i → set_next None (pcb (process_table s') j) =
       set_next None (pcb (process_table (k_proc k)) j)).
Proof.
  intros Hwf Hc Hclt Hi Hic Hiq Hname Hf parent0 child.
  pose proof (qw_len _ _ Hwf) as Hlen. pose proof (find_slot_some _ _ _ _ Hi) as [Hilt _].
  set (s1 := set_next_pid (u32 (next_pid (k_proc k) + 1)) (upd_pcb i (λ _, pcb_empty (next_pid (k_proc k))) (k_proc k))).
  set (s2 := upd_pcb i (λ _, child) s1).
  assert (Hlen1 : length (process_table s1) = 64%nat) by (unfold s1; cbn; by rewrite length_insert).
  assert (Hwf2 : queue_wf s2 q).
  { apply queue_wf_replace; [|done|lia|done]. apply queue_wf_next_pid, queue_wf_replace; try done; lia. }
  destruct (enqueue_run fuel i (set_proc s2 k) q Hwf2 Hiq ltac:(lia) Hf) as (s' & E & Hwf' & [Hcur Hpid] & Hsame).
  exists s'. cbn [k_proc set_proc] in *. split_and!; [|done|by rewrite Hcur|by rewrite Hpid| |].
  - rewrite (fork_prefix_run fuel k c i Hlen Hc Hi Hic Hname). fold parent0 child s1 s2.
    by rewrite (bind_done _ _ _ _ _ E), set_proc_set_proc.
  - rewrite Hsame. unfold s2. cbn [upd_pcb upd_table process_table].
    rewrite pcb_insert by (unfold s1; cbn; rewrite length_insert; lia). by rewrite decide_True.
  - intros j Hj. rewrite Hsame. unfold s2, s1. cbn [upd_pcb upd_table process_table set_next_pid].
    rewrite !pcb_insert by (rewrite ?length_insert; lia). by rewrite !decide_False.
Qed.

Lemma find_slot_second t :
  state (pcb t 0) ≠ PROCESS_TERMINATED → pid (pcb t 0) ≠ 0 → pid (pcb t 1) = 0 →
  find_slot 64 0 t = Some 1%nat.
Proof.
  intros H1 H2 H3. change (find_slot 64 0 t) with
    (if bool_decide (state (pcb t 0) = PROCESS_TERMINATED) || (pid (pcb t 0) =? 0) then Some 0%nat
     else if bool_decide (state (pcb t 1) = PROCESS_TERMINATED) || (pid (pcb t 1) =? 0) then Some 1%nat
     else find_slot 62 2 t).
  by rewrite bool_decide_false, (proj2 (Z.eqb_neq _ _) H2), H3, orb_true_r by done.
Qed.

Lemma proc_init_wf : queue_wf proc_init [].
Proof.
  split; [done|done|apply NoDup_nil_2|done|]. intros j _. unfold proc_init. cbn [process_table].
  rewrite pcb_insert by (rewrite length_replicate; lia). destruct (decide _); [done|].
  unfold pcb. destruct (replicate 64 pcb_zero !! j) eqn:E; [|done].
  by apply lookup_replicate in E as [-> _].
Qed.

Lemma proc_init_slot s i : i ≠ 0%nat → (i < 64)%nat → s = proc_init → pcb (process_table s) i = pcb_zero.
Proof.
  intros Hi Hlt ->. unfold proc_init. cbn [process_table].
  rewrite pcb_insert by (rewrite length_replicate; lia). rewrite decide_False by done.
  unfold pcb. by rewrite lookup_replicate_2.
Qed.

(** The first [create_process] after [init_process_manager] takes slot 0. *)
Lemma create_first_run fuel pname entry stack k :
  k_proc k = proc_init → Z.of_nat (length pname) < 32 →
  ∃ s', create_process fuel pname entry stack k = Done (Some 0%nat) (set_proc s' k) ∧
    queue_wf s' [0%nat] ∧ current_process s' = Some 0%nat ∧ next_pid s' = 2 ∧
    state_of s' 0 = PROCESS_READY ∧ pid (pcb (process_table s') 0) = 1 ∧
    name (pcb (process_table s') 0) = pname ∧
    (∀ j, j ≠ 0%nat → (j < 64)%nat → set_next None (pcb (process_table s') j) = pcb_zero).
Proof.
  intros Hk Hn. assert (Hf : find_slot 64 0 (process_table (k_proc k)) = Some 0%nat) by (rewrite Hk; reflexivity).
  assert (Hlen : length (process_table (k_proc k)) = 64%nat) by (by rewrite Hk).
  rewrite (create_run fuel pname entry stack k 0 Hf Hlen Hn). rewrite Hk.
  cbn [current_process proc_init]. set (p := set_state PROCESS_READY _).
  set (s1 := set_next_pid _ _).
  assert (Hwf1 : queue_wf s1 []).
  { apply queue_wf_next_pid, queue_wf_replace; [apply proc_init_wf|apply not_elem_of_nil|lia|done]. }
  destruct (enqueue_run fuel 0 (set_proc s1 k) [] Hwf1 ltac:(apply not_elem_of_nil) ltac:(lia) ltac:(cbn; lia))
    as (s' & E & Hwf & [Hc Hp] & Hsame).
  exists s'. rewrite (bind_done _ _ _ _ _ E). cbn [k_proc set_proc] in *.
  assert (H0 : set_next None (pcb (process_table s') 0) = set_next None p).
  { rewrite Hsame. unfold s1. rewrite table_next_pid.
    rewrite upd_pcb_pcb by (cbn; lia). by rewrite decide_True. }
  split; [by rewrite set_proc_set_proc|]. split; [done|]. split; [by rewrite Hc|]. split; [by rewrite Hp|].
  split; [exact (f_equal state H0)|]. split; [exact (f_equal pid H0)|]. split; [exact (f_equal name H0)|].
  intros j Hj Hlt. rewrite Hsame. unfold s1. rewrite table_next_pid.
  rewrite upd_pcb_pcb by (cbn; lia). rewrite decide_False by done.
  by rewrite (proc_init_slot proc_init).
Qed.

(** ** Properties *)

(** C3: Round robin: when a process runs and others are queued, the process in
    position [n] of the ring runs after exactly [n] calls of
    [scheduler_get_next], with the processes before it queued behind the others
    in their order; so nobody waits longer than the length of the queue. *)
Theorem round_robin fuel k c q l1 p l2 :
  ring k c q → (length q ≤ fuel)%nat → c :: q = l1 ++ p :: l2 →
  ∃ k', sched_run fuel (length l1) k = Done tt k' ∧
    current_process (k_proc k') = Some p ∧ state_of (k_proc k') p = PROCESS_RUNNING ∧
    queue_wf (k_proc k') (l2 ++ l1).
Proof.
  intros Hring Hf Heq. destruct (sched_run_ring fuel l1 k c q p l2 Hring Heq Hf) as (k' & E & [H1 H2 H3 _ _]).
  by exists k'.
Qed.

(** C24: [fork_process] into a free slot that is not the parent's: the child gets
    the next pid, the parent's memory, descriptors and registers but for
    [eax] = 0, and its parent link; it is ready and last in the queue; no other
    slot changes but for queue links. *)
Theorem fork_copies fuel k q c i :
  queue_wf (k_proc k) q → current_process (k_proc k) = Some c → (c < 64)%nat →
  find_slot 64 0 (process_table (k_proc k)) = Some i → i ≠ c → i ∉ q →
  Z.of_nat (length (name (pcb (process_table (k_proc k)) c))) < 32 → (length q <= fuel)%nat →
  ∃ s', fork_process fuel k = Done (Some i) (set_proc s' k) ∧ queue_wf s' (q ++ [i]) ∧
    current_process s' = Some c ∧
    let child := pcb (process_table s') i in
    user_context child = user_context (pcb (process_table (k_proc k)) c) ∧
    eax child = 0 ∧ parent child = Some c ∧ state child = PROCESS_READY ∧
    pid child = next_pid (k_proc k) ∧ next_pid s' = u32 (next_pid (k_proc k) + 1) ∧
    (∀ j, j ≠ i → set_next None (pcb (process_table s') j) =
       set_next None (pcb (process_table (k_proc k)) j)).
Proof.
  intros Hwf Hc Hlt Hi Hic Hiq Hn Hf.
  destruct (fork_run fuel k q c i Hwf Hc Hlt Hi Hic Hiq Hn Hf) as (s' & E & Hwf' & Hcur & Hpid & Hch & Hoth).
  exists s'. do 3 (split; [done|]). cbv zeta.
  split; [exact (f_equal user_context Hch)|]. split; [exact (f_equal eax Hch)|].
  split; [exact (f_equal parent Hch)|]. split; [exact (f_equal state Hch)|].
  split; [exact (f_equal pid Hch)|done].
Qed.

(** C30: Nothing in [process.c] wakes a process that sleeps: when the process of a
    slot [c] other than 0 calls [sleep_process], it stays blocked, and never is the
    current process again, through any number of switches, forks, creations, exits,
    waits and sleeps of other processes in any order, of kills of other pids, and of
    calls of [add_to_ready_queue] for other processes.  What is left out could change
    it: [add_to_ready_queue] called for it, a [kill] of its pid, which frees its slot,
    and, for slot 0, an empty queue, when [scheduler_get_next] runs slot 0 whatever
    its state. *)
Theorem sleep_never_wakes fuel ms k q c k1 k2 (p := pid (pcb (process_table (k_proc k)) c)) :
  queue_wf (k_proc k) q → current_process (k_proc k) = Some c → c ∉ q → (c < 64)%nat →
  c ≠ 0%nat → p ≠ 0 →
  sleep_process fuel ms k = Done tt k1 → rtc (other_step c p) k1 k2 →
  state_of (k_proc k2) c = PROCESS_BLOCKED ∧ current_process (k_proc k2) ≠ Some c.
Proof.
  intros Hwf Hc Hcq Hlt Hc0 Hp E Hrun.
  destruct (sleep_dormant fuel ms k q c Hwf Hc Hcq Hlt Hc0) as (k' & E' & Hd & _).
  rewrite E in E'. apply Done_inj in E' as [_ <-]. fold p in Hd.
  assert (Hd2 : dormant c p (k_proc k2)).
  { clear E. induction Hrun as [|k1 k3 k2 Hs _ IH]; [done|]. apply IH. by apply (dormant_step c p k1). }
  split; [apply (dm_state _ _ _ Hd2)|apply (dm_current _ _ _ Hd2)].
Qed.

(** The free-slot test takes pid 0 for unused, but pid 0 is the idle
    process: the first [create_process] after [init_process_manager] returns
    the idle process's slot, which is also [current_process]. *)
Theorem create_process_takes_idle fuel pname entry stack k :
  Z.of_nat (length pname) < 32 →
  ∃ k1 k2, init_process_manager k = Done tt k1 ∧
    current_process (k_proc k1) = Some 0%nat ∧ name (pcb (process_table (k_proc k1)) 0) = cstr "idle" ∧
    create_process fuel pname entry stack k1 = Done (Some 0%nat) k2 ∧
    current_process (k_proc k2) = Some 0%nat ∧ name (pcb (process_table (k_proc k2)) 0) = pname ∧
    get_pid k2 = Done 1 k2 ∧ state_of (k_proc k2) 0 = PROCESS_READY.
Proof.
  intros Hn. destruct (init_process_run k) as (s & io & E). eexists. 
  destruct (create_first_run fuel pname entry stack (with_console s io (set_proc proc_init k)) eq_refl Hn)
    as (s' & E2 & _ & Hc & _ & Hst & Hpid & Hnm & _).
  eexists. split; [exact E|]. split; [done|]. split; [done|]. split; [exact E2|].
  cbn [k_proc set_proc]. do 2 (split; [done|]). split; [|done].
  unfold get_pid. rewrite bind_gets. cbn [k_proc set_proc]. by rewrite Hc, Hpid.
Qed.

(** C31: [create_process] already enqueues; when [kernel_main] calls
    [add_to_ready_queue] on the process once more its link leads to itself, and in
    that state, that is until [scheduler_get_next] takes the process from the queue,
    the creation of a process, by [create_process] or by [fork], loops forever. *)
Theorem double_enqueue_hangs fuel fuel' n1 e1 st1 n2 e2 st2 k k1 :
  Z.of_nat (length n1) < 32 → Z.of_nat (length n2) < 32 →
  init_process_manager k = Done tt k1 →
  ∃ k2 k3, create_process fuel n1 e1 st1 k1 = Done (Some 0%nat) k2 ∧
    add_to_ready_queue (S fuel) (Some 0%nat) k2 = Done tt k3 ∧
    next (pcb (process_table (k_proc k3)) 0) = Some 0%nat ∧
    create_process fuel' n2 e2 st2 k3 = Spin ∧ fork_process fuel' k3 = Spin.
Proof.
  intros Hn1 Hn2 E0. destruct (init_process_run k) as (s & io & E). rewrite E0 in E.
  apply Done_inj in E as [_ ->]. set (k1 := with_console _ _ _).
  destruct (create_first_run fuel n1 e1 st1 k1 eq_refl Hn1) as (s2 & E2 & Hwf & Hc & _ & Hst & Hpid & Hnm & Hoth).
  pose proof (qw_len _ _ Hwf) as Hlen. pose proof (qw_seg _ _ Hwf) as [Hr _].
  assert (E3 : add_to_ready_queue (S fuel) (Some 0%nat) (set_proc s2 k1) = Done tt (set_proc
    (upd_pcb 0 (λ p, set_next (Some 0%nat) (set_next None p)) (upd_pcb 0 (set_state PROCESS_READY) s2)) k1)).
  { unfold add_to_ready_queue, upd_proc. rewrite bind_modify. rewrite enqueue_self; [|done|].
    - by rewrite !set_proc_set_proc.
    - cbn. rewrite length_insert. lia. }
  rewrite upd_pcb_twice in E3 by lia. eexists _, _. split; [exact E2|]. split; [exact E3|].
  cbn [k_proc set_proc]. set (s3 := upd_pcb 0 _ s2) in *.
  assert (H0 : pcb (process_table s3) 0 = set_next (Some 0%nat) (set_next None (set_state PROCESS_READY (pcb (process_table s2) 0)))).
  { unfold s3. rewrite upd_pcb_pcb by lia. by rewrite decide_True. }
  split; [by rewrite H0|].
  assert (Hslot : find_slot 64 0 (process_table s3) = Some 1%nat).
  { assert (H1 : pid (pcb (process_table s3) 1) = 0).
    { unfold s3. rewrite upd_pcb_pcb by lia. rewrite decide_False by done.
      exact (f_equal pid (Hoth 1%nat ltac:(done) ltac:(lia))). }
    apply find_slot_second; [by rewrite H0|by rewrite H0; cbn; rewrite Hpid|done]. }
  assert (Hlen3 : length (process_table s3) = 64%nat) by (unfold s3; cbn; by rewrite length_insert).
  assert (Hloop : ∀ f g n, enqueue_process fuel' 1 (set_proc (upd_pcb 1 f (set_next_pid n (upd_pcb 1 g s3))) k1) = Spin ∧
    enqueue_process fuel' 1 (set_proc (set_next_pid n (upd_pcb 1 g s3)) k1) = Spin).
  { intros f g n. split; apply (enqueue_loop fuel' 0 1); try done; cbn [k_proc set_proc].
    - rewrite upd_pcb_pcb by (cbn; rewrite !length_insert; lia). rewrite decide_False, table_next_pid by done.
      rewrite upd_pcb_pcb by lia. by rewrite decide_False, H0.
    - cbn. rewrite !length_insert. lia.
    - rewrite table_next_pid, upd_pcb_pcb by lia. by rewrite decide_False, H0.
    - cbn. rewrite !length_insert. lia. }
  split.
  - rewrite (create_run fuel' n2 e2 st2 (set_proc s3 k1) 1 Hslot Hlen3 Hn2). unfold bind. rewrite set_proc_set_proc.
    cbn [k_proc set_proc]. by rewrite (proj2 (Hloop (λ p, p) _ _)).
  - rewrite (fork_prefix_run fuel' (set_proc s3 k1) 0 1 Hlen3 Hc Hslot); [|done|].
    + unfold bind. rewrite set_proc_set_proc. cbn [k_proc set_proc]. by rewrite (proj1 (Hloop _ _ _)).
    + cbn [k_proc set_proc]. rewrite H0. cbn. by rewrite Hnm.
Qed.

(** [yield] switches nothing: the interrupt it raises is the timer's, whose
    handler only counts; the process state is unchanged and one tick is added
    to the time. *)
Theorem yield_only_ticks `{SyscallEntry} regs k :
  InterruptH.r_int_no regs = 32 →
  InterruptH.interrupt_handlers (k_idt k) !! 32 = Some InterruptH.isr_timer_callback →
  ∃ k', yield regs k = Done tt k' ∧ k_proc k' = k_proc k ∧
    InterruptH.tick_count (k_timer k') = u32 (InterruptH.tick_count (k_timer k) + 1).
Proof.
  intros Hr Hh. unfold yield. eexists. split.
  - unfold bind. rewrite irq_handler_run by lia. rewrite Hr, Hh. reflexivity.
  - by destruct k.
Qed.

(** *** Witnesses: idle in slot 0, process 1 running, 2 and 3 queued *)

Definition demo_pcb (p : Z) (st : process_state_t) (nx : option nat) : pcb_t :=
  set_next nx (set_state st (set_name (cstr "demo") (pcb_empty p))).

Definition proc_demo : proc_state :=
  mk_proc (pcb_idle :: demo_pcb 1 PROCESS_RUNNING None :: demo_pcb 2 PROCESS_READY (Some 3%nat) ::
           demo_pcb 3 PROCESS_READY None :: replicate 60 pcb_zero)
    (Some 1%nat) 4 (Some 2%nat).

Definition k_demo : kernel := set_proc proc_demo kernel_bss.

Lemma demo_ring : ring k_demo 1 [2%nat; 3%nat].
Proof.
  split; [|done|done|set_solver|lia]. split; [done|done| |repeat constructor|].
  - apply list.NoDup_cons. split; [set_solver|apply list.NoDup_singleton].
  - intros j Hj. change (process_table (k_proc k_demo)) with (process_table proc_demo).
    destruct j as [|[|[|[|j]]]]; [done|done|set_solver|done|].
    change (pcb (process_table proc_demo) (S (S (S (S j))))) with (pcb (replicate 60 pcb_zero) j).
    unfold pcb. destruct (replicate 60 pcb_zero !! j) eqn:E; [|done].
    by apply lookup_replicate in E as [-> _].
Qed.

Lemma round_robin_witness :
  ∃ k', sched_run 2 2 k_demo = Done tt k' ∧ current_process (k_proc k') = Some 3%nat ∧
    queue_wf (k_proc k') [1%nat; 2%nat].
Proof.
  destruct (round_robin 2 k_demo 1 [2%nat; 3%nat] [1%nat; 2%nat] 3 [] demo_ring)
    as (k' & E & Hc & _ & Hq); [cbn; lia|reflexivity|].
  exists k'. split; [exact E|]. split; [exact Hc|exact Hq].
Defined.

(** With slot 0 taken (a pid other than 0) [fork] finds slot 4. *)
Definition k_demo_fork : kernel :=
  set_proc (upd_pcb 0 (λ _, demo_pcb 9 PROCESS_BLOCKED None) proc_demo) kernel_bss.

Lemma fork_copies_witness :
  ∃ s', fork_process 3 k_demo_fork = Done (Some 4%nat) (set_proc s' k_demo_fork) ∧
    queue_wf s' [2%nat; 3%nat; 4%nat].
Proof.
  destruct (fork_copies 3 k_demo_fork [2%nat; 3%nat] 1 4) as (s' & E & Hq & _).
  - apply queue_wf_replace; [apply demo_ring|set_solver|lia|reflexivity].
  - reflexivity.
  - lia.
  - vm_compute. reflexivity.
  - lia.
  - set_solver.
  - vm_compute. reflexivity.
  - cbn. lia.
  - exists s'. split; [exact E|exact Hq].
Defined.

Lemma sleep_never_wakes_witness :
  ∃ k1 k2, sleep_process 3 100 k_demo = Done tt k1 ∧ other_step 1 1 k1 k2 ∧
    state_of (k_proc k2) 1 = PROCESS_BLOCKED.
Proof.
  destruct (sleep_dormant 3 100 k_demo [2%nat; 3%nat] 1 (rg_wf _ _ _ demo_ring) eq_refl)
    as (k1 & E & _ & Hq & Hc); [set_solver|lia|lia|].
  exists k1.
  assert (∃ n k2, scheduler_get_next 3 k1 = Done n k2) as (n & k2 & E2).
  { destruct (decide (state_of (k_proc k1) 2 = PROCESS_RUNNING)) as [Hr|Hr].
    - destruct (get_next_running 3 k1 2 [3%nat] Hc Hr Hq) as (s1 & -> & Hq1 & _); [set_solver|lia|cbn; lia|].
      destruct (dispatch_run (set_proc s1 k1) _ Hq1) as (s2 & E2 & _). eauto.
    - rewrite (get_next_not_running 3 k1 2 Hc Hr).
      destruct (dispatch_run k1 _ Hq) as (s2 & E2 & _). eauto. }
  exists k2. split; [exact E|]. split; [apply (os_switch 1 1 3 n); exact E2|].
  apply (sleep_never_wakes 3 100 k_demo [2%nat; 3%nat] 1 k1 k2);
    [exact (rg_wf _ _ _ demo_ring)|reflexivity|set_solver|lia|lia|discriminate|exact E|].
  apply rtc_once. apply (os_switch 1 1 3 n). exact E2.
Defined.

Lemma create_process_takes_idle_witness :
  ∃ k1 k2, init_process_manager kernel_bss = Done tt k1 ∧
    create_process 1 (cstr "shell") 0x400000 0 k1 = Done (Some 0%nat) k2 ∧ get_pid k2 = Done 1 k2.
Proof.
  destruct (create_process_takes_idle 1 (cstr "shell") 0x400000 0 kernel_bss)
    as (k1 & k2 & E1 & _ & _ & E2 & _ & _ & E3 & _); [vm_compute; reflexivity|].
  exists k1, k2. split; [exact E1|]. split; [exact E2|exact E3].
Defined.

Lemma double_enqueue_hangs_witness :
  ∃ k1 k2 k3, init_process_manager kernel_bss = Done tt k1 ∧
    create_process 0 (cstr "shell") 0x400000 0 k1 = Done (Some 0%nat) k2 ∧
    add_to_ready_queue 1 (Some 0%nat) k2 = Done tt k3 ∧
    create_process 1000 (cstr "test") 0x400000 0 k3 = Spin.
Proof.
  destruct (init_process_run kernel_bss) as (s & io & E1).
  destruct (double_enqueue_hangs 0 1000 (cstr "shell") 0x400000 0 (cstr "test") 0x400000 0
    kernel_bss _ ltac:(vm_compute; reflexivity) ltac:(vm_compute; reflexivity) E1)
    as (k2 & k3 & E2 & E3 & _ & E4 & _).
  eexists _, k2, k3. split; [exact E1|]. split; [exact E2|split; [exact E3|exact E4]].
Defined.

Lemma yield_only_ticks_witness :
  ∃ k', @yield no_syscalls (regs_int 32) timer0 = Done tt k' ∧ k_proc k' = k_proc timer0.
Proof.
  destruct (@yield_only_ticks no_syscalls (regs_int 32) timer0) as (k' & E & Hp & _);
    [reflexivity|vm_compute; reflexivity|]. exists k'. split; [exact E|exact Hp].
Defined.
