(* ===== verification/Cstring.v ===== *)
(** * C strings and memory blocks (kernel/string.c)

    The functions on byte-addressed memory, as the source writes their loops: an
    unbounded scan takes fuel and returns [None] when it runs out, a loop bounded
    by a length is total.  [cstring m s l] says that the bytes [l] followed by a
    NUL are at [s]; the theorems compare the functions with definitions on
    lists.  [char] is signed, so a character is compared as [s8] of its byte
    where the source does not convert it to [unsigned char]. *)

From S2P Require Import Prelude Memory Types.

(** ** Operations *)

Fixpoint strlen_loop (fuel : nat) (m : mem) (str len : Z) : option Z :=
  match fuel with
  | O => None
  | S fuel =>
      if ld8 m (str + len) =? 0 then Some len
      else strlen_loop fuel m str (u32 (len + 1))
  end.

Definition strlen (fuel : nat) (m : mem) (str : Z) : option Z := strlen_loop fuel m str 0.

Fixpoint strcpy_loop (fuel : nat) (m : mem) (d src : Z) : option mem :=
  match fuel with
  | O => None
  | S fuel =>
      let c := ld8 m src in
      let m := st8 m d c in
      if c =? 0 then Some m else strcpy_loop fuel m (d + 1) (src + 1)
  end.

Definition strcpy (fuel : nat) (m : mem) (dest src : Z) : option (Z * mem) :=
  m' ← strcpy_loop fuel m dest src; Some (dest, m').

(** [while (i < n && src[i])], line 24; [rounds] bounds the rounds by [n - i]. *)
Fixpoint strncpy_copy (rounds : nat) (m : mem) (d src i : Z) : Z * mem :=
  match rounds with
  | O => (i, m)
  | S rounds =>
      if ld8 m (src + i) =? 0 then (i, m)
      else strncpy_copy rounds (st8 m (d + i) (ld8 m (src + i))) d src (i + 1)
  end.

Definition strncpy (m : mem) (dest src n : Z) : Z * mem :=
  let '(i, m) := strncpy_copy (Z.to_nat n) m dest src 0 in
  (dest, for_range i (n - i) (λ i m, st8 m (dest + i) 0) m).

Fixpoint strcmp (fuel : nat) (m : mem) (s1 s2 : Z) : option Z :=
  match fuel with
  | O => None
  | S fuel =>
      if negb (ld8 m s1 =? 0) && (s8 (ld8 m s1) =? s8 (ld8 m s2))
      then strcmp fuel m (s1 + 1) (s2 + 1)
      else Some (ld8 m s1 - ld8 m s2)
  end.

Fixpoint strncmp_loop (rounds : nat) (m : mem) (s1 s2 i : Z) : Z :=
  match rounds with
  | O => 0
  | S rounds =>
      if negb (s8 (ld8 m (s1 + i)) =? s8 (ld8 m (s2 + i)))
      then ld8 m (s1 + i) - ld8 m (s2 + i)
      else if ld8 m (s1 + i) =? 0 then 0
      else strncmp_loop rounds m s1 s2 (i + 1)
  end.

Definition strncmp (m : mem) (s1 s2 n : Z) : Z := strncmp_loop (Z.to_nat n) m s1 s2 0.

Fixpoint strchr (fuel : nat) (m : mem) (s c : Z) : option Z :=
  match fuel with
  | O => None
  | S fuel =>
      if ld8 m s =? 0 then Some NULL
      else if s8 (ld8 m s) =? s8 c then Some s
      else strchr fuel m (s + 1) c
  end.

(** The inner loop of [strstr], line 87: the index where it stops. *)
Fixpoint strstr_match (fuel : nat) (m : mem) (haystack needle i j : Z) : option Z :=
  match fuel with
  | O => None
  | S fuel =>
      if negb (ld8 m (needle + j) =? 0) && (s8 (ld8 m (haystack + (i + j))) =? s8 (ld8 m (needle + j)))
      then strstr_match fuel m haystack needle i (u32 (j + 1))
      else Some j
  end.

Fixpoint strstr_loop (fuel : nat) (m : mem) (haystack needle i : Z) : option Z :=
  match fuel with
  | O => None
  | S fuel' =>
      if ld8 m (haystack + i) =? 0 then Some NULL
      else if negb (s8 (ld8 m (haystack + i)) =? s8 (ld8 m (needle + 0)))
      then strstr_loop fuel' m haystack needle (u32 (i + 1))
      else
        j ← strstr_match fuel m haystack needle i 0;
        if ld8 m (needle + j) =? 0 then Some (haystack + i)
        else strstr_loop fuel' m haystack needle (u32 (i + 1))
  end.

Definition strstr (fuel : nat) (m : mem) (haystack needle : Z) : option Z :=
  if ld8 m needle =? 0 then Some haystack else strstr_loop fuel m haystack needle 0.

Fixpoint memcmp_loop (rounds : nat) (m : mem) (s1 s2 i : Z) : Z :=
  match rounds with
  | O => 0
  | S rounds =>
      if negb (ld8 m (s1 + i) =? ld8 m (s2 + i)) then ld8 m (s1 + i) - ld8 m (s2 + i)
      else memcmp_loop rounds m s1 s2 (i + 1)
  end.

Definition memcmp (m : mem) (s1 s2 n : Z) : Z := memcmp_loop (Z.to_nat n) m s1 s2 0.

(** The functions the macros of [include/system.h] hide; their loops are the
    macros'. *)
Definition memset_fn (m : mem) (dest val len : Z) : Z * mem :=
  (dest, for_range 0 len (λ i m, st8 m (dest + i) (u8 val)) m).

Definition memcpy_fn (m : mem) (dest src len : Z) : Z * mem :=
  (dest, for_range 0 len (λ i m, st8 m (dest + i) (ld8 m (src + i))) m).

(** The descending loop runs [i = len - k] for the [k]-th round. *)
Definition memmove (m : mem) (dest src len : Z) : Z * mem :=
  (dest,
   if dest <? src then
     for_range 0 len (λ i m, st8 m (dest + i) (ld8 m (src + i))) m
   else
     for_range 0 len (λ k m, let i := len - k in
       st8 m (dest + (i - 1)) (ld8 m (src + (i - 1)))) m).

(** ** Strings in memory *)

Fixpoint cstring (m : mem) (s : Z) (l : list Z) : Prop :=
  match l with
  | [] => ld8 m s = 0
  | c :: l => ld8 m s = c ∧ 0 < c < 256 ∧ cstring m (s + 1) l
  end.

Lemma s8_byte_eq a b : 0 ≤ a < 256 → 0 ≤ b < 256 → (s8 a =? s8 b) = (a =? b).
Proof. intros. unfold s8. zcases; try done; exfalso; dlia. Qed.

Lemma cstring_head m s l : cstring m s l → ld8 m s = default 0 (head l) ∧ 0 ≤ ld8 m s < 256.
Proof. destruct l; cbn; [intros ->; lia|]. intros (-> & ? & _). split; [done|lia]. Qed.

Lemma cstring_bytes m s l : cstring m s l → Forall (λ c, 0 < c < 256) l.
Proof. revert s. induction l as [|c l IH]; intros s; cbn; [done|]. intros (_ & ? & ?). eauto. Qed.

Lemma cstring_ext m m' s l :
  (∀ a, s ≤ a ≤ s + Z.of_nat (length l) → ld8 m' a = ld8 m a) → cstring m s l → cstring m' s l.
Proof.
  revert s. induction l as [|c l IH]; intros s Hext; cbn [cstring length] in *.
  - by rewrite Hext by lia.
  - intros (H1 & H2 & H3). rewrite Hext by lia. split; [done|]. split; [done|].
    apply IH; [|done]. intros a Ha. apply Hext. lia.
Qed.

Lemma cstring_app m s l1 l2 : cstring m s (l1 ++ l2) → cstring m (s + Z.of_nat (length l1)) l2.
Proof.
  revert s. induction l1 as [|c l1 IH]; intros s; cbn [cstring app length].
  - by rewrite Z.add_0_r.
  - intros (_ & _ & H). apply IH in H. by replace (s + Z.of_nat (S (length l1)))
      with (s + 1 + Z.of_nat (length l1)) by lia.
Qed.

(** A string character by character. *)
Lemma cstring_lookup m s l i :
  cstring m s l → (i < length l)%nat →
  ld8 m (s + Z.of_nat i) = default 0 (l !! i) ∧ 0 < default 0 (l !! i).
Proof.
  revert s i. induction l as [|c l IH]; intros s [|i]; cbn [cstring length]; try lia.
  - intros (E & Hc & _) _. rewrite Z.add_0_r, E. cbn. split; [done|lia].
  - intros (_ & _ & Hl) Hi. destruct (IH (s + 1) i Hl) as [E Hb]; [lia|].
    replace (s + Z.of_nat (S i)) with (s + 1 + Z.of_nat i) by lia. by split.
Qed.

Lemma cstring_of_bytes m s l :
  Forall (λ c, 0 < c < 256) l →
  (∀ i, (i ≤ length l)%nat → ld8 m (s + Z.of_nat i) = default 0 (l !! i)) → cstring m s l.
Proof.
  revert s. induction l as [|c l IH]; intros s Hf H; cbn [cstring length] in *.
  - rewrite <- (Z.add_0_r s). by apply (H 0%nat).
  - apply list.Forall_cons in Hf as [Hc Hf]. split; [|split; [done|]].
    + rewrite <- (Z.add_0_r s). apply (H 0%nat). lia.
    + apply IH; [done|]. intros i Hi. replace (s + 1 + Z.of_nat i) with (s + Z.of_nat (S i)) by lia.
      apply (H (S i)). lia.
Qed.

(** The scans run over a suffix of the string, [i] characters in. *)
Lemma strlen_loop_run fuel m s i l :
  cstring m (s + i) l → 0 ≤ i → i + Z.of_nat (length l) < 4294967296 → (length l < fuel)%nat →
  strlen_loop fuel m s i = Some (i + Z.of_nat (length l)).
Proof.
  revert fuel i. induction l as [|c l IH]; intros [|fuel] i; cbn [cstring length strlen_loop];
    try lia.
  - intros -> _ _ _. cbn. f_equal. lia.
  - intros (-> & Hc & Hl) Hi Hlen Hf. rewrite (proj2 (Z.eqb_neq c 0)) by lia.
    rewrite u32_small by lia. rewrite IH; [f_equal; lia| |lia..]. by rewrite Z.add_assoc.
Qed.

Lemma strlen_run fuel m s l :
  cstring m s l → Z.of_nat (length l) < 4294967296 → (length l < fuel)%nat →
  strlen fuel m s = Some (Z.of_nat (length l)).
Proof. intros. apply (strlen_loop_run fuel m s 0 l); rewrite ?Z.add_0_r; [done|lia..]. Qed.

(** A forward copy reads each character before it can overwrite it when the
    destination starts at or below the source, or behind its NUL. *)
Definition copy_safe (d s n : Z) : Prop := in_space d n ∧ in_space s n ∧ (d ≤ s ∨ s + n ≤ d).

Lemma strcpy_loop_run fuel m d s l (n := Z.of_nat (length l) + 1) :
  cstring m s l → (length l < fuel)%nat → copy_safe d s n →
  ∃ m', strcpy_loop fuel m d s = Some m' ∧ cstring m' d l ∧
    ∀ a, in_space a 1 → a < d ∨ d + n ≤ a → ld8 m' a = ld8 m a.
Proof.
  subst n. revert fuel m d s.
  induction l as [|c l IH]; intros [|fuel] m d s Hs Hf (Hd & Hp & Hov);
    cbn [length strcpy_loop cstring] in *; unfold in_space in *; try lia.
  - rewrite Hs. cbn. eexists. split; [done|]. split; [by rewrite ld8_st8_eq|].
    intros a Ha Hne. rewrite ld8_st8_ne; [done|]. word_small. lia.
  - destruct Hs as (-> & Hc & Hs). rewrite (proj2 (Z.eqb_neq c 0)) by lia.
    destruct (IH fuel (st8 m d c) (d + 1) (s + 1)) as (m' & -> & Hm' & Hrest).
    + eapply cstring_ext; [|exact Hs]. intros a Ha. rewrite ld8_st8_ne; [done|]. word_small. lia.
    + lia.
    + unfold copy_safe, in_space. lia.
    + exists m'. split; [done|]. split; [split; [|by split]|].
      * rewrite Hrest by lia. rewrite ld8_st8_eq. apply u8_small; lia.
      * intros a Ha Hne. rewrite Hrest by lia. rewrite ld8_st8_ne; [done|]. word_small. lia.
Qed.

(** ** Comparison *)

(** The difference at the first place where two strings, NUL included, differ. *)
Fixpoint byte_cmp (l1 l2 : list Z) : Z :=
  match l1, l2 with
  | [], [] => 0
  | [], c :: _ => - c
  | c :: _, [] => c
  | c1 :: l1, c2 :: l2 => if c1 =? c2 then byte_cmp l1 l2 else c1 - c2
  end.

(** The dictionary order on strings of unsigned characters. *)
Fixpoint lex_lt (l1 l2 : list Z) : Prop :=
  match l1, l2 with
  | _, [] => False
  | [], _ :: _ => True
  | c1 :: l1, c2 :: l2 => c1 < c2 ∨ (c1 = c2 ∧ lex_lt l1 l2)
  end.

Lemma byte_cmp_lex l1 l2 :
  Forall (λ c, 0 < c < 256) l1 → Forall (λ c, 0 < c < 256) l2 →
  (byte_cmp l1 l2 = 0 ↔ l1 = l2) ∧ (byte_cmp l1 l2 < 0 ↔ lex_lt l1 l2) ∧
  (0 < byte_cmp l1 l2 ↔ lex_lt l2 l1).
Proof.
  revert l2. induction l1 as [|c1 l1 IH]; intros [|c2 l2]; rewrite ?list.Forall_cons;
    cbn [byte_cmp lex_lt].
  - intuition lia.
  - intros _ [Hc _]. split_and!; split; try done; lia.
  - intros [Hc _] _. split_and!; split; try done; lia.
  - intros [Hc1 H1] [Hc2 H2]. destruct (IH l2 H1 H2) as (E1 & E2 & E3).
    destruct (Z.eqb_spec c1 c2) as [->|Hne].
    + rewrite E1, E2, E3. split_and!; [by split; [intros ->|intros [= ->]]|intuition lia..].
    + split_and!; [split; [lia|congruence]|intuition lia..].
Qed.

Lemma byte_cmp_range l1 l2 :
  Forall (λ c, 0 < c < 256) l1 → Forall (λ c, 0 < c < 256) l2 → -256 < byte_cmp l1 l2 < 256.
Proof.
  revert l2. induction l1 as [|c1 l1 IH]; intros [|c2 l2]; rewrite ?list.Forall_cons;
    cbn [byte_cmp]; try lia.
  intros [Hc1 H1] [Hc2 H2]. specialize (IH l2 H1 H2). destruct (c1 =? c2); lia.
Qed.

Lemma strcmp_run fuel m s1 s2 l1 l2 :
  cstring m s1 l1 → cstring m s2 l2 → (length l1 < fuel)%nat →
  strcmp fuel m s1 s2 = Some (byte_cmp l1 l2).
Proof.
  revert fuel s1 s2 l2. induction l1 as [|c1 l1 IH]; intros [|fuel] s1 s2 l2 H1 H2 Hf;
    cbn [length strcmp] in *; try lia; destruct (cstring_head _ _ _ H2) as [E2 Hb2];
    destruct (cstring_head _ _ _ H1) as [E1 Hb1]; rewrite E1, E2 in *; cbn [head default] in *.
  - cbn. f_equal. by destruct l2.
  - destruct H1 as (_ & Hc1 & H1). cbn [from_option id] in *. rewrite s8_byte_eq by done.
    rewrite (proj2 (Z.eqb_neq c1 0)) by lia. cbn [negb andb].
    destruct l2 as [|c2 l2]; cbn [byte_cmp head default from_option id] in *.
    + rewrite (proj2 (Z.eqb_neq c1 0)) by lia. f_equal. lia.
    + destruct H2 as (_ & Hc2 & H2). destruct (Z.eqb_spec c1 c2); [|done]. apply IH; [done..|lia].
Qed.

Lemma strncmp_loop_run rounds m s1 s2 i l1 l2 :
  cstring m (s1 + i) l1 → cstring m (s2 + i) l2 →
  strncmp_loop rounds m s1 s2 i = byte_cmp (take rounds l1) (take rounds l2).
Proof.
  revert i l1 l2. induction rounds as [|rounds IH]; intros i l1 l2 H1 H2; [done|].
  cbn [strncmp_loop]. destruct (cstring_head _ _ _ H2) as [E2 Hb2].
  destruct (cstring_head _ _ _ H1) as [E1 Hb1]. rewrite s8_byte_eq by done. rewrite E1, E2 in *.
  destruct l1 as [|c1 l1], l2 as [|c2 l2]; cbn [head default from_option id take byte_cmp] in *.
  - done.
  - destruct H2 as (_ & Hc2 & H2). by rewrite (proj2 (Z.eqb_neq 0 c2)) by lia.
  - destruct H1 as (_ & Hc1 & H1). rewrite (proj2 (Z.eqb_neq c1 0)) by lia. cbn. lia.
  - destruct H1 as (_ & Hc1 & H1), H2 as (_ & Hc2 & H2).
    destruct (Z.eqb_spec c1 c2) as [->|]; cbn [negb]; [|done].
    rewrite (proj2 (Z.eqb_neq c2 0)) by lia. apply IH; by rewrite Z.add_assoc.
Qed.

Lemma strncmp_run m s1 s2 n l1 l2 :
  cstring m s1 l1 → cstring m s2 l2 →
  strncmp m s1 s2 n = byte_cmp (take (Z.to_nat n) l1) (take (Z.to_nat n) l2).
Proof. intros. apply strncmp_loop_run; by rewrite Z.add_0_r. Qed.

(** ** Searching *)

(** [needle] occurs in [hay] after [x], and nowhere earlier. *)
Definition first_occurrence (needle hay x : list Z) : Prop :=
  (∃ y, hay = x ++ needle ++ y) ∧
  ∀ x' y', hay = x' ++ needle ++ y' → (length x ≤ length x')%nat.

Definition occurs (needle hay : list Z) : Prop := ∃ x y, hay = x ++ needle ++ y.

Lemma occurs_prefix needle hay : needle `prefix_of` hay → first_occurrence needle hay [].
Proof. intros [y ->]. split; [by exists y|]. cbn. lia. Qed.

(** An occurrence in [c :: hay] that is not at its head is one in [hay]. *)
Lemma occurrence_tail (needle : list Z) c hay x y :
  ¬ needle `prefix_of` c :: hay → c :: hay = x ++ needle ++ y →
  ∃ x', x = c :: x' ∧ hay = x' ++ needle ++ y.
Proof.
  intros Hn E. destruct x as [|c' x]; [by destruct Hn; exists y|].
  cbn in E. injection E as <- E. by exists x.
Qed.

Lemma first_occurrence_cons needle c hay x :
  ¬ needle `prefix_of` c :: hay → first_occurrence needle hay x →
  first_occurrence needle (c :: hay) (c :: x).
Proof.
  intros Hn [[y ->] Hmin]. split; [by exists y|]. intros x' y' E.
  destruct (occurrence_tail _ _ _ _ _ Hn E) as (x2 & -> & E2). cbn. apply le_n_S. by eapply Hmin.
Qed.

Lemma not_occurs_cons needle c hay :
  ¬ needle `prefix_of` c :: hay → ¬ occurs needle hay → ¬ occurs needle (c :: hay).
Proof.
  intros Hn Ho (x & y & E). destruct (occurrence_tail _ _ _ _ _ Hn E) as (x2 & _ & E2).
  apply Ho. by exists x2, y.
Qed.

Lemma strchr_run fuel m s c l :
  cstring m s l → (length l < fuel)%nat →
  ∃ p, strchr fuel m s c = Some p ∧
    ((p = NULL ∧ u8 c ∉ l) ∨
     ∃ i, p = s + Z.of_nat i ∧ l !! i = Some (u8 c) ∧ u8 c ∉ take i l).
Proof.
  revert fuel s. induction l as [|c0 l IH]; intros [|fuel] s; cbn [cstring length strchr]; try lia.
  - intros -> _. exists NULL. split; [done|]. left. split; [done|]. apply not_elem_of_nil.
  - intros (-> & Hc & Hl) Hf. rewrite (proj2 (Z.eqb_neq c0 0)) by lia.
    assert (E : (s8 c0 =? s8 c) = (c0 =? u8 c)).
    { rewrite <- (s8_byte_eq c0 (u8 c)) by (apply u8_range || lia). f_equal. unfold s8, u8.
      by rewrite Zplus_mod_idemp_l. }
    rewrite E. destruct (Z.eqb_spec c0 (u8 c)) as [->|Hne].
    + exists s. split; [done|]. right. exists 0%nat. cbn. split_and!; [lia|done|apply not_elem_of_nil].
    + destruct (IH fuel (s + 1) Hl) as (p & -> & Hp); [lia|]. exists p. split; [done|].
      destruct Hp as [[-> Hp]|(i & -> & Hi & Hn)].
      * left. split; [done|]. rewrite not_elem_of_cons. split; [congruence|done].
      * right. exists (S i). cbn. split_and!; [lia|done|]. rewrite not_elem_of_cons. split; [congruence|done].
Qed.

Lemma strstr_match_run fuel m h n i j t nd :
  cstring m (h + (i + j)) t → cstring m (n + j) nd → (length nd < fuel)%nat →
  0 ≤ j → j + Z.of_nat (length nd) < 4294967296 →
  ∃ j', strstr_match fuel m h n i j = Some j' ∧ (ld8 m (n + j') = 0 ↔ nd `prefix_of` t).
Proof.
  revert fuel j t. induction nd as [|c nd IH]; intros [|fuel] j t Ht Hn Hf Hj Hlen;
    cbn [strstr_match length] in *; try lia; destruct (cstring_head _ _ _ Hn) as [En Hbn].
  - cbn in En. rewrite En. cbn. exists j. split; [done|]. split; [intros; apply prefix_nil|done].
  - destruct Hn as (_ & Hc & Hn). cbn in En. rewrite En. rewrite (proj2 (Z.eqb_neq c 0)) by lia.
    destruct (cstring_head _ _ _ Ht) as [Et Hbt]. rewrite s8_byte_eq by lia. rewrite Et. cbn [negb andb].
    destruct t as [|c' t]; cbn [head default from_option id] in *.
    + rewrite (proj2 (Z.eqb_neq 0 c)) by lia. exists j. split; [done|]. rewrite En.
      split; [lia|]. by intros ?%prefix_nil_inv.
    + destruct Ht as (_ & Hc' & Ht). destruct (Z.eqb_spec c' c) as [->|Hne].
      * rewrite u32_small by lia. destruct (IH fuel (j + 1) t) as (j' & E & Hj').
        -- by replace (h + (i + (j + 1))) with (h + (i + j) + 1) by lia.
        -- by rewrite Z.add_assoc.
        -- lia.
        -- lia.
        -- lia.
        -- exists j'. split; [done|]. rewrite Hj'. split; [apply prefix_cons|apply prefix_cons_inv_2].
      * exists j. split; [done|]. rewrite En. split; [lia|]. intros Hp%prefix_cons_inv_1. congruence.
Qed.

Lemma strstr_loop_run fuel m h n i t nd :
  cstring m (h + i) t → cstring m n nd → nd ≠ [] → (length t + length nd < fuel)%nat →
  0 ≤ i → i + Z.of_nat (length t) < 4294967296 → Z.of_nat (length nd) < 4294967296 →
  ∃ p, strstr_loop fuel m h n i = Some p ∧
    ((p = NULL ∧ ¬ occurs nd t) ∨ ∃ x, p = h + i + Z.of_nat (length x) ∧ first_occurrence nd t x).
Proof.
  revert fuel i. induction t as [|c t IH]; intros [|fuel] i Ht Hn Hne Hf Hi Hl Hl';
    cbn [length] in *; try lia; cbn [strstr_loop]; destruct (cstring_head _ _ _ Ht) as [Et Hbt].
  - rewrite Et. exists NULL. split; [done|]. left. split; [done|]. intros (x & y & E).
    destruct x, nd; done.
  - destruct (cstring_head _ _ _ Hn) as [En Hbn]. rewrite Et, Z.add_0_r. cbn [head default from_option id].
    destruct Ht as (Ec & Hc & Ht). rewrite (proj2 (Z.eqb_neq c 0)) by lia.
    rewrite s8_byte_eq by lia.
    assert (Hnext : ¬ nd `prefix_of` c :: t → ∃ p, strstr_loop fuel m h n (u32 (i + 1)) = Some p ∧
      ((p = NULL ∧ ¬ occurs nd (c :: t)) ∨
       ∃ x, p = h + i + Z.of_nat (length x) ∧ first_occurrence nd (c :: t) x)).
    { intros Hp. rewrite u32_small by lia. destruct (IH fuel (i + 1)) as (p & E & H); try lia; try done.
      { by rewrite Z.add_assoc. }
      exists p. split; [done|]. destruct H as [[-> H]|(x & -> & H)].
      - left. split; [done|]. by apply not_occurs_cons.
      - right. exists (c :: x). split; [cbn; lia|]. by apply first_occurrence_cons. }
    destruct (Z.eqb_spec c (ld8 m n)) as [Eq|Hneq]; cbn [negb].
    + destruct (strstr_match_run (S fuel) m h n i 0 (c :: t) nd) as (j & -> & Hj); try lia.
      { rewrite Z.add_0_r. by split. }
      { by rewrite Z.add_0_r. }
      cbn [mbind option_bind]. destruct (Z.eqb_spec (ld8 m (n + j)) 0) as [Ez|Ez].
      * exists (h + i). split; [done|]. right. exists []. split; [cbn; lia|].
        by apply occurs_prefix, Hj.
      * apply Hnext. by rewrite <- Hj.
    + apply Hnext. destruct nd as [|c' nd]; [done|]. intros Hp%prefix_cons_inv_1.
      apply Hneq. by rewrite En.
Qed.

(** ** Copying blocks *)

Lemma memmove_ld8 m dest src len a :
  0 ≤ len → in_space dest len → in_space src len → in_space a 1 → mem_wf m →
  ld8 (memmove m dest src len).2 a =
    if (dest <=? a) && (a <? dest + len) then ld8 m (src + (a - dest)) else ld8 m a.
Proof.
  intros Hlen Hd Hs Ha Hwf. unfold memmove. cbn [snd].
  destruct (Z.ltb_spec dest src) as [Hlt|Hge]; [apply memcpy_ld8; auto; lia|].
  set (body := λ (k : Z) (m : mem), _).
  pose (P := λ k m', ∀ a, in_space a 1 → ld8 m' a =
    if (dest + len - k <=? a) && (a <? dest + len) then ld8 m (src + (a - dest)) else ld8 m a).
  assert (P (0 + len) (for_range 0 len body m)) as H.
  { apply for_range_ind; [done| |]; unfold P.
    - intros b Hb. zcases; done.
    - intros k m' Hk IH b Hb. unfold body, in_space in *. cbv zeta.
      rewrite ld8_st8 by mem_side. rewrite (IH (src + (len - k - 1))) by lia. rewrite IH by lia.
      zcases; try done. all: rewrite u8_small by apply Hwf; f_equal; lia. }
  rewrite H by done. by replace (dest + len - (0 + len)) with dest by lia.
Qed.

Lemma memcpy_fn_ld8 m dest src len a :
  0 ≤ len → in_space dest len → in_space src len → in_space a 1 →
  dest ≤ src ∨ src + len ≤ dest → mem_wf m →
  ld8 (memcpy_fn m dest src len).2 a =
    if (dest <=? a) && (a <? dest + len) then ld8 m (src + (a - dest)) else ld8 m a.
Proof. apply memcpy_ld8. Qed.

Lemma memset_fn_ld8 m dest val len a :
  0 ≤ len → in_space dest len → in_space a 1 →
  ld8 (memset_fn m dest val len).2 a =
    if (dest <=? a) && (a <? dest + len) then u8 val else ld8 m a.
Proof.
  intros. rewrite <- (u8_idemp val). by apply (memset_ld8 m dest (u8 val)).
Qed.

(** [memcmp] is the difference at the first mismatch, 0 when there is none. *)
Lemma memcmp_loop_run rounds m s1 s2 i :
  (memcmp_loop rounds m s1 s2 i = 0 ∧
     ∀ j, i ≤ j < i + Z.of_nat rounds → ld8 m (s1 + j) = ld8 m (s2 + j)) ∨
  ∃ j, i ≤ j < i + Z.of_nat rounds ∧ ld8 m (s1 + j) ≠ ld8 m (s2 + j) ∧
    memcmp_loop rounds m s1 s2 i = ld8 m (s1 + j) - ld8 m (s2 + j) ∧
    ∀ h, i ≤ h < j → ld8 m (s1 + h) = ld8 m (s2 + h).
Proof.
  revert i. induction rounds as [|rounds IH]; intros i; cbn [memcmp_loop].
  - left. split; [done|lia].
  - destruct (Z.eqb_spec (ld8 m (s1 + i)) (ld8 m (s2 + i))) as [E|E]; cbn [negb].
    + destruct (IH (i + 1)) as [[-> H]|(j & Hj & Hne & -> & H)].
      * left. split; [done|]. intros j Hj. destruct (Z.eq_dec j i) as [->|]; [done|]. apply H. lia.
      * right. exists j. split; [lia|]. do 2 (split; [done|]).
        intros h Hh. destruct (Z.eq_dec h i) as [->|]; [done|]. apply H. lia.
    + right. exists i. split; [lia|]. split; [done|]. split; [done|lia].
Qed.

(** [strncpy] writes the string's characters, then zeros. *)
Lemma strncpy_copy_run rounds m d s i l (k := Z.of_nat (Nat.min rounds (length l))) :
  cstring m (s + i) l → 0 ≤ i → in_space d (i + Z.of_nat rounds) →
  in_space s (i + Z.of_nat (length l) + 1) →
  d + Z.of_nat rounds ≤ s ∨ s + Z.of_nat (length l) + 1 ≤ d →
  ∃ m', strncpy_copy rounds m d s i = (i + k, m') ∧
    ∀ a, in_space a 1 → ld8 m' a =
      if (d + i <=? a) && (a <? d + i + k) then default 0 (l !! Z.to_nat (a - d - i)) else ld8 m a.
Proof.
  subst k. revert m i l. induction rounds as [|rounds IH]; intros m i l Hl Hi Hd Hs Hov;
    unfold in_space in *; cbn [strncpy_copy Nat.min] in *.
  { exists m. split; [f_equal; lia|]. intros a Ha. zcases; done. }
  destruct (cstring_head _ _ _ Hl) as [E Hb]. rewrite E.
  destruct l as [|c l]; cbn [head default from_option id length Nat.min] in *.
  { exists m. split; [f_equal; lia|]. intros a Ha. zcases; done. }
  destruct Hl as (_ & Hc & Hl). rewrite (proj2 (Z.eqb_neq c 0)) by lia.
  destruct (IH (st8 m (d + i) c) (i + 1) l) as (m' & -> & Hm'); [|lia..|].
  { eapply cstring_ext; [|rewrite Z.add_assoc; exact Hl].
    intros a Ha. rewrite ld8_st8_ne; [done|]. word_small. lia. }
  exists m'. split; [f_equal; lia|]. intros a Ha. rewrite Hm' by done.
  rewrite ld8_st8 by (unfold in_space; lia). rewrite u8_small by lia.
  destruct (Z.eqb_spec (d + i) a) as [<-|Hne].
  - zcases. by replace (d + i - d - i) with 0 by lia.
  - zcases; try done. replace (Z.to_nat (a - d - i)) with (S (Z.to_nat (a - d - (i + 1)))) by lia. done.
Qed.

Lemma strncpy_run m d s n l :
  cstring m s l → 0 ≤ n → in_space d n → in_space s (Z.of_nat (length l) + 1) →
  d + n ≤ s ∨ s + Z.of_nat (length l) + 1 ≤ d →
  (strncpy m d s n).1 = d ∧
  ∀ a, in_space a 1 → ld8 (strncpy m d s n).2 a =
    if (d <=? a) && (a <? d + n) then default 0 (l !! Z.to_nat (a - d)) else ld8 m a.
Proof.
  intros Hl Hn Hd Hs Hov. unfold strncpy.
  destruct (strncpy_copy_run (Z.to_nat n) m d s 0 l) as (m' & -> & Hm');
    [by rewrite Z.add_0_r|unfold in_space in *; lia..|].
  split; [done|]. intros a Ha. cbn [snd].
  set (k := Z.of_nat (Nat.min (Z.to_nat n) (length l))) in *.
  pose (P := λ i m2, ld8 m2 a = if (d + k <=? a) && (a <? d + i) then 0 else ld8 m' a).
  assert (P (0 + k + (n - (0 + k))) (for_range (0 + k) (n - (0 + k)) (λ i m, st8 m (d + i) 0) m')) as H.
  { apply for_range_ind; [lia| |]; unfold P.
    - zcases; done.
    - intros i m2 Hi IH. unfold in_space in *. rewrite ld8_st8 by mem_side. rewrite IH.
      zcases; done. }
  rewrite H, Hm' by done. replace (0 + k + (n - (0 + k))) with n by lia.
  rewrite !Z.add_0_r. replace (a - d - 0) with (a - d) by lia.
  zcases; try done. rewrite list.lookup_ge_None_2; [done|]. lia.
Qed.

(** ** Properties *)

(** C9: [strstr] finds substrings: on two strings in memory it returns a pointer
    to the first occurrence of the needle in the haystack, and NULL exactly when
    the needle does not occur; an empty needle is found at the start. *)
Theorem strstr_first_occurrence fuel m h n hay needle :
  cstring m h hay → cstring m n needle → h ≠ NULL → 0 ≤ h →
  (length hay + length needle < fuel)%nat →
  Z.of_nat (length hay) < 4294967296 → Z.of_nat (length needle) < 4294967296 →
  ∃ p, strstr fuel m h n = Some p ∧
    (p = NULL ↔ ¬ occurs needle hay) ∧
    (p ≠ NULL → ∃ x, p = h + Z.of_nat (length x) ∧ first_occurrence needle hay x).
Proof.
  intros Hh Hn Hh0 Hpos Hf Hl Hl'. unfold strstr, NULL in *.
  destruct (cstring_head _ _ _ Hn) as [E _]. rewrite E.
  destruct (decide (needle = [])) as [->|Hne].
  - cbn. exists h. split; [done|]. split; [|intros _; exists []; split; [cbn; lia|]].
    + split; [done|]. intros Ho. destruct Ho. by exists [], hay.
    + apply occurs_prefix, prefix_nil.
  - destruct needle as [|c needle]; [done|]. cbn [head default from_option id].
    rewrite (proj2 (Z.eqb_neq c 0)) by (destruct Hn; lia).
    destruct (strstr_loop_run fuel m h n 0 hay (c :: needle)) as (p & E2 & Hp); try done; try lia.
    { by rewrite Z.add_0_r. }
    exists p. split; [exact E2|]. destruct Hp as [[-> Hp]|(x & -> & Hx)]; [done|]. split.
    + split; [lia|]. intros Ho. destruct Ho. destruct Hx as [[y ->] _]. by exists x, y.
    + intros _. exists x. split; [lia|done].
Qed.

(** C32: [strcmp] orders strings as a dictionary of unsigned characters does: zero
    exactly for equal strings, negative exactly when the first comes first; and
    [strncmp] with bound [n] orders their first [n] characters the same way. *)
Theorem strcmp_orders fuel m s1 s2 n l1 l2 :
  cstring m s1 l1 → cstring m s2 l2 → (length l1 < fuel)%nat →
  ∃ r, strcmp fuel m s1 s2 = Some r ∧ -256 < r < 256 ∧
    (r = 0 ↔ l1 = l2) ∧ (r < 0 ↔ lex_lt l1 l2) ∧ (0 < r ↔ lex_lt l2 l1) ∧
    let r' := strncmp m s1 s2 n in
    let t1 := take (Z.to_nat n) l1 in
    let t2 := take (Z.to_nat n) l2 in
    (r' = 0 ↔ t1 = t2) ∧ (r' < 0 ↔ lex_lt t1 t2) ∧ (0 < r' ↔ lex_lt t2 t1).
Proof.
  intros H1 H2 Hf. pose proof (cstring_bytes _ _ _ H1) as F1. pose proof (cstring_bytes _ _ _ H2) as F2.
  exists (byte_cmp l1 l2). split; [by apply strcmp_run|]. split; [by apply byte_cmp_range|].
  destruct (byte_cmp_lex l1 l2 F1 F2) as (E1 & E2 & E3). do 3 (split; [done|]).
  cbv zeta. rewrite (strncmp_run _ _ _ _ _ _ H1 H2).
  apply byte_cmp_lex; by apply Forall_take.
Qed.

(** [memmove] copies as if through a buffer: whatever the overlap of the two
    blocks, every destination byte receives the value its source byte had before
    the call, and no other byte changes. *)
Theorem memmove_exact m dest src len :
  0 ≤ len → in_space dest len → in_space src len → mem_wf m →
  ∃ m', memmove m dest src len = (dest, m') ∧ mem_wf m' ∧
    ∀ a, in_space a 1 → ld8 m' a =
      if (dest <=? a) && (a <? dest + len) then ld8 m (src + (a - dest)) else ld8 m a.
Proof.
  intros Hlen Hd Hs Hwf. exists (memmove m dest src len).2. split; [done|]. split.
  - unfold memmove. cbn [snd]. destruct (dest <? src); apply (for_range_inv mem_wf); auto with word.
  - intros a Ha. by apply memmove_ld8.
Qed.

(** A string copied by [strcpy] to a place where the copy is safe is the same
    string: it has the same length and compares equal to the source.  [strncpy]
    with room for the NUL gives the same; with [n] at most the length it copies
    [n] characters and no NUL. *)
Theorem strcpy_roundtrip fuel m d s l n (len := Z.of_nat (length l)) :
  cstring m s l → (length l < fuel)%nat → in_space d (len + 1) → in_space s (len + 1) →
  s + len + 1 ≤ d → 0 ≤ n → in_space d n →
  (∃ m', strcpy fuel m d s = Some (d, m') ∧ cstring m' d l ∧ cstring m' s l ∧
    strlen fuel m' d = Some len ∧ strcmp fuel m' d s = Some 0) ∧
  let m' := (strncpy m d s n).2 in
  if len <? n then cstring m' d l
  else ∀ i, 0 ≤ i < n → ld8 m' (d + i) = ld8 m (s + i) ∧ ld8 m' (d + i) ≠ 0.
Proof.
  subst len. intros Hl Hf Hd Hs Hov Hn Hdn. split.
  - destruct (strcpy_loop_run fuel m d s l Hl Hf) as (m' & E & Hm' & Hrest);
      [unfold copy_safe, in_space in *; lia|].
    assert (Hs' : cstring m' s l).
    { eapply cstring_ext; [|exact Hl]. intros a Ha. apply Hrest; unfold in_space in *; lia. }
    exists m'. unfold strcpy. rewrite E. split; [done|]. split; [done|]. split; [done|]. split.
    + apply strlen_run; [done| |done]. unfold in_space in *. lia.
    + rewrite (strcmp_run _ _ _ _ _ _ Hm' Hs' Hf). f_equal.
      apply byte_cmp_lex; [by eapply cstring_bytes..|done].
  - cbv zeta. destruct (strncpy_run m d s n l Hl Hn Hdn Hs) as [_ Hm']; [lia|].
    unfold in_space in *. destruct (Z.ltb_spec (Z.of_nat (length l)) n) as [Hlt|Hge].
    + apply cstring_of_bytes; [by eapply cstring_bytes|]. intros i Hi. rewrite Hm' by lia.
      rewrite (proj2 (Z.leb_le _ _)), (proj2 (Z.ltb_lt _ _)) by lia. cbn [andb].
      by replace (Z.to_nat (d + Z.of_nat i - d)) with i by lia.
    + intros i Hi. rewrite Hm' by lia.
      rewrite (proj2 (Z.leb_le _ _)), (proj2 (Z.ltb_lt _ _)) by lia. cbn [andb].
      replace (d + i - d) with i by lia.
      destruct (cstring_lookup m s l (Z.to_nat i) Hl) as [E Hb]; [lia|].
      rewrite Z2Nat.id in E by lia. split; [by rewrite E|]. lia.
Qed.

(** *** Witnesses *)

(** Two strings in an otherwise empty memory, and the first over the second. *)
Definition poke (m : mem) (a : Z) (l : list Z) : mem :=
  list_to_map (imap (λ i c, (a + Z.of_nat i, c)) l) ∪ m.

Definition str_mem : mem := poke (poke ∅ 0x1000 (cstr "banana")) 0x2000 (cstr "nan").

Lemma str_mem_hay : cstring str_mem 0x1000 (cstr "banana").
Proof. vm_compute. repeat split. Qed.

Lemma str_mem_needle : cstring str_mem 0x2000 (cstr "nan").
Proof. vm_compute. repeat split. Qed.

Lemma strstr_first_occurrence_witness :
  ∃ p x, strstr 20 str_mem 0x1000 0x2000 = Some p ∧ p = 0x1000 + Z.of_nat (length x) ∧
    first_occurrence (cstr "nan") (cstr "banana") x.
Proof.
  destruct (strstr_first_occurrence 20 str_mem 0x1000 0x2000 _ _ str_mem_hay str_mem_needle)
    as (p & E & Hno & Hp);
    [discriminate|lia|vm_compute; lia|vm_compute; reflexivity|vm_compute; reflexivity|].
  destruct Hp as (x & Hx & Ho).
  - intros H. apply Hno in H. apply H. exists (cstr "ba"), (cstr "a"). reflexivity.
  - exists p, x. split; [exact E|]. split; [exact Hx|exact Ho].
Defined.

Lemma strcmp_orders_witness :
  ∃ r, strcmp 10 str_mem 0x1000 0x2000 = Some r ∧ r < 0.
Proof.
  destruct (strcmp_orders 10 str_mem 0x1000 0x2000 2 _ _ str_mem_hay str_mem_needle)
    as (r & E & _ & _ & Hlt & _); [vm_compute; lia|].
  exists r. split; [exact E|]. apply Hlt. left. reflexivity.
Defined.

Lemma memmove_exact_witness :
  ∃ m', memmove str_mem 0x1002 0x1000 4 = (0x1002, m') ∧ ld8 m' 0x1004 = 110.
Proof.
  destruct (memmove_exact str_mem 0x1002 0x1000 4) as (m' & E & _ & H);
    [lia|unfold in_space; lia|unfold in_space; lia| |].
  - intros a. unfold ld8. destruct (str_mem !! u32 a) as [c|] eqn:Ec; [|cbn; lia].
    revert a c Ec. enough (map_Forall (λ _ c, 0 ≤ c < 256) str_mem) as Hall
      by (intros a c Ec; exact (Hall _ _ Ec)).
    refine (bool_decide_unpack _ _). vm_compute. exact I.
  - exists m'. split; [exact E|]. rewrite H by (unfold in_space; lia). reflexivity.
Defined.

Lemma strcpy_roundtrip_witness :
  ∃ m', strcpy 10 str_mem 0x3000 0x1000 = Some (0x3000, m') ∧ strlen 10 m' 0x3000 = Some 6 ∧
    ld8 (strncpy str_mem 0x3000 0x1000 3).2 0x3002 ≠ 0.
Proof.
  destruct (strcpy_roundtrip 10 str_mem 0x3000 0x1000 (cstr "banana") 3 str_mem_hay)
    as [(m' & E & _ & _ & Hl & _) Hn]; try (vm_compute; repeat split; congruence); [vm_compute; lia|].
  exists m'. split; [exact E|]. split; [exact Hl|]. apply (Hn 2). lia.
Defined.
