(* ===== verification/Scheduler.v ===== *)
(** * The scheduler (kernel/scheduler.c)

    The ready queue with its tail pointer, the blocked queue, the time-slice
    scheduler and the tick handler that wakes sleeping processes.  The file has
    queues of its own, beside those of [process.c]; both thread them through the
    [next] fields of the one process table.  [init_process] and [update_ticks],
    which no source file defines, and the assembly routine [switch_process], which
    does not return to its caller's state, are the class [SchedEnv].  The abstract
    state is a pair of lists of slots. *)

From S2P Require Import Prelude Memory Types Machine Screen Interrupts Process.
Import ScreenH ProcessH.

Class SchedEnv := {
  init_process : option nat;
  switch_process : option nat → K unit;
  update_ticks : K unit }.

(** ** Operations *)

Definition upd_sched (f : sched_state → sched_state) : K unit :=
  modify (λ k, set_sched (f (k_sched k)) k).

Definition set_ready (v : option nat) (s : sched_state) : sched_state :=
  mk_sched v (s_ready_queue_tail s) (s_blocked_queue s) (s_tick_count s).
Definition set_tail (v : option nat) (s : sched_state) : sched_state :=
  mk_sched (s_ready_queue s) v (s_blocked_queue s) (s_tick_count s).
Definition set_blocked (v : option nat) (s : sched_state) : sched_state :=
  mk_sched (s_ready_queue s) (s_ready_queue_tail s) v (s_tick_count s).
Definition set_ticks (v : Z) (s : sched_state) : sched_state :=
  mk_sched (s_ready_queue s) (s_ready_queue_tail s) (s_blocked_queue s) v.

(** [p->f = ...] for a table slot. *)
Definition put_pcb (i : nat) (f : pcb_t → pcb_t) : K unit := upd_proc (upd_pcb i f).

Definition init_scheduler : K unit :=
  screen_putstr (cstr "Initializing Scheduler... ") ;;;
  upd_sched (set_ready None) ;;;
  upd_sched (set_tail None) ;;;
  upd_sched (set_blocked None) ;;;
  screen_setcolor COLOR_LIGHT_GREEN COLOR_BLACK ;;;
  screen_putstr (cstr "OK" ++ [10]).

(** A NULL tail under a non-empty queue is dereferenced. *)
Definition add_to_ready_queue (process : option nat) : K unit :=
  match process with
  | None => ret tt
  | Some i =>
      put_pcb i (set_next None) ;;;
      let* s := gets k_sched in
      match s_ready_queue s with
      | None =>
          upd_sched (set_ready (Some i)) ;;;
          upd_sched (set_tail (Some i))
      | Some _ =>
          match s_ready_queue_tail s with
          | None => fault
          | Some t => put_pcb t (set_next (Some i)) ;;; upd_sched (set_tail (Some i))
          end
      end
  end.

(** [while (prev->next && prev->next != process) prev = prev->next;] *)
Fixpoint find_prev (fuel : nat) (tbl : list pcb_t) (prev process : nat) : option nat :=
  match fuel with
  | O => None
  | S fuel =>
      match next (pcb tbl prev) with
      | None => Some prev
      | Some n => if decide (n = process) then Some prev else find_prev fuel tbl n process
      end
  end.

Definition remove_from_ready_queue (fuel : nat) (process : option nat) : K unit :=
  let* s := gets k_sched in
  match process, s_ready_queue s with
  | Some i, Some h =>
      let* tbl := gets (λ k, process_table (k_proc k)) in
      (if decide (h = i) then
         upd_sched (set_ready (next (pcb tbl i))) ;;;
         when bool_decide (s_ready_queue_tail s = Some i) then upd_sched (set_tail None)
       else
         match find_prev fuel tbl h i with
         | None => spin
         | Some prev =>
             when bool_decide (next (pcb tbl prev) = Some i) then
               (put_pcb prev (set_next (next (pcb tbl i))) ;;;
                when bool_decide (s_ready_queue_tail s = Some i) then upd_sched (set_tail (Some prev)))
         end) ;;;
      put_pcb i (set_next None)
  | _, _ => ret tt
  end.

Section Operations.
Context `{SchedEnv}.

(** [current && current != init_process] *)
Definition is_user (current : option nat) : bool :=
  bool_decide (current ≠ None ∧ current ≠ init_process).

(** Lines 84-106, after the time slice is used up. *)
Definition pick_next (fuel : nat) (current : option nat) : K unit :=
  match current with
  | Some c => put_pcb c (set_time_slice 100)
  | None => ret tt
  end ;;;
  let* s := gets k_sched in
  let next := match s_ready_queue s with None => init_process | Some n => Some n end in
  (when bool_decide (next ≠ init_process) then remove_from_ready_queue fuel next) ;;;
  let* tbl := gets (λ k, process_table (k_proc k)) in
  match current with
  | Some c =>
      when is_user current && bool_decide (state (pcb tbl c) = PROCESS_RUNNING) then
        (put_pcb c (set_state PROCESS_READY) ;;; add_to_ready_queue (Some c))
  | None => ret tt
  end ;;;
  when bool_decide (next ≠ current) then switch_process next.

Definition schedule (fuel : nat) : K unit :=
  let* current := get_current_process in
  let* tbl := gets (λ k, process_table (k_proc k)) in
  match current with
  | Some c =>
      if is_user current && (0 <? time_slice (pcb tbl c)) then
        put_pcb c (λ p, set_time_slice (u32 (time_slice p - 1)) p)
      else pick_next fuel current
  | None => pick_next fuel current
  end.

Definition yield (fuel : nat) : K unit :=
  let* current := get_current_process in
  match current with
  | Some c =>
      when is_user current then (put_pcb c (set_state PROCESS_READY) ;;; add_to_ready_queue (Some c))
  | None => ret tt
  end ;;;
  schedule fuel.

(** One round of the loop over the blocked queue, lines 133-153: the new
    [prev] and [proc]. *)
Definition wake_step (tick : Z) (prev : option nat) (i : nat) : K (option nat * option nat) :=
  let* tbl := gets (λ k, process_table (k_proc k)) in
  if bool_decide (state (pcb tbl i) = PROCESS_BLOCKED) && (wakeup_time (pcb tbl i) <=? tick) then
    match prev with
    | Some p => put_pcb p (set_next (next (pcb tbl i)))
    | None => upd_sched (set_blocked (next (pcb tbl i)))
    end ;;;
    put_pcb i (set_state PROCESS_READY) ;;;
    add_to_ready_queue (Some i) ;;;
    let* proc := gets (λ k, match prev with
                            | Some p => next (pcb (process_table (k_proc k)) p)
                            | None => s_blocked_queue (k_sched k)
                            end) in
    ret (prev, proc)
  else ret (Some i, next (pcb tbl i)).

Fixpoint wake_loop (fuel : nat) (tick : Z) (prev proc : option nat) : K unit :=
  match proc with
  | None => ret tt
  | Some i =>
      match fuel with
      | O => spin
      | S fuel =>
          let* (prev, proc) := wake_step tick prev i in
          wake_loop fuel tick prev proc
      end
  end.

Definition timer_tick_handler (fuel : nat) : K unit :=
  upd_sched (λ s, set_ticks (u32 (s_tick_count s + 1)) s) ;;;
  update_ticks ;;;
  let* s := gets k_sched in
  wake_loop fuel (s_tick_count s) None (s_blocked_queue s) ;;;
  schedule fuel.

End Operations.

Definition set_process_priority (process : option nat) (prio : Z) : K unit :=
  match process with
  | None => ret tt
  | Some i => put_pcb i (set_priority prio) ;;; put_pcb i (set_time_slice (u32 (prio * 10)))
  end.

(** The length of a list threaded through [next]. *)
Fixpoint count_queue (fuel : nat) (tbl : list pcb_t) (proc : option nat) (n : Z) : option Z :=
  match proc with
  | None => Some n
  | Some i =>
      match fuel with
      | O => None
      | S fuel => count_queue fuel tbl (next (pcb tbl i)) (u32 (n + 1))
      end
  end.

Definition print_pid (p : pcb_t) : K unit :=
  screen_putstr (cstr " (PID=") ;;; screen_putdec (pid p).

Fixpoint print_queue (fuel : nat) (tbl : list pcb_t) (proc : option nat) : K unit :=
  match proc with
  | None => ret tt
  | Some i =>
      match fuel with
      | O => spin
      | S fuel =>
          screen_putstr (cstr "    ") ;;;
          screen_putstr (name (pcb tbl i)) ;;;
          print_pid (pcb tbl i) ;;;
          screen_putstr (cstr ", Priority=") ;;;
          screen_putdec (priority (pcb tbl i)) ;;;
          screen_putstr (cstr ")" ++ [10]) ;;;
          print_queue fuel tbl (next (pcb tbl i))
      end
  end.

Definition show_scheduler_info (fuel : nat) : K unit :=
  screen_setcolor COLOR_LIGHT_CYAN COLOR_BLACK ;;;
  screen_putstr ([10] ++ cstr "Scheduler Information:" ++ [10]) ;;;
  screen_setcolor COLOR_LIGHT_GREY COLOR_BLACK ;;;
  let* s := gets k_sched in
  let* tbl := gets (λ k, process_table (k_proc k)) in
  match count_queue fuel tbl (s_ready_queue s) 0, count_queue fuel tbl (s_blocked_queue s) 0 with
  | Some ready_count, Some blocked_count =>
      screen_putstr (cstr "  Ready queue: ") ;;;
      screen_putdec ready_count ;;;
      screen_putstr (cstr " processes" ++ [10]) ;;;
      screen_putstr (cstr "  Blocked queue: ") ;;;
      screen_putdec blocked_count ;;;
      screen_putstr (cstr " processes" ++ [10]) ;;;
      screen_putstr (cstr "  Current process: ") ;;;
      let* current := get_current_process in
      match current with
      | Some c =>
          screen_putstr (name (pcb tbl c)) ;;;
          print_pid (pcb tbl c) ;;;
          screen_putstr (cstr ")" ++ [10])
      | None => screen_putstr (cstr "None" ++ [10])
      end ;;;
      match s_ready_queue s with
      | Some _ =>
          screen_putstr ([10] ++ cstr "  Ready queue contents:" ++ [10]) ;;;
          print_queue fuel tbl (s_ready_queue s)
      | None => ret tt
      end
  | _, _ => spin
  end.

#[global] Arguments add_to_ready_queue : simpl never.
#[global] Arguments remove_from_ready_queue : simpl never.
#[global] Arguments wake_step : simpl never.

(** ** Runs

    Every operation of the file changes the process table and the scheduler's
    static data only: [st t s k] is [k] with those replaced. *)

Definition upd (t : list pcb_t) (i : nat) (f : pcb_t → pcb_t) : list pcb_t := <[i := f (pcb t i)]> t.

Definition st (t : list pcb_t) (s : sched_state) (k : kernel) : kernel :=
  set_sched s (set_proc (upd_table (λ _, t) (k_proc k)) k).

Lemma st_self k : k = st (process_table (k_proc k)) (k_sched k) k.
Proof. destruct k as [? ? ? ? ? ? [] ? ? ? ? ? ? ?]. done. Qed.

Lemma put_pcb_st i f t s k : put_pcb i f (st t s k) = Done tt (st (upd t i f) s k).
Proof. done. Qed.

Lemma bind_put_st {A} i f (g : unit → K A) t s k :
  bind (put_pcb i f) g (st t s k) = g tt (st (upd t i f) s k).
Proof. done. Qed.

Lemma upd_sched_st f t s k : upd_sched f (st t s k) = Done tt (st t (f s) k).
Proof. done. Qed.

Lemma bind_upd_sched_st {A} f (g : unit → K A) t s k :
  bind (upd_sched f) g (st t s k) = g tt (st t (f s) k).
Proof. done. Qed.

Lemma bind_sched_st {A} (g : sched_state → K A) t s k : bind (gets k_sched) g (st t s k) = g s (st t s k).
Proof. done. Qed.

Lemma bind_table_st {A} (g : list pcb_t → K A) t s k :
  bind (gets (λ k, process_table (k_proc k))) g (st t s k) = g t (st t s k).
Proof. done. Qed.

Lemma bind_current_st {A} (g : option nat → K A) t s k :
  bind get_current_process g (st t s k) = g (current_process (k_proc k)) (st t s k).
Proof. done. Qed.

Create Rewrite HintDb sched_run.
#[local] Hint Rewrite @bind_put_st @bind_upd_sched_st @bind_sched_st @bind_table_st @bind_current_st
  put_pcb_st upd_sched_st : sched_run.

(** ** Abstract state: the ready and the blocked processes *)

Record sched_wf (t : list pcb_t) (s : sched_state) (q b : list nat) : Prop := {
  sw_ready : qseg t (s_ready_queue s) q None;
  sw_tail : s_ready_queue_tail s = list.last q;
  sw_blocked : qseg t (s_blocked_queue s) b None;
  sw_nodup : NoDup (q ++ b);
  sw_range : Forall (λ i, (i < length t)%nat) (q ++ b) }.

Lemma pcb_upd t i f j :
  (i < length t)%nat → pcb (upd t i f) j = if decide (i = j) then f (pcb t i) else pcb t j.
Proof. apply pcb_insert. Qed.

Lemma length_upd t i f : length (upd t i f) = length t.
Proof. apply length_insert. Qed.

(** An update outside the queues, or that keeps the links, keeps the queues. *)
Lemma qseg_upd t i f h q e :
  (i < length t)%nat → i ∉ q ∨ (∀ p, next (f p) = next p) → qseg t h q e → qseg (upd t i f) h q e.
Proof.
  intros Hi Hf. apply qseg_ext. intros j Hj. rewrite pcb_upd by done.
  destruct (decide (i = j)) as [->|]; [|done]. destruct Hf as [?|Hf]; [done|by rewrite Hf].
Qed.

Lemma sched_wf_upd t s q b i f :
  sched_wf t s q b → (i < length t)%nat → i ∉ q ++ b ∨ (∀ p, next (f p) = next p) →
  sched_wf (upd t i f) s q b.
Proof.
  intros [H1 H2 H3 H4 H5] Hi Hf. split; try done.
  - apply qseg_upd; [done| |done]. set_solver.
  - apply qseg_upd; [done| |done]. set_solver.
  - by rewrite length_upd.
Qed.

Lemma same_upd t i f :
  (i < length t)%nat → (∀ p, set_next None (f p) = set_next None p) → same_but_next t (upd t i f).
Proof. intros Hi Hf j. rewrite pcb_upd by done. destruct (decide (i = j)) as [->|]; [apply Hf|done]. Qed.

Lemma last_snoc_in {A} (q : list A) l : list.last q = Some l → ∃ q', q = q' ++ [l].
Proof. intros H. apply last_Some in H as [q' ->]. by exists q'. Qed.

(** [add_to_ready_queue] appends. *)
Lemma add_run t s q b i k :
  sched_wf t s q b → i ∉ q ++ b → (i < length t)%nat →
  ∃ t' s', add_to_ready_queue (Some i) (st t s k) = Done tt (st t' s' k) ∧
    sched_wf t' s' (q ++ [i]) b ∧ same_but_next t t' ∧ length t' = length t ∧
    s_tick_count s' = s_tick_count s ∧ s_blocked_queue s' = s_blocked_queue s.
Proof.
  intros Hwf Hi Hlt. pose proof (sched_wf_upd _ _ _ _ i (set_next None) Hwf Hlt (or_introl Hi))
    as [H1 H2 H3 H4 H5]. set (t1 := upd t i (set_next None)) in *.
  assert (Hn1 : next (pcb t1 i) = None) by (subst t1; rewrite pcb_upd by done; by rewrite decide_True).
  assert (Hs1 : same_but_next t t1) by by apply same_upd.
  assert (Hl1 : length t1 = length t) by apply length_upd.
  assert (Hnd : NoDup ((q ++ [i]) ++ b)).
  { rewrite <- app_assoc. apply list.NoDup_app in H4 as (Hq & Hqb & Hb).
    apply list.NoDup_app. split; [done|]. split; [|apply list.NoDup_cons; set_solver]. set_solver. }
  assert (Hr : Forall (λ j, (j < length t1)%nat) ((q ++ [i]) ++ b)).
  { rewrite !Forall_app, list.Forall_singleton in *. destruct H5. split; [split; [done|lia]|done]. }
  unfold add_to_ready_queue. autorewrite with sched_run. fold t1.
  destruct q as [|l q _] using rev_ind.
  - cbn in H1. rewrite H1. autorewrite with sched_run. eexists _, _. split; [done|].
    split; [|done]. split; cbn; done.
  - rewrite last_snoc in H2. rewrite H2.
    destruct (s_ready_queue s) as [h|] eqn:Eh; [|destruct q; by destruct H1].
    autorewrite with sched_run. eexists _, _. split; [done|].
    assert (Hlt' : (l < length t1)%nat) by (rewrite !Forall_app, list.Forall_singleton in H5;
      by destruct H5 as [[_ Hl] _]).
    assert (Hlb : l ∉ b) by (apply list.NoDup_app in H4 as (_ & H4 & _); apply H4; set_solver).
    assert (Hlq : l ∉ q) by (rewrite <- app_assoc in H4; apply list.NoDup_app in H4 as (_ & H4 & _); set_solver).
    assert (Hli : l ≠ i) by set_solver.
    split; [split|split_and!]; cbn [set_tail s_ready_queue s_ready_queue_tail s_blocked_queue s_tick_count];
      rewrite ?length_upd; try done.
    + rewrite Eh. apply qseg_app in H1 as (m & Hs & [-> _]). rewrite <- app_assoc. apply qseg_app.
      exists (Some l). split; [apply qseg_upd; auto|]. cbn. rewrite !pcb_upd by done.
      by rewrite decide_True, decide_False.
    + by rewrite last_snoc.
    + apply qseg_upd; auto.
    + etrans; [exact Hs1|]. by apply same_upd.
Qed.

(** Unlinking the slot after [p]. *)
Lemma qseg_unlink t h q1 p i q2 e :
  qseg t h (q1 ++ p :: i :: q2) e → NoDup (q1 ++ p :: i :: q2) → (p < length t)%nat →
  qseg (upd t p (set_next (next (pcb t i)))) h (q1 ++ p :: q2) e.
Proof.
  rewrite !qseg_app. intros (m & H1 & [-> [Hp Hs]]) Hnd Hlt.
  apply list.NoDup_app in Hnd as (_ & Hd & Hnd). rewrite !list.NoDup_cons in Hnd.
  destruct Hnd as (Hpq & Hiq & _). exists (Some p). split.
  - apply qseg_upd; [done| |done]. left. intros Hpq1. apply (Hd p Hpq1). set_solver.
  - split; [done|]. rewrite pcb_upd, decide_True by done. cbn. apply qseg_upd; [done| |done]. set_solver.
Qed.

(** The pointer that leads to what follows [q1]. *)
Lemma qseg_link t h q1 q2 :
  qseg t h (q1 ++ q2) None →
  match list.last q1 with Some p => next (pcb t p) | None => h end = head q2.
Proof.
  rewrite qseg_app. intros (m & H1 & H2). assert (Hm : m = head q2) by (destruct q2; [exact H2|exact (proj1 H2)]).
  subst m. destruct q1 as [|p q1 _] using rev_ind; [exact H1|].
  rewrite last_snoc. apply qseg_app in H1 as (m & _ & [_ H]). exact H.
Qed.

(** The scan of [remove_from_ready_queue] stops before [i], or at the end. *)
Lemma find_prev_run fuel t p q1 pr i q2 :
  qseg t (Some p) (q1 ++ pr :: i :: q2) None → i ∉ q1 ++ [pr] → (length q1 < fuel)%nat →
  find_prev fuel t p i = Some pr.
Proof.
  revert fuel p. induction q1 as [|j q1 IH]; intros [|fuel] p Hs Hi Hf; cbn in *; try lia.
  - destruct Hs as [[= ->] [Hn _]]. by rewrite Hn, decide_True.
  - destruct Hs as [[= ->] Hs]. destruct q1 as [|j' q1]; cbn in Hs; destruct Hs as [Hj Hs];
      rewrite Hj, decide_False by set_solver; (apply IH; [by split|set_solver|cbn in *; lia]).
Qed.

Lemma find_prev_absent fuel t p q1 pr i :
  qseg t (Some p) (q1 ++ [pr]) None → i ∉ q1 ++ [pr] → (length q1 < fuel)%nat →
  find_prev fuel t p i = Some pr ∧ next (pcb t pr) = None.
Proof.
  revert fuel p. induction q1 as [|j q1 IH]; intros [|fuel] p Hs Hi Hf; cbn in *; try lia.
  - destruct Hs as [[= ->] Hn]. by rewrite Hn.
  - destruct Hs as [[= ->] Hs]. destruct q1 as [|j' q1]; cbn in Hs; destruct Hs as [Hj Hs];
      rewrite Hj, decide_False by set_solver; (apply IH; [by split|set_solver|cbn in *; lia]).
Qed.

Lemma last_remove {A} (q1 q2 : list A) i :
  i ∉ q1 ++ q2 → list.last (q1 ++ i :: q2) = Some i ↔ q2 = [].
Proof.
  intros Hi. split; [|intros ->; apply last_snoc].
  destruct q2 as [|l q2 _] using rev_ind; [done|]. rewrite app_comm_cons, app_assoc, last_snoc.
  intros [= ->]. set_solver.
Qed.

(** Clearing the link of the slot that was taken out. *)
Lemma remove_finish t s q b i k :
  sched_wf t s q b → i ∉ q ++ b → (i < length t)%nat →
  ∃ t', put_pcb i (set_next None) (st t s k) = Done tt (st t' s k) ∧ sched_wf t' s q b ∧
    next (pcb t' i) = None ∧ length t' = length t ∧ same_but_next t t'.
Proof.
  intros Hwf Hi Hlt. exists (upd t i (set_next None)). split; [done|]. split; [auto using sched_wf_upd|].
  rewrite pcb_upd, decide_True, length_upd by done. do 2 (split; [done|]). by apply same_upd.
Qed.

(** What is left when a process is taken out. *)
Lemma removed_facts n q1 (i : nat) q2 b :
  NoDup ((q1 ++ i :: q2) ++ b) → Forall (λ j, (j < n)%nat) ((q1 ++ i :: q2) ++ b) →
  (i ∉ (q1 ++ q2) ++ b) ∧ (i < n)%nat ∧ NoDup ((q1 ++ q2) ++ b) ∧ Forall (λ j, (j < n)%nat) ((q1 ++ q2) ++ b).
Proof.
  rewrite <- !app_assoc. intros (Ha & Hb & Hc)%list.NoDup_app Hr. cbn in Hc, Hb.
  apply list.NoDup_cons in Hc as [Hi Hc]. split; [|split; [|split]].
  - rewrite !elem_of_app in *. intros [H|H]; [|set_solver]. apply (Hb i H). set_solver.
  - rewrite !Forall_app, list.Forall_cons in Hr. tauto.
  - apply list.NoDup_app. split_and!; [done| |done]. set_solver.
  - rewrite !Forall_app, list.Forall_cons in *. tauto.
Qed.

(** Taking out the head. *)
Lemma unlink_head t s i q2 b k :
  sched_wf t s (i :: q2) b →
  ∃ s1, (upd_sched (set_ready (next (pcb t i))) ;;;
         when bool_decide (q2 = []) then upd_sched (set_tail None)) (st t s k) = Done tt (st t s1 k) ∧
    sched_wf t s1 q2 b ∧ s_tick_count s1 = s_tick_count s.
Proof.
  intros [H1 H2 H3 H4 H5]. destruct (removed_facts _ [] i q2 b H4 H5) as (_ & _ & Hnd & Hr).
  destruct H1 as [_ H1]. autorewrite with sched_run.
  destruct q2 as [|j q2]; [rewrite bool_decide_true by done|rewrite bool_decide_false by done];
    (eexists; split; [done|]; split; [|done]; split; cbn in *; done).
Qed.

(** Taking out the process after [p]. *)
Lemma unlink_after t s q1 p i q2 b k :
  sched_wf t s (q1 ++ p :: i :: q2) b →
  ∃ t1 s1, (put_pcb p (set_next (next (pcb t i))) ;;;
            when bool_decide (q2 = []) then upd_sched (set_tail (Some p))) (st t s k) = Done tt (st t1 s1 k) ∧
    sched_wf t1 s1 (q1 ++ p :: q2) b ∧ length t1 = length t ∧ same_but_next t t1 ∧
    s_tick_count s1 = s_tick_count s.
Proof.
  intros [H1 H2 H3 H4 H5].
  assert (Hsplit : q1 ++ p :: i :: q2 = (q1 ++ [p]) ++ i :: q2) by by rewrite <- app_assoc.
  rewrite Hsplit in H4, H5. destruct (removed_facts _ (q1 ++ [p]) i q2 b H4 H5) as (Hi & _ & Hnd & Hr).
  rewrite <- (app_assoc q1 [p] q2) in Hi, Hnd, Hr. cbn [app] in Hi, Hnd, Hr.
  assert (Hp : (p < length t)%nat) by (rewrite !Forall_app, list.Forall_cons in Hr; naive_solver).
  autorewrite with sched_run. set (t1 := upd t p (set_next (next (pcb t i)))).
  exists t1, (if bool_decide (q2 = []) then set_tail (Some p) s else s).
  split; [by destruct (bool_decide (q2 = []))|].
  split; [split|split; [apply length_upd|split; [by apply same_upd|by destruct (bool_decide (q2 = []))]]].
  - assert (Hs1 : qseg t1 (s_ready_queue s) (q1 ++ p :: q2) None); [|by destruct (bool_decide (q2 = []))].
    apply qseg_unlink; [done| |done]. rewrite Hsplit. by apply list.NoDup_app in H4 as [H4 _].
  - destruct (decide (q2 = [])) as [->|E].
    { rewrite bool_decide_true by done. cbn. by rewrite last_snoc. }
    rewrite bool_decide_false by done. rewrite H2. destruct q2 as [|l q2 _] using rev_ind; [done|].
    rewrite !app_comm_cons, !app_assoc, !last_snoc. done.
  - assert (Hb1 : qseg t1 (s_blocked_queue s) b None); [|by destruct (bool_decide (q2 = []))].
    apply qseg_upd; [done| |done]. left. apply list.NoDup_app in Hnd as (_ & Hnd & _). apply Hnd. set_solver.
  - done.
  - subst t1. by rewrite length_upd.
Qed.

(** [remove_from_ready_queue] takes its argument out, wherever it is. *)
Lemma remove_run fuel t s q1 i q2 b k :
  sched_wf t s (q1 ++ i :: q2) b → (length q1 ≤ fuel)%nat →
  ∃ t' s', remove_from_ready_queue fuel (Some i) (st t s k) = Done tt (st t' s' k) ∧
    sched_wf t' s' (q1 ++ q2) b ∧ next (pcb t' i) = None ∧ length t' = length t ∧
    same_but_next t t' ∧ s_tick_count s' = s_tick_count s.
Proof.
  intros Hwf Hf. pose proof Hwf as [H1 H2 _ H4 H5].
  destruct (removed_facts _ _ _ _ _ H4 H5) as (Hi & Hlt & _ & _).
  assert (Hlast : bool_decide (s_ready_queue_tail s = Some i) = bool_decide (q2 = [])).
  { apply bool_decide_ext. rewrite H2. apply last_remove. set_solver. }
  unfold remove_from_ready_queue. rewrite bind_sched_st.
  destruct (s_ready_queue s) as [h|] eqn:Eh; [|destruct q1; by destruct H1].
  rewrite bind_table_st, Hlast.
  destruct q1 as [|p q1 _] using rev_ind.
  - destruct H1 as [[= ->] H1]. rewrite decide_True by done.
    destruct (unlink_head t s i q2 b k Hwf) as (s1 & E & Hwf1 & Htk). rewrite (bind_done _ _ _ _ _ E).
    destruct (remove_finish t s1 q2 b i k Hwf1 Hi Hlt) as (t' & E' & Hwf' & Hn & Hl' & Hs').
    exists t', s1. by rewrite E'.
  - rewrite <- app_assoc in *. cbn [app] in *. rewrite length_app in Hf. cbn in Hf.
    assert (Hhi : h ≠ i) by (destruct q1 as [|x q1]; destruct H1 as [[= ->] _]; set_solver).
    rewrite decide_False by done. rewrite (find_prev_run fuel t h q1 p i q2) by (done || set_solver || lia).
    assert (Hpn : next (pcb t p) = Some i) by (apply qseg_app in H1 as (m & _ & _ & [-> _]); done).
    rewrite bool_decide_true by done.
    destruct (unlink_after t s q1 p i q2 b k Hwf) as (t1 & s1 & E & Hwf1 & Hl & Hsame & Htk).
    rewrite (bind_done _ _ _ _ _ E).
    destruct (remove_finish t1 s1 (q1 ++ p :: q2) b i k Hwf1) as (t' & E' & Hwf' & Hn & Hl' & Hs');
      [by rewrite <- app_assoc in *|lia|].
    exists t', s1. rewrite E', Hl'. split_and!; try done. by etrans.
Qed.

Lemma remove_absent fuel t s q b i k :
  sched_wf t s q b → i ∉ q ++ b → (i < length t)%nat → (length q ≤ fuel)%nat →
  ∃ t', remove_from_ready_queue fuel (Some i) (st t s k) = Done tt (st t' s k) ∧
    sched_wf t' s q b ∧ same_but_next t t'.
Proof.
  intros Hwf Hi Hlt Hf. pose proof Hwf as [H1 H2 _ _ _].
  unfold remove_from_ready_queue. rewrite bind_sched_st.
  destruct (s_ready_queue s) as [h|] eqn:Eh.
  - rewrite bind_table_st. destruct q as [|p q _] using rev_ind; [done|].
    rewrite length_app in Hf. cbn in Hf.
    rewrite decide_False by (destruct q; destruct H1 as [[= ->] _]; set_solver).
    destruct (find_prev_absent fuel t h q p i) as [-> Hn]; [done|set_solver|lia|].
    rewrite Hn, bool_decide_false by done.
    destruct (remove_finish t s (q ++ [p]) b i k Hwf Hi Hlt) as (t' & E' & Hwf' & _ & _ & Hs').
    exists t'. split; [exact E'|]. by split.
  - exists t. done.
Qed.

(** ** Waking sleepers *)

Definition due (t : list pcb_t) (tick : Z) (i : nat) : bool :=
  bool_decide (state (pcb t i) = PROCESS_BLOCKED) && (wakeup_time (pcb t i) <=? tick).

(** The table after the processes [l] became ready: links aside, only their
    state changed. *)
Definition woken (l : list nat) (t t' : list pcb_t) : Prop :=
  length t' = length t ∧
  ∀ j, set_next None (pcb t' j) =
    set_next None (if decide (j ∈ l) then set_state PROCESS_READY (pcb t j) else pcb t j).

Lemma woken_nil t : woken [] t t.
Proof. split; [done|]. intros j. by rewrite decide_False by apply not_elem_of_nil. Qed.

Lemma woken_cons i l t t1 t2 : woken [i] t t1 → woken l t1 t2 → woken (i :: l) t t2.
Proof.
  intros [Hl1 H1] [Hl2 H2]. split; [congruence|]. intros j. rewrite H2. specialize (H1 j).
  destruct (decide (j ∈ l)) as [Hj|Hj].
  - rewrite decide_True by set_solver. apply (f_equal (set_state PROCESS_READY)) in H1.
    destruct (decide (j ∈ [i])); exact H1.
  - rewrite H1. destruct (decide (j ∈ [i])) as [Hi|Hi].
    + by rewrite decide_True by set_solver.
    + by rewrite decide_False by set_solver.
Qed.

Lemma woken_due l t t' tick j : woken l t t' → j ∉ l → due t' tick j = due t tick j.
Proof.
  intros [_ H] Hj. specialize (H j). rewrite decide_False in H by done. unfold due.
  by rewrite (f_equal state H : state (pcb t' j) = _), (f_equal wakeup_time H : wakeup_time (pcb t' j) = _).
Qed.

Lemma woken_pair t i t1 t2 :
  (i < length t)%nat → (∀ j, set_next None (pcb t1 j) = set_next None (pcb t j)) →
  length t1 = length t → same_but_next (upd t1 i (set_state PROCESS_READY)) t2 →
  length t2 = length t → woken [i] t t2.
Proof.
  intros Hi H1 Hl1 H2 Hl2. split; [done|]. intros j. rewrite (H2 j), pcb_upd by lia.
  destruct (decide (i = j)) as [->|Hne].
  - rewrite decide_True by set_solver. apply (f_equal (set_state PROCESS_READY) (H1 j)).
  - by rewrite decide_False by set_solver.
Qed.

Lemma wake_step_run t s q kept i rest tick k :
  sched_wf t s q (kept ++ i :: rest) →
  if due t tick i then
    ∃ t' s', wake_step tick (list.last kept) i (st t s k) = Done (list.last kept, head rest) (st t' s' k) ∧
      sched_wf t' s' (q ++ [i]) (kept ++ rest) ∧ woken [i] t t' ∧ s_tick_count s' = s_tick_count s
  else wake_step tick (list.last kept) i (st t s k) = Done (Some i, head rest) (st t s k).
Proof.
  intros Hwf. pose proof Hwf as [H1 H2 H3 H4 H5]. unfold wake_step. rewrite bind_table_st. fold (due t tick i).
  assert (Hni : next (pcb t i) = head rest).
  { pose proof (qseg_link t (s_blocked_queue s) (kept ++ [i]) rest) as Hl. rewrite last_snoc, <- app_assoc in Hl. by apply Hl. }
  rewrite Hni. destruct (due t tick i); [|done].
  assert (Hi : (i ∉ q ++ kept ++ rest) ∧ NoDup (q ++ kept ++ rest)).
  { rewrite app_assoc in H4. apply list.NoDup_app in H4 as (Ha & Hb & Hc).
    apply list.NoDup_cons in Hc as [Hc Hd]. rewrite app_assoc. split.
    - rewrite elem_of_app. intros [Hi|Hi]; [apply (Hb i Hi)|]; set_solver.
    - apply list.NoDup_app. split_and!; [done| |done]. set_solver. }
  destruct Hi as [Hi Hnd].
  assert (Hr : Forall (λ j, (j < length t)%nat) (q ++ kept ++ rest) ∧ (i < length t)%nat).
  { rewrite !Forall_app, list.Forall_cons in *. tauto. }
  destruct Hr as [Hr Hlt].
  (* after the unlinking *)
  assert (∃ t1 s1, (match list.last kept with
    | Some p => put_pcb p (set_next (head rest))
    | None => upd_sched (set_blocked (head rest)) end) (st t s k) = Done tt (st t1 s1 k) ∧
    sched_wf t1 s1 q (kept ++ rest) ∧ same_but_next t t1 ∧ length t1 = length t ∧
    s_tick_count s1 = s_tick_count s) as (t1 & s1 & E1 & Hwf1 & Hs1 & Hl1 & Htk1).
  { destruct kept as [|p kept _] using rev_ind.
    - eexists _, _. split; [done|]. split; [|done]. destruct H3 as [_ H3]. rewrite Hni in H3. by split.
    - rewrite last_snoc. eexists _, _. split; [apply put_pcb_st|].
      assert (Hp : (p < length t)%nat) by (rewrite !Forall_app, list.Forall_singleton in Hr; tauto).
      rewrite <- Hni. split; [|split; [by apply same_upd|split; [apply length_upd|done]]].
      split; try done.
      + apply qseg_upd; [done| |done]. left. apply list.NoDup_app in Hnd as (_ & Hq & _). set_solver.
      + rewrite <- !app_assoc in *. apply qseg_unlink; [done| |done].
        by apply list.NoDup_app in H4 as (_ & _ & H4).
      + by rewrite length_upd. }
  rewrite (bind_done _ _ _ _ _ E1). rewrite bind_put_st.
  assert (Hwf2 : sched_wf (upd t1 i (set_state PROCESS_READY)) s1 q (kept ++ rest))
    by (apply sched_wf_upd; [done|lia|by right]).
  destruct (add_run _ _ _ _ i k Hwf2 Hi) as (t3 & s3 & E3 & Hwf3 & Hs3 & Hl3 & Htk3 & _);
    [rewrite length_upd; lia|].
  rewrite length_upd in Hl3. rewrite (bind_done _ _ _ _ _ E3).
  exists t3, s3. split; [|split; [done|split; [|congruence]]].
  - rewrite bind_gets. unfold ret. do 2 f_equal. rewrite <- (qseg_link t3 (s_blocked_queue s3) kept rest (sw_blocked _ _ _ _ Hwf3)).
    done.
  - apply (woken_pair t i t1 t3); try done. congruence.
Qed.

Lemma wake_loop_run fuel tick k rest : ∀ kept t s q,
  sched_wf t s q (kept ++ rest) → (length rest ≤ fuel)%nat →
  ∃ t' s', wake_loop fuel tick (list.last kept) (head rest) (st t s k) = Done tt (st t' s' k) ∧
    sched_wf t' s' (q ++ List.filter (due t tick) rest) (kept ++ List.filter (λ i, negb (due t tick i)) rest) ∧
    woken (List.filter (due t tick) rest) t t' ∧ s_tick_count s' = s_tick_count s.
Proof.
  revert fuel. induction rest as [|i rest IH]; intros fuel kept t s q Hwf Hf.
  { exists t, s. cbn. rewrite app_nil_r in Hwf. rewrite !app_nil_r. destruct fuel; auto using woken_nil. }
  destruct fuel as [|fuel]; [cbn in Hf; lia|]. cbn [head wake_loop length List.filter] in *.
  pose proof (wake_step_run _ _ _ _ _ _ tick k Hwf) as Hstep.
  destruct (due t tick i) eqn:Hd; cbn [negb].
  - destruct Hstep as (t1 & s1 & E1 & Hwf1 & Hw1 & Htk1). rewrite (bind_done _ _ _ _ _ E1).
    destruct (IH fuel kept t1 s1 (q ++ [i]) Hwf1) as (t' & s' & E & Hwf' & Hw' & Htk'); [lia|].
    assert (Hext : ∀ j, j ∈ rest → due t1 tick j = due t tick j).
    { intros j Hj. eapply woken_due; [exact Hw1|].
      destruct Hwf as [_ _ _ Hnd _]. rewrite app_assoc in Hnd. apply list.NoDup_app in Hnd as (_ & _ & Hnd).
      apply list.NoDup_cons in Hnd as [Hnd _]. set_solver. }
    assert (E2 : List.filter (due t1 tick) rest = List.filter (due t tick) rest)
      by (apply filter_ext_in; intros j Hj; by apply Hext, list_elem_of_In).
    assert (E3 : List.filter (λ j, negb (due t1 tick j)) rest = List.filter (λ j, negb (due t tick j)) rest)
      by (apply filter_ext_in; intros j Hj; f_equal; by apply Hext, list_elem_of_In).
    rewrite E2 in *. rewrite E3 in *. rewrite <- app_assoc in Hwf'.
    exists t', s'. split; [exact E|]. split; [exact Hwf'|]. split; [by eapply woken_cons|congruence].
  - rewrite (bind_done _ _ _ _ _ Hstep). replace (Some i) with (list.last (kept ++ [i])) by apply last_snoc.
    destruct (IH fuel (kept ++ [i]) t s q) as (t' & s' & E & Hwf' & Hw' & Htk'); [by rewrite <- app_assoc|lia|].
    rewrite <- app_assoc in Hwf'. by exists t', s'.
Qed.

(** ** Picking the next process *)

Definition ktable (k : kernel) : list pcb_t := process_table (k_proc k).
Definition queues (k : kernel) (q b : list nat) : Prop := sched_wf (ktable k) (k_sched k) q b.

(** [k'] is [k] but for the table and the queues. *)
Definition only_sched (k k' : kernel) : Prop := k' = st (ktable k') (k_sched k') k.

Lemma only_sched_st t s k : only_sched k (st t s k).
Proof. done. Qed.

Lemma head_queue t s q b : sched_wf t s q b → s_ready_queue s = head q.
Proof. intros [H _ _ _ _]. exact (qseg_link t (s_ready_queue s) [] q H). Qed.

Lemma head_queue_blocked t s q b : sched_wf t s q b → s_blocked_queue s = head b.
Proof. intros [_ _ H _ _]. exact (qseg_link t (s_blocked_queue s) [] b H). Qed.

Section Picking.
Context `{SchedEnv}.

(** The head of the queue, or [init_process]; and what is left behind it. *)
Definition next_choice (q : list nat) : option nat :=
  match q with [] => init_process | i :: _ => Some i end.
Definition after_choice (q : list nat) : list nat :=
  if decide (next_choice q = init_process) then q else tail q.

(** Whether the preempted process goes back to the queue. *)
Definition requeued (t : list pcb_t) (c : nat) : bool :=
  is_user (Some c) && bool_decide (state (pcb t c) = PROCESS_RUNNING).

Definition preempted (t : list pcb_t) (c : nat) : pcb_t :=
  set_time_slice 100 (if requeued t c then set_state PROCESS_READY (pcb t c) else pcb t c).

Lemma pick_next_run fuel t s q b c k :
  sched_wf t s q b → (c < length t)%nat → (requeued t c = true → c ∉ q ++ b) →
  ∃ t' s', pick_next fuel (Some c) (st t s k) =
      (when bool_decide (next_choice q ≠ Some c) then switch_process (next_choice q)) (st t' s' k) ∧
    sched_wf t' s' (after_choice q ++ if requeued t c then [c] else []) b ∧
    length t' = length t ∧
    ∀ j, set_next None (pcb t' j) = set_next None (if decide (j = c) then preempted t c else pcb t j).
Proof.
  intros Hwf Hc Hcq. unfold pick_next. rewrite bind_put_st.
  set (t1 := upd t c (set_time_slice 100)).
  assert (Hwf1 : sched_wf t1 s q b) by (apply sched_wf_upd; auto).
  assert (Hl1 : length t1 = length t) by apply length_upd.
  assert (Hp1 : ∀ j, pcb t1 j = if decide (c = j) then set_time_slice 100 (pcb t c) else pcb t j)
    by (intros j; by apply pcb_upd).
  rewrite bind_sched_st. rewrite (head_queue _ _ _ _ Hwf1).
  replace (match head q with Some n => Some n | None => init_process end) with (next_choice q) by (by destruct q).
  cbv zeta.
  (* taking the chosen process out *)
  assert (∃ t2 s2, (when bool_decide (next_choice q ≠ init_process) then
      remove_from_ready_queue fuel (next_choice q)) (st t1 s k) = Done tt (st t2 s2 k) ∧
    sched_wf t2 s2 (after_choice q) b ∧ same_but_next t1 t2 ∧ length t2 = length t)
    as (t2 & s2 & E2 & Hwf2 & Hs2 & Hl2).
  { unfold after_choice. destruct (decide (next_choice q = init_process)) as [Eq|Ne].
    - rewrite bool_decide_false by tauto. exists t1, s. split; [done|]. done.
    - rewrite bool_decide_true by done. destruct q as [|i q]; [done|]. cbn [next_choice tail].
      destruct (remove_run fuel t1 s [] i q b k Hwf1) as (t2 & s2 & E & Hwf2 & _ & Hl2 & Hs2 & _); [cbn; lia|].
      exists t2, s2. split; [exact E|]. split_and!; [done..|congruence]. }
  rewrite (bind_done _ _ _ _ _ E2), bind_table_st.
  assert (Hst : state (pcb t2 c) = state (pcb t c)).
  { rewrite (same_next_state _ _ _ Hs2), Hp1, decide_True by done. done. }
  rewrite Hst. fold (requeued t c). unfold preempted.
  destruct (requeued t c) eqn:Hrq.
  - rewrite bind_assoc, bind_put_st.
    assert (Hnc : c ∉ after_choice q ++ b).
    { specialize (Hcq eq_refl). unfold after_choice. destruct (decide _); [done|].
      destruct q; cbn in *; set_solver. }
    destruct (add_run (upd t2 c (set_state PROCESS_READY)) s2 (after_choice q) b c k) as
      (t4 & s4 & E4 & Hwf4 & Hs4 & Hl4 & _).
    { apply sched_wf_upd; [done|lia|by right]. } { done. } { rewrite length_upd. lia. }
    rewrite (bind_done _ _ _ _ _ E4). exists t4, s4. split; [done|]. split; [done|].
    rewrite length_upd in Hl4. split; [congruence|].
    intros j. rewrite (Hs4 j), pcb_upd by lia. destruct (decide (c = j)) as [->|Hne].
    + rewrite decide_True by done.
      transitivity (set_state PROCESS_READY (set_next None (pcb t2 j))); [done|].
      rewrite (Hs2 j), Hp1, decide_True by done. done.
    + rewrite decide_False by done. rewrite (Hs2 j), Hp1, decide_False by done. done.
  - exists t2, s2. split; [done|]. rewrite app_nil_r. do 2 (split; [done|]).
    intros j. rewrite (Hs2 j), Hp1. destruct (decide (c = j)) as [->|Hne].
    + by rewrite decide_True by done.
    + by rewrite decide_False by done.
Qed.

Lemma schedule_slice fuel t s k c :
  current_process (k_proc k) = Some c → is_user (Some c) = true → 0 < time_slice (pcb t c) →
  schedule fuel (st t s k) =
    Done tt (st (upd t c (λ p, set_time_slice (u32 (time_slice p - 1)) p)) s k).
Proof.
  intros Hc Hu Hts. unfold schedule. rewrite bind_current_st, bind_table_st, Hc, Hu.
  by rewrite (proj2 (Z.ltb_lt _ _)) by done.
Qed.

Lemma schedule_pick fuel t s k c :
  current_process (k_proc k) = Some c → is_user (Some c) = false ∨ time_slice (pcb t c) ≤ 0 →
  schedule fuel (st t s k) = pick_next fuel (Some c) (st t s k).
Proof.
  intros Hc Hu. unfold schedule. rewrite bind_current_st, bind_table_st, Hc.
  destruct Hu as [-> | Hts]; [done|]. rewrite (proj2 (Z.ltb_ge _ _)) by done. by rewrite andb_false_r.
Qed.

Lemma yield_slice fuel t s k c q b :
  sched_wf t s q b → current_process (k_proc k) = Some c → is_user (Some c) = true →
  (c < length t)%nat → c ∉ q ++ b → 0 < time_slice (pcb t c) →
  ∃ t' s', yield fuel (st t s k) = Done tt (st t' s' k) ∧ sched_wf t' s' (q ++ [c]) b ∧
    length t' = length t ∧ state (pcb t' c) = PROCESS_READY ∧
    time_slice (pcb t' c) = u32 (time_slice (pcb t c) - 1).
Proof.
  intros Hwf Hc Hu Hlt Hn Hts. unfold yield. rewrite bind_current_st, Hc, Hu.
  rewrite bind_assoc, bind_put_st.
  destruct (add_run (upd t c (set_state PROCESS_READY)) s q b c k) as (t2 & s2 & E2 & Hwf2 & Hs2 & Hl2 & _).
  { apply sched_wf_upd; auto. } { done. } { by rewrite length_upd. }
  rewrite length_upd in Hl2. rewrite (bind_done _ _ _ _ _ E2).
  assert (Hp2 : set_next None (pcb t2 c) = set_next None (set_state PROCESS_READY (pcb t c)))
    by (by rewrite (Hs2 c), pcb_upd, decide_True by done).
  assert (Hts2 : time_slice (pcb t2 c) = time_slice (pcb t c)) by exact (f_equal time_slice Hp2).
  rewrite (schedule_slice fuel t2 s2 k c) by (done || lia).
  eexists _, _. split; [done|]. split; [apply sched_wf_upd; [done|lia|by right]|].
  rewrite length_upd, pcb_upd, decide_True by lia. split; [done|]. cbn. rewrite Hts2.
  split; [exact (f_equal state Hp2)|done].
Qed.

End Picking.

(** A walk that reaches a slot linked to itself never ends. *)
Lemma count_queue_loop fuel t h q c n :
  qseg t h q (Some c) → next (pcb t c) = Some c → count_queue fuel t h n = None.
Proof.
  revert h q n. induction fuel as [|fuel IH]; intros h q n Hs Hc; destruct q as [|i q]; cbn in Hs.
  - by subst h.
  - by destruct Hs as [-> _].
  - subst h. cbn. rewrite Hc. by apply (IH _ []).
  - destruct Hs as [-> Hs]. cbn. by apply (IH _ q).
Qed.

(** Appending the last process again links it to itself. *)
Lemma add_again t s q b c k :
  sched_wf t s (q ++ [c]) b →
  ∃ t', add_to_ready_queue (Some c) (st t s k) = Done tt (st t' s k) ∧ length t' = length t ∧
    qseg t' (s_ready_queue s) q (Some c) ∧ next (pcb t' c) = Some c ∧
    time_slice (pcb t' c) = time_slice (pcb t c).
Proof.
  intros [H1 H2 H3 H4 H5]. rewrite last_snoc in H2.
  assert (Hlt : (c < length t)%nat) by (rewrite !Forall_app, list.Forall_singleton in H5; tauto).
  assert (Hcq : c ∉ q) by (rewrite <- app_assoc in H4; apply list.NoDup_app in H4 as (_ & H4 & _); set_solver).
  assert (Hh : s_ready_queue s = head (q ++ [c])) by exact (qseg_link t _ [] (q ++ [c]) H1).
  assert (∃ h, s_ready_queue s = Some h) as [h Eh] by (rewrite Hh; destruct q; eauto).
  apply qseg_app in H1 as (m & H1 & [-> _]).
  unfold add_to_ready_queue. autorewrite with sched_run. rewrite Eh, H2. autorewrite with sched_run.
  exists (upd (upd t c (set_next None)) c (set_next (Some c))).
  split; [destruct s; cbn in *; by subst|]. rewrite !length_upd. split; [done|].
  rewrite !pcb_upd, !decide_True by (rewrite ?length_upd; done).
  split_and!; [|done..]. rewrite <- Eh. do 2 (apply qseg_upd; [by rewrite ?length_upd|by left|]). done.
Qed.

Lemma show_loops fuel t s q c k :
  qseg t (s_ready_queue s) q (Some c) → next (pcb t c) = Some c →
  show_scheduler_info fuel (st t s k) = Spin.
Proof.
  intros Hs Hc. unfold show_scheduler_info. do 3 print_step.
  set (k' := with_console _ _ _). change k' with (st t s k').
  rewrite bind_sched_st, bind_table_st. by rewrite (count_queue_loop fuel t _ q c 0 Hs Hc).
Qed.

Lemma filter_other (q1 q2 : list nat) i :
  i ∉ q1 ++ q2 → List.filter (λ j, bool_decide (j ≠ i)) (q1 ++ i :: q2) = q1 ++ q2.
Proof.
  intros Hi. rewrite List.filter_app. cbn. rewrite bool_decide_false by tauto.
  rewrite <- List.filter_app. apply List.forallb_filter_id, List.forallb_forall.
  intros j Hj%list_elem_of_In. apply bool_decide_eq_true. congruence.
Qed.

(** ** Properties *)

(** C6: The ready queue of [scheduler.c] refines a list: [add_to_ready_queue]
    appends a process that is in neither queue, [remove_from_ready_queue] deletes
    its argument wherever it is (and nothing when it is absent); both keep the
    tail pointer at the last process, the blocked queue, every process's fields
    but the links, and the rest of the kernel. *)
Theorem ready_queue_refines fuel k q b i :
  queues k q b → (i < length (ktable k))%nat → i ∉ b → (length q ≤ fuel)%nat →
  (i ∉ q → ∃ k', add_to_ready_queue (Some i) k = Done tt k' ∧ queues k' (q ++ [i]) b ∧
     only_sched k k' ∧ same_but_next (ktable k) (ktable k')) ∧
  ∃ k', remove_from_ready_queue fuel (Some i) k = Done tt k' ∧
    queues k' (List.filter (λ j, bool_decide (j ≠ i)) q) b ∧
    only_sched k k' ∧ same_but_next (ktable k) (ktable k').
Proof.
  intros Hwf Hlt Hb Hf. pose proof (st_self k) as Ek. fold (ktable k) in Ek. split.
  - intros Hq. destruct (add_run (ktable k) (k_sched k) q b i k Hwf) as (t' & s' & E & Hwf' & Hs & _);
      [set_solver|done|].
    rewrite <- Ek in E. exists (st t' s' k). by split_and!.
  - destruct (decide (i ∈ q)) as [Hi|Hi].
    + apply list_elem_of_split in Hi as (q1 & q2 & ->).
      destruct (remove_run fuel (ktable k) (k_sched k) q1 i q2 b k Hwf) as (t' & s' & E & Hwf' & _ & _ & Hs & _).
      { rewrite length_app in Hf. lia. }
      rewrite <- Ek in E. exists (st t' s' k). rewrite filter_other; [by split_and!|].
      pose proof (sw_nodup _ _ _ _ Hwf) as Hnd. apply list.NoDup_app in Hnd as [Hnd _].
      apply list.NoDup_app in Hnd as (_ & H1 & H2). apply list.NoDup_cons in H2 as [H2 _].
      rewrite elem_of_app. intros [Hi|Hi]; [|done]. apply (H1 i Hi). set_solver.
    + destruct (remove_absent fuel (ktable k) (k_sched k) q b i k Hwf) as (t' & E & Hwf' & Hs);
        [set_solver|done|done|].
      rewrite <- Ek in E. exists (st t' (k_sched k) k). rewrite List.forallb_filter_id; [by split_and!|].
      apply List.forallb_forall. intros j Hj%list_elem_of_In. apply bool_decide_eq_true. by intros ->.
Qed.

(** C22: [schedule], for a current process [c]: while an ordinary process has time
    left it only loses one unit of it.  Otherwise [c] gets a fresh slice of 100,
    the head of the ready queue is taken out (nothing when the queue is empty or
    its head is [init_process], which is then the choice), and [c] goes to the
    end of the queue exactly when it is an ordinary process still marked
    RUNNING; control passes to the chosen process unless it is [c] itself.  No
    process is ever marked RUNNING, so a process chosen from the queue, where all
    are READY, is dropped when its own slice ends. *)
Theorem schedule_picks `{SchedEnv} fuel k q b c (t := ktable k) :
  queues k q b → current_process (k_proc k) = Some c → (c < length t)%nat →
  (requeued t c = true → c ∉ q ++ b) →
  if is_user (Some c) && (0 <? time_slice (pcb t c)) then
    ∃ k', schedule fuel k = Done tt k' ∧ queues k' q b ∧ only_sched k k' ∧
      ∀ j, pcb (ktable k') j =
        if decide (c = j) then set_time_slice (u32 (time_slice (pcb t c) - 1)) (pcb t c) else pcb t j
  else
    ∃ k', schedule fuel k =
        (when bool_decide (next_choice q ≠ Some c) then switch_process (next_choice q)) k' ∧
      queues k' (after_choice q ++ if requeued t c then [c] else []) b ∧ only_sched k k' ∧
      ∀ j, set_next None (pcb (ktable k') j) =
        set_next None (if decide (j = c) then preempted t c else pcb t j).
Proof.
  intros Hwf Hc Hlt Hrq. pose proof (st_self k) as Ek. fold (ktable k) in Ek. fold t in Ek.
  destruct (pick_next_run fuel t (k_sched k) q b c k Hwf Hlt Hrq) as (t' & s' & E & Hwf' & _ & Hp).
  pose proof (schedule_pick fuel t (k_sched k) k c Hc) as Epick. rewrite E, <- Ek in Epick.
  destruct (is_user (Some c)) eqn:Hu; [destruct (Z.ltb_spec 0 (time_slice (pcb t c))) as [Hl|Hl]|]; cbn [andb].
  - pose proof (schedule_slice fuel t (k_sched k) k c Hc Hu Hl) as Es. rewrite <- Ek in Es.
    eexists. split; [exact Es|]. split; [apply sched_wf_upd; [done|done|by right]|]. split; [done|].
    intros j. exact (pcb_upd t c (λ p, set_time_slice (u32 (time_slice p - 1)) p) j Hlt).
  - exists (st t' s' k). split; [apply Epick; by right|]. by split_and!.
  - exists (st t' s' k). split; [apply Epick; by left|]. by split_and!.
Qed.

(** C23: The tick handler wakes exactly the processes that are due: every process
    of the blocked queue that is BLOCKED with a wake-up time at or before the new
    tick count becomes READY and goes to the end of the ready queue, in the order
    of the blocked queue; the others stay blocked, in their order; then it
    schedules. *)
Theorem timer_tick_wakes `{SchedEnv} fuel k q b (t := ktable k)
    (tick := u32 (s_tick_count (k_sched k) + 1)) :
  (∀ k, ∃ k', update_ticks k = Done tt k' ∧ k_proc k' = k_proc k ∧ k_sched k' = k_sched k) →
  queues k q b → (length b ≤ fuel)%nat →
  ∃ k', timer_tick_handler fuel k = schedule fuel k' ∧
    queues k' (q ++ List.filter (due t tick) b) (List.filter (λ i, negb (due t tick i)) b) ∧
    woken (List.filter (due t tick) b) t (ktable k') ∧ s_tick_count (k_sched k') = tick.
Proof.
  intros Hu Hwf Hf. unfold timer_tick_handler, upd_sched. rewrite bind_modify.
  set (k1 := set_sched _ _). destruct (Hu k1) as (k2 & E2 & Hp2 & Hs2).
  rewrite (bind_done _ _ _ _ _ E2), bind_gets.
  assert (Hwf2 : sched_wf t (k_sched k2) q b) by (rewrite Hs2; by destruct Hwf).
  rewrite (head_queue_blocked _ _ _ _ Hwf2).
  replace (s_tick_count (k_sched k2)) with tick by (by rewrite Hs2).
  destruct (wake_loop_run fuel tick k2 b [] t (k_sched k2) q Hwf2 Hf) as (t' & s' & E & Hwf' & Hw & Htk).
  assert (Ek2 : k2 = st t (k_sched k2) k2)
    by (etransitivity; [apply st_self|]; by rewrite Hp2).
  cbn [list.last] in E. rewrite <- Ek2 in E.
  rewrite (bind_done _ _ _ _ _ E). exists (st t' s' k2). split; [done|].
  split; [exact Hwf'|]. split; [exact Hw|].
  change (s_tick_count s' = tick). by rewrite Htk, Hs2.
Qed.

(** [yield] does not give up the processor while time is left: it queues the
    caller, which goes on running, and a second [yield] queues it again.  The
    process is then linked to itself, and every walk over the queue, as in
    [show_scheduler_info], goes on forever. *)
Theorem yield_twice_corrupts `{SchedEnv} fuel k q b c :
  queues k q b → current_process (k_proc k) = Some c → is_user (Some c) = true →
  (c < length (ktable k))%nat → c ∉ q ++ b → 1 < time_slice (pcb (ktable k) c) < 4294967296 →
  ∃ k1, yield fuel k = Done tt k1 ∧ queues k1 (q ++ [c]) b ∧
    current_process (k_proc k1) = Some c ∧
    ∃ k2, yield fuel k1 = Done tt k2 ∧ ∀ n, show_scheduler_info n k2 = Spin.
Proof.
  intros Hwf Hc Hu Hlt Hn Hts. pose proof (st_self k) as Ek. fold (ktable k) in Ek.
  destruct (yield_slice fuel (ktable k) (k_sched k) k c q b) as (t1 & s1 & E1 & Hwf1 & Hl1 & _ & Hts1);
    try done; [lia|].
  rewrite <- Ek in E1. exists (st t1 s1 k). do 3 (split; [done|]).
  rewrite u32_small in Hts1 by lia. unfold yield. rewrite bind_current_st, Hc, Hu, bind_assoc, bind_put_st.
  assert (Hwf2 : sched_wf (upd t1 c (set_state PROCESS_READY)) s1 (q ++ [c]) b)
    by (apply sched_wf_upd; [done|lia|by right]).
  destruct (add_again _ _ _ _ _ k Hwf2) as (t3 & E3 & Hl3 & Hs3 & Hn3 & Hts3).
  rewrite (bind_done _ _ _ _ _ E3). rewrite length_upd in Hl3.
  rewrite pcb_upd, decide_True in Hts3 by (done || lia). cbn [time_slice set_state] in Hts3.
  rewrite (schedule_slice fuel t3 s1 k c) by (done || lia). eexists. split; [done|]. intros n.
  apply (show_loops n _ _ q c).
  - apply qseg_upd; [lia|by right|done].
  - by rewrite pcb_upd, decide_True by (done || lia).
Qed.

(** *** Witnesses: process 1 runs, 2 and 3 are ready, 4 sleeps until tick 7 *)

Definition env0 : SchedEnv := {|
  init_process := Some 0%nat; switch_process _ := ret tt; update_ticks := ret tt |}.

Definition sched_demo (slice : Z) : kernel :=
  set_sched (mk_sched (Some 2%nat) (Some 3%nat) (Some 4%nat) 6)
    (set_proc (mk_proc [pcb_zero;
       set_time_slice slice (demo_pcb 1 PROCESS_RUNNING None);
       demo_pcb 2 PROCESS_READY (Some 3%nat);
       demo_pcb 3 PROCESS_READY None;
       demo_pcb 4 PROCESS_BLOCKED None] (Some 1%nat) 5 None) kernel_bss).

Lemma sched_demo_queues slice : queues (sched_demo slice) [2%nat; 3%nat] [4%nat].
Proof.
  split; [done|done|done| |].
  - refine (bool_decide_unpack _ _). reflexivity.
  - repeat constructor.
Qed.

Lemma ready_queue_refines_witness :
  ∃ k', remove_from_ready_queue 2 (Some 2%nat) (sched_demo 0) = Done tt k' ∧
    queues k' [3%nat] [4%nat].
Proof.
  destruct (ready_queue_refines 2 (sched_demo 0) _ _ 2 (sched_demo_queues 0)) as [_ (k' & E & Hq & _)];
    [cbn; lia|set_solver|cbn; lia|]. exists k'. split; [exact E|exact Hq].
Defined.

Lemma schedule_picks_witness :
  ∃ k', @schedule env0 2 (sched_demo 0) = Done tt k' ∧ queues k' [3%nat; 1%nat] [4%nat].
Proof.
  destruct (@schedule_picks env0 2 (sched_demo 0) _ _ 1 (sched_demo_queues 0)) as (k' & E & Hq & _);
    [reflexivity|cbn; lia|set_solver|]. exists k'. split; [exact E|exact Hq].
Defined.

Lemma timer_tick_wakes_witness :
  ∃ k', @timer_tick_handler env0 1 (sched_demo 9) = @schedule env0 1 k' ∧
    queues k' [2%nat; 3%nat; 4%nat] [].
Proof.
  destruct (@timer_tick_wakes env0 1 (sched_demo 9) [2%nat; 3%nat] [4%nat]) as (k' & E & Hq & _);
    [intros k; by exists k|apply sched_demo_queues|cbn; lia|]. exists k'. split; [exact E|exact Hq].
Defined.

Lemma yield_twice_corrupts_witness :
  ∃ k1 k2, @yield env0 2 (sched_demo 50) = Done tt k1 ∧ @yield env0 2 k1 = Done tt k2 ∧
    show_scheduler_info 100 k2 = Spin.
Proof.
  destruct (@yield_twice_corrupts env0 2 (sched_demo 50) _ _ 1 (sched_demo_queues 50))
    as (k1 & E1 & _ & _ & k2 & E2 & H); [reflexivity|reflexivity|cbn; lia|set_solver|cbn; lia|].
  exists k1, k2. split; [exact E1|]. split; [exact E2|apply H].
Defined.
