(* ===== verification/Asm.v ===== *)
(** * The assembly stubs (kernel/isr.h, kernel/isr.asm, kernel/switch.asm)

    The entry stubs of the interrupts and the context switch, instruction by
    instruction, on the registers of the processor and the kernel state.  [isr.h]
    holds the same assembly source as [isr.asm].  The stack is in memory; the
    process table is the one of [process.c], at an address the linker chooses
    ([TableAt]), and a pointer into it is translated to a slot.  What a call of a C
    function leaves in the registers it need not preserve is the class [CallAbi].
    The kernel never sets up a task-state segment, so interrupts arrive at the
    privilege level they return to. *)

From S2P Require Import Prelude Memory Types Machine Screen Interrupts Process.
Import InterruptH ProcessH.

(** ** The processor *)

Inductive reg := EAX | ECX | EDX | EBX | ESP | EBP | ESI | EDI.
Inductive sreg := DS | ES | FS | GS.

Record cpu := mk_cpu {
  c_eax : Z; c_ecx : Z; c_edx : Z; c_ebx : Z; c_esp : Z; c_ebp : Z; c_esi : Z; c_edi : Z;
  c_eip : Z; c_eflags : Z; c_cr3 : Z;
  c_cs : Z; c_ds : Z; c_es : Z; c_fs : Z; c_gs : Z }.

Definition get_reg (r : reg) (c : cpu) : Z :=
  match r with
  | EAX => c_eax c | ECX => c_ecx c | EDX => c_edx c | EBX => c_ebx c
  | ESP => c_esp c | EBP => c_ebp c | ESI => c_esi c | EDI => c_edi c
  end.

Definition set_reg (r : reg) (v : Z) (c : cpu) : cpu :=
  let '(mk_cpu a cx d b sp bp si di ip fl cr3 cs ds es fs gs) := c in
  match r with
  | EAX => mk_cpu v cx d b sp bp si di ip fl cr3 cs ds es fs gs
  | ECX => mk_cpu a v d b sp bp si di ip fl cr3 cs ds es fs gs
  | EDX => mk_cpu a cx v b sp bp si di ip fl cr3 cs ds es fs gs
  | EBX => mk_cpu a cx d v sp bp si di ip fl cr3 cs ds es fs gs
  | ESP => mk_cpu a cx d b v bp si di ip fl cr3 cs ds es fs gs
  | EBP => mk_cpu a cx d b sp v si di ip fl cr3 cs ds es fs gs
  | ESI => mk_cpu a cx d b sp bp v di ip fl cr3 cs ds es fs gs
  | EDI => mk_cpu a cx d b sp bp si v ip fl cr3 cs ds es fs gs
  end.

Definition set_sreg (s : sreg) (v : Z) (c : cpu) : cpu :=
  let '(mk_cpu a cx d b sp bp si di ip fl cr3 cs ds es fs gs) := c in
  match s with
  | DS => mk_cpu a cx d b sp bp si di ip fl cr3 cs v es fs gs
  | ES => mk_cpu a cx d b sp bp si di ip fl cr3 cs ds v fs gs
  | FS => mk_cpu a cx d b sp bp si di ip fl cr3 cs ds es v gs
  | GS => mk_cpu a cx d b sp bp si di ip fl cr3 cs ds es fs v
  end.

Definition set_eip (v : Z) (c : cpu) : cpu :=
  let '(mk_cpu a cx d b sp bp si di _ fl cr3 cs ds es fs gs) := c in
  mk_cpu a cx d b sp bp si di v fl cr3 cs ds es fs gs.
Definition set_flags (v : Z) (c : cpu) : cpu :=
  let '(mk_cpu a cx d b sp bp si di ip _ cr3 cs ds es fs gs) := c in
  mk_cpu a cx d b sp bp si di ip v cr3 cs ds es fs gs.
Definition set_cr3 (v : Z) (c : cpu) : cpu :=
  let '(mk_cpu a cx d b sp bp si di ip fl _ cs ds es fs gs) := c in
  mk_cpu a cx d b sp bp si di ip fl v cs ds es fs gs.
Definition set_cs (v : Z) (c : cpu) : cpu :=
  let '(mk_cpu a cx d b sp bp si di ip fl cr3 _ ds es fs gs) := c in
  mk_cpu a cx d b sp bp si di ip fl cr3 v ds es fs gs.

(** ** Instructions *)

Definition instr : Type := cpu → K cpu.

Fixpoint run (l : list instr) : instr :=
  match l with
  | [] => ret
  | i :: l => λ c, let* c := i c in run l c
  end.

Definition push_val (v : Z) : instr := λ c,
  let a := u32 (c_esp c - 4) in
  store32 a v ;;; ret (set_reg ESP a c).
Definition push (r : reg) : instr := λ c, push_val (get_reg r c) c.

Definition pop_to (f : Z → cpu → cpu) : instr := λ c,
  let* v := load32 (c_esp c) in
  ret (f v (set_reg ESP (u32 (c_esp c + 4)) c)).
Definition pop (r : reg) : instr := pop_to (set_reg r).

Definition add_esp (n : Z) : instr := λ c, ret (set_reg ESP (u32 (c_esp c + n)) c).

(** [pusha] pushes the ESP it began with; [popa] drops that word. *)
Definition pusha : instr := λ c,
  run [push EAX; push ECX; push EDX; push EBX; push_val (c_esp c); push EBP; push ESI; push EDI] c.
Definition popa : instr :=
  run [pop EDI; pop ESI; pop EBP; add_esp 4; pop EBX; pop EDX; pop ECX; pop EAX].

(** Moves through AX keep the upper half of EAX. *)
Definition mov_ax (v : cpu → Z) : instr := λ c,
  ret (set_reg EAX (c_eax c / 65536 * 65536 + u16 (v c)) c).
Definition mov_sreg (s : sreg) : instr := λ c, ret (set_sreg s (u16 (c_eax c)) c).

(** [pushfd] pushes the flags without VM and RF. *)
Definition pushfd : instr := λ c, push_val (Z.land (c_eflags c) 0xFCFFFF) c.
Definition popfd : instr := pop_to set_flags.
Definition ret_near : instr := pop_to set_eip.
Definition iret : instr :=
  run [pop_to set_eip; pop_to (λ v, set_cs (u16 v)); pop_to set_flags].

(** The bits of [mask] come from [x], the others from [fl]. *)
Definition with_bits (mask x fl : Z) : Z := Z.lor (Z.land fl (Z.lnot mask)) (Z.land x mask).

(** The arithmetic flags, which a C function may change. *)
Definition STATUS : Z := 0x8D5.

(** The flags of [test eax, eax]: CF and OF cleared, SF, ZF and PF from the value; AF,
    which it leaves undefined, is kept. *)
Definition test_bits (v : Z) : Z :=
  (if v =? 0 then 0x40 else 0) + (if Z.testbit v 31 then 0x80 else 0) +
  (if foldr (λ i b, xorb (Z.testbit v i) b) true [0; 1; 2; 3; 4; 5; 6; 7] then 4 else 0).
Definition test_eax : instr := λ c,
  ret (set_flags (with_bits 0x8C5 (test_bits (c_eax c)) (c_eflags c)) c).

(** ** Calls of C functions

    A C function keeps EBX, ESI, EDI, EBP, ESP and the control flags and may leave
    anything in EAX, ECX, EDX and the arithmetic flags. *)

Class CallAbi := {
  link : Z;
  left_eax : kernel → Z;
  left_ecx : kernel → Z;
  left_edx : kernel → Z;
  left_status : kernel → Z }.

Section Code.
Context `{CallAbi}.

(** [f] gets the word above the return address as its argument. *)
Definition call_c (f : Z → K unit) : instr := λ c,
  let* c1 := push_val link c in
  let* arg := load32 (c_esp c1 + 4) in
  f arg ;;;
  let* k := gets (λ k, k) in
  ret (set_flags (with_bits STATUS (left_status k) (c_eflags c))
    (set_reg EAX (left_eax k) (set_reg ECX (left_ecx k) (set_reg EDX (left_edx k) c)))).

(** ** isr.h *)

(** The macros, lines 4-25, up to their jumps. *)
Definition ISR_NOERR (n : Z) : list instr := [push_val 0; push_val n].
Definition ISR_ERR (n : Z) : list instr := [push_val n].
Definition IRQ (n : Z) : list instr := [push_val 0; push_val n].

(** Lines 30-54; [isr_handler] is called with nothing pushed for its parameter. *)
Definition common_isr (isr_handler : Z → K unit) : list instr :=
  [pusha; mov_ax c_ds; push EAX; mov_ax (λ _, 0x10);
   mov_sreg DS; mov_sreg ES; mov_sreg FS; mov_sreg GS;
   call_c isr_handler;
   pop EAX; mov_sreg DS; mov_sreg ES; mov_sreg FS; mov_sreg GS;
   popa; add_esp 8; iret].

(** Lines 56-77. *)
Definition common_irq (irq_handler : Z → K unit) : list instr :=
  [pusha; mov_ax c_ds; push EAX; mov_ax (λ _, 0x10);
   mov_sreg DS; mov_sreg ES; mov_sreg FS; mov_sreg GS;
   call_c irq_handler;
   pop EAX; mov_sreg DS; mov_sreg ES; mov_sreg FS; mov_sreg GS;
   popa; add_esp 8; iret].

(** [isr0] to [isr31], lines 80-111. *)
Definition isr_err (n : Z) : bool := bool_decide (n ∈ [8; 10; 11; 12; 13; 14]).
Definition isr_stub (isr_handler : Z → K unit) (n : Z) : list instr :=
  (if isr_err n then ISR_ERR n else ISR_NOERR n) ++ common_isr isr_handler.

(** [irq0] to [irq15], lines 114-129. *)
Definition irq_stub (irq_handler : Z → K unit) (i : Z) : list instr :=
  IRQ (32 + i) ++ common_irq irq_handler.

(** ** The processor's part of an interrupt

    Through an interrupt gate: the flags, CS and EIP, and an error code for the
    exceptions that have one, are pushed, and interrupts are masked. *)

Definition error_code (n : Z) : bool := bool_decide (n ∈ [8; 10; 11; 12; 13; 14; 17]).

Definition accept (n err : Z) : list instr :=
  [λ c, push_val (c_eflags c) c; λ c, push_val (c_cs c) c; λ c, push_val (c_eip c) c] ++
  (if error_code n then [push_val err] else []) ++
  [λ c, ret (set_cs 8 (set_flags (with_bits 0x34300 0 (c_eflags c)) c))].

Definition exception (isr_handler : Z → K unit) (n err : Z) : instr :=
  run (accept n err ++ isr_stub isr_handler n).
Definition irq (irq_handler : Z → K unit) (i : Z) : instr :=
  run (accept (32 + i) 0 ++ irq_stub irq_handler i).

(** A C handler on the [registers_t] its argument points to.  A handler assigns
    [regs->eax] only. *)
Definition frame_at (m : mem) (a : Z) : registers_t :=
  mk_regs (ld32 m a) (ld32 m (a + 4)) (ld32 m (a + 8)) (ld32 m (a + 12)) (ld32 m (a + 16))
    (ld32 m (a + 20)) (ld32 m (a + 24)) (ld32 m (a + 28)) (ld32 m (a + 32)) (ld32 m (a + 36))
    (ld32 m (a + 40)) (ld32 m (a + 44)) (ld32 m (a + 48)) (ld32 m (a + 52)).

Definition on_frame (handler : registers_t → K registers_t) (a : Z) : K unit :=
  let* m := gets k_mem in
  let* regs := handler (frame_at m a) in
  store32 (a + 32) (r_eax regs).

End Code.

(** ** The macros of system.h that work on the flags

    [CLI] and [STI], and [spin_lock] and [spin_unlock] on a [spinlock_t] at [lock], whose
    one field keeps the flags; [pushf] and [popf] are the 32-bit instructions. *)

Definition CLI : instr := λ c, ret (set_flags (with_bits 0x200 0 (c_eflags c)) c).
Definition STI : instr := λ c, ret (set_flags (with_bits 0x200 0x200 (c_eflags c)) c).

Definition spin_lock (lock : Z) : instr := λ c,
  let* c := pushfd c in
  let* flags := load32 (c_esp c) in
  let* c := CLI (set_reg ESP (u32 (c_esp c + 4)) c) in
  store32 lock flags ;;;
  ret c.

Definition spin_unlock (lock : Z) : instr := λ c,
  let* flags := load32 lock in
  let* c := push_val flags c in
  popfd c.

(** ** switch.asm *)

(** The address of [process_table], and the size of a [pcb_t] by process.h. *)
Class TableAt := { table_at : Z }.
Definition sizeof_pcb : Z := 212.

Section Switch.
Context `{CallAbi, TableAt}.

Definition pcb_ptr (p : option nat) : Z :=
  match p with None => NULL | Some i => table_at + sizeof_pcb * Z.of_nat i end.

(** The slot an address is the beginning of. *)
Definition slot_of (a : Z) : option nat :=
  let d := a - table_at in
  if (0 <=? d) && (d mod sizeof_pcb =? 0) && (d / sizeof_pcb <? MAX_PROCESSES)
  then Some (Z.to_nat (d / sizeof_pcb)) else None.

(** The operands [eax+0], [eax+4] and [eax+8]: the first three fields of a [pcb_t]. *)
Definition set_kernel_esp (v : Z) (p : pcb_t) : pcb_t :=
  mk_pcb v (eflags p) (page_dir_phys p) (pid p) (name p) (state p) (eax p) (ebx p) (ecx p)
    (edx p) (esi p) (edi p) (ebp p) (esp p) (eip p) (cs p) (ds p) (es p) (fs p) (gs p) (ss p)
    (page_dir p) (brk p) (fd p) (parent p) (children p) (sibling p) (next p) (time_slice p)
    (sleep_until p) (exit_code p) (priority p) (wakeup_time p).
Definition set_eflags (v : Z) (p : pcb_t) : pcb_t :=
  mk_pcb (kernel_esp p) v (page_dir_phys p) (pid p) (name p) (state p) (eax p) (ebx p) (ecx p)
    (edx p) (esi p) (edi p) (ebp p) (esp p) (eip p) (cs p) (ds p) (es p) (fs p) (gs p) (ss p)
    (page_dir p) (brk p) (fd p) (parent p) (children p) (sibling p) (next p) (time_slice p)
    (sleep_until p) (exit_code p) (priority p) (wakeup_time p).
Definition set_page_dir_phys (v : Z) (p : pcb_t) : pcb_t :=
  mk_pcb (kernel_esp p) (eflags p) v (pid p) (name p) (state p) (eax p) (ebx p) (ecx p)
    (edx p) (esi p) (edi p) (ebp p) (esp p) (eip p) (cs p) (ds p) (es p) (fs p) (gs p) (ss p)
    (page_dir p) (brk p) (fd p) (parent p) (children p) (sibling p) (next p) (time_slice p)
    (sleep_until p) (exit_code p) (priority p) (wakeup_time p).

Definition put_field (f : Z → pcb_t → pcb_t) (a v : Z) : K unit :=
  match slot_of a with Some i => upd_proc (upd_pcb i (f v)) | None => fault end.
Definition get_field (f : pcb_t → Z) (a : Z) : K Z :=
  match slot_of a with Some i => gets (λ k, f (pcb (process_table (k_proc k)) i)) | None => fault end.

(** [call get_current_process] *)
Definition call_get_current : instr := λ c,
  let* c1 := push_val link c in
  let* p := get_current_process in
  let* k := gets (λ k, k) in
  ret (set_flags (with_bits STATUS (left_status k) (c_eflags c))
    (set_reg EAX (pcb_ptr p) (set_reg ECX (left_ecx k) (set_reg EDX (left_edx k) c)))).

(** Lines 16-32: the registers on the stack, the rest in the PCB at EAX. *)
Definition save_context : list instr :=
  [push EBX; push ECX; push EDX; push ESI; push EDI; push EBP;
   λ c, put_field set_kernel_esp (c_eax c) (c_esp c) ;;; ret c;
   pushfd;
   λ c, let* v := load32 (c_esp c) in
        put_field set_eflags (c_eax c) v ;;;
        ret (set_reg ESP (u32 (c_esp c + 4)) c);
   λ c, ret (set_reg EDX (c_cr3 c) c);
   λ c, put_field set_page_dir_phys (c_eax c) (c_edx c) ;;; ret c].

(** Lines 41-61: the context of the PCB at EAX. *)
Definition restore_context : list instr :=
  [λ c, let* v := get_field page_dir_phys (c_eax c) in ret (set_reg EDX v c);
   λ c, ret (set_cr3 (c_edx c) c);
   λ c, let* v := get_field kernel_esp (c_eax c) in ret (set_reg ESP v c);
   pop EBP; pop EDI; pop ESI; pop EDX; pop ECX; pop EBX;
   λ c, let* v := get_field eflags (c_eax c) in push_val v c;
   popfd;
   ret_near].

(** Lines 37-39 and 63-66; at [.halt] interrupts are off and the processor stops. *)
Definition load_new : instr := λ c,
  let* next := load32 (c_esp c + 28) in
  let* c := test_eax (set_reg EAX next c) in
  if c_eax c =? NULL then spin else run restore_context c.

(** A process resumes where its saved stack returns to; for the caller the function
    does not return before it is switched to again. *)
Definition switch_process : instr := λ c,
  let* c := call_get_current c in
  let* c := test_eax c in
  if c_eax c =? NULL then load_new c
  else let* c := run save_context c in load_new c.

End Switch.

(** ** Stacks *)

(** The memory after the words [l] were pushed, with ESP at [a] before. *)
Fixpoint pushed (m : mem) (a : Z) (l : list Z) : mem :=
  match l with [] => m | v :: l => pushed (st32 m (a - 4) v) (a - 4) l end.

Lemma pushed_out l : ∀ m a x,
  in_space (a - 4 * Z.of_nat (length l)) (4 * Z.of_nat (length l)) → in_space x 1 →
  x < a - 4 * Z.of_nat (length l) ∨ a ≤ x → ld8 (pushed m a l) x = ld8 m x.
Proof.
  induction l as [|v l IH]; intros m a x Ha Hx Hout; cbn [pushed length] in *; [done|].
  rewrite IH; [|unfold in_space in *; lia..]. apply ld8_st32_ne; unfold in_space in *; lia.
Qed.

Lemma pushed_word l : ∀ m a i v,
  l !! i = Some v → in_space (a - 4 * Z.of_nat (length l)) (4 * Z.of_nat (length l)) →
  ld32 (pushed m a l) (a - 4 * (Z.of_nat i + 1)) = u32 v.
Proof.
  induction l as [|w l IH]; intros m a i v Hi Ha; [done|]. pose proof (lookup_lt_Some _ _ _ Hi) as Hlt.
  cbn [pushed length] in *. destruct i as [|i].
  - injection Hi as ->. rewrite (ld32_ext _ (st32 m (a - 4) v)); [apply ld32_st32_eq; mem_side|].
    intros x Hx. apply pushed_out; unfold in_space in *; lia.
  - cbn in Hi. rewrite <- (IH (st32 m (a - 4) w) (a - 4) i v Hi) by (unfold in_space in *; lia). f_equal. lia.
Qed.

Lemma pushed_ld32_out l m a x :
  in_space (a - 4 * Z.of_nat (length l)) (4 * Z.of_nat (length l)) → in_space x 4 →
  x + 4 ≤ a - 4 * Z.of_nat (length l) ∨ a ≤ x → ld32 (pushed m a l) x = ld32 m x.
Proof.
  intros Ha Hx Hout. apply ld32_ext. intros y Hy. apply pushed_out; [done|mem_side..].
Qed.

(** ** Steps of the instructions *)

Lemma set_mem_id k : set_mem (k_mem k) k = k.
Proof. by destruct k. Qed.

Lemma run_push_val v l c m k :
  0 ≤ c_esp c - 4 → c_esp c < 4294967296 →
  (let* c := push_val v c in run l c) (set_mem m k) =
  run l (set_reg ESP (c_esp c - 4) c) (set_mem (st32 m (c_esp c - 4) v) k).
Proof. intros. unfold push_val, store32. rewrite u32_small by lia. done. Qed.

Lemma run_push r l c m k :
  0 ≤ c_esp c - 4 → c_esp c < 4294967296 →
  run (push r :: l) c (set_mem m k) =
  run l (set_reg ESP (c_esp c - 4) c) (set_mem (st32 m (c_esp c - 4) (get_reg r c)) k).
Proof. apply run_push_val. Qed.

Lemma run_pop_to f l c m k :
  0 ≤ c_esp c → c_esp c + 4 < 4294967296 →
  run (pop_to f :: l) c (set_mem m k) =
  run l (f (ld32 m (c_esp c)) (set_reg ESP (c_esp c + 4) c)) (set_mem m k).
Proof. intros. cbn [run]. unfold pop_to, load32. rewrite u32_small by lia. done. Qed.

Lemma run_cons (i : instr) l c k : run (i :: l) c k = (let* c := i c in run l c) k.
Proof. done. Qed.

Lemma run_app l1 l2 c k : run (l1 ++ l2) c k = (let* c := run l1 c in run l2 c) k.
Proof.
  revert c k. induction l1 as [|i l1 IH]; intros c k; cbn [app]; [done|].
  change (run (i :: l1) c) with (bind (i c) (run l1)). rewrite run_cons, bind_assoc. unfold bind. destruct (i c k) as [c' k'| |]; [|done..]. apply IH.
Qed.

Lemma run_push_val_cons v l c m k :
  0 ≤ c_esp c - 4 → c_esp c < 4294967296 →
  run (push_val v :: l) c (set_mem m k) =
  run l (set_reg ESP (c_esp c - 4) c) (set_mem (st32 m (c_esp c - 4) v) k).
Proof. apply run_push_val. Qed.

Lemma run_ret f l c k : run ((λ c, ret (f c)) :: l) c k = run l (f c) k.
Proof. done. Qed.

#[local] Arguments run : simpl never.

(** ** Flags *)

(** The flags that calls preserve and [pushfd] saves: all but the arithmetic ones. *)
Definition control (fl : Z) : Z := Z.land fl 0xFCF72A.

Lemma control_with_bits mask x fl : Z.land mask 0xFCF72A = 0 → control (with_bits mask x fl) = control fl.
Proof.
  intros E. unfold control, with_bits. apply Z.bits_inj'. intros n Hn.
  rewrite !Z.land_spec, Z.lor_spec, !Z.land_spec, Z.lnot_spec by done.
  pose proof (f_equal (λ z, Z.testbit z n) E) as En. cbv beta in En. rewrite Z.land_spec, Z.bits_0 in En.
  destruct (Z.testbit mask n), (Z.testbit 0xFCF72A n), (Z.testbit fl n), (Z.testbit x n); cbn in *; congruence.
Qed.

Lemma control_land fl m : Z.land m 0xFCF72A = 0xFCF72A → control (Z.land fl m) = control fl.
Proof. intros E. unfold control. by rewrite <- Z.land_assoc, E. Qed.

Lemma control_u32 fl : control (u32 fl) = control fl.
Proof. unfold u32. change 4294967296 with (2 ^ 32). rewrite <- Z.land_ones by lia. by apply control_land. Qed.

Lemma cli_if fl : Z.testbit (with_bits 0x200 0 fl) 9 = false.
Proof.
  unfold with_bits. rewrite Z.lor_spec, !Z.land_spec, Z.lnot_spec by lia.
  change (Z.testbit 512 9) with true. by rewrite andb_false_r.
Qed.

(** [spin_lock] turns interrupts off and saves the flags, and [spin_unlock] on the
    same lock restores the control flags, so locks nest.  They do not exclude other
    processors: nothing is compared or awaited. *)
Theorem spin_lock_unlock lock c k (sp := c_esp c) :
  4 ≤ sp < 4294967296 → in_space lock 4 → lock + 4 ≤ sp - 4 ∨ sp ≤ lock →
  ∃ c1 k1, spin_lock lock c k = Done c1 k1 ∧ Z.testbit (c_eflags c1) 9 = false ∧ c_esp c1 = sp ∧
    ∀ c2 k2, ld32 (k_mem k2) lock = ld32 (k_mem k1) lock → 4 ≤ c_esp c2 < 4294967296 →
      lock + 4 ≤ c_esp c2 - 4 ∨ c_esp c2 ≤ lock →
      ∃ c3 k3, spin_unlock lock c2 k2 = Done c3 k3 ∧ control (c_eflags c3) = control (c_eflags c) ∧
        c_esp c3 = c_esp c2.
Proof.
  intros Hs Hl Hap. subst sp. destruct c as [a cx d b sp bp si di ip fl dir cs ds es fs gs]. cbn in Hs, Hap.
  do 2 eexists. split; [reflexivity|]. split; [exact (cli_if fl)|].
  assert (E : u32 (u32 (sp - 4) + 4) = sp) by (rewrite (u32_small (sp - 4)) by lia; rewrite u32_small; lia).
  split; [exact E|]. intros c2 k2 Hlock Hs2 Hap2.
  destruct c2 as [a2 cx2 d2 b2 sp2 bp2 si2 di2 ip2 fl2 dir2 cs2 ds2 es2 fs2 gs2]. cbn in Hs2, Hap2.
  do 2 eexists. split; [reflexivity|]. cbn -[Z.land u32 with_bits control] in Hlock |- *.
  rewrite Hlock. rewrite !(u32_small (_ - 4)) by lia. rewrite !ld32_st32_eq by mem_side.
  split; [|rewrite u32_small; lia]. rewrite !control_u32. by apply control_land.
Qed.

Section SwitchRun.
Context `{CallAbi, TableAt}.

Definition table_ok (k : kernel) : Prop :=
  0 < table_at ∧ table_at + 64 * sizeof_pcb ≤ 4294967296 ∧ length (process_table (k_proc k)) = 64%nat.

Lemma slot_of_ptr i : (i < 64)%nat → slot_of (pcb_ptr (Some i)) = Some i.
Proof.
  intros Hi. unfold slot_of, pcb_ptr, sizeof_pcb, MAX_PROCESSES.
  replace (table_at + 212 * Z.of_nat i - table_at) with (Z.of_nat i * 212) by lia.
  rewrite Z.mod_mul, Z.div_mul by lia.
  rewrite (proj2 (Z.leb_le 0 _)), (proj2 (Z.ltb_lt (Z.of_nat i) 64)) by lia. cbn. by rewrite Nat2Z.id.
Qed.

Lemma ptr_range k i : table_ok k → (i < 64)%nat → 0 < pcb_ptr (Some i) < 4294967296.
Proof. intros (? & ? & _) ?. cbn. unfold sizeof_pcb in *. lia. Qed.

Lemma put_field_run f a v i k :
  slot_of a = Some i → put_field f a v k = Done tt (set_proc (upd_pcb i (f v) (k_proc k)) k).
Proof. intros E. unfold put_field. by rewrite E. Qed.

Lemma get_field_run f a i k :
  slot_of a = Some i → get_field f a k = Done (f (pcb (process_table (k_proc k)) i)) k.
Proof. intros E. unfold get_field. by rewrite E. Qed.

Lemma run_put f (g : cpu → Z) i l c k :
  slot_of (c_eax c) = Some i →
  run ((λ c, put_field f (c_eax c) (g c) ;;; ret c) :: l) c k =
  run l c (set_proc (upd_pcb i (f (g c)) (k_proc k)) k).
Proof.
  intros E. rewrite run_cons. cbv beta. rewrite bind_assoc.
  by rewrite (bind_done _ _ _ _ _ (put_field_run f _ _ i k E)).
Qed.

Lemma run_get f (g : Z → cpu → cpu) i l c k :
  slot_of (c_eax c) = Some i →
  run ((λ c, let* v := get_field f (c_eax c) in ret (g v c)) :: l) c k =
  run l (g (f (pcb (process_table (k_proc k)) i)) c) k.
Proof.
  intros E. rewrite run_cons. cbv beta. rewrite bind_assoc.
  by rewrite (bind_done _ _ _ _ _ (get_field_run f _ i k E)).
Qed.

(** The three fields that [save_context] writes. *)
Definition set_context (sp fl dir : Z) (p : pcb_t) : pcb_t :=
  set_page_dir_phys dir (set_eflags fl (set_kernel_esp sp p)).

Lemma save_context_run i c m k :
  slot_of (c_eax c) = Some i → (i < length (process_table (k_proc k)))%nat →
  28 ≤ c_esp c < 4294967296 →
  run save_context c (set_mem m k) =
  Done (set_reg EDX (c_cr3 c) (set_reg ESP (c_esp c - 24) c))
    (set_mem (pushed m (c_esp c) [c_ebx c; c_ecx c; c_edx c; c_esi c; c_edi c; c_ebp c; Z.land (c_eflags c) 0xFCFFFF])
      (set_proc (upd_pcb i (set_context (c_esp c - 24) (u32 (Z.land (c_eflags c) 0xFCFFFF)) (c_cr3 c)) (k_proc k)) k)).
Proof.
  intros Hs Hi He. destruct c as [a cx d b sp bp si di ip fl dir cs ds es fs gs]. cbn in Hs, He |- *.
  unfold save_context. do 6 (rewrite run_push by (cbn; lia); cbn).
  rewrite (run_put _ c_esp i) by done. cbn.
  change (set_proc ?p (set_mem ?m k)) with (set_mem m (set_proc p k)).
  rewrite run_cons. unfold pushfd. rewrite run_push_val by (cbn; lia). cbn.
  rewrite run_cons. cbv beta. unfold load32. rewrite bind_assoc, bind_gets, bind_assoc.
  rewrite (bind_done _ _ _ _ _ (put_field_run set_eflags _ _ i _ Hs)). rewrite bind_ret. cbn.
  rewrite run_ret. cbn. rewrite (run_put _ c_edx i) by done. cbn.
  rewrite ld32_st32_eq by mem_side. rewrite !upd_pcb_twice by (cbn; rewrite ?length_insert; lia).
  replace (sp - 4 - 4 - 4 - 4 - 4 - 4) with (sp - 24) by lia. replace (sp - 24 - 4 + 4) with (sp - 24) by lia.
  by rewrite u32_small by lia.
Qed.

(** The processor with the context of [p], whose frame is in [m]. *)
Definition resumed (m : mem) (p : pcb_t) (c : cpu) : cpu :=
  let w i := ld32 m (kernel_esp p + 4 * i) in
  mk_cpu (c_eax c) (w 4) (w 3) (w 5) (kernel_esp p + 28) (w 0) (w 2) (w 1) (w 6)
    (u32 (eflags p)) (page_dir_phys p) (c_cs c) (c_ds c) (c_es c) (c_fs c) (c_gs c).

Lemma restore_context_run j c m k (p := pcb (process_table (k_proc k)) j) :
  slot_of (c_eax c) = Some j → 0 ≤ kernel_esp p < 4294967296 - 28 →
  run restore_context c (set_mem m k) =
  Done (resumed m p c) (set_mem (st32 m (kernel_esp p + 20) (eflags p)) k).
Proof.
  intros Hs He. destruct c as [a cx d b sp bp si di ip fl dir cs ds es fs gs]. cbn in Hs |- *.
  unfold restore_context. rewrite (run_get _ (set_reg EDX) j) by done. cbn. rewrite run_ret. cbn.
  rewrite (run_get _ (set_reg ESP) j) by done. cbn. fold p. set (sp' := kernel_esp p) in *.
  unfold pop. do 6 (rewrite run_pop_to by (cbn; lia); cbn).
  rewrite run_cons. cbv beta. rewrite bind_assoc, (bind_done _ _ _ _ _ (get_field_run _ _ j _ Hs)). cbn. fold p.
  change (set_mem ?m1 (set_mem m k)) with (set_mem m1 k). rewrite u32_small by lia. unfold popfd, ret_near.
  do 2 (rewrite run_pop_to by (cbn; lia); cbn).
  replace (sp' + 4 + 4 + 4 + 4 + 4 + 4 - 4) with (sp' + 20) by lia.
  rewrite ld32_st32_eq, ld32_st32_ne by mem_side.
  unfold resumed. fold sp'.
  change (run []) with (λ c : cpu, ret c). cbv beta. unfold ret. f_equal.
  f_equal; lia || (f_equal; lia).
Qed.

Lemma load_new_run j c k (p := pcb (process_table (k_proc k)) j) :
  table_ok k → (j < 64)%nat → ld32 (k_mem k) (c_esp c + 28) = pcb_ptr (Some j) →
  0 ≤ kernel_esp p < 4294967296 - 28 →
  load_new c k =
  Done (resumed (k_mem k) p (set_reg EAX (pcb_ptr (Some j)) c))
    (set_mem (st32 (k_mem k) (kernel_esp p + 20) (eflags p)) k).
Proof.
  intros Hk Hj Harg Hp. pose proof (ptr_range k j Hk Hj). unfold load_new, load32, test_eax.
  rewrite bind_gets, Harg, bind_ret.
  destruct c as [a cx d b sp bp si di ip fl dir cs ds es fs gs]. cbn -[pcb_ptr].
  rewrite (proj2 (Z.eqb_neq _ _)) by (unfold NULL; lia).
  rewrite <- (set_mem_id k) at 1. by rewrite (restore_context_run j) by (try apply slot_of_ptr; done).
Qed.

(** ** Calling the switch *)

(** A caller of [switch_process]: words in the registers, and room on its stack. *)
Record caller (c : cpu) : Prop := {
  ca_words r : 0 ≤ get_reg r c < 4294967296;
  ca_stack : 28 ≤ c_esp c ∧ c_esp c + 8 ≤ 4294967296 }.

(** The argument of the call: the word above the return address. *)
Definition switch_arg (c : cpu) (k : kernel) : Z := ld32 (k_mem k) (c_esp c + 4).

(** What [save_context] leaves of the caller [c], which had memory [m]. *)
Record saves (c : cpu) (m m' : mem) (fl : Z) : Prop := {
  sv_out x : in_space x 1 → x < c_esp c - 28 ∨ c_esp c ≤ x → ld8 m' x = ld8 m x;
  sv_ebx : ld32 m' (c_esp c - 4) = c_ebx c;
  sv_esi : ld32 m' (c_esp c - 16) = c_esi c;
  sv_edi : ld32 m' (c_esp c - 20) = c_edi c;
  sv_ebp : ld32 m' (c_esp c - 24) = c_ebp c;
  sv_flags : control fl = control (c_eflags c) }.

Lemma sv_word c m m' fl x :
  caller c → saves c m m' fl → in_space x 4 → x + 4 ≤ c_esp c - 28 ∨ c_esp c ≤ x → ld32 m' x = ld32 m x.
Proof. intros Hc Hs Hx Ho. apply ld32_ext. intros y Hy. apply (sv_out _ _ _ _ Hs); mem_side. Qed.

Lemma pushed_saves c m cx dx fl (sp := c_esp c)
    (m' := pushed (st32 m (sp - 4) link) sp [c_ebx c; cx; dx; c_esi c; c_edi c; c_ebp c; fl]) :
  caller c → control fl = control (c_eflags c) → saves c m m' (u32 fl).
Proof.
  intros [Hw [Hs1 Hs2]] Hf. pose proof (Hw ESP) as Hesp. cbn [get_reg] in Hesp. subst sp m'. set (sp := c_esp c) in *.
  set (l := [c_ebx c; cx; dx; c_esi c; c_edi c; c_ebp c; fl]).
  assert (Hl : in_space (sp - 4 * Z.of_nat (length l)) (4 * Z.of_nat (length l))) by (cbn; mem_side).
  assert (Hword : ∀ i v, l !! i = Some v → 0 ≤ v < 4294967296 →
    ld32 (pushed (st32 m (sp - 4) link) sp l) (sp - 4 * (Z.of_nat i + 1)) = v).
  { intros i v Hi Hv. rewrite (pushed_word _ _ _ _ _ Hi Hl). by apply u32_small. }
  split.
  - intros x Hx Ho. rewrite pushed_out by (try done; cbn; lia). apply ld8_st32_ne; mem_side.
  - exact (Hword 0%nat _ eq_refl (Hw EBX)).
  - exact (Hword 3%nat _ eq_refl (Hw ESI)).
  - exact (Hword 4%nat _ eq_refl (Hw EDI)).
  - exact (Hword 5%nat _ eq_refl (Hw EBP)).
  - by rewrite control_u32.
Qed.

(** The state after [call get_current_process] and [test eax, eax]. *)
Definition called (c : cpu) (k : kernel) : cpu :=
  let p := pcb_ptr (current_process (k_proc k)) in
  set_reg EAX p (set_reg ECX (left_ecx k) (set_reg EDX (left_edx k)
    (set_flags (with_bits 0x8C5 (test_bits p) (with_bits STATUS (left_status k) (c_eflags c))) c))).

Lemma call_test_run {A} (f : cpu → K A) c k (k1 := set_mem (st32 (k_mem k) (c_esp c - 4) link) k) :
  4 ≤ c_esp c < 4294967296 →
  (let* c := call_get_current c in let* c := test_eax c in f c) k = f (called c k1) k1.
Proof.
  intros Hs. unfold call_get_current. rewrite bind_assoc.
  unfold push_val, store32. rewrite !bind_assoc, bind_modify, bind_ret. unfold get_current_process.
  rewrite bind_assoc, bind_gets, bind_assoc, bind_gets, bind_ret. rewrite u32_small by lia.
  unfold test_eax. rewrite bind_ret. by destruct c.
Qed.

Lemma switch_run c k i j :
  table_ok k → (i < 64)%nat → (j < 64)%nat → caller c →
  current_process (k_proc k) = Some i → switch_arg c k = pcb_ptr (Some j) →
  ∃ m fl c0, saves c (k_mem k) m fl ∧
    let s := upd_pcb i (set_context (c_esp c - 24) fl (c_cr3 c)) (k_proc k) in
    let p := pcb (process_table s) j in
    (0 ≤ kernel_esp p < 4294967296 - 28 →
    switch_process c k = Done (resumed m p c0) (set_mem (st32 m (kernel_esp p + 20) (eflags p)) (set_proc s k))).
Proof.
  intros Hk Hi Hj Hc Hcur Harg. pose proof (ca_stack _ Hc) as Hs. pose proof (ca_words _ Hc ESP) as He. cbn in He.
  set (k1 := set_mem (st32 (k_mem k) (c_esp c - 4) link) k). set (fl := c_eflags (called c k1)).
  set (m := pushed (k_mem k1) (c_esp c) [c_ebx c; left_ecx k1; left_edx k1; c_esi c; c_edi c; c_ebp c; Z.land fl 0xFCFFFF]).
  eexists m, (u32 (Z.land fl 0xFCFFFF)), (set_reg EAX (pcb_ptr (Some j)) _).
  assert (Hsv : saves c (k_mem k) m (u32 (Z.land fl 0xFCFFFF))).
  { apply pushed_saves; [done|]. rewrite control_land by done. subst fl. destruct c. cbn -[control with_bits].
    by rewrite !control_with_bits by done. }
  split; [done|]. intros s p Hp. pose proof (ptr_range k i Hk Hi) as Hpi.
  unfold switch_process. rewrite call_test_run by lia. fold k1.
  assert (E : c_eax (called c k1) = pcb_ptr (Some i)).
  { destruct c. cbn -[pcb_ptr with_bits]. by rewrite Hcur. }
  rewrite E, (proj2 (Z.eqb_neq _ _)) by (unfold NULL; lia).
  assert (Esave : run save_context (called c k1) k1 =
    Done (set_reg EDX (c_cr3 c) (set_reg ESP (c_esp c - 24) (called c k1))) (set_mem m (set_proc s k))).
  { pose proof (save_context_run i (called c k1) (k_mem k1) k) as R. rewrite E in R.
    assert (Esp : c_esp (called c k1) = c_esp c) by (by destruct c). rewrite Esp in R.
    etransitivity; [apply R; [by apply slot_of_ptr|destruct Hk as (_ & _ & ->); lia|lia]|].
    subst m s fl k1. by destruct c. }
  rewrite (bind_done _ _ _ _ _ Esave).
  assert (Esp : c_esp (set_reg EDX (c_cr3 c) (set_reg ESP (c_esp c - 24) (called c k1))) = c_esp c - 24)
    by (by destruct c).
  rewrite (load_new_run j); rewrite ?Esp; [done| |done| |done].
  - destruct Hk as (? & ? & Hlen). split_and!; [done..|]. cbn. by rewrite length_insert.
  - cbn [k_mem set_mem]. replace (c_esp c - 24 + 28) with (c_esp c + 4) by lia.
    rewrite (sv_word _ _ _ _ _ Hc Hsv) by mem_side. apply Harg.
Qed.

(** ** Theorems *)

(** [switch_process] returned, in the processor state [c'], to the caller [c]: with the
    registers a C function keeps, the page directory and the control flags. *)
Record returned (c : cpu) (k : kernel) (c' : cpu) : Prop := {
  rt_eip : c_eip c' = ld32 (k_mem k) (c_esp c);
  rt_esp : c_esp c' = c_esp c + 4;
  rt_ebx : c_ebx c' = c_ebx c;
  rt_esi : c_esi c' = c_esi c;
  rt_edi : c_edi c' = c_edi c;
  rt_ebp : c_ebp c' = c_ebp c;
  rt_cr3 : c_cr3 c' = c_cr3 c;
  rt_flags : control (c_eflags c') = control (c_eflags c) }.

(** A process resumed with the PCB and the frame that its switch saved. *)
Lemma resumed_returned c k m m' fl p c' :
  caller c → saves c (k_mem k) m fl → (∀ a, c_esp c - 24 ≤ a < c_esp c + 4 → ld8 m' a = ld8 m a) →
  kernel_esp p = c_esp c - 24 → eflags p = fl → page_dir_phys p = c_cr3 c →
  returned c k (resumed m' p c').
Proof.
  intros Hc Hs Hm Hsp Hfl Hdir. pose proof (ca_stack _ Hc).
  assert (Hw : ∀ x, c_esp c - 24 ≤ x → x + 4 ≤ c_esp c + 4 → ld32 m' x = ld32 m x).
  { intros x ??. apply ld32_ext. intros y Hy. apply Hm. lia. }
  split; unfold resumed; cbn [c_eip c_esp c_ebx c_esi c_edi c_ebp c_cr3 c_eflags]; rewrite ?Hsp, ?Hdir, ?Hfl; try done.
  - rewrite Hw by lia. rewrite (sv_word _ _ _ _ _ Hc Hs) by mem_side. f_equal. lia.
  - lia.
  - rewrite Hw by lia. rewrite <- (sv_ebx _ _ _ _ Hs). f_equal. lia.
  - rewrite Hw by lia. rewrite <- (sv_esi _ _ _ _ Hs). f_equal. lia.
  - rewrite Hw by lia. rewrite <- (sv_edi _ _ _ _ Hs). f_equal. lia.
  - rewrite Hw by lia. rewrite <- (sv_ebp _ _ _ _ Hs). f_equal. lia.
  - rewrite control_u32. apply (sv_flags _ _ _ _ Hs).
Qed.

(** The fields of a PCB that the switch uses. *)
Definition context (p : pcb_t) : Z * Z * Z := (kernel_esp p, eflags p, page_dir_phys p).

Lemma upd_context i f s j :
  (∀ p, context (f p) = context p) →
  context (pcb (process_table (upd_pcb i f s)) j) = context (pcb (process_table s) j).
Proof.
  intros Hf. cbn [upd_pcb upd_table process_table]. destruct (decide (i < length (process_table s))%nat) as [Hi|Hi].
  - rewrite pcb_insert by done. destruct (decide (i = j)) as [->|]; [apply Hf|done].
  - by rewrite list_insert_ge by lia.
Qed.

Lemma enqueue_context fuel i k k' :
  enqueue_process fuel i k = Done tt k' →
  k_mem k' = k_mem k ∧ ∀ j, context (pcb (process_table (k_proc k')) j) = context (pcb (process_table (k_proc k)) j).
Proof.
  unfold enqueue_process, upd_proc. rewrite bind_modify, bind_gets. cbn [k_proc set_proc].
  destruct (ready_queue _) as [q|]; [destruct (queue_last _ _ _) as [t|]|]; [| done|];
    intros [= <-]; (split; [done|]); intros j; cbn [k_proc set_proc set_ready_queue process_table];
    rewrite ?upd_context; done.
Qed.

(** A process that [create_process] made has an all-zero context. *)
Lemma create_context fuel nm e st k j k1 :
  length (process_table (k_proc k)) = 64%nat → create_process fuel nm e st k = Done (Some j) k1 →
  (j < 64)%nat ∧ context (pcb (process_table (k_proc k1)) j) = (0, 0, 0).
Proof.
  intros Hlen E. destruct (find_slot 64 0 (process_table (k_proc k))) as [i|] eqn:Hi.
  2: { unfold create_process, create_process_empty in E. rewrite bind_assoc, bind_gets, Hi in E. discriminate E. }
  pose proof (find_slot_some _ _ _ _ Hi) as [Hlt _].
  destruct (decide (Z.of_nat (length nm) < 32)) as [Hn|Hn].
  2: { unfold create_process, create_process_empty, upd_proc in E. rewrite bind_assoc, bind_gets, Hi in E.
    rewrite bind_assoc, bind_modify, bind_assoc, bind_modify, bind_ret in E. unfold strcpy_name in E.
    rewrite (proj2 (Z.leb_le MAX_PROCESS_NAME _)) in E by (unfold MAX_PROCESS_NAME; lia). discriminate E. }
  rewrite (create_run _ _ _ _ _ i Hi Hlen Hn) in E. cbv zeta in E.
  apply bind_done_inv in E as ([] & k2 & E & [= <- <-]). apply enqueue_context in E as [_ E].
  split; [lia|]. rewrite E. cbn [k_proc set_proc set_next_pid process_table].
  change (process_table (mk_proc ?t _ _ _)) with t. rewrite upd_pcb_pcb by lia. by rewrite decide_True.
Qed.

Lemma table_ok_upd k i f : table_ok k → table_ok (set_proc (upd_pcb i f (k_proc k)) k).
Proof. intros (? & ? & Hlen). split_and!; [done..|]. cbn. by rewrite length_insert. Qed.

Lemma set_context_pcb k i j sp fl dir (s := upd_pcb i (set_context sp fl dir) (k_proc k)) :
  table_ok k → (i < 64)%nat →
  context (pcb (process_table s) j) = if decide (i = j) then (sp, fl, dir) else context (pcb (process_table (k_proc k)) j).
Proof.
  intros (_ & _ & Hlen) Hi. subst s. rewrite upd_pcb_pcb by lia. by destruct (decide (i = j)).
Qed.

(** The frame of the caller [c] is apart from the words that a switch pushes below
    [a], [n] bytes. *)
Definition apart (c : cpu) (a n : Z) : Prop := a ≤ c_esp c - 24 ∨ c_esp c + 4 ≤ a - n.

(** Between two states nobody wrote the frame of [c] or the context of slot [i]. *)
Definition keeps_context (c : cpu) (i : nat) (k k' : kernel) : Prop :=
  (∀ a, c_esp c - 24 ≤ a < c_esp c + 4 → ld8 (k_mem k') a = ld8 (k_mem k) a) ∧
  context (pcb (process_table (k_proc k')) i) = context (pcb (process_table (k_proc k)) i).

(** C8: A process [i] that switches to another one, [j], is resumed where it was: [j]
    continues at the return address of its frame; and when later, with the processor in
    whatever state, any other current process switches back to [i], the call returns
    to [i], with its registers, its stack, its page directory and its interrupt flag.
    What ran in between must have kept the frame and the context of [i]. *)
Theorem switch_roundtrip c k i j (p := pcb (process_table (k_proc k)) j) :
  table_ok k → (i < 64)%nat → (j < 64)%nat → i ≠ j → caller c →
  current_process (k_proc k) = Some i → switch_arg c k = pcb_ptr (Some j) →
  0 ≤ kernel_esp p < 4294967296 - 28 → apart c (kernel_esp p + 24) 4 →
  ∃ c1 k1, switch_process c k = Done c1 k1 ∧
    c_eip c1 = ld32 (k_mem k1) (kernel_esp p + 24) ∧ c_esp c1 = kernel_esp p + 28 ∧
    ∀ c2 k2 n, table_ok k2 → (n < 64)%nat → n ≠ i → caller c2 →
      current_process (k_proc k2) = Some n → switch_arg c2 k2 = pcb_ptr (Some i) →
      keeps_context c i k1 k2 → apart c (c_esp c2) 28 →
      ∃ c3 k3, switch_process c2 k2 = Done c3 k3 ∧ returned c k c3.
Proof.
  intros Hk Hi Hj Hij Hc Hcur Harg Hp Hap. pose proof (ca_stack _ Hc) as Hs.
  destruct (switch_run c k i j Hk Hi Hj Hc Hcur Harg) as (m & fl & c0 & Hsv & E). cbv zeta in E.
  rewrite (upd_pcb_pcb i _ _ j) in E by (destruct Hk as (_ & _ & ->); lia). rewrite decide_False in E by done.
  fold p in E. specialize (E Hp). do 2 eexists. split; [exact E|]. cbn [k_mem set_mem]. split.
  { cbn. rewrite ld32_st32_ne by mem_side. f_equal. }
  split; [done|]. intros c2 k2 n Hk2 Hn Hni Hc2 Hcur2 Harg2 [Hmem Hctx] Hap2.
  pose proof (ca_stack _ Hc2) as Hs2.
  destruct (switch_run c2 k2 n i Hk2 Hn Hi Hc2 Hcur2 Harg2) as (m2 & fl2 & c02 & Hsv2 & E2). cbv zeta in E2.
  rewrite (upd_pcb_pcb n _ _ i) in E2 by (destruct Hk2 as (_ & _ & ->); lia). rewrite decide_False in E2 by done.
  cbn [k_proc set_mem set_proc k_mem] in Hmem, Hctx. rewrite set_context_pcb, decide_True in Hctx by done.
  injection Hctx as Hsp Hfl Hdir. do 2 eexists. split; [apply E2; lia|].
  apply (resumed_returned c k m _ fl); [done..| |done|done|done].
  intros a Ha. unfold apart in *. rewrite (sv_out _ _ _ _ Hsv2) by (unfold in_space; lia).
  rewrite Hmem by done. apply ld8_st32_ne; mem_side.
Qed.

(** [switch_process] never moves [current_process].  While it still names the
    process [i] that switched away, every later switch to [i], whoever calls it,
    returns to that caller at once, and the context of [i] is replaced by the
    caller's stack. *)
Theorem switch_current_unmoved c k i j (p := pcb (process_table (k_proc k)) j) :
  table_ok k → (i < 64)%nat → (j < 64)%nat → i ≠ j → caller c →
  current_process (k_proc k) = Some i → switch_arg c k = pcb_ptr (Some j) →
  0 ≤ kernel_esp p < 4294967296 - 28 →
  ∃ c1 k1, switch_process c k = Done c1 k1 ∧ current_process (k_proc k1) = Some i ∧
    ∀ c2 k2, table_ok k2 → caller c2 →
      current_process (k_proc k2) = current_process (k_proc k1) → switch_arg c2 k2 = pcb_ptr (Some i) →
      c_esp c2 < 4294967296 - 4 →
      ∃ c3 k3, switch_process c2 k2 = Done c3 k3 ∧ returned c2 k2 c3 ∧
        kernel_esp (pcb (process_table (k_proc k3)) i) = c_esp c2 - 24.
Proof.
  intros Hk Hi Hj Hij Hc Hcur Harg Hp.
  destruct (switch_run c k i j Hk Hi Hj Hc Hcur Harg) as (m & fl & c0 & Hsv & E). cbv zeta in E.
  rewrite (upd_pcb_pcb i _ _ j) in E by (destruct Hk as (_ & _ & ->); lia). rewrite decide_False in E by done.
  do 2 eexists. split; [exact (E Hp)|]. split; [done|]. intros c2 k2 Hk2 Hc2 Hcur2 Harg2 Htop.
  cbn in Hcur2. rewrite Hcur in Hcur2. pose proof (ca_stack _ Hc2) as Hs2.
  destruct (switch_run c2 k2 i i Hk2 Hi Hi Hc2 Hcur2 Harg2) as (m2 & fl2 & c02 & Hsv2 & E2). cbv zeta in E2.
  rewrite (upd_pcb_pcb i _ _ i) in E2 by (destruct Hk2 as (_ & _ & ->); lia). rewrite decide_True in E2 by done.
  do 2 eexists. split; [apply E2; cbn; lia|]. split.
  - by apply (resumed_returned c2 k2 m2 _ fl2).
  - cbn [k_proc set_mem set_proc]. rewrite upd_pcb_pcb by (destruct Hk2 as (_ & _ & ->); lia).
    by rewrite decide_True.
Qed.

(** C26: The first switch to a process that [create_process] made does not run it.  Its
    context is all zero: the processor gets page directory 0 and a stack at address 0,
    and continues at whatever the word at address 24 holds; the entry point and the
    stack given to [create_process] are not used. *)
Theorem first_switch_wild fuel nm entry stack k k1 c n j :
  create_process fuel nm entry stack k = Done (Some j) k1 →
  length (process_table (k_proc k)) = 64%nat → table_ok k1 → caller c → 56 ≤ c_esp c →
  (n < 64)%nat → n ≠ j → current_process (k_proc k1) = Some n → switch_arg c k1 = pcb_ptr (Some j) →
  ∃ c' k', switch_process c k1 = Done c' k' ∧
    c_cr3 c' = 0 ∧ c_esp c' = 28 ∧ c_eip c' = ld32 (k_mem k1) 24.
Proof.
  intros Hcr Hlen Hk1 Hc Hs Hn Hnj Hcur Harg. destruct (create_context _ _ _ _ _ _ _ Hlen Hcr) as [Hj Hctx].
  destruct (switch_run c k1 n j Hk1 Hn Hj Hc Hcur Harg) as (m & fl & c0 & Hsv & E). cbv zeta in E.
  rewrite (upd_pcb_pcb n _ _ j) in E by (destruct Hk1 as (_ & _ & ->); lia). rewrite decide_False in E by done.
  injection Hctx as Hsp Hfl Hdir. do 2 eexists. split; [apply E; lia|].
  unfold resumed. cbn [c_cr3 c_esp c_eip]. rewrite Hsp, Hdir. do 2 (split; [done|]).
  rewrite (sv_word _ _ _ _ _ Hc Hsv) by mem_side. done.
Qed.

(** Without a current process nothing is pushed, and the argument is looked for at the
    place it would have after six pushes: the argument itself is not read. *)
Theorem switch_without_current c k :
  caller c → current_process (k_proc k) = None → c_esp c + 32 ≤ 4294967296 →
  ld32 (k_mem k) (c_esp c + 28) = NULL → switch_process c k = Spin.
Proof.
  intros Hc Hcur Htop Hw. pose proof (ca_stack _ Hc). pose proof (ca_words _ Hc ESP) as He. cbn in He.
  unfold switch_process. rewrite call_test_run by lia. set (k1 := set_mem _ _).
  assert (E : c_eax (called c k1) = NULL ∧ c_esp (called c k1) = c_esp c).
  { destruct c. cbn -[with_bits]. by rewrite Hcur. }
  destruct E as [-> Esp]. change (NULL =? NULL) with true. cbv iota.
  unfold load_new, load32. rewrite bind_gets, Esp. cbn [k_mem set_mem k1].
  rewrite ld32_st32_ne, Hw by mem_side. unfold test_eax. rewrite bind_ret. by destruct c.
Qed.

End SwitchRun.

Section Interrupts.
Context `{CallAbi}.

Lemma pushed_app m a l1 l2 :
  pushed m a (l1 ++ l2) = pushed (pushed m a l1) (a - 4 * Z.of_nat (length l1)) l2.
Proof.
  revert m a. induction l1 as [|v l1 IH]; intros m a; cbn [app pushed length]; [f_equal; lia|].
  rewrite IH. f_equal. lia.
Qed.

(** The word that the stubs push for DS: its upper half is that of EAX. *)
Definition ds_word (c : cpu) : Z := c_eax c / 65536 * 65536 + u16 (c_ds c).

(** The words that [common_isr] pushes, with the return address of its call. *)
Definition isr_words (c : cpu) : list Z :=
  [c_eax c; c_ecx c; c_edx c; c_ebx c; c_esp c; c_ebp c; c_esi c; c_edi c; ds_word c; link].

(** The second half of [common_isr], after the call. *)
Definition isr_leave : list instr :=
  [pop EAX; mov_sreg DS; mov_sreg ES; mov_sreg FS; mov_sreg GS; popa; add_esp 8; iret].

Lemma common_isr_run h c m k :
  40 ≤ c_esp c < 4294967296 → 0 ≤ c_eax c < 4294967296 →
  ∃ f : kernel → cpu, (∀ k2, c_esp (f k2) = c_esp c - 36 ∧ c_cr3 (f k2) = c_cr3 c) ∧
    run (common_isr h) c (set_mem m k) =
      (let* _ := h (ds_word c) in λ k2, run isr_leave (f k2) k2) (set_mem (pushed m (c_esp c) (isr_words c)) k).
Proof.
  intros Hs Ha. assert (Hdw : 0 ≤ ds_word c < 4294967296).
  { unfold ds_word. pose proof (u16_range (c_ds c)). pose proof (Z.div_mod (c_eax c) 65536).
    pose proof (Z.mod_pos_bound (c_eax c) 65536). assert (c_eax c / 65536 < 65536) by (apply Z.div_lt_upper_bound; lia).
    assert (0 ≤ c_eax c / 65536) by (apply Z.div_pos; lia). lia. }
  destruct c as [a cx d b sp bp si di ip fl dir cs ds es fs gs]. unfold ds_word in *. cbn -[pushed Z.div] in *.
  eexists. split.
  2: { unfold common_isr. rewrite run_cons. unfold pusha. rewrite <- run_app. cbn [app c_esp].
  do 4 (rewrite run_push by (cbn; lia); cbn -[Z.div]). rewrite run_push_val_cons by (cbn; lia). cbn -[Z.div].
  do 3 (rewrite run_push by (cbn; lia); cbn -[Z.div]).
  unfold mov_ax at 1. rewrite run_ret. cbn -[Z.div]. rewrite run_push by (cbn; lia). cbn -[Z.div].
  unfold mov_ax at 1. rewrite run_ret. unfold mov_sreg at 1 2 3 4. rewrite !run_ret.
  set (w := a / 65536 * 65536 + u16 ds) in *.
  match goal with |- context [set_sreg GS ?v ?c] => set (c1 := set_sreg GS v c) end.
  assert (Esp : c_esp c1 = sp - 36) by (cbn; lia).
  rewrite run_cons. unfold call_c. rewrite bind_assoc. unfold push_val at 1, store32. rewrite bind_assoc, bind_modify, bind_ret.
  rewrite Esp, u32_small by lia.
  change (set_mem ?m1 (set_mem ?m2 k)) with (set_mem m1 k). cbn [k_mem set_mem].
  unfold load32. rewrite bind_assoc, bind_gets. cbn [k_mem set_mem].
  replace (c_esp (set_reg ESP (sp - 36 - 4) c1) + 4) with (sp - 36) by (cbn; lia).
  rewrite ld32_st32_ne by mem_side.
  replace (sp - 4 - 4 - 4 - 4 - 4 - 4 - 4 - 4 - 4) with (sp - 36) by lia.
  rewrite ld32_st32_eq, u32_small by mem_side. rewrite bind_assoc.
  cbn [isr_words pushed c_eax c_ecx c_edx c_ebx c_esp c_ebp c_esi c_edi ds_word c_ds].
  replace (sp - 4 - 4 - 4 - 4 - 4 - 4 - 4 - 4 - 4) with (sp - 36) by lia. fold w.
  apply bind_ext. intros [] k2 _. rewrite bind_assoc, bind_gets, bind_ret. reflexivity. }
  intros k2. cbn. split; [lia|done].
Qed.

(** What [isr_leave] makes of the frame above the words of [common_isr]. *)
Definition left_isr (m : mem) (sp cr3 : Z) : cpu :=
  let r := frame_at m (sp - 36) in let seg := u16 (r_ds r) in
  mk_cpu (r_eax r) (r_ecx r) (r_edx r) (r_ebx r) (sp + 20) (r_ebp r) (r_esi r) (r_edi r)
    (r_eip r) (r_eflags r) cr3 (u16 (r_cs r)) seg seg seg seg.

Lemma isr_leave_run c sp k :
  c_esp c = sp - 36 → 36 ≤ sp → sp + 20 < 4294967296 →
  run isr_leave c k = Done (left_isr (k_mem k) sp (c_cr3 c)) k.
Proof.
  intros Hsp H1 H2. destruct c as [a cx d b sp' bp si di ip fl dir cs ds es fs gs]. cbn in Hsp. subst sp'.
  rewrite <- (set_mem_id k) at 1. set (m := k_mem k). unfold isr_leave, pop.
  rewrite run_pop_to by (cbn; lia). cbn. unfold mov_sreg at 1 2 3 4. rewrite !run_ret. cbn.
  rewrite run_cons. unfold popa, pop. rewrite <- run_app. cbn [app].
  do 3 (rewrite run_pop_to by (cbn; lia); cbn). unfold add_esp. rewrite run_ret. cbn. rewrite u32_small by lia.
  do 4 (rewrite run_pop_to by (cbn; lia); cbn). rewrite run_ret. cbn. rewrite u32_small by lia.
  rewrite run_cons. unfold iret. rewrite <- run_app. cbn [app].
  do 3 (rewrite run_pop_to by (cbn; lia); cbn). subst m. rewrite set_mem_id.
  unfold left_isr, frame_at. change (run []) with (λ c : cpu, ret c). cbv beta zeta. unfold ret. cbn. f_equal.
  f_equal; lia || (f_equal; lia) || (do 2 f_equal; lia).
Qed.

(** The words that the processor and the stub of vector [n] push. *)
Definition entry_words (n err : Z) (c : cpu) : list Z :=
  [c_eflags c; c_cs c; c_eip c] ++ (if error_code n then [err] else []) ++ (if isr_err n then [n] else [0; n]).

Definition entered (n err : Z) (c : cpu) : cpu :=
  set_reg ESP (c_esp c - 4 * Z.of_nat (length (entry_words n err c)))
    (set_cs 8 (set_flags (with_bits 0x34300 0 (c_eflags c)) c)).

Lemma entry_length n err c : (4 ≤ length (entry_words n err c) ≤ 6)%nat.
Proof. unfold entry_words. destruct (error_code n), (isr_err n); cbn; lia. Qed.

Lemma enter_run n err l c m k :
  24 ≤ c_esp c < 4294967296 →
  run (accept n err ++ (if isr_err n then ISR_ERR n else ISR_NOERR n) ++ l) c (set_mem m k) =
  run l (entered n err c) (set_mem (pushed m (c_esp c) (entry_words n err c)) k).
Proof.
  intros Hs. destruct c as [a cx d b sp bp si di ip fl dir cs ds es fs gs]. cbn in Hs.
  unfold accept. rewrite <- app_assoc. cbn [app].
  do 3 (rewrite run_cons; cbv beta; rewrite run_push_val by (cbn; lia); cbn [set_reg c_esp c_eflags c_cs c_eip]).
  unfold entered, entry_words, ISR_ERR, ISR_NOERR.
  destruct (error_code n), (isr_err n); cbn [app];
    repeat first [rewrite run_push_val_cons by (cbn; lia) | rewrite run_ret]; cbn;
    repeat first [rewrite run_push_val_cons by (cbn; lia)]; cbn;
    (match goal with |- run l (mk_cpu _ _ _ _ ?x _ _ _ _ _ _ _ _ _ _ _) _ = run l (mk_cpu _ _ _ _ ?y _ _ _ _ _ _ _ _ _ _ _) _ =>
       replace y with x by lia end); done.
Qed.

Lemma exception_call h n err c k (c1 := entered n err c) :
  64 ≤ c_esp c < 4294967296 - 4 → 0 ≤ c_eax c < 4294967296 →
  exception h n err c k =
    (let* _ := h (ds_word c) in λ k2, Done (left_isr (k_mem k2) (c_esp c1) (c_cr3 c)) k2)
      (set_mem (pushed (k_mem k) (c_esp c) (entry_words n err c ++ isr_words c1)) k).
Proof.
  intros Hs Ha. pose proof (entry_length n err c) as Hlen. set (ws := entry_words n err c) in *.
  assert (Esp : c_esp c1 = c_esp c - 4 * Z.of_nat (length ws)) by (by destruct c).
  unfold exception, isr_stub. rewrite <- (set_mem_id k) at 1. rewrite enter_run by lia. fold c1 ws.
  assert (Edw : ds_word c1 = ds_word c) by (by destruct c).
  rewrite pushed_app, <- Esp, <- Edw.
  destruct (common_isr_run h c1 (pushed (k_mem k) (c_esp c) ws) k) as (f & Hf & ->);
    [rewrite Esp; subst ws; lia|by destruct c|].
  apply bind_ext. intros [] k2 _. destruct (Hf k2) as [Esp2 Ecr].
  rewrite (isr_leave_run (f k2) (c_esp c1)) by (rewrite ?Esp; subst ws; lia). rewrite Ecr. by destruct c.
Qed.

Lemma exception_run h n err c k k2 (ws := entry_words n err c) (c1 := entered n err c) :
  64 ≤ c_esp c < 4294967296 - 4 → 0 ≤ c_eax c < 4294967296 →
  h (ds_word c) (set_mem (pushed (k_mem k) (c_esp c) (ws ++ isr_words c1)) k) = Done tt k2 →
  exception h n err c k = Done (left_isr (k_mem k2) (c_esp c1) (c_cr3 c)) k2.
Proof. intros Hs Ha Hh. rewrite exception_call by done. by rewrite (bind_done _ _ _ _ _ Hh). Qed.

(** The registers hold values of their widths. *)
Record words (c : cpu) : Prop := {
  wo_regs r : 0 ≤ get_reg r c < 4294967296;
  wo_eip : 0 ≤ c_eip c < 4294967296;
  wo_flags : 0 ≤ c_eflags c < 4294967296;
  wo_cs : 0 ≤ c_cs c < 65536;
  wo_ds : 0 ≤ c_ds c < 65536 }.

Lemma ds_word_range c : words c → 0 ≤ ds_word c < 4294967296 ∧ u16 (ds_word c) = c_ds c.
Proof.
  intros [Hr _ _ _ Hd]. specialize (Hr EAX). cbn in Hr. unfold ds_word. rewrite (u16_small (c_ds c)) by done.
  assert (0 ≤ c_eax c / 65536 < 65536) by (split; [apply Z.div_pos|apply Z.div_lt_upper_bound]; lia).
  split; [lia|]. unfold u16. rewrite Z.add_comm, Z.mod_add by lia. by apply Z.mod_small.
Qed.

(** A word of the frame of a vector, by its place on the stack. *)
Lemma frame_word m a l i v x :
  l !! i = Some v → 4 * Z.of_nat (length l) ≤ a < 4294967296 → x = a - 4 * (Z.of_nat i + 1) →
  0 ≤ v < 4294967296 → ld32 (pushed m a l) x = v.
Proof. intros Hi Ha -> Hv. rewrite (pushed_word _ _ _ _ _ Hi) by (unfold in_space; lia). by apply u32_small. Qed.

Lemma frame_at_ext m1 m2 a :
  (∀ x, a ≤ x < a + 56 → ld8 m1 x = ld8 m2 x) → frame_at m1 a = frame_at m2 a.
Proof. intros E. unfold frame_at. f_equal; apply ld32_ext; intros x Hx; apply E; lia. Qed.

Ltac word_at i := apply (frame_word _ _ _ i); [reflexivity|cbn; lia|cbn; lia|lia].

(** The memory when the C handler is called. *)
Definition entry_mem (n err : Z) (c : cpu) (k : kernel) : mem :=
  pushed (k_mem k) (c_esp c) (entry_words n err c ++ isr_words (entered n err c)).

Section Agreeing.
Variables (n err : Z) (c : cpu) (k : kernel).
Let frame := c_esp c - 56.
Let e := if error_code n then err else 0.
Hypotheses (Hc : words c) (Hs : 64 ≤ c_esp c < 4294967296 - 4).
Hypothesis Hagree : error_code n = isr_err n.

Lemma agreeing_words :
  entry_words n err c ++ isr_words (entered n err c) =
  [c_eflags c; c_cs c; c_eip c; e; n; c_eax c; c_ecx c; c_edx c; c_ebx c; c_esp c - 20;
   c_ebp c; c_esi c; c_edi c; ds_word c; link].
Proof.
  assert (Hws : entry_words n err c = [c_eflags c; c_cs c; c_eip c; e; n]).
  { unfold entry_words. rewrite <- Hagree. subst e. by destruct (error_code n). }
  unfold entered. rewrite Hws. by destruct c.
Qed.

Lemma entry_out x : in_space x 1 → x < frame - 4 ∨ c_esp c ≤ x → ld8 (entry_mem n err c k) x = ld8 (k_mem k) x.
Proof.
  intros Hx Ho. unfold entry_mem. rewrite agreeing_words.
  apply pushed_out; [unfold in_space; cbn; lia|done|cbn; subst frame; lia].
Qed.

Lemma entry_frame :
  0 ≤ n < 4294967296 → 0 ≤ err < 4294967296 →
  frame_at (entry_mem n err c k) frame = mk_regs (ds_word c) (c_edi c) (c_esi c) (c_ebp c) (c_esp c - 20)
    (c_ebx c) (c_edx c) (c_ecx c) (c_eax c) n e (c_eip c) (c_cs c) (c_eflags c).
Proof.
  intros Hn Herr. assert (He : 0 ≤ e < 4294967296) by (subst e; destruct (error_code n); lia).
  destruct (ds_word_range c Hc) as [Hdw _]. destruct Hc as [Hr Hip Hfl Hcs _].
  unfold entry_mem. rewrite agreeing_words. unfold frame_at. subst frame.
  pose proof (Hr EAX); pose proof (Hr ECX); pose proof (Hr EDX); pose proof (Hr EBX); pose proof (Hr ESP);
  pose proof (Hr EBP); pose proof (Hr ESI); pose proof (Hr EDI); cbn [get_reg] in *.
  f_equal; [word_at 13%nat|word_at 12%nat|word_at 11%nat|word_at 10%nat|word_at 9%nat|word_at 8%nat|word_at 7%nat
    |word_at 6%nat|word_at 5%nat|word_at 4%nat|word_at 3%nat|word_at 2%nat|word_at 1%nat|word_at 0%nat].
Qed.

Lemma exception_returns h k2 :
  0 ≤ n < 4294967296 → 0 ≤ err < 4294967296 →
  h (ds_word c) (set_mem (entry_mem n err c k) k) = Done tt k2 →
  (∀ a, frame ≤ a < c_esp c → ld8 (k_mem k2) a = ld8 (entry_mem n err c k) a) →
  exception h n err c k = Done (set_sreg ES (c_ds c) (set_sreg FS (c_ds c) (set_sreg GS (c_ds c) c))) k2.
Proof.
  intros Hn Herr Hh Hk2. rewrite (exception_run h n err c k k2); [|done|apply (wo_regs c Hc EAX)|done]. f_equal.
  assert (Hlen := f_equal length agreeing_words). rewrite length_app in Hlen. cbn [length isr_words] in Hlen.
  assert (Esp : c_esp (entered n err c) = c_esp c - 20).
  { transitivity (c_esp c - 4 * Z.of_nat (length (entry_words n err c))); [by destruct c|lia]. }
  unfold left_isr. rewrite Esp. replace (c_esp c - 20 - 36) with frame by (subst frame; lia).
  rewrite (frame_at_ext _ (entry_mem n err c k)) by (intros a Ha; apply Hk2; subst frame; lia).
  rewrite (entry_frame Hn Herr). cbn [r_ds r_edi r_esi r_ebp r_ebx r_edx r_ecx r_eax r_eip r_cs r_eflags].
  destruct (ds_word_range c Hc) as [_ ->]. rewrite u16_small by apply Hc.
  replace (c_esp c - 20 + 20) with (c_esp c) by lia. by destruct c.
Qed.

End Agreeing.

(** The stub of a line is that of an exception without an error code. *)
Lemma irq_exception h i : 0 ≤ i → irq h i = exception h (32 + i) 0.
Proof.
  intros Hi. unfold irq, exception, irq_stub, isr_stub, isr_err.
  rewrite bool_decide_eq_false_2; [done|]. rewrite !elem_of_cons, elem_of_nil. lia.
Qed.

(** C19: For every vector where stub and processor agree about the error code, the stub
    builds the frame that [registers_t] describes and afterwards restores the
    interrupted code: every general register, the stack, the place and the flags, and
    DS; ES, FS and GS get the value of DS.  The C handler, which must leave the frame
    alone, is called with the word pushed for DS as its [regs] argument, not with the
    address of the frame. *)
Theorem interrupt_transparent isr_handler n err c k (frame := c_esp c - 56) :
  words c → 64 ≤ c_esp c < 4294967296 - 4 → 0 ≤ n < 4294967296 → 0 ≤ err < 4294967296 →
  error_code n = isr_err n →
  ∃ m, (∀ x, in_space x 1 → x < frame - 4 ∨ c_esp c ≤ x → ld8 m x = ld8 (k_mem k) x) ∧
    frame_at m frame = mk_regs (ds_word c) (c_edi c) (c_esi c) (c_ebp c) (c_esp c - 20) (c_ebx c) (c_edx c)
      (c_ecx c) (c_eax c) n (if error_code n then err else 0) (c_eip c) (c_cs c) (c_eflags c) ∧
    ∀ k2, isr_handler (ds_word c) (set_mem m k) = Done tt k2 →
      (∀ a, frame ≤ a < c_esp c → ld8 (k_mem k2) a = ld8 m a) →
      exception isr_handler n err c k =
        Done (set_sreg ES (c_ds c) (set_sreg FS (c_ds c) (set_sreg GS (c_ds c) c))) k2.
Proof.
  intros Hc Hs Hn Herr Hagree. exists (entry_mem n err c k).
  split; [by apply entry_out|split; [by apply entry_frame|]].
  intros k2 Hh Hk2. by apply exception_returns.
Qed.

Lemma pushed_wf l m a : mem_wf m → mem_wf (pushed m a l).
Proof. revert m a. induction l as [|v l IH]; intros m a Hm; cbn [pushed]; [done|]. by apply IH, mem_wf_st32. Qed.

(** Writing a word back changes nothing. *)
Lemma ld8_st32_same m a x : mem_wf m → in_space a 4 → in_space x 1 → ld8 (st32 m a (ld32 m a)) x = ld8 m x.
Proof.
  intros Hm Ha Hx. unfold in_space in *.
  pose proof (Hm a); pose proof (Hm (a + 1)); pose proof (Hm (a + 2)); pose proof (Hm (a + 3)).
  unfold st32. rewrite !ld8_st8 by (unfold in_space; lia). unfold ld32, u8.
  zcases; subst; dlia.
Qed.

(** The end-of-interrupt commands for vector [v], latest first. *)
Definition eoi_log (v : Z) : list io_event :=
  Out8 0x20 0x20 :: if 40 <=? v then [Out8 0xA0 0x20] else [].

Lemma irq_handler_vector `{SyscallEntry} regs k :
  0 ≤ r_int_no regs →
  irq_handler regs k =
    if 256 <=? r_int_no regs then Fault
    else match interrupt_handlers (k_idt k) !! r_int_no regs with
      | Some h => call_handler h regs (set_io (eoi_log (r_int_no regs) ++ k_io k) k)
      | None => Done regs (set_io (eoi_log (r_int_no regs) ++ k_io k) k)
      end.
Proof.
  intros Hr. destruct (Z.leb_spec 256 (r_int_no regs)) as [Hge|Hlt].
  - unfold irq_handler. destruct (40 <=? r_int_no regs); unfold outb; rewrite ?bind_modify, ?bind_ret, ?bind_modify;
      by rewrite (proj2 (Z.leb_le 256 _)) by done.
  - rewrite irq_handler_run by lia. done.
Qed.

(** C27: What becomes of a device interrupt.  [irq_handler] takes the word the stub
    pushed for DS, the interrupted code's DS below the upper half of its EAX, for the
    address of the frame; when the 56 bytes there are apart from the stack, the word
    36 bytes on decides what happens, on whatever line [i] the interrupt came.  From
    256 on it indexes the handler array out of bounds.  A number without a handler is
    acknowledged and dropped, memory outside the stack being unchanged.  Otherwise
    the handler of that number is called, on what the 56 bytes say. *)
Theorem irq_line_lost `{SyscallEntry} i c k (p := ds_word c) (v := ld32 (k_mem k) (p + 36))
    (back := set_sreg ES (c_ds c) (set_sreg FS (c_ds c) (set_sreg GS (c_ds c) c))) :
  words c → 128 ≤ c_esp c < 4294967296 - 4 → 0 ≤ i < 16 → mem_wf (k_mem k) →
  p + 56 ≤ c_esp c - 60 ∨ c_esp c ≤ p ∧ p + 56 ≤ 4294967296 →
  ∃ m, (∀ x, in_space x 1 → x < c_esp c - 60 ∨ c_esp c ≤ x → ld8 m x = ld8 (k_mem k) x) ∧
    let k1 := set_io (eoi_log v ++ k_io k) (set_mem m k) in
    (256 ≤ v → irq (on_frame irq_handler) i c k = Fault) ∧
    (v < 256 → interrupt_handlers (k_idt k) !! v = None →
      ∃ m', irq (on_frame irq_handler) i c k = Done back (set_mem m' k1) ∧
        ∀ x, in_space x 1 → ld8 m' x = ld8 m x) ∧
    ∀ h r k2, v < 256 → interrupt_handlers (k_idt k) !! v = Some h →
      call_handler h (frame_at (k_mem k) p) k1 = Done r k2 →
      (∀ a, c_esp c - 56 ≤ a < c_esp c → ld8 (k_mem k2) a = ld8 m a) →
      irq (on_frame irq_handler) i c k = Done back (set_mem (st32 (k_mem k2) (p + 32) (r_eax r)) k2).
Proof.
  intros Hc Hs Hi Hwf Hp. rewrite irq_exception by lia.
  assert (Hag : error_code (32 + i) = isr_err (32 + i)).
  { unfold error_code, isr_err. apply bool_decide_ext. rewrite !elem_of_cons, elem_of_nil. lia. }
  destruct (ds_word_range c Hc) as [Hdw _]. fold p in Hdw.
  set (m := entry_mem (32 + i) 0 c k).
  assert (Hm : ∀ x, in_space x 1 → x < c_esp c - 60 ∨ c_esp c ≤ x → ld8 m x = ld8 (k_mem k) x)
    by (intros x Hx Ho; apply entry_out; try done; lia).
  assert (Hfr : frame_at m p = frame_at (k_mem k) p)
    by (apply frame_at_ext; intros x Hx; apply Hm; unfold in_space; lia).
  assert (Hwm : mem_wf m) by (subst m; unfold entry_mem; by apply pushed_wf).
  assert (Hv : 0 ≤ v) by (subst v; pose proof (ld32_range (k_mem k) (p + 36) Hwf); lia).
  assert (Hrun : on_frame irq_handler p (set_mem m k) =
    (let* regs := irq_handler (frame_at (k_mem k) p) in store32 (p + 32) (r_eax regs)) (set_mem m k)).
  { unfold on_frame. rewrite bind_gets. cbn [k_mem set_mem]. by rewrite Hfr. }
  unfold bind in Hrun. rewrite (irq_handler_vector (frame_at (k_mem k) p)) in Hrun by exact Hv.
  change (r_int_no (frame_at (k_mem k) p)) with v in Hrun.
  exists m. split; [done|]. cbv zeta. set (k1 := set_io _ (set_mem m k)).
  split; [|split].
  - intros Hge. rewrite (proj2 (Z.leb_le 256 v)) in Hrun by done.
    rewrite exception_call by (lia || apply (wo_regs c Hc EAX)). unfold bind.
    change (set_mem (pushed (k_mem k) (c_esp c) (entry_words (32 + i) 0 c ++ isr_words (entered (32 + i) 0 c))) k)
      with (set_mem m k). fold p. by rewrite Hrun.
  - intros Hlt Hnone. rewrite (proj2 (Z.leb_gt 256 v)) in Hrun by done.
    cbn [k_idt set_mem] in Hrun. rewrite Hnone in Hrun.
    assert (Hb : ∀ x, in_space x 1 → ld8 (st32 m (p + 32) (ld32 (k_mem k) (p + 32))) x = ld8 m x).
    { intros x Hx. replace (ld32 (k_mem k) (p + 32)) with (ld32 m (p + 32)) by exact (f_equal r_eax Hfr).
      apply ld8_st32_same; [done|unfold in_space; lia|done]. }
    exists (st32 m (p + 32) (ld32 (k_mem k) (p + 32))). split; [|done].
    apply (exception_returns _ _ _ _ Hc); [lia|done|lia|lia| |].
    + fold p m. rewrite Hrun. reflexivity.
    + intros a Ha. cbn [k_mem set_mem]. apply Hb. unfold in_space. lia.
  - intros h r k2 Hlt Hh Ecall Hk2. rewrite (proj2 (Z.leb_gt 256 v)) in Hrun by done.
    cbn [k_idt set_mem] in Hrun. rewrite Hh in Hrun.
    change (call_handler h (frame_at (k_mem k) p) k1 = Done r k2) in Ecall.
    change (set_io _ _) with k1 in Hrun. rewrite Ecall in Hrun.
    apply (exception_returns _ _ _ _ Hc); [lia|done|lia|lia| |].
    + fold p m. rewrite Hrun. reflexivity.
    + intros a Ha. cbn [k_mem set_mem]. rewrite ld8_st32_ne by (unfold in_space; lia). by apply Hk2.
Qed.

(** The processor pushes an error code for the alignment check, exception 17, and its
    stub is one that pushes a zero in its place: the stub ends on the error code, which
    becomes the address to continue at. *)
Theorem alignment_check_returns_wild isr_handler err c k :
  words c → 64 ≤ c_esp c < 4294967296 - 4 → 0 ≤ err < 4294967296 →
  ∃ m, ∀ k2, isr_handler (ds_word c) (set_mem m k) = Done tt k2 →
    (∀ a, c_esp c - 60 ≤ a < c_esp c → ld8 (k_mem k2) a = ld8 m a) →
    ∃ c', exception isr_handler 17 err c k = Done c' k2 ∧
      c_eip c' = err ∧ c_cs c' = u16 (c_eip c) ∧ c_eflags c' = c_cs c ∧ c_esp c' = c_esp c - 4.
Proof.
  intros Hc Hs Herr. destruct Hc as [Hr Hip Hfl Hcs _].
  set (ws := entry_words 17 err c ++ isr_words (entered 17 err c)).
  exists (pushed (k_mem k) (c_esp c) ws). intros k2 Hh Hk2. eexists.
  split; [apply (exception_run isr_handler 17 err c k k2); [done|apply (Hr EAX)|done]|].
  assert (Esp : c_esp (entered 17 err c) = c_esp c - 24) by (by destruct c).
  assert (El : ws = [c_eflags c; c_cs c; c_eip c; err; 0; 17; c_eax c; c_ecx c; c_edx c; c_ebx c; c_esp c - 24;
      c_ebp c; c_esi c; c_edi c; ds_word c; link]) by (subst ws; by destruct c).
  unfold left_isr. rewrite Esp. rewrite (frame_at_ext _ (pushed (k_mem k) (c_esp c) ws))
    by (intros a Ha; apply Hk2; lia).
  rewrite El. unfold frame_at. cbn [c_eip c_cs c_eflags c_esp r_eip r_cs r_eflags].
  split_and!; [word_at 3%nat|f_equal; word_at 2%nat|word_at 1%nat|lia].
Qed.

End Interrupts.

(** ** Witnesses *)

Definition abi0 : CallAbi :=
  {| link := 0x101000; left_eax _ := 1; left_ecx _ := 2; left_edx _ := 3; left_status _ := 0x44 |}.
Definition table0 : TableAt := {| table_at := 0x200000 |}.

(** A processor with its stack at [sp]. *)
Definition cpu_at (sp : Z) : cpu :=
  mk_cpu 0 0 0 11 sp 12 13 14 0x101234 0x202 0x5000 8 0x10 0x10 0x10 0x10.

Lemma cpu_at_words sp : 0 ≤ sp < 4294967296 → words (cpu_at sp).
Proof. intros Hsp. split; [|cbn; lia..]. intros []; cbn; lia. Qed.

Lemma cpu_at_caller sp : 28 ≤ sp < 4294967288 → caller (cpu_at sp).
Proof. intros Hsp. split; [|cbn; lia]. intros []; cbn; lia. Qed.

(** Process 1 runs, process 2 has switched away with its stack at 0x9000; the call has
    0x101111 for its return address and process 2 for its argument. *)
Definition asm_kernel : kernel :=
  set_mem (st32 (st32 ∅ 0x8000 0x101111) 0x8004 (@pcb_ptr table0 (Some 2%nat)))
    (set_proc (mk_proc (<[2%nat := set_kernel_esp 0x9000 pcb_zero]> (replicate 64 pcb_zero)) (Some 1%nat) 3 None)
      kernel_bss).

(** Later process 2 switches back to process 1, from a stack at 0x6000. *)
Definition asm_back (k : kernel) : kernel :=
  set_mem (st32 (k_mem k) 0x6004 (@pcb_ptr table0 (Some 1%nat)))
    (set_proc (set_current (Some 2%nat) (k_proc k)) k).

Lemma switch_roundtrip_witness :
  ∃ c1 k1 c3 k3, @switch_process abi0 table0 (cpu_at 0x8000) asm_kernel = Done c1 k1 ∧
    @switch_process abi0 table0 (cpu_at 0x6000) (asm_back k1) = Done c3 k3 ∧
    c_eip c3 = 0x101111 ∧ c_esp c3 = 0x8004.
Proof.
  assert (Hk : @table_ok table0 asm_kernel) by (split_and!; vm_compute; done || (intros [=])).
  destruct (@switch_roundtrip abi0 table0 (cpu_at 0x8000) asm_kernel 1 2) as (c1 & k1 & E & _ & _ & F);
    [done|lia|lia|done|apply cpu_at_caller; lia|done|reflexivity|cbn; lia|unfold apart; cbn; lia|].
  assert (Hk1 : length (process_table (k_proc k1)) = 64%nat).
  { apply after_eq in E as <-. reflexivity. }
  destruct (F (cpu_at 0x6000) (asm_back k1) 2%nat) as (c3 & k3 & E3 & R).
  - split_and!; [done|done|exact Hk1].
  - lia.
  - done.
  - apply cpu_at_caller; lia.
  - done.
  - unfold switch_arg. cbn [c_esp cpu_at k_mem asm_back set_mem]. by rewrite ld32_st32_eq by mem_side.
  - split; [|done]. intros a Ha. cbn in Ha. cbn [k_mem asm_back set_mem]. apply ld8_st32_ne; mem_side.
  - unfold apart; cbn; lia.
  - exists c1, k1, c3, k3. split; [exact E|]. split; [exact E3|].
    split; [rewrite (rt_eip _ _ _ R); vm_compute; reflexivity|rewrite (rt_esp _ _ _ R); reflexivity].
Defined.

Lemma switch_current_unmoved_witness :
  ∃ c1 k1 c3 k3, @switch_process abi0 table0 (cpu_at 0x8000) asm_kernel = Done c1 k1 ∧
    @switch_process abi0 table0 (cpu_at 0x6000) (set_proc (k_proc k1) (asm_back k1)) = Done c3 k3 ∧
    c_esp c3 = 0x6004 ∧ kernel_esp (pcb (process_table (k_proc k3)) 1) = 0x6000 - 24.
Proof.
  assert (Hk : @table_ok table0 asm_kernel) by (split_and!; vm_compute; done || (intros [=])).
  destruct (@switch_current_unmoved abi0 table0 (cpu_at 0x8000) asm_kernel 1 2) as (c1 & k1 & E & _ & F);
    [done|lia|lia|done|apply cpu_at_caller; lia|done|reflexivity|cbn; lia|].
  assert (Hk1 : length (process_table (k_proc k1)) = 64%nat).
  { apply after_eq in E as <-. reflexivity. }
  destruct (F (cpu_at 0x6000) (set_proc (k_proc k1) (asm_back k1))) as (c3 & k3 & E3 & R & Hsp).
  - split_and!; [done|done|exact Hk1].
  - apply cpu_at_caller; lia.
  - done.
  - unfold switch_arg. cbn [c_esp cpu_at k_mem asm_back set_mem set_proc]. by rewrite ld32_st32_eq by mem_side.
  - cbn; lia.
  - exists c1, k1, c3, k3. split; [exact E|]. split; [exact E3|].
    split; [rewrite (rt_esp _ _ _ R); reflexivity|exact Hsp].
Defined.

(** Process 7 runs in slot 0, the other slots are free. *)
Definition create_kernel : kernel :=
  set_mem (st32 ∅ 0x8004 (@pcb_ptr table0 (Some 1%nat)))
    (set_proc (mk_proc (set_state PROCESS_RUNNING (pcb_empty 7) :: replicate 63 pcb_zero) (Some 0%nat) 8 None)
      kernel_bss).

Lemma first_switch_wild_witness :
  ∃ c' k', @switch_process abi0 table0 (cpu_at 0x8000)
      (after (create_process 4 (cstr "init") 0x400000 0x9000) create_kernel) = Done c' k' ∧
    c_cr3 c' = 0 ∧ c_esp c' = 28 ∧ c_eip c' = 0.
Proof.
  destruct (@first_switch_wild abi0 table0 4 (cstr "init") 0x400000 0x9000 create_kernel
    (after (create_process 4 (cstr "init") 0x400000 0x9000) create_kernel) (cpu_at 0x8000) 0 1)
    as (c' & k' & E & Hcr & Hsp & Hip).
  - vm_compute. reflexivity.
  - reflexivity.
  - split_and!; [done|done|vm_compute; reflexivity].
  - apply cpu_at_caller; lia.
  - cbn; lia.
  - lia.
  - done.
  - vm_compute. reflexivity.
  - vm_compute. reflexivity.
  - exists c', k'. split; [exact E|]. split; [exact Hcr|]. split; [exact Hsp|]. rewrite Hip. vm_compute. reflexivity.
Defined.

Lemma interrupt_transparent_witness :
  ∃ k2, @exception abi0 (λ _, ret tt) 14 2 (cpu_at 0x8000) kernel_bss = Done (cpu_at 0x8000) k2.
Proof.
  destruct (@interrupt_transparent abi0 (λ _, ret tt) 14 2 (cpu_at 0x8000) kernel_bss) as (m & _ & _ & F);
    [apply cpu_at_words; lia|cbn; lia|lia|lia|reflexivity|].
  exists (set_mem m kernel_bss). exact (F _ eq_refl (λ _ _, eq_refl)).
Defined.

(** The timer's handler is registered for 32, and the word at 52 is 32: line 1, the
    keyboard's, is counted as a tick. *)
Definition misread : kernel := set_mem (st32 ∅ 52 32) timer0.

Lemma irq_line_lost_witness :
  ∃ c' k', @irq abi0 (on_frame (@irq_handler no_syscalls)) 1 (cpu_at 0x8000) misread = Done c' k' ∧
    tick_count (k_timer k') = tick_count (k_timer misread) + 1.
Proof.
  destruct (@irq_line_lost abi0 no_syscalls 1 (cpu_at 0x8000) misread) as (m & _ & _ & _ & F).
  - apply cpu_at_words; lia.
  - cbn; lia.
  - lia.
  - unfold misread. apply mem_wf_st32, mem_wf_empty.
  - left. vm_compute. discriminate.
  - eexists _, _. split.
    + refine (F isr_timer_callback _ _ _ _ eq_refl _).
      * vm_compute. reflexivity.
      * vm_compute. reflexivity.
      * intros a _. reflexivity.
    + vm_compute. reflexivity.
Defined.
