(* ===== verification/Switching.v ===== *)
(** * The scheduler with the assembly switch

    [schedule] of scheduler.c together with [switch_process] of switch.asm.  The switch
    saves into the PCB that [get_current_process] gives, and nothing on this path ever
    moves [current_process]: the theorem says what becomes of the process it names. *)

From S2P Require Import Prelude Memory Types Machine Screen Interrupts Process Scheduler Asm.
Import ProcessH.

(** ** What keeps [current_process] *)

Class KeepsCurrent {A} (c : K A) : Prop :=
  keeps_current : ∀ k a k', c k = Done a k' → current_process (k_proc k') = current_process (k_proc k).

#[export] Instance keeps_current_ret {A} (a : A) : KeepsCurrent (ret a).
Proof. by intros k b k' [_ <-]%Done_inj. Qed.

#[export] Instance keeps_current_gets {A} (f : kernel → A) : KeepsCurrent (gets f).
Proof. by intros k b k' [_ <-]%Done_inj. Qed.

#[export] Instance keeps_current_fault {A} : KeepsCurrent (fault : K A).
Proof. by intros k b k' E. Qed.

#[export] Instance keeps_current_spin {A} : KeepsCurrent (spin : K A).
Proof. by intros k b k' E. Qed.

#[export] Instance keeps_current_bind {A B} (c : K A) (f : A → K B) :
  KeepsCurrent c → (∀ a, KeepsCurrent (f a)) → KeepsCurrent (bind c f).
Proof.
  intros Hc Hf k b k' (a & k1 & E1 & E2)%bind_done_inv.
  rewrite <- (Hc _ _ _ E1). exact (Hf a _ _ _ E2).
Qed.

#[export] Instance keeps_current_put_pcb i f : KeepsCurrent (put_pcb i f).
Proof. by intros k b k' [_ <-]%Done_inj. Qed.

#[export] Instance keeps_current_upd_sched f : KeepsCurrent (upd_sched f).
Proof. by intros k b k' [_ <-]%Done_inj. Qed.

#[export] Instance keeps_current_load32 a : KeepsCurrent (load32 a).
Proof. apply _. Qed.

#[export] Instance keeps_current_store32 a v : KeepsCurrent (store32 a v).
Proof. by intros k b k' [_ <-]%Done_inj. Qed.

(** Tries the instances, and splits the conditionals in between. *)
Ltac keeps_current_tac :=
  repeat match goal with
  | |- KeepsCurrent _ => apply _
  | |- KeepsCurrent (bind _ _) => apply keeps_current_bind; [|intros ?]
  | |- KeepsCurrent (match ?x with _ => _ end) => destruct x
  end.

#[export] Instance keeps_current_add p : KeepsCurrent (Scheduler.add_to_ready_queue p).
Proof. unfold Scheduler.add_to_ready_queue. keeps_current_tac. Qed.

#[export] Instance keeps_current_remove fuel p : KeepsCurrent (remove_from_ready_queue fuel p).
Proof. unfold remove_from_ready_queue. keeps_current_tac. Qed.

(** ** The switch on the kernel state *)

Section Switching.
Context `{CallAbi, TableAt}.

Lemma keeps_current_run l c : Forall (λ i : instr, ∀ c, KeepsCurrent (i c)) l → KeepsCurrent (run l c).
Proof.
  intros Hl. revert c. induction Hl as [|i l Hi _ IH]; intros c; [apply keeps_current_ret|].
  change (run (i :: l) c) with (bind (i c) (run l)). apply _.
Qed.

#[export] Instance keeps_current_push v c : KeepsCurrent (push_val v c).
Proof. unfold push_val. apply _. Qed.

#[export] Instance keeps_current_pop f c : KeepsCurrent (pop_to f c).
Proof. unfold pop_to. apply _. Qed.

#[export] Instance keeps_current_put f a v : KeepsCurrent (put_field f a v).
Proof. unfold put_field. destruct (slot_of a); [|apply _]. by intros k b k' [_ <-]%Done_inj. Qed.

#[export] Instance keeps_current_get f a : KeepsCurrent (get_field f a).
Proof. unfold get_field. keeps_current_tac. Qed.

#[export] Instance keeps_current_save c : KeepsCurrent (run save_context c).
Proof.
  apply keeps_current_run. unfold save_context, push, pushfd. repeat (constructor; [intros; apply _|]). constructor.
Qed.

#[export] Instance keeps_current_restore c : KeepsCurrent (run restore_context c).
Proof.
  apply keeps_current_run. unfold restore_context, pop, popfd, ret_near.
  repeat (constructor; [intros; apply _|]). constructor.
Qed.

#[export] Instance keeps_current_load_new c : KeepsCurrent (load_new c).
Proof. unfold load_new, test_eax. keeps_current_tac. Qed.

#[export] Instance keeps_current_switch c : KeepsCurrent (Asm.switch_process c).
Proof. unfold Asm.switch_process, call_get_current, get_current_process, test_eax. keeps_current_tac. Qed.

(** [switch_process(p)] as the scheduler sees it: what it does to the kernel state when
    the processor enters it with the registers [entry p k]. *)
Definition asm_switch (entry : option nat → kernel → cpu) (p : option nat) : K unit := λ k,
  (Asm.switch_process (entry p k) ;;; ret tt) k.

#[export] Instance keeps_current_asm entry p : KeepsCurrent (asm_switch entry p).
Proof. intros k. exact (keeps_current (c := Asm.switch_process (entry p k) ;;; ret tt) k). Qed.

End Switching.

(** ** The scheduler *)

Section Scheduler.
Variables (idle : option nat) (ticks : K unit).
Hypothesis ticks_keep : KeepsCurrent ticks.

(** scheduler.c with a given [switch_process]. *)
Definition env_with (switch : option nat → K unit) : SchedEnv :=
  {| init_process := idle; Scheduler.switch_process := switch; update_ticks := ticks |}.

(** The entries of scheduler.c that switch. *)
Inductive entry_point := e_schedule | e_yield | e_tick.

Definition enter (switch : option nat → K unit) (fuel : nat) (e : entry_point) : K unit :=
  match e with
  | e_schedule => @schedule (env_with switch) fuel
  | e_yield => @Scheduler.yield (env_with switch) fuel
  | e_tick => @timer_tick_handler (env_with switch) fuel
  end.

#[local] Instance keeps_current_wake fuel tick prev proc : KeepsCurrent (wake_loop fuel tick prev proc).
Proof.
  revert prev proc. induction fuel as [|fuel IH]; intros prev proc; cbn [wake_loop]; [keeps_current_tac|].
  destruct proc as [i|]; [|apply _]. apply keeps_current_bind; [|intros []; apply IH].
  unfold wake_step. keeps_current_tac.
Qed.

Lemma keeps_current_enter switch fuel e :
  (∀ p, KeepsCurrent (switch p)) → KeepsCurrent (enter switch fuel e).
Proof.
  intros Hs. assert (KeepsCurrent (@schedule (env_with switch) fuel)).
  { unfold schedule, pick_next, get_current_process. cbn [Scheduler.switch_process env_with]. keeps_current_tac. }
  destruct e; cbn [enter]; [done| |].
  - unfold Scheduler.yield, get_current_process. keeps_current_tac.
  - unfold timer_tick_handler. cbn [update_ticks env_with]. keeps_current_tac.
Qed.

Lemma schedule_agrees sw1 sw2 fuel k :
  (∀ p, p ≠ current_process (k_proc k) → sw1 p = sw2 p) →
  @schedule (env_with sw1) fuel k = @schedule (env_with sw2) fuel k.
Proof.
  intros Hsw. unfold schedule, get_current_process. rewrite !bind_gets.
  assert (Hp : @pick_next (env_with sw1) fuel (current_process (k_proc k)) k =
               @pick_next (env_with sw2) fuel (current_process (k_proc k)) k).
  { unfold pick_next. cbn [init_process Scheduler.switch_process env_with is_user].
    do 5 (apply bind_ext; intros ???). clear -Hsw.
    case_bool_decide as Hne; [|done]. by rewrite Hsw. }
  destruct (current_process (k_proc k)) as [c|]; [|exact Hp].
  change (@is_user (env_with sw1)) with (@is_user (env_with sw2)).
  by destruct (_ && _).
Qed.

Lemma enter_agrees sw1 sw2 fuel e k :
  (∀ p, p ≠ current_process (k_proc k) → sw1 p = sw2 p) →
  enter sw1 fuel e k = enter sw2 fuel e k.
Proof.
  intros Hsw. destruct e; cbn [enter]; [by apply schedule_agrees| |].
  - unfold Scheduler.yield. apply bind_ext. intros c k1 E. apply bind_ext. intros [] k2 E2.
    apply schedule_agrees. apply Done_inj in E as [<- <-].
    unshelve eapply keeps_current in E2; [keeps_current_tac|]. by rewrite E2.
  - unfold timer_tick_handler. cbn [update_ticks env_with].
    apply bind_ext; intros [] k1 E1. apply bind_ext; intros [] k2 E2. apply bind_ext; intros s k3 E3.
    apply bind_ext; intros [] k4 E4. apply schedule_agrees.
    apply keeps_current in E1, E2, E3, E4; [|apply _..].
    intros p Hp. apply Hsw. congruence.
Qed.

End Scheduler.

(** ** Theorem *)

Section Never.
Context `{CallAbi, TableAt}.
Variables (idle : option nat) (ticks : K unit) (entry : option nat → kernel → cpu).

(** Entries of the scheduler, and steps of anything else that leaves
    [current_process] alone. *)
Inductive switching_step (k k' : kernel) : Prop :=
| st_enter fuel e : enter idle ticks (asm_switch entry) fuel e k = Done tt k' → switching_step k k'
| st_other : current_process (k_proc k') = current_process (k_proc k) → switching_step k k'.

(** The assembly switch, but one that faults when it is called for process [i]. *)
Definition never_to (i : nat) (p : option nat) : K unit :=
  if decide (p = Some i) then fault else asm_switch entry p.

(** C25: The process [i] that [current_process] names when scheduler.c takes over is
    not switched to again as long as only scheduler.c schedules: neither [schedule]
    nor the switch moves [current_process], which therefore names [i] after any number
    of switches, and [schedule] does not switch to the process it takes for the
    current one.  On every state that is reached, every entry of the scheduler does
    the same with a switch that would fault on [i].  Anything may run in between that
    leaves [current_process] alone; [scheduler_get_next] of process.c, which exit, wait
    and sleep call, moves it, and from then on the same holds of the process it names
    instead. *)
Theorem schedule_never_resumes i k0 k fuel e :
  KeepsCurrent ticks → current_process (k_proc k0) = Some i → rtc switching_step k0 k →
  current_process (k_proc k) = Some i ∧
  enter idle ticks (asm_switch entry) fuel e k = enter idle ticks (never_to i) fuel e k.
Proof.
  intros Ht Hi Hr. assert (Hc : current_process (k_proc k) = Some i).
  { induction Hr as [|k1 k2 k3 Hs _ IH]; [done|]. apply IH. destruct Hs as [f e' E|E]; [|congruence].
    rewrite (keeps_current (KeepsCurrent := keeps_current_enter idle ticks Ht _ f e' _) _ _ _ E). exact Hi. }
  split; [done|]. apply (enter_agrees idle ticks Ht). intros p Hp. unfold never_to.
  rewrite decide_False by congruence. done.
Qed.

End Never.

(** Process 1 runs and its slice is used up; process 2, which switched away earlier, is
    ready.  The switch is entered with the stack at 0x8000. *)
Definition switching_kernel : kernel :=
  set_sched (mk_sched (Some 2%nat) (Some 2%nat) None 0) asm_kernel.

Definition entry0 (_ : option nat) (_ : kernel) : cpu := cpu_at 0x8000.

(** The state in which process 2 has been resumed. *)
Definition switched_kernel : kernel :=
  after (@enter (Some 0%nat) (ret tt) (@asm_switch abi0 table0 entry0) 3 e_schedule) switching_kernel.

Lemma schedule_never_resumes_witness :
  kernel_esp (pcb (process_table (k_proc switched_kernel)) 1) = 0x8000 - 24 ∧
  current_process (k_proc switched_kernel) = Some 1%nat ∧
  enter (Some 0%nat) (ret tt) (@asm_switch abi0 table0 entry0) 3 e_tick switched_kernel =
  enter (Some 0%nat) (ret tt) (@never_to abi0 table0 entry0 1) 3 e_tick switched_kernel.
Proof.
  split; [vm_compute; reflexivity|].
  apply (@schedule_never_resumes abi0 table0 (Some 0%nat) (ret tt) entry0 1 switching_kernel);
    [apply _|vm_compute; reflexivity|].
  apply rtc_once. apply (st_enter _ _ _ _ _ 3 e_schedule). vm_compute. reflexivity.
Defined.
