(* ===== verification/Device.v ===== *)
(** * Devices (kernel/device.c)

    The list of registered devices, the three built-in drivers (null, zero and
    console) and dispatch by name.  A [device_t] lives at the address the heap
    gave it, in the map [devices]; a driver function is a name, called through
    [call_fn], and the functions of drivers outside the file are the class
    [Drivers].  The console driver's keyboard loop, which [kernel/syscall.c]
    repeats with an echo, is [read_keys]; the theorems compare it with a line
    editor on the list of keys typed, and the registry with a list of devices. *)

From S2P Require Import Prelude Memory Types Machine Screen Kheap.
Import ScreenH DeviceH.

Class Drivers := driver_call : Z → list Z → K Z.

(** ** The keyboard loop *)

(** Character [i] of a string literal, its NUL included; [None] beyond it. *)
Definition literal_at (s : list Z) (i : Z) : option Z := (s ++ [0]) !! Z.to_nat i.

(** The character of a key, 0 when it has none: lines 65-83. *)
Definition key_char (key : Z) : option Z :=
  if key =? 0x1C then Some 10
  else if key =? 0x39 then Some 32
  else if (0x10 <=? key) && (key <=? 0x1C) then literal_at (cstr "qwertyuiop") (key - 0x10)
  else if (0x1E <=? key) && (key <=? 0x26) then literal_at (cstr "asdfghjkl") (key - 0x1E)
  else if (0x2C <=? key) && (key <=? 0x32) then literal_at (cstr "zxcvbnm") (key - 0x2C)
  else if (0x02 <=? key) && (key <=? 0x0B) then literal_at (cstr "1234567890-=") (key - 0x02)
  else Some 0.

(** The loop from index [i], with [echo] after each character stored; a round
    takes a unit of fuel. *)
Fixpoint read_keys `{Hardware} (fuel : nat) (echo : Z → K unit) (buf count i : Z) : K Z :=
  if i <? count then
    match fuel with
    | O => spin
    | S fuel =>
        let* key := inb 0x60 in
        if key <? 0x80 then
          if key =? 0x0E then
            if 0 <? i then
              store8 (buf + (i - 1)) 0 ;;;
              read_keys fuel echo buf count (i - 1)
            else read_keys fuel echo buf count i
          else
            match key_char key with
            | None => fault
            | Some c =>
                if c =? 0 then read_keys fuel echo buf count i
                else
                  store8 (buf + i) c ;;;
                  echo c ;;;
                  if c =? 10 then ret (i + 1) else read_keys fuel echo buf count (i + 1)
            end
        else read_keys fuel echo buf count i
    end
  else ret i.

(** ** Built-in drivers *)

Definition null_init : K Z := ret 0.
Definition null_read (buf count : Z) : K Z := ret 0.
Definition null_write (buf count : Z) : K Z := ret (s32 count).

Definition zero_read (buf count : Z) : K Z :=
  modify (λ k, set_mem (memset (k_mem k) buf 0 count) k) ;;;
  ret (s32 count).
Definition zero_write (buf count : Z) : K Z := ret (s32 count).

Definition console_read `{Hardware} (fuel : nat) (buf count : Z) : K Z :=
  let* i := read_keys fuel (λ _, ret tt) buf count 0 in
  ret (s32 i).

Definition console_write (buf count : Z) : K Z :=
  for_list (seqZ 0 count) (λ i, let* c := load8 (buf + i) in screen_putchar c) ;;;
  ret (s32 count).

Definition null_ops : device_ops_t :=
  mk_ops (Some fn_null_init) (Some fn_null_read) (Some fn_null_write) None None None None.
Definition zero_ops : device_ops_t :=
  mk_ops (Some fn_null_init) (Some fn_zero_read) (Some fn_zero_write) None None None None.
Definition console_ops : device_ops_t :=
  mk_ops (Some fn_null_init) (Some fn_console_read) (Some fn_console_write) None None None None.

(** ** The device list *)

Definition upd_dev (f : device_state → device_state) : K unit :=
  modify (λ k, set_dev (f (k_dev k)) k).

Definition set_list (h : Z) (s : device_state) : device_state := mk_device_state (devices s) h.
Definition put_device (a : Z) (d : device_t) (s : device_state) : device_state :=
  mk_device_state (<[a := d]> (devices s)) (device_list s).
Definition set_dev_next (n : Z) (d : device_t) : device_t :=
  mk_device (dev_name d) (dev_type d) (dev_flags d) (dev_size d) (private_data d) (ops d) n.

(** [*dev]: a pointer to no device is a bad dereference. *)
Definition deref (a : Z) : K device_t := λ k,
  match devices (k_dev k) !! a with Some d => Done d k | None => Fault end.

Section Operations.
Context `{Hardware, Drivers}.

Definition call_fn (fuel : nat) (f : dev_fn) (args : list Z) : K Z :=
  match f, args with
  | fn_null_init, [_] => null_init
  | fn_null_read, [_; buf; count] => null_read buf count
  | fn_null_write, [_; buf; count] => null_write buf count
  | fn_zero_read, [_; buf; count] => zero_read buf count
  | fn_zero_write, [_; buf; count] => zero_write buf count
  | fn_console_read, [_; buf; count] => console_read fuel buf count
  | fn_console_write, [_; buf; count] => console_write buf count
  | fn_driver id, _ => driver_call id args
  | _, _ => fault
  end.

(** Whether a device called [name] is on the list from [dev]. *)
Fixpoint name_taken (fuel : nat) (name : list Z) (dev : Z) : K bool :=
  if dev =? NULL then ret false
  else
    match fuel with
    | O => spin
    | S fuel =>
        let* d := deref dev in
        if bool_decide (dev_name d = name) then ret true else name_taken fuel name (dev_next d)
    end.

Definition register_device (fuel : nat) (device : Z) : K Z :=
  if device =? NULL then ret (-1)
  else
    let* d := deref device in
    let* head := gets (λ k, device_list (k_dev k)) in
    let* taken := name_taken fuel (dev_name d) head in
    if taken : bool then
      screen_setcolor COLOR_YELLOW COLOR_BLACK ;;;
      screen_putstr (cstr "Device ") ;;;
      screen_putstr (dev_name d) ;;;
      screen_putstr (cstr " already registered" ++ [10]) ;;;
      ret (-1)
    else
      upd_dev (put_device device (set_dev_next head d)) ;;;
      upd_dev (set_list device) ;;;
      match ops d with
      | Some o =>
          match op_init o with
          | Some f => let* _ := call_fn fuel f [private_data d] in ret tt
          | None => ret tt
          end
      | None => ret tt
      end ;;;
      screen_setcolor COLOR_LIGHT_GREY COLOR_BLACK ;;;
      screen_putstr (cstr "Registered device: ") ;;;
      screen_putstr (dev_name d) ;;;
      screen_putstr [10] ;;;
      ret 0.

(** The three blocks of [init_devices], lines 128-170. *)
Definition register_standard (fuel : nat) (name : list Z) (o : device_ops_t) : K unit :=
  let* dev := kmalloc fuel 56 in
  if dev =? NULL then ret tt
  else
    upd_dev (put_device dev
      (mk_device name DEV_CHAR (Z.lor DEV_READABLE DEV_WRITABLE) 0 NULL (Some o) NULL)) ;;;
    let* _ := register_device fuel dev in
    ret tt.

Definition init_devices (fuel : nat) : K unit :=
  screen_putstr (cstr "Initializing Device Manager... ") ;;;
  upd_dev (set_list NULL) ;;;
  register_standard fuel DEV_NULL null_ops ;;;
  register_standard fuel DEV_ZERO zero_ops ;;;
  register_standard fuel DEV_CONSOLE console_ops ;;;
  screen_setcolor COLOR_LIGHT_GREEN COLOR_BLACK ;;;
  screen_putstr (cstr "OK" ++ [10]).

Fixpoint unregister_loop (fuel : nat) (name : list Z) (prev dev : Z) : K Z :=
  if dev =? NULL then ret (-1)
  else
    match fuel with
    | O => spin
    | S fuel =>
        let* d := deref dev in
        if bool_decide (dev_name d = name) then
          (if prev =? NULL then upd_dev (set_list (dev_next d))
           else
             let* p := deref prev in
             upd_dev (put_device prev (set_dev_next (dev_next d) p))) ;;;
          kfree dev ;;;
          screen_setcolor COLOR_LIGHT_GREY COLOR_BLACK ;;;
          screen_putstr (cstr "Unregistered device: ") ;;;
          screen_putstr name ;;;
          screen_putstr [10] ;;;
          ret 0
        else unregister_loop fuel name dev (dev_next d)
    end.

Definition unregister_device (fuel : nat) (name : list Z) : K Z :=
  let* head := gets (λ k, device_list (k_dev k)) in
  unregister_loop fuel name NULL head.

Fixpoint get_device_loop (fuel : nat) (name : list Z) (dev : Z) : K Z :=
  if dev =? NULL then ret NULL
  else
    match fuel with
    | O => spin
    | S fuel =>
        let* d := deref dev in
        if bool_decide (dev_name d = name) then ret dev
        else get_device_loop fuel name (dev_next d)
    end.

Definition get_device (fuel : nat) (name : list Z) : K Z :=
  let* head := gets (λ k, device_list (k_dev k)) in
  get_device_loop fuel name head.

(** [dev->ops->f(dev->private_data, args)], -1 when any of the pointers is NULL. *)
Definition device_op (fuel : nat) (name : list Z) (sel : device_ops_t → option dev_fn)
    (args : list Z) : K Z :=
  let* dev := get_device fuel name in
  if dev =? NULL then ret (-1)
  else
    let* d := deref dev in
    match ops d with
    | None => ret (-1)
    | Some o =>
        match sel o with
        | None => ret (-1)
        | Some f => call_fn fuel f (private_data d :: args)
        end
    end.

Definition device_read (fuel : nat) (name : list Z) (buf count : Z) : K Z :=
  device_op fuel name op_read [buf; count].
Definition device_write (fuel : nat) (name : list Z) (buf count : Z) : K Z :=
  device_op fuel name op_write [buf; count].
Definition device_seek (fuel : nat) (name : list Z) (offset whence : Z) : K Z :=
  device_op fuel name op_seek [offset; whence].
Definition device_ioctl (fuel : nat) (name : list Z) (cmd arg : Z) : K Z :=
  device_op fuel name op_ioctl [cmd; arg].

End Operations.

(** ** show_devices *)

(** [for (i = strlen(str); i < width; i++) screen_putstr(...)] *)
Definition pad (str : list Z) (width : Z) : K unit :=
  for_list (seqZ (Z.of_nat (length str)) (width - Z.of_nat (length str))) (λ _, screen_putstr [32]).

Definition show_flag (flags f : Z) (c : Z) : K unit :=
  if Z.land flags f =? 0 then ret tt else screen_putstr [c].

Definition show_size (size : Z) : K unit :=
  if 0 <? size then
    if 1048576 <=? size then screen_putdec (size / 1024 / 1024) ;;; screen_putstr (cstr " MB")
    else if 1024 <=? size then screen_putdec (size / 1024) ;;; screen_putstr (cstr " KB")
    else screen_putdec size ;;; screen_putstr (cstr " B")
  else screen_putstr (cstr "-").

(** One line of the table, lines 309-349. *)
Definition show_device (d : device_t) : K unit :=
  screen_putstr (dev_name d) ;;;
  pad (dev_name d) 12 ;;;
  screen_putstr (cstr "  ") ;;;
  (if dev_type d =? DEV_CHAR then screen_putstr (cstr "char   ")
   else if dev_type d =? DEV_BLOCK then screen_putstr (cstr "block  ")
   else if dev_type d =? DEV_NET then screen_putstr (cstr "net    ")
   else screen_putstr (cstr "unknown")) ;;;
  screen_putstr (cstr "  ") ;;;
  show_flag (dev_flags d) DEV_READABLE 82 ;;;
  show_flag (dev_flags d) DEV_WRITABLE 87 ;;;
  show_flag (dev_flags d) DEV_SEEKABLE 83 ;;;
  show_flag (dev_flags d) DEV_NONBLOCK 78 ;;;
  for_list (seqZ 0 6) (λ _, screen_putstr [32]) ;;;
  screen_putstr (cstr "  ") ;;;
  show_size (dev_size d) ;;;
  screen_putstr [10].

Fixpoint show_devices_loop (fuel : nat) (dev : Z) : K unit :=
  if dev =? NULL then ret tt
  else
    match fuel with
    | O => spin
    | S fuel =>
        let* d := deref dev in
        show_device d ;;;
        show_devices_loop fuel (dev_next d)
    end.

Definition show_devices (fuel : nat) : K unit :=
  screen_setcolor COLOR_LIGHT_CYAN COLOR_BLACK ;;;
  screen_putstr ([10] ++ cstr "Device List:" ++ [10]) ;;;
  screen_setcolor COLOR_LIGHT_GREY COLOR_BLACK ;;;
  screen_putstr (cstr "Name       Type    Flags  Size" ++ [10]) ;;;
  screen_putstr (cstr "---------- ------- ------ -----" ++ [10]) ;;;
  let* head := gets (λ k, device_list (k_dev k)) in
  show_devices_loop fuel head.

#[global] Arguments call_fn : simpl never.

(** ** The line editor

    [line_edit count line keys] is the line that results from typing [keys] after
    [line]: a character is appended, Backspace removes the last one, the other
    keys and all key releases do nothing, and the line ends with Enter or when it
    has [count] characters.  [None] when the keys run out before. *)

Fixpoint line_edit (count : Z) (line keys : list Z) : option (list Z) :=
  if Z.of_nat (length line) <? count then
    match keys with
    | [] => None
    | key :: keys =>
        if key <? 0x80 then
          if key =? 0x0E then line_edit count (removelast line) keys
          else
            c ← key_char key;
            if c =? 0 then line_edit count line keys
            else if c =? 10 then Some (line ++ [10])
            else line_edit count (line ++ [c]) keys
        else line_edit count line keys
    end
  else Some line.

(** How often the keyboard's port was read. *)
Fixpoint key_reads (io : list io_event) : nat :=
  match io with
  | [] => 0
  | In8 port _ :: io => if port =? 0x60 then S (key_reads io) else key_reads io
  | _ :: io => key_reads io
  end.

(** The keyboard delivers [keys], one per read. *)
Definition keyboard `{Hardware} (keys : list Z) : Prop :=
  Forall (λ key, 0 ≤ key < 256) keys ∧
  ∀ io key, keys !! key_reads io = Some key → hw_in8 io 0x60 = key.

(** What an echo may do: write to the console. *)
Definition echo_ok (echo : Z → K unit) : Prop :=
  ∀ c k, ∃ s io, echo c k = Done tt (with_console s io k) ∧ key_reads io = key_reads (k_io k).

(** [line] is at [buf]. *)
Definition stored (m : mem) (buf : Z) (line : list Z) : Prop :=
  ∀ j c, line !! j = Some c → ld8 m (buf + Z.of_nat j) = c.

Lemma literal_byte s i c :
  Forall (λ c, 0 < c < 256) s → literal_at s i = Some c → 0 ≤ c < 256.
Proof.
  intros Hs H%list_elem_of_lookup_2. apply elem_of_app in H as [H|H%list_elem_of_singleton]; [|lia].
  rewrite list.Forall_forall in Hs. specialize (Hs c H). lia.
Qed.

Lemma key_char_byte key c : key_char key = Some c → 0 ≤ c < 256.
Proof.
  unfold key_char. intros H.
  repeat match type of H with context [if ?b then _ else _] => destruct b end;
    simplify_eq; try lia; (eapply literal_byte; [|exact H]; refine (bool_decide_unpack _ _); reflexivity).
Qed.

Lemma stored_snoc m buf line c :
  stored m buf line → 0 ≤ c < 256 → in_space buf (Z.of_nat (length line) + 1) →
  stored (st8 m (buf + Z.of_nat (length line)) c) buf (line ++ [c]).
Proof.
  intros Hs Hc Hsp j c' Hj. unfold in_space in *. apply lookup_app_Some in Hj as [Hj|[Hl Hj]].
  - pose proof (lookup_lt_Some _ _ _ Hj). rewrite ld8_st8_ne; [by apply Hs|].
    rewrite !u32_small by lia. lia.
  - apply list_lookup_singleton_Some in Hj as [Hj <-].
    replace (Z.of_nat j) with (Z.of_nat (length line)) by lia. rewrite ld8_st8_eq. by apply u8_small.
Qed.

Lemma stored_removelast m buf line c :
  stored m buf (line ++ [c]) → in_space buf (Z.of_nat (length line) + 1) →
  stored (st8 m (buf + Z.of_nat (length line)) 0) buf line.
Proof.
  intros Hs Hsp j c' Hj. unfold in_space in *. pose proof (lookup_lt_Some _ _ _ Hj).
  rewrite ld8_st8_ne; [|rewrite !u32_small by lia; lia]. apply Hs. by apply lookup_app_l_Some.
Qed.

(** Only the memory, the ports and the screen change. *)
Definition edits (k k' : kernel) : Prop :=
  ∃ s, k' = set_mem (k_mem k') (with_console s (k_io k') k).

#[export] Instance edits_preorder : PreOrder edits.
Proof.
  split.
  - intros k. exists (k_screen k). by destruct k.
  - intros [] [] []. unfold edits, set_mem, with_console, set_screen, set_io; cbn.
    intros [s1 E1] [s2 E2]. injection E1 as -> -> -> -> -> -> -> -> -> -> -> ->.
    injection E2 as -> -> -> -> -> -> -> -> -> -> -> ->. by eexists.
Qed.

Lemma edits_mem m k : edits k (set_mem m k).
Proof. exists (k_screen k). by destruct k. Qed.

Lemma edits_console s io k : edits k (with_console s io k).
Proof. exists s. by destruct k. Qed.

Lemma edits_io io k : edits k (set_io io k).
Proof. exists (k_screen k). by destruct k. Qed.

(** What the loop leaves: the line [out], nothing else written. *)
Definition edited (buf count : Z) (out : list Z) (k k' : kernel) : Prop :=
  stored (k_mem k') buf out ∧ Z.of_nat (length out) ≤ count ∧
  (∀ a, in_space a 1 → a < buf ∨ buf + count ≤ a → ld8 (k_mem k') a = ld8 (k_mem k) a) ∧
  edits k k'.

Lemma edited_step buf count out k k1 k' :
  edits k k1 →
  (∀ a, in_space a 1 → a < buf ∨ buf + count ≤ a → ld8 (k_mem k1) a = ld8 (k_mem k) a) →
  edited buf count out k1 k' → edited buf count out k k'.
Proof.
  intros He Hm (H1 & H2 & H3 & H4). split_and!; [done|done| |by etrans].
  intros a Ha Hr. by rewrite H3, Hm.
Qed.

(** A character store inside the buffer. *)
Lemma st8_outside m buf count i c a :
  in_space buf count → 0 ≤ i < count → in_space a 1 → a < buf ∨ buf + count ≤ a →
  ld8 (st8 m (buf + i) c) a = ld8 m a.
Proof. unfold in_space. intros. rewrite ld8_st8_ne; [done|]. rewrite !u32_small; lia. Qed.

(** Reading the next key. *)
Lemma next_key_run `{Hardware} {A} keys ks key (f : Z → K A) k :
  keyboard keys → drop (key_reads (k_io k)) keys = key :: ks →
  0 ≤ key < 256 ∧ drop (S (key_reads (k_io k))) keys = ks ∧
  bind (inb 0x60) f k = f key (set_io (In8 0x60 key :: k_io k) k).
Proof.
  intros [Hb Hkb] Hks.
  assert (Hl : keys !! key_reads (k_io k) = Some key)
    by (rewrite <- (Nat.add_0_r (key_reads (k_io k))), <- lookup_drop, Hks; done).
  assert (Hr : 0 ≤ key < 256) by (eapply (proj1 (list.Forall_lookup _ _) Hb); exact Hl).
  split; [done|]. split.
  - rewrite <- Nat.add_1_r, <- drop_drop, Hks. done.
  - unfold bind, inb. change (u16 96) with 96. by rewrite (Hkb _ _ Hl), u8_small.
Qed.

(** Storing a character behind the line, and echoing it. *)
Lemma store_char_run {A} echo buf count line c (f : K A) k :
  echo_ok echo → in_space buf count → Z.of_nat (length line) < count → 0 ≤ c < 256 → stored (k_mem k) buf line →
  ∃ k', (store8 (buf + Z.of_nat (length line)) c ;;; echo c ;;; f) k = f k' ∧
    stored (k_mem k') buf (line ++ [c]) ∧ edits k k' ∧ key_reads (k_io k') = key_reads (k_io k) ∧
    ∀ a, in_space a 1 → a < buf ∨ buf + count ≤ a → ld8 (k_mem k') a = ld8 (k_mem k) a.
Proof.
  intros Hecho Hsp Hlt Hc Hst. unfold store8. rewrite bind_modify. set (k2 := set_mem _ k).
  destruct (Hecho c k2) as (s & io & Ee & Hio). rewrite (bind_done _ _ _ _ _ Ee).
  exists (with_console s io k2). split; [done|]. split; [|split; [|split; [exact Hio|]]].
  - apply stored_snoc; [done|done|unfold in_space in *; lia].
  - etrans; [apply edits_mem|apply edits_console].
  - intros a Ha Ho. apply (st8_outside _ _ count); [done|lia|done|done].
Qed.

(** A full line is returned as it is, whatever the keys. *)
Lemma read_keys_full `{Hardware} fuel echo buf count line ks out k :
  count ≤ Z.of_nat (length line) → stored (k_mem k) buf line → Z.of_nat (length line) ≤ count →
  line_edit count line ks = Some out →
  ∃ k', read_keys fuel echo buf count (Z.of_nat (length line)) k = Done (Z.of_nat (length out)) k' ∧
    edited buf count out k k'.
Proof.
  intros Hge Hst Hlen Hed. exists k. replace out with line.
  - split; [destruct fuel; cbn [read_keys]; by rewrite (proj2 (Z.ltb_ge _ _)) by done|by split_and!].
  - destruct ks; cbn [line_edit] in Hed; rewrite (proj2 (Z.ltb_ge _ _)) in Hed by done; congruence.
Qed.

(** The loop edits the line. *)
Lemma read_keys_run `{Hardware} keys echo buf count fuel :
  keyboard keys → echo_ok echo → in_space buf count →
  ∀ ks k line out,
  drop (key_reads (k_io k)) keys = ks → stored (k_mem k) buf line → Z.of_nat (length line) ≤ count →
  line_edit count line ks = Some out → (length ks ≤ fuel)%nat →
  ∃ k', read_keys fuel echo buf count (Z.of_nat (length line)) k = Done (Z.of_nat (length out)) k' ∧
    edited buf count out k k'.
Proof.
  intros Hkb Hecho Hsp. induction fuel as [|fuel IH]; intros ks k line out Hks Hst Hlen Hed Hf;
    (destruct (Z.ltb_spec (Z.of_nat (length line)) count) as [Hlt|Hge]; [|by eapply read_keys_full]);
    (destruct ks as [|key ks]; cbn [line_edit] in Hed; rewrite (proj2 (Z.ltb_lt _ _)) in Hed by done;
     [done|cbn [length] in Hf]); [lia|].
  cbn [read_keys]. rewrite (proj2 (Z.ltb_lt _ _)) by done.
  match goal with |- context [bind (inb 96) ?f k] =>
    destruct (next_key_run keys ks key f k Hkb Hks) as (Hkey & Hks1 & ->) end. cbv beta.
  set (k1 := set_io _ k). assert (He1 : edits k k1) by apply edits_io.
  assert (Hskip : line_edit count line ks = Some out →
    ∃ k', read_keys fuel echo buf count (Z.of_nat (length line)) k1 = Done (Z.of_nat (length out)) k' ∧
      edited buf count out k k').
  { intros Hed'. destruct (IH ks k1 line out Hks1 Hst Hlen Hed') as (k' & E & Hk'); [lia|].
    exists k'. split; [done|]. by apply (edited_step _ _ _ k k1). }
  destruct (key <? 128); [|by apply Hskip]. destruct (key =? 14).
  - destruct line as [|c line _] using rev_ind; [by apply Hskip|].
    rewrite removelast_last in Hed. rewrite length_app in *. cbn [length] in *.
    rewrite (proj2 (Z.ltb_lt 0 _)) by lia. unfold store8. rewrite bind_modify.
    replace (Z.of_nat (length line + 1) - 1) with (Z.of_nat (length line)) by lia.
    set (k2 := set_mem _ k1). destruct (IH ks k2 line out) as (k' & E & Hk'); [done| |lia|done|lia|].
    { apply (stored_removelast _ _ _ c); [done|]. unfold in_space in *; lia. }
    exists k'. split; [done|]. apply (edited_step _ _ _ k k2); [|intros a Ha Ho|done].
    + etrans; [exact He1|apply edits_mem].
    + apply (st8_outside _ _ count); [done|lia|done|done].
  - destruct (key_char key) as [c|] eqn:Hc; [|done]. cbn [mbind option_bind] in Hed.
    apply key_char_byte in Hc as Hcb. destruct (c =? 0); [by apply Hskip|].
    match goal with |- context [bind (echo c) (λ _, ?f)] =>
      destruct (store_char_run echo buf count line c f k1 Hecho Hsp Hlt Hcb Hst) as (k3 & -> & Hst3 & He3 & Hr3 & Ho3) end.
    apply (transitivity He1) in He3. destruct (c =? 10) eqn:Ec10.
    + injection Hed as <-. exists k3. rewrite length_app. cbn [length]. apply Z.eqb_eq in Ec10 as ->.
      split; [unfold ret; f_equal; lia|]. split_and!; try done. rewrite length_app; cbn; lia.
    + destruct (IH ks k3 (line ++ [c]) out) as (k' & E & Hk'); [by rewrite Hr3|done| |done|lia|].
      { rewrite length_app; cbn; lia. }
      rewrite length_app in E. cbn [length] in E.
      replace (Z.of_nat (length line) + 1) with (Z.of_nat (length line + 1)) by lia.
      exists k'. split; [done|]. by apply (edited_step _ _ _ k k3).
Qed.

(** ** The registry as a list *)

(** [l] are the addresses of the devices from [h] on, most recent first. *)
Fixpoint dev_chain (m : gmap Z device_t) (h : Z) (l : list Z) : Prop :=
  match l with
  | [] => h = NULL
  | a :: l => h = a ∧ a ≠ NULL ∧ ∃ d, m !! a = Some d ∧ dev_chain m (dev_next d) l
  end.

Definition registry (s : device_state) (l : list Z) : Prop :=
  dev_chain (devices s) (device_list s) l ∧ NoDup l.

Definition name_at (s : device_state) (a : Z) : list Z :=
  match devices s !! a with Some d => dev_name d | None => [] end.

(** The first device called [name]. *)
Fixpoint find_device (s : device_state) (name : list Z) (l : list Z) : option Z :=
  match l with
  | [] => None
  | a :: l => if bool_decide (name_at s a = name) then Some a else find_device s name l
  end.

Lemma deref_run a d k : devices (k_dev k) !! a = Some d → deref a k = Done d k.
Proof. unfold deref. by intros ->. Qed.

Lemma name_at_dev s a d : devices s !! a = Some d → name_at s a = dev_name d.
Proof. unfold name_at. by intros ->. Qed.

Lemma dev_chain_ext m m' h l :
  (∀ a, a ∈ l → m' !! a = m !! a) → dev_chain m h l → dev_chain m' h l.
Proof.
  revert h. induction l as [|a l IH]; intros h Hm; cbn; [done|].
  intros (-> & Ha & d & Hd & Hl). split; [done|]. split; [done|]. exists d.
  rewrite Hm by set_solver. split; [done|]. apply IH; [|done]. set_solver.
Qed.

Definition is_some_b {A} (o : option A) : bool := match o with Some _ => true | None => false end.

Lemma name_taken_run fuel name k l h :
  dev_chain (devices (k_dev k)) h l → (length l ≤ fuel)%nat →
  name_taken fuel name h k = Done (is_some_b (find_device (k_dev k) name l)) k.
Proof.
  revert fuel h. induction l as [|a l IH]; intros fuel h Hl Hf; cbn [dev_chain length] in *.
  - subst h. by destruct fuel.
  - destruct Hl as (-> & Ha & d & Hd & Hl). destruct fuel as [|fuel]; [lia|].
    cbn [name_taken find_device]. rewrite (proj2 (Z.eqb_neq _ _)) by done.
    rewrite (bind_done _ _ _ _ _ (deref_run _ _ _ Hd)), (name_at_dev _ _ _ Hd).
    destruct (bool_decide _); [done|]. apply IH; [done|lia].
Qed.

Lemma get_device_loop_run fuel name k l h :
  dev_chain (devices (k_dev k)) h l → (length l ≤ fuel)%nat →
  get_device_loop fuel name h k = Done (default NULL (find_device (k_dev k) name l)) k.
Proof.
  revert fuel h. induction l as [|a l IH]; intros fuel h Hl Hf; cbn [dev_chain length] in *.
  - subst h. by destruct fuel.
  - destruct Hl as (-> & Ha & d & Hd & Hl). destruct fuel as [|fuel]; [lia|].
    cbn [get_device_loop find_device]. rewrite (proj2 (Z.eqb_neq _ _)) by done.
    rewrite (bind_done _ _ _ _ _ (deref_run _ _ _ Hd)), (name_at_dev _ _ _ Hd).
    destruct (bool_decide _); [done|]. apply IH; [done|lia].
Qed.

Lemma find_device_some s name l a :
  find_device s name l = Some a →
  ∃ l1 l2, l = l1 ++ a :: l2 ∧ name_at s a = name ∧ Forall (λ b, name_at s b ≠ name) l1.
Proof.
  induction l as [|b l IH]; cbn; [done|]. case_bool_decide as E.
  - intros [= <-]. exists [], l. by split_and!.
  - intros H. destruct (IH H) as (l1 & l2 & -> & Hn & Hf). exists (b :: l1), l2.
    split_and!; [done..|]. by constructor.
Qed.

(** The device that links to [a], and the chain with [a] unlinked. *)
Lemma dev_chain_link m h pre p l :
  dev_chain m h ((pre ++ [p]) ++ l) → ∃ d, m !! p = Some d ∧ p ≠ NULL ∧ dev_chain m (dev_next d) l.
Proof.
  revert h. induction pre as [|b pre IH]; intros h; cbn.
  - intros (_ & Hp & d & Hd & Hl). by exists d.
  - intros (_ & _ & d & _ & Hl). by apply (IH (dev_next d)).
Qed.

Lemma dev_chain_unlink m h pre p a d dp l :
  m !! a = Some d → m !! p = Some dp → dev_chain m h (pre ++ p :: a :: l) → NoDup (pre ++ p :: a :: l) →
  dev_chain (<[p := set_dev_next (dev_next d) dp]> m) h (pre ++ p :: l).
Proof.
  intros Ha Hp. revert h. induction pre as [|b pre IH]; intros h; cbn.
  - intros (-> & Hpn & dp' & _ & _ & _ & d' & Hd' & Hl) Hnd. rewrite Ha in Hd'. injection Hd' as <-.
    split; [done|]. split; [done|]. eexists. rewrite lookup_insert_eq. split; [done|].
    apply (dev_chain_ext m); [|done]. intros b Hb. apply lookup_insert_ne.
    rewrite !list.NoDup_cons in Hnd. intros ->. set_solver.
  - intros (-> & Hb & db & Hdb & Hl) Hnd. apply list.NoDup_cons in Hnd as [Hbn Hnd].
    split; [done|]. split; [done|]. exists db. rewrite lookup_insert_ne by set_solver.
    split; [done|]. by apply IH.
Qed.

(** [unregister_device] walks to the first device of that name, with [prev]
    behind it, and takes it out. *)
Lemma unregister_loop_run fuel name k pre l h :
  registry (k_dev k) (pre ++ l) → dev_chain (devices (k_dev k)) h l → (length l ≤ fuel)%nat →
  match find_device (k_dev k) name l with
  | None => unregister_loop fuel name (default NULL (list.last pre)) h k = Done (-1) k
  | Some a => ∃ l1 l2 s', l = l1 ++ a :: l2 ∧ registry s' (pre ++ l1 ++ l2) ∧
      (∀ b, b ∈ pre ++ l1 ++ l2 → name_at s' b = name_at (k_dev k) b) ∧
      (∀ k2, kfree a (set_dev s' k) = Done tt k2 → ∃ s io,
        unregister_loop fuel name (default NULL (list.last pre)) h k = Done 0 (with_console s io k2))
  end.
Proof.
  revert fuel pre h. induction l as [|a l IH]; intros fuel pre h Hreg Hl Hf; cbn [dev_chain length find_device] in *.
  { subst h. by destruct fuel. }
  destruct Hl as (-> & Ha & d & Hd & Hl). destruct fuel as [|fuel]; [lia|].
  cbn [unregister_loop]. rewrite (proj2 (Z.eqb_neq _ _)) by done.
  rewrite (bind_done _ _ _ _ _ (deref_run _ _ _ Hd)), (name_at_dev _ _ _ Hd).
  case_bool_decide as E.
  - destruct Hreg as [Hch Hnd]. exists [], l.
    assert (∃ s', registry s' (pre ++ l) ∧ (∀ b, b ∈ pre ++ l → name_at s' b = name_at (k_dev k) b) ∧
      (if default NULL (list.last pre) =? NULL then upd_dev (set_list (dev_next d))
       else let* p := deref (default NULL (list.last pre)) in
            upd_dev (put_device (default NULL (list.last pre)) (set_dev_next (dev_next d) p))) k
        = Done tt (set_dev s' k)) as (s' & Hreg' & Hnames & Hrun).
    { destruct pre as [|p pre _] using rev_ind.
      - exists (set_list (dev_next d) (k_dev k)). split; [|by split].
        apply list.NoDup_cons in Hnd as [_ Hnd]. by split.
      - rewrite last_snoc. cbn [default from_option id].
        destruct (dev_chain_link _ _ _ _ _ Hch) as (dp & Hp & Hpn & Hdp).
        rewrite (proj2 (Z.eqb_neq p NULL)) by done.
        exists (put_device p (set_dev_next (dev_next d) dp) (k_dev k)).
        split; [split|split].
        + rewrite <- app_assoc in *. cbn [app] in *.
          apply (dev_chain_unlink _ _ _ _ a d); [done..|]. by cbn in Hnd.
        + rewrite <- app_assoc in *. cbn in Hnd |- *. rewrite !list.NoDup_app, !list.NoDup_cons in *.
          set_solver.
        + intros b Hb. unfold name_at, put_device; cbn [devices].
          destruct (decide (p = b)) as [->|Hne]; [by rewrite lookup_insert_eq, Hp|by rewrite lookup_insert_ne].
        + rewrite (bind_done _ _ _ _ _ (deref_run _ _ _ Hp)). done. }
    exists s'. split; [done|]. split; [done|]. split; [done|]. intros k2 Hk2.
    rewrite (bind_done _ _ _ _ _ Hrun), (bind_done _ _ _ _ _ Hk2).
    do 4 print_step. eexists _, _. unfold ret. f_equal.
  - pose proof (IH fuel (pre ++ [a]) (dev_next d)) as IH'. rewrite last_snoc in IH'. cbn [default from_option id] in IH'.
    rewrite <- app_assoc in IH'. specialize (IH' Hreg Hl ltac:(lia)).
    destruct (find_device (k_dev k) name l) as [b|]; [|done].
    destruct IH' as (l1 & l2 & s' & -> & Hreg' & Hn & Hk).
    exists (a :: l1), l2, s'. rewrite <- app_assoc in Hreg', Hn. by split_and!.
Qed.

Lemma name_at_ext s s' name l :
  (∀ a, a ∈ l → name_at s' a = name_at s a) → find_device s' name l = find_device s name l.
Proof.
  induction l as [|a l IH]; intros Hn; cbn; [done|]. rewrite Hn by set_solver.
  rewrite IH; [done|]. set_solver.
Qed.

Lemma get_device_run fuel name k l :
  registry (k_dev k) l → (length l ≤ fuel)%nat →
  get_device fuel name k = Done (default NULL (find_device (k_dev k) name l)) k.
Proof. intros [Hch _] Hf. unfold get_device. rewrite bind_gets. by apply get_device_loop_run. Qed.

(** The heap does not look at the devices or the console. *)
Lemma heap_rep_ext k k' bs :
  k_mem k' = k_mem k → k_heap k' = k_heap k → heap_rep k bs → heap_rep k' bs.
Proof. intros Hm Hh [[H1 H2 H3 H4 H5 H6 H7] Hc]. split; [|done]. split; rewrite ?Hm, ?Hh; done. Qed.

(** ** Properties *)

(** C15: The console driver is a line editor: on a keyboard that delivers [keys],
    when editing an empty line of at most [count] characters with them yields
    [out], [console_read] returns the length of [out], leaves [out] in the buffer
    and writes nowhere outside the [count] bytes of the buffer. *)
Theorem console_read_edits `{Hardware} fuel keys buf count out k :
  keyboard keys → in_space buf count → 0 ≤ count < 2147483648 →
  line_edit count [] (drop (key_reads (k_io k)) keys) = Some out → (length keys ≤ fuel)%nat →
  ∃ k', console_read fuel buf count k = Done (Z.of_nat (length out)) k' ∧
    Z.of_nat (length out) ≤ count ∧ stored (k_mem k') buf out ∧
    ∀ a, in_space a 1 → a < buf ∨ buf + count ≤ a → ld8 (k_mem k') a = ld8 (k_mem k) a.
Proof.
  intros Hkb Hsp Hc Hed Hf.
  assert (Hecho : echo_ok (λ _, ret tt)).
  { intros c k0. exists (k_screen k0), (k_io k0). by destruct k0. }
  destruct (read_keys_run keys (λ _, ret tt) buf count fuel Hkb Hecho Hsp _ k [] out eq_refl)
    as (k' & E & H1 & H2 & H3 & _); [done|cbn; lia|done|rewrite length_drop; lia|].
  - exists k'. cbn [length] in E. unfold console_read. rewrite (bind_done _ _ _ _ _ E).
    split; [unfold ret; by rewrite s32_small by lia|]. by split_and!.
Qed.

(** C33: The device list is a registry by name, latest first: [get_device] finds
    the first device of a name; [register_device] refuses a taken name and
    otherwise adds the device in front, where its name then leads to it; and
    [device_read] and its siblings call the driver's function with the device's
    private data, or return -1 when the device, its operations or the function is
    missing. *)
Theorem device_registry `{Hardware, Drivers} fuel k l name :
  registry (k_dev k) l → (length l ≤ fuel)%nat →
  get_device fuel name k = Done (default NULL (find_device (k_dev k) name l)) k ∧
  (∀ a d, devices (k_dev k) !! a = Some d → a ≠ NULL → a ∉ l →
     (∀ o, ops d = Some o → op_init o = None ∨ op_init o = Some fn_null_init) →
     ∃ r k', register_device fuel a k = Done r k' ∧
       match find_device (k_dev k) (dev_name d) l with
       | Some _ => r = -1 ∧ same_but_console k k'
       | None => r = 0 ∧ registry (k_dev k') (a :: l) ∧
           find_device (k_dev k') (dev_name d) (a :: l) = Some a ∧
           ∀ n, n ≠ dev_name d → find_device (k_dev k') n (a :: l) = find_device (k_dev k) n l
       end) ∧
  ∀ sel args, device_op fuel name sel args k =
    match (a ← find_device (k_dev k) name l; d ← devices (k_dev k) !! a; o ← ops d;
           f ← sel o; Some (call_fn fuel f (private_data d :: args))) with
    | Some call => call k
    | None => Done (-1) k
    end.
Proof.
  intros Hreg Hf. pose proof Hreg as [Hch Hnd]. split; [by apply get_device_run|]. split.
  - intros a d Hd Ha Hal Hinit. unfold register_device. rewrite (proj2 (Z.eqb_neq _ _) Ha).
    rewrite (bind_done _ _ _ _ _ (deref_run _ _ _ Hd)), bind_gets.
    rewrite (bind_done _ _ _ _ _ (name_taken_run fuel _ k l _ Hch Hf)).
    destruct (find_device (k_dev k) (dev_name d) l) as [b|] eqn:Ef; cbn [is_some_b].
    { do 4 print_step. eexists _, _. split; [done|]. split; [done|].
      do 3 (etrans; [apply same_but_console_with|]). apply same_but_console_with. }
    unfold upd_dev. rewrite !bind_modify. set (k1 := set_dev _ _).
    match goal with |- context [bind ?c _ k1] => assert (c k1 = Done tt k1) as Hi end.
    { destruct (ops d) as [o|]; [|done]. destruct (Hinit o eq_refl) as [-> | ->]; done. }
    rewrite (bind_done _ _ _ _ _ Hi). do 4 print_step. eexists 0, _. split; [done|]. split; [done|].
    cbn [k_dev with_console set_io set_screen]. set (sd := k_dev k1).
    assert (Hsd : sd = mk_device_state (<[a := set_dev_next (device_list (k_dev k)) d]> (devices (k_dev k))) a)
      by done. clearbody sd. subst sd.
    assert (Hat : ∀ b, b ∈ l → name_at (mk_device_state (<[a := set_dev_next (device_list (k_dev k)) d]>
      (devices (k_dev k))) a) b = name_at (k_dev k) b).
    { intros b Hb. unfold name_at; cbn [devices]. rewrite lookup_insert_ne; [done|]. by intros ->. }
    assert (Haa : name_at (mk_device_state (<[a := set_dev_next (device_list (k_dev k)) d]>
      (devices (k_dev k))) a) a = dev_name d) by (unfold name_at; cbn [devices]; by rewrite lookup_insert_eq).
    split; [split|split].
    + cbn. split; [done|]. split; [done|]. eexists. rewrite lookup_insert_eq. split; [done|].
      apply (dev_chain_ext (devices (k_dev k))); [|done]. intros b Hb. apply lookup_insert_ne. by intros ->.
    + by apply list.NoDup_cons.
    + cbn [find_device]. by rewrite Haa, bool_decide_true.
    + intros n Hn. cbn [find_device]. rewrite Haa, bool_decide_false by done. by apply name_at_ext.
  - intros sel args. unfold device_op. rewrite (bind_done _ _ _ _ _ (get_device_run _ _ _ _ Hreg Hf)).
    destruct (find_device (k_dev k) name l) as [a|] eqn:Ef; [|done].
    destruct (find_device_some _ _ _ _ Ef) as (l1 & l2 & -> & Hn & _).
    destruct (dev_chain_link (devices (k_dev k)) (device_list (k_dev k)) l1 a l2) as (d & Hd & Ha & _);
      [by rewrite <- app_assoc|].
    cbn [default from_option id]. rewrite (proj2 (Z.eqb_neq _ _) Ha).
    rewrite (bind_done _ _ _ _ _ (deref_run _ _ _ Hd)). cbn [mbind option_bind]. rewrite Hd.
    cbn. destruct (ops d) as [o|]; cbn; [|done]. by destruct (sel o).
Qed.

(** [unregister_device] of a registered name takes the first device of that
    name off the list and returns its block to the heap, merged with the free
    blocks around it; it returns -1 and changes nothing for any other name. *)
Theorem unregister_device_frees fuel k l name bs :
  registry (k_dev k) l → (length l ≤ fuel)%nat → heap_rep k bs →
  match find_device (k_dev k) name l with
  | None => unregister_device fuel name k = Done (-1) k
  | Some a => ∀ hl b hr, bs = hl ++ b :: hr → b_free b = false → a = b_addr b + 16 →
      ∃ l1 l2 k', l = l1 ++ a :: l2 ∧ unregister_device fuel name k = Done 0 k' ∧
        registry (k_dev k') (l1 ++ l2) ∧
        (∀ n, find_device (k_dev k') n (l1 ++ l2) = find_device (k_dev k) n (l1 ++ l2)) ∧
        heap_rep k' (coalesce (hl ++ mk_blk (b_addr b) (b_size b) true :: hr))
  end.
Proof.
  intros Hreg Hf Hheap. pose proof Hreg as [Hch _]. unfold unregister_device. rewrite bind_gets.
  pose proof (unregister_loop_run fuel name k [] l _ Hreg Hch Hf) as Hrun.
  destruct (find_device (k_dev k) name l) as [a|]; [|exact Hrun].
  destruct Hrun as (l1 & l2 & s' & -> & Hreg' & Hn & Hk). intros hl b hr -> Hb ->.
  destruct (kfree_run (set_dev s' k) hl b hr) as (k2 & Ek & Hh2 & Hho & _); [|done|].
  { by apply (heap_rep_ext k). }
  destruct (Hk k2 Ek) as (s & io & E). exists l1, l2. eexists. split; [done|]. split; [exact E|].
  assert (Hd2 : k_dev k2 = s') by (rewrite Hho; done).
  cbn [k_dev with_console set_io set_screen]. rewrite Hd2. split; [done|].
  split; [intros n; by apply name_at_ext|]. by apply (heap_rep_ext k2).
Qed.

(** *** Witnesses *)

(** A keyboard with the given keys, and no other device. *)
Definition typing (keys : list Z) : Hardware := {|
  hw_in8 io port := if port =? 0x60 then default 0xFF (keys !! key_reads io) else 0;
  hw_in16 _ _ := 0 |}.

Lemma typing_keyboard keys : Forall (λ key, 0 ≤ key < 256) keys → @keyboard (typing keys) keys.
Proof. intros Hb. split; [done|]. intros io key Hk. cbn. by rewrite Hk. Qed.

(** "hi", a release, Backspace, Enter. *)
Definition typed : list Z := [0x23; 0x17; 0x97; 0x0E; 0x1C].

Lemma console_read_edits_witness :
  ∃ k', @console_read (typing typed) 5 0x3000 80 kernel_bss = Done 2 k' ∧
    ld8 (k_mem k') 0x3000 = 104 ∧ ld8 (k_mem k') 0x3001 = 10.
Proof.
  destruct (@console_read_edits (typing typed) 5 typed 0x3000 80 [104; 10] kernel_bss)
    as (k' & E & _ & Hs & _).
  - apply typing_keyboard. refine (bool_decide_unpack _ _). reflexivity.
  - unfold in_space. lia.
  - lia.
  - reflexivity.
  - cbn. lia.
  - exists k'. split; [exact E|]. split; [exact (Hs 0%nat 104 eq_refl)|exact (Hs 1%nat 10 eq_refl)].
Defined.

Definition no_drivers : Drivers := λ _ _, ret 0.

Definition dev_null : device_t :=
  mk_device DEV_NULL DEV_CHAR (Z.lor DEV_READABLE DEV_WRITABLE) 0 NULL (Some null_ops) NULL.
Definition dev_zero : device_t :=
  mk_device DEV_ZERO DEV_CHAR (Z.lor DEV_READABLE DEV_WRITABLE) 0 NULL (Some zero_ops) NULL.

(** The null device is registered, in the block [heap1] has allocated; a zero
    device waits at 0x8000. *)
Definition dev1 : kernel :=
  set_dev (mk_device_state {[4112 := dev_null; 0x8000 := dev_zero]} 4112) heap1.

Lemma dev1_registry : registry (k_dev dev1) [4112].
Proof.
  split; [|apply list.NoDup_singleton]. cbn. split; [done|]. split; [done|].
  exists dev_null. split; reflexivity.
Qed.

Lemma device_registry_witness :
  ∃ k', @register_device (typing []) no_drivers 1 0x8000 dev1 = Done 0 k' ∧
    find_device (k_dev k') DEV_NULL [0x8000; 4112] = Some 4112.
Proof.
  destruct (@device_registry (typing []) no_drivers 1 dev1 [4112] DEV_NULL dev1_registry)
    as (_ & Hr & _); [cbn; lia|].
  destruct (Hr 0x8000 dev_zero) as (r & k' & E & H);
    [reflexivity|discriminate|set_solver|intros o [= <-]; right; reflexivity|].
  destruct H as (-> & _ & _ & Hn). exists k'. split; [exact E|]. rewrite Hn by discriminate. reflexivity.
Defined.

Lemma unregister_device_frees_witness :
  ∃ k', unregister_device 1 DEV_NULL dev1 = Done 0 k' ∧ heap_rep k' heap0_blocks.
Proof.
  pose proof (unregister_device_frees 1 dev1 [4112] DEV_NULL heap1_blocks dev1_registry) as H.
  destruct (H ltac:(cbn; lia) (heap_rep_ext heap1 dev1 _ eq_refl eq_refl heap1_rep)
    [] (mk_blk 4096 40 false) [mk_blk 4136 216 true] eq_refl eq_refl eq_refl) as (l1 & l2 & k' & _ & E & _ & _ & Hh).
  exists k'. split; [exact E|exact Hh].
Defined.
