(* ===== verification/Syscall.v ===== *)
(** * System calls (kernel/syscall.c)

    The system call table and its dispatcher, the ramdisk that [execve] loads
    from, and the calls themselves.  A [char *] argument is an address in memory.
    The dispatcher is reached through an interrupt and [sys_yield] raises one, so
    the file both provides and uses the interface [SyscallEntry]; the knot is tied
    with a depth of nested interrupts in [syscall_entry].  [struct stat], which no
    file declares, is the class [StatLayout]. *)

From S2P Require Import Prelude Memory Types Machine Mmu Screen Pmm Paging Interrupts Process Device Cstring.
Import ScreenH PagingH ProcessH InterruptH SyscallH.

Class StatLayout := {
  sizeof_stat : Z; off_st_mode : Z; off_st_size : Z; mode_regular : Z }.

(** ** Strings in memory *)

(** [strcmp(p, lit) == 0] for a string that is not in the modelled memory. *)
Fixpoint str_is (m : mem) (p : Z) (lit : list Z) : bool :=
  match lit with
  | [] => ld8 m p =? 0
  | c :: lit => (ld8 m p =? c) && str_is m (p + 1) lit
  end.

(** [screen_putstr(p)] *)
Fixpoint putstr_at (fuel : nat) (p : Z) : K unit :=
  match fuel with
  | O => spin
  | S fuel =>
      let* c := load8 p in
      if c =? 0 then ret tt else screen_putchar c ;;; putstr_at fuel (p + 1)
  end.

(** ** The ramdisk *)

Definition upd_sys (f : syscall_state → syscall_state) : K unit :=
  modify (λ k, set_sys (f (k_sys k)) k).

Definition set_table_count (t : list syscall_info_t) (n : Z) (s : syscall_state) : syscall_state :=
  mk_syscall_state t n (ramdisk s).
Definition put_ramdisk (i : nat) (e : ramdisk_entry) (s : syscall_state) : syscall_state :=
  mk_syscall_state (syscall_table s) (syscall_count s) (<[i := e]> (ramdisk s)).

Definition rd_entry (s : syscall_state) (i : nat) : ramdisk_entry :=
  default (mk_ramdisk None 0 0) (ramdisk s !! i).

(** Slot [i] of [n] left: the one of that name, or the first empty one. *)
Fixpoint ramdisk_slot (n i : nat) (name : list Z) (s : syscall_state) : option nat :=
  match n with
  | O => None
  | S n =>
      match rd_name (rd_entry s i) with
      | Some nm => if bool_decide (nm = name) then Some i else ramdisk_slot n (S i) name s
      | None => Some i
      end
  end.

Definition ramdisk_register (name : list Z) (code size : Z) : K Z :=
  let* s := gets k_sys in
  match ramdisk_slot 8 0 name s with
  | Some i => upd_sys (put_ramdisk i (mk_ramdisk (Some name) code size)) ;;; ret 0
  | None => ret (-1)
  end.

(** The entry [path] names, up to the first empty slot. *)
Fixpoint ramdisk_find (n i : nat) (m : mem) (path : Z) (s : syscall_state) : option ramdisk_entry :=
  match n with
  | O => None
  | S n =>
      match rd_name (rd_entry s i) with
      | Some nm => if str_is m path nm then Some (rd_entry s i) else ramdisk_find n (S i) m path s
      | None => None
      end
  end.

Definition user_base : Z := 0x400000.
Definition stack_vaddr : Z := 0xBFC00000.
Definition user_flags : Z := Z.lor (Z.lor PAGE_USER PAGE_PRESENT) PAGE_RW.

Section Load.
Context `{PageAllocator}.

(** The loop over the code pages, lines 53-60, and whether it ran out of pages.  The
    copy goes through the page that was mapped for it. *)
Fixpoint load_pages (fuel : nat) (code size off : Z) : K bool :=
  if off <? size then
    match fuel with
    | O => spin
    | S fuel =>
        let vaddr := u32 (user_base + off) in
        let* page := pmm_alloc_page in
        if page =? NULL then ret false
        else
          vmm_map_page vaddr page user_flags ;;;
          let chunk := if 0x1000 <? size - off then 0x1000 else size - off in
          vmemcpy vaddr (u32 (code + off)) chunk ;;;
          load_pages fuel code size (u32 (off + 0x1000))
    end
  else ret true.

(** The entry point and the stack top, [None] for -1. *)
Definition ramdisk_load (fuel : nat) (path : Z) : K (option (Z * Z)) :=
  let* s := gets k_sys in
  let* m := gets k_mem in
  match ramdisk_find 8 0 m path s with
  | None => ret None
  | Some e =>
      if rd_data e =? NULL then ret None
      else
        let* ok := load_pages fuel (rd_data e) (rd_size e) 0 in
        if negb ok then ret None
        else
          let* stack_page := pmm_alloc_page in
          if stack_page =? NULL then ret None
          else
            vmm_map_page (stack_vaddr - 0x1000) stack_page user_flags ;;;
            ret (Some (user_base, stack_vaddr))
  end.

End Load.

(** ** Registration *)

Definition no_call : syscall_info_t := mk_syscall_info 0 [] None.

(** [syscall_table[n]]: outside the table the access is undefined. *)
Definition call_at (n : Z) : K syscall_info_t := λ k,
  match syscall_table (k_sys k) !! Z.to_nat n with Some e => Done e k | None => Fault end.

Definition register_syscall (n : Z) (name : list Z) (h : syscall_t) : K Z :=
  let* refused :=
    if MAX_SYSCALLS <=? n then ret true
    else let* e := call_at n in ret (bool_decide (handler e ≠ None)) in
  if refused : bool then ret (-1)
  else
    upd_sys (λ s, set_table_count (<[Z.to_nat n := mk_syscall_info n name (Some h)]> (syscall_table s))
      (u32 (syscall_count s + 1)) s) ;;;
    ret 0.

(** The index of the entry pointed to, [None] for NULL. *)
Definition get_syscall_info (n : Z) : option nat :=
  if MAX_SYSCALLS <=? n then None else Some (Z.to_nat n).

(** The calls [init_syscalls] registers, lines 84-98. *)
Definition registrations : list (Z * list Z * syscall_t) :=
  [(SYS_EXIT, cstr "exit", h_sys_exit); (SYS_FORK, cstr "fork", h_sys_fork);
   (SYS_READ, cstr "read", h_sys_read); (SYS_WRITE, cstr "write", h_sys_write);
   (SYS_OPEN, cstr "open", h_sys_open); (SYS_CLOSE, cstr "close", h_sys_close);
   (SYS_EXECVE, cstr "execve", h_sys_execve); (SYS_WAITPID, cstr "waitpid", h_sys_waitpid);
   (SYS_BRK, cstr "brk", h_sys_brk); (SYS_GETPID, cstr "getpid", h_sys_getpid);
   (SYS_SLEEP, cstr "sleep", h_sys_sleep); (SYS_GETTIME, cstr "gettime", h_sys_gettime);
   (SYS_YIELD, cstr "yield", h_sys_yield); (SYS_SBRK, cstr "sbrk", h_sys_sbrk);
   (SYS_KILL, cstr "kill", h_sys_kill)].

Definition init_syscalls : K unit :=
  screen_putstr (cstr "Initializing System Calls... ") ;;;
  upd_sys (set_table_count (replicate 32 no_call) 0) ;;;
  for_list registrations (λ '(n, name, h), let* _ := register_syscall n name h in ret tt) ;;;
  register_interrupt_handler 0x80 isr_syscall_handler ;;;
  screen_setcolor COLOR_LIGHT_GREEN COLOR_BLACK ;;;
  screen_putstr (cstr "OK" ++ [10]) ;;;
  screen_setcolor COLOR_LIGHT_GREY COLOR_BLACK ;;;
  screen_putstr (cstr "  Registered ") ;;;
  let* s := gets k_sys in
  screen_putdec (syscall_count s) ;;;
  screen_putstr (cstr " system calls" ++ [10]).

(** ** The system calls *)

(** [proc] of [pcb_t* proc = get_current_process()], when it is dereferenced. *)
Definition with_current {A} (f : nat → pcb_t → K A) : K A :=
  let* s := gets k_proc in
  match current_process s with
  | Some c => f c (pcb (process_table s) c)
  | None => fault
  end.

Definition set_fd (v : list Z) (p : pcb_t) : pcb_t :=
  mk_pcb (kernel_esp p) (eflags p) (page_dir_phys p) (pid p) (name p) (state p) (eax p) (ebx p)
    (ecx p) (edx p) (esi p) (edi p) (ebp p) (esp p) (eip p) (cs p) (ds p) (es p) (fs p) (gs p)
    (ss p) (page_dir p) (brk p) v (parent p) (children p) (sibling p) (next p) (time_slice p)
    (sleep_until p) (exit_code p) (priority p) (wakeup_time p).

Definition fd_at (p : pcb_t) (i : Z) : Z := default 0 (fd p !! Z.to_nat i).
Definition put_fd (i v : Z) (p : pcb_t) : pcb_t := set_fd (<[Z.to_nat i := v]> (fd p)) p.

(** The first descriptor at [i] or above, below 16, that is -1. *)
Fixpoint free_fd (n : nat) (i : Z) (p : pcb_t) : option Z :=
  match n with
  | O => None
  | S n => if fd_at p i =? -1 then Some i else free_fd n (i + 1) p
  end.

Definition sys_exit (fuel : nat) (exit_code : Z) : K Z := exit_process fuel exit_code ;;; ret 0.

Definition sys_fork (fuel : nat) : K Z :=
  let* child := fork_process fuel in
  match child with
  | Some i => let* s := gets k_proc in ret (s32 (pid (pcb (process_table s) i)))
  | None => ret (-1)
  end.

(** The loop is [console_read]'s with an echo; the delay has no effect. *)
Definition sys_read `{Hardware} (fuel : nat) (fd buf count : Z) : K Z :=
  if fd =? 0 then
    let* i := read_keys fuel screen_putchar buf count 0 in
    ret (s32 i)
  else ret (-1).

Definition sys_write (fd buf count : Z) : K Z :=
  if (fd =? 1) || (fd =? 2) then
    for_list (seqZ 0 count) (λ i, let* c := load8 (buf + i) in screen_putchar c) ;;;
    ret (s32 count)
  else ret (-1).

Definition sys_open (path flags mode : Z) : K Z :=
  let* m := gets k_mem in
  if str_is m path (cstr "/dev/tty") || str_is m path (cstr "/dev/console") then ret 0
  else if str_is m path (cstr "/dev/stdout") then ret 1
  else if str_is m path (cstr "/dev/stderr") then ret 2
  else ret (-1).

Definition sys_close (fd : Z) : K Z :=
  if (fd <? 0) || (16 <=? fd) then ret (-1)
  else with_current (λ c _, upd_proc (upd_pcb c (put_fd fd (-1))) ;;; ret 0).

Definition sys_execve `{PageAllocator} (fuel : nat) (path argv envp : Z) : K Z :=
  let* r := ramdisk_load fuel path in
  match r with
  | None =>
      screen_setcolor COLOR_RED COLOR_BLACK ;;;
      screen_putstr (cstr "execve: not found: ") ;;;
      putstr_at fuel path ;;;
      screen_putstr [10] ;;;
      ret (-1)
  | Some (entry, stack_top) =>
      with_current (λ c _,
        upd_proc (upd_pcb c (set_eip entry)) ;;;
        upd_proc (upd_pcb c (set_esp stack_top)) ;;;
        ret 0)
  end.

Definition sys_waitpid (fuel : nat) (pid status options : Z) : K Z :=
  wait_process fuel pid ;;;
  (if status =? NULL then ret tt else store32 status 0) ;;;
  ret pid.

Definition sys_brk (addr : Z) : K Z :=
  with_current (λ c p,
    if addr =? NULL then ret (s32 (brk p))
    else upd_proc (upd_pcb c (set_brk addr)) ;;; ret 0).

Definition sys_getpid : K Z := get_pid.
Definition sys_sleep (fuel : nat) (milliseconds : Z) : K Z := sleep_process fuel milliseconds ;;; ret 0.
Definition sys_gettime : K Z := let* t := get_time_ms in ret (s32 t).

Definition sys_yield `{SyscallEntry} : K Z := yield (regs_int 32) ;;; ret 0.

Definition sys_sbrk (increment : Z) : K Z :=
  with_current (λ c p,
    let old := brk p in
    upd_proc (upd_pcb c (set_brk (u32 (brk p + increment)))) ;;;
    ret (s32 old)).

Definition sys_kill (pid sig : Z) : K Z := let* _ := kill_process pid sig in ret 0.

(** The following calls are in no table. *)
Definition sys_dup (oldfd : Z) : K Z :=
  if (oldfd <? 0) || (16 <=? oldfd) then ret (-1)
  else
    with_current (λ c p,
      if fd_at p oldfd =? -1 then ret (-1)
      else
        match free_fd 13 3 p with
        | Some i => upd_proc (upd_pcb c (λ p, put_fd i (fd_at p oldfd) p)) ;;; ret i
        | None => ret (-1)
        end).

Definition sys_pipe (pipefd : Z) : K Z :=
  with_current (λ c p,
    match free_fd 13 3 p with
    | None => ret (-1)
    | Some fd1 =>
        match free_fd (Z.to_nat (15 - fd1)) (fd1 + 1) p with
        | None => ret (-1)
        | Some fd2 =>
            upd_proc (upd_pcb c (put_fd fd1 100)) ;;;
            upd_proc (upd_pcb c (put_fd fd2 101)) ;;;
            (if pipefd =? NULL then ret tt
             else store32 pipefd fd1 ;;; store32 (pipefd + 4) fd2) ;;;
            ret 0
        end
    end).

Definition sys_chdir (path : Z) : K Z := ret 0.

Definition sys_getcwd (buf size : Z) : K Z :=
  if (buf =? NULL) || (size <? 2) then ret (-1)
  else store8 buf 47 ;;; store8 (buf + 1) 0 ;;; ret 1.

Definition sys_stat `{StatLayout} (path statbuf : Z) : K Z :=
  if statbuf =? NULL then ret (-1)
  else
    modify (λ k, set_mem (memset (k_mem k) statbuf 0 sizeof_stat) k) ;;;
    store32 (statbuf + off_st_mode) mode_regular ;;;
    store32 (statbuf + off_st_size) 0 ;;;
    ret 0.

(** ** The dispatcher *)

Section Dispatch.
Context `{Hardware, PageAllocator, SyscallEntry}.

(** [handler(ebx, ecx, edx, esi, edi)]: each call takes the arguments it has,
    converted to their types. *)
Definition call_syscall (fuel : nat) (h : syscall_t) (regs : registers_t) : K Z :=
  let a := r_ebx regs in
  let b := r_ecx regs in
  let c := r_edx regs in
  match h with
  | h_sys_exit => sys_exit fuel (s32 a)
  | h_sys_fork => sys_fork fuel
  | h_sys_read => sys_read fuel (s32 a) b c
  | h_sys_write => sys_write (s32 a) b c
  | h_sys_open => sys_open a (s32 b) (s32 c)
  | h_sys_close => sys_close (s32 a)
  | h_sys_execve => sys_execve fuel a b c
  | h_sys_waitpid => sys_waitpid fuel (s32 a) b (s32 c)
  | h_sys_brk => sys_brk a
  | h_sys_getpid => sys_getpid
  | h_sys_sleep => sys_sleep fuel a
  | h_sys_gettime => sys_gettime
  | h_sys_yield => sys_yield
  | h_sys_sbrk => sys_sbrk (s32 a)
  | h_sys_kill => sys_kill (s32 a) (s32 b)
  end.

Definition set_eax (v : Z) (r : registers_t) : registers_t :=
  mk_regs (r_ds r) (r_edi r) (r_esi r) (r_ebp r) (r_esp r) (r_ebx r) (r_edx r) (r_ecx r) v
    (r_int_no r) (r_err_code r) (r_eip r) (r_cs r) (r_eflags r).

Definition syscall_dispatch (fuel : nat) (regs : registers_t) : K registers_t :=
  let n := r_eax regs in
  if MAX_SYSCALLS <=? n then ret (set_eax (u32 (-1)) regs)
  else
    let* e := call_at n in
    match handler e with
    | None => ret (set_eax (u32 (-1)) regs)
    | Some h =>
        let* result := call_syscall fuel h regs in
        ret (set_eax (u32 result) regs)
    end.

End Dispatch.

(** [syscall_handler], with at most [depth] interrupts nested in it. *)
Fixpoint syscall_entry `{Hardware, PageAllocator} (fuel depth : nat) : SyscallEntry :=
  match depth with
  | O => λ _, spin
  | S depth => @syscall_dispatch _ _ (syscall_entry fuel depth) fuel
  end.

(** ** show_syscalls *)

Definition show_syscalls : K unit :=
  screen_setcolor COLOR_LIGHT_CYAN COLOR_BLACK ;;;
  screen_putstr ([10] ++ cstr "System Call Table:" ++ [10]) ;;;
  screen_setcolor COLOR_LIGHT_GREY COLOR_BLACK ;;;
  screen_putstr (cstr "Num  Name" ++ [10] ++ cstr "---  -----" ++ [10]) ;;;
  for_list (seqZ 0 32) (λ i,
    let* e := call_at i in
    match handler e with
    | None => ret tt
    | Some _ =>
        screen_putdec i ;;;
        (if i <? 10 then screen_putstr (cstr "   ")
         else if i <? 100 then screen_putstr (cstr "  ")
         else screen_putstr (cstr " ")) ;;;
        screen_putstr (cstr "  ") ;;;
        screen_putstr (sys_name e) ;;;
        screen_putstr [10]
    end).

#[global] Arguments ramdisk_load : simpl never.
#[global] Arguments call_syscall : simpl never.

(** ** Runs *)

(** What the numbers of [include/syscall.h] mean to a program, written down apart
    from the table: the call of number [n] on the argument registers, each argument
    converted to the type of the prototype. *)
Definition abi_call `{Hardware, PageAllocator, SyscallEntry} (fuel : nat) (n a b c : Z) : option (K Z) :=
  match n with
  | 0 => Some (sys_exit fuel (s32 a))
  | 1 => Some (sys_fork fuel)
  | 2 => Some (sys_read fuel (s32 a) b c)
  | 3 => Some (sys_write (s32 a) b c)
  | 4 => Some (sys_open a (s32 b) (s32 c))
  | 5 => Some (sys_close (s32 a))
  | 6 => Some (sys_execve fuel a b c)
  | 7 => Some (sys_waitpid fuel (s32 a) b (s32 c))
  | 8 => Some (sys_brk a)
  | 9 => Some sys_getpid
  | 10 => Some (sys_sleep fuel a)
  | 11 => Some sys_gettime
  | 12 => Some sys_yield
  | 13 => Some (sys_sbrk (s32 a))
  | 14 => Some (sys_kill (s32 a) (s32 b))
  | _ => None
  end.

(** The table [init_syscalls] leaves. *)
Definition std_table : list syscall_info_t :=
  fold_left (λ t '(n, name, h), <[Z.to_nat n := mk_syscall_info n name (Some h)]> t)
    registrations (replicate 32 no_call).

Lemma registrations_run k rd :
  k_sys k = mk_syscall_state (replicate 32 no_call) 0 rd →
  for_list registrations (λ '(n, name, h), let* _ := register_syscall n name h in ret tt) k =
    Done tt (set_sys (mk_syscall_state std_table 15 rd) k).
Proof. intros E. destruct k as [? ? ? ? ? ? ? ? ? ? ? ? ? sy]. cbn in E. subst sy. reflexivity. Qed.

Lemma init_syscalls_run k :
  ∃ k', init_syscalls k = Done tt k' ∧
    interrupt_handlers (k_idt k') = <[128 := isr_syscall_handler]> (interrupt_handlers (k_idt k)) ∧
    k_sys k' = mk_syscall_state std_table 15 (ramdisk (k_sys k)).
Proof.
  unfold init_syscalls. print_step. set (k0 := with_console _ _ _).
  unfold upd_sys at 1. rewrite bind_modify. set (k1 := set_sys _ _).
  rewrite (bind_done _ _ _ _ _ (registrations_run k1 (ramdisk (k_sys k)) eq_refl)).
  unfold register_interrupt_handler, upd_idt. rewrite bind_modify.
  do 4 print_step. rewrite bind_gets. cbn [k_sys with_console set_io set_screen set_idt set_sys syscall_count].
  change (screen_putdec 15) with (screen_putdec (u32 15)). print_step. print_last.
  eexists. split; [done|]. split; done.
Qed.

(** The table against the numbers: inside it an entry leads to the call of its number
    or to none. *)
Lemma std_table_at `{Hardware, PageAllocator, SyscallEntry} fuel n regs :
  0 ≤ n < 32 →
  ∃ e, std_table !! Z.to_nat n = Some e ∧
    abi_call fuel n (r_ebx regs) (r_ecx regs) (r_edx regs) =
      (λ h, call_syscall fuel h regs) <$> handler e.
Proof.
  intros Hn.
  assert (Hall : Forall (λ i, ∃ e, std_table !! Z.to_nat i = Some e ∧
    abi_call fuel i (r_ebx regs) (r_ecx regs) (r_edx regs) = (λ h, call_syscall fuel h regs) <$> handler e)
    (seqZ 0 32)) by (repeat constructor; eexists; split; reflexivity).
  rewrite list.Forall_forall in Hall. apply Hall, elem_of_seqZ. lia.
Qed.

Lemma abi_call_none `{Hardware, PageAllocator, SyscallEntry} fuel n a b c :
  15 ≤ n → abi_call fuel n a b c = None.
Proof. intros Hn. do 15 (destruct n as [|n|]; try lia; try done). Qed.

(** The table holds the fifteen calls and vector 128 leads to the dispatcher. *)
Definition syscalls_ready (k : kernel) : Prop :=
  (∃ rd, k_sys k = mk_syscall_state std_table 15 rd) ∧
  interrupt_handlers (k_idt k) !! 128 = Some isr_syscall_handler.

(** Interrupt 0x80 from [isr_handler] through the dispatcher. *)
Lemma isr_syscall_run `{Hardware, PageAllocator} fuel depth regs k :
  syscalls_ready k → r_int_no regs = 128 → 0 ≤ r_eax regs →
  @isr_handler (syscall_entry fuel (S depth)) regs k =
    match @abi_call _ _ (syscall_entry fuel depth) fuel (r_eax regs) (r_ebx regs) (r_ecx regs) (r_edx regs) with
    | Some call => (let* result := call in ret (set_eax (u32 result) regs)) k
    | None => Done (set_eax 0xFFFFFFFF regs) k
    end.
Proof.
  intros [[rd Es] Hi] Hint Hn. unfold isr_handler. rewrite Hint. change (256 <=? 128) with false. cbv iota.
  rewrite bind_gets, Hi. cbn [call_handler].
  change (@syscall_handler (syscall_entry fuel (S depth)) regs k)
    with (@syscall_dispatch _ _ (syscall_entry fuel depth) fuel regs k).
  unfold syscall_dispatch.
  destruct (Z.leb_spec MAX_SYSCALLS (r_eax regs)) as [Hge|Hlt]; unfold MAX_SYSCALLS in *.
  - by rewrite abi_call_none by lia.
  - destruct (@std_table_at _ _ (syscall_entry fuel depth) fuel (r_eax regs) regs) as (e & He & ->); [lia|].
    rewrite (bind_done _ _ _ e k) by (unfold call_at; by rewrite Es; cbn [syscall_table]; rewrite He).
    by destruct (handler e).
Qed.

Lemma with_current_run {A} (f : nat → pcb_t → K A) k c :
  current_process (k_proc k) = Some c → with_current f k = f c (pcb (process_table (k_proc k)) c) k.
Proof. intros E. unfold with_current. rewrite bind_gets. by rewrite E. Qed.

(** [free_fd] finds the lowest closed descriptor. *)
Lemma free_fd_spec n i p :
  match free_fd n i p with
  | Some j => i ≤ j < i + Z.of_nat n ∧ fd_at p j = -1 ∧ ∀ h, i ≤ h < j → fd_at p h ≠ -1
  | None => ∀ h, i ≤ h < i + Z.of_nat n → fd_at p h ≠ -1
  end.
Proof.
  revert i. induction n as [|n IH]; intros i; cbn [free_fd]; [lia|].
  destruct (Z.eqb_spec (fd_at p i) (-1)) as [E|E].
  - split; [lia|]. split; [done|lia].
  - specialize (IH (i + 1)). destruct (free_fd n (i + 1) p) as [j|].
    + destruct IH as (Hj & Hc & Hl). split; [lia|]. split; [done|]. intros h Hh.
      destruct (Z.eq_dec h i) as [->|]; [done|]. apply Hl. lia.
    + intros h Hh. destruct (Z.eq_dec h i) as [->|]; [done|]. apply IH. lia.
Qed.

Lemma fd_at_put i v p j :
  0 ≤ i → 0 ≤ j → (Z.to_nat i < length (fd p))%nat →
  fd_at (put_fd i v p) j = if i =? j then v else fd_at p j.
Proof.
  intros Hi Hj Hl. unfold fd_at, put_fd; cbn [fd set_fd]. destruct (Z.eqb_spec i j) as [->|Hne].
  - by rewrite list_lookup_insert_eq.
  - rewrite list_lookup_insert_ne by lia. done.
Qed.

Lemma ramdisk_find_named n i m path s nm code size :
  ramdisk_find n i m path s = Some (mk_ramdisk nm code size) → ∃ name, nm = Some name.
Proof.
  revert i. induction n as [|n IH]; intros i; cbn [ramdisk_find]; [done|].
  destruct (rd_name (rd_entry s i)) as [name|] eqn:E; [|done]. destruct (str_is m path name); [|apply IH].
  intros [= H]. exists name. by rewrite <- E, H.
Qed.

(** ** Loading a program *)

Section Loading.
Context `{Spec : PageAllocatorSpec}.

(** The virtual page number [page] is mapped to [frame], writable for user mode. *)
Definition user_page (s : paging_state) (page frame : Z) : Prop :=
  ∀ w, w / 4096 = page → mmu_walk s w = Some (frame + w mod 4096, 1, 1).

(** Only memory, paging, the page allocator and the console change. *)
Definition load_only (k k' : kernel) : Prop :=
  k' = set_mem (k_mem k') (set_paging (k_paging k')
         (set_pmm (k_pmm k') (with_console (k_screen k') (k_io k') k))).

#[local] Instance load_only_trans : Transitive load_only.
Proof.
  intros [] [] []. unfold load_only, set_mem, set_paging, set_pmm, with_console, set_screen, set_io; cbn.
  intros E1 E2. injection E1 as -> -> -> -> -> -> -> -> ->. by injection E2 as -> -> -> -> -> -> -> -> ->.
Qed.

Lemma load_only_alloc k k' : alloc_only k k' → load_only k k'.
Proof. unfold alloc_only, load_only. intros H. rewrite H at 1. rewrite H. by destruct k. Qed.

Lemma load_only_map flags k k' : k_mem k' = k_mem k → map_frame flags k k' → load_only k k'.
Proof. intros Hm [H _ _ _]. unfold load_only. rewrite Hm, H at 1. by destruct k. Qed.

Lemma load_only_mem m k : load_only k (set_mem m k).
Proof. by destruct k. Qed.

(** Mapping one user page while pages are left. *)
Lemma map_user_run v p k :
  paging_ok k → free_at_least k 1 → region_open (k_paging k) (v / 4194304) → p mod 4096 = 0 →
  ∃ k', vmm_map_page v p user_flags k = Done tt k' ∧ paging_ok k' ∧ map_frame user_flags k k' ∧
    k_mem k' = k_mem k ∧ user_page (k_paging k') (v / 4096) p ∧
    ∀ w, w / 4096 ≠ v / 4096 → mmu_walk (k_paging k') w = mmu_walk (k_paging k) w.
Proof.
  intros Hok Hfree Hopen Hp. destruct (map_page_run v p user_flags k Hok) as (k' & E & Hok' & Hfr & Hw).
  exists k'. split; [exact E|]. split; [done|]. split; [done|]. split; [rewrite (mf_only _ _ _ Hfr); done|].
  destruct Hw as [(_ & Hno & _)|Hw].
  { destruct (free_at_least_some _ _ Hfree) as [q Hq]. by destruct (Hno q). }
  split.
  - intros w Hwv. rewrite Hw, (proj2 (Z.eqb_eq _ _) Hwv).
    assert (Hr : region_right pd_rw k v user_flags PAGE_RW = 1 ∧
                 region_right pd_user k v user_flags PAGE_USER = 1).
    { unfold region_right. destruct (Z.eqb_spec (table_ptr (get_dir (k_paging k) (active_dir (k_paging k)))
        (v / 4194304)) NULL); [done|]. by destruct Hopen. }
    destruct Hr as [-> ->]. replace (p / 4096 * 4096) with p by dlia. done.
  - intros w Hwv. rewrite Hw. by rewrite (proj2 (Z.eqb_neq _ _) Hwv).
Qed.

(** The outcome of loading the pages from number [first] on into [frames]. *)
Record loaded (first : Z) (frames : list Z) (k k' : kernel) : Prop := {
  lo_ok : paging_ok k';
  lo_nodup : NoDup frames;
  lo_fresh : Forall (pa_free k) frames;
  lo_free q : pa_free k' q → pa_free k q ∧ q ∉ frames;
  lo_pages i f : frames !! i = Some f → user_page (k_paging k') (first + Z.of_nat i) f;
  lo_other w : w / 4096 < first ∨ first + Z.of_nat (length frames) ≤ w / 4096 →
    mmu_walk (k_paging k') w = mmu_walk (k_paging k) w;
  lo_open j : region_open (k_paging k) j → region_open (k_paging k') j;
  lo_only : load_only k k' }.

Lemma loaded_nil first k : paging_ok k → loaded first [] k k.
Proof.
  intros Hok. split; [done|apply base.NoDup_nil_2|apply list.Forall_nil_2| |done|done|done|by destruct k].
  intros q Hq. split; [done|]. apply not_elem_of_nil.
Qed.

(** One round: a page [f] is allocated, mapped at page [first] and filled. *)
Lemma loaded_cons first f frames k k1 k2 k3 :
  alloc_only k k1 → pa_free k f → (∀ q, pa_free k1 q ↔ pa_free k q ∧ q ≠ f) →
  map_frame user_flags k1 k2 → k_mem k2 = k_mem k1 → user_page (k_paging k2) first f →
  (∀ w, w / 4096 ≠ first → mmu_walk (k_paging k2) w = mmu_walk (k_paging k1) w) →
  (∃ m, k3 = set_mem m k2) →
  ∀ k', loaded (first + 1) frames k3 k' → loaded first (f :: frames) k k'.
Proof.
  intros Ho Hf Hf1 Hfr Hm2 Hup Hoth [m ->] k' [H1 H2 H3 H4 H5 H6 H7 H8].
  assert (Hkf : ∀ q, pa_free (set_mem m k2) q → pa_free k q ∧ q ≠ f).
  { intros q Hq%pa_free_mem. apply (mf_free _ _ _ Hfr) in Hq. by apply Hf1. }
  split.
  - done.
  - apply list.NoDup_cons. split; [|done]. intros Hin. rewrite list.Forall_forall in H3.
    apply H3, Hkf in Hin as [_ ?]. done.
  - constructor; [done|]. eapply list.Forall_impl; [exact H3|]. intros q Hq. by apply Hkf.
  - intros q Hq. apply H4 in Hq as [Hq Hn]. apply Hkf in Hq as [Hq Hne]. split; [done|]. set_solver.
  - intros [|i] f' Hi w Hw.
    + injection Hi as <-. rewrite H6 by lia. cbn [k_paging set_mem]. apply Hup. lia.
    + apply (H5 i f' Hi w). lia.
  - intros w Hw. cbn [length] in Hw. rewrite H6 by lia. cbn [k_paging set_mem]. rewrite Hoth by lia.
    by rewrite (alloc_only_paging _ _ Ho).
  - intros j Hj. apply H7. cbn [k_paging set_mem]. apply (mf_open _ _ _ Hfr); [done|done|].
    by rewrite (alloc_only_paging _ _ Ho).
  - etrans; [by apply load_only_alloc|]. etrans; [by apply (load_only_map user_flags)|].
    etrans; [apply load_only_mem|]. exact H8.
Qed.

(** The pages of a program. *)
Definition pages_of (size : Z) : Z := (size + 4095) / 4096.

(** Where the program lies: its addresses do not run into the user pages it is copied
    to, and each is mapped, to a byte of no frame that is free. *)
Record program_at (k : kernel) (code size : Z) : Prop := {
  pa_range : 0 ≤ code ∧ code + size ≤ 4294967296 ∧ 0 ≤ size ∧ user_base + size + 8192 ≤ 4294967296;
  pa_apart : code + size ≤ user_base ∨ user_base + 4096 * pages_of size ≤ code;
  pa_mapped n : 0 ≤ n < size →
    ∃ p, phys k (code + n) = Some p ∧ in_space p 1 ∧ ¬ pa_free k (p / 4096 * 4096) }.

(** The program's bytes from [off] on are in [frames], a page in each, and no other
    byte of memory changed. *)
Record pages_filled (code size off : Z) (frames : list Z) (k k' : kernel) : Prop := {
  pf_bytes i f j : frames !! i = Some f → 0 ≤ j < 4096 → off + 4096 * Z.of_nat i + j < size →
    read_byte k (code + (off + 4096 * Z.of_nat i + j)) = Some (ld8 (k_mem k') (f + j));
  pf_other a : in_space a 1 →
    (∀ i f, frames !! i = Some f → ¬ (f ≤ a < f + 4096 ∧ off + 4096 * Z.of_nat i + (a - f) < size)) →
    ld8 (k_mem k') a = ld8 (k_mem k) a }.

(** The program can be read as before: its pages are mapped as they were, and nothing
    was written but the frame [f], which was free. *)
Lemma program_kept code size f k k' :
  program_at k code size →
  (∀ w, w / 4096 < user_base / 4096 ∨ user_base / 4096 + pages_of size ≤ w / 4096 →
    mmu_walk (k_paging k') w = mmu_walk (k_paging k) w) →
  (∀ a, in_space a 1 → a < f ∨ f + 4096 ≤ a → ld8 (k_mem k') a = ld8 (k_mem k) a) →
  pa_free k f → f mod 4096 = 0 → (∀ q, pa_free k' q → pa_free k q) →
  program_at k' code size ∧ ∀ n, 0 ≤ n < size → read_byte k' (code + n) = read_byte k (code + n).
Proof.
  intros [Hr Ha Hm] Hw Hmem Hf Hal Hfree. unfold pages_of, user_base in *.
  assert (Hp : ∀ n, 0 ≤ n < size → phys k' (code + n) = phys k (code + n)).
  { intros n Hn. unfold phys. rewrite u32_small by lia. rewrite Hw; [done|]. dlia. }
  split.
  - split; [done|done|]. intros n Hn. destruct (Hm n Hn) as (p & E & Hs & Hnf). exists p.
    rewrite Hp by done. split; [done|]. split; [done|]. intros Hq. by apply Hnf, Hfree.
  - intros n Hn. unfold read_byte. rewrite Hp by done. destruct (Hm n Hn) as (p & E & Hs & Hnf).
    rewrite E. cbn. f_equal. apply Hmem; [done|].
    destruct (Z.lt_ge_cases p f) as [|Hge]; [by left|]. destruct (Z.lt_ge_cases p (f + 4096)) as [Hlt|]; [|by right].
    exfalso. apply Hnf. replace (p / 4096 * 4096) with f by dlia. done.
Qed.

(** One page copied, then the rest. *)
Lemma filled_cons code size off f frames k k3 k' (chunk := if 4096 <? size - off then 4096 else size - off) :
  0 ≤ off < size → in_space f 4096 → Forall (λ g, g + 4096 ≤ f ∨ f + 4096 ≤ g) frames →
  (∀ i, 0 ≤ i < chunk → read_byte k (code + off + i) = Some (ld8 (k_mem k3) (f + i))) →
  (∀ a, in_space a 1 → a < f ∨ f + chunk ≤ a → ld8 (k_mem k3) a = ld8 (k_mem k) a) →
  (∀ n, 0 ≤ n < size → read_byte k3 (code + n) = read_byte k (code + n)) →
  pages_filled code size (off + 4096) frames k3 k' → pages_filled code size off (f :: frames) k k'.
Proof.
  intros Hoff Hf Hfr Hc Ho Hk [Hb Hk']. unfold in_space in *. rewrite list.Forall_forall in Hfr.
  assert (Hch : (chunk = 4096 ∧ off + 4096 < size) ∨ (chunk = size - off ∧ size ≤ off + 4096))
    by (subst chunk; destruct (Z.ltb_spec 4096 (size - off)); lia).
  split.
  - intros [|i] g j Hi Hj Hs.
    + injection Hi as <-. rewrite Z.mul_0_r, Z.add_0_r in *.
      replace (code + (off + j)) with (code + off + j) by lia. rewrite Hc by lia. f_equal. symmetry.
      apply Hk'; [unfold in_space; lia|]. intros i g Hg. apply list_elem_of_lookup_2, Hfr in Hg. lia.
    + replace (off + 4096 * Z.of_nat (S i) + j) with (off + 4096 + 4096 * Z.of_nat i + j) in * by lia.
      rewrite <- (Hb i g j Hi Hj) by done. symmetry. apply Hk. lia.
  - intros a Ha Hn. rewrite Hk', Ho; [done|done| |done|].
    + specialize (Hn 0%nat f eq_refl). lia.
    + intros i g Hg. specialize (Hn (S i) g Hg). lia.
Qed.

(** Distinct page-aligned frames do not overlap. *)
Lemma frames_apart f frames :
  f ∉ frames → f mod 4096 = 0 → Forall (λ g, g mod 4096 = 0) frames →
  Forall (λ g, g + 4096 ≤ f ∨ f + 4096 ≤ g) frames.
Proof.
  intros Hn Hf Hfr. rewrite list.Forall_forall in *. intros g Hg. specialize (Hfr g Hg).
  assert (g ≠ f) by (by intros ->). dlia.
Qed.

(** Loading [n] pages, with a page to spare for each one's table and [extra] left. *)
Lemma load_pages_run code size n extra : ∀ fuel off k,
  program_at k code size → paging_ok k → mem_wf (k_mem k) →
  free_at_least k (2 * n + extra) → (n ≤ fuel)%nat →
  off mod 4096 = 0 → 0 ≤ off → size ≤ off + 4096 * Z.of_nat n → off + 4096 * Z.of_nat n < size + 4096 →
  (∀ v, user_base + off ≤ v < user_base + off + 4096 * Z.of_nat n → region_open (k_paging k) (v / 4194304)) →
  ∃ frames k', load_pages fuel code size off k = Done true k' ∧
    loaded ((user_base + off) / 4096) frames k k' ∧ length frames = n ∧
    free_at_least k' extra ∧ mem_wf (k_mem k') ∧ Forall (λ g, g mod 4096 = 0) frames ∧
    pages_filled code size off frames k k'.
Proof.
  induction n as [|n IH]; intros fuel off k Hprog Hok Hwf Hfree Hf Hal Hoff Hlo Hhi Hreg.
  { exists [], k. split; [destruct fuel; cbn [load_pages]; by rewrite (proj2 (Z.ltb_ge _ _)) by lia|].
    split; [by apply loaded_nil|]. split_and!; [done|done|done|by apply list.Forall_nil_2|]. by split. }
  pose proof Hprog as [(Hc & Hce & Hs & Hu) Hd Hmap]. assert (Hlt : off < size) by lia.
  destruct fuel as [|fuel]; [lia|]. cbn [load_pages]. rewrite (proj2 (Z.ltb_lt _ _)) by done.
  pose proof Hok as [Hinv Hview].
  destruct (pa_alloc k Hinv) as (f & k1 & E1 & Hinv1 & Ho1 & [(_ & Hno & _)|(Hnz & Hfr & Hfal & Hff & Hf1)]).
  { destruct (free_at_least_some k (2 * n + 1 + extra)) as [q Hq]; [|by destruct (Hno q)].
    eapply free_at_least_mono; [|  |exact Hfree]; [done|lia]. }
  rewrite (bind_done _ _ _ _ _ E1), (proj2 (Z.eqb_neq _ _) Hnz).
  assert (Hc1 : free_at_least k1 (2 * n + 1 + extra))
    by (eapply free_at_least_take; [exact Hf1|]; eapply free_at_least_mono; [| |exact Hfree]; [done|lia]).
  assert (Hpg1 : k_paging k1 = k_paging k) by by apply alloc_only_paging.
  assert (Hok1 : paging_ok k1).
  { split; [done|]. rewrite Hpg1. eapply view_ok_weaken; [|exact Hview]. intros q Hq. by apply Hf1. }
  unfold user_base, pages_of in *. rewrite (u32_small (4194304 + off)) by lia.
  destruct (map_user_run (4194304 + off) f k1) as (k2 & E2 & Hok2 & Hfr2 & Hm2 & Hup & Hoth); [done| | |done|].
  { eapply free_at_least_mono; [| |exact Hc1]; [done|lia]. } { rewrite Hpg1. apply Hreg. lia. }
  rewrite (bind_done _ _ _ _ _ E2). rewrite (u32_small (code + off)) by lia.
  rewrite (u32_small (off + 4096)) by lia.
  assert (Hm1 : k_mem k1 = k_mem k) by (rewrite Ho1; done).
  set (chunk := if 4096 <? size - off then 4096 else size - off).
  assert (Hch : 0 < chunk ≤ 4096 ∧ off + chunk ≤ size) by (subst chunk; destruct (Z.ltb_spec 4096 (size - off)); lia).
  assert (Hin : in_space f 4096) by (unfold in_space; dlia).
  destruct (program_kept code size f k k2 Hprog) as [Hprog2 Hread2].
  { intros w Hw. unfold pages_of, user_base in Hw. rewrite Hoth, Hpg1; [done|]. dlia. }
  { intros a Ha _. by rewrite Hm2, Hm1. } { done. } { done. }
  { intros q Hq. apply (mf_free _ _ _ Hfr2), Hf1 in Hq. apply Hq. }
  destruct (vmemcpy_run (4194304 + off) (code + off) chunk f k2) as (m3 & E3 & Hwf3 & Hb3 & Ho3).
  { lia. } { unfold in_space in *. lia. } { by rewrite Hm2, Hm1. }
  { intros i Hi. unfold phys. rewrite u32_small by lia. rewrite Hup by dlia. cbn. f_equal. dlia. }
  { intros i Hi. destruct (pa_mapped _ _ _ Hprog2 (off + i)) as (p & Hp & Hps & Hpn); [lia|].
    exists p. rewrite <- Z.add_assoc. split; [done|]. split; [done|]. unfold in_space in *.
    destruct (Hmap (off + i)) as (p0 & Hp0 & _ & Hn0); [lia|].
    assert (p0 = p) as ->.
    { revert Hp Hp0. unfold phys. rewrite Hoth, Hpg1; [congruence|]. rewrite u32_small by lia. dlia. }
    destruct (Z.lt_ge_cases p f) as [|Hge]; [by left|].
    destruct (Z.lt_ge_cases p (f + 4096)) as [Hl|]; [|right; lia].
    exfalso. apply Hn0. replace (p / 4096 * 4096) with f by dlia. done. }
  rewrite (bind_done _ _ _ _ _ E3). set (k3 := set_mem m3 k2).
  destruct (program_kept code size f k k3 Hprog) as [Hprog3 Hread3].
  { intros w Hw. cbn [k3 k_paging set_mem]. unfold pages_of, user_base in Hw. rewrite Hoth, Hpg1; [done|]. dlia. }
  { intros a Ha Hr. cbn [k3 k_mem set_mem]. rewrite Ho3, Hm2, Hm1; [done|done|lia]. } { done. } { done. }
  { intros q Hq%pa_free_mem. apply (mf_free _ _ _ Hfr2), Hf1 in Hq. apply Hq. }
  destruct (IH fuel (off + 4096) k3) as (frames & k' & E & Hld & Hlen & Hex & Hwf' & Hfa & Hfill); try done; try lia.
  { by apply paging_ok_mem. }
  { apply (free_at_least_mono k2 _ (2 * n + extra)); [intros q Hq; by apply pa_free_mem|lia|].
    apply (mf_count _ _ _ Hfr2). eapply free_at_least_mono; [| |exact Hc1]; [done|lia]. }
  { rewrite <- Zplus_mod_idemp_l, Hal. done. }
  { intros v Hv. cbn [k3 k_paging set_mem]. apply (mf_open _ _ _ Hfr2); [done|done|]. rewrite Hpg1.
    apply Hreg. lia. }
  exists (f :: frames), k'. split; [done|].
  assert (Hld' : loaded ((4194304 + off) / 4096) (f :: frames) k k').
  { apply (loaded_cons _ f frames k k1 k2 k3); [done..|by exists m3|].
    replace ((4194304 + off) / 4096 + 1) with ((4194304 + (off + 4096)) / 4096) by dlia. exact Hld. }
  split; [exact Hld'|]. split_and!; [by cbn; rewrite Hlen|done|done|by constructor|].
  apply (filled_cons _ _ _ f frames k k3); [lia|done| | | |done|done].
  - apply frames_apart; [|done|done]. by apply lo_nodup, list.NoDup_cons in Hld' as [? _].
  - intros i Hi. fold chunk in Hi. cbn [k3 k_mem set_mem]. rewrite <- Hb3 by done.
    symmetry. rewrite <- Z.add_assoc. apply Hread2. lia.
  - intros a Ha Hr. fold chunk in Hr. cbn [k3 k_mem set_mem]. by rewrite Ho3, Hm2, Hm1.
Qed.

(** What a successful [ramdisk_load] of a program leaves: the program's pages and the
    stack's are mapped to distinct frames that were free, and no other translation
    changed; the frames hold the program's bytes, so that it is what is read from
    0x400000 on, and no other byte of memory changed. *)
Record program_loaded (code size : Z) (frames : list Z) (stack : Z) (k k' : kernel) : Prop := {
  pl_ok : paging_ok k';
  pl_frames : NoDup (stack :: frames) ∧ Forall (pa_free k) (stack :: frames);
  pl_pages : Z.of_nat (length frames) = pages_of size ∧
    ∀ i f, frames !! i = Some f → user_page (k_paging k') (user_base / 4096 + Z.of_nat i) f;
  pl_stack : user_page (k_paging k') ((stack_vaddr - 4096) / 4096) stack;
  pl_other w : w / 4096 < user_base / 4096 ∨ user_base / 4096 + Z.of_nat (length frames) ≤ w / 4096 →
    w / 4096 ≠ (stack_vaddr - 4096) / 4096 → mmu_walk (k_paging k') w = mmu_walk (k_paging k) w;
  pl_filled : pages_filled code size 0 frames k k';
  pl_read n : 0 ≤ n < size →
    read_byte k' (user_base + n) = read_byte k (code + n) ∧ is_Some (read_byte k (code + n)) }.

(** The bytes in the frames are those read at the pages' addresses. *)
Lemma filled_read code size frames k k' n :
  pages_filled code size 0 frames k k' → user_base + size ≤ 4294967296 →
  Z.of_nat (length frames) = pages_of size →
  (∀ i f, frames !! i = Some f → user_page (k_paging k') (user_base / 4096 + Z.of_nat i) f) →
  0 ≤ n < size →
  read_byte k' (user_base + n) = read_byte k (code + n) ∧ is_Some (read_byte k (code + n)).
Proof.
  intros [Hb _] Hs Hlen Hpg Hn. unfold user_base, pages_of in *.
  destruct (lookup_lt_is_Some_2 frames (Z.to_nat (n / 4096))) as [f Hf]; [dlia|].
  specialize (Hb _ f (n mod 4096) Hf). rewrite Z2Nat.id in Hb by dlia.
  replace (0 + 4096 * (n / 4096) + n mod 4096) with n in Hb by dlia.
  rewrite Hb by dlia. split; [|by eexists].
  unfold read_byte, phys. rewrite u32_small by lia.
  rewrite (Hpg _ f Hf) by dlia. cbn. do 3 f_equal. dlia.
Qed.

Lemma ramdisk_load_run fuel path nm code size k (pages := Z.to_nat (pages_of size)) :
  ramdisk_find 8 0 (k_mem k) path (k_sys k) = Some (mk_ramdisk (Some nm) code size) → code ≠ NULL →
  program_at k code size → user_base + size ≤ stack_vaddr - 4096 → (pages ≤ fuel)%nat →
  paging_ok k → mem_wf (k_mem k) → free_at_least k (2 * pages + 2) →
  (∀ v, user_base ≤ v < user_base + 4096 * Z.of_nat pages ∨ stack_vaddr - 4096 ≤ v < stack_vaddr →
     region_open (k_paging k) (v / 4194304)) →
  ∃ frames stack k', ramdisk_load fuel path k = Done (Some (user_base, stack_vaddr)) k' ∧
    program_loaded code size frames stack k k' ∧ load_only k k'.
Proof.
  intros Hfind Hcode Hprog Hst Hf Hok Hwf Hfree Hreg. unfold ramdisk_load. rewrite !bind_gets, Hfind.
  cbn [rd_data rd_size]. rewrite (proj2 (Z.eqb_neq _ _) Hcode). unfold user_base, stack_vaddr in *.
  destruct (pa_range _ _ _ Hprog) as (_ & _ & Hs & _).
  destruct (load_pages_run code size pages 2 fuel 0 k) as (frames & k1 & E1 & Hld & Hlen & Hc1 & Hwf1 & _ & Hfill);
    try done; try (subst pages; unfold user_base, pages_of; dlia).
  { intros v Hv. apply Hreg. left. unfold user_base in Hv. lia. }
  rewrite (bind_done _ _ _ _ _ E1). cbn [negb]. destruct Hld as [Hok1 Hnd Hfresh Hfr1 Hpg Hoth Hop Honly].
  pose proof Hok1 as [Hinv1 Hview1].
  destruct (pa_alloc k1 Hinv1) as (f & k2 & E2 & Hinv2 & Ho2 & [(_ & Hno & _)|(Hnz & Hfrg & Hfal & Hff & Hf2)]).
  { destruct (free_at_least_some k1 1 Hc1) as [q Hq]. by destruct (Hno q). }
  rewrite (bind_done _ _ _ _ _ E2), (proj2 (Z.eqb_neq _ _) Hnz).
  assert (Hpg2 : k_paging k2 = k_paging k1) by by apply alloc_only_paging.
  destruct (map_user_run (3217031168 - 4096) f k2) as (k3 & E3 & Hok3 & Hfr3 & Hm3 & Hup3 & Hoth3).
  { split; [done|]. rewrite Hpg2. eapply view_ok_weaken; [|exact Hview1]. intros q Hq. by apply Hf2. }
  { by eapply free_at_least_take. } { rewrite Hpg2. apply Hop, Hreg. lia. } { done. }
  change (3217031168 - 0x1000) with (3217031168 - 4096).
  rewrite (bind_done _ _ _ _ _ E3). exists frames, f, k3. split; [done|].
  assert (Hm2 : k_mem k2 = k_mem k1) by (rewrite Ho2; done).
  assert (Hlp : Z.of_nat (length frames) = pages_of size) by (rewrite Hlen; subst pages; unfold pages_of; dlia).
  assert (Hup : ∀ i f', frames !! i = Some f' → user_page (k_paging k3) (user_base / 4096 + Z.of_nat i) f').
  { intros i f' Hi w Hw. pose proof (lookup_lt_Some _ _ _ Hi). unfold user_base, pages_of in *.
    rewrite Hoth3, Hpg2; [by apply (Hpg i f' Hi)|]. rewrite Hw. dlia. }
  assert (Hfill3 : pages_filled code size 0 frames k k3) by (destruct Hfill; split; by rewrite Hm3, Hm2).
  apply Hfr1 in Hff as [Hff Hfn]. split; [split|].
  - done.
  - split; [by apply list.NoDup_cons|by constructor].
  - by split.
  - exact Hup3.
  - intros w Hw Hne. unfold stack_vaddr, user_base in *. rewrite Hoth3, Hpg2 by done. apply Hoth. exact Hw.
  - done.
  - intros n Hn. apply (filled_read code size frames k k3 n Hfill3); [unfold user_base; lia|done..].
  - etrans; [exact Honly|]. etrans; [by apply load_only_alloc|]. by apply (load_only_map user_flags).
Qed.

End Loading.

Lemma putstr_at_run fuel p l k :
  cstring (k_mem k) p l → (length l < fuel)%nat →
  ∃ s io, putstr_at fuel p k = Done tt (with_console s io k).
Proof.
  revert fuel p k. induction l as [|c l IH]; intros [|fuel] p k Hl Hf; cbn [length] in *; try lia;
    cbn [putstr_at]; unfold load8; rewrite bind_gets; cbn [cstring] in Hl.
  - rewrite Hl. exists (k_screen k), (k_io k). by destruct k.
  - destruct Hl as (-> & Hc & Hl). rewrite (proj2 (Z.eqb_neq c 0)) by lia. print_step.
    destruct (IH fuel (p + 1) (with_console s io k)) as (s' & io' & ->); [done|lia|]. by exists s', io'.
Qed.

Lemma fd_closed p : length (fd p) = 16%nat → -1 ∈ drop 3 (fd p) ↔ ∃ j, 3 ≤ j < 16 ∧ fd_at p j = -1.
Proof.
  intros Hlen. unfold fd_at. split.
  - intros [i Hi]%list_elem_of_lookup. rewrite lookup_drop in Hi. pose proof (lookup_lt_Some _ _ _ Hi).
    exists (Z.of_nat (3 + i)). split; [lia|]. by rewrite Nat2Z.id, Hi.
  - intros (j & Hj & Hd). destruct (lookup_lt_is_Some_2 (fd p) (Z.to_nat j)) as [x Hx]; [lia|].
    rewrite Hx in Hd. cbn in Hd. subst x. apply list_elem_of_lookup. exists (Z.to_nat j - 3)%nat.
    rewrite lookup_drop. by replace (3 + (Z.to_nat j - 3))%nat with (Z.to_nat j) by lia.
Qed.

(** A path the ramdisk does not know. *)
Lemma execve_unknown_run `{PageAllocator} fuel k path argv envp l :
  cstring (k_mem k) path l → (length l < fuel)%nat →
  ramdisk_find 8 0 (k_mem k) path (k_sys k) = None →
  ∃ k', sys_execve fuel path argv envp k = Done (-1) k' ∧ same_but_console k k'.
Proof.
  intros Hpath Hf Hfind.
  unfold sys_execve, ramdisk_load. rewrite !bind_assoc, bind_gets, bind_assoc, bind_gets, Hfind.
  rewrite bind_ret. do 2 print_step.
  match goal with |- context [bind (putstr_at _ _) _ ?k1] =>
    destruct (putstr_at_run fuel path l k1 Hpath Hf) as (s1 & io1 & E) end.
  rewrite (bind_done _ _ _ _ _ E). print_step. eexists. split; [done|].
  do 3 (etrans; [apply same_but_console_with|]). apply same_but_console_with.
Qed.

(** ** Properties *)

(** C14: After [init_syscalls] the interrupt 0x80, entering at [isr_handler], runs, for
    the numbers 0 to 14, the call that [abi_call] lists under that number, with EBX, ECX
    and EDX as arguments, in which further interrupts may nest, and returns its
    result in EAX; every other number, those the header gives to [dup], [pipe],
    [chdir], [getcwd] and [stat] and those past the 32 entries of the table included,
    returns -1 in EAX and changes nothing. *)
Theorem syscall_dispatches `{Hardware, PageAllocator} k :
  ∃ k', init_syscalls k = Done tt k' ∧ syscall_count (k_sys k') = 15 ∧
    ∀ fuel depth regs k2, k_sys k2 = k_sys k' → k_idt k2 = k_idt k' →
      r_int_no regs = 128 → 0 ≤ r_eax regs →
      @isr_handler (syscall_entry fuel (S depth)) regs k2 =
        match @abi_call _ _ (syscall_entry fuel depth) fuel (r_eax regs) (r_ebx regs) (r_ecx regs) (r_edx regs) with
        | Some call => (let* result := call in ret (set_eax (u32 result) regs)) k2
        | None => Done (set_eax 0xFFFFFFFF regs) k2
        end.
Proof.
  destruct (init_syscalls_run k) as (k' & E & Hi & Hs). exists k'. split; [done|]. rewrite Hs. split; [done|].
  intros fuel depth regs k2 Es Ei Hint Hn. apply isr_syscall_run; [|done..].
  split; [eexists; by rewrite Es|]. by rewrite Ei, Hi, lookup_insert_eq.
Qed.


(** C34: [dup] gives the lowest closed descriptor from 3 on, now the same as
    [oldfd], and closing it again restores the table; it gives -1 and changes
    nothing for a bad or closed descriptor and when none is free. *)
Theorem sys_dup_lowest k c oldfd (p := pcb (process_table (k_proc k)) c) :
  current_process (k_proc k) = Some c → (c < length (process_table (k_proc k)))%nat →
  length (fd p) = 16%nat →
  ∃ r k', sys_dup oldfd k = Done r k' ∧
    if decide (0 ≤ oldfd < 16 ∧ fd_at p oldfd ≠ -1 ∧ -1 ∈ drop 3 (fd p)) then
      3 ≤ r < 16 ∧ fd_at p r = -1 ∧ (∀ j, 3 ≤ j < r → fd_at p j ≠ -1) ∧
      (∀ j, 0 ≤ j → fd_at (pcb (process_table (k_proc k')) c) j = if r =? j then fd_at p oldfd else fd_at p j) ∧
      ∃ k2, sys_close r k' = Done 0 k2 ∧ fd (pcb (process_table (k_proc k2)) c) = fd p
    else r = -1 ∧ k' = k.
Proof.
  intros Hc Hlt Hlen. unfold sys_dup.
  destruct (Z.ltb_spec oldfd 0); [exists (-1), k; split; [done|]; by rewrite decide_False by lia|].
  destruct (Z.leb_spec 16 oldfd); [exists (-1), k; split; [done|]; by rewrite decide_False by lia|].
  cbn [orb]. rewrite (with_current_run _ _ c Hc). fold p.
  destruct (Z.eqb_spec (fd_at p oldfd) (-1)) as [E|E].
  { exists (-1), k. split; [done|]. by rewrite decide_False by (intros (_ & ? & _); lia). }
  pose proof (free_fd_spec 13 3 p) as Hfree. destruct (free_fd 13 3 p) as [r|].
  - destruct Hfree as (Hr & Hrc & Hmin).
    unfold upd_proc. rewrite bind_modify. set (k' := set_proc _ k). exists r, k'. split; [done|].
    rewrite decide_True by (split; [lia|]; split; [done|]; apply (fd_closed _ Hlen); exists r; lia).
    assert (Hp' : pcb (process_table (k_proc k')) c = put_fd r (fd_at p oldfd) p).
    { cbn [k' k_proc set_proc]. rewrite upd_pcb_pcb by done. by rewrite decide_True. }
    rewrite Hp'. split; [lia|]. split; [done|]. split; [done|]. split.
    + intros j Hj. apply fd_at_put; lia.
    + unfold sys_close. rewrite (proj2 (Z.ltb_ge _ _)), (proj2 (Z.leb_gt _ _)) by lia. cbn [orb].
      rewrite (with_current_run _ _ c) by done. unfold upd_proc. rewrite bind_modify.
      eexists. split; [done|]. cbn [k_proc set_proc]. rewrite upd_pcb_pcb by (cbn; by rewrite length_insert).
      rewrite decide_True by done. rewrite Hp'. cbn [fd put_fd set_fd]. rewrite list_insert_insert_eq.
      apply list_insert_id. unfold fd_at in Hrc.
      destruct (fd p !! Z.to_nat r) as [x|] eqn:Ex; cbn in Hrc; [by subst x|done].
  - exists (-1), k. split; [done|]. rewrite decide_False; [done|].
    intros (_ & _ & (j & Hj & Hjc)%(fd_closed _ Hlen)). by apply (Hfree j); [lia|].
Qed.

(** *** Witnesses *)

(** A kernel with paging on, process 1 current, the path and a five-byte program
    in memory, and the ramdisk entry for it. *)
Definition exec_mem : mem := poke (poke ∅ 0x200000 (cstr "/bin/init")) 0x180000 [1; 2; 3; 4; 5].

Definition exec_of (k : kernel) : kernel :=
  set_sys (mk_syscall_state std_table 15
      (mk_ramdisk (Some (cstr "/bin/init")) 0x180000 5 :: replicate 7 (mk_ramdisk None 0 0)))
    (set_proc proc_demo (set_mem exec_mem k)).

Lemma exec_of_fields k :
  k_pmm (exec_of k) = k_pmm k ∧ k_paging (exec_of k) = k_paging k ∧ k_mem (exec_of k) = exec_mem ∧
  k_proc (exec_of k) = proc_demo ∧
  ramdisk_find 8 0 (k_mem (exec_of k)) 0x200000 (k_sys (exec_of k)) =
    Some (mk_ramdisk (Some (cstr "/bin/init")) 0x180000 5).
Proof. split_and!; reflexivity. Qed.

#[global] Opaque exec_of.

Lemma exec_mem_wf : mem_wf exec_mem.
Proof.
  intros a. unfold ld8. destruct (exec_mem !! u32 a) as [c|] eqn:Ec; [|cbn; lia].
  revert a c Ec. enough (map_Forall (λ _ c, 0 ≤ c < 256) exec_mem) as Hall
    by (intros a c Ec; exact (Hall _ _ Ec)).
  refine (bool_decide_unpack _ _). vm_compute. exact I.
Qed.

Lemma exec_path : cstring exec_mem 0x200000 (cstr "/bin/init").
Proof. vm_compute. repeat split. Qed.


(** The registers of an [int $0x80] with the number [n] and the arguments 1, 2 and 3. *)
Definition int80 (n : Z) : registers_t := mk_regs 0 0 0 0 0 1 3 2 n 128 0 0 0 0.

(** 40 is past the table, 3 is write. *)
Lemma syscall_dispatches_witness :
  ∃ k', init_syscalls kernel_bss = Done tt k' ∧
    @isr_handler (@syscall_entry (typing []) alloc_frame_allocator 5 2) (int80 40) k' =
      Done (set_eax 0xFFFFFFFF (int80 40)) k' ∧
    @isr_handler (@syscall_entry (typing []) alloc_frame_allocator 5 2) (int80 3) k' =
      (let* result := sys_write 1 2 3 in ret (set_eax (u32 result) (int80 3))) k'.
Proof.
  destruct (@syscall_dispatches (typing []) alloc_frame_allocator kernel_bss) as (k' & E & _ & H).
  exists k'. split; [exact E|].
  split; [exact (H 5%nat 1%nat (int80 40) k' eq_refl eq_refl eq_refl ltac:(cbn; lia))
         |exact (H 5%nat 1%nat (int80 3) k' eq_refl eq_refl eq_refl ltac:(cbn; lia))].
Defined.

(** Process 1 with descriptor 0 open. *)
Definition dup_demo : kernel := set_proc (upd_pcb 1 (put_fd 0 5) proc_demo) kernel_bss.

Lemma sys_dup_lowest_witness :
  ∃ r k', sys_dup 0 dup_demo = Done r k' ∧ 3 ≤ r < 16 ∧
    fd_at (pcb (process_table (k_proc k')) 1) r = 5.
Proof.
  destruct (sys_dup_lowest dup_demo 1 0) as (r & k' & E & H);
    [reflexivity|cbn; lia|reflexivity|].
  rewrite decide_True in H by (split; [lia|]; split; [discriminate|]; refine (bool_decide_unpack _ _); reflexivity).
  destruct H as (Hr & _ & _ & Hfd & _). exists r, k'. split; [exact E|]. split; [exact Hr|].
  rewrite Hfd by lia. rewrite Z.eqb_refl. reflexivity.
Defined.
