(* ===== verification/Userland.v ===== *)
(** * Running user programs

    A user program is an interaction tree: its nodes are the system calls it makes
    and the accesses to its memory.  [steps] runs it against the kernel, a node at a
    time, with a given way to reach the system calls.  There are two: calling the
    functions of syscall.c, whose prototypes the programs include, and interrupt
    0x80 through [isr_handler] and the table.  The first part states how runs are put
    together, the second that the two ways agree for every program. *)

From S2P Require Import Prelude Memory Types Machine Mmu Screen Pmm Paging Interrupts Process Device Cstring Syscall.
From ITree Require Import Core.ITreeDefinition.
Import ScreenH PagingH ProcessH InterruptH SyscallH.

(** ** Programs *)

Inductive userE : Type → Type :=
| Sys (h : syscall_t) (a b c : Z) : userE Z
| Load8 (a : Z) : userE Z
| Load32 (a : Z) : userE Z
| Store8 (a v : Z) : userE unit
| Store32 (a v : Z) : userE unit.

Abbreviation program := (itree userE).

Declare Scope user_scope.
Delimit Scope user_scope with user.
Notation "'let*' x ':=' c 'in' f" := (ITree.bind c (λ x, f))
  (at level 10, x pattern, c at level 100, f at level 200,
   format "'let*'  x  ':='  c  'in' '//' f") : user_scope.
Notation "c1 ;;; c2" := (ITree.bind c1 (λ _, c2))
  (at level 199, c2 at level 200, right associativity) : user_scope.

(** ** Runs *)

Section Run.
Context (sys : syscall_t → Z → Z → Z → K Z).

Definition handle {T} (e : userE T) : K T :=
  match e with
  | Sys h a b c => sys h a b c
  | Load8 a => load8 a
  | Load32 a => load32 a
  | Store8 a v => store8 a v
  | Store32 a v => store32 a v
  end.

(** At most [n] nodes of the program, and what is left of it. *)
Fixpoint steps {A} (n : nat) (t : program A) : K (program A) :=
  match n with
  | O => ret t
  | S n =>
      match observe t with
      | RetF _ => ret t
      | TauF t => steps n t
      | VisF e f => let* r := handle e in steps n (f r)
      end
  end.

(** From [t] in state [k] the program comes to [t'] in state [k']. *)
Definition reaches {A} (t : program A) (k : kernel) (t' : program A) (k' : kernel) : Prop :=
  ∃ n t1, steps n t k = Done t1 k' ∧ observe t1 = observe t'.

(** The program runs on without end and without a fault. *)
Definition runs_forever {A} (t : program A) (k : kernel) : Prop :=
  ∀ n, ∃ t' k', steps n t k = Done t' k' ∧ ∀ a, observe t' ≠ RetF a.

(** *** Putting runs together *)

Lemma steps_observe {A} n (t t' : program A) k :
  observe t = observe t' → steps (S n) t k = steps (S n) t' k ∨ ∃ a, observe t = RetF a.
Proof.
  intros E. cbn [steps]. rewrite <- E. destruct (observe t) as [a| |]; [right; by exists a|by left..].
Qed.

Lemma steps_ret {A} n (t : program A) a k : observe t = RetF a → steps n t k = Done t k.
Proof. intros E. destruct n; cbn [steps]; [done|]. by rewrite E. Qed.

Lemma steps_add {A} n m (t : program A) k :
  steps (n + m) t k = (let* t' := steps n t in steps m t') k.
Proof.
  revert t k. induction n as [|n IH]; intros t k; [done|].
  cbn [steps Nat.add]. destruct (observe t) as [a|t1|X e f] eqn:E.
  - rewrite bind_ret. symmetry. by apply (steps_ret _ _ a).
  - apply IH.
  - rewrite bind_assoc. unfold bind. destruct (handle e k); [apply IH|done|done].
Qed.

Lemma reaches_refl {A} (t : program A) k : reaches t k t k.
Proof. by exists 0%nat, t. Qed.

Lemma reaches_observe {A} (t t' u : program A) k k' :
  observe t = observe t' → reaches t' k u k' → reaches t k u k'.
Proof.
  intros E (n & u1 & Hs & Hu). destruct n as [|n].
  { cbn in Hs. apply Done_inj in Hs as [<- <-]. exists 0%nat, t. split; [done|]. by rewrite E. }
  destruct (steps_observe n t t' k E) as [Es|[a Ea]].
  - exists (S n), u1. by rewrite Es.
  - exists 0%nat, t. rewrite E in Ea. rewrite (steps_ret _ _ a) in Hs by done.
    apply Done_inj in Hs as [<- <-]. split; [done|]. by rewrite E.
Qed.

Lemma reaches_trans {A} (t u v : program A) k k1 k' :
  reaches t k u k1 → reaches u k1 v k' → reaches t k v k'.
Proof.
  intros (n & t1 & Hs & Ht) Hu. destruct (reaches_observe t1 u v k1 k' Ht Hu) as (m & v1 & Hs' & Hv).
  exists (n + m)%nat, v1. split; [|done]. by rewrite steps_add, (bind_done _ _ _ _ _ Hs).
Qed.

Lemma reaches_vis {A X} (t : program A) (e : userE X) (f : X → program A) r k k1 u k' :
  observe t = VisF e f → handle e k = Done r k1 → reaches (f r) k1 u k' → reaches t k u k'.
Proof.
  intros E Hh (n & u1 & Hs & Hu). exists (S n), u1. cbn [steps].
  by rewrite E, (bind_done _ _ _ _ _ Hh).
Qed.

Lemma reaches_tau {A} (t t1 u : program A) k k' :
  observe t = TauF t1 → reaches t1 k u k' → reaches t k u k'.
Proof. intros E (n & u1 & Hs & Hu). exists (S n), u1. cbn [steps]. by rewrite E. Qed.

Lemma observe_bind {A B} (t : program A) (f : A → program B) :
  observe (ITree.bind t f) =
    match observe t with
    | RetF a => observe (f a)
    | TauF t => TauF (ITree.bind t f)
    | VisF e g => VisF e (λ x, ITree.bind (g x) f)
    end.
Proof. unfold observe at 1. cbn. by destruct (observe t). Qed.

(** The first command of a sequence runs to its result. *)
Lemma reaches_bind {A B} (t : program A) (f : A → program B) a k k1 u k' :
  reaches t k (Ret a) k1 → reaches (f a) k1 u k' → reaches (ITree.bind t f) k u k'.
Proof.
  intros (n & t1 & Hs & Ht) Hu. revert t k Hs. induction n as [|n IH]; intros t k Hs.
  - cbn in Hs. apply Done_inj in Hs as [-> ->]. apply (reaches_observe _ (f a)); [|done].
    by rewrite observe_bind, Ht.
  - cbn [steps] in Hs. destruct (observe t) as [b|t2|X e g] eqn:E.
    + apply Done_inj in Hs as [-> ->]. apply (reaches_observe _ (f a)); [|done].
      by rewrite observe_bind, Ht.
    + apply (reaches_tau _ (ITree.bind t2 f)); [by rewrite observe_bind, E|]. by apply IH.
    + apply bind_done_inv in Hs as (r & k2 & Hr & Hs).
      apply (reaches_vis _ e (λ x, ITree.bind (g x) f) r k k2); [by rewrite observe_bind, E|done|]. by apply IH.
Qed.

Lemma reaches_trigger {X} (e : userE X) r k k' :
  handle e k = Done r k' → reaches (ITree.trigger e) k (Ret r) k'.
Proof. intros H. apply (reaches_vis _ e (λ x, Ret x) r k k'); [done|exact H|apply reaches_refl]. Qed.

(** A command that is one node, then the rest. *)
Lemma reaches_call {X B} (e : userE X) (f : X → program B) r k k1 u k' :
  handle e k = Done r k1 → reaches (f r) k1 u k' → reaches (ITree.bind (ITree.trigger e) f) k u k'.
Proof. intros H. apply reaches_bind. by apply reaches_trigger. Qed.

(** One round of a loop. *)
Definition iter_next {A I} (body : I → program (I + A)) (r : I + A) : program A :=
  match r with inl i => Tau (ITree.iter body i) | inr a => Ret a end.

Lemma observe_iter {A I} (body : I → program (I + A)) i :
  observe (ITree.iter body i) = observe (ITree.bind (body i) (iter_next body)).
Proof. done. Qed.

Lemma reaches_iter_next {A I} (body : I → program (I + A)) i j k k1 u k' :
  reaches (body i) k (Ret (inl j)) k1 → reaches (ITree.iter body j) k1 u k' →
  reaches (ITree.iter body i) k u k'.
Proof.
  intros Hb Hu. apply (reaches_observe _ _ _ _ _ (observe_iter body i)).
  apply (reaches_bind _ _ _ _ _ _ _ Hb). by apply (reaches_tau _ (ITree.iter body j)).
Qed.

Lemma reaches_iter_last {A I} (body : I → program (I + A)) i a k k' :
  reaches (body i) k (Ret (inr a)) k' → reaches (ITree.iter body i) k (Ret a) k'.
Proof.
  intros Hb. apply (reaches_observe _ _ _ _ _ (observe_iter body i)).
  apply (reaches_bind _ _ _ _ _ _ _ Hb), reaches_refl.
Qed.

(** *** Total correctness

    [ends t k Q]: from state [k] the program ends, with a result and a state in [Q]. *)

Definition ends {A} (t : program A) (k : kernel) (Q : A → kernel → Prop) : Prop :=
  ∃ a k', reaches t k (Ret a) k' ∧ Q a k'.

Lemma ends_ret {A} (a : A) k (Q : A → kernel → Prop) : Q a k → ends (Ret a) k Q.
Proof. intros HQ. exists a, k. split; [apply reaches_refl|done]. Qed.

Lemma ends_bind {A B} (t : program A) (f : A → program B) k Q :
  ends t k (λ a k1, ends (f a) k1 Q) → ends (ITree.bind t f) k Q.
Proof.
  intros (a & k1 & Ht & b & k' & Hf & HQ). exists b, k'. split; [|done]. by eapply reaches_bind.
Qed.

Lemma ends_trigger {X} (e : userE X) r k k' (Q : X → kernel → Prop) :
  handle e k = Done r k' → Q r k' → ends (ITree.trigger e) k Q.
Proof. intros He HQ. exists r, k'. split; [by apply reaches_trigger|done]. Qed.

Lemma ends_iter {A I} (body : I → program (I + A)) i k (Q : A → kernel → Prop) :
  ends (body i) k (λ r k1, match r with inl j => ends (ITree.iter body j) k1 Q | inr a => Q a k1 end) →
  ends (ITree.iter body i) k Q.
Proof.
  intros (r & k1 & Hb & Hr). destruct r as [j|a].
  - destruct Hr as (a & k' & Hi & HQ). exists a, k'. split; [|done]. by eapply reaches_iter_next.
  - exists a, k1. split; [|done]. by apply reaches_iter_last.
Qed.

Lemma ends_mono {A} (t : program A) k (Q Q' : A → kernel → Prop) :
  (∀ a k', Q a k' → Q' a k') → ends t k Q → ends t k Q'.
Proof. intros HQ (a & k' & Ht & Ha). exists a, k'. split; [done|by apply HQ]. Qed.

(** A loop whose rounds never stop, under an invariant of theirs. *)
Lemma forever_iter {A I} (body : I → program (I + A)) i (P : kernel → Prop) k :
  P k → (∀ k, P k → ends (body i) k (λ r k', r = inl i ∧ P k')) → runs_forever (ITree.iter body i) k.
Proof.
  intros Hk Hround n.
  assert (Hm : ∃ m t' k', (n ≤ m)%nat ∧ steps m (ITree.iter body i) k = Done t' k' ∧
    observe t' = observe (Tau (ITree.iter body i)) ∧ P k').
  { revert k Hk. induction n as [|n IH]; intros k Hk; destruct (Hround k Hk) as (? & k1 & Hr & -> & Hk1).
    all: destruct (reaches_observe _ _ _ _ _ (observe_iter body i)
      (reaches_bind _ (iter_next body) _ _ _ _ _ Hr (reaches_refl (Tau (ITree.iter body i)) k1)))
      as (m1 & t1 & E1 & Ho).
    - exists m1, t1, k1. split; [lia|]. done.
    - destruct (IH k1 Hk1) as (m2 & t2 & k2 & Hle & E2 & Ho2 & Hk2).
      exists (m1 + S m2)%nat, t2, k2. split; [lia|]. split; [|done].
      rewrite steps_add, (bind_done _ _ _ _ _ E1). cbn [steps]. by rewrite Ho. }
  destruct Hm as (m & t' & k' & Hle & E & Ho & _).
  replace m with (n + (m - n))%nat in E by lia. rewrite steps_add in E.
  apply bind_done_inv in E as (t1 & k1 & E1 & E2). exists t1, k1. split; [done|].
  intros a Ha. rewrite (steps_ret _ _ a) in E2 by done. apply Done_inj in E2 as [-> _]. by rewrite Ho in Ha.
Qed.

Lemma forever_bind {A B} (t : program A) (f : A → program B) a k k1 :
  reaches t k (Ret a) k1 → runs_forever (f a) k1 → runs_forever (ITree.bind t f) k.
Proof.
  intros Ht Hf n.
  destruct (reaches_bind t f a k k1 (f a) k1 Ht (reaches_refl _ _)) as (m & t1 & E & Ho).
  destruct (Hf (S n)) as (t2 & k2 & E2 & Hn).
  assert (E3 : steps (S n) t1 k1 = Done t2 k2).
  { destruct (steps_observe n t1 (f a) k1 Ho) as [->|[b Hb]]; [done|].
    rewrite Ho in Hb. rewrite (steps_ret _ _ b) in E2 by done. apply Done_inj in E2 as [<- _].
    by destruct (Hn b). }
  assert (E4 : steps (n + (m + S n - n)) (ITree.bind t f) k = Done t2 k2).
  { replace (n + (m + S n - n))%nat with (m + S n)%nat by lia.
    by rewrite steps_add, (bind_done _ _ _ _ _ E). }
  rewrite steps_add in E4. apply bind_done_inv in E4 as (t3 & k3 & E5 & E6).
  exists t3, k3. split; [done|]. intros b Hb. rewrite (steps_ret _ _ b) in E6 by done.
  apply Done_inj in E6 as [-> _]. by apply (Hn b).
Qed.

End Run.

(** ** The two ways to a system call *)

Definition call_number (h : syscall_t) : Z :=
  match h with
  | h_sys_exit => SYS_EXIT | h_sys_fork => SYS_FORK | h_sys_read => SYS_READ
  | h_sys_write => SYS_WRITE | h_sys_open => SYS_OPEN | h_sys_close => SYS_CLOSE
  | h_sys_execve => SYS_EXECVE | h_sys_waitpid => SYS_WAITPID | h_sys_brk => SYS_BRK
  | h_sys_getpid => SYS_GETPID | h_sys_sleep => SYS_SLEEP | h_sys_gettime => SYS_GETTIME
  | h_sys_yield => SYS_YIELD | h_sys_sbrk => SYS_SBRK | h_sys_kill => SYS_KILL
  end.

(** The registers an [int $0x80] with these arguments leaves for [isr_handler]: the
    number in EAX and the arguments in EBX, ECX and EDX, where [syscall_handler]
    looks for them. *)
Definition trap_frame (h : syscall_t) (a b c : Z) : registers_t :=
  mk_regs 0 0 0 0 0 (u32 a) (u32 c) (u32 b) (call_number h) 128 0 0 0 0.

Section Ways.
Context `{Hardware, PageAllocator}.

(** A call of the function, with the conversions of a call in C; the result is an
    [int32_t].  At most [depth] interrupts nest. *)
Definition direct (fuel depth : nat) (h : syscall_t) (a b c : Z) : K Z :=
  let* r := match h with
    | h_sys_exit => sys_exit fuel (s32 a)
    | h_sys_fork => sys_fork fuel
    | h_sys_read => sys_read fuel (s32 a) (u32 b) (u32 c)
    | h_sys_write => sys_write (s32 a) (u32 b) (u32 c)
    | h_sys_open => sys_open (u32 a) (s32 b) (s32 c)
    | h_sys_close => sys_close (s32 a)
    | h_sys_execve => sys_execve fuel (u32 a) (u32 b) (u32 c)
    | h_sys_waitpid => sys_waitpid fuel (s32 a) (u32 b) (s32 c)
    | h_sys_brk => sys_brk (u32 a)
    | h_sys_getpid => sys_getpid
    | h_sys_sleep => sys_sleep fuel (u32 a)
    | h_sys_gettime => sys_gettime
    | h_sys_yield => @sys_yield (syscall_entry fuel depth)
    | h_sys_sbrk => sys_sbrk (s32 a)
    | h_sys_kill => sys_kill (s32 a) (s32 b)
    end in
  ret (s32 r).

(** The interrupt; the result comes back in EAX. *)
Definition trap (fuel depth : nat) (h : syscall_t) (a b c : Z) : K Z :=
  let* regs := @isr_handler (syscall_entry fuel (S depth)) (trap_frame h a b c) in
  ret (s32 (r_eax regs)).

Lemma direct_trap fuel depth h a b c k :
  syscalls_ready k → trap fuel depth h a b c k = direct fuel depth h a b c k.
Proof.
  intros Hk. unfold trap, direct, bind.
  rewrite (isr_syscall_run fuel depth (trap_frame h a b c) k Hk) by (done || by destruct h).
  assert (E : @abi_call _ _ (syscall_entry fuel depth) fuel (call_number h) (u32 a) (u32 b) (u32 c) =
    Some (@call_syscall _ _ (syscall_entry fuel depth) fuel h (trap_frame h a b c))) by by destruct h.
  cbn [r_eax r_ebx r_ecx r_edx trap_frame]. rewrite E. unfold bind, call_syscall, trap_frame; cbn [r_ebx r_ecx r_edx].
  rewrite !s32_u32.
  destruct h; (match goal with |- context [match ?c k with _ => _ end] => destruct (c k) end);
    try done; unfold ret; cbn [set_eax r_eax]; by rewrite s32_u32.
Qed.

End Ways.

(** *** What no system call changes

    No call registers another call or another interrupt handler. *)

Class KeepsTables {A} (c : K A) : Prop :=
  keeps_tables : ∀ k a k', c k = Done a k' → k_sys k' = k_sys k ∧ k_idt k' = k_idt k.

#[export] Instance keeps_tables_ret {A} (a : A) : KeepsTables (ret a).
Proof. by intros k b k' [_ <-]%Done_inj. Qed.

#[export] Instance keeps_tables_gets {A} (f : kernel → A) : KeepsTables (gets f).
Proof. by intros k b k' [_ <-]%Done_inj. Qed.

#[export] Instance keeps_tables_fault {A} : KeepsTables (fault : K A).
Proof. by intros k b k' E. Qed.

#[export] Instance keeps_tables_spin {A} : KeepsTables (spin : K A).
Proof. by intros k b k' E. Qed.

#[export] Instance keeps_tables_bind {A B} (c : K A) (f : A → K B) :
  KeepsTables c → (∀ a, KeepsTables (f a)) → KeepsTables (bind c f).
Proof.
  intros Hc Hf k b k' (a & k1 & E1 & E2)%bind_done_inv.
  destruct (Hc _ _ _ E1) as [<- <-]. exact (Hf a _ _ _ E2).
Qed.

#[export] Instance keeps_tables_prints c : Prints c → KeepsTables c | 10.
Proof.
  intros Hc k [] k' E. destruct (Hc k) as (s & io & E' & _). rewrite E in E'.
  apply Done_inj in E' as [_ ->]. by destruct k.
Qed.

Lemma keeps_tables_modify f :
  (∀ k, k_sys (f k) = k_sys k ∧ k_idt (f k) = k_idt k) → KeepsTables (modify f).
Proof. intros Hf k b k' [_ <-]%Done_inj. apply Hf. Qed.

#[export] Hint Extern 1 (KeepsTables (modify _)) =>
  apply keeps_tables_modify; intros; split; reflexivity : typeclass_instances.

#[export] Instance keeps_tables_upd_proc f : KeepsTables (upd_proc f).
Proof. unfold upd_proc. apply _. Qed.

#[export] Instance keeps_tables_upd_paging f : KeepsTables (upd_paging f).
Proof. unfold upd_paging. apply _. Qed.

#[export] Instance keeps_tables_upd_timer f : KeepsTables (upd_timer f).
Proof. unfold upd_timer. apply _. Qed.

#[export] Instance keeps_tables_load8 a : KeepsTables (load8 a).
Proof. unfold load8. apply _. Qed.

#[export] Instance keeps_tables_load32 a : KeepsTables (load32 a).
Proof. unfold load32. apply _. Qed.

#[export] Instance keeps_tables_store8 a v : KeepsTables (store8 a v).
Proof. unfold store8. apply _. Qed.

#[export] Instance keeps_tables_store32 a v : KeepsTables (store32 a v).
Proof. unfold store32. apply _. Qed.

#[export] Instance keeps_tables_inb `{Hardware} p : KeepsTables (inb p).
Proof. by intros k b k' [_ <-]%Done_inj. Qed.

Lemma keeps_tables_for_list {A} (l : list A) body :
  (∀ x, KeepsTables (body x)) → KeepsTables (for_list l body).
Proof. intros Hb. induction l; cbn [for_list]; apply _. Qed.

(** [keep_tables] splits a command along its branches and its recursion. *)
Ltac keep_tables := repeat first
  [ apply _
  | apply keeps_tables_for_list; intros
  | apply keeps_tables_bind; [|intros]
  | match goal with |- KeepsTables (match ?x with _ => _ end) => destruct x end
  | match goal with |- KeepsTables (let '_ := ?x in _) => destruct x end ].

#[export] Instance keeps_tables_enqueue fuel i : KeepsTables (enqueue_process fuel i).
Proof. unfold enqueue_process. keep_tables. Qed.

#[export] Instance keeps_tables_get_next fuel : KeepsTables (scheduler_get_next fuel).
Proof. unfold scheduler_get_next, dequeue_process. keep_tables. Qed.

#[export] Instance keeps_tables_fork fuel : KeepsTables (fork_process fuel).
Proof. unfold fork_process, create_process_empty, strcpy_name. keep_tables. Qed.

#[export] Instance keeps_tables_exit fuel code : KeepsTables (exit_process fuel code).
Proof. unfold exit_process. keep_tables. Qed.

#[export] Instance keeps_tables_block fuel : KeepsTables (block_current fuel).
Proof. unfold block_current. keep_tables. Qed.

#[export] Instance keeps_tables_kill p sig : KeepsTables (kill_process p sig).
Proof. unfold kill_process. keep_tables. Qed.

#[export] Instance keeps_tables_read_keys `{Hardware} fuel buf count i :
  KeepsTables (read_keys fuel screen_putchar buf count i).
Proof. revert i. induction fuel as [|fuel IH]; intros i; cbn [read_keys]; keep_tables. Qed.

#[export] Instance keeps_tables_putstr_at fuel p : KeepsTables (putstr_at fuel p).
Proof. revert p. induction fuel as [|fuel IH]; intros p; cbn [putstr_at]; keep_tables. Qed.

#[export] Instance keeps_tables_with_current {A} (f : nat → pcb_t → K A) :
  (∀ c p, KeepsTables (f c p)) → KeepsTables (with_current f).
Proof. intros Hf. unfold with_current. keep_tables. Qed.

#[export] Instance keeps_tables_vload8 a : KeepsTables (vload8 a).
Proof. intros k c k'. unfold vload8. destruct (phys k a); [|done]. by intros [_ <-]%Done_inj. Qed.

#[export] Instance keeps_tables_vstore8 a v : KeepsTables (vstore8 a v).
Proof. intros k c k'. unfold vstore8. destruct (phys k a); [|done]. by intros [_ <-]%Done_inj. Qed.

#[export] Instance keeps_tables_vmemcpy d s n : KeepsTables (vmemcpy d s n).
Proof. unfold vmemcpy. keep_tables. Qed.

#[export] Instance keeps_tables_call_at n : KeepsTables (call_at n).
Proof. intros k e k'. unfold call_at. destruct (_ !! _); [|done]. by intros [_ <-]%Done_inj. Qed.

Section Keeping.
Context `{Hardware, PageAllocator}.
Context `{Halloc : !KeepsTables pmm_alloc_page}.

#[export] Instance keeps_tables_map_page v p f : KeepsTables (map_page v p f).
Proof. unfold map_page, create_page_table. keep_tables. Qed.

#[export] Instance keeps_tables_load_pages fuel code size off : KeepsTables (load_pages fuel code size off).
Proof.
  revert off. induction fuel as [|fuel IH]; intros off; cbn [load_pages]; unfold vmm_map_page; keep_tables.
Qed.

#[export] Instance keeps_tables_execve fuel path argv envp : KeepsTables (sys_execve fuel path argv envp).
Proof. unfold sys_execve, ramdisk_load, vmm_map_page. keep_tables. Qed.

Lemma keeps_tables_irq `{SyscallEntry} regs :
  (∀ r, KeepsTables (syscall_handler r)) → KeepsTables (irq_handler regs).
Proof. intros Hs. unfold irq_handler, call_handler, timer_callback. keep_tables. Qed.

Lemma keeps_tables_yield `{SyscallEntry} :
  (∀ r, KeepsTables (syscall_handler r)) → KeepsTables sys_yield.
Proof. intros Hs. unfold sys_yield, yield. pose proof keeps_tables_irq. keep_tables. Qed.

Lemma keeps_tables_call `{SyscallEntry} fuel h regs :
  (∀ r, KeepsTables (syscall_handler r)) → KeepsTables (call_syscall fuel h regs).
Proof.
  intros Hs. unfold call_syscall. destruct h; [..|by apply keeps_tables_yield| |];
    unfold sys_exit, sys_fork, sys_read, sys_write, sys_open, sys_close, sys_waitpid, sys_brk,
      sys_getpid, sys_sleep, sys_gettime, sys_sbrk, sys_kill, wait_process, sleep_process, get_pid, get_time_ms;
    keep_tables.
Qed.

Lemma keeps_tables_entry fuel depth regs : KeepsTables (syscall_entry fuel depth regs).
Proof.
  revert regs. induction depth as [|depth IH]; intros regs; cbn [syscall_entry]; [apply _|].
  unfold syscall_dispatch. pose proof (λ h r, @keeps_tables_call (syscall_entry fuel depth) fuel h r IH).
  keep_tables.
Qed.

#[export] Instance keeps_tables_direct fuel depth h a b c : KeepsTables (direct fuel depth h a b c).
Proof.
  unfold direct. apply keeps_tables_bind; [|apply _].
  pose proof (@keeps_tables_call (syscall_entry fuel depth) fuel h (trap_frame h a b c)
    (keeps_tables_entry fuel depth)) as Hk.
  unfold call_syscall, trap_frame in Hk. cbn [r_ebx r_ecx r_edx] in Hk. rewrite !s32_u32 in Hk.
  by destruct h.
Qed.

Lemma syscalls_ready_keep k k' :
  syscalls_ready k → k_sys k' = k_sys k ∧ k_idt k' = k_idt k → syscalls_ready k'.
Proof. intros [[rd E] Hi] [Es Ei]. split; [exists rd; by rewrite Es|by rewrite Ei]. Qed.

End Keeping.

#[export] Instance keeps_tables_alloc_frame : KeepsTables (pmm_alloc_page (PageAllocator := alloc_frame_allocator)).
Proof. unfold pmm_alloc_page, alloc_frame_allocator, alloc_frame, upd_pmm. keep_tables. Qed.

(** *** Two ways that agree give the same runs *)

Lemma steps_agree {A} sys1 sys2 (J : kernel → Prop) n (t : program A) k :
  (∀ h a b c k, J k → sys1 h a b c k = sys2 h a b c k) →
  (∀ X (e : userE X) k r k', J k → handle sys2 e k = Done r k' → J k') →
  J k → steps sys1 n t k = steps sys2 n t k.
Proof.
  intros Heq HJ. revert t k. induction n as [|n IH]; intros t k Hk; [done|].
  cbn [steps]. destruct (observe t) as [a|t1|X e f]; [done|by apply IH|].
  assert (E : handle sys1 e k = handle sys2 e k) by (destruct e; cbn [handle]; [by apply Heq|done..]).
  unfold bind. rewrite E. destruct (handle sys2 e k) as [r k'| |] eqn:Er; [|done..].
  apply IH. by apply (HJ X e k r).
Qed.

Lemma handle_keeps `{Hardware, PageAllocator, !KeepsTables pmm_alloc_page} fuel depth X (e : userE X) :
  KeepsTables (handle (direct fuel depth) e).
Proof. destruct e; cbn [handle]; apply _. Qed.

(** ** Properties *)

(** C10: For every user program, run from any state in which the tables are those
    [init_syscalls] installs, the interrupt 0x80 and calling the functions of
    syscall.c give the same run, node by node: the same results, states, faults
    and loops.  Of the page allocator, which [execve] calls, this needs that it
    leaves the tables alone. *)
Theorem traps_agree `{Hardware, PageAllocator, !KeepsTables pmm_alloc_page} k k1 :
  init_syscalls k = Done tt k1 →
  ∀ fuel depth A n (t : program A) k2, k_sys k2 = k_sys k1 → k_idt k2 = k_idt k1 →
    steps (trap fuel depth) n t k2 = steps (direct fuel depth) n t k2.
Proof.
  intros E fuel depth A n t k2 Es Ei.
  destruct (init_syscalls_run k) as (k' & E' & Hi & Hs). rewrite E in E'. apply Done_inj in E' as [_ <-].
  apply (steps_agree _ _ syscalls_ready).
  - intros h a b c k0. by apply direct_trap.
  - intros X e k0 r k0' Hk0 Hr. apply (syscalls_ready_keep k0); [done|].
    exact (handle_keeps fuel depth X e _ _ _ Hr).
  - split; [eexists; by rewrite Es|]. by rewrite Ei, Hi, lookup_insert_eq.
Qed.

(** *** Witness: a program that asks for its pid *)

Definition ask_pid : program Z := ITree.trigger (Sys h_sys_getpid 0 0 0).

Lemma traps_agree_witness :
  ∃ k1, init_syscalls kernel_bss = Done tt k1 ∧
    steps (@trap (typing []) alloc_frame_allocator 10 3) 4 ask_pid k1 =
    steps (@direct (typing []) alloc_frame_allocator 10 3) 4 ask_pid k1.
Proof.
  destruct (init_syscalls_run kernel_bss) as (k1 & E & _). exists k1. split; [exact E|].
  exact (@traps_agree (typing []) alloc_frame_allocator keeps_tables_alloc_frame kernel_bss k1 E
    10 3 Z 4 ask_pid k1 eq_refl eq_refl).
Defined.
