(* ===== verification/Fs.v ===== *)
(** * The file layer (kernel/fs.c)

    The table of open files, the list of mounted file systems, and the calls on
    descriptors.  A [file_t], [superblock_t] or [mounted_fs_t] lives at the address
    the heap gave it, in a map of its own; [open_files] holds the entries that are
    not NULL.  Paths, device names and mount points are the bytes before their
    NUL.  Reading and writing a descriptor goes through [sys_read] and [sys_write]
    of [kernel/syscall.c]. *)

From S2P Require Import Prelude Memory Types Machine Screen Kheap Device Syscall.
Import ScreenH KheapH FsH.

(** ** State *)

Definition upd_fs (f : fs_state → fs_state) : K unit := modify (λ k, set_fs (f (k_fs k)) k).

Definition put_file (a : Z) (f : file_t) (s : fs_state) : fs_state :=
  mk_fs (<[a := f]> (files s)) (superblocks s) (mounts s) (mounted_fs_list s) (open_files s).
Definition put_sb (a : Z) (b : superblock_t) (s : fs_state) : fs_state :=
  mk_fs (files s) (<[a := b]> (superblocks s)) (mounts s) (mounted_fs_list s) (open_files s).
Definition put_mount (a : Z) (m : mounted_fs_t) (s : fs_state) : fs_state :=
  mk_fs (files s) (superblocks s) (<[a := m]> (mounts s)) (mounted_fs_list s) (open_files s).
Definition set_mounts (h : Z) (s : fs_state) : fs_state :=
  mk_fs (files s) (superblocks s) (mounts s) h (open_files s).
Definition set_open (t : gmap Z Z) (s : fs_state) : fs_state :=
  mk_fs (files s) (superblocks s) (mounts s) (mounted_fs_list s) t.

(** [open_files[i]], and [open_files[i] = p]. *)
Definition open_at (s : fs_state) (i : Z) : Z := default NULL (open_files s !! i).
Definition put_open (i p : Z) (s : fs_state) : fs_state :=
  set_open (if p =? NULL then delete i (open_files s) else <[i := p]> (open_files s)) s.

Definition file_zero : file_t := mk_file 0 0 0 0.
Definition set_inode (n : Z) (f : file_t) : file_t := mk_file n (f_mode f) (pos f) (f_flags f).
Definition set_pos (n : Z) (f : file_t) : file_t := mk_file (inode f) (f_mode f) n (f_flags f).

(** [*p] for a file or a mount. *)
Definition deref_file (p : Z) : K file_t := λ k,
  match files (k_fs k) !! p with Some f => Done f k | None => Fault end.
Definition deref_mount (p : Z) : K mounted_fs_t := λ k,
  match mounts (k_fs k) !! p with Some m => Done m k | None => Fault end.

(** ** Operations *)

Definition init_fs (fuel : nat) : K unit :=
  screen_putstr (cstr "Initializing File System... ") ;;;
  upd_fs (set_open ∅) ;;;
  let* stdin_file := kmalloc fuel sizeof_file in
  let* stdout_file := kmalloc fuel sizeof_file in
  let* stderr_file := kmalloc fuel sizeof_file in
  upd_fs (put_file stdin_file file_zero) ;;;
  upd_fs (put_file stdout_file file_zero) ;;;
  upd_fs (put_file stderr_file file_zero) ;;;
  upd_fs (put_file stdin_file (set_inode 0 file_zero)) ;;;
  upd_fs (put_file stdout_file (set_inode 1 file_zero)) ;;;
  upd_fs (put_file stderr_file (set_inode 2 file_zero)) ;;;
  upd_fs (put_open 0 stdin_file) ;;;
  upd_fs (put_open 1 stdout_file) ;;;
  upd_fs (put_open 2 stderr_file) ;;;
  let* root_fs := kmalloc fuel sizeof_mounted_fs in
  if root_fs =? NULL then
    screen_setcolor COLOR_LIGHT_RED COLOR_BLACK ;;;
    screen_putstr (cstr "Failed to allocate root filesystem!" ++ [10])
  else
    upd_fs (put_mount root_fs (mk_mounted (cstr "ram0") (cstr "/") NULL NULL)) ;;;
    let* sb := kmalloc fuel sizeof_superblock in
    upd_fs (put_mount root_fs (mk_mounted (cstr "ram0") (cstr "/") sb NULL)) ;;;
    if sb =? NULL then
      kfree root_fs ;;;
      screen_setcolor COLOR_LIGHT_RED COLOR_BLACK ;;;
      screen_putstr (cstr "Failed to allocate superblock!" ++ [10])
    else
      upd_fs (put_sb sb (mk_sb FS_MAGIC BLOCK_SIZE 1024 1000 128 120 1 2 1 (cstr "rootfs"))) ;;;
      upd_fs (set_mounts root_fs) ;;;
      screen_setcolor COLOR_LIGHT_GREEN COLOR_BLACK ;;;
      screen_putstr (cstr "OK" ++ [10]) ;;;
      screen_setcolor COLOR_LIGHT_GREY COLOR_BLACK ;;;
      screen_putstr (cstr "  Root filesystem mounted at /" ++ [10]).

(** Whether [mountpoint] is on the list from [fs], lines 85-95. *)
Fixpoint mount_taken (fuel : nat) (mp : list Z) (fs : Z) : K bool :=
  if fs =? NULL then ret false
  else
    match fuel with
    | O => spin
    | S fuel =>
        let* m := deref_mount fs in
        if bool_decide (mountpoint m = mp) then ret true else mount_taken fuel mp (mnt_next m)
    end.

(** [strncpy(dest, s, n)] into zeroed memory of more than [n] bytes. *)
Definition mount (fuel : nat) (device mp fstype : list Z) : K Z :=
  let* fs := gets (λ k, mounted_fs_list (k_fs k)) in
  let* taken := mount_taken fuel mp fs in
  if taken : bool then
    screen_setcolor COLOR_YELLOW COLOR_BLACK ;;;
    screen_putstr (cstr "Mountpoint ") ;;;
    screen_putstr mp ;;;
    screen_putstr (cstr " is already mounted" ++ [10]) ;;;
    ret (-1)
  else
    let* new_fs := kmalloc fuel sizeof_mounted_fs in
    if new_fs =? NULL then ret (-1)
    else
      upd_fs (put_mount new_fs (mk_mounted (take 31 device) (take 255 mp) NULL fs)) ;;;
      upd_fs (set_mounts new_fs) ;;;
      screen_setcolor COLOR_LIGHT_GREY COLOR_BLACK ;;;
      screen_putstr (cstr "Mounted ") ;;;
      screen_putstr device ;;;
      screen_putstr (cstr " at ") ;;;
      screen_putstr mp ;;;
      screen_putstr [10] ;;;
      ret 0.

Definition set_mnt_next (n : Z) (m : mounted_fs_t) : mounted_fs_t :=
  mk_mounted (mnt_device m) (mountpoint m) (sb m) n.

Fixpoint umount_loop (fuel : nat) (mp : list Z) (prev fs : Z) : K Z :=
  if fs =? NULL then
    screen_setcolor COLOR_YELLOW COLOR_BLACK ;;;
    screen_putstr (cstr "Mountpoint ") ;;;
    screen_putstr mp ;;;
    screen_putstr (cstr " not found" ++ [10]) ;;;
    ret (-1)
  else
    match fuel with
    | O => spin
    | S fuel =>
        let* m := deref_mount fs in
        if bool_decide (mountpoint m = mp) then
          (if prev =? NULL then upd_fs (set_mounts (mnt_next m))
           else
             let* p := deref_mount prev in
             upd_fs (put_mount prev (set_mnt_next (mnt_next m) p))) ;;;
          (if sb m =? NULL then ret tt else kfree (sb m)) ;;;
          kfree fs ;;;
          screen_setcolor COLOR_LIGHT_GREY COLOR_BLACK ;;;
          screen_putstr (cstr "Unmounted ") ;;;
          screen_putstr mp ;;;
          screen_putstr [10] ;;;
          ret 0
        else umount_loop fuel mp fs (mnt_next m)
    end.

Definition umount (fuel : nat) (mp : list Z) : K Z :=
  let* fs := gets (λ k, mounted_fs_list (k_fs k)) in
  umount_loop fuel mp NULL fs.

(** The mount whose mount point is a prefix of the path, lines 164-170. *)
Fixpoint find_mount (fuel : nat) (path : list Z) (fs : Z) : K Z :=
  if fs =? NULL then ret NULL
  else
    match fuel with
    | O => spin
    | S fuel =>
        let* m := deref_mount fs in
        if bool_decide (take (length (mountpoint m)) path = mountpoint m) then ret fs
        else find_mount fuel path (mnt_next m)
    end.

(** The inode of the special files, lines 190-202. *)
Definition special_inode (path : list Z) : Z :=
  if bool_decide (path = cstr "/dev/tty") || bool_decide (path = cstr "/dev/console") then 0
  else if bool_decide (path = cstr "/dev/stdout") then 1
  else if bool_decide (path = cstr "/dev/stderr") then 2
  else 3.

(** The first NULL entry among [n] from [i]. *)
Fixpoint free_slot (n : nat) (i : Z) (s : fs_state) : option Z :=
  match n with
  | O => None
  | S n => if open_at s i =? NULL then Some i else free_slot n (i + 1) s
  end.

(** The mount that is found is not used. *)
Definition open (fuel : nat) (path : list Z) (flags mode : Z) : K Z :=
  let* head := gets (λ k, mounted_fs_list (k_fs k)) in
  let* _ := find_mount fuel path head in
  let* file := kmalloc fuel sizeof_file in
  if file =? NULL then ret (-1)
  else
    upd_fs (put_file file (mk_file 0 (u32 flags) 0 0)) ;;;
    upd_fs (put_file file (mk_file (special_inode path) (u32 flags) 0 0)) ;;;
    let* s := gets k_fs in
    match free_slot 1024 0 s with
    | Some i => upd_fs (put_open i file) ;;; ret i
    | None => kfree file ;;; ret (-1)
    end.

(** [fd < 0 || fd >= MAX_FILES || open_files[fd] == NULL] *)
Definition bad_fd (s : fs_state) (fd : Z) : bool :=
  (fd <? 0) || (MAX_FILES <=? fd) || (open_at s fd =? NULL).

Definition close (fd : Z) : K Z :=
  let* s := gets k_fs in
  if bad_fd s fd then ret (-1)
  else
    kfree (open_at s fd) ;;;
    upd_fs (put_open fd NULL) ;;;
    ret 0.

Definition read `{Hardware} (fuel : nat) (fd buf count : Z) : K Z :=
  let* s := gets k_fs in
  if bad_fd s fd then ret (-1)
  else
    let* file := deref_file (open_at s fd) in
    if inode file =? 0 then sys_read fuel fd buf count else ret 0.

Definition write (fd buf count : Z) : K Z :=
  let* s := gets k_fs in
  if bad_fd s fd then ret (-1)
  else
    let* file := deref_file (open_at s fd) in
    if (inode file =? 1) || (inode file =? 2) then sys_write fd buf count else ret 0.

Definition seek (fd offset whence : Z) : K Z :=
  let* s := gets k_fs in
  if bad_fd s fd then ret (-1)
  else
    let p := open_at s fd in
    let* file := deref_file p in
    if whence =? 0 then
      upd_fs (put_file p (set_pos (u32 offset) file)) ;;;
      ret (s32 (u32 offset))
    else if whence =? 1 then
      upd_fs (put_file p (set_pos (u32 (pos file + offset)) file)) ;;;
      ret (s32 (u32 (pos file + offset)))
    else if whence =? 2 then ret (s32 (pos file))
    else ret (-1).

(** The calls that are not implemented. *)
Definition unlink (path : list Z) : K Z := ret 0.
Definition mkdir (path : list Z) (mode : Z) : K Z := ret 0.
Definition rmdir (path : list Z) : K Z := ret 0.
Definition rename (oldpath newpath : list Z) : K Z := ret 0.
Definition stat (path : list Z) (buf : Z) : K Z := ret 0.
Definition readdir (fd buf count : Z) : K Z := ret 0.

(** ** show_fs_info *)

Definition deref_sb (p : Z) : K superblock_t := λ k,
  match superblocks (k_fs k) !! p with Some b => Done b k | None => Fault end.

Fixpoint show_mounts (fuel : nat) (fs : Z) : K unit :=
  if fs =? NULL then ret tt
  else
    match fuel with
    | O => spin
    | S fuel =>
        let* m := deref_mount fs in
        screen_putstr (mnt_device m) ;;;
        pad (mnt_device m) 10 ;;;
        screen_putstr (cstr "  ") ;;;
        screen_putstr (mountpoint m) ;;;
        pad (mountpoint m) 12 ;;;
        screen_putstr (cstr "  ") ;;;
        (if sb m =? NULL then screen_putstr (cstr "unknown  -")
         else
           let* b := deref_sb (sb m) in
           screen_putstr (cstr "heliofs  ") ;;;
           screen_putdec (u32 (blocks_count b * BLOCK_SIZE) / 1024) ;;;
           screen_putstr (cstr " KB")) ;;;
        screen_putstr [10] ;;;
        show_mounts fuel (mnt_next m)
    end.

Definition show_fs_info (fuel : nat) : K unit :=
  screen_setcolor COLOR_LIGHT_CYAN COLOR_BLACK ;;;
  screen_putstr ([10] ++ cstr "File System Information:" ++ [10]) ;;;
  screen_setcolor COLOR_LIGHT_GREY COLOR_BLACK ;;;
  let* fs := gets (λ k, mounted_fs_list (k_fs k)) in
  screen_putstr (cstr "Device    Mountpoint  Type    Size" ++ [10]) ;;;
  screen_putstr (cstr "--------  ----------  ------  -----" ++ [10]) ;;;
  show_mounts fuel fs ;;;
  screen_putstr ([10] ++ cstr "Open Files:" ++ [10]) ;;;
  for_list (seqZ 0 1024) (λ i,
    let* s := gets k_fs in
    if open_at s i =? NULL then ret tt
    else
      let* file := deref_file (open_at s i) in
      screen_putstr (cstr "  fd ") ;;;
      screen_putdec i ;;;
      screen_putstr (cstr ": inode=") ;;;
      screen_putdec (inode file) ;;;
      screen_putstr (cstr ", pos=") ;;;
      screen_putdec (pos file) ;;;
      screen_putstr [10]).

(** ** Well-formed state *)

(** The mounts linked from [h]. *)
Fixpoint mount_chain (s : fs_state) (h : Z) (l : list Z) : Prop :=
  match l with
  | [] => h = NULL
  | a :: l => h = a ∧ a ≠ NULL ∧ ∃ m, mounts s !! a = Some m ∧ mount_chain s (mnt_next m) l
  end.

(** The entries of the table are addresses of files. *)
Definition table_ok (s : fs_state) : Prop :=
  ∀ i p, open_files s !! i = Some p → p ≠ NULL ∧ ∃ f, files s !! p = Some f.

Record fs_ok (k : kernel) (l : list Z) (bs : list blk) : Prop := {
  fo_heap : heap_rep k bs;
  fo_mounts : mount_chain (k_fs k) (mounted_fs_list (k_fs k)) l;
  fo_table : table_ok (k_fs k) }.

Lemma deref_mount_run p m k : mounts (k_fs k) !! p = Some m → deref_mount p k = Done m k.
Proof. unfold deref_mount. by intros ->. Qed.

Lemma deref_file_run p f k : files (k_fs k) !! p = Some f → deref_file p k = Done f k.
Proof. unfold deref_file. by intros ->. Qed.

Lemma find_mount_run fuel path h l k :
  mount_chain (k_fs k) h l → (length l ≤ fuel)%nat → ∃ p, find_mount fuel path h k = Done p k.
Proof.
  revert fuel h. induction l as [|a l IH]; intros fuel h Hl Hf; cbn [mount_chain length] in *.
  - subst h. exists NULL. by destruct fuel.
  - destruct Hl as (-> & Ha & m & Hm & Hl). destruct fuel as [|fuel]; [lia|].
    cbn [find_mount]. rewrite (proj2 (Z.eqb_neq _ _) Ha), (bind_done _ _ _ _ _ (deref_mount_run _ _ _ Hm)).
    destruct (bool_decide _); [by exists a|]. apply IH; [done|lia].
Qed.

Lemma free_slot_spec n i s :
  match free_slot n i s with
  | Some j => i ≤ j < i + Z.of_nat n ∧ open_at s j = NULL ∧ ∀ h, i ≤ h < j → open_at s h ≠ NULL
  | None => ∀ h, i ≤ h < i + Z.of_nat n → open_at s h ≠ NULL
  end.
Proof.
  revert i. induction n as [|n IH]; intros i; cbn [free_slot]; [lia|].
  destruct (Z.eqb_spec (open_at s i) NULL) as [E|E].
  - split; [lia|]. split; [done|lia].
  - specialize (IH (i + 1)). destruct (free_slot n (i + 1) s) as [j|].
    + destruct IH as (Hj & Hc & Hl). split; [lia|]. split; [done|]. intros h Hh.
      destruct (Z.eq_dec h i) as [->|]; [done|]. apply Hl. lia.
    + intros h Hh. destruct (Z.eq_dec h i) as [->|]; [done|]. apply IH. lia.
Qed.

Lemma open_at_none s i : table_ok s → open_at s i = NULL → open_files s !! i = None.
Proof.
  unfold open_at. intros Hok. destruct (open_files s !! i) as [p|] eqn:E; [|done].
  cbn. intros ->. by apply Hok in E as [? _].
Qed.

Lemma mount_taken_run fuel mp h l k :
  mount_chain (k_fs k) h l → (length l ≤ fuel)%nat →
  (∀ a m, a ∈ l → mounts (k_fs k) !! a = Some m → mountpoint m ≠ mp) →
  mount_taken fuel mp h k = Done false k.
Proof.
  revert fuel h. induction l as [|a l IH]; intros fuel h Hl Hf Hmp; cbn [mount_chain length] in *.
  - subst h. by destruct fuel.
  - destruct Hl as (-> & Ha & m & Hm & Hl). destruct fuel as [|fuel]; [lia|].
    cbn [mount_taken]. rewrite (proj2 (Z.eqb_neq _ _) Ha), (bind_done _ _ _ _ _ (deref_mount_run _ _ _ Hm)).
    rewrite bool_decide_eq_false_2 by (apply (Hmp a); [by left|done]).
    apply IH; [done|lia|]. intros c m' Hc. apply Hmp. by right.
Qed.

Lemma mount_taken_head fuel mp h m k :
  h ≠ NULL → mounts (k_fs k) !! h = Some m → mountpoint m = mp →
  mount_taken (S fuel) mp h k = Done true k.
Proof.
  intros Hh Hm <-. cbn [mount_taken].
  rewrite (proj2 (Z.eqb_neq _ _) Hh), (bind_done _ _ _ _ _ (deref_mount_run _ _ _ Hm)).
  by rewrite bool_decide_eq_true_2.
Qed.

(** ** Properties *)

(** C13: [open] and [close] are inverse and leak nothing.  [open] returns the
    lowest free descriptor, whose file has the inode of its path, the given flags
    and position 0; [close] of it then restores the descriptor table and the
    heap's block list.  [open] returns -1 exactly when no heap block fits or all
    1024 descriptors are taken, with the table and the heap as they were. *)
Theorem open_close_roundtrip fuel path flags mode k l bs :
  fs_ok k l bs → (length l ≤ fuel)%nat → (length bs < fuel)%nat →
  ∃ r k', open fuel path flags mode k = Done r k' ∧
    if decide (r = -1) then
      (alloc_blocks (block_need sizeof_file) bs = None ∨ ∀ i, 0 ≤ i < 1024 → open_at (k_fs k) i ≠ NULL) ∧
      heap_rep k' bs ∧ open_files (k_fs k') = open_files (k_fs k)
    else
      0 ≤ r < 1024 ∧ open_at (k_fs k) r = NULL ∧ (∀ i, 0 ≤ i < r → open_at (k_fs k) i ≠ NULL) ∧
      (∃ p, p ≠ NULL ∧ open_files (k_fs k') = <[r := p]> (open_files (k_fs k)) ∧
         files (k_fs k') !! p = Some (mk_file (special_inode path) (u32 flags) 0 0)) ∧
      ∃ k2, close r k' = Done 0 k2 ∧ heap_rep k2 bs ∧ open_files (k_fs k2) = open_files (k_fs k).
Proof.
  intros [Hheap Hm Htab] Hfl Hfb. unfold open. rewrite bind_gets.
  destruct (find_mount_run fuel path _ _ _ Hm Hfl) as (pm & Em). rewrite (bind_done _ _ _ _ _ Em).
  destruct (kmalloc_paired fuel sizeof_file k bs Hheap Hfb) as (p & k1 & E1 & H1); [unfold sizeof_file; lia|].
  rewrite (bind_done _ _ _ _ _ E1). destruct H1 as [(-> & Hk1 & Hno)|(Hp & Ho1 & bs' & Hrep1 & Hfree)].
  { exists (-1), k1. split; [done|]. rewrite decide_True by done. split; [by left|].
    unfold same_but_console in Hk1. rewrite Hk1. split; [by apply (heap_rep_ext k)|done]. }
  rewrite (proj2 (Z.eqb_neq _ _) Hp). unfold upd_fs at 1 2. rewrite !bind_modify, bind_gets.
  assert (Hfs1 : k_fs k1 = k_fs k) by (rewrite Ho1; done).
  set (k2 := set_fs _ (set_fs _ k1)).
  assert (Hopen2 : open_files (k_fs k2) = open_files (k_fs k)) by (cbn; by rewrite Hfs1).
  assert (Hfile2 : files (k_fs k2) !! p = Some (mk_file (special_inode path) (u32 flags) 0 0))
    by (cbn; by rewrite lookup_insert_eq).
  assert (Hrep2 : heap_rep k2 bs') by by apply (heap_rep_ext k1).
  clearbody k2.
  assert (Hat : ∀ i, open_at (k_fs k2) i = open_at (k_fs k) i) by (intros i; unfold open_at; by rewrite Hopen2).
  pose proof (free_slot_spec 1024 0 (k_fs k2)) as Hslot. destruct (free_slot 1024 0 (k_fs k2)) as [r|].
  - destruct Hslot as (Hr & Hnull & Hmin). rewrite Hat in Hnull. unfold upd_fs. rewrite bind_modify.
    set (k3 := set_fs _ k2). exists r, k3. split; [done|]. rewrite decide_False by lia.
    assert (Hopen3 : open_files (k_fs k3) = <[r := p]> (open_files (k_fs k))).
    { cbn. unfold put_open. rewrite (proj2 (Z.eqb_neq _ _) Hp). cbn. by rewrite Hopen2. }
    split; [lia|]. split; [done|]. split; [intros i Hi; rewrite <- Hat; apply Hmin; lia|].
    split; [by exists p|].
    destruct (Hfree k3) as (k4 & E4 & Hrep4 & Ho4); [by apply (heap_rep_ext k2)|].
    unfold close. rewrite bind_gets.
    assert (Hat3 : open_at (k_fs k3) r = p) by (unfold open_at; by rewrite Hopen3, lookup_insert_eq).
    unfold bad_fd, MAX_FILES. rewrite Hat3, (proj2 (Z.eqb_neq _ _) Hp), (proj2 (Z.ltb_ge _ _)),
      (proj2 (Z.leb_gt _ _)) by lia. cbn [orb]. rewrite (bind_done _ _ _ _ _ E4).
    eexists. split; [done|]. split; [by apply (heap_rep_ext k4)|].
    cbn. assert (Hfs4 : k_fs k4 = k_fs k3) by (rewrite Ho4; done). rewrite Hfs4, Hopen3.
    rewrite delete_insert_id; [done|]. by apply open_at_none.
  - destruct (Hfree k2 Hrep2) as (k3 & E3 & Hrep3 & Ho3). rewrite (bind_done _ _ _ _ _ E3).
    exists (-1), k3. split; [done|]. rewrite decide_True by done. split; [right|split; [done|]].
    + intros i Hi. rewrite <- Hat. apply Hslot. lia.
    + rewrite <- Hopen2. by rewrite Ho3.
Qed.

(** Descriptors from 3 on transfer no data: [read] and [write] pass the
    descriptor itself to [sys_read] and [sys_write], which know 0, 1 and 2 only,
    so a console opened by name always fails to read and to write, and a regular
    file reads and writes 0 bytes. *)
Theorem high_descriptors_dead `{Hardware} fuel fd buf count k :
  table_ok (k_fs k) → 3 ≤ fd →
  ∃ r w, read fuel fd buf count k = Done r k ∧ write fd buf count k = Done w k ∧
    if bad_fd (k_fs k) fd then r = -1 ∧ w = -1
    else ∃ f, files (k_fs k) !! open_at (k_fs k) fd = Some f ∧
      r = (if inode f =? 0 then -1 else 0) ∧
      w = (if (inode f =? 1) || (inode f =? 2) then -1 else 0).
Proof.
  intros Htab Hfd. unfold read, write. rewrite !bind_gets.
  destruct (bad_fd (k_fs k) fd) eqn:Hbad; [by exists (-1), (-1)|].
  assert (Hop : ∃ p, open_files (k_fs k) !! fd = Some p).
  { unfold bad_fd, open_at in Hbad. destruct (open_files (k_fs k) !! fd) as [p|]; [by exists p|].
    cbn in Hbad. by rewrite orb_true_r in Hbad. }
  destruct Hop as [p Hp]. destruct (Htab _ _ Hp) as (Hpn & f & Hf).
  assert (Hat : open_at (k_fs k) fd = p) by (unfold open_at; by rewrite Hp).
  rewrite Hat, !(bind_done _ _ _ _ _ (deref_file_run _ _ _ Hf)).
  unfold sys_read, sys_write. rewrite (proj2 (Z.eqb_neq fd 0)), (proj2 (Z.eqb_neq fd 1)),
    (proj2 (Z.eqb_neq fd 2)) by lia. cbn [orb].
  exists (if inode f =? 0 then -1 else 0), (if (inode f =? 1) || (inode f =? 2) then -1 else 0).
  split; [by destruct (inode f =? 0)|]. split; [by destruct (inode f =? 1), (inode f =? 2)|].
  by exists f.
Qed.

(** C35: [mount] and [umount] are inverse.  A mount point that is not mounted and has
    at most 255 bytes is linked in front of the list; mounting it again is refused
    with -1 and changes nothing but the console; [umount] then gives back the list
    and the heap's block list.  When no heap block fits, [mount] returns -1 and
    changes nothing but the console. *)
Theorem mount_umount_roundtrip fuel device mp fstype k l bs :
  fs_ok k l bs → (length l < fuel)%nat → (length bs < fuel)%nat → (length mp ≤ 255)%nat →
  (∀ a m, a ∈ l → mounts (k_fs k) !! a = Some m → mountpoint m ≠ mp) →
  ∃ r k', mount fuel device mp fstype k = Done r k' ∧
    if decide (r = -1) then
      alloc_blocks (block_need sizeof_mounted_fs) bs = None ∧ same_but_console k k'
    else
      r = 0 ∧
      (∃ p, p ≠ NULL ∧ mounted_fs_list (k_fs k') = p ∧
         mounts (k_fs k') !! p = Some (mk_mounted (take 31 device) mp NULL (mounted_fs_list (k_fs k)))) ∧
      (∀ device2 fstype2, ∃ k2, mount fuel device2 mp fstype2 k' = Done (-1) k2 ∧ same_but_console k' k2) ∧
      ∃ k3, umount fuel mp k' = Done 0 k3 ∧ heap_rep k3 bs ∧
        mounted_fs_list (k_fs k3) = mounted_fs_list (k_fs k).
Proof.
  intros [Hheap Hm _] Hfl Hfb Hlen Hmp. unfold mount at 1. rewrite bind_gets.
  rewrite (bind_done _ _ _ _ _ (mount_taken_run fuel mp _ l k Hm ltac:(lia) Hmp)).
  destruct (kmalloc_paired fuel sizeof_mounted_fs k bs Hheap Hfb) as (p & k1 & E1 & H1);
    [unfold sizeof_mounted_fs; lia|].
  rewrite (bind_done _ _ _ _ _ E1). destruct H1 as [(-> & Hk1 & Hno)|(Hp & Ho1 & bs' & Hrep1 & Hfree)].
  { exists (-1), k1. split; [done|]. by rewrite decide_True. }
  rewrite (proj2 (Z.eqb_neq _ _) Hp). unfold upd_fs. rewrite !bind_modify.
  set (k2 := set_fs _ _).
  assert (Hrep2 : heap_rep k2 bs') by by apply (heap_rep_ext k1).
  assert (Hhead : mounted_fs_list (k_fs k2) = p) by done.
  assert (Hmount : mounts (k_fs k2) !! p = Some (mk_mounted (take 31 device) mp NULL (mounted_fs_list (k_fs k)))).
  { cbn. by rewrite lookup_insert_eq, (take_ge _ _ Hlen). }
  clearbody k2. do 6 print_step.
  match goal with |- context [ret 0 ?x] => set (k3 := x) end.
  assert (Hrep3 : heap_rep k3 bs') by by apply (heap_rep_ext k2).
  change (k_fs k2) with (k_fs k3) in Hhead, Hmount. clearbody k3.
  exists 0, k3. split; [done|]. rewrite decide_False by done. split; [done|].
  split; [by exists p|]. destruct fuel as [|fuel]; [lia|]. split.
  - intros d2 t2. unfold mount. rewrite bind_gets, Hhead.
    rewrite (bind_done _ _ _ _ _ (mount_taken_head _ _ _ _ _ Hp Hmount eq_refl)). do 4 print_step.
    eexists. split; [done|]. do 3 (etrans; [apply same_but_console_with|]). apply same_but_console_with.
  - unfold umount. rewrite bind_gets, Hhead. cbn [umount_loop].
    rewrite (proj2 (Z.eqb_neq _ _) Hp), (bind_done _ _ _ _ _ (deref_mount_run _ _ _ Hmount)).
    cbn [mountpoint sb mnt_next]. rewrite bool_decide_eq_true_2 by done. cbn [Z.eqb NULL].
    unfold upd_fs. rewrite bind_modify, bind_ret.
    set (k4 := set_fs _ k3).
    destruct (Hfree k4) as (k5 & E5 & Hrep5 & Ho5); [by apply (heap_rep_ext k3)|].
    rewrite (bind_done _ _ _ _ _ E5). do 4 print_step.
    eexists. split; [done|]. split; [by apply (heap_rep_ext k5)|].
    cbn. by rewrite Ho5.
Qed.

(** ** Witnesses: a heap of 256 bytes, descriptors 0 to 2 taken, nothing mounted *)

Definition fs0 : kernel :=
  set_fs (mk_fs {[0x10 := mk_file 0 0 0 0; 0x20 := mk_file 1 0 0 0; 0x30 := mk_file 2 0 0 0;
                  0x40 := mk_file 0 0 0 0]}
            ∅ ∅ NULL {[0 := 0x10; 1 := 0x20; 2 := 0x30; 5 := 0x40]}) heap0.

Lemma fs0_table : table_ok (k_fs fs0).
Proof.
  intros i p Hi. cbn in Hi.
  assert (Hall : map_Forall (λ _ p, p ≠ NULL ∧ is_Some (files (k_fs fs0) !! p)) (open_files (k_fs fs0)))
    by (refine (bool_decide_unpack _ _); vm_compute; exact I).
  destruct (Hall i p Hi) as [? [f ?]]. split; [done|by exists f].
Qed.

Lemma fs0_ok : fs_ok fs0 [] heap0_blocks.
Proof. split; [|done|exact fs0_table]. by apply (heap_rep_ext heap0); [..|exact heap0_rep]. Qed.

Lemma open_close_roundtrip_witness :
  ∃ k' k2, open 2 (cstr "/dev/tty") 0 0 fs0 = Done 3 k' ∧ close 3 k' = Done 0 k2 ∧
    heap_rep k2 heap0_blocks.
Proof.
  destruct (open_close_roundtrip 2 (cstr "/dev/tty") 0 0 fs0 [] heap0_blocks fs0_ok)
    as (r & k' & E & H); [cbn; lia|cbn; lia|].
  case_decide as Hr.
  - destruct H as ([Hno|Hall] & _); [vm_compute in Hno; discriminate|].
    destruct (Hall 3); [lia|reflexivity].
  - destruct H as (Hb & Hn & Hmin & _ & k2 & E2 & Hrep & _).
    assert (r = 3) as ->.
    { destruct (Z.lt_trichotomy r 3) as [Hlt|[Heq|Hgt]]; [|exact Heq|].
      - assert (r = 0 ∨ r = 1 ∨ r = 2) as [->|[->| ->]] by lia; vm_compute in Hn; discriminate.
      - destruct (Hmin 3); [lia|reflexivity]. }
    exists k', k2. split; [exact E|]. split; [exact E2|exact Hrep].
Defined.

Lemma high_descriptors_dead_witness :
  ∃ r w, @read (typing []) 2 5 0x8000 10 fs0 = Done r fs0 ∧ write 5 0x8000 10 fs0 = Done w fs0 ∧ r = -1 ∧ w = 0.
Proof.
  destruct (@high_descriptors_dead (typing []) 2 5 0x8000 10 fs0 fs0_table) as (r & w & E1 & E2 & H); [lia|].
  exists r, w. split; [exact E1|]. split; [exact E2|].
  destruct H as (f & Hf & Hr & Hw). vm_compute in Hf. injection Hf as <-. split; [exact Hr|exact Hw].
Defined.

(** A heap of 512 bytes with nothing mounted. *)
Definition fs1 : kernel :=
  set_heap (mk_heap 4096 512 16)
    (set_mem (st32 (st32 (st8 (st32 ∅ 4096 512) 4100 1) 4104 0) 4108 0) kernel_bss).

Definition fs1_blocks : list blk := [mk_blk 4096 512 true].

Lemma fs1_ok : fs_ok fs1 [] fs1_blocks.
Proof.
  split; [|done|by intros i p Hi].
  split; [|done]. split; [by vm_compute|by vm_compute|by vm_compute| | |by vm_compute|].
  - by vm_compute.
  - by vm_compute.
  - cbn. auto 10 with word.
Qed.

#[global] Opaque fs1.

Lemma mount_umount_roundtrip_witness :
  ∃ k' k2, mount 2 (cstr "ata0") (cstr "/mnt") (cstr "heliofs") fs1 = Done 0 k' ∧
    umount 2 (cstr "/mnt") k' = Done 0 k2 ∧ heap_rep k2 fs1_blocks.
Proof.
  destruct (mount_umount_roundtrip 2 (cstr "ata0") (cstr "/mnt") (cstr "heliofs") fs1 [] fs1_blocks fs1_ok)
    as (r & k' & E & H); [cbn; lia|cbn; lia|refine (bool_decide_unpack _ _); reflexivity|by intros a m Ha; apply not_elem_of_nil in Ha|].
  case_decide as Hr.
  - destruct H as [Hno _]. vm_compute in Hno. discriminate.
  - destruct H as (-> & _ & _ & k2 & E2 & Hrep & _).
    exists k', k2. split; [exact E|]. split; [exact E2|exact Hrep].
Defined.
