(* ===== verification/Ata.v ===== *)
(** * The ATA driver (kernel/ata.c)

    Programmed I/O on the two IDE channels: probing, sector reads and sector writes.
    The array [devices] is memory of its own, [devices (k_ata k)], at the byte
    offsets of [AtaH]; an access outside its four elements is a [Fault].  The
    functions [inw] and [outw], which no file defines, are the class [WordPorts],
    whose laws say that they transfer a word and leave the rest of the kernel
    alone.  The disk is [Hardware], as for every port.

    The three reads and writes of a word that the driver does in a loop of 256 make
    a sector; the theorems give the whole sequence of port accesses of a transfer,
    [transfer_log], and say which words of it end where in memory. *)

From S2P Require Import Prelude Memory Types Machine Screen Cstring Device.
Import ScreenH AtaH.

(** The word-wide port accesses. *)
Class WordPorts := {
  inw : Z → K Z;
  outw : Z → Z → K unit;
  inw_law : ∀ port k, ∃ v, 0 ≤ v < 65536 ∧ inw port k = Done v (set_io (In16 (u16 port) v :: k_io k) k);
  outw_law : ∀ port v k, outw port v k = Done tt (set_io (Out16 (u16 port) (u16 v) :: k_io k) k) }.

(** ** State *)

Definition upd_ata (f : ata_state → ata_state) : K unit := modify (λ k, set_ata (f (k_ata k)) k).
Definition set_channels (c : list ata_channel_t) (a : ata_state) : ata_state :=
  mk_ata_state c (devices a) (ata_initialized a).
Definition set_devices (m : mem) (a : ata_state) : ata_state :=
  mk_ata_state (channels a) m (ata_initialized a).
Definition set_initialized (b : bool) (a : ata_state) : ata_state :=
  mk_ata_state (channels a) (devices a) b.

(** [channels[c]] *)
Definition channel_at (c : Z) : K ata_channel_t := λ k,
  match channels (k_ata k) !! Z.to_nat c with Some ch => Done ch k | None => Fault end.

(** [&devices[drive]] plus a member's offset, from the start of the array. *)
Definition dev_at (drive off : Z) : Z := drive * sizeof_ata_device + off.

(** Whether [n] bytes at [a] are in the array. *)
Definition in_devices (a n : Z) : bool := (0 <=? a) && (a + n <=? 4 * sizeof_ata_device).

Definition ld16 (m : mem) (a : Z) : Z := ld8 m a + 256 * ld8 m (a + 1).
Definition st16 (m : mem) (a v : Z) : mem := st8 (st8 m a v) (a + 1) (v / 256).

Definition dev_load (ld : mem → Z → Z) (n a : Z) : K Z := λ k,
  if in_devices a n then Done (ld (devices (k_ata k)) a) k else Fault.
Definition dev_store (st : mem → Z → Z → mem) (n a v : Z) : K unit := λ k,
  if in_devices a n
  then Done tt (set_ata (set_devices (st (devices (k_ata k)) a v) (k_ata k)) k) else Fault.

Section Operations.
Context `{Hardware, WordPorts}.

(** ** Waiting *)

Fixpoint ata_wait_busy (fuel : nat) (port : Z) : K unit :=
  match fuel with
  | O => spin
  | S fuel =>
      let* s := inb (port + ATA_STATUS) in
      if Z.land s ATA_SR_BSY =? 0 then ret tt else ata_wait_busy fuel port
  end.

Fixpoint ata_wait_drq (fuel : nat) (port : Z) : K unit :=
  match fuel with
  | O => spin
  | S fuel =>
      let* s := inb (port + ATA_STATUS) in
      if negb (Z.land s ATA_SR_DRQ =? 0) then ret tt else ata_wait_drq fuel port
  end.

(** The four reads that give the drive time. *)
Definition settle (port : Z) : K unit :=
  for_list (seqZ 0 4) (λ _, let* _ := inb (port + ATA_ALT_STATUS) in ret tt).

Definition ata_wait_ready (fuel : nat) (port : Z) (advanced : bool) : K bool :=
  settle port ;;;
  ata_wait_busy fuel port ;;;
  if advanced then
    let* status := inb (port + ATA_STATUS) in
    if negb (Z.land status ATA_SR_ERR =? 0) then
      screen_setcolor COLOR_LIGHT_RED COLOR_BLACK ;;;
      screen_putstr (cstr "ATA device error" ++ [10]) ;;;
      ret false
    else if negb (Z.land status ATA_SR_DF =? 0) then
      screen_setcolor COLOR_LIGHT_RED COLOR_BLACK ;;;
      screen_putstr (cstr "ATA device fault" ++ [10]) ;;;
      ret false
    else if Z.land status ATA_SR_DRDY =? 0 then
      screen_setcolor COLOR_YELLOW COLOR_BLACK ;;;
      screen_putstr (cstr "ATA device not ready" ++ [10]) ;;;
      ret false
    else ret true
  else ret true.

Definition ata_select_drive (drive : Z) : K unit :=
  let* ch := channel_at (drive / 2) in
  outb (base ch + ATA_DRIVE_HEAD) (Z.lor 0xA0 (Z.shiftl (drive mod 2) 4)) ;;;
  settle (base ch).

(** ** Probing *)

(** [for (i = 0; i < n; i += 2)]: exchange the bytes of each pair from [a]. *)
Definition swap_pairs (a n : Z) : K unit :=
  for_list (seqZ 0 (n / 2)) (λ i,
    let* c1 := dev_load ld8 1 (a + 2 * i) in
    let* c2 := dev_load ld8 1 (a + 2 * i + 1) in
    dev_store st8 1 (a + 2 * i) c2 ;;;
    dev_store st8 1 (a + 2 * i + 1) c1).

(** The 256 words of the answer, written from the member [identify] on. *)
Definition read_identify (port drive : Z) : K unit :=
  for_list (seqZ 0 256) (λ i,
    let* w := inw port in
    dev_store st16 2 (dev_at drive dev_identify + 2 * i) w).

(** Lines 119-146. *)
Definition identify_strings (drive : Z) : K unit :=
  let str := dev_at drive dev_identify in
  swap_pairs (str + 54) 20 ;;;
  dev_store st8 1 (str + 74) 0 ;;;
  swap_pairs (str + 46) 8 ;;;
  dev_store st8 1 (str + 54) 0 ;;;
  swap_pairs (str + 20) 40 ;;;
  dev_store st8 1 (str + 60) 0.

(** Lines 149-162; [int] products wrap as the compiler computes them. *)
Definition fill_device (drive channel slave : Z) : K unit :=
  let identify := dev_at drive dev_identify in
  dev_store st8 1 (dev_at drive dev_present) 1 ;;;
  dev_store st8 1 (dev_at drive dev_type) ATA_ATA ;;;
  dev_store st8 1 (dev_at drive dev_channel) channel ;;;
  dev_store st8 1 (dev_at drive dev_drive) slave ;;;
  upd_ata (λ a, set_devices
    (snd (strncpy (devices a) (dev_at drive dev_model) (identify + off_model) 40)) a) ;;;
  dev_store st8 1 (dev_at drive dev_model + 40) 0 ;;;
  let* total := dev_load ld32 4 (identify + off_total_sectors) in
  if negb (total =? 0) then dev_store st32 4 (dev_at drive dev_size) total
  else
    let* cylinders := dev_load ld16 2 (identify + off_cylinders) in
    let* heads := dev_load ld16 2 (identify + off_heads) in
    let* sectors := dev_load ld16 2 (identify + off_sectors) in
    dev_store st32 4 (dev_at drive dev_size) (u32 (cylinders * heads * sectors)).

Definition ata_probe (fuel : nat) (drive : Z) : K bool :=
  let channel := drive / 2 in
  let slave := drive mod 2 in
  ata_select_drive drive ;;;
  let* ch := channel_at channel in
  outb (base ch + ATA_COMMAND) ATA_CMD_IDENTIFY ;;;
  let* status := inb (base ch + ATA_STATUS) in
  if status =? 0 then ret false
  else
    ata_wait_busy fuel (base ch) ;;;
    let* _ := inb (base ch + ATA_STATUS) in
    let* lba_mid := inb (base ch + ATA_SECTOR_NUM) in
    let* lba_high := inb (base ch + ATA_CYL_LOW) in
    if negb (lba_mid =? 0) || negb (lba_high =? 0) then ret false
    else
      let* ready := ata_wait_ready fuel (base ch) true in
      if negb ready then ret false
      else
        read_identify (base ch) drive ;;;
        identify_strings drive ;;;
        fill_device drive channel slave ;;;
        ret true.

Fixpoint probe_all (fuel : nat) (drives : list Z) (found : Z) : K Z :=
  match drives with
  | [] => ret found
  | i :: drives =>
      let* ok := ata_probe fuel i in
      probe_all fuel drives (if ok : bool then found + 1 else found)
  end.

Definition init_ata (fuel : nat) : K unit :=
  screen_putstr (cstr "Initializing ATA Controller... ") ;;;
  upd_ata (set_channels [mk_channel 0x1F0 0x3F6 0 0; mk_channel 0x170 0x376 0 0]) ;;;
  for_list (seqZ 0 4) (λ i,
    dev_store st8 1 (dev_at i dev_present) 0 ;;;
    dev_store st32 4 (dev_at i dev_size) 0 ;;;
    dev_store st8 1 (dev_at i dev_model) 0) ;;;
  let* found := probe_all fuel (seqZ 0 4) 0 in
  upd_ata (set_initialized true) ;;;
  screen_setcolor COLOR_LIGHT_GREEN COLOR_BLACK ;;;
  screen_putstr (cstr "OK" ++ [10]) ;;;
  screen_setcolor COLOR_LIGHT_GREY COLOR_BLACK ;;;
  screen_putstr (cstr "  Found ") ;;;
  screen_putdec found ;;;
  screen_putstr (cstr " ATA device(s)" ++ [10]).

(** ** Transfers *)

(** [ata_initialized && devices[drive].present] *)
Definition drive_usable (drive : Z) : K bool :=
  let* init := gets (λ k, ata_initialized (k_ata k)) in
  if init : bool then
    let* p := dev_load ld8 1 (dev_at drive dev_present) in
    ret (negb (p =? 0))
  else ret false.

(** The sector count, the address and the command: lines 229-236 and 279-286. *)
Definition ata_issue (port slave lba num cmd : Z) : K unit :=
  outb (port + ATA_SECTOR_COUNT) num ;;;
  outb (port + ATA_SECTOR_NUM) (u8 lba) ;;;
  outb (port + ATA_CYL_LOW) (u8 (Z.shiftr lba 8)) ;;;
  outb (port + ATA_CYL_HIGH) (u8 (Z.shiftr lba 16)) ;;;
  outb (port + ATA_DRIVE_HEAD)
    (Z.lor (Z.lor 0xE0 (Z.shiftl slave 4)) (Z.land (Z.shiftr lba 24) 0x0F)) ;;;
  outb (port + ATA_COMMAND) cmd.

(** [buffer[i] = inw(port)] for [n] words from number [i] on, and for a sector. *)
Definition read_words (port buffer i n : Z) : K unit :=
  for_list (seqZ i n) (λ i,
    let* w := inw port in
    modify (λ k, set_mem (st16 (k_mem k) (buffer + 2 * i) w) k)).

Definition read_sector (port buffer : Z) : K unit := read_words port buffer 0 256.

(** Sector [s] and the [n] after it, less one. *)
Fixpoint read_loop (fuel : nat) (port buffer : Z) (n : nat) (s : Z) : K Z :=
  match n with
  | O => ret s
  | S n =>
      let* ready := ata_wait_ready fuel port true in
      if ready : bool then
        read_sector port buffer ;;;
        read_loop fuel port (buffer + 512) n (s + 1)
      else ret s
  end.

Definition write_sector (port buffer : Z) : K unit :=
  for_list (seqZ 0 256) (λ i,
    let* w := gets (λ k, ld16 (k_mem k) (buffer + 2 * i)) in
    outw port w).

Fixpoint write_loop (fuel : nat) (port buffer : Z) (n : nat) (s : Z) : K Z :=
  match n with
  | O => ret s
  | S n =>
      let* ready := ata_wait_ready fuel port true in
      if ready : bool then
        write_sector port buffer ;;;
        outb (port + ATA_COMMAND) ATA_CMD_CACHE_FLUSH ;;;
        ata_wait_busy fuel port ;;;
        write_loop fuel port (buffer + 512) n (s + 1)
      else ret s
  end.

(** What the two transfers share: the checks, the drive, the command [cmd] and
    the [loop] over the sectors. *)
Definition ata_transfer (fuel : nat) (drive lba num cmd : Z) (loop : Z → K Z) : K Z :=
  let* usable := drive_usable drive in
  if negb usable then ret 0
  else if num =? 0 then ret 0
  else
    let* channel := dev_load ld8 1 (dev_at drive dev_channel) in
    let* slave := dev_load ld8 1 (dev_at drive dev_drive) in
    ata_select_drive drive ;;;
    let* ch := channel_at channel in
    let* ready := ata_wait_ready fuel (base ch) true in
    if negb ready then ret 0
    else ata_issue (base ch) slave lba num cmd ;;; loop (base ch).

Definition ata_read_sectors (fuel : nat) (drive lba num buf : Z) : K Z :=
  ata_transfer fuel drive lba num ATA_CMD_READ_PIO (λ port, read_loop fuel port buf (Z.to_nat num) 0).

Definition ata_write_sectors (fuel : nat) (drive lba num buf : Z) : K Z :=
  ata_transfer fuel drive lba num ATA_CMD_WRITE_PIO (λ port, write_loop fuel port buf (Z.to_nat num) 0).

(** ** Queries *)

Definition ata_identify (drive identify : Z) : K Z :=
  let* usable := drive_usable drive in
  if negb usable || (identify =? NULL) then ret 0
  else
    modify (λ k, set_mem (for_range 0 sizeof_ata_identify (λ i m,
      st8 m (identify + i) (ld8 (devices (k_ata k)) (dev_at drive dev_identify + i))) (k_mem k)) k) ;;;
    ret 1.

Definition get_ata_size (drive : Z) : K Z :=
  let* usable := drive_usable drive in
  if negb usable then ret 0 else dev_load ld32 4 (dev_at drive dev_size).

(** [screen_putstr] of the string at [a], which ends at the latest with the array. *)
Fixpoint dev_putstr (n : nat) (a : Z) : K unit :=
  match n with
  | O => fault
  | S n =>
      let* c := dev_load ld8 1 a in
      if c =? 0 then ret tt else screen_putchar c ;;; dev_putstr n (a + 1)
  end.

Definition show_ata_info : K unit :=
  screen_setcolor COLOR_LIGHT_CYAN COLOR_BLACK ;;;
  screen_putstr ([10] ++ cstr "ATA Devices:" ++ [10]) ;;;
  screen_setcolor COLOR_LIGHT_GREY COLOR_BLACK ;;;
  for_list (seqZ 0 4) (λ i,
    let* present := dev_load ld8 1 (dev_at i dev_present) in
    if present =? 0 then ret tt
    else
      screen_putstr (cstr "  Device ") ;;;
      screen_putdec i ;;;
      screen_putstr (cstr ": ") ;;;
      dev_putstr (Z.to_nat (4 * sizeof_ata_device)) (dev_at i dev_model) ;;;
      screen_putstr (cstr " (") ;;;
      let* size := dev_load ld32 4 (dev_at i dev_size) in
      let size_mb := u32 (size * 512) / 1024 / 1024 in
      (if 1024 <=? size_mb then
         screen_putdec (size_mb / 1024) ;;;
         screen_putstr (cstr " GB")
       else
         screen_putdec size_mb ;;;
         screen_putstr (cstr " MB")) ;;;
      screen_putstr (cstr ")" ++ [10])).

End Operations.

(** ** The port history

    What a transfer does to the ports, as predicates on the events it adds to the
    history (latest first), independent of the driver's loops. *)

(** Drive registers by their place in the history. *)
Definition status_read (port v : Z) : io_event := In8 (u16 (port + ATA_STATUS)) v.
Definition alt_status_read (port v : Z) : io_event := In8 (u16 (port + ATA_ALT_STATUS)) v.

(** Four reads of the alternate status. *)
Definition settle_log (port : Z) (l : list io_event) : Prop :=
  ∃ vs, length vs = 4%nat ∧ l = alt_status_read port <$> vs.

(** Reads of the status until it is not busy. *)
Definition busy_log (port : Z) (l : list io_event) : Prop :=
  ∃ v busy, Z.land v ATA_SR_BSY = 0 ∧ Forall (λ s, Z.land s ATA_SR_BSY ≠ 0) busy ∧
    l = status_read port <$> v :: busy.

(** Both, and the status [st] in the end. *)
Definition wait_log (port st : Z) (l : list io_event) : Prop :=
  ∃ l1 l2, settle_log port l1 ∧ busy_log port l2 ∧ l = status_read port st :: l2 ++ l1.

(** No error, no fault, and ready. *)
Definition status_ok (s : Z) : bool :=
  (Z.land s ATA_SR_ERR =? 0) && (Z.land s ATA_SR_DF =? 0) && negb (Z.land s ATA_SR_DRDY =? 0).

(** A wait that ends with a bad status, and a message on the console. *)
Definition gave_up (port : Z) (l : list io_event) : Prop :=
  ∃ st l1 l2, wait_log port st l1 ∧ status_ok st = false ∧ Forall crtc_event l2 ∧ l = l2 ++ l1.

Definition select_log (port drive : Z) (l : list io_event) : Prop :=
  ∃ l1, settle_log port l1 ∧
    l = l1 ++ [Out8 (u16 (port + ATA_DRIVE_HEAD)) (u8 (Z.lor 0xA0 (Z.shiftl (drive mod 2) 4)))].

(** The registers of a command. *)
Definition command_log (port slave lba num cmd : Z) : list io_event :=
  [Out8 (u16 (port + ATA_COMMAND)) (u8 cmd);
   Out8 (u16 (port + ATA_DRIVE_HEAD))
     (u8 (Z.lor (Z.lor 0xE0 (Z.shiftl slave 4)) (Z.land (Z.shiftr lba 24) 0x0F)));
   Out8 (u16 (port + ATA_CYL_HIGH)) (u8 (u8 (Z.shiftr lba 16)));
   Out8 (u16 (port + ATA_CYL_LOW)) (u8 (u8 (Z.shiftr lba 8)));
   Out8 (u16 (port + ATA_SECTOR_NUM)) (u8 (u8 lba));
   Out8 (u16 (port + ATA_SECTOR_COUNT)) (u8 num)].

(** The words [ws] through the data port. *)
Definition words_in (port : Z) (ws : list Z) : list io_event := reverse (In16 (u16 port) <$> ws).
Definition words_out (port : Z) (ws : list Z) : list io_event := reverse (Out16 (u16 port) <$> ws).

(** What follows the wait of a sector: its words; when writing also the flush of
    the drive's cache and its end. *)
Definition sector_in (port : Z) (ws : list Z) (l : list io_event) : Prop := l = words_in port ws.
Definition sector_out (port : Z) (ws : list Z) (l : list io_event) : Prop :=
  ∃ lb, busy_log port lb ∧
    l = lb ++ Out8 (u16 (port + ATA_COMMAND)) (u8 ATA_CMD_CACHE_FLUSH) :: words_out port ws.

(** [r] sectors with the words [ws] altogether, each after a wait that found the
    drive ready. *)
Inductive sectors_log (port : Z) (sector : list Z → list io_event → Prop) :
    nat → list Z → list io_event → Prop :=
| no_sectors : sectors_log port sector 0 [] []
| one_sector st ws1 l1 l2 r ws l :
    wait_log port st l1 → status_ok st = true → length ws1 = 256%nat → sector ws1 l2 →
    sectors_log port sector r ws l →
    sectors_log port sector (S r) (ws1 ++ ws) (l ++ l2 ++ l1).

(** [r] of [num] sectors: all, or as many as there were before a bad status. *)
Definition served_log (port : Z) (sector : list Z → list io_event → Prop)
    (num r : nat) (ws : list Z) (l : list io_event) : Prop :=
  ∃ l1 l2, sectors_log port sector r ws l1 ∧ l = l2 ++ l1 ∧
    (r = num ∧ l2 = [] ∨ (r < num)%nat ∧ gave_up port l2).

(** A whole transfer: the drive is selected on the channel at [sel]; when the drive
    is not ready that is all, otherwise the one command follows and then the
    sectors. *)
Definition transfer_log (sel port : Z) (sector : list Z → list io_event → Prop)
    (drive slave lba num cmd : Z) (r : nat) (ws : list Z) (l : list io_event) : Prop :=
  ∃ l1, select_log sel drive l1 ∧
    ((r = 0%nat ∧ ws = [] ∧ ∃ l2, gave_up port l2 ∧ l = l2 ++ l1) ∨
     ∃ st l2 l3, wait_log port st l2 ∧ status_ok st = true ∧
       served_log port sector (Z.to_nat num) r ws l3 ∧
       l = l3 ++ command_log port slave lba num cmd ++ l2 ++ l1).

Lemma words_in_cons port w ws : words_in port (w :: ws) = words_in port ws ++ [In16 (u16 port) w].
Proof. unfold words_in. by rewrite fmap_cons, reverse_cons. Qed.

Lemma words_out_cons port w ws : words_out port (w :: ws) = words_out port ws ++ [Out16 (u16 port) w].
Proof. unfold words_out. by rewrite fmap_cons, reverse_cons. Qed.

Lemma sectors_log_length port sector r ws l :
  sectors_log port sector r ws l → length ws = (256 * r)%nat.
Proof. induction 1 as [|st ws1 l1 l2 r ws l _ _ H1 _ _ IH]; [done|]. rewrite length_app. lia. Qed.

Lemma served_log_length port sector num r ws l :
  served_log port sector num r ws l → length ws = (256 * r)%nat ∧ (r ≤ num)%nat.
Proof. intros (l1 & l2 & H & _ & Hr). split; [by eapply sectors_log_length|]. lia. Qed.

Lemma transfer_log_length sel port sector drive slave lba num cmd r ws l :
  transfer_log sel port sector drive slave lba num cmd r ws l →
  length ws = (256 * r)%nat ∧ (r ≤ Z.to_nat num)%nat.
Proof.
  intros (l1 & _ & [(-> & -> & _)|(st & l2 & l3 & _ & _ & H & _)]); [cbn; lia|by eapply served_log_length].
Qed.

Lemma served_none port sector num l :
  gave_up port l → (0 < num)%nat → served_log port sector num 0 [] l.
Proof. intros H Hn. exists [], l. rewrite app_nil_r. split; [constructor|]. auto. Qed.

Lemma served_more port sector st num ws1 l1 l2 r ws l :
  wait_log port st l1 → status_ok st = true → length ws1 = 256%nat → sector ws1 l2 →
  served_log port sector num r ws l → served_log port sector (S num) (S r) (ws1 ++ ws) (l ++ l2 ++ l1).
Proof.
  intros H1 H2 H3 H4 (l3 & l4 & H5 & -> & H6). exists (l3 ++ l2 ++ l1), l4.
  split; [by eapply one_sector|]. split; [by rewrite <- app_assoc|].
  destruct H6 as [[-> ->]|[? ?]]; [by left|right; split; [lia|done]].
Qed.

(** The words [ws] at [a]. *)
Definition words_at (m : mem) (a : Z) (ws : list Z) : Prop :=
  ∀ j w, ws !! j = Some w → ld16 m (a + 2 * Z.of_nat j) = w.

(** [l] was appended to the history, and what changed is that, the screen, the
    words [ws] at [buf] and nothing else. *)
Record received (buf : Z) (ws : list Z) (l : list io_event) (k k' : kernel) : Prop := {
  rc_io : k_io k' = l ++ k_io k;
  rc_words : words_at (k_mem k') buf ws;
  rc_frame : ∀ a, in_space a 1 → a < buf ∨ buf + 2 * Z.of_nat (length ws) ≤ a →
    ld8 (k_mem k') a = ld8 (k_mem k) a;
  rc_only : edits k k' }.

(** The same for what only sends words: memory is unchanged. *)
Definition logged (l : list io_event) (k k' : kernel) : Prop :=
  k_io k' = l ++ k_io k ∧ same_but_console k k'.

Lemma logged_refl k : logged [] k k.
Proof. by split. Qed.

Lemma logged_trans l1 l2 k k1 k2 : logged l1 k k1 → logged l2 k1 k2 → logged (l2 ++ l1) k k2.
Proof.
  intros [E1 H1] [E2 H2]. split; [by rewrite E2, E1, app_assoc|by etrans].
Qed.

Lemma logged_io e k : logged [e] k (set_io (e :: k_io k) k).
Proof. split; [done|]. by destruct k. Qed.

Lemma logged_mem l k k' : logged l k k' → k_mem k' = k_mem k.
Proof. intros [_ H]. unfold same_but_console in H. by rewrite H. Qed.

Lemma logged_ata l k k' : logged l k k' → k_ata k' = k_ata k.
Proof. intros [_ H]. unfold same_but_console in H. by rewrite H. Qed.

Lemma logged_received buf l k k' : logged l k k' → received buf [] l k k'.
Proof.
  intros Hl. pose proof (logged_mem _ _ _ Hl) as Hm. destruct Hl as [E H].
  split; rewrite ?Hm; [done|by intros [|?] ? ?|done|].
  unfold same_but_console in H. exists (k_screen k'). rewrite Hm. by destruct k.
Qed.

Lemma ld16_ext m1 m2 a :
  ld8 m1 a = ld8 m2 a → ld8 m1 (a + 1) = ld8 m2 (a + 1) → ld16 m1 a = ld16 m2 a.
Proof. unfold ld16. by intros -> ->. Qed.

Lemma received_trans buf ws1 ws2 l1 l2 k k1 k2 :
  in_space buf (2 * Z.of_nat (length (ws1 ++ ws2))) →
  received buf ws1 l1 k k1 → received (buf + 2 * Z.of_nat (length ws1)) ws2 l2 k1 k2 →
  received buf (ws1 ++ ws2) (l2 ++ l1) k k2.
Proof.
  rewrite length_app. unfold in_space.
  intros Hsp [E1 W1 F1 O1] [E2 W2 F2 O2]. split.
  - by rewrite E2, E1, app_assoc.
  - intros j w Hj. apply lookup_app_Some in Hj as [Hj|[Hlen Hj]].
    + rewrite <- (W1 _ _ Hj). apply lookup_lt_Some in Hj.
      apply ld16_ext; apply F2; unfold in_space; lia.
    + rewrite <- (W2 _ _ Hj). f_equal. lia.
  - rewrite length_app. intros a Ha Hr. unfold in_space in Ha.
    rewrite F2, F1 by (unfold in_space; lia). done.
  - by etrans.
Qed.

(** What is only logged first takes no room in the buffer. *)
Lemma received_after buf ws l1 l2 k k1 k2 :
  in_space buf (2 * Z.of_nat (length ws)) →
  logged l1 k k1 → received buf ws l2 k1 k2 → received buf ws (l2 ++ l1) k k2.
Proof.
  intros Hsp L R. apply (received_trans buf [] ws l1 l2 k k1 k2); [done|by apply logged_received|].
  cbn. by rewrite Z.add_0_r.
Qed.

(** ** Runs of the waits *)

Section Runs.
Context `{Hardware}.

(** Reading [port] again and again finds it not busy within [n] reads. *)
Fixpoint settles_in (n : nat) (io : list io_event) (port : Z) : Prop :=
  match n with
  | O => False
  | S n =>
      let v := u8 (hw_in8 io port) in
      Z.land v ATA_SR_BSY = 0 ∨ settles_in n (In8 port v :: io) port
  end.

Definition settles (fuel : nat) : Prop := ∀ io port, settles_in fuel io port.

Lemma inb_run port k :
  ∃ v, inb port k = Done v (set_io (In8 (u16 port) v :: k_io k) k) ∧ v = u8 (hw_in8 (k_io k) (u16 port)).
Proof. by eexists. Qed.

Lemma settle_reads port (n : nat) : ∀ i k, ∃ vs k',
  for_list (seqZ i (Z.of_nat n)) (λ _, let* _ := inb (port + ATA_ALT_STATUS) in ret tt) k = Done tt k' ∧
  length vs = n ∧ logged (alt_status_read port <$> vs) k k'.
Proof.
  induction n as [|n IH]; intros i k.
  - exists [], k. split; [done|]. split; [done|apply logged_refl].
  - rewrite seqZ_cons by lia. replace (Z.pred (Z.of_nat (S n))) with (Z.of_nat n) by lia. cbn [for_list].
    destruct (inb_run (port + ATA_ALT_STATUS) k) as (v & E & _). rewrite bind_assoc, (bind_done _ _ _ _ _ E), bind_ret.
    destruct (IH (Z.succ i) (set_io (In8 (u16 (port + ATA_ALT_STATUS)) v :: k_io k) k)) as (vs & k' & -> & Hn & Hl).
    exists (vs ++ [v]), k'. split; [done|]. split; [rewrite length_app; cbn; lia|].
    rewrite fmap_app. eapply logged_trans; [apply logged_io|done].
Qed.

Lemma settle_run port k : ∃ l k', settle port k = Done tt k' ∧ logged l k k' ∧ settle_log port l.
Proof.
  destruct (settle_reads port 4 0 k) as (vs & k' & E & Hn & L).
  exists (alt_status_read port <$> vs), k'. split; [exact E|]. split; [done|]. by exists vs.
Qed.

Lemma wait_busy_run fuel port k :
  settles fuel → ∃ l k', ata_wait_busy fuel port k = Done tt k' ∧ logged l k k' ∧ busy_log port l.
Proof.
  intros Hs. specialize (Hs (k_io k) (u16 (port + ATA_STATUS))). revert k Hs.
  induction fuel as [|fuel IH]; intros k; cbn [settles_in ata_wait_busy]; [done|].
  unfold bind at 1, inb. set (v := u8 _). intros Hs.
  destruct (Z.eqb_spec (Z.land v ATA_SR_BSY) 0) as [Hv|Hv].
  - eexists [_], _. split; [done|]. split; [apply logged_io|]. by exists v, [].
  - destruct Hs as [Hs|Hs]; [done|].
    destruct (IH (set_io (In8 (u16 (port + ATA_STATUS)) v :: k_io k) k) Hs)
      as (l & k' & -> & Hl & v' & busy & Hv' & Hb & ->).
    eexists (_ ++ [status_read port v]), k'. split; [done|].
    split; [eapply logged_trans; [apply logged_io|done]|].
    exists v', (busy ++ [v]). split; [done|]. split; [|by rewrite app_comm_cons, fmap_app].
    apply list.Forall_app. split; [done|]. by constructor.
Qed.

(** A message printed before giving up. *)
Lemma complain_run str fg (b : bool) k :
  ∃ l k', (screen_setcolor fg COLOR_BLACK ;;; screen_putstr str ;;; ret b) k = Done b k' ∧
    logged l k k' ∧ Forall crtc_event l.
Proof.
  unfold screen_setcolor, upd_screen. rewrite bind_modify.
  match goal with |- context [bind _ _ ?x] => set (k1 := x) end.
  destruct (putstr_events str k1) as (s & es & E & He). rewrite (bind_done _ _ _ _ _ E).
  exists es, (with_console s (es ++ k_io k1) k1). split; [done|]. split; [|done].
  split; [done|]. by destruct k.
Qed.

Lemma wait_ready_run fuel port k :
  settles fuel →
  ∃ b l k', ata_wait_ready fuel port true k = Done b k' ∧ logged l k k' ∧
    (∃ st, status_ok st = b ∧ (if b then wait_log port st l else gave_up port l) ∧
      ∃ io, st = u8 (hw_in8 io (u16 (port + ATA_STATUS)))).
Proof.
  intros Hs. unfold ata_wait_ready.
  destruct (settle_run port k) as (l1 & k1 & E1 & L1 & D1). rewrite (bind_done _ _ _ _ _ E1).
  destruct (wait_busy_run fuel port k1 Hs) as (l2 & k2 & E2 & L2 & D2). rewrite (bind_done _ _ _ _ _ E2).
  destruct (inb_run (port + ATA_STATUS) k2) as (st & E3 & Hst). rewrite (bind_done _ _ _ _ _ E3).
  set (k3 := set_io _ k2).
  assert (L3 : logged (status_read port st :: l2 ++ l1) k k3)
    by exact (logged_trans _ _ _ _ _ (logged_trans _ _ _ _ _ L1 L2) (logged_io _ k2)).
  assert (W3 : wait_log port st (status_read port st :: l2 ++ l1)) by by exists l1, l2.
  assert (Hcut : ∀ (c : K bool), status_ok st = false →
    (∃ l k', c k3 = Done false k' ∧ logged l k3 k' ∧ Forall crtc_event l) →
    ∃ b l k', c k3 = Done b k' ∧ logged l k k' ∧
      ∃ st, status_ok st = b ∧ (if b then wait_log port st l else gave_up port l) ∧
        ∃ io, st = u8 (hw_in8 io (u16 (port + ATA_STATUS)))).
  { intros c Hb (l & k' & E & L & D).
    exists false, (l ++ status_read port st :: l2 ++ l1), k'. split; [done|].
    split; [by eapply logged_trans|].
    exists st. split; [done|]. split; [by exists st, (status_read port st :: l2 ++ l1), l|]. by eexists. }
  unfold status_ok in Hcut.
  destruct (Z.eqb_spec (Z.land st ATA_SR_ERR) 0) as [H1|H1]; cbn [negb andb] in *; [|apply Hcut, complain_run; done].
  destruct (Z.eqb_spec (Z.land st ATA_SR_DF) 0) as [H2|H2]; cbn [negb andb] in *; [|apply Hcut, complain_run; done].
  destruct (Z.eqb_spec (Z.land st ATA_SR_DRDY) 0) as [H3|H3]; cbn [negb andb] in *; [apply Hcut, complain_run; done|].
  eexists true, _, k3. split; [done|]. split; [exact L3|]. exists st. split; [|split; [done|by eexists]].
  unfold status_ok. by rewrite H1, H2, (proj2 (Z.eqb_neq _ _) H3).
Qed.

End Runs.

(** ** Runs of the transfers *)

Section Transfers.
Context `{Hardware, WordPorts}.

Lemma issue_run port slave lba num cmd k :
  ata_issue port slave lba num cmd k = Done tt (set_io (command_log port slave lba num cmd ++ k_io k) k).
Proof. by destruct k. Qed.

Lemma logged_command port slave lba num cmd k :
  logged (command_log port slave lba num cmd) k (set_io (command_log port slave lba num cmd ++ k_io k) k).
Proof. split; [done|]. by destruct k. Qed.

Lemma ld16_st16_eq m a v : in_space a 2 → 0 ≤ v < 65536 → ld16 (st16 m a v) a = v.
Proof.
  unfold in_space. intros Ha Hv. unfold ld16, st16.
  rewrite (ld8_st8_ne _ (a + 1) a) by (rewrite !u32_small; lia). rewrite !ld8_st8_eq.
  unfold u8. dlia.
Qed.

(** [n] words received to [buf + 2 * i] and on. *)
Lemma read_words_run port buf (n : nat) : ∀ i k,
  0 ≤ i → in_space buf (2 * (i + Z.of_nat n)) →
  ∃ ws k', read_words port buf i (Z.of_nat n) k = Done tt k' ∧
    length ws = n ∧ received (buf + 2 * i) ws (words_in port ws) k k'.
Proof.
  unfold read_words. induction n as [|n IH]; intros i k Hi Hsp.
  { exists [], k. split; [done|]. split; [done|]. apply logged_received, logged_refl. }
  unfold in_space in Hsp. rewrite seqZ_cons by lia.
  replace (Z.pred (Z.of_nat (S n))) with (Z.of_nat n) by lia. cbn [for_list].
  destruct (inw_law port k) as (v & Hv & E). rewrite bind_assoc, (bind_done _ _ _ _ _ E), bind_modify.
  set (k1 := set_mem _ _).
  destruct (IH (Z.succ i) k1) as (ws & k' & E' & Hlen & Hrc); [lia|unfold in_space; lia|].
  exists (v :: ws), k'. split; [exact E'|]. split; [cbn; lia|]. rewrite words_in_cons.
  apply (received_trans _ [v] ws _ _ _ k1).
  - cbn. rewrite Hlen. unfold in_space. lia.
  - split; unfold k1; cbn [k_io k_mem set_mem set_io]; [done| | |].
    + intros [|j] w Hj; [|done]. injection Hj as <-. rewrite Z.mul_0_r, Z.add_0_r.
      apply ld16_st16_eq; [unfold in_space; lia|done].
    + intros a Ha Hr. unfold in_space in Ha. cbn in Hr. unfold st16.
      rewrite !ld8_st8_ne; [done|rewrite !u32_small; lia..].
    + by etrans; [apply edits_io|apply edits_mem].
  - cbn [length]. by replace (buf + 2 * i + 2 * Z.of_nat 1) with (buf + 2 * Z.succ i) by lia.
Qed.

Lemma read_sector_run port buf k :
  in_space buf 512 →
  ∃ ws k', read_sector port buf k = Done tt k' ∧ length ws = 256%nat ∧
    received buf ws (words_in port ws) k k'.
Proof.
  intros Hsp. destruct (read_words_run port buf 256 0 k) as (ws & k' & E & H'); [done|done|].
  rewrite Z.mul_0_r, Z.add_0_r in H'. by exists ws, k'.
Qed.

Lemma read_loop_run fuel port (n : nat) : ∀ buf s k,
  settles fuel → in_space buf (512 * Z.of_nat n) →
  ∃ (r : nat) ws l k', read_loop fuel port buf n s k = Done (s + Z.of_nat r) k' ∧
    served_log port (sector_in port) n r ws l ∧ received buf ws l k k'.
Proof.
  induction n as [|n IH]; intros buf s k Hset Hsp; cbn [read_loop].
  { exists 0%nat, [], [], k. split; [by rewrite Z.add_0_r|].
    split; [exists [], []; split; [constructor|auto]|apply logged_received, logged_refl]. }
  destruct (wait_ready_run fuel port k Hset) as (b & l1 & k1 & E1 & L1 & st & Hst & W & _).
  rewrite (bind_done _ _ _ _ _ E1). destruct b.
  - unfold in_space in Hsp.
    destruct (read_sector_run port buf k1) as (ws1 & k2 & E2 & Hlen & R2); [unfold in_space; lia|].
    rewrite (bind_done _ _ _ _ _ E2).
    destruct (IH (buf + 512) (s + 1) k2 Hset) as (r & ws & l3 & k3 & E3 & Hr & R3); [unfold in_space; lia|].
    exists (S r), (ws1 ++ ws), (l3 ++ words_in port ws1 ++ l1), k3.
    split; [rewrite E3; f_equal; lia|]. split; [by eapply served_more|].
    destruct (served_log_length _ _ _ _ _ _ Hr) as [Hws Hrn].
    apply (received_trans _ _ _ _ _ _ k2).
    + rewrite length_app, Hlen, Hws. unfold in_space. lia.
    + apply (received_after _ _ _ _ _ k1); [rewrite Hlen; unfold in_space; lia|done|done].
    + by rewrite Hlen.
  - exists 0%nat, [], l1, k1. split; [by rewrite Z.add_0_r|].
    split; [apply served_none; [done|lia]|by apply logged_received].
Qed.

(** The words of memory from [buf] on. *)
Definition mem_words (m : mem) (buf n : Z) : list Z := (λ i, ld16 m (buf + 2 * i)) <$> seqZ 0 n.

Lemma mem_words_shift m buf a n :
  0 ≤ a → 0 ≤ n → mem_words m buf (a + n) = mem_words m buf a ++ mem_words m (buf + 2 * a) n.
Proof.
  intros Ha Hn. unfold mem_words. rewrite seqZ_app, fmap_app by lia. f_equal.
  replace (0 + a) with (a + 0) by lia. rewrite <- fmap_add_seqZ, <- list_fmap_compose.
  apply list_fmap_ext. intros ? i _. cbn. f_equal. lia.
Qed.

Lemma mem_words_length m buf n : 0 ≤ n → length (mem_words m buf n) = Z.to_nat n.
Proof. intros Hn. unfold mem_words. by rewrite length_fmap, length_seqZ. Qed.

Lemma ld16_range m a : mem_wf m → 0 ≤ ld16 m a < 65536.
Proof. intros Hm. unfold ld16. pose proof (Hm a). pose proof (Hm (a + 1)). lia. Qed.

Lemma write_sector_run port buf k :
  mem_wf (k_mem k) →
  ∃ k', write_sector port buf k = Done tt k' ∧ logged (words_out port (mem_words (k_mem k) buf 256)) k k'.
Proof.
  intros Hm. unfold write_sector, mem_words. generalize (seqZ 0 256). intros js. revert k Hm.
  induction js as [|i js IH]; intros k Hm; cbn [for_list fmap list_fmap].
  { exists k. split; [done|]. apply logged_refl. }
  rewrite bind_assoc, bind_gets. set (v := ld16 _ _).
  rewrite (bind_done _ _ _ _ _ (outw_law port v k)).
  destruct (IH (set_io (Out16 (u16 port) (u16 v) :: k_io k) k) Hm) as (k' & E & L).
  exists k'. split; [exact E|]. change (list_fmap _ _ ?f js) with (f <$> js). rewrite words_out_cons.
  eapply logged_trans; [apply logged_io|].
  rewrite (u16_small v) in L by (by apply ld16_range). exact L.
Qed.

Lemma write_loop_run fuel port (n : nat) : ∀ buf s k,
  settles fuel → mem_wf (k_mem k) →
  ∃ (r : nat) l k', write_loop fuel port buf n s k = Done (s + Z.of_nat r) k' ∧
    served_log port (sector_out port) n r (mem_words (k_mem k) buf (256 * Z.of_nat r)) l ∧ logged l k k'.
Proof.
  induction n as [|n IH]; intros buf s k Hset Hm; cbn [write_loop].
  { exists 0%nat, [], k. split; [by rewrite Z.add_0_r|].
    split; [exists [], []; split; [constructor|auto]|apply logged_refl]. }
  destruct (wait_ready_run fuel port k Hset) as (b & l1 & k1 & E1 & L1 & st & Hst & W & _).
  rewrite (bind_done _ _ _ _ _ E1). destruct b.
  - destruct (write_sector_run port buf k1) as (k2 & E2 & L2); [by rewrite (logged_mem _ _ _ L1)|].
    rewrite (bind_done _ _ _ _ _ E2). unfold outb. rewrite bind_modify.
    rewrite (logged_mem _ _ _ L1) in L2. set (ws1 := mem_words (k_mem k) buf 256) in *.
    set (e := Out8 _ _).
    destruct (wait_busy_run fuel port (set_io (e :: k_io k2) k2) Hset) as (l3 & k3 & E3 & L3 & D3).
    rewrite (bind_done _ _ _ _ _ E3).
    pose proof (logged_trans _ _ _ _ _ (logged_trans _ _ _ _ _ (logged_trans _ _ _ _ _ L1 L2) (logged_io e k2)) L3) as L.
    destruct (IH (buf + 512) (s + 1) k3 Hset) as (r & l4 & k4 & E4 & D4 & L4); [by rewrite (logged_mem _ _ _ L)|].
    exists (S r), (l4 ++ (l3 ++ e :: words_out port ws1) ++ l1), k4.
    split; [rewrite E4; f_equal; lia|]. split; [|rewrite <- app_assoc; by eapply logged_trans].
    replace (256 * Z.of_nat (S r)) with (256 + 256 * Z.of_nat r) by lia. rewrite mem_words_shift by lia.
    rewrite (logged_mem _ _ _ L) in D4. fold ws1.
    eapply served_more; [done|done|by apply mem_words_length| |done]. by exists l3.
  - exists 0%nat, l1, k1. split; [by rewrite Z.add_0_r|]. split; [apply served_none; [done|lia]|done].
Qed.

End Transfers.

(** [ata_initialized && devices[drive].present] *)
Definition usable (a : ata_state) (drive : Z) : bool :=
  ata_initialized a && negb (ld8 (devices a) (dev_at drive dev_present) =? 0).

(** One of the four drives: it is selected through the ports from [sel] on, and its
    record leads to the channel with the ports from [port] on. *)
Record drive_ok (a : ata_state) (drive sel port slave : Z) : Prop := {
  do_range : 0 ≤ drive < 4;
  do_select : base <$> channels a !! Z.to_nat (drive / 2) = Some sel;
  do_channel : base <$> channels a !! Z.to_nat (ld8 (devices a) (dev_at drive dev_channel)) = Some port;
  do_slave : ld8 (devices a) (dev_at drive dev_drive) = slave }.

Lemma in_devices_member drive off n :
  0 ≤ drive < 4 → 0 ≤ off → off + n ≤ sizeof_ata_device → in_devices (dev_at drive off) n = true.
Proof.
  unfold in_devices, dev_at, sizeof_ata_device. intros. rewrite (proj2 (Z.leb_le _ _)), (proj2 (Z.leb_le _ _)) by lia. done.
Qed.

Lemma dev_load_run ld n drive off k :
  0 ≤ drive < 4 → 0 ≤ off → off + n ≤ sizeof_ata_device →
  dev_load ld n (dev_at drive off) k = Done (ld (devices (k_ata k)) (dev_at drive off)) k.
Proof. intros. unfold dev_load. by rewrite in_devices_member. Qed.

Lemma drive_usable_run drive k :
  0 ≤ drive < 4 → drive_usable drive k = Done (usable (k_ata k) drive) k.
Proof.
  intros Hd. unfold drive_usable, usable. rewrite bind_gets. destruct (ata_initialized _); [|done].
  by rewrite (bind_done _ _ _ _ _ (dev_load_run ld8 1 drive dev_present k Hd ltac:(done) ltac:(done))).
Qed.

Section Transfer.
Context `{Hardware, WordPorts}.

Lemma channel_at_run c ch k : channels (k_ata k) !! Z.to_nat c = Some ch → channel_at c k = Done ch k.
Proof. unfold channel_at. by intros ->. Qed.

Lemma select_run drive sel k :
  base <$> channels (k_ata k) !! Z.to_nat (drive / 2) = Some sel →
  ∃ l k', ata_select_drive drive k = Done tt k' ∧ logged l k k' ∧ select_log sel drive l.
Proof.
  intros (ch & Hch & ->)%fmap_Some.
  unfold ata_select_drive. rewrite (bind_done _ _ _ _ _ (channel_at_run _ _ _ Hch)).
  unfold outb. rewrite bind_modify. set (e := Out8 _ _).
  destruct (settle_run (base ch) (set_io (e :: k_io k) k)) as (l & k' & -> & L & D).
  exists (l ++ [e]), k'. split; [done|]. split; [exact (logged_trans _ _ _ _ _ (logged_io e k) L)|].
  by exists l.
Qed.

(** A transfer up to its loop. *)
Lemma transfer_run fuel drive lba num cmd loop sel port slave k :
  settles fuel → drive_ok (k_ata k) drive sel port slave → usable (k_ata k) drive = true → num ≠ 0 →
  ∃ l1 l2 k1, select_log sel drive l1 ∧ logged (l2 ++ l1) k k1 ∧
    ((ata_transfer fuel drive lba num cmd loop k = Done 0 k1 ∧ gave_up port l2) ∨
     ata_transfer fuel drive lba num cmd loop k =
       loop port (set_io (command_log port slave lba num cmd ++ k_io k1) k1) ∧
     ∃ st, wait_log port st l2 ∧ status_ok st = true).
Proof.
  intros Hset [Hr Hsel Hch Hsl] Hu Hn. unfold ata_transfer.
  rewrite (bind_done _ _ _ _ _ (drive_usable_run drive k Hr)), Hu. cbn [negb].
  rewrite (proj2 (Z.eqb_neq _ _) Hn).
  rewrite (bind_done _ _ _ _ _ (dev_load_run ld8 1 drive dev_channel k Hr ltac:(done) ltac:(done))).
  rewrite (bind_done _ _ _ _ _ (dev_load_run ld8 1 drive dev_drive k Hr ltac:(done) ltac:(done))), Hsl.
  destruct (select_run drive sel k Hsel) as (l1 & k1 & E1 & L1 & D1). rewrite (bind_done _ _ _ _ _ E1).
  apply fmap_Some in Hch as (ch & Ech & ->).
  assert (Ech1 : channels (k_ata k1) !! Z.to_nat (ld8 (devices (k_ata k)) (dev_at drive dev_channel)) = Some ch)
    by by rewrite (logged_ata _ _ _ L1).
  rewrite (bind_done _ _ _ _ _ (channel_at_run _ _ _ Ech1)).
  destruct (wait_ready_run fuel (base ch) k1 Hset) as (b & l2 & k2 & E2 & L2 & st & Hst & W & _).
  rewrite (bind_done _ _ _ _ _ E2). exists l1, l2, k2. split; [done|]. split; [by eapply logged_trans|].
  destruct b; cbn [negb]; [right|by left].
  split; [by rewrite (bind_done _ _ _ _ _ (issue_run (base ch) slave lba num cmd k2))|by exists st].
Qed.

Lemma transfer_refused fuel drive lba num cmd loop k :
  0 ≤ drive < 4 → usable (k_ata k) drive && negb (num =? 0) = false →
  ata_transfer fuel drive lba num cmd loop k = Done 0 k.
Proof.
  intros Hr Hu. unfold ata_transfer. rewrite (bind_done _ _ _ _ _ (drive_usable_run drive k Hr)).
  destruct (usable _ _); [|done]. cbn [negb andb] in *. by destruct (num =? 0).
Qed.

(** ** Properties *)

(** C12: [ata_read_sectors] transfers whole sectors.  On a disk that does not stay
    busy it returns a count [r] up to [num], and the port accesses it makes are
    exactly those of [transfer_log]: the drive is selected, and after a wait that
    finds it ready there is one command with the drive, the address and the count,
    and [r] sectors of 256 words from the data port, each after a wait of its own
    that ends not busy and without error or fault; it stops before [num] sectors only
    at a wait that finds an error, a fault or the drive not ready, and then only a
    message on the console follows.  The [256 r] words are in the buffer in order,
    nothing outside that part of the buffer is written, and no other state changes
    but the console's.  An absent drive or a count of 0 gives 0 and changes
    nothing. *)
Theorem read_sectors_transfers fuel drive lba num buf sel port slave k :
  settles fuel → drive_ok (k_ata k) drive sel port slave → 0 ≤ num < 256 → in_space buf (512 * num) →
  if usable (k_ata k) drive && negb (num =? 0) then
    ∃ (r : nat) ws l k', ata_read_sectors fuel drive lba num buf k = Done (Z.of_nat r) k' ∧
      transfer_log sel port (sector_in port) drive slave lba num ATA_CMD_READ_PIO r ws l ∧
      length ws = (256 * r)%nat ∧ Z.of_nat r ≤ num ∧ received buf ws l k k'
  else ata_read_sectors fuel drive lba num buf k = Done 0 k.
Proof.
  intros Hset Hok Hn Hsp. unfold ata_read_sectors.
  destruct (usable (k_ata k) drive && negb (num =? 0)) eqn:Hu; [|by apply transfer_refused; [apply Hok|]].
  apply andb_true_iff in Hu as [Hu Hn0]. apply negb_true_iff, Z.eqb_neq in Hn0.
  assert (Hcut : (∃ (r : nat) ws l k', ata_transfer fuel drive lba num ATA_CMD_READ_PIO
        (λ port, read_loop fuel port buf (Z.to_nat num) 0) k = Done (Z.of_nat r) k' ∧
      transfer_log sel port (sector_in port) drive slave lba num ATA_CMD_READ_PIO r ws l ∧
      received buf ws l k k') → ∃ (r : nat) ws l k', ata_transfer fuel drive lba num ATA_CMD_READ_PIO
        (λ port, read_loop fuel port buf (Z.to_nat num) 0) k = Done (Z.of_nat r) k' ∧
      transfer_log sel port (sector_in port) drive slave lba num ATA_CMD_READ_PIO r ws l ∧
      length ws = (256 * r)%nat ∧ Z.of_nat r ≤ num ∧ received buf ws l k k').
  { intros (r & ws & l & k' & E & T & R). destruct (transfer_log_length _ _ _ _ _ _ _ _ _ _ _ T).
    exists r, ws, l, k'. do 3 (split; [done|]). split; [lia|done]. }
  apply Hcut. clear Hcut.
  destruct (transfer_run fuel drive lba num ATA_CMD_READ_PIO
    (λ port, read_loop fuel port buf (Z.to_nat num) 0) sel port slave k Hset Hok Hu Hn0)
    as (l1 & l2 & k1 & S1 & L1 & [[E Hg]|(E & st & W & Hst)]); rewrite E.
  - exists 0%nat, [], (l2 ++ l1), k1. split; [done|]. split; [|by apply logged_received].
    exists l1. split; [done|]. left. split; [done|]. split; [done|]. by exists l2.
  - destruct (read_loop_run fuel port (Z.to_nat num) buf 0
      (set_io (command_log port slave lba num ATA_CMD_READ_PIO ++ k_io k1) k1))
      as (r & ws & l3 & k3 & E3 & T3 & R3); [done|by rewrite Z2Nat.id by lia|].
    exists r, ws, (l3 ++ command_log port slave lba num ATA_CMD_READ_PIO ++ l2 ++ l1), k3.
    split; [exact E3|]. split; [exists l1; split; [done|]; right; by exists st, l2, l3|].
    destruct (served_log_length _ _ _ _ _ _ T3).
    eapply received_after; [unfold in_space in *; lia| |exact R3].
    eapply logged_trans; [exact L1|apply logged_command].
Qed.

(** [ata_write_sectors] sends whole sectors: on a disk that does not stay busy
    it returns a count [r] up to [num], and its port accesses are those of
    [transfer_log] with the first [256 r] words of the buffer, each sector followed by
    a flush of the drive's cache and a wait; nothing but the console changes.  An
    absent drive or a count of 0 gives 0 and changes nothing. *)
Theorem write_sectors_transfers fuel drive lba num buf sel port slave k :
  settles fuel → drive_ok (k_ata k) drive sel port slave → 0 ≤ num < 256 → mem_wf (k_mem k) →
  if usable (k_ata k) drive && negb (num =? 0) then
    ∃ (r : nat) l k', ata_write_sectors fuel drive lba num buf k = Done (Z.of_nat r) k' ∧
      transfer_log sel port (sector_out port) drive slave lba num ATA_CMD_WRITE_PIO r
        (mem_words (k_mem k) buf (256 * Z.of_nat r)) l ∧ Z.of_nat r ≤ num ∧ logged l k k'
  else ata_write_sectors fuel drive lba num buf k = Done 0 k.
Proof.
  intros Hset Hok Hn Hm. unfold ata_write_sectors.
  destruct (usable (k_ata k) drive && negb (num =? 0)) eqn:Hu; [|by apply transfer_refused; [apply Hok|]].
  apply andb_true_iff in Hu as [Hu Hn0]. apply negb_true_iff, Z.eqb_neq in Hn0.
  destruct (transfer_run fuel drive lba num ATA_CMD_WRITE_PIO
    (λ port, write_loop fuel port buf (Z.to_nat num) 0) sel port slave k Hset Hok Hu Hn0)
    as (l1 & l2 & k1 & S1 & L1 & [[E Hg]|(E & st & W & Hst)]); rewrite E.
  - exists 0%nat, (l2 ++ l1), k1. split; [done|]. split; [|split; [lia|done]].
    exists l1. split; [done|]. left. split; [done|]. split; [done|]. by exists l2.
  - destruct (write_loop_run fuel port (Z.to_nat num) buf 0
      (set_io (command_log port slave lba num ATA_CMD_WRITE_PIO ++ k_io k1) k1))
      as (r & l3 & k3 & E3 & T3 & L3); [done|cbn; by rewrite (logged_mem _ _ _ L1)|].
    cbn [k_mem set_io] in T3. rewrite (logged_mem _ _ _ L1) in T3.
    destruct (served_log_length _ _ _ _ _ _ T3).
    exists r, (l3 ++ command_log port slave lba num ATA_CMD_WRITE_PIO ++ l2 ++ l1), k3.
    split; [exact E3|]. split; [exists l1; split; [done|]; right; by exists st, l2, l3|].
    split; [lia|].
    eapply logged_trans; [eapply logged_trans; [exact L1|apply logged_command]|done].
Qed.

End Transfer.

(** ** Probing *)

(** Only the bytes from [lo] to [hi] changed. *)
Definition only_in (lo hi : Z) (m m' : mem) : Prop :=
  ∀ a, in_space a 1 → a < lo ∨ hi ≤ a → ld8 m' a = ld8 m a.

Lemma only_in_refl lo hi m : only_in lo hi m m.
Proof. by intros a. Qed.

Lemma only_in_trans lo hi m1 m2 m3 : only_in lo hi m1 m2 → only_in lo hi m2 m3 → only_in lo hi m1 m3.
Proof. intros H1 H2 a Ha Hr. by rewrite H2, H1. Qed.

Lemma only_in_weaken lo hi lo' hi' m m' :
  only_in lo hi m m' → lo' ≤ lo → hi ≤ hi' → only_in lo' hi' m m'.
Proof. intros H1 Hlo Hhi a Ha Hr. apply H1; [done|lia]. Qed.

Lemma only_in_st8 lo hi m a v : 0 ≤ lo ≤ a → a < hi ≤ 4294967296 → only_in lo hi m (st8 m a v).
Proof. intros ? ? b [? ?] Hr. apply ld8_st8_ne. rewrite !u32_small; lia. Qed.

Lemma strncpy_only m d s n :
  0 ≤ n → in_space d n → only_in d (d + n) m (snd (strncpy m d s n)).
Proof.
  unfold in_space. intros Hn Hd. unfold strncpy.
  assert (Hcopy : ∀ rounds m i, 0 ≤ i → i + Z.of_nat rounds ≤ n →
    let r := strncpy_copy rounds m d s i in i ≤ fst r ∧ only_in d (d + n) m (snd r)).
  { induction rounds as [|rounds IH]; intros m1 i Hi Hr; cbn [strncpy_copy]; [by split; [|apply only_in_refl]|].
    destruct (ld8 m1 (s + i) =? 0); [by split; [|apply only_in_refl]|].
    destruct (IH (st8 m1 (d + i) (ld8 m1 (s + i))) (i + 1)) as [H1 H2]; [lia|lia|].
    split; [lia|]. eapply only_in_trans; [|exact H2]. apply only_in_st8; lia. }
  destruct (Hcopy (Z.to_nat n) m 0) as [H1 H2]; [lia|lia|].
  destruct (strncpy_copy _ _ _ _ _) as [i m1]. cbn [fst snd] in *.
  eapply only_in_trans; [exact H2|]. apply for_range_inv; [apply only_in_refl|].
  intros j m2 Hj Hm2. eapply only_in_trans; [exact Hm2|]. apply only_in_st8; lia.
Qed.

(** [c] returns, and writes only the bytes from [lo] to [hi] of the array. *)
Definition put_devices (m : mem) (k : kernel) : kernel := set_ata (set_devices m (k_ata k)) k.
Definition writes_within (lo hi : Z) (c : K unit) : Prop :=
  ∀ k, ∃ m, c k = Done tt (put_devices m k) ∧ only_in lo hi (devices (k_ata k)) m.

Lemma put_devices_twice m1 m2 k : put_devices m2 (put_devices m1 k) = put_devices m2 k.
Proof. by destruct k. Qed.

Lemma within_bind lo hi c1 c2 :
  writes_within lo hi c1 → writes_within lo hi c2 → writes_within lo hi (c1 ;;; c2).
Proof.
  intros H1 H2 k. destruct (H1 k) as (m1 & E1 & O1). destruct (H2 (put_devices m1 k)) as (m2 & E2 & O2).
  exists m2. rewrite (bind_done _ _ _ _ _ E1), E2, put_devices_twice. split; [done|].
  by eapply only_in_trans.
Qed.

Lemma within_load lo hi ld n a f :
  in_devices a n = true → (∀ v, writes_within lo hi (f v)) → writes_within lo hi (bind (dev_load ld n a) f).
Proof. intros Ha Hf k. unfold bind, dev_load. rewrite Ha. apply Hf. Qed.

Lemma within_st8 lo hi a v :
  in_devices a 1 = true → 0 ≤ lo ≤ a → a < hi ≤ 4294967296 → writes_within lo hi (dev_store st8 1 a v).
Proof.
  intros Ha Hlo Hhi k. unfold dev_store. rewrite Ha. eexists. split; [done|]. by apply only_in_st8.
Qed.

Lemma within_st32 lo hi a v :
  in_devices a 4 = true → 0 ≤ lo ≤ a → a + 4 ≤ hi ≤ 4294967296 → writes_within lo hi (dev_store st32 4 a v).
Proof.
  intros Ha Hlo Hhi k. unfold dev_store. rewrite Ha. eexists. split; [done|].
  unfold st32. do 3 (eapply only_in_trans; [|apply only_in_st8; lia]). apply only_in_st8; lia.
Qed.

Lemma within_for lo hi (l : list Z) body :
  (∀ i, i ∈ l → writes_within lo hi (body i)) → writes_within lo hi (for_list l body).
Proof.
  intros H. induction l as [|i l IH]; cbn [for_list].
  - intros k. exists (devices (k_ata k)). split; [by destruct k as [? ? ? ? ? ? ? ? ? ? ? ? [] ?]|apply only_in_refl].
  - apply within_bind; [apply H; by left|]. apply IH. intros j Hj. apply H. by right.
Qed.

Lemma within_swap lo hi a n :
  0 ≤ lo ≤ a → 0 ≤ n → n mod 2 = 0 → a + n ≤ hi ≤ 4 * sizeof_ata_device → writes_within lo hi (swap_pairs a n).
Proof.
  unfold sizeof_ata_device. intros. apply within_for. intros i [Hi1 Hi2]%elem_of_seqZ.
  assert (2 * i + 1 < n) by dlia.
  assert (Hin : ∀ b, a ≤ b < a + n → in_devices b 1 = true).
  { intros b Hb. unfold in_devices, sizeof_ata_device. rewrite !(proj2 (Z.leb_le _ _)) by lia. done. }
  do 2 (apply within_load; [apply Hin; lia|intros]).
  apply within_bind; apply within_st8; try apply Hin; lia.
Qed.

Lemma identify_strings_within drive :
  0 ≤ drive < 4 →
  writes_within (dev_at drive (dev_identify + 20)) (dev_at drive (dev_identify + 75)) (identify_strings drive).
Proof.
  intros Hd. unfold identify_strings, dev_at, dev_identify, sizeof_ata_device.
  assert (Hst : ∀ off, 20 ≤ off < 75 → writes_within (drive * 552 + (57 + 20)) (drive * 552 + (57 + 75))
    (dev_store st8 1 (drive * 552 + 57 + off) 0)).
  { intros off Hoff. apply within_st8; [|lia..].
    unfold in_devices, sizeof_ata_device. rewrite !(proj2 (Z.leb_le _ _)) by lia. done. }
  assert (Hsw : ∀ off n, 20 ≤ off → 0 ≤ n → n mod 2 = 0 → off + n ≤ 75 →
    writes_within (drive * 552 + (57 + 20)) (drive * 552 + (57 + 75)) (swap_pairs (drive * 552 + 57 + off) n)).
  { intros off n Hoff Hn Hn2 Hon. apply within_swap; unfold sizeof_ata_device; [lia|done|done|lia]. }
  do 5 (apply within_bind; [first [apply Hst; lia|by apply Hsw]|]). apply Hst. lia.
Qed.

(** The capacity the identification words give, from the array [d]. *)
Definition capacity (d : mem) (drive : Z) : Z :=
  let identify := dev_at drive dev_identify in
  let total := ld32 d (identify + off_total_sectors) in
  if total =? 0
  then ld16 d (identify + off_cylinders) * ld16 d (identify + off_heads) * ld16 d (identify + off_sectors)
  else total.

Lemma capacity_ext d d' drive :
  0 ≤ drive < 4 →
  (∀ j, 0 ≤ j < 20 ∨ 75 ≤ j < 494 →
    ld8 d' (dev_at drive dev_identify + j) = ld8 d (dev_at drive dev_identify + j)) →
  capacity d' drive = capacity d drive.
Proof.
  intros Hd H. unfold capacity, ld16, ld32, off_total_sectors, off_cylinders, off_heads, off_sectors.
  rewrite <- !Z.add_assoc. rewrite !H by lia. done.
Qed.

Lemma dev_store_run st n drive off v k :
  0 ≤ drive < 4 → 0 ≤ off → off + n ≤ sizeof_ata_device →
  dev_store st n (dev_at drive off) v k = Done tt (put_devices (st (devices (k_ata k)) (dev_at drive off) v) k).
Proof. intros. unfold dev_store. by rewrite in_devices_member. Qed.

(** One access to a member of a drive's record. *)
Ltac dev_step :=
  match goal with
  | |- context [bind (dev_store ?st ?n (dev_at ?d ?off) ?v) ?f ?k] =>
      rewrite (bind_done (dev_store st n (dev_at d off) v) f k _ _
        (dev_store_run st n d off v k ltac:(assumption) ltac:(done) ltac:(done)))
  | |- context [bind (dev_load ?ld ?n (dev_at ?d ?off)) ?f ?k] =>
      rewrite (bind_done (dev_load ld n (dev_at d off)) f k _ _
        (dev_load_run ld n d off k ltac:(assumption) ltac:(done) ltac:(done)))
  end.

(** [fill_device] once the members before the size are stored in [m]. *)
Definition filled (d : mem) (drive channel slave : Z) : mem :=
  st8 (snd (strncpy (st8 (st8 (st8 (st8 d (dev_at drive dev_present) 1) (dev_at drive dev_type) ATA_ATA)
      (dev_at drive dev_channel) channel) (dev_at drive dev_drive) slave)
    (dev_at drive dev_model) (dev_at drive dev_identify + off_model) 40)) (dev_at drive (dev_model + 40)) 0.

Lemma filled_only d drive channel slave :
  0 ≤ drive < 4 → only_in (dev_at drive 0) (dev_at drive dev_identify) d (filled d drive channel slave).
Proof.
  intros Hd. unfold filled, dev_at, sizeof_ata_device, dev_present, dev_type, dev_channel, dev_drive,
    dev_model, dev_identify.
  eapply only_in_trans; [|apply only_in_st8; lia].
  eapply only_in_trans; [|eapply only_in_weaken; [apply strncpy_only; [lia|unfold in_space; lia]|lia|lia]].
  do 3 (eapply only_in_trans; [|apply only_in_st8; lia]). apply only_in_st8; lia.
Qed.

Lemma filled_byte d drive channel slave off :
  0 ≤ drive < 4 → 0 ≤ off < 4 →
  ld8 (filled d drive channel slave) (dev_at drive off) =
    if off =? 0 then 1 else if off =? 1 then 0 else if off =? 2 then u8 channel else u8 slave.
Proof.
  intros Hd Hoff. unfold filled, dev_at, sizeof_ata_device, dev_present, dev_type, dev_channel, dev_drive,
    dev_model, dev_identify.
  rewrite ld8_st8_ne by (rewrite !u32_small; lia).
  rewrite (strncpy_only _ _ _ 40) by (unfold in_space; lia).
  rewrite !ld8_st8 by (unfold in_space; lia). zcases; done.
Qed.

Lemma fill_device_run drive channel slave k :
  0 ≤ drive < 4 →
  let d := devices (k_ata k) in
  fill_device drive channel slave k =
    Done tt (put_devices (st32 (filled d drive channel slave) (dev_at drive dev_size)
      (if ld32 d (dev_at drive dev_identify + off_total_sectors) =? 0
       then u32 (capacity d drive) else capacity d drive)) k).
Proof.
  intros Hd d. unfold fill_device.
  do 4 dev_step.
  unfold upd_ata. rewrite bind_modify.
  replace (dev_at drive dev_model + 40) with (dev_at drive (dev_model + 40)) by (unfold dev_at; lia).
  dev_step.
  match goal with |- bind _ _ ?x = _ => replace x with (put_devices (filled d drive channel slave) k) by by destruct k end.
  assert (Hat : ∀ off, dev_at drive dev_identify + off = dev_at drive (dev_identify + off)) by (intros; unfold dev_at; lia).
  assert (Hcap : capacity (filled d drive channel slave) drive = capacity d drive).
  { apply capacity_ext; [done|]. intros j Hj. apply filled_only; [done|..];
      unfold in_space, dev_at, sizeof_ata_device, dev_identify; lia. }
  assert (H32 : ld32 (filled d drive channel slave) (dev_at drive dev_identify + off_total_sectors) =
    ld32 d (dev_at drive dev_identify + off_total_sectors)).
  { apply ld32_ext. intros i Hi. apply filled_only; [done|..];
      unfold in_space, dev_at, sizeof_ata_device, dev_identify, off_total_sectors in *; lia. }
  rewrite !Hat in *. dev_step.
  cbn [k_ata devices put_devices set_ata set_devices]. rewrite H32.
  revert Hcap. unfold capacity. rewrite !Hat, H32. intros Hcap.
  destruct (Z.eqb_spec (ld32 d (dev_at drive (dev_identify + off_total_sectors))) 0); cbn [negb].
  - do 3 dev_step.
    cbn [k_ata devices put_devices set_ata set_devices]. rewrite Hcap.
    rewrite dev_store_run by done. by rewrite put_devices_twice.
  - rewrite dev_store_run by done. by rewrite put_devices_twice.
Qed.

(** The words [ws] were written to the array from [a] on. *)
Record identified (port a : Z) (ws : list Z) (k k' : kernel) : Prop := {
  id_io : k_io k' = words_in port ws ++ k_io k;
  id_words : words_at (devices (k_ata k')) a ws;
  id_frame : only_in a (a + 2 * Z.of_nat (length ws)) (devices (k_ata k)) (devices (k_ata k'));
  id_rest : ∃ m, k' = put_devices m (set_io (k_io k') k) }.

Section Probe.
Context `{Hardware, WordPorts}.

(** [n] words to [a + 2 * i] and on. *)
Lemma identify_words_run port a (n : nat) : ∀ i k,
  0 ≤ i → 0 ≤ a → a + 2 * (i + Z.of_nat n) ≤ 4 * sizeof_ata_device →
  ∃ ws k', for_list (seqZ i (Z.of_nat n)) (λ i, let* w := inw port in dev_store st16 2 (a + 2 * i) w) k = Done tt k' ∧
    length ws = n ∧ identified port (a + 2 * i) ws k k'.
Proof.
  induction n as [|n IH]; intros i k Hi Ha Hn; unfold sizeof_ata_device in *.
  { exists [], k. split; [done|]. split; [done|]. split; [done|by intros [|?] ? ?|apply only_in_refl|].
    exists (devices (k_ata k)). by destruct k as [? ? ? ? ? ? ? ? ? ? ? ? [] ?]. }
  rewrite seqZ_cons by lia. replace (Z.pred (Z.of_nat (S n))) with (Z.of_nat n) by lia. cbn [for_list].
  destruct (inw_law port k) as (v & Hv & E). rewrite bind_assoc, (bind_done _ _ _ _ _ E).
  set (k1 := put_devices (st16 (devices (k_ata k)) (a + 2 * i) v) (set_io (In16 (u16 port) v :: k_io k) k)).
  rewrite (bind_done _ _ _ tt k1).
  2:{ unfold dev_store, in_devices, sizeof_ata_device. rewrite !(proj2 (Z.leb_le _ _)) by lia. done. }
  destruct (IH (Z.succ i) k1) as (ws & k' & E' & Hlen & [I1 I2 I3 [m I4]]); [lia|lia|lia|].
  exists (v :: ws), k'. split; [exact E'|]. split; [cbn; by rewrite Hlen|]. split.
  - rewrite I1, words_in_cons, <- app_assoc. done.
  - intros [|j] w Hj.
    + injection Hj as <-. rewrite Z.mul_0_r, Z.add_0_r.
      rewrite <- (ld16_st16_eq (devices (k_ata k)) (a + 2 * i) v) by (unfold in_space; lia).
      apply ld16_ext; apply I3; unfold in_space; lia.
    + rewrite <- (I2 _ _ Hj). f_equal. lia.
  - cbn [length]. eapply only_in_trans; [|eapply only_in_weaken; [exact I3|lia|lia]].
    cbn. unfold st16. eapply only_in_trans; apply only_in_st8; lia.
  - exists m. rewrite I4. unfold k1. by destruct k.
Qed.

End Probe.

Section Records.
Context `{Hardware, WordPorts}.

(** A disk behind the ports from [port] on that is present, is no packet device
    and is always ready. *)
Definition disk_answers (port : Z) : Prop :=
  ∀ io, hw_in8 io (u16 (port + ATA_STATUS)) = ATA_SR_DRDY ∧
    hw_in8 io (u16 (port + ATA_SECTOR_NUM)) = 0 ∧ hw_in8 io (u16 (port + ATA_CYL_LOW)) = 0.

Lemma logged_inb port v k : logged [In8 (u16 port) v] k (set_io (In8 (u16 port) v :: k_io k) k).
Proof. apply logged_io. Qed.

(** The accesses before the words: the drive is selected and asked to identify
    itself, its status is read before and after a wait, the two registers that tell
    a packet device are read, and a last wait finds it ready. *)
Definition probe_log (port drive : Z) (l : list io_event) : Prop :=
  ∃ l1 l2 st l3 v1 v2 v3 v4, select_log port drive l1 ∧ busy_log port l2 ∧ wait_log port st l3 ∧
    status_ok st = true ∧
    l = l3 ++ [In8 (u16 (port + ATA_CYL_LOW)) v4] ++ [In8 (u16 (port + ATA_SECTOR_NUM)) v3] ++
      [status_read port v2] ++ l2 ++ [status_read port v1] ++
      [Out8 (u16 (port + ATA_COMMAND)) (u8 ATA_CMD_IDENTIFY)] ++ l1.

(** The probe of a drive that answers, up to the words. *)
Lemma probe_run fuel drive ch k :
  settles fuel → channels (k_ata k) !! Z.to_nat (drive / 2) = Some ch → disk_answers (base ch) →
  ∃ l k1, logged l k k1 ∧ probe_log (base ch) drive l ∧
    ata_probe fuel drive k =
      (read_identify (base ch) drive ;;;
       identify_strings drive ;;;
       fill_device drive (drive / 2) (drive mod 2) ;;;
       ret true) k1.
Proof.
  intros Hset Hch Hans. unfold ata_probe.
  destruct (select_run drive (base ch) k) as (l1 & k1 & E1 & L1 & D1); [by rewrite Hch|]. rewrite (bind_done _ _ _ _ _ E1).
  assert (Hch1 : channels (k_ata k1) !! Z.to_nat (drive / 2) = Some ch) by by rewrite (logged_ata _ _ _ L1).
  rewrite (bind_done _ _ _ _ _ (channel_at_run _ _ _ Hch1)). unfold outb at 1. rewrite bind_modify.
  set (e := Out8 _ _). set (k2 := set_io (e :: k_io k1) k1).
  assert (L2 : logged ([e] ++ l1) k k2) by exact (logged_trans _ _ _ _ _ L1 (logged_io e k1)).
  destruct (inb_run (base ch + ATA_STATUS) k2) as (v3 & E3 & V3). rewrite (bind_done _ _ _ _ _ E3).
  rewrite (proj1 (Hans _)) in V3. subst v3. change (u8 ATA_SR_DRDY =? 0) with false. cbv iota.
  set (k3 := set_io _ k2). assert (L3 := logged_trans _ _ _ _ _ L2 (logged_inb _ _ k2) : logged _ k k3).
  destruct (wait_busy_run fuel (base ch) k3 Hset) as (l4 & k4 & E4 & L4 & D4). rewrite (bind_done _ _ _ _ _ E4).
  assert (L4' := logged_trans _ _ _ _ _ L3 L4).
  destruct (inb_run (base ch + ATA_STATUS) k4) as (v5 & E5 & _). rewrite (bind_done _ _ _ _ _ E5).
  set (k5 := set_io _ k4). assert (L5 := logged_trans _ _ _ _ _ L4' (logged_inb _ _ k4) : logged _ k k5).
  destruct (inb_run (base ch + ATA_SECTOR_NUM) k5) as (v6 & E6 & V6). rewrite (bind_done _ _ _ _ _ E6).
  set (k6 := set_io _ k5). assert (L6 := logged_trans _ _ _ _ _ L5 (logged_inb _ _ k5) : logged _ k k6).
  destruct (inb_run (base ch + ATA_CYL_LOW) k6) as (v7 & E7 & V7). rewrite (bind_done _ _ _ _ _ E7).
  set (k7 := set_io _ k6). assert (L7 := logged_trans _ _ _ _ _ L6 (logged_inb _ _ k6) : logged _ k k7).
  rewrite (proj1 (proj2 (Hans _))) in V6. rewrite (proj2 (proj2 (Hans _))) in V7. subst v6 v7.
  change (negb (u8 0 =? 0) || negb (u8 0 =? 0)) with false. cbv iota.
  destruct (wait_ready_run fuel (base ch) k7 Hset) as (b & l8 & k8 & E8 & L8 & st & Hb & W8 & io & Hst).
  rewrite (bind_done _ _ _ _ _ E8). rewrite (proj1 (Hans _)) in Hst. subst st.
  change (status_ok (u8 ATA_SR_DRDY)) with true in Hb. subst b. cbn [negb].
  eexists _, k8. split; [exact (logged_trans _ _ _ _ _ L7 L8)|].
  split; [|done]. by eexists l1, l4, _, l8, _, _, _, _.
Qed.

(** Probing a disk that answers: the record of the drive is marked present,
    with its channel, its place on it, and the capacity the 256 identification
    words give; [identify] has 494 bytes, and the last 17 of the 512 bytes of the
    answer overwrite the first members of the next drive's record, whose [present]
    becomes the high byte of word 247; the record of the last drive has no next one
    and its probe writes outside the array. *)
Theorem probe_records fuel drive ch k :
  settles fuel → 0 ≤ drive < 4 → channels (k_ata k) !! Z.to_nat (drive / 2) = Some ch →
  disk_answers (base ch) →
  if decide (drive = 3) then ata_probe fuel drive k = Fault
  else ∃ ws k', ata_probe fuel drive k = Done true k' ∧ length ws = 256%nat ∧
    (∃ l, probe_log (base ch) drive l ∧ k_io k' = words_in (base ch) ws ++ l ++ k_io k) ∧
    ∃ image, words_at image (dev_at drive dev_identify) ws ∧
      let d := devices (k_ata k') in
      ld8 d (dev_at drive dev_present) = 1 ∧ ld8 d (dev_at drive dev_channel) = drive / 2 ∧
      ld8 d (dev_at drive dev_drive) = drive mod 2 ∧
      ld32 d (dev_at drive dev_size) = u32 (capacity image drive) ∧
      ∀ j, 0 ≤ j < 17 → ld8 d (dev_at (drive + 1) j) = ld8 image (dev_at drive dev_identify + 495 + j).
Proof.
  intros Hset Hd Hch Hans.
  destruct (probe_run fuel drive ch k Hset Hch Hans) as (l1 & k1 & L1 & D1 & ->).
  unfold read_identify. case_decide as H3.
  - subst drive. change (seqZ 0 256) with (seqZ 0 (Z.of_nat 247) ++ seqZ 247 9). rewrite bind_for_list_app.
    destruct (identify_words_run (base ch) (dev_at 3 dev_identify) 247 0 k1)
      as (l2 & k2 & E2 & _); [done|done|by unfold dev_at, dev_identify, sizeof_ata_device|].
    rewrite (bind_done _ _ _ _ _ E2). change (seqZ 247 9) with (247 :: seqZ 248 8).
    cbn [for_list]. destruct (inw_law (base ch) k2) as (v & _ & E).
    by rewrite !bind_assoc, (bind_done _ _ _ _ _ E).
  - destruct (identify_words_run (base ch) (dev_at drive dev_identify) 256 0 k1)
      as (ws & k2 & E2 & Hlen & I2); [done|unfold dev_at, dev_identify, sizeof_ata_device; lia..|].
    rewrite (bind_done _ _ _ _ _ E2). rewrite Z.mul_0_r, Z.add_0_r in I2. destruct I2 as [I1 I2 I3 _].
    destruct (identify_strings_within drive Hd k2) as (m3 & E3 & O3). rewrite (bind_done _ _ _ _ _ E3).
    rewrite (bind_done _ _ _ _ _ (fill_device_run _ _ _ _ Hd)). cbn [k_ata put_devices set_ata devices set_devices].
    rewrite put_devices_twice.
    eexists ws, _. split; [done|]. split; [done|].
    split; [exists l1; split; [done|]; cbn; by rewrite I1, (proj1 L1)|].
    exists (devices (k_ata k2)). split; [done|].
    cbn [k_ata put_devices set_ata devices set_devices].
    unfold dev_present, dev_channel, dev_drive.
    set (sz := if _ =? 0 then _ else _).
    assert (Hsz : u32 sz = u32 (capacity (devices (k_ata k2)) drive)).
    { unfold sz. rewrite (capacity_ext (devices (k_ata k2)) m3); [by case_match; rewrite ?u32_idemp|done|].
      intros j Hj. apply O3; unfold in_space, dev_at, sizeof_ata_device, dev_identify; lia. }
    assert (Hb : ∀ off, 0 ≤ off < 4 → ld8 (st32 (filled m3 drive (drive / 2) (drive mod 2)) (dev_at drive dev_size) sz)
        (dev_at drive off) = if off =? 0 then 1 else if off =? 1 then 0 else if off =? 2 then u8 (drive / 2) else u8 (drive mod 2)).
    { intros off Hoff. rewrite ld8_st32_ne; [by apply filled_byte|unfold in_space, dev_at, sizeof_ata_device, dev_size; lia..]. }
    rewrite !Hb by lia. cbn [Z.eqb Pos.eqb]. rewrite !u8_small by dlia.
    do 3 (split; [done|]). split.
    + rewrite ld32_st32_eq; [done|]. unfold in_space, dev_at, sizeof_ata_device, dev_size. lia.
    + intros j Hj. unfold dev_at, sizeof_ata_device, dev_size, dev_identify in *.
      rewrite ld8_st32_ne by (unfold in_space; lia).
      rewrite filled_only; [|done|unfold in_space, dev_at, sizeof_ata_device, dev_identify; lia..].
      rewrite O3 by (unfold in_space; lia). f_equal. lia.
Qed.

Lemma wait_busy_spins fuel port k :
  (∀ io, hw_in8 io (u16 (port + ATA_STATUS)) = 0xFF) → ata_wait_busy fuel port k = Spin.
Proof.
  intros Hff. revert k. induction fuel as [|fuel IH]; intros k; [done|]. cbn [ata_wait_busy].
  unfold bind, inb. rewrite Hff. apply IH.
Qed.

Lemma probe_spins fuel drive ch k :
  channels (k_ata k) !! Z.to_nat (drive / 2) = Some ch →
  (∀ io, hw_in8 io (u16 (base ch + ATA_STATUS)) = 0xFF) → ata_probe fuel drive k = Spin.
Proof.
  intros Hch Hff. unfold ata_probe. destruct (select_run drive (base ch) k) as (l & k1 & E & L & _); [by rewrite Hch|].
  assert (Hch1 : channels (k_ata k1) !! Z.to_nat (drive / 2) = Some ch) by by rewrite (logged_ata _ _ _ L).
  rewrite (bind_done _ _ _ _ _ E), (bind_done _ _ _ _ _ (channel_at_run _ _ _ Hch1)).
  unfold outb. rewrite bind_modify.
  match goal with |- bind (inb ?p) _ ?k = _ => destruct (inb_run p k) as (v & E3 & V) end.
  rewrite (bind_done _ _ _ _ _ E3). rewrite Hff in V. subst v. change (u8 255 =? 0) with false. cbv iota.
  unfold bind at 1. by rewrite wait_busy_spins.
Qed.

(** The register constants are absolute port numbers, to which the driver adds
    the channel's base again: the status register it polls on the first channel is
    port 0x3E7.  On a machine with no device at that port, where it reads 0xFF,
    [init_ata] waits forever, and the kernel's start with it. *)
Theorem init_ata_hangs fuel k :
  (∀ io, hw_in8 io 0x3E7 = 0xFF) → init_ata fuel k = Spin.
Proof.
  intros Hff. unfold init_ata. print_step. unfold upd_ata at 1. rewrite bind_modify.
  set (k1 := set_ata _ _).
  assert (Hw : writes_within 0 (4 * sizeof_ata_device) (for_list (seqZ 0 4) (λ i,
    dev_store st8 1 (dev_at i dev_present) 0 ;;;
    dev_store st32 4 (dev_at i dev_size) 0 ;;;
    dev_store st8 1 (dev_at i dev_model) 0))).
  { apply within_for. intros i [Hi1 Hi2]%elem_of_seqZ.
    apply within_bind; [|apply within_bind]; [apply within_st8|apply within_st32|apply within_st8];
      try (apply in_devices_member; done || lia);
      unfold dev_at, sizeof_ata_device, dev_present, dev_size, dev_model; lia. }
  destruct (Hw k1) as (m & E & _). rewrite (bind_done _ _ _ _ _ E).
  set (k2 := put_devices m k1).
  change (seqZ 0 4) with (0 :: seqZ 1 3). cbn [probe_all]. rewrite bind_assoc. unfold bind at 1.
  by rewrite (probe_spins fuel 0 (mk_channel 0x1F0 0x3F6 0 0) k2 eq_refl Hff).
Qed.

End Records.

(** ** Witnesses: a machine whose disk is always ready *)

Definition hardware_words `{Hardware} : WordPorts.
Proof.
  refine {| inw port k := let v := u16 (hw_in16 (k_io k) (u16 port)) in
              Done v (set_io (In16 (u16 port) v :: k_io k) k);
            outw port v k := Done tt (set_io (Out16 (u16 port) (u16 v) :: k_io k) k) |}.
  - intros port k. eexists. split; [apply u16_range|reflexivity].
  - reflexivity.
Defined.

Definition ready_disk : Hardware := {|
  hw_in8 _ port := if port =? 0x3E7 then ATA_SR_DRDY else 0;
  hw_in16 io _ := Z.of_nat (length io) |}.

Definition ready_words : WordPorts := @hardware_words ready_disk.

Lemma ready_settles : @settles ready_disk 1.
Proof. intros io port. left. cbn. by destruct (port =? 999). Qed.

(** The first drive is present on the first channel. *)
Definition ata0 : kernel :=
  set_ata (mk_ata_state [mk_channel 0x1F0 0x3F6 0 0; mk_channel 0x170 0x376 0 0]
    (st8 ∅ (dev_at 0 dev_present) 1) true) kernel_bss.

Lemma ata0_drive : drive_ok (k_ata ata0) 0 0x1F0 0x1F0 0.
Proof. split; [lia|reflexivity..]. Qed.

Lemma read_sectors_transfers_witness :
  ∃ (r : nat) ws l k', @ata_read_sectors ready_disk ready_words 1 0 7 2 0x8000 ata0 = Done (Z.of_nat r) k' ∧
    length ws = (256 * r)%nat ∧ received 0x8000 ws l ata0 k'.
Proof.
  pose proof (@read_sectors_transfers ready_disk ready_words 1 0 7 2 0x8000 0x1F0 0x1F0 0 ata0
    ready_settles ata0_drive ltac:(lia) ltac:(unfold in_space; lia)) as H.
  change (usable (k_ata ata0) 0 && negb (2 =? 0)) with true in H. cbv iota in H.
  destruct H as (r & ws & l & k' & E & _ & Hlen & _ & Hrc).
  exists r, ws, l, k'. split; [exact E|]. split; [exact Hlen|exact Hrc].
Defined.

Lemma write_sectors_transfers_witness :
  ∃ (r : nat) l k', @ata_write_sectors ready_disk ready_words 1 0 7 2 0x8000 ata0 = Done (Z.of_nat r) k' ∧
    Z.of_nat r ≤ 2 ∧ logged l ata0 k'.
Proof.
  pose proof (@write_sectors_transfers ready_disk ready_words 1 0 7 2 0x8000 0x1F0 0x1F0 0 ata0
    ready_settles ata0_drive ltac:(lia) mem_wf_empty) as H.
  change (usable (k_ata ata0) 0 && negb (2 =? 0)) with true in H. cbv iota in H.
  destruct H as (r & l & k' & E & _ & Hr & Hlog).
  exists r, l, k'. split; [exact E|]. split; [exact Hr|exact Hlog].
Defined.

Lemma probe_records_witness :
  ∃ k', @ata_probe ready_disk ready_words 1 0 ata0 = Done true k' ∧
    ld8 (devices (k_ata k')) (dev_at 0 dev_present) = 1.
Proof.
  pose proof (@probe_records ready_disk ready_words 1 0 (mk_channel 0x1F0 0x3F6 0 0) ata0
    ready_settles ltac:(lia) eq_refl ltac:(intros io; split; [reflexivity|split; reflexivity])) as H.
  rewrite decide_False in H by lia. destruct H as (ws & k' & E & _ & _ & image & _ & Hp & _).
  exists k'. split; [exact E|exact Hp].
Defined.

(** No device answers. *)
Definition floating_bus : Hardware := {| hw_in8 _ _ := 0xFF; hw_in16 _ _ := 0xFFFF |}.

Lemma init_ata_hangs_witness : @init_ata floating_bus (@hardware_words floating_bus) 1000 kernel_bss = Spin.
Proof. apply (@init_ata_hangs floating_bus (@hardware_words floating_bus) 1000). intros io. reflexivity. Defined.
