(* ===== verification/Console.v ===== *)
(** * The console loop (kernel/console.c)

    [console_process] reads a line character by character with [sys_read] and runs
    it as a command.  Its locals [cmd] and [c] live on the stack, at addresses the
    compiler chooses, and the literals it passes to [sys_execve] in read-only data:
    the class [ConsoleFrame].  The theorems compare a line with [line_of], which
    says what typing keys does, and describe the commands. *)

From S2P Require Import Prelude Memory Types Machine Screen Paging Process Cstring Device Syscall.
Import ScreenH.

Class ConsoleFrame := { cmd : Z; c_at : Z; init_path : Z; init_argv : Z }.

Section Console.
Context `{Hardware, PageAllocator, ConsoleFrame}.

(** Lines 27-56: a round per call of [sys_read], each of which may read [fuel] keys. *)
Fixpoint read_line (rounds fuel : nat) (pos : Z) : K Z :=
  match rounds with
  | O => spin
  | S rounds =>
      let* n := sys_read fuel 0 c_at 1 in
      if n <=? 0 then read_line rounds fuel pos
      else
        let* byte := load8 c_at in
        let c := s8 byte in
        if c =? 10 then
          store8 (cmd + pos) 0 ;;;
          screen_putchar 10 ;;;
          ret pos
        else if (c =? 0x08) || (c =? 0x7F) then
          if 0 <? pos then
            screen_putchar 8 ;;;
            screen_putchar 32 ;;;
            screen_putchar 8 ;;;
            read_line rounds fuel (pos - 1)
          else read_line rounds fuel pos
        else if pos <? 126 then
          store8 (cmd + pos) c ;;;
          screen_putchar c ;;;
          read_line rounds fuel (pos + 1)
        else read_line rounds fuel pos
  end.

(** [strlen(cmd) > 0] *)
Definition nonempty (fuel : nat) : K bool := λ k,
  match strlen fuel (k_mem k) cmd with Some n => Done (0 <? n) k | None => Spin end.

(** Lines 59-78. *)
Definition run_command (fuel : nat) : K unit :=
  let* m := gets k_mem in
  if str_is m cmd (cstr "help") then
    screen_putstr (cstr "Available commands:" ++ [10]) ;;;
    screen_putstr (cstr "  help   - show this help" ++ [10]) ;;;
    screen_putstr (cstr "  clear  - clear screen" ++ [10]) ;;;
    screen_putstr (cstr "  exec   - run /bin/init (if loaded)" ++ [10])
  else if str_is m cmd (cstr "clear") then screen_clear
  else if str_is m cmd (cstr "exec") then
    let* r := sys_execve fuel init_path init_argv NULL in
    if negb (r =? 0) then
      screen_setcolor COLOR_RED COLOR_BLACK ;;;
      screen_putstr (cstr "Exec failed." ++ [10]) ;;;
      screen_setcolor COLOR_LIGHT_GREY COLOR_BLACK
    else ret tt
  else
    let* some := nonempty fuel in
    if some : bool then
      screen_putstr (cstr "Unknown command: ") ;;;
      putstr_at fuel cmd ;;;
      screen_putstr [10]
    else ret tt.

(** One round of the outer loop. *)
Definition console_round (rounds fuel : nat) : K unit :=
  screen_setcolor COLOR_LIGHT_GREEN COLOR_BLACK ;;;
  screen_putstr (cstr "helios> ") ;;;
  screen_setcolor COLOR_LIGHT_GREY COLOR_BLACK ;;;
  modify (λ k, set_mem (memset (k_mem k) cmd 0 128) k) ;;;
  let* _ := read_line rounds fuel 0 in
  run_command fuel.

Fixpoint console_loop (n rounds fuel : nat) : K unit :=
  match n with
  | O => spin
  | S n => console_round rounds fuel ;;; console_loop n rounds fuel
  end.

Definition console_process (n rounds fuel : nat) : K unit :=
  screen_setcolor COLOR_LIGHT_GREY COLOR_BLACK ;;;
  screen_putstr ([10] ++ cstr "Helios console ready. Type 'help' for commands." ++ [10]) ;;;
  console_loop n rounds fuel.

End Console.

(** ** Lines *)

(** What typing [keys] makes of [line]: the line at Enter, with the keys that are
    left.  There is no correcting: Backspace does nothing. *)
Fixpoint line_of (line keys : list Z) : option (list Z * list Z) :=
  match keys with
  | [] => None
  | key :: keys =>
      if (key <? 0x80) && negb (key =? 0x0E) then
        c ← key_char key;
        if c =? 0 then line_of line keys
        else if c =? 10 then Some (line, keys)
        else line_of (if Z.of_nat (length line) <? 126 then line ++ [c] else line) keys
      else line_of line keys
  end.

(** The next character the keys give. *)
Fixpoint next_char (keys : list Z) : option (Z * list Z) :=
  match keys with
  | [] => None
  | key :: keys =>
      if (key <? 0x80) && negb (key =? 0x0E) then
        c ← key_char key;
        if c =? 0 then next_char keys else Some (c, keys)
      else next_char keys
  end.

Lemma line_of_next line keys :
  line_of line keys =
    '(c, rest) ← next_char keys;
    if c =? 10 then Some (line, rest)
    else line_of (if Z.of_nat (length line) <? 126 then line ++ [c] else line) rest.
Proof.
  induction keys as [|key keys IH]; cbn [line_of next_char]; [done|].
  destruct ((key <? 128) && negb (key =? 14)); [|exact IH].
  destruct (key_char key) as [c|]; cbn; [|done]. by destruct (c =? 0).
Qed.

Lemma next_char_shorter keys c rest : next_char keys = Some (c, rest) → (length rest < length keys)%nat.
Proof.
  induction keys as [|key keys IH]; cbn [next_char length]; [done|].
  destruct (_ && _); [|intros H%IH; lia].
  destruct (key_char key) as [c'|]; cbn; [|done]. destruct (c' =? 0); [intros H%IH; lia|].
  intros [= _ ->]. lia.
Qed.

Lemma literal_printable s i c :
  Forall (λ c, 32 ≤ c < 127) s → literal_at s i = Some c → c = 0 ∨ 32 ≤ c < 127.
Proof.
  intros Hs H%list_elem_of_lookup_2. apply elem_of_app in H as [H|H%list_elem_of_singleton]; [|by left].
  right. rewrite list.Forall_forall in Hs. by apply Hs.
Qed.

Lemma key_char_printable key c : key_char key = Some c → c = 0 ∨ c = 10 ∨ 32 ≤ c < 127.
Proof.
  unfold key_char. intros H.
  repeat match type of H with context [if ?b then _ else _] => destruct b end; simplify_eq; try lia;
    (apply literal_printable in H; [lia|]; refine (bool_decide_unpack _ _); reflexivity).
Qed.

Lemma next_char_printable keys c rest : next_char keys = Some (c, rest) → c = 10 ∨ 32 ≤ c < 127.
Proof.
  induction keys as [|key keys IH]; cbn [next_char]; [done|].
  destruct (_ && _); [|exact IH]. destruct (key_char key) as [c'|] eqn:E; cbn; [|done].
  apply key_char_printable in E. destruct (Z.eqb_spec c' 0); [exact IH|]. intros [= -> _]. lia.
Qed.

Lemma key_reads_sends io io' : sends io io' → key_reads io' = key_reads io.
Proof.
  intros (l & -> & Hl). induction Hl as [|e l He _ IH]; [done|]. cbn. by destruct e.
Qed.

Section Lines.
Context `{Hardware, PageAllocator, ConsoleFrame}.

(** A [sys_read] of one character. *)
Lemma read_char_run p keys fuel : ∀ ks c rest k,
  keyboard keys → in_space p 1 → drop (key_reads (k_io k)) keys = ks →
  next_char ks = Some (c, rest) → (length ks ≤ fuel)%nat →
  ∃ k', sys_read fuel 0 p 1 k = Done 1 k' ∧ ld8 (k_mem k') p = c ∧
    (∀ a, in_space a 1 → a ≠ p → ld8 (k_mem k') a = ld8 (k_mem k) a) ∧
    drop (key_reads (k_io k')) keys = rest ∧ edits k k' ∧ k_screen k' = put_final c (k_screen k).
Proof.
  unfold sys_read. cbn [Z.eqb].
  induction fuel as [|fuel IH]; intros ks c rest k Hkb Hsp Hks Hn Hf;
    (destruct ks as [|key ks]; [done|]); cbn [length] in Hf; [lia|].
  cbn [read_keys next_char] in *. change (0 <? 1) with true. cbv iota. rewrite bind_assoc.
  match goal with |- context [bind (inb 96) ?f k] =>
    destruct (next_key_run keys ks key f k Hkb Hks) as (Hkey & Hks1 & ->) end.
  cbv beta.
  set (k1 := set_io _ k). assert (He1 : edits k k1) by apply edits_io.
  assert (Hskip : next_char ks = Some (c, rest) →
    ∃ k', (let* i := read_keys fuel screen_putchar p 1 0 in ret (s32 i)) k1 = Done 1 k' ∧
      ld8 (k_mem k') p = c ∧ (∀ a, in_space a 1 → a ≠ p → ld8 (k_mem k') a = ld8 (k_mem k) a) ∧
      drop (key_reads (k_io k')) keys = rest ∧ edits k k' ∧ k_screen k' = put_final c (k_screen k)).
  { intros Hn'. destruct (IH ks c rest k1 Hkb Hsp Hks1 Hn') as (k' & E & Hp1 & Hp2 & Hp3 & Hp4 & Hp5); [lia|].
    exists k'. do 4 (split; [done|]). split; [by etrans|done]. }
  destruct (key <? 128); cbn [andb] in Hn; [|by apply Hskip].
  destruct (key =? 14); cbn [negb] in Hn; [by apply Hskip|].
  destruct (key_char key) as [c'|] eqn:Ec; cbn in Hn; [|done].
  destruct (c' =? 0); [by apply Hskip|]. injection Hn as -> ->.
  apply key_char_byte in Ec. unfold store8. rewrite bind_assoc, bind_modify, bind_assoc.
  set (k2 := set_mem _ k1).
  destruct (putchar_wrote c k2) as (k3 & E3 & io & -> & Hio). rewrite (bind_done _ _ _ _ _ E3).
  assert (Hend : (if c =? 10 then ret (0 + 1) else read_keys fuel screen_putchar p 1 (0 + 1)) = ret 1)
    by (destruct (c =? 10); [done|by destruct fuel]).
  rewrite Hend. eexists. split; [done|]. cbn [k_mem k_io with_console set_screen set_io].
  split; [unfold k2; cbn; rewrite Z.add_0_r, ld8_st8_eq; by apply u8_small|].
  split; [|split].
  - intros a Ha Hne. unfold k2. cbn. rewrite Z.add_0_r. unfold in_space in *.
    rewrite ld8_st8_ne; [done|]. rewrite !u32_small; lia.
  - rewrite (key_reads_sends _ _ Hio). exact Hks1.
  - split; [|done]. etrans; [exact He1|]. etrans; [apply edits_mem|]. apply edits_console.
Qed.

Lemma stored_ext m m' buf line :
  (∀ a, buf ≤ a < buf + Z.of_nat (length line) → ld8 m' a = ld8 m a) → stored m buf line → stored m' buf line.
Proof.
  intros He Hs j c Hj. rewrite He; [by apply Hs|]. apply lookup_lt_Some in Hj. lia.
Qed.

Lemma stored_cstring m buf line :
  Forall (λ c, 0 < c < 256) line → stored m buf line → ld8 m (buf + Z.of_nat (length line)) = 0 →
  cstring m buf line.
Proof.
  intros Hb Hs Hz. apply cstring_of_bytes; [done|]. intros i Hi.
  destruct (line !! i) as [c|] eqn:E; [by apply Hs|]. apply lookup_ge_None in E.
  by replace i with (length line) by lia.
Qed.

(** The frame of the console: [cmd] and [c] do not overlap. *)
Definition frame_ok : Prop :=
  in_space cmd 128 ∧ in_space c_at 1 ∧ (c_at < cmd ∨ cmd + 128 ≤ c_at).

(** Only the locals, the console and the port history change. *)
Definition locals_only (k k' : kernel) : Prop :=
  edits k k' ∧ ∀ a, in_space a 1 → a ≠ c_at → a < cmd ∨ cmd + 128 ≤ a → ld8 (k_mem k') a = ld8 (k_mem k) a.

Lemma locals_only_trans k1 k2 k3 : locals_only k1 k2 → locals_only k2 k3 → locals_only k1 k3.
Proof. intros [E1 F1] [E2 F2]. split; [by etrans|]. intros a Ha Hc Hr. by rewrite F2, F1. Qed.

Lemma locals_console s io k : locals_only k (with_console s io k).
Proof. split; [apply edits_console|done]. Qed.

Lemma locals_cmd k i c :
  frame_ok → 0 ≤ i < 128 → locals_only k (set_mem (st8 (k_mem k) (cmd + i) c) k).
Proof.
  intros (Hc & _) Hi. split; [apply edits_mem|]. intros a Ha _ Hr. cbn.
  unfold in_space in *. rewrite ld8_st8_ne; [done|]. rewrite !u32_small; lia.
Qed.

Lemma read_line_run keys fuel rounds : ∀ ks line out rest k,
  keyboard keys → frame_ok → drop (key_reads (k_io k)) keys = ks → stored (k_mem k) cmd line →
  Forall (λ c, 0 < c < 256) line → (length line ≤ 126)%nat →
  line_of line ks = Some (out, rest) → (length ks ≤ fuel)%nat → (length ks ≤ rounds)%nat →
  ∃ k', read_line rounds fuel (Z.of_nat (length line)) k = Done (Z.of_nat (length out)) k' ∧
    cstring (k_mem k') cmd out ∧ (length out ≤ 126)%nat ∧ locals_only k k' ∧
    drop (key_reads (k_io k')) keys = rest.
Proof.
  induction rounds as [|rounds IH]; intros ks line out rest k Hkb Hfr Hks Hst Hby Hlen Hl Hf Hr.
  { destruct ks; [done|cbn in Hr; lia]. }
  rewrite line_of_next in Hl. destruct (next_char ks) as [[c rest1]|] eqn:Hn; [|done]. cbn in Hl.
  pose proof (next_char_shorter _ _ _ Hn) as Hshort. pose proof (next_char_printable _ _ _ Hn) as Hc.
  pose proof Hfr as (Hcmd & Hcat & Hdis). unfold in_space in Hcmd, Hcat.
  destruct (read_char_run c_at keys fuel ks c rest1 k Hkb (proj1 (proj2 Hfr)) Hks Hn Hf)
    as (k1 & E1 & Hc1 & Hm1 & Hk1 & He1 & _).
  assert (L1 : locals_only k k1) by (split; [done|]; intros a Ha Hne _; by apply Hm1).
  cbn [read_line]. rewrite (bind_done _ _ _ _ _ E1). cbn [Z.leb Z.compare]. unfold load8. rewrite bind_gets, Hc1.
  rewrite s8_small by lia. unfold store8. destruct (Z.eqb_spec c 10) as [->|Hne].
  - injection Hl as -> ->. rewrite bind_modify. set (k2 := set_mem _ k1).
    destruct (bind_prints_sends (screen_putchar 10) (λ _, ret (Z.of_nat (length out))) k2) as (s & io & -> & Hio).
    eexists. split; [done|]. cbn [k_mem k_io with_console set_screen set_io].
    split; [|split; [done|split]].
    + unfold k2. cbn. apply stored_cstring; [done| |by rewrite ld8_st8_eq].
      apply (stored_ext (k_mem k)); [|done]. intros a Ha.
      rewrite ld8_st8_ne by (rewrite !u32_small; lia). apply Hm1; [unfold in_space|]; lia.
    + eapply locals_only_trans; [exact L1|]. eapply locals_only_trans; [|apply locals_console].
      apply locals_cmd; [done|lia].
    + rewrite (key_reads_sends _ _ Hio). exact Hk1.
  - rewrite (proj2 (Z.eqb_neq c 8)), (proj2 (Z.eqb_neq c 127)) by lia. cbn [orb].
    destruct (Z.ltb_spec (Z.of_nat (length line)) 126) as [Hlt|Hge].
    + rewrite bind_modify. set (k2 := set_mem _ k1).
      destruct (bind_prints_sends (screen_putchar c) (λ _, read_line rounds fuel (Z.of_nat (length line) + 1)) k2)
        as (s & io & -> & Hio).
      set (k3 := with_console s io k2).
      destruct (IH rest1 (line ++ [c]) out rest k3) as (k' & E & Hp1 & Hp2 & Hp3 & Hp4); try done.
      * unfold k3. cbn. rewrite (key_reads_sends _ _ Hio). exact Hk1.
      * unfold k3, k2. cbn. apply stored_snoc; [|lia|unfold in_space; lia].
        apply (stored_ext (k_mem k)); [|done]. intros a Ha. apply Hm1; [unfold in_space|]; lia.
      * apply list.Forall_app. split; [done|]. apply list.Forall_singleton. lia.
      * rewrite length_app. cbn. lia.
      * lia.
      * lia.
      * rewrite length_app in E. cbn [length] in E.
        replace (Z.of_nat (length line + 1)) with (Z.of_nat (length line) + 1) in E by lia.
        exists k'. split; [done|]. split; [done|]. split; [done|]. split; [|done].
        eapply locals_only_trans; [exact L1|]. eapply locals_only_trans; [|exact Hp3].
        eapply locals_only_trans; [|apply locals_console]. apply locals_cmd; [done|lia].
    + destruct (IH rest1 line out rest k1) as (k' & E & Hp1 & Hp2 & Hp3 & Hp4); try done; [|lia|lia|].
      * apply (stored_ext (k_mem k)); [|done]. intros a Ha. apply Hm1; [unfold in_space|]; lia.
      * exists k'. split; [done|]. split; [done|]. split; [done|]. split; [|done].
        by eapply locals_only_trans.
Qed.

End Lines.

(** ** Properties *)

Lemma str_is_run m p l lit :
  cstring m p l → Forall (λ c, 0 < c) lit → str_is m p lit = bool_decide (l = lit).
Proof.
  revert p l. induction lit as [|c lit IH]; intros p l Hl Hlit; destruct l as [|c' l]; cbn [str_is cstring] in *.
  - by rewrite Hl.
  - destruct Hl as (-> & Hc & _). by rewrite (proj2 (Z.eqb_neq _ _)) by lia.
  - apply list.Forall_cons in Hlit as [Hc _]. rewrite Hl. by rewrite (proj2 (Z.eqb_neq _ _)) by lia.
  - apply list.Forall_cons in Hlit as [Hc Hlit]. destruct Hl as (-> & Hc' & Hl). rewrite (IH _ l) by done.
    destruct (Z.eqb_spec c' c) as [->|Hne]; cbn [andb].
    + apply bool_decide_ext. naive_solver.
    + symmetry. apply bool_decide_eq_false. naive_solver.
Qed.

(** A command that only prints. *)
Lemma prints_same c k `{!Prints c} : ∃ k', c k = Done tt k' ∧ same_but_console k k'.
Proof.
  destruct (prints (c:=c) k) as (s & io & E & _). eexists. split; [exact E|]. apply same_but_console_with.
Qed.

Section Properties.
Context `{Hardware, PageAllocator, ConsoleFrame}.

(** C17: A round of the console reads exactly the keys up to Enter and then runs the
    command with, in [cmd], the characters of these keys: letters and digits
    in order, at most 126 of them, the rest dropped; Backspace does not correct.
    Nothing but the locals, the console and the ports' history changes before the
    command runs. *)
Theorem console_round_reads keys fuel rounds out rest k :
  keyboard keys → frame_ok → line_of [] (drop (key_reads (k_io k)) keys) = Some (out, rest) →
  (length keys ≤ fuel)%nat → (length keys ≤ rounds)%nat →
  ∃ k', console_round rounds fuel k = run_command fuel k' ∧
    cstring (k_mem k') cmd out ∧ (length out ≤ 126)%nat ∧
    drop (key_reads (k_io k')) keys = rest ∧ locals_only k k'.
Proof.
  intros Hkb Hfr Hl Hf Hr. unfold console_round.
  do 3 (match goal with |- context [bind ?c ?f ?x] =>
    let s := fresh "s" in let io := fresh "io" in let E := fresh "E" in let Hio := fresh "Hio" in
    destruct (bind_prints_sends c f x) as (s & io & E & Hio); rewrite E; clear E end).
  cbn [k_io with_console set_screen set_io] in Hio0, Hio1.
  rewrite bind_modify. set (k1 := set_mem _ _).
  assert (L1 : locals_only k k1).
  { do 3 (eapply locals_only_trans; [apply locals_console|]). split; [apply edits_mem|].
    intros a Ha _ Hout. cbn. rewrite memset_ld8 by (first [apply Hfr|lia|done]).
    zcases; done. }
  destruct (read_line_run keys fuel rounds (drop (key_reads (k_io k)) keys) [] out rest k1)
    as (k' & E & Hcs & Hlen & L & Hd); try done.
  - unfold k1. cbn. by rewrite (key_reads_sends _ _ Hio1), (key_reads_sends _ _ Hio0), (key_reads_sends _ _ Hio).
  - cbn. lia.
  - rewrite length_drop. lia.
  - rewrite length_drop. lia.
  - cbn [length] in E. rewrite (bind_done _ _ _ _ _ E). exists k'. split; [done|].
    split; [done|]. split; [done|]. split; [done|]. by eapply locals_only_trans.
Qed.

(** The commands: [clear] clears the screen; [exec] runs [execve] on
    [/bin/init], whose failure, as when the ramdisk does not have it, is reported;
    every other line, the empty one included, returns with only console output. *)
Theorem run_command_dispatches fuel k l :
  cstring (k_mem k) cmd l → cstring (k_mem k) init_path (cstr "/bin/init") → (length l < 128)%nat → (128 ≤ fuel)%nat →
  if decide (l = cstr "clear") then run_command fuel k = screen_clear k
  else if decide (l = cstr "exec") then
    (ramdisk_find 8 0 (k_mem k) init_path (k_sys k) = None →
       ∃ k', run_command fuel k = Done tt k' ∧ same_but_console k k') ∧
    ∀ k', sys_execve fuel init_path init_argv NULL k = Done 0 k' → run_command fuel k = Done tt k'
  else ∃ k', run_command fuel k = Done tt k' ∧ same_but_console k k'.
Proof.
  intros Hl Hinit Hl128 Hfuel.
  assert (Hf : (length l < fuel)%nat) by lia. assert (Hf9 : (length (cstr "/bin/init") < fuel)%nat) by (change (9 < fuel)%nat; lia).
  unfold run_command. rewrite bind_gets.
  rewrite (str_is_run _ _ l (cstr "help")), (str_is_run _ _ l (cstr "clear")), (str_is_run _ _ l (cstr "exec"))
    by (done || (repeat constructor)).
  destruct (decide (l = cstr "clear")) as [->|Hclear]; [done|].
  destruct (decide (l = cstr "exec")) as [->|Hexec].
  { change (bool_decide (cstr "exec" = cstr "help")) with false.
    change (bool_decide (cstr "exec" = cstr "clear")) with false.
    change (bool_decide (cstr "exec" = cstr "exec")) with true. cbv iota. split.
    - intros Hnone. destruct (execve_unknown_run fuel k init_path init_argv NULL _ Hinit Hf9 Hnone) as (k1 & E & Hk1).
      rewrite (bind_done _ _ _ _ _ E). cbn [Z.eqb negb].
      match goal with |- context [?c k1 = Done _ _] => destruct (prints_same c k1) as (k2 & E2 & Hk2) end.
      rewrite E2. exists k2. split; [done|]. by etrans.
    - intros k' E. by rewrite (bind_done _ _ _ _ _ E). }
  rewrite (bool_decide_eq_false_2 _ Hclear), (bool_decide_eq_false_2 _ Hexec).
  destruct (bool_decide (l = cstr "help")).
  - apply prints_same. apply _.
  - assert (En : ∃ b, nonempty fuel k = Done b k)
      by (unfold nonempty; rewrite (strlen_run _ _ _ l) by (done || lia); by eexists).
    destruct En as [b En]. rewrite (bind_done _ _ _ _ _ En). destruct b; [|by exists k].
    print_step. destruct (putstr_at_run fuel cmd l (with_console s io k)) as (s2 & io2 & E2); [done|done|].
    rewrite (bind_done _ _ _ _ _ E2).
    destruct (prints_same (screen_putstr [10]) (with_console s2 io2 (with_console s io k))) as (k2 & -> & Hk2).
    exists k2. split; [done|]. etrans; [|exact Hk2].
    exact (transitivity (same_but_console_with s io k) (same_but_console_with s2 io2 _)).
Qed.

End Properties.

(** ** Witnesses *)

Definition frame0 : ConsoleFrame := {| cmd := 0x5000; c_at := 0x6000; init_path := 0x200000; init_argv := 0x6100 |}.

Lemma frame0_ok : @frame_ok frame0.
Proof. unfold frame_ok, in_space, frame0, cmd, c_at. lia. Qed.

(** "hi", a release and Backspace in between, Enter, and one more key. *)
Definition typed_line : list Z := [0x23; 0xA3; 0x0E; 0x17; 0x1C; 0x1E].

Lemma console_round_reads_witness :
  ∃ k', @console_round (typing typed_line) alloc_frame_allocator frame0 6 6 kernel_bss =
      @run_command alloc_frame_allocator frame0 6 k' ∧
    cstring (k_mem k') 0x5000 (cstr "hi").
Proof.
  destruct (@console_round_reads (typing typed_line) alloc_frame_allocator frame0 typed_line 6 6 (cstr "hi") [0x1E]
    kernel_bss) as (k' & E & Hc & _).
  - apply typing_keyboard. refine (bool_decide_unpack _ _). reflexivity.
  - exact frame0_ok.
  - reflexivity.
  - cbn. lia.
  - cbn. lia.
  - exists k'. split; [exact E|exact Hc].
Defined.

(** The path in memory, and nothing in the ramdisk. *)
Definition shell0 : kernel := set_mem (poke (poke ∅ 0x200000 (cstr "/bin/init")) 0x5000 (cstr "exec")) kernel_bss.

Lemma run_command_dispatches_witness :
  ∃ k', @run_command alloc_frame_allocator frame0 128 shell0 = Done tt k' ∧ same_but_console shell0 k'.
Proof.
  pose proof (@run_command_dispatches alloc_frame_allocator frame0 128 shell0 (cstr "exec")) as H.
  destruct (H ltac:(vm_compute; repeat split) ltac:(vm_compute; repeat split)
    ltac:(vm_compute; lia) ltac:(lia)) as [Hnone _].
  apply Hnone. reflexivity.
Defined.
