(* ===== verification/Kernel.v ===== *)
(** * The kernel's entry (kernel/kernel.c)

    [kernel_main] starts the components in order, creates the first process and
    enters the console.  The functions it calls that no file defines are the class
    [BootEnv], with the fields of the multiboot record and the stack that
    [create_process] is not given.  [init_scheduler] and [add_to_ready_queue] are
    defined twice, in [process.c] and in [scheduler.c]: the interface [Scheduling]
    has an instance for each. *)

From S2P Require Import Prelude Memory Types Machine Mmu Screen Pmm Kheap Paging Interrupts Process Scheduler Device Syscall Fs Ata Console.
Import ScreenH.

Class BootEnv := {
  show_banner : K unit;
  detect_memory : K unit;
  init_console : K unit;
  console_prompt : K unit;
  mem_upper : mem → Z → Z;
  mem_lower : mem → Z → Z;
  map_kernel_page : Z → Z → Z → K unit;
  shell_stack : Z }.

Class Scheduling := {
  init_scheduler : K unit;
  add_to_ready_queue : nat → option nat → K unit }.

(** [process.c], lines 184-210: a placeholder and the queue of [process.c]. *)
Definition process_scheduling : Scheduling := {|
  init_scheduler := ret tt;
  add_to_ready_queue := Process.add_to_ready_queue |}.

Definition scheduler_scheduling : Scheduling := {|
  init_scheduler := Scheduler.init_scheduler;
  add_to_ready_queue _ := Scheduler.add_to_ready_queue |}.

Section Boot.
Context `{Hardware, WordPorts, Stubs, Drivers, PageAllocator, ConsoleFrame, BootEnv, Scheduling}.

Definition show_sysinfo : K unit :=
  screen_setcolor COLOR_LIGHT_GREY COLOR_BLACK ;;;
  screen_putstr (cstr "System Information:" ++ [10]) ;;;
  screen_putstr (cstr "-------------------" ++ [10]) ;;;
  let* info := get_pmm_info true in
  screen_putstr (cstr "Memory: ") ;;;
  screen_putdec (default 0 (PmmH.info_total_memory <$> info) / 1024 / 1024) ;;;
  screen_putstr (cstr " MB total, ") ;;;
  screen_putdec (u32 (default 0 (PmmH.info_free_pages <$> info) * PmmH.PAGE_SIZE) / 1024) ;;;
  screen_putstr (cstr " KB free" ++ [10]) ;;;
  let* current := get_current_process in
  (match current with
   | None => ret tt
   | Some c =>
       let* s := gets k_proc in
       screen_putstr (cstr "Current process: ") ;;;
       screen_putstr (ProcessH.name (pcb (ProcessH.process_table s) c)) ;;;
       screen_putstr (cstr " (PID=") ;;;
       screen_putdec (ProcessH.pid (pcb (ProcessH.process_table s) c)) ;;;
       screen_putstr (cstr ")" ++ [10])
   end) ;;;
  screen_putstr (cstr "Uptime: ") ;;;
  let* ms := get_time_ms in
  screen_putdec (ms / 1000) ;;;
  screen_putstr (cstr " seconds" ++ [10]) ;;;
  screen_putstr (cstr "System calls: ") ;;;
  screen_putdec 20 ;;;
  screen_putstr (cstr " registered" ++ [10]) ;;;
  screen_putstr (cstr "Devices: 3 registered (console, null, zero)" ++ [10]) ;;;
  screen_putstr ([10] ++ cstr "Type 'help' for available commands" ++ [10]) ;;;
  console_prompt.

(** Lines 24-31. *)
Definition boot_memory (kb : Z) : K unit :=
  init_pmm kb ;;;
  init_paging ;;;
  init_kheap map_kernel_page 0xE0000000 0x10000000.

(** Lines 33-60. *)
Definition boot_subsystems (fuel : nat) : K unit :=
  screen_putstr [10] ;;;
  init_idt ;;;
  init_pic ;;;
  init_timer 100 ;;;
  init_devices fuel ;;;
  init_fs fuel ;;;
  init_ata fuel ;;;
  init_console ;;;
  init_syscalls ;;;
  init_process_manager ;;;
  init_scheduler.

(** Lines 68-75. *)
Definition boot_shell (fuel : nat) : K unit :=
  let* shell_proc := create_process fuel (cstr "shell") 0x400000 shell_stack in
  match shell_proc with
  | None => ret tt
  | Some i =>
      let* s := gets k_proc in
      screen_putstr (cstr "Created shell process (PID=") ;;;
      screen_putdec (ProcessH.pid (pcb (ProcessH.process_table s) i)) ;;;
      screen_putstr (cstr ")" ++ [10]) ;;;
      add_to_ready_queue fuel (Some i)
  end.

(** [while (1) console_process();] and its delay, which has no effect. *)
Fixpoint console_forever (n rounds fuel : nat) : K unit :=
  match n with
  | O => spin
  | S n => console_process n rounds fuel ;;; console_forever n rounds fuel
  end.

(** [sti] changes no modelled state. *)
Definition kernel_main (n rounds fuel : nat) (mbi magic : Z) : K unit :=
  screen_init ;;;
  screen_clear ;;;
  if negb (magic =? 0x2BADB002) then
    screen_setcolor COLOR_LIGHT_RED COLOR_BLACK ;;;
    screen_putstr (cstr "ERROR: Invalid multiboot magic number: ") ;;;
    screen_puthex magic ;;;
    screen_putstr [10]
  else
    show_banner ;;;
    detect_memory ;;;
    let* m := gets k_mem in
    boot_memory (u32 (mem_upper m mbi + mem_lower m mbi)) ;;;
    boot_subsystems fuel ;;;
    screen_setcolor COLOR_LIGHT_GREEN COLOR_BLACK ;;;
    screen_putstr ([10] ++ cstr "All subsystems initialized successfully!" ++ [10]) ;;;
    boot_shell fuel ;;;
    screen_setcolor COLOR_LIGHT_CYAN COLOR_BLACK ;;;
    screen_putstr ([10] ++ cstr "========================================" ++ [10]) ;;;
    screen_putstr (cstr "  Helios OS v0.1.0 - Ready" ++ [10]) ;;;
    screen_putstr (cstr "========================================" ++ [10; 10]) ;;;
    show_sysinfo ;;;
    console_forever n rounds fuel.

End Boot.

(** ** Returning *)

Definition never_returns {A} (c : K A) : Prop := ∀ k a k', c k ≠ Done a k'.

Lemma never_bind {A B} (c : K A) (f : A → K B) : (∀ a, never_returns (f a)) → never_returns (bind c f).
Proof. intros Hf k b k' (a & k1 & _ & E)%bind_done_inv. by apply Hf in E. Qed.

Lemma never_bind_first {A B} (c : K A) (f : A → K B) : never_returns c → never_returns (bind c f).
Proof. intros Hc k b k' (a & k1 & E & _)%bind_done_inv. by apply Hc in E. Qed.

Section Properties.
Context `{Hardware, WordPorts, Stubs, Drivers, PageAllocator, ConsoleFrame, BootEnv, Scheduling}.

Lemma console_process_never n rounds fuel : never_returns (console_process n rounds fuel).
Proof.
  unfold console_process. do 2 (apply never_bind; intros _).
  induction n as [|n IH]; [by intros k a k'|]. cbn [console_loop]. by apply never_bind.
Qed.

(** Started with a wrong magic number [kernel_main] returns, having changed
    nothing but the console; started by a multiboot loader it never returns,
    whatever the missing parts of the kernel do. *)
Theorem kernel_main_returns n rounds fuel mbi magic k :
  if decide (magic = 0x2BADB002)
  then ∀ r k', kernel_main n rounds fuel mbi magic k ≠ Done r k'
  else ∃ k', kernel_main n rounds fuel mbi magic k = Done tt k' ∧ same_but_console k k'.
Proof.
  case_decide as Hm.
  - subst magic. intros r k'. revert k r k'. change (never_returns (kernel_main n rounds fuel mbi 0x2BADB002)).
    unfold kernel_main. do 2 (apply never_bind; intros _). cbn [Z.eqb Pos.eqb negb].
    do 2 (apply never_bind; intros _). apply never_bind; intros m. do 10 (apply never_bind; intros _).
    destruct n as [|n]; cbn [console_forever]; [by intros k a k'|]. apply never_bind_first, console_process_never.
  - unfold kernel_main. rewrite (proj2 (Z.eqb_neq _ _) Hm). cbn [negb]. apply prints_same. apply _.
Qed.

End Properties.

(** ** The start of memory management *)

Section Memory.
Context `{Hardware, WordPorts, Stubs, Drivers, ConsoleFrame, BootEnv, Scheduling}.

(** The page allocator and paging, in this order, with a frame to spare. *)
Lemma boot_paging_run kb k :
  reserved_pages kb < machine_pages kb → active_dir (k_paging k) = PagingH.pd_kernel →
  ∃ k1 t, (init_pmm kb ;;; init_paging) k = Done tt k1 ∧ paging_ok k1 ∧
    t ≠ NULL ∧ t mod 4096 = 0 ∧ k_paging k1 = identity_state t (k_paging k).
Proof.
  intros Hkb Hact. destruct (init_pmm_run kb k) as (s & io & E1). rewrite (bind_done _ _ _ _ _ E1).
  set (k1 := with_console _ _ _).
  destruct (init_pmm_inv kb (k_pmm k)) as [Hinv Hset]; [lia|].
  assert (Hpa : pa_inv k1).
  { split; [done|]. cbn. rewrite Hset. unfold reserved_pages. pose proof (machine_pages_range kb) as Hr.
    pose proof (bitmap_pages_range _ Hr). lia. }
  destruct (init_paging_run k1 Hpa Hact) as (k2 & E2 & _ & [(Hno & _)|(t & Ht & Hal & Hok & Hp & _)]).
  - destruct (Hno (reserved_pages kb * PmmH.PAGE_SIZE)). exists (reserved_pages kb). split; [|done].
    cbn. rewrite Hset. lia.
  - by exists k2, t.
Qed.

(** Everything from 4 MB up is unmapped then. *)
Lemma identity_unmapped t s k a :
  active_dir s = PagingH.pd_kernel → t ≠ NULL → t mod 4096 = 0 → k_paging k = identity_state t s →
  0x400000 ≤ a < 4294967296 → phys k a = None.
Proof.
  intros Hact Ht Hal Hk Ha. unfold phys. rewrite Hk, u32_small by lia.
  destruct (identity_view (λ _, False) t s Hact Ht Hal (λ x, x)) as [_ ->]; [|lia].
  by rewrite (proj2 (Z.ltb_ge _ _)) by lia.
Qed.

(** C18: The kernel does not survive the start of its memory management.  On a machine
    with a frame to spare the page allocator and paging are set up in this order and
    their invariants hold together: the frames that are left are in no use by the page
    tables, which are well formed.  But only the low 4 MB are mapped then, so
    [init_kheap] is a page fault for every start address from 4 MB up, before it
    asks for a single page to be mapped and whatever its missing mapper does;
    [boot_memory] passes 0xE0000000, and [kernel_main], started by a multiboot
    loader, ends in that fault. *)
Theorem boot_memory_faults kb k :
  reserved_pages kb < machine_pages kb → active_dir (k_paging k) = PagingH.pd_kernel →
  (∃ k1, (init_pmm kb ;;; init_paging) k = Done tt k1 ∧ paging_ok k1 ∧
    ∀ start size, 0x400000 ≤ start < 4294967296 → init_kheap map_kernel_page start size k1 = Fault) ∧
  boot_memory kb k = Fault ∧
  ∀ n rounds fuel mbi k0,
    (screen_init ;;; screen_clear ;;; show_banner ;;; detect_memory) k0 = Done tt k →
    kb = u32 (mem_upper (k_mem k) mbi + mem_lower (k_mem k) mbi) →
    kernel_main n rounds fuel mbi 0x2BADB002 k0 = Fault.
Proof.
  intros Hkb Hact. destruct (boot_paging_run kb k Hkb Hact) as (k1 & t & E & Hok & Ht & Hal & Hp).
  assert (Hf : ∀ start size, 0x400000 ≤ start < 4294967296 → init_kheap map_kernel_page start size k1 = Fault).
  { intros start size Hs. apply init_kheap_faults. by eapply identity_unmapped. }
  assert (Hb : boot_memory kb k = Fault).
  { unfold boot_memory. rewrite <- bind_assoc. rewrite (bind_done _ _ _ _ _ E). by apply Hf. }
  split; [by exists k1|]. split; [done|]. intros n rounds fuel mbi k0 E0 ->.
  unfold kernel_main. cbn [Z.eqb Pos.eqb negb].
  apply bind_done_inv in E0 as ([] & ka & Ea & E0). rewrite (bind_done _ _ _ _ _ Ea).
  apply bind_done_inv in E0 as ([] & kb & Eb & E0). rewrite (bind_done _ _ _ _ _ Eb).
  apply bind_done_inv in E0 as ([] & kc & Ec & E0). rewrite (bind_done _ _ _ _ _ Ec).
  rewrite (bind_done _ _ _ _ _ E0), bind_gets. unfold bind at 1. by rewrite Hb.
Qed.

End Memory.

(** ** Witness: a machine with 4 MB *)

Definition boot0 : BootEnv := {|
  show_banner := ret tt; detect_memory := ret tt; init_console := ret tt; console_prompt := ret tt;
  mem_upper _ _ := 3072; mem_lower _ _ := 1024; map_kernel_page _ _ _ := ret tt; shell_stack := 0x500000 |}.

Lemma boot_memory_faults_witness :
  @kernel_main ready_disk ready_words stubs0 no_drivers alloc_frame_allocator frame0 boot0 process_scheduling
    1 1 1 0 0x2BADB002 kernel_bss = Fault.
Proof.
  assert (HP : Prints (screen_init ;;; screen_clear ;;; @show_banner boot0 ;;; @detect_memory boot0))
    by (change (@show_banner boot0) with (ret tt : K unit); change (@detect_memory boot0) with (ret tt : K unit); apply _).
  destruct (HP kernel_bss) as (s & io & E & _).
  refine (proj2 (proj2 (@boot_memory_faults ready_disk ready_words stubs0 no_drivers frame0 boot0
    process_scheduling 4096 (with_console s io kernel_bss) _ _)) 1%nat 1%nat 1%nat 0 kernel_bss E _).
  - vm_compute. reflexivity.
  - reflexivity.
  - reflexivity.
Defined.
