(* ===== verification/Boot.v ===== *)
(** * The boot entry (boot/boot.asm)

    The multiboot header and [_start], which the loader enters with the magic number in
    EAX and the address of its record in EBX, on the processor of [Asm].  The end of the
    stack, 16 KB of bss, is the linker's choice. *)

From S2P Require Import Prelude Memory Types Machine Screen Pmm Paging Interrupts Process Device Syscall Ata Console Kernel Asm.

(** ** The multiboot header *)

Definition MBALIGN : Z := Z.shiftl 1 0.
Definition MEMINFO : Z := Z.shiftl 1 1.
Definition FLAGS : Z := Z.lor MBALIGN MEMINFO.
Definition MAGIC : Z := 0x1BADB002.
Definition CHECKSUM : Z := u32 (- (MAGIC + FLAGS)).

Definition multiboot_header : list Z := [MAGIC; FLAGS; CHECKSUM].

(** ** The entry *)

Section Start.
Context `{Hardware, WordPorts, Stubs, Drivers, PageAllocator, ConsoleFrame, BootEnv, Scheduling, CallAbi}.
Variable stack_top : Z.

(** [call kernel_main] with its two parameters on the stack. *)
Definition call_kernel_main (n rounds fuel : nat) : instr := λ c,
  let* c1 := push_val link c in
  let* mbi := load32 (c_esp c1 + 4) in
  let* magic := load32 (c_esp c1 + 8) in
  kernel_main n rounds fuel mbi magic ;;;
  let* k := gets (λ k, k) in
  ret (set_flags (with_bits STATUS (left_status k) (c_eflags c))
    (set_reg EAX (left_eax k) (set_reg ECX (left_ecx k) (set_reg EDX (left_edx k) c)))).

(** Up to [.hang], where the processor halts with interrupts off, for ever. *)
Definition start (n rounds fuel : nat) : instr :=
  run [λ c, ret (set_reg ESP stack_top c); push EAX; push EBX; call_kernel_main n rounds fuel; CLI].

(** The stack that [kernel_main] finds: the magic number and the record as arguments. *)
Definition main_stack (c : cpu) (m : mem) : mem := pushed m stack_top [c_eax c; c_ebx c; link].

Lemma start_run n rounds fuel c k :
  words c → 12 ≤ stack_top < 4294967296 →
  ∃ f, (∀ k', Z.testbit (c_eflags (f k')) 9 = false ∧ c_esp (f k') = stack_top - 8) ∧
    start n rounds fuel c k =
    (kernel_main n rounds fuel (c_ebx c) (c_eax c) ;;; let* k := gets (λ k, k) in ret (f k))
      (set_mem (main_stack c (k_mem k)) k).
Proof.
  intros Hc Hs. pose proof (wo_regs c Hc EAX) as Ha. pose proof (wo_regs c Hc EBX) as Hb. cbn in Ha, Hb.
  set (c2 := set_reg ESP (stack_top - 8) c).
  exists (λ k, set_flags (with_bits 0x200 0 (with_bits STATUS (left_status k) (c_eflags c)))
    (set_reg EAX (left_eax k) (set_reg ECX (left_ecx k) (set_reg EDX (left_edx k) c2)))). split.
  { intros k'. split; [|by destruct c]. destruct c. apply cli_if. }
  unfold start. rewrite run_ret. rewrite <- (set_mem_id k) at 1.
  destruct c as [a cx d b sp bp si di ip fl dir cs ds es fs gs]. cbn [c_eax c_ebx] in *.
  do 2 (rewrite run_push by (cbn; lia); cbn [set_reg c_esp get_reg c_eax c_ebx]).
  rewrite run_cons. unfold call_kernel_main, push_val, store32, load32.
  cbn [c_esp set_reg]. rewrite u32_small by lia. rewrite !bind_assoc, bind_modify, bind_ret, !bind_assoc, bind_gets.
  rewrite bind_assoc, bind_gets. cbn [k_mem set_mem c_esp].
  change (set_mem ?m1 (set_mem ?m2 k)) with (set_mem m1 k).
  change (st32 (st32 (st32 ?m _ _) _ _) _ link) with (main_stack (mk_cpu a cx d b sp bp si di ip fl dir cs ds es fs gs) m).
  set (m := main_stack _ _).
  assert (El : ∀ i v, [a; b; link] !! i = Some v → 0 ≤ v < 4294967296 →
    ld32 m (stack_top - 4 * (Z.of_nat i + 1)) = v).
  { intros i v Hi Hv. subst m. unfold main_stack. cbn [c_eax c_ebx].
    apply (frame_word _ _ _ i); [done|cbn; lia|done|done]. }
  replace (stack_top - 4 - 4 - 4 + 4) with (stack_top - 4 * (Z.of_nat 1 + 1)) by lia.
  replace (stack_top - 4 - 4 - 4 + 8) with (stack_top - 4 * (Z.of_nat 0 + 1)) by lia.
  rewrite (El 1%nat b), (El 0%nat a) by done. rewrite bind_assoc.
  apply bind_ext. intros [] k' _. rewrite bind_assoc, !bind_gets, bind_ret.
  replace (stack_top - 4 - 4) with (stack_top - 8) by lia. unfold CLI. by rewrite run_ret.
Qed.

(** The loader's registers reach [kernel_main]: with the multiboot magic number in EAX
    the kernel is started on the record at EBX and never comes back; with any other
    value the error is printed, nothing but the console and 12 bytes of stack has
    changed, and the processor stops with interrupts off. *)
Theorem start_runs_kernel n rounds fuel c k :
  words c → 12 ≤ stack_top < 4294967296 →
  if decide (c_eax c = 0x2BADB002) then ∀ c' k', start n rounds fuel c k ≠ Done c' k'
  else ∃ c' k', start n rounds fuel c k = Done c' k' ∧ Z.testbit (c_eflags c') 9 = false ∧
    same_but_console (set_mem (main_stack c (k_mem k)) k) k'.
Proof.
  intros Hc Hs. destruct (start_run n rounds fuel c k Hc Hs) as (f & Hf & E).
  pose proof (kernel_main_returns n rounds fuel (c_ebx c) (c_eax c) (set_mem (main_stack c (k_mem k)) k)) as M.
  case_decide.
  - intros c' k'. rewrite E. intros (r & k1 & E1 & _)%bind_done_inv. by apply M in E1.
  - destruct M as (k1 & E1 & Hsame). exists (f k1), k1. rewrite E, (bind_done _ _ _ _ _ E1).
    split; [done|]. split; [apply Hf|done].
Qed.

End Start.

(** The three words of the header add up to 0, as the loader requires. *)
Lemma header_checksum : u32 (foldr Z.add 0 multiboot_header) = 0.
Proof. reflexivity. Qed.
