(* ===== verification/User.v ===== *)
(** * The user programs (user/init.c, user/shell.c, user/test.c)

    The three programs as interaction trees over the system calls, run against the
    modelled kernel.  The addresses of string literals and of locals in memory are
    the compiler's: the class [UserFrame].  What a program shows is compared with a
    transcript, a list of characters, by what the characters make of the screen. *)

From S2P Require Import Prelude Memory Types Machine Screen Pmm Paging Interrupts Process Device Cstring Syscall Userland Console.
From ITree Require Import Core.ITreeDefinition.
Import ScreenH ProcessH InterruptH SyscallH.

(** ** The calls, by the prototypes of include/syscall.h *)

Definition sys_exit (exit_code : Z) : program Z := ITree.trigger (Sys h_sys_exit exit_code 0 0).
Definition sys_fork : program Z := ITree.trigger (Sys h_sys_fork 0 0 0).
Definition sys_read (fd buf count : Z) : program Z := ITree.trigger (Sys h_sys_read fd buf count).
Definition sys_write (fd buf count : Z) : program Z := ITree.trigger (Sys h_sys_write fd buf count).
Definition sys_open (path flags mode : Z) : program Z := ITree.trigger (Sys h_sys_open path flags mode).
Definition sys_close (fd : Z) : program Z := ITree.trigger (Sys h_sys_close fd 0 0).
Definition sys_waitpid (pid status options : Z) : program Z := ITree.trigger (Sys h_sys_waitpid pid status options).
Definition sys_getpid : program Z := ITree.trigger (Sys h_sys_getpid 0 0 0).
Definition sys_sleep (milliseconds : Z) : program Z := ITree.trigger (Sys h_sys_sleep milliseconds 0 0).
Definition sys_gettime : program Z := ITree.trigger (Sys h_sys_gettime 0 0 0).
Definition sys_yield : program Z := ITree.trigger (Sys h_sys_yield 0 0 0).
Definition sys_sbrk (increment : Z) : program Z := ITree.trigger (Sys h_sys_sbrk increment 0 0).

(** [include/fs.h], line 35 *)
Definition O_RDWR : Z := 0x0002.

(** The string literals, by their contents, and the locals of the programs that
    have an address. *)
Class UserFrame := {
  lit : list Z → Z;
  shell_buf : Z;
  test_buf : Z;
  test_status : Z;
  test_msg : Z;
  test_hex : Z }.

#[local] Open Scope user_scope.

(** [for (int i = 0; i < n; i++) body(i)], with early exit on [false]; whether it ran
    to the end. *)
Fixpoint for_to (n : nat) (i : Z) (body : Z → program bool) : program bool :=
  match n with
  | O => Ret true
  | S n => let* ok := body i in if ok : bool then for_to n (i + 1) body else Ret false
  end.

(** Storing the bytes of an initialiser. *)
Fixpoint store_bytes (a : Z) (l : list Z) : program unit :=
  match l with
  | [] => Ret tt
  | c :: l => ITree.trigger (Store8 a c) ;;; store_bytes (a + 1) l
  end.

Section Programs.
Context `{UserFrame}.

(** [sys_write(1, s, n)] of a literal. *)
Definition say (s : list Z) (n : Z) : program Z := sys_write 1 (lit s) n.

(** ** user/init.c *)

Definition init_body (_ : unit) : program (unit + unit) := sys_yield ;;; Ret (inl tt).
Definition init_loop : program unit := ITree.iter init_body tt.

Definition init_start : program unit :=
  say (cstr "Init process is running!" ++ [10]) 25 ;;;
  init_loop.

(** ** user/shell.c *)

(** One round of the loop, lines 10-16; [char] is signed. *)
Definition shell_round : program unit :=
  let* n := sys_read 0 shell_buf 1 in
  (if 0 <? n then
     sys_write 1 shell_buf 1 ;;;
     let* c := ITree.trigger (Load8 shell_buf) in
     if s8 c =? 10 then say (cstr "Shell> ") 7 ;;; Ret tt else Ret tt
   else Ret tt) ;;;
  sys_yield ;;;
  Ret tt.

Definition shell_body (_ : unit) : program (unit + unit) := shell_round ;;; Ret (inl tt).
Definition shell_loop : program unit := ITree.iter shell_body tt.

Definition shell_start : program unit :=
  say (cstr "Shell> ") 7 ;;;
  shell_loop.

(** ** user/test.c *)

(** [do { buf[len++] = '0' + (n % 10); n /= 10; } while (n > 0);] *)
Definition digits_body (s : Z * Z) : program (Z * Z + Z) :=
  let '(len, n) := s in
  ITree.trigger (Store8 (test_buf + len) (48 + Z.rem n 10)) ;;;
  let len := len + 1 in
  let n := Z.quot n 10 in
  Ret (if 0 <? n then inl (len, n) else inr len).

Definition digits_loop (n : Z) : program Z := ITree.iter digits_body (0, n).

(** [for (int i = len - 1; i >= 0; i--) sys_write(1, &buf[i], 1);] *)
Definition print_body (i : Z) : program (Z + unit) :=
  if 0 <=? i then sys_write 1 (test_buf + i) 1 ;;; Ret (inl (i - 1)) else Ret (inr tt).

Definition print_back (len : Z) : program unit := ITree.iter print_body (len - 1).

Definition show_number (n : Z) : program unit := let* len := digits_loop n in print_back len.

(** Lines 10-25. *)
Definition test_getpid : program unit :=
  say (cstr "1. Testing getpid()... ") 23 ;;;
  let* pid := sys_getpid in
  say (cstr "PID=") 4 ;;;
  show_number pid ;;;
  say [10] 1 ;;;
  Ret tt.

(** Lines 31-48. *)
Definition test_child : program unit :=
  say (cstr "  Child process running" ++ [10]) 24 ;;;
  say (cstr "  Child PID: ") 13 ;;;
  let* pid := sys_getpid in
  show_number pid ;;;
  say [10] 1 ;;;
  say (cstr "  Child exiting" ++ [10]) 16 ;;;
  sys_exit 0 ;;;
  Ret tt.

(** Lines 50-65. *)
Definition test_parent (child : Z) : program unit :=
  say (cstr "  Parent waiting for child..." ++ [10]) 30 ;;;
  sys_waitpid child test_status 0 ;;;
  say (cstr "  Child exited with status: ") 28 ;;;
  let* status := ITree.trigger (Load32 test_status) in
  show_number (s32 status) ;;;
  say [10] 1 ;;;
  Ret tt.

(** Lines 28-68. *)
Definition test_fork : program unit :=
  say (cstr "2. Testing fork()..." ++ [10]) 21 ;;;
  let* child := sys_fork in
  if child =? 0 then test_child
  else if 0 <? child then test_parent child
  else say (cstr "  Fork failed" ++ [10]) 14 ;;; Ret tt.

(** Lines 71-87. *)
Definition test_sleep : program unit :=
  say (cstr "3. Testing sleep()..." ++ [10]) 22 ;;;
  let* start := sys_gettime in
  sys_sleep 1000 ;;;
  let* end_ := sys_gettime in
  say (cstr "  Slept for ") 12 ;;;
  show_number (s32 (end_ - start)) ;;;
  say (cstr " ms" ++ [10]) 4 ;;;
  Ret tt.

Definition hello : list Z := cstr "  Hello from test program!" ++ [10].

(** Lines 90-115. *)
Definition test_files : program unit :=
  say (cstr "4. Testing file I/O..." ++ [10]) 23 ;;;
  let* fd := sys_open (lit (cstr "/dev/tty")) O_RDWR 0 in
  if 0 <=? fd then
    say (cstr "  Opened /dev/tty, fd=") 22 ;;;
    show_number fd ;;;
    say [10] 1 ;;;
    store_bytes test_msg (hello ++ [0]) ;;;
    sys_write fd test_msg (28 - 1) ;;;
    sys_close fd ;;;
    say (cstr "  Closed file" ++ [10]) 14 ;;;
    Ret tt
  else
    say (cstr "  Failed to open file" ++ [10]) 22 ;;;
    Ret tt.

Definition hex_digits : list Z := cstr "0123456789ABCDEF".

Definition hex_body (addr i : Z) : program (Z + unit) :=
  if 0 <=? i
  then sys_write 1 (test_hex + Z.land (Z.shiftr addr (i * 4)) 0xF) 1 ;;; Ret (inl (i - 1))
  else Ret (inr tt).

(** Lines 125-129. *)
Definition show_address (addr : Z) : program unit :=
  store_bytes test_hex (hex_digits ++ [0]) ;;;
  ITree.iter (hex_body addr) 7.

Definition fill_body (ptr i : Z) : program bool := ITree.trigger (Store32 (ptr + 4 * i) i) ;;; Ret true.
Definition check_body (ptr i : Z) : program bool :=
  let* v := ITree.trigger (Load32 (ptr + 4 * i)) in Ret (s32 v =? i).

(** Lines 118-153. *)
Definition test_memory : program unit :=
  say (cstr "5. Testing memory allocation..." ++ [10]) 32 ;;;
  let* r := sys_sbrk 1024 in
  let ptr := u32 r in
  if negb (ptr =? 0xFFFFFFFF) then
    say (cstr "  Allocated 1KB at ") 19 ;;;
    show_address ptr ;;;
    say [10] 1 ;;;
    for_to 256 0 (fill_body ptr) ;;;
    let* ok := for_to 256 0 (check_body ptr) in
    (if ok : bool then say (cstr "  Memory test passed" ++ [10]) 21
     else say (cstr "  Memory test failed" ++ [10]) 21) ;;;
    Ret tt
  else
    say (cstr "  sbrk failed" ++ [10]) 14 ;;;
    Ret tt.

Definition test_start : program unit :=
  say ([10] ++ cstr "=== System Test Program ===" ++ [10]) 28 ;;;
  test_getpid ;;;
  test_fork ;;;
  test_sleep ;;;
  test_files ;;;
  test_memory ;;;
  say ([10] ++ cstr "=== All tests completed ===" ++ [10]) 29 ;;;
  sys_exit 0 ;;;
  Ret tt.

End Programs.

(** ** What a program shows *)

Lemma write_loop_wrote l : ∀ p k i,
  stored (k_mem k) (p + i) l →
  ∃ k', for_list (seqZ i (Z.of_nat (length l))) (λ i, bind (load8 (p + i)) screen_putchar) k = Done tt k' ∧
    wrote l k k'.
Proof.
  induction l as [|c l IH]; intros p k i Hl.
  - exists k. split; [done|apply wrote_nil].
  - cbn [length]. rewrite seqZ_cons by lia. cbn [for_list].
    replace (Z.pred (Z.of_nat (S (length l)))) with (Z.of_nat (length l)) by lia.
    rewrite bind_assoc. unfold load8 at 1. rewrite bind_gets.
    pose proof (Hl 0%nat c eq_refl) as Hc. rewrite Z.add_0_r in Hc. rewrite Hc.
    destruct (putchar_wrote c k) as (k1 & E1 & H1). rewrite (bind_done _ _ _ _ _ E1).
    destruct (IH p k1 (Z.succ i)) as (k' & E & H2).
    { destruct H1 as (io & -> & _). cbn. intros j c' Hj. rewrite <- (Hl (S j) c' Hj). f_equal. lia. }
    exists k'. split; [done|]. by apply (wrote_trans [c] _ _ k1).
Qed.

Lemma stored_u32 m p l : stored m (u32 p) l ↔ stored m p l.
Proof.
  unfold stored. split; intros Hl j c Hj; rewrite <- (Hl j c Hj); unfold ld8;
    [by rewrite <- u32_add_l|by rewrite u32_add_l].
Qed.

Section Showing.
Context `{Hardware, PageAllocator}.
Context (fuel depth : nat).
Abbreviation ends := (ends (direct fuel depth)).

(** Writing the bytes [l] to the console. *)
Lemma write_direct p l k :
  stored (k_mem k) p l → Z.of_nat (length l) < 2147483648 →
  ∃ k', direct fuel depth h_sys_write 1 p (Z.of_nat (length l)) k = Done (Z.of_nat (length l)) k' ∧ wrote l k k'.
Proof.
  intros Hl Hn. destruct (write_loop_wrote l (u32 p) k 0) as (k' & E & Hw).
  { rewrite Z.add_0_r. by apply stored_u32. }
  exists k'. split; [|done]. unfold direct, Syscall.sys_write. rewrite u32_small by lia.
  change (s32 1 =? 1) with true. cbn [orb]. rewrite bind_assoc, (bind_done _ _ _ _ _ E), bind_ret.
  unfold ret. by rewrite s32_idemp, s32_small by lia.
Qed.

Lemma ends_write {A} p l f k (Q : A → kernel → Prop) :
  stored (k_mem k) p l → Z.of_nat (length l) < 2147483648 →
  (∀ k', wrote l k k' → ends (f (Z.of_nat (length l))) k' Q) →
  ends (ITree.bind (sys_write 1 p (Z.of_nat (length l))) f) k Q.
Proof.
  intros Hl Hn HQ. destruct (write_direct p l k Hl Hn) as (k' & E & Hw).
  by apply ends_bind, (ends_trigger _ _ (Z.of_nat (length l)) _ k'); [|by apply HQ].
Qed.

End Showing.

(** ** The state between two calls *)

Section State.
Context (regions : list (Z * Z)).

(** [regions] is the memory a program may write to, by start and length. *)
Definition outside (a : Z) : Prop := Forall (λ r, a < r.1 ∨ r.1 + r.2 ≤ a) regions.

(** From [k0] the program has shown [out] and written to its memory only; the process
    table and the queue are [p]. *)
Record shows (k0 : kernel) (out : list Z) (p : proc_state) (k : kernel) : Prop := {
  sh_screen : k_screen k = shown out (k_screen k0);
  sh_mem a : in_space a 1 → outside a → ld8 (k_mem k) a = ld8 (k_mem k0) a;
  sh_timer : k_timer k = k_timer k0;
  sh_proc : k_proc k = p }.

Lemma shows_refl k : shows k [] (k_proc k) k.
Proof. by split. Qed.

Lemma shows_wrote k0 out p k l k' : shows k0 out p k → wrote l k k' → shows k0 (out ++ l) p k'.
Proof.
  intros [H1 H2 H3 H4] (io & -> & _). split; cbn; try done. by rewrite shown_app, H1.
Qed.

Lemma shows_proc k0 out p p' k : shows k0 out p k → shows k0 out p' (set_proc p' k).
Proof. intros [H1 H2 H3 H4]. by split. Qed.

Lemma shows_store8 k0 out p k r a v :
  Forall (λ r, in_space r.1 r.2) regions → r ∈ regions → r.1 ≤ a < r.1 + r.2 →
  shows k0 out p k → shows k0 out p (set_mem (st8 (k_mem k) a v) k).
Proof.
  intros Hsp Hr Ha [H1 H2 H3 H4]. split; cbn; try done. intros b Hb Ho. rewrite <- H2 by done.
  rewrite list.Forall_forall in Hsp. pose proof (Hsp _ Hr). unfold outside in Ho.
  rewrite list.Forall_forall in Ho. pose proof (Ho _ Hr). unfold in_space in *.
  apply ld8_st8_ne. rewrite !u32_small; lia.
Qed.

Lemma shows_store32 k0 out p k r a v :
  Forall (λ r, in_space r.1 r.2) regions → r ∈ regions → r.1 ≤ a → a + 4 ≤ r.1 + r.2 →
  shows k0 out p k → shows k0 out p (set_mem (st32 (k_mem k) a v) k).
Proof.
  intros Hf Hr Ha Hb Hk. unfold st32.
  pose (set4 := λ a v k, set_mem (st8 (k_mem k) a v) k).
  change (shows k0 out p (set4 (a + 3) (v / 16777216) (set4 (a + 2) (v / 65536) (set4 (a + 1) (v / 256) (set4 a v k))))).
  do 4 (apply (shows_store8 _ _ _ _ r); [done|done|lia|]). done.
Qed.

End State.

(** ** Numbers *)

(** An [int]. *)
Definition is_int (n : Z) : Prop := -2147483648 ≤ n < 2147483648.

(** The characters [digits_loop] stores, the last digit first. *)
Fixpoint digits (fuel : nat) (n : Z) : list Z :=
  match fuel with
  | O => []
  | S fuel => 48 + Z.rem n 10 :: (if 0 <? Z.quot n 10 then digits fuel (Z.quot n 10) else [])
  end.

(** What [show_number] shows of an [int]. *)
Definition number (n : Z) : list Z := reverse (digits 10 n).

Lemma digits_length fuel n : (length (digits fuel n) ≤ fuel)%nat.
Proof.
  revert n. induction fuel as [|fuel IH]; intros n; cbn [digits length]; [lia|].
  destruct (0 <? Z.quot n 10); cbn [length]; [pose proof (IH (Z.quot n 10))|]; lia.
Qed.

Lemma digits_bytes fuel n : Forall (λ c, 0 ≤ c < 256) (digits fuel n).
Proof.
  revert n. induction fuel as [|fuel IH]; intros n; cbn [digits]; [constructor|].
  constructor; [dlia|]. by destruct (0 <? Z.quot n 10).
Qed.

(** For a number that is not negative these are the kernel's digits. *)
Lemma digits_putdec f : ∀ fuel n buf k,
  0 < n < 10 ^ Z.of_nat f → (length buf + f ≤ 12)%nat → (f < fuel)%nat →
  putdec_digits fuel n buf k = Done (buf ++ digits f n) k.
Proof.
  induction f as [|f IH]; intros [|fuel] n buf k Hn Hbuf Hf; try lia.
  cbn [putdec_digits digits]. rewrite (proj2 (Z.ltb_lt 0 n)), (proj2 (Nat.ltb_lt _ _)) by lia.
  rewrite Z.rem_mod_nonneg, Z.quot_div_nonneg by lia.
  assert (Hp : 10 ^ Z.of_nat (S f) = 10 * 10 ^ Z.of_nat f) by (rewrite Nat2Z.inj_succ, Z.pow_succ_r; lia).
  destruct (Z.ltb_spec 0 (n / 10)) as [Hq|Hq].
  - rewrite IH; [by rewrite <- app_assoc| |rewrite length_app; cbn; lia|lia]. split; [done|]. dlia.
  - replace (n / 10) with 0 by dlia. destruct fuel as [|fuel]; [lia|]. done.
Qed.

(** What the kernel prints for a number. *)
Lemma number_putdec n k : 0 ≤ n < 2147483648 → screen_putdec n k = screen_putstr (number n) k.
Proof.
  intros Hn. unfold screen_putdec, number. destruct (Z.eqb_spec n 0) as [->|Hz].
  - symmetry. apply bind_ret_tt.
  - assert (Hp : 0 < n < 10 ^ Z.of_nat 10) by (change (10 ^ Z.of_nat 10) with 10000000000; lia).
    by rewrite (bind_done _ _ _ _ _ (digits_putdec 10 12 n [] k Hp ltac:(cbn; lia) ltac:(lia))).
Qed.

Section Stores.
Context `{Hardware, PageAllocator, UserFrame}.
Context (fuel depth : nat) (regions : list (Z * Z)) (k0 : kernel).
Hypothesis Hspace : Forall (λ r, in_space r.1 r.2) regions.
Abbreviation ends := (ends (direct fuel depth)).
Abbreviation shows := (shows regions k0).

(** A store to byte [a] of region [r]. *)
Lemma ends_store8 {B} r a v (f : unit → program B) out p k Q :
  shows out p k → r ∈ regions → r.1 ≤ a < r.1 + r.2 →
  (∀ k', k' = set_mem (st8 (k_mem k) a v) k → shows out p k' → ends (f tt) k' Q) →
  ends (ITree.bind (ITree.trigger (Store8 a v)) f) k Q.
Proof.
  intros Hk Hr Ha HQ. apply ends_bind, (ends_trigger _ _ tt _ (set_mem (st8 (k_mem k) a v) k)); [done|].
  apply HQ; [done|]. by apply (shows_store8 _ _ _ _ _ r).
Qed.

Lemma region_space r : r ∈ regions → in_space r.1 r.2.
Proof. intros Hr. pose proof Hspace as Hsp. rewrite list.Forall_forall in Hsp. by apply Hsp. Qed.


Lemma digits_loop_ends size f : ∀ n acc out p k (Q : Z → kernel → Prop),
  (test_buf, size) ∈ regions → (0 < f)%nat → Z.abs n < 10 ^ Z.of_nat f → Z.of_nat (length acc + f) ≤ size →
  shows out p k → stored (k_mem k) test_buf acc →
  (∀ k', shows out p k' → stored (k_mem k') test_buf (acc ++ digits f n) →
     Q (Z.of_nat (length (acc ++ digits f n))) k') →
  ends (ITree.iter digits_body (Z.of_nat (length acc), n)) k Q.
Proof.
  induction f as [|f IH]; intros n acc out p k Q Hb Hf Hn Hlen Hk Hst HQ; [lia|].
  assert (Hp : 10 ^ Z.of_nat (S f) = 10 * 10 ^ Z.of_nat f) by (rewrite Nat2Z.inj_succ, Z.pow_succ_r; lia).
  pose proof (region_space _ Hb) as Hsp. unfold in_space in Hsp. cbn in Hsp.
  apply ends_iter. unfold digits_body at 1.
  apply (ends_store8 (test_buf, size) _ _ _ out p); [done|exact Hb|cbn; lia|].
  intros k1 Hk1 Hsh. apply ends_ret. cbn [digits] in HQ.
  assert (Hst1 : stored (k_mem k1) test_buf (acc ++ [48 + Z.rem n 10])).
  { rewrite Hk1. cbn. apply stored_snoc; [done|dlia|unfold in_space; lia]. }
  replace (Z.of_nat (length acc) + 1) with (Z.of_nat (length (acc ++ [48 + Z.rem n 10])))
    by (rewrite length_app; cbn; lia).
  destruct (Z.ltb_spec 0 (Z.quot n 10)) as [Hq|Hq].
  - destruct f as [|f]; [change (10 ^ Z.of_nat 0) with 1 in Hp; dlia|].
    apply (IH _ _ out p); [exact Hb|lia|dlia|rewrite length_app; cbn; lia|done|done|].
    intros k' Hk' Hst'. rewrite <- app_assoc in *. by apply HQ.
  - by apply HQ.
Qed.

Lemma print_back_ends l : ∀ out p k (Q : unit → kernel → Prop),
  shows out p k → stored (k_mem k) test_buf l → Z.of_nat (length l) < 2147483648 →
  (∀ k', shows (out ++ reverse l) p k' → Q tt k') →
  ends (print_back (Z.of_nat (length l))) k Q.
Proof.
  unfold print_back. induction l as [|c l IH] using rev_ind; intros out p k Q Hk Hst Hlen HQ; apply ends_iter.
  - apply ends_ret, HQ. by rewrite app_nil_r.
  - rewrite length_app in *. cbn [length] in *.
    replace (Z.of_nat (length l + 1) - 1) with (Z.of_nat (length l)) by lia.
    unfold print_body at 1. rewrite (proj2 (Z.leb_le 0 _)) by lia.
    apply (ends_write fuel depth _ [c]); [|cbn; lia|].
    { intros [|j] c' Hj; [|done]. injection Hj as <-. rewrite Z.add_0_r. apply Hst.
      by rewrite lookup_app_r, Nat.sub_diag by lia. }
    intros k1 Hw. apply ends_ret. pose proof (shows_wrote regions _ _ _ _ _ _ Hk Hw) as Hk1.
    apply (IH (out ++ [c]) p); [done| |lia|].
    + destruct Hw as (io & -> & _). cbn. intros j c' Hj. apply Hst. by apply lookup_app_l_Some.
    + intros k' Hk'. apply HQ. by rewrite reverse_snoc, <- app_assoc in *.
Qed.

Lemma show_number_run size n out p k (Q : unit → kernel → Prop) :
  (test_buf, size) ∈ regions → 10 ≤ size → is_int n → shows out p k →
  (∀ k', shows (out ++ number n) p k' → Q tt k') → ends (show_number n) k Q.
Proof.
  intros Hb Hsize Hn Hk HQ. unfold show_number. apply ends_bind.
  apply (digits_loop_ends size 10 n [] out p); [exact Hb|lia| |cbn; lia|done|by intros j c|].
  { unfold is_int in Hn. change (10 ^ Z.of_nat 10) with 10000000000. lia. }
  intros k1 Hk1 Hst. cbn [app] in *.
  apply (print_back_ends _ out p); [done|done|pose proof (digits_length 10 n); lia|done].
Qed.

Lemma show_number_ends {B} size n (f : unit → program B) out p k Q :
  (test_buf, size) ∈ regions → 10 ≤ size → is_int n → shows out p k →
  (∀ k', shows (out ++ number n) p k' → ends (f tt) k' Q) → ends (ITree.bind (show_number n) f) k Q.
Proof. intros Hb Hsize Hn Hk HQ. by apply ends_bind, (show_number_run size n out p). Qed.

Lemma store_bytes_ends r p (Q : unit → kernel → Prop) : ∀ l a out k,
  shows out p k → r ∈ regions → r.1 ≤ a → a + Z.of_nat (length l) ≤ r.1 + r.2 →
  Forall (λ c, 0 ≤ c < 256) l →
  (∀ k', shows out p k' → stored (k_mem k') a l →
     (∀ b, in_space b 1 → b < a → ld8 (k_mem k') b = ld8 (k_mem k) b) → Q tt k') →
  ends (store_bytes a l) k Q.
Proof.
  intros l a out k Hk Hr. revert a k Hk.
  induction l as [|c l IH]; intros a k Hk Ha Hl Hby HQ; cbn [store_bytes].
  - apply ends_ret. apply HQ; [done| |done]. by intros [|j] c.
  - cbn [length] in *. apply list.Forall_cons in Hby as [Hc Hby].
    pose proof (region_space _ Hr) as Hsp. unfold in_space in Hsp.
    apply (ends_store8 r _ _ _ out p); [done|done|lia|]. intros k1 -> Hk1.
    apply IH; [done|lia|lia|done|]. intros k' Hk' Hst Hout. apply HQ; [done| |].
    + intros [|j] c' Hj.
      * injection Hj as <-. rewrite Z.add_0_r, Hout by (unfold in_space; lia). cbn. rewrite ld8_st8_eq.
        by apply u8_small.
      * rewrite <- (Hst j c' Hj). f_equal. lia.
    + intros b Hb Hlt. rewrite Hout by (done || lia). cbn. unfold in_space in Hb.
      apply ld8_st8_ne. rewrite !u32_small; lia.
Qed.

End Stores.

(** ** Rounds of a loop *)

Lemma set_timer_same s io k : set_timer (k_timer k) (with_console s io k) = with_console s io k.
Proof. by destruct k. Qed.

Lemma set_timer_again t t' ev s io k :
  set_timer t' (set_io (ev :: io) (set_timer t (with_console s io k))) = set_timer t' (with_console s (ev :: io) k).
Proof. by destruct k. Qed.

Section Loops.
Context `{Hardware, PageAllocator}.
Context (fuel depth : nat).
Abbreviation reaches := (reaches (direct fuel depth)).
Abbreviation ends := (ends (direct fuel depth)).

(** [sys_yield] comes back after one tick of the timer: nobody else runs. *)
Lemma yield_direct a b c k :
  interrupt_handlers (k_idt k) !! 32 = Some isr_timer_callback →
  direct fuel depth h_sys_yield a b c k =
    Done 0 (set_timer (ticked 1 (k_timer k)) (set_io (Out8 0x20 0x20 :: k_io k) k)).
Proof.
  intros Hh. unfold direct, Syscall.sys_yield, yield. rewrite !bind_assoc. unfold bind at 1.
  rewrite irq_handler_run by (cbn; lia). cbn [r_int_no regs_int]. rewrite Hh. by destruct k.
Qed.

(** A loop comes back to its head under [P], [m] times. *)
Lemma reaches_rounds {A I} (body : I → program (I + A)) i (P : nat → kernel → Prop) k m :
  P 0%nat k → (∀ n k, (n < m)%nat → P n k → ends (body i) k (λ r k', r = inl i ∧ P (S n) k')) →
  ∃ k', reaches (ITree.iter body i) k (ITree.iter body i) k' ∧ P m k'.
Proof.
  intros Hk Hround. induction m as [|m IH].
  - exists k. split; [apply reaches_refl|done].
  - destruct IH as (k1 & Hr1 & Hk1); [intros n k1 Hn; apply Hround; lia|].
    destruct (Hround m k1 ltac:(lia) Hk1) as (r & k2 & Hr2 & -> & Hk2).
    exists k2. split; [|done]. apply (reaches_trans _ _ _ _ _ _ _ Hr1).
    by apply (reaches_iter_next _ _ _ _ _ _ _ _ Hr2), reaches_refl.
Qed.

End Loops.

(** ** Properties *)

Section Properties.
Context `{Hardware, PageAllocator, UserFrame}.
Context (fuel depth : nat).
Abbreviation ends := (ends (direct fuel depth)).
Abbreviation reaches := (reaches (direct fuel depth)).
Abbreviation runs_forever := (runs_forever (direct fuel depth)).

(** C29: The way the test program prints an [int]: a number that is not negative
    appears as the kernel's own [screen_putdec] shows it; of a negative one a single
    character appears, [-(n mod 10)] below '0'.  At most ten of the 32 bytes of the
    buffer are written, no other memory and no process changes. *)
Theorem show_number_decimal n k :
  is_int n → in_space test_buf 10 →
  ends (show_number n) k (λ _ k',
    (if decide (0 ≤ n)
     then ∃ k2, screen_putdec n k = Done tt k2 ∧ k_screen k' = k_screen k2
     else k_screen k' = put_final (48 - Z.abs n mod 10) (k_screen k)) ∧
    (∀ a, in_space a 1 → a < test_buf ∨ test_buf + 10 ≤ a → ld8 (k_mem k') a = ld8 (k_mem k) a) ∧
    k_proc k' = k_proc k).
Proof.
  intros Hn Hsp.
  assert (Hspace : Forall (λ r, in_space r.1 r.2) [(test_buf, 10)]) by by constructor.
  apply (show_number_run fuel depth [(test_buf, 10)] k Hspace 10 n [] (k_proc k));
    [by left|lia|done|apply shows_refl|].
  intros k' [Hs Hm _ Hp]. cbn [app] in Hs. split; [|split; [|done]].
  - case_decide as H0n.
    + rewrite number_putdec by (unfold is_int in Hn; lia). destruct (putstr_wrote (number n) k) as (k2 & E & io & -> & _).
      eexists. split; [exact E|]. by rewrite Hs.
    + rewrite Hs. unfold number. cbn [digits]. rewrite (proj2 (Z.ltb_ge 0 _)) by dlia.
      cbn. f_equal. dlia.
  - intros a Ha Ho. apply Hm; [done|]. by constructor.
Qed.

(** C39: The first process: it shows its greeting and then yields for ever.  After any
    number [m] of rounds it is at the head of its loop, [m] ticks later; nothing else
    of the kernel has changed, no other process has run, and it never ends. *)
Theorem init_yields_forever k m (s := cstr "Init process is running!" ++ [10]) :
  stored (k_mem k) (lit s) s → 0 ≤ tick_count (k_timer k) < 4294967296 →
  interrupt_handlers (k_idt k) !! 32 = Some isr_timer_callback →
  (∃ k' io, reaches init_start k init_loop k' ∧
    k' = set_timer (ticked (Z.of_nat m) (k_timer k)) (with_console (shown s (k_screen k)) io k)) ∧
  runs_forever init_start k.
Proof.
  intros Hst Ht Hh.
  pose (P := λ n k', ∃ io, k' = set_timer (ticked (Z.of_nat n) (k_timer k)) (with_console (shown s (k_screen k)) io k)).
  destruct (write_direct fuel depth (lit s) s k Hst) as (k1 & E & io1 & Hk1 & _);
    [change (Z.of_nat (length s)) with 25; lia|].
  assert (Hsay : reaches (say s 25) k (Ret 25) k1) by by apply reaches_trigger.
  assert (HP1 : P 0%nat k1).
  { exists io1. rewrite Hk1, ticked_0 by (symmetry; by apply u32_small). symmetry. apply set_timer_same. }
  assert (Hround : ∀ n k2, P n k2 → ends (init_body tt) k2 (λ r k', r = inl tt ∧ P (S n) k')).
  { intros n k2 (io & ->). apply ends_bind. eapply ends_trigger; [apply yield_direct; done|].
    apply ends_ret. split; [done|]. exists (Out8 0x20 0x20 :: io).
    cbn [k_timer k_io set_timer with_console set_screen set_io].
    rewrite ticked_add. replace (Z.of_nat n + 1) with (Z.of_nat (S n)) by lia. apply set_timer_again. }
  split.
  - destruct (reaches_rounds fuel depth init_body tt P k1 m HP1) as (k' & Hr & io & Hk').
    { intros n k2 _. apply Hround. }
    exists k', io. split; [|done]. by apply (reaches_bind _ _ _ _ _ _ _ _ Hsay).
  - apply (forever_bind _ _ _ _ _ k1 Hsay). apply (forever_iter _ _ _ (λ k2, ∃ n, P n k2)); [by exists 0%nat|].
    intros k2 [n Hn]. eapply ends_mono; [|exact (Hround n _ Hn)]. intros r k' [-> HP]. split; [done|]. by exists (S n).
Qed.

End Properties.

(** ** The shell *)

Definition prompt : list Z := cstr "Shell> ".

(** What a character makes appear: the echo of [sys_read], the shell's own, and a
    prompt after Enter. *)
Definition shell_echo (c : Z) : list Z := [c; c] ++ if c =? 10 then prompt else [].

(** The first [n] characters of the keys, and the keys after them. *)
Fixpoint keyed (n : nat) (keys : list Z) : option (list Z * list Z) :=
  match n with
  | O => Some ([], keys)
  | S n => '(l, ks) ← keyed n keys; '(c, ks) ← next_char ks; Some (l ++ [c], ks)
  end.

Lemma keyed_fewer m n keys l ks : keyed m keys = Some (l, ks) → (n ≤ m)%nat → ∃ l' ks', keyed n keys = Some (l', ks').
Proof.
  revert l ks. induction m as [|m IH]; intros l ks Hm Hn; [replace n with 0%nat by lia; by eexists _, _|].
  destruct (decide (n = S m)) as [->|]; [by eexists _, _|]. cbn [keyed] in Hm.
  destruct (keyed m keys) as [[l1 ks1]|]; [|done]. by apply (IH l1 ks1); [|lia].
Qed.

Lemma next_char_length keys c ks : next_char keys = Some (c, ks) → (length ks ≤ length keys)%nat.
Proof. intros Hn%next_char_shorter. lia. Qed.

Lemma keyed_length n keys l ks : keyed n keys = Some (l, ks) → (length ks ≤ length keys)%nat.
Proof.
  revert l ks. induction n as [|n IH]; intros l ks; cbn [keyed]; [by intros [= _ <-]|].
  destruct (keyed n keys) as [[l1 ks1]|]; cbn; [|done].
  destruct (next_char ks1) as [[c ks2]|] eqn:E; cbn; [|done]. intros [= _ <-].
  pose proof (IH l1 ks1 eq_refl). apply next_char_length in E. lia.
Qed.

Section Shell.
Context `{Hardware, PageAllocator, UserFrame}.
Context (fuel depth : nat) (keys : list Z) (k0 : kernel).
Abbreviation ends := (ends (direct fuel depth)).
Abbreviation reaches := (reaches (direct fuel depth)).

Definition shell_frame_ok : Prop :=
  in_space shell_buf 1 ∧ in_space (lit prompt) 7 ∧ (shell_buf < lit prompt ∨ lit prompt + 7 ≤ shell_buf).

(** The shell at the head of its loop, having read the characters [l]; the keys [ks]
    are to come. *)
Record at_head (l ks : list Z) (k : kernel) : Prop := {
  ah_screen : k_screen k = shown (prompt ++ mjoin (shell_echo <$> l)) (k_screen k0);
  ah_keys : drop (key_reads (k_io k)) keys = ks;
  ah_timer : k_timer k = ticked (Z.of_nat (length l)) (k_timer k0);
  ah_proc : k_proc k = k_proc k0;
  ah_idt : k_idt k = k_idt k0;
  ah_mem a : in_space a 1 → a ≠ shell_buf → ld8 (k_mem k) a = ld8 (k_mem k0) a }.

Lemma shell_round_ends c l ks ks' k :
  keyboard keys → shell_frame_ok → stored (k_mem k0) (lit prompt) prompt →
  interrupt_handlers (k_idt k0) !! 32 = Some isr_timer_callback → (length ks ≤ fuel)%nat →
  at_head l ks k → next_char ks = Some (c, ks') →
  ends (shell_body tt) k (λ r k', r = inl tt ∧ at_head (l ++ [c]) ks' k').
Proof.
  intros Hkb (Hsp & Hlit & Hdis) Hst Hh Hf [Hs Hk Ht Hp Hi Hm] Hn. pose proof (next_char_printable _ _ _ Hn) as Hc.
  destruct (read_char_run shell_buf keys fuel ks c ks' k Hkb Hsp Hk Hn Hf)
    as (k1 & E1 & Hc1 & Hm1 & Hk1 & [s1 He1] & Hs1).
  unfold shell_body, shell_round. apply ends_bind, ends_bind, (ends_trigger _ _ 1 _ k1).
  { cbn [handle]. unfold direct. change (s32 0) with 0. change (u32 1) with 1. unfold in_space in Hsp.
    rewrite u32_small by lia. by rewrite (bind_done _ _ _ _ _ E1). }
  change (0 <? 1) with true. cbv iota. apply ends_bind.
  apply (ends_write fuel depth shell_buf [c]); [|cbn; lia|].
  { intros [|j] c' Hj; [|done]. injection Hj as <-. by rewrite Z.add_0_r. }
  intros k2 Hw2. assert (Hm2 : k_mem k2 = k_mem k1) by by destruct Hw2 as (io & -> & _).
  apply ends_bind, (ends_trigger _ _ c _ k2); [cbn; unfold load8, gets; by rewrite Hm2, Hc1|].
  rewrite s8_small by lia. set (more := if c =? 10 then prompt else []).
  apply (ends_mono _ _ _ (λ _ k3, wrote more k2 k3)).
  - intros _ k3 Hw3. apply ends_bind.
    destruct (wrote_trans _ _ _ _ _ Hw2 Hw3) as (io & -> & Hio). 
    eapply ends_trigger.
    { apply yield_direct. cbn. rewrite He1. cbn. by rewrite Hi. }
    apply ends_ret, ends_ret. split; [done|]. split; cbn.
    + rewrite Hs1, Hs, fmap_app, join_app, !shown_app. cbn. by rewrite app_nil_r.
    + by rewrite (key_reads_sends _ _ Hio).
    + rewrite He1. cbn. rewrite Ht, ticked_add, length_app. f_equal. cbn. lia.
    + rewrite He1. cbn. done.
    + rewrite He1. cbn. done.
    + intros a Ha Hne. rewrite Hm1 by done. by apply Hm.
  - unfold more. destruct (Z.eqb_spec c 10) as [->|Hne]; [|apply ends_ret, wrote_nil].
    apply (ends_write fuel depth (lit prompt) prompt); [|by vm_compute|intros k3 Hw3; by apply ends_ret].
    intros j c' Hj. rewrite Hm2. pose proof (lookup_lt_Some _ _ _ Hj) as Hlt. change (length prompt) with 7%nat in Hlt.
    unfold in_space in Hlit. rewrite <- (Hst j c' Hj), Hm1, Hm; [done|unfold in_space; lia|lia|unfold in_space; lia|lia].
Qed.

(** C28: The shell reads every key it is given: for any number [m] of characters that
    the keys give, it comes back to the head of its loop with exactly these read, and
    has shown, after the first prompt, every character twice, once by [sys_read] and
    once by itself, and a prompt after each Enter.  A tick passes per character, no
    process is switched, and only its one-byte buffer is written. *)
Theorem shell_echoes_twice m chars ks :
  keyboard keys → shell_frame_ok → stored (k_mem k0) (lit prompt) prompt →
  0 ≤ tick_count (k_timer k0) < 4294967296 →
  interrupt_handlers (k_idt k0) !! 32 = Some isr_timer_callback → (length keys ≤ fuel)%nat →
  keyed m (drop (key_reads (k_io k0)) keys) = Some (chars, ks) →
  ∃ k', reaches shell_start k0 shell_loop k' ∧ at_head chars ks k'.
Proof.
  intros Hkb Hfr Hst Ht Hh Hf Hm. set (start := drop (key_reads (k_io k0)) keys) in *.
  pose (P := λ n k, ∃ l r, keyed n start = Some (l, r) ∧ at_head l r k).
  destruct (write_direct fuel depth (lit prompt) prompt k0 Hst) as (k1 & E & Hw);
    [change (Z.of_nat (length prompt)) with 7; lia|].
  assert (Hsay : reaches (say prompt 7) k0 (Ret 7) k1) by by apply reaches_trigger.
  assert (HP0 : P 0%nat k1).
  { exists [], start. split; [done|]. destruct Hw as (io & -> & Hio). split; cbn; try done.
    - by rewrite (key_reads_sends _ _ Hio).
    - symmetry. apply ticked_0. symmetry. by apply u32_small. }
  destruct (reaches_rounds fuel depth shell_body tt P k1 m HP0) as (k' & Hr & l & r & Hl & Hh').
  { intros n k2 Hn (l & r & Hl & Hhd). destruct (keyed_fewer _ (S n) _ _ _ Hm Hn) as (l2 & r2 & Hl2).
    pose proof Hl2 as Hl3. cbn [keyed] in Hl3. rewrite Hl in Hl3. cbn in Hl3.
    destruct (next_char r) as [[c r3]|] eqn:Ec; [|done]. cbn in Hl3. injection Hl3 as <- <-.
    eapply ends_mono; [|apply (shell_round_ends c l r r3); try done].
    - intros u k3 [-> Hk3]. split; [done|]. by exists (l ++ [c]), r3.
    - apply keyed_length in Hl. unfold start in Hl. rewrite length_drop in Hl. lia. }
  rewrite Hm in Hl. injection Hl as <- <-. exists k'. split; [|done].
  by apply (reaches_bind _ _ _ _ _ _ _ _ Hsay).
Qed.

End Shell.

(** ** Witnesses *)

Lemma stored_check m p l :
  Forall (λ j, ld8 m (p + Z.of_nat j) = default 0 (l !! j)) (seq 0 (length l)) → stored m p l.
Proof.
  intros Hall j c Hj. rewrite list.Forall_forall in Hall. rewrite (Hall j); [by rewrite Hj|].
  apply elem_of_seq. apply lookup_lt_Some in Hj. lia.
Qed.

(** Literals every 64 bytes from 0x10000, the locals from 0x5000. *)
Definition frame_of (literals : list (list Z)) : UserFrame := {|
  lit s := 0x10000 + 64 * Z.of_nat (default 0%nat (fst <$> list_find (λ t, s = t) literals));
  shell_buf := 0x5000; test_buf := 0x5010; test_status := 0x5040; test_msg := 0x5050; test_hex := 0x5080 |}.

Definition mem_of (literals : list (list Z)) : mem :=
  fold_left (λ m s, poke m (@lit (frame_of literals) s) (s ++ [0])) literals ∅.

Definition user_literals : list (list Z) := [cstr "Init process is running!" ++ [10]; prompt].

(** The literals in memory and the timer's interrupt handler. *)
Definition user_kernel : kernel :=
  set_idt (mk_idt ∅ 0 0 {[32 := isr_timer_callback]}) (set_mem (mem_of user_literals) kernel_bss).

Lemma show_number_decimal_witness :
  Userland.ends (@direct (typing []) alloc_frame_allocator 0 0) (@show_number (frame_of []) 2026) kernel_bss
    (λ _ k', ∃ k2, screen_putdec 2026 kernel_bss = Done tt k2 ∧ k_screen k' = k_screen k2).
Proof.
  eapply ends_mono; [|apply (@show_number_decimal (typing []) alloc_frame_allocator (frame_of []) 0 0 2026 kernel_bss)].
  - intros u k' [H _]. rewrite decide_True in H by lia. exact H.
  - unfold is_int. lia.
  - unfold in_space, test_buf, frame_of. lia.
Defined.

Lemma init_yields_forever_witness :
  runs_forever (@direct (typing []) alloc_frame_allocator 0 0) (@init_start (frame_of user_literals)) user_kernel.
Proof.
  apply (@init_yields_forever (typing []) alloc_frame_allocator (frame_of user_literals) 0 0 user_kernel 0).
  - apply stored_check. refine (bool_decide_unpack _ _). vm_compute. exact I.
  - change (0 ≤ 0 < 4294967296). lia.
  - reflexivity.
Defined.

(** "hi", with a release and Backspace in between, and Enter. *)
Definition shell_keys : list Z := [0x23; 0xA3; 0x0E; 0x17; 0x1C].

Lemma shell_echoes_twice_witness :
  ∃ k', Userland.reaches (@direct (typing shell_keys) alloc_frame_allocator 5 0)
      (@shell_start (frame_of user_literals)) user_kernel (@shell_loop (frame_of user_literals)) k' ∧
    k_screen k' = shown (cstr "Shell> hhii" ++ [10; 10] ++ cstr "Shell> ") (k_screen user_kernel).
Proof.
  destruct (@shell_echoes_twice (typing shell_keys) alloc_frame_allocator (frame_of user_literals) 5 0 shell_keys
    user_kernel 3 [0x68; 0x69; 10] []) as (k' & Hr & Hh).
  - apply typing_keyboard. refine (bool_decide_unpack _ _). reflexivity.
  - unfold shell_frame_ok, in_space. change (lit prompt) with 0x10040. unfold shell_buf, frame_of. lia.
  - apply stored_check. refine (bool_decide_unpack _ _). vm_compute. exact I.
  - change (0 ≤ 0 < 4294967296). lia.
  - reflexivity.
  - cbn. lia.
  - reflexivity.
  - exists k'. split; [exact Hr|]. exact (ah_screen _ _ _ _ _ Hh).
Defined.
