(* ===== verification/UserTest.v ===== *)
(** * The test program (user/test.c): its run

    [test_start] run against the modelled kernel, stage by stage: what each stage
    shows and what it does to the processes, and the transcript of the whole. *)

From S2P Require Import Prelude Memory Types Machine Screen Pmm Paging Interrupts Process Device Cstring Syscall Userland Console User.
From ITree Require Import Core.ITreeDefinition.
Import ScreenH ProcessH InterruptH SyscallH.

Definition test_literals : list (list Z) :=
  [[10] ++ cstr "=== System Test Program ===" ++ [10]; cstr "1. Testing getpid()... "; cstr "PID="; [10];
   cstr "2. Testing fork()..." ++ [10]; cstr "  Parent waiting for child..." ++ [10];
   cstr "  Child exited with status: "; cstr "  Fork failed" ++ [10]; cstr "3. Testing sleep()..." ++ [10];
   cstr "  Slept for "; cstr " ms" ++ [10]; cstr "4. Testing file I/O..." ++ [10]; cstr "/dev/tty";
   cstr "  Opened /dev/tty, fd="; cstr "  Closed file" ++ [10]; cstr "5. Testing memory allocation..." ++ [10];
   cstr "  Allocated 1KB at "; cstr "  Memory test passed" ++ [10]; cstr "  sbrk failed" ++ [10];
   [10] ++ cstr "=== All tests completed ===" ++ [10]].

Section Frame.
Context `{UserFrame}.
Context (heap : Z).

(** The memory the program writes to, by start and length: the locals and the
    kilobyte from [sbrk]. *)
Definition test_regions : list (Z * Z) :=
  [(test_buf, 32); (test_status, 4); (test_msg, 28); (test_hex, 17); (heap, 1024)].

(** The compiler and the loader keep the literals out of it. *)
Definition test_frame_ok : Prop :=
  test_status ≠ NULL ∧ Forall (λ r, in_space r.1 r.2) test_regions ∧
  Forall (λ s, in_space (lit s) (Z.of_nat (length s) + 1) ∧
    Forall (λ r, lit s + Z.of_nat (length s) + 1 ≤ r.1 ∨ r.1 + r.2 ≤ lit s) test_regions) test_literals.

Definition literals_stored (m : mem) : Prop := ∀ s, s ∈ test_literals → stored m (lit s) (s ++ [0]).

Lemma literals_kept k0 out p k :
  test_frame_ok → literals_stored (k_mem k0) → shows test_regions k0 out p k → literals_stored (k_mem k).
Proof.
  intros (_ & _ & Hl) H0 Hk s Hs j c Hj. rewrite <- (H0 s Hs j c Hj).
  rewrite list.Forall_forall in Hl. destruct (Hl s Hs) as [Hsp Hr].
  apply lookup_lt_Some in Hj. rewrite length_app in Hj. cbn in Hj. unfold in_space in Hsp.
  apply (sh_mem _ _ _ _ _ Hk); [unfold in_space; lia|].
  eapply list.Forall_impl; [exact Hr|]. cbn. lia.
Qed.

End Frame.

Section TestRun.
Context `{Hardware, PageAllocator, UserFrame}.
Context (fuel depth : nat) (heap : Z) (k0 : kernel).
Hypothesis Hframe : test_frame_ok heap.
Hypothesis Hlits : literals_stored (k_mem k0).
Abbreviation ends := (ends (direct fuel depth)).
Abbreviation shows := (shows (test_regions heap) k0).

Let Hspace : Forall (λ r, in_space r.1 r.2) (test_regions heap) := proj1 (proj2 Hframe).
Abbreviation region_space := (region_space (test_regions heap) Hspace).
Abbreviation store_bytes_ends := (store_bytes_ends fuel depth (test_regions heap) k0 Hspace).

Lemma buf_region : (test_buf, 32) ∈ test_regions heap.
Proof. by left. Qed.

Abbreviation show_number_ends :=
  (show_number_ends fuel depth (test_regions heap) k0 Hspace 32 _ _ _ _ _ _ buf_region (Zle_bool_imp_le 10 32 eq_refl)).

(** A literal: its first [n] characters. *)
Lemma say_ends {B} s n (f : Z → program B) out p k Q :
  shows out p k → s ∈ test_literals → 0 ≤ n ≤ Z.of_nat (length s) + 1 →
  (∀ k', shows (out ++ take (Z.to_nat n) (s ++ [0])) p k' → k_mem k' = k_mem k → ends (f n) k' Q) →
  ends (ITree.bind (say s n) f) k Q.
Proof.
  intros Hk Hs Hn HQ. unfold say.
  assert (Hlen : Z.of_nat (length (take (Z.to_nat n) (s ++ [0]))) = n)
    by (rewrite length_take, length_app; cbn; lia).
  assert (Hshort : Z.of_nat (length s) < 1000).
  { assert (Hall : Forall (λ s, Z.of_nat (length s) < 1000) test_literals)
      by (refine (bool_decide_unpack _ _); by vm_compute).
    rewrite list.Forall_forall in Hall. by apply Hall. }
  rewrite <- Hlen at 1. apply ends_write.
  - intros j c Hj. apply (literals_kept heap _ _ _ _ Hframe Hlits Hk _ Hs).
    by apply lookup_take_Some in Hj as [Hj _].
  - rewrite Hlen. lia.
  - rewrite Hlen. intros k' Hw. apply HQ; [by apply (shows_wrote _ _ _ _ k)|]. by destruct Hw as (io & -> & _).
Qed.

(** A system call that changes the processes only. *)
Lemma call_ends {B} h a b c r p' (f : Z → program B) out p k Q :
  shows out p k → (∀ k, shows out p k → direct fuel depth h a b c k = Done r (set_proc p' k)) →
  (∀ k', shows out p' k' → ends (f r) k' Q) →
  ends (ITree.bind (ITree.trigger (Sys h a b c)) f) k Q.
Proof.
  intros Hk Hc HQ. apply ends_bind, (ends_trigger _ _ r _ (set_proc p' k)); [by apply Hc|].
  by apply HQ, (shows_proc _ _ _ p).
Qed.

Lemma set_proc_shows out p k : shows out p k → set_proc p k = k.
Proof. intros [_ _ _ <-]. by destruct k. Qed.

Lemma getpid_ends {B} c (f : Z → program B) out p k Q :
  shows out p k → current_process p = Some c → is_int (pid (pcb (process_table p) c)) →
  ends (f (pid (pcb (process_table p) c))) k Q → ends (ITree.bind sys_getpid f) k Q.
Proof.
  intros Hk Hc Hp HQ. apply ends_bind, (ends_trigger _ _ (pid (pcb (process_table p) c)) _ k); [|done].
  cbn [handle]. unfold direct, Syscall.sys_getpid, get_pid. rewrite bind_assoc, bind_gets, (sh_proc _ _ _ _ _ Hk), Hc.
  rewrite bind_ret. unfold ret. by rewrite s32_idemp, s32_small.
Qed.

Lemma gettime_ends {B} (f : Z → program B) out p k Q (t := s32 (tick_count (k_timer k0) * ms_per_tick (k_timer k0))) :
  shows out p k → ends (f t) k Q → ends (ITree.bind sys_gettime f) k Q.
Proof.
  intros Hk HQ. apply ends_bind, (ends_trigger _ _ t _ k); [|done].
  cbn [handle]. unfold direct, Syscall.sys_gettime, get_time_ms. rewrite !bind_assoc, bind_gets, bind_ret.
  unfold ret. by rewrite (sh_timer _ _ _ _ _ Hk), s32_idemp, s32_u32.
Qed.

Lemma fork_ends {B} q c (f : Z → program B) out p k Q :
  shows out p k → queue_wf p q → current_process p = Some c → (c < 64)%nat → (length q ≤ fuel)%nat →
  Forall (λ j, ¬ slot_free (process_table p) j) (c :: q) →
  Z.of_nat (length (name (pcb (process_table p) c))) < 32 → is_int (next_pid p) →
  match find_slot 64 0 (process_table p) with
  | None => ends (f (-1)) k Q
  | Some i => ∀ p' k', shows out p' k' → queue_wf p' (q ++ [i]) → current_process p' = Some c →
      i ≠ c → (∀ j, brk (pcb (process_table p') j) = brk (pcb (process_table p) (if decide (i = j) then c else j))) →
      ends (f (next_pid p)) k' Q
  end →
  ends (ITree.bind sys_fork f) k Q.
Proof.
  intros Hk Hwf Hc Hlt Hf Hused Hn Hpid HQ. pose proof (sh_proc _ _ _ _ _ Hk) as Hp.
  apply ends_bind. destruct (find_slot 64 0 (process_table p)) as [i|] eqn:Hi.
  - pose proof (find_slot_some _ _ _ _ Hi) as [_ Hfree]. apply list.Forall_cons in Hused as [Hcu Hqu].
    assert (Hic : i ≠ c) by (by intros ->).
    assert (Hiq : i ∉ q) by (intros Hin; rewrite list.Forall_forall in Hqu; by apply (Hqu i)).
    rewrite <- Hp in *.
    destruct (fork_run fuel k q c i Hwf Hc Hlt Hi Hic Hiq Hn Hf) as (p' & E & Hwf' & Hc' & _ & Hch & Hoth).
    apply (ends_trigger _ _ (next_pid (k_proc k)) _ (set_proc p' k)).
    + cbn [handle]. unfold direct, Syscall.sys_fork. rewrite bind_assoc, (bind_done _ _ _ _ _ E), bind_assoc, bind_gets.
      cbn [k_proc set_proc]. pose proof (f_equal pid Hch) as Hcp. cbn in Hcp. rewrite Hcp.
      rewrite bind_ret. unfold ret. by rewrite s32_idemp, s32_small.
    + apply (HQ p'); [by apply (shows_proc _ _ _ (k_proc k))|done..|].
      intros j. destruct (decide (i = j)) as [<-|Hne]; [exact (f_equal brk Hch)|].
      exact (f_equal brk (Hoth j ltac:(congruence))).
  - apply (ends_trigger _ _ (-1) _ k); [|done]. cbn [handle].
    unfold direct, Syscall.sys_fork, fork_process, create_process_empty.
    rewrite !bind_assoc, bind_gets, Hp, Hc, !bind_assoc, bind_gets, Hp, Hi. done.
Qed.

(** [c] blocks and the head of the queue takes its place; memory breaks stay. *)
Record blocked (q : list nat) (c : nat) (p p' : proc_state) : Prop := {
  bl_wf : queue_wf p' (tail q);
  bl_current : current_process p' = Some (default 0%nat (head q));
  bl_state j : state_of p' j = if decide (default 0%nat (head q) = j) then PROCESS_RUNNING
                               else if decide (c = j) then PROCESS_BLOCKED else state_of p j;
  bl_brk j : brk (pcb (process_table p') j) = brk (pcb (process_table p) j) }.

Lemma block_shows q c out p k :
  shows out p k → queue_wf p q → current_process p = Some c → (c < 64)%nat →
  ∃ p', block_current fuel k = Done tt (set_proc p' k) ∧ shows out p' (set_proc p' k) ∧ blocked q c p p'.
Proof.
  intros Hk Hwf Hc Hlt. pose proof (sh_proc _ _ _ _ _ Hk) as Hp. rewrite <- Hp in *.
  destruct (block_run fuel k q c Hwf Hc Hlt) as (p' & E & Hwf' & Hc' & Hst & Hsame).
  exists p'. split; [done|]. split; [by apply (shows_proc _ _ _ (k_proc k))|]. split; try done.
  intros j. exact (f_equal brk (Hsame j)).
Qed.

Lemma sleep_ends {B} q c ms (f : Z → program B) out p k Q :
  shows out p k → queue_wf p q → current_process p = Some c → (c < 64)%nat →
  (∀ p' k', shows out p' k' → blocked q c p p' → ends (f 0) k' Q) →
  ends (ITree.bind (sys_sleep ms) f) k Q.
Proof.
  intros Hk Hwf Hc Hlt HQ. destruct (block_shows q c out p k Hk Hwf Hc Hlt) as (p' & E & Hk' & Hb).
  apply ends_bind, (ends_trigger _ _ 0 _ (set_proc p' k)); [|by apply (HQ p')].
  cbn [handle]. unfold direct, Syscall.sys_sleep, sleep_process.
  by rewrite bind_assoc, (bind_done _ _ _ _ _ E), bind_ret.
Qed.

(** [sys_waitpid] stores the status 0, whatever the child's. *)
Lemma waitpid_ends {B} q c child opt (f : Z → program B) out p k Q :
  shows out p k → queue_wf p q → current_process p = Some c → (c < 64)%nat →
  (∀ p' k', shows out p' k' → blocked q c p p' → ld32 (k_mem k') test_status = 0 → ends (f (s32 child)) k' Q) →
  ends (ITree.bind (sys_waitpid child test_status opt) f) k Q.
Proof.
  intros Hk Hwf Hc Hlt HQ. destruct (block_shows q c out p k Hk Hwf Hc Hlt) as (p' & E & Hk' & Hb).
  assert (Hr : (test_status, 4) ∈ test_regions heap) by (right; by left).
  pose proof (region_space _ Hr) as Hsp. unfold in_space in Hsp. cbn in Hsp. pose proof (proj1 Hframe) as Hnz.
  set (k' := set_mem (st32 (k_mem k) test_status 0) (set_proc p' k)).
  apply ends_bind, (ends_trigger _ _ (s32 child) _ k').
  - cbn [handle]. unfold direct, Syscall.sys_waitpid, wait_process.
    rewrite bind_assoc, (bind_done _ _ _ _ _ E), u32_small by lia.
    rewrite (proj2 (Z.eqb_neq _ _) Hnz), bind_assoc. unfold store32. rewrite bind_modify, bind_ret.
    unfold ret. by rewrite s32_idemp.
  - apply (HQ p'); [|done|].
    + apply (shows_store32 (test_regions heap) k0 out p' (set_proc p' k) (test_status, 4)); try done; cbn; lia.
    + unfold k'. cbn. rewrite ld32_st32_eq by (unfold in_space; lia). done.
Qed.

(** The calls on the process that is then the current one. *)
Lemma close_ends {B} c (f : Z → program B) out p k Q (p' := upd_pcb c (put_fd 0 (-1)) p) :
  shows out p k → current_process p = Some c →
  (∀ k', shows out p' k' → ends (f 0) k' Q) → ends (ITree.bind (sys_close 0) f) k Q.
Proof.
  intros Hk Hc HQ. apply (call_ends _ _ _ _ 0 p' f out p); [done| |done].
  intros k1 Hk1. pose proof (sh_proc _ _ _ _ _ Hk1) as Hp. unfold direct, Syscall.sys_close.
  change (s32 0) with 0. cbn [Z.ltb Z.leb Z.compare orb].
  unfold bind at 1. rewrite (with_current_run _ k1 c) by (by rewrite Hp). unfold upd_proc. rewrite bind_modify, Hp.
  done.
Qed.

Lemma sbrk_ends {B} c n (f : Z → program B) out p k Q
    (old := brk (pcb (process_table p) c)) (p' := upd_pcb c (set_brk (u32 (old + s32 n))) p) :
  shows out p k → current_process p = Some c →
  (∀ k', shows out p' k' → ends (f (s32 old)) k' Q) → ends (ITree.bind (sys_sbrk n) f) k Q.
Proof.
  intros Hk Hc HQ. apply (call_ends _ _ _ _ (s32 old) p' f out p); [done| |done].
  intros k1 Hk1. pose proof (sh_proc _ _ _ _ _ Hk1) as Hp. unfold direct, Syscall.sys_sbrk.
  unfold bind at 1. rewrite (with_current_run _ k1 c) by (by rewrite Hp). unfold upd_proc. rewrite bind_modify, Hp.
  unfold ret. by rewrite s32_idemp.
Qed.

(** [exit] terminates that process and returns to the program all the same. *)
Lemma exit_ends {B} q c (f : Z → program B) out p k Q (n := default 0%nat (head q)) :
  shows out p k → queue_wf p q → current_process p = Some c → (c < 64)%nat →
  (∀ p' k', shows out p' k' → current_process p' = Some n →
     (∀ j, state_of p' j = if decide (n = j) then PROCESS_RUNNING
                           else if decide (c = j) then PROCESS_TERMINATED else state_of p j) →
     ends (f 0) k' Q) →
  ends (ITree.bind (sys_exit 0) f) k Q.
Proof.
  intros Hk Hwf Hc Hlt HQ. pose proof (sh_proc _ _ _ _ _ Hk) as Hp. rewrite <- Hp in *.
  pose proof (qw_len _ _ Hwf) as Hlen.
  destruct (leave_run fuel k q c PROCESS_TERMINATED (λ x, set_state PROCESS_TERMINATED (set_exit_code 0 x))
    Hwf Hc Hlt) as (p' & E & _ & Hc' & Hst & _); [done..|].
  apply ends_bind, (ends_trigger _ _ 0 _ (set_proc p' k)).
  - cbn [handle]. unfold direct, Syscall.sys_exit, exit_process, upd_proc. change (s32 (s32 0)) with 0.
    rewrite !bind_assoc, bind_gets, Hc, !bind_assoc, bind_modify, bind_assoc, bind_modify.
    cbn [k_proc set_proc]. rewrite set_proc_set_proc, upd_pcb_twice by lia.
    rewrite <- (bind_assoc _ _ (λ r, ret (s32 r))).
    unfold bind in E |- *. by destruct (scheduler_get_next fuel _); [injection E as ->|..].
  - by apply (HQ p'); [apply (shows_proc _ _ _ (k_proc k))|..].
Qed.

(** [sys_open] of the terminal gives descriptor 0, which [sys_write] refuses. *)
Lemma open_tty_ends {B} flags mode (f : Z → program B) out p k Q :
  shows out p k → ends (f 0) k Q → ends (ITree.bind (sys_open (lit (cstr "/dev/tty")) flags mode) f) k Q.
Proof.
  intros Hk HQ. apply ends_bind, (ends_trigger _ _ 0 _ k); [|done].
  cbn [handle]. unfold direct, Syscall.sys_open. rewrite bind_assoc, bind_gets.
  assert (Hin : cstr "/dev/tty" ∈ test_literals) by (refine (bool_decide_unpack _ _); by vm_compute).
  assert (Hs : cstring (k_mem k) (u32 (lit (cstr "/dev/tty"))) (cstr "/dev/tty")).
  { pose proof (literals_kept heap _ _ _ _ Hframe Hlits Hk _ Hin) as Hst. apply stored_u32 in Hst.
    apply cstring_of_bytes; [by repeat constructor|]. intros j Hj.
    destruct (lookup_lt_is_Some_2 (cstr "/dev/tty" ++ [0]) j) as [x Hx]; [rewrite length_app; cbn in *; lia|].
    rewrite (Hst j x Hx). destruct (decide (j < length (cstr "/dev/tty"))%nat) as [Hlt|Hge].
    - rewrite lookup_app_l in Hx by done. by rewrite Hx.
    - rewrite lookup_app_r in Hx by lia. rewrite (lookup_ge_None_2 (cstr "/dev/tty")) by lia.
      replace (j - length (cstr "/dev/tty"))%nat with 0%nat in Hx by lia. by injection Hx as <-. }
  rewrite (str_is_run _ _ _ (cstr "/dev/tty") Hs) by (by repeat constructor).
  rewrite bool_decide_eq_true_2 by done. done.
Qed.

Lemma write_stdin_ends {B} p0 n (f : Z → program B) k Q :
  ends (f (-1)) k Q → ends (ITree.bind (sys_write 0 p0 n) f) k Q.
Proof. intros HQ. by apply ends_bind, (ends_trigger _ _ (-1) _ k). Qed.

(** The address in eight hexadecimal digits, those of [screen_puthex]. *)
Definition hex8 (addr : Z) : list Z := hex_char addr <$> [28; 24; 20; 16; 12; 8; 4; 0].

Lemma hex_digit_at addr shift :
  hex_digits !! Z.to_nat (Z.land (Z.shiftr addr shift) 0xF) = Some (hex_char addr shift).
Proof.
  unfold hex_char. change 0xF with (Z.ones 4). rewrite Z.land_ones by lia.
  change (2 ^ 4) with 16. set (d := Z.shiftr addr shift mod 16).
  assert (Hd : 0 ≤ d < 16) by (apply Z.mod_pos_bound; lia). rewrite u8_small by lia.
  assert (Hall : Forall (λ i, hex_digits !! i = Some (if Z.of_nat i <? 10 then 48 + Z.of_nat i else 65 + Z.of_nat i - 10)) (seq 0 16))
    by (repeat constructor).
  rewrite list.Forall_forall in Hall. specialize (Hall (Z.to_nat d)). rewrite Z2Nat.id in Hall by lia.
  apply Hall, elem_of_seq. lia.
Qed.

Lemma hex_loop_ends addr n : ∀ out p k (Q : unit → kernel → Prop),
  shows out p k → stored (k_mem k) test_hex (hex_digits ++ [0]) →
  (∀ k', shows (out ++ ((λ i, hex_char addr (Z.of_nat i * 4)) <$> reverse (seq 0 n))) p k' → Q tt k') →
  ends (ITree.iter (hex_body addr) (Z.of_nat n - 1)) k Q.
Proof.
  induction n as [|n IH]; intros out p k Q Hk Hst HQ; apply ends_iter; unfold hex_body at 1.
  - apply ends_ret, HQ. by rewrite app_nil_r.
  - rewrite (proj2 (Z.leb_le 0 _)) by lia. replace (Z.of_nat (S n) - 1) with (Z.of_nat n) by lia.
    apply (ends_write fuel depth _ [hex_char addr (Z.of_nat n * 4)]); [|cbn; lia|].
    { intros [|j] c' Hj; [|done]. injection Hj as <-. rewrite Z.add_0_r.
      pose proof (hex_digit_at addr (Z.of_nat n * 4)) as Hd.
      pose proof (Z.land_nonneg (Z.shiftr addr (Z.of_nat n * 4)) 15) as [_ Hnn].
      rewrite <- (Hst (Z.to_nat (Z.land (Z.shiftr addr (Z.of_nat n * 4)) 15)) (hex_char addr (Z.of_nat n * 4)));
        [by rewrite Z2Nat.id by (apply Hnn; lia)|]. by apply lookup_app_l_Some. }
    intros k1 Hw. apply ends_ret. pose proof (shows_wrote (test_regions heap) _ _ _ _ _ _ Hk Hw) as Hk1.
    apply (IH (out ++ [hex_char addr (Z.of_nat n * 4)]) p); [done| |].
    + by destruct Hw as (io & -> & _).
    + intros k' Hk'. apply HQ. rewrite seq_S, reverse_snoc. cbn [fmap list_fmap].
      by rewrite <- app_assoc in Hk'.
Qed.

Lemma show_address_ends {B} addr (f : unit → program B) out p k Q :
  shows out p k → (∀ k', shows (out ++ hex8 addr) p k' → ends (f tt) k' Q) →
  ends (ITree.bind (show_address addr) f) k Q.
Proof.
  intros Hk HQ. apply ends_bind. unfold show_address. apply ends_bind.
  assert (Hr : (test_hex, 17) ∈ test_regions heap) by (do 3 right; by left).
  apply (store_bytes_ends (test_hex, 17) p _ _ _ out); [done|exact Hr|cbn; lia|change (Z.of_nat (length (hex_digits ++ [0]))) with 17; cbn; lia| |].
  { refine (bool_decide_unpack _ _). by vm_compute. }
  intros k1 Hk1 Hst _. by apply (hex_loop_ends addr 8 out p).
Qed.

(** The kilobyte at [heap]: [upto n] words hold their index. *)
Definition filled (m : mem) (n : Z) : Prop := ∀ j, 0 ≤ j < n → ld32 m (heap + 4 * j) = j.

Lemma heap_region : (heap, 1024) ∈ test_regions heap.
Proof. do 4 right. by left. Qed.

Lemma fill_ends n : ∀ i out p k (Q : bool → kernel → Prop),
  0 ≤ i → i + Z.of_nat n ≤ 256 → shows out p k → filled (k_mem k) i →
  (∀ k', shows out p k' → filled (k_mem k') (i + Z.of_nat n) → Q true k') →
  ends (for_to n i (fill_body heap)) k Q.
Proof.
  pose proof (region_space _ heap_region) as Hsp. unfold in_space in Hsp. cbn in Hsp.
  induction n as [|n IH]; intros i out p k Q Hi Hn Hk Hf HQ; cbn [for_to].
  - apply ends_ret, HQ; [done|]. by rewrite Z.add_0_r.
  - apply ends_bind. unfold fill_body at 1.
    apply ends_bind, (ends_trigger _ _ tt _ (set_mem (st32 (k_mem k) (heap + 4 * i) i) k)); [done|].
    apply ends_ret. apply (IH _ out p); [lia|lia| | |].
    + apply (shows_store32 (test_regions heap) k0 out p k (heap, 1024)); try done; [apply heap_region|cbn; lia..].
    + cbn. intros j Hj. destruct (Z.eq_dec j i) as [->|Hne].
      * rewrite ld32_st32_eq by (unfold in_space; lia). apply u32_small. lia.
      * rewrite ld32_st32_ne by (unfold in_space; lia). apply Hf. lia.
    + intros k' Hk' Hf'. apply HQ; [done|]. by replace (i + Z.of_nat (S n)) with (i + 1 + Z.of_nat n) by lia.
Qed.

Lemma check_ends n : ∀ i k (Q : bool → kernel → Prop),
  0 ≤ i → i + Z.of_nat n ≤ 256 → filled (k_mem k) 256 → Q true k →
  ends (for_to n i (check_body heap)) k Q.
Proof.
  induction n as [|n IH]; intros i k Q Hi Hn Hf HQ; cbn [for_to]; [by apply ends_ret|].
  apply ends_bind. unfold check_body at 1.
  apply ends_bind, (ends_trigger _ _ i _ k); [cbn; unfold load32, gets; by rewrite Hf by lia|].
  apply ends_ret. rewrite s32_small, Z.eqb_refl by lia. apply IH; (done || lia).
Qed.

(** *** The stages *)

Ltac say_step :=
  eapply say_ends; [eassumption|refine (bool_decide_unpack _ _); by vm_compute
    |split; [lia|vm_compute; discriminate]|];
  let k := fresh "k" in let Hk := fresh "Hk" in let Hm := fresh "Hm" in intros k Hk Hm.

Lemma test_getpid_ends c out p k (Q : unit → kernel → Prop) (n := pid (pcb (process_table p) c)) :
  shows out p k → current_process p = Some c → is_int n →
  (∀ k', shows (out ++ cstr "1. Testing getpid()... " ++ cstr "PID=" ++ number n ++ [10]) p k' → Q tt k') →
  ends test_getpid k Q.
Proof.
  intros Hk Hc Hn HQ. unfold test_getpid. say_step.
  eapply getpid_ends; [eassumption|exact Hc|exact Hn|]. say_step.
  eapply show_number_ends; [exact Hn|eassumption|]; intros. say_step.
  apply ends_ret, HQ. rewrite <- !app_assoc in *. eassumption.
Qed.

(** After the second test, by the slot [fork] found: the queue, the current process,
    and the process whose memory break slot [j] has. *)
Definition fork_queue (slot : option nat) (q : list nat) : list nat :=
  match slot with Some i => tail (q ++ [i]) | None => q end.
Definition fork_current (slot : option nat) (q : list nat) (c : nat) : nat :=
  match slot with Some i => default 0%nat (head (q ++ [i])) | None => c end.
Definition fork_owner (slot : option nat) (c j : nat) : nat := if decide (slot = Some j) then c else j.

Definition fork_shown (slot : option nat) : list Z :=
  cstr "2. Testing fork()..." ++ [10] ++
  match slot with
  | Some _ => cstr "  Parent waiting for child..." ++ [10] ++
              cstr "  Child exited with status: " ++ number 0 ++ [10]
  | None => cstr "  Fork failed" ++ [10]
  end.

(** A process that runs, is not queued, and like the queued ones has a pid. *)
Record forkable (q : list nat) (c : nat) (p : proc_state) : Prop := {
  fk_wf : queue_wf p q;
  fk_current : current_process p = Some c;
  fk_range : (c < 64)%nat;
  fk_fuel : (length q ≤ fuel)%nat;
  fk_used : Forall (λ j, ¬ slot_free (process_table p) j) (c :: q);
  fk_name : Z.of_nat (length (name (pcb (process_table p) c))) < 32;
  fk_pid : is_int (pid (pcb (process_table p) c));
  fk_next : 0 < next_pid p < 2147483648 }.

Lemma queue_head_range p q : queue_wf p q → (default 0%nat (head q) < 64)%nat.
Proof. intros Hwf. apply qw_range in Hwf. destruct q; cbn; [lia|]. by apply list.Forall_cons in Hwf as [? _]. Qed.

Lemma test_parent_ends q c child out p k (Q : unit → kernel → Prop) :
  shows out p k → queue_wf p q → current_process p = Some c → (c < 64)%nat →
  (∀ p' k', shows (out ++ cstr "  Parent waiting for child..." ++ [10] ++
       cstr "  Child exited with status: " ++ number 0 ++ [10]) p' k' → blocked q c p p' → Q tt k') →
  ends (test_parent child) k Q.
Proof.
  intros Hk Hwf Hc Hlt HQ. unfold test_parent. say_step.
  eapply waitpid_ends; [eassumption|exact Hwf|exact Hc|exact Hlt|]. intros p' k2 Hk2 Hb Hst. say_step.
  apply ends_bind, (ends_trigger _ _ 0 _ k3); [cbn; unfold load32, gets; by rewrite Hm0, Hst|].
  change (s32 0) with 0. eapply show_number_ends; [done|eassumption|]; intros. say_step.
  apply ends_ret, (HQ p'); [|done]. rewrite <- !app_assoc in *. eassumption.
Qed.

Lemma test_fork_ends q c out p k (Q : unit → kernel → Prop) (slot := find_slot 64 0 (process_table p)) :
  shows out p k → forkable q c p →
  (∀ p' k', shows (out ++ fork_shown slot) p' k' → queue_wf p' (fork_queue slot q) →
     current_process p' = Some (fork_current slot q c) → (fork_current slot q c < 64)%nat →
     (∀ j, brk (pcb (process_table p') j) = brk (pcb (process_table p) (fork_owner slot c j))) →
     (c ≠ fork_current slot q c → state_of p' c = PROCESS_BLOCKED) → Q tt k') →
  ends test_fork k Q.
Proof.
  intros Hk [Hwf Hc Hlt Hf Hu Hn Hp Hnx] HQ. unfold test_fork. say_step.
  eapply (fork_ends q c); try eassumption; [unfold is_int; lia|]. fold slot.
  destruct slot as [i|]; cbn [fork_shown fork_queue fork_current fork_owner] in *.
  - intros p1 k2 Hk2 Hwf1 Hc1 Hic Hb1.
    rewrite (proj2 (Z.eqb_neq (next_pid p) 0)), (proj2 (Z.ltb_lt 0 (next_pid p))) by lia.
    eapply test_parent_ends; [eassumption|exact Hwf1|exact Hc1|exact Hlt|]. intros p2 k3 Hk3 [Hb2 Hb3 Hb4 Hb5].
    apply (HQ p2); [by rewrite <- !app_assoc in *|done|done| | |].
    + exact (queue_head_range _ _ Hwf1).
    + intros j. rewrite Hb5, Hb1. unfold fork_owner. by rewrite (decide_ext (i = j) (Some i = Some j)) by naive_solver.
    + intros Hne. rewrite Hb4. by rewrite decide_False, decide_True.
  - change (-1 =? 0) with false. change (0 <? -1) with false. cbv iota. say_step.
    apply ends_ret, (HQ p); [by rewrite <- !app_assoc in *|done..].
Qed.

(** The third test: the caller blocks; no time passes. *)
Lemma test_sleep_ends q c out p k (Q : unit → kernel → Prop) :
  shows out p k → queue_wf p q → current_process p = Some c → (c < 64)%nat →
  (∀ p' k', shows (out ++ cstr "3. Testing sleep()..." ++ [10] ++ cstr "  Slept for " ++ number 0 ++
       cstr " ms" ++ [10]) p' k' → blocked q c p p' → Q tt k') →
  ends test_sleep k Q.
Proof.
  intros Hk Hwf Hc Hlt HQ. unfold test_sleep. say_step. eapply gettime_ends; [eassumption|].
  eapply sleep_ends; [eassumption|exact Hwf|exact Hc|exact Hlt|]. intros p' k2 Hk2 Hb.
  eapply gettime_ends; [eassumption|]. say_step. rewrite Z.sub_diag. change (s32 0) with 0.
  eapply show_number_ends; [done|eassumption|]; intros. say_step.
  apply ends_ret, (HQ p'); [|done]. rewrite <- !app_assoc in *. eassumption.
Qed.

(** The fourth: the terminal opens as descriptor 0; the greeting is not shown. *)
Lemma test_files_ends c out p k (Q : unit → kernel → Prop) :
  shows out p k → current_process p = Some c →
  (∀ k', shows (out ++ cstr "4. Testing file I/O..." ++ [10] ++ cstr "  Opened /dev/tty, fd=" ++ number 0 ++
       [10] ++ cstr "  Closed file" ++ [10]) (upd_pcb c (put_fd 0 (-1)) p) k' → Q tt k') →
  ends test_files k Q.
Proof.
  intros Hk Hc HQ. unfold test_files. say_step. eapply open_tty_ends; [eassumption|].
  change (0 <=? 0) with true. cbv iota. say_step.
  eapply show_number_ends; [done|eassumption|]; intros. say_step.
  apply ends_bind, (store_bytes_ends (test_msg, 28) p _ _ _ _ _ ltac:(eassumption));
    [do 2 right; by left|cbn; lia|change (Z.of_nat (length (hello ++ [0]))) with 28; cbn; lia| |].
  { refine (bool_decide_unpack _ _). by vm_compute. }
  intros k4 Hk4 _ _. apply write_stdin_ends. eapply close_ends; [eassumption|exact Hc|]. intros. say_step.
  apply ends_ret, HQ. rewrite <- !app_assoc in *. eassumption.
Qed.

Definition memory_shown (b : Z) : list Z :=
  cstr "5. Testing memory allocation..." ++ [10] ++
  cstr "  Allocated 1KB at " ++ hex8 b ++ [10] ++ cstr "  Memory test passed" ++ [10].

(** The fifth, on the memory of the process that is then current. *)
Lemma test_memory_ends c out p k (Q : unit → kernel → Prop) :
  shows out p k → current_process p = Some c → brk (pcb (process_table p) c) = heap →
  (∀ k', shows (out ++ memory_shown heap) (upd_pcb c (set_brk (u32 (heap + 1024))) p) k' → Q tt k') →
  ends test_memory k Q.
Proof.
  intros Hk Hc Hb HQ. unfold test_memory. say_step.
  eapply sbrk_ends; [eassumption|exact Hc|]. intros k2 Hk2. rewrite Hb in *. change (s32 1024) with 1024 in *.
  pose proof (region_space _ heap_region) as Hsp. unfold in_space in Hsp. cbn in Hsp.
  rewrite u32_s32, u32_small by lia. rewrite (proj2 (Z.eqb_neq heap 0xFFFFFFFF)) by lia. cbn [negb]. say_step.
  eapply show_address_ends; [eassumption|]. intros. say_step.
  eapply ends_bind, (fill_ends 256 0); [lia|lia|eassumption|by intros j Hj; lia|]. intros k6 Hk6 Hfill.
  apply ends_bind, check_ends; [lia|lia|done|]. cbv iota. say_step.
  apply ends_ret, HQ. unfold memory_shown. rewrite <- !app_assoc in *. eassumption.
Qed.

(** What the test program shows when its process has pid [pid] and the next free slot
    is [slot]; [heap] is the memory break it is given. *)
Definition test_transcript (pid : Z) (slot : option nat) (b : Z) : list Z :=
  [10] ++ cstr "=== System Test Program ===" ++
  cstr "1. Testing getpid()... PID=" ++ number pid ++ [10] ++
  fork_shown slot ++
  cstr "3. Testing sleep()..." ++ [10] ++ cstr "  Slept for 0 ms" ++ [10] ++
  cstr "4. Testing file I/O..." ++ [10] ++ cstr "  Opened /dev/tty, fd=0" ++ [10] ++ cstr "  Closed file" ++ [10] ++
  memory_shown b ++
  [10] ++ cstr "=== All tests completed ===" ++ [10].

Lemma tail_out (c : nat) q : c ∉ q → c ∉ tail q.
Proof. destruct q; cbn; [done|]. rewrite list.not_elem_of_cons. by intros [_ ?]. Qed.

Lemma head_out c q : c ∉ q → c ≠ 0%nat → default 0%nat (head q) ≠ c.
Proof. destruct q; cbn; [congruence|]. rewrite list.not_elem_of_cons. intros [? _] _. congruence. Qed.

Lemma fork_queue_out q c p (slot := find_slot 64 0 (process_table p)) :
  forkable q c p → c ∉ q → c ∉ fork_queue slot q.
Proof.
  intros Hfk Hcq. pose proof (fk_used _ _ _ Hfk) as Hu. apply list.Forall_cons in Hu as [Hu _].
  destruct slot as [i|] eqn:Hi; cbn [fork_queue]; [|done].
  apply find_slot_some in Hi as [_ Hfree]. assert (Hic : c ≠ i) by (by intros ->).
  apply tail_out. rewrite not_elem_of_app, list_elem_of_singleton. by split.
Qed.

(** The whole program: what it shows and where it leaves the processes. *)
Lemma test_start_ends q c (p := k_proc k0) (slot := find_slot 64 0 (process_table p))
    (rest := fork_queue slot q) (user := default 0%nat (head rest)) :
  forkable q c p → c ∉ q → c ≠ 0%nat → heap = brk (pcb (process_table p) (fork_owner slot c user)) →
  ends test_start k0 (λ _ k', ∃ p',
    shows (test_transcript (pid (pcb (process_table p) c)) slot heap) p' k' ∧
    current_process p' = Some (default 0%nat (head (tail rest))) ∧
    (user ≠ default 0%nat (head (tail rest)) → state_of p' user = PROCESS_TERMINATED) ∧
    state_of p' c = PROCESS_BLOCKED).
Proof.
  intros Hfk Hcq Hc0 Hheap. pose proof Hfk as [Hwf Hc Hlt _ _ _ Hpid _].
  unfold test_start. pose proof (shows_refl (test_regions heap) k0 : shows [] p k0) as Hk. say_step.
  eapply ends_bind, test_getpid_ends; [eassumption|exact Hc|exact Hpid|]. intros.
  eapply ends_bind, (test_fork_ends q c); [eassumption|exact Hfk|]. fold slot rest.
  intros p1 k2 Hk2 Hwf1 Hc1 Hlt1 Hb1 Hs1.
  eapply ends_bind, test_sleep_ends; [eassumption|exact Hwf1|exact Hc1|exact Hlt1|]. fold rest.
  intros p2 k3 Hk3 [Hwf2 Hc2 Hs2 Hb2]. fold user in Hc2, Hs2.
  eapply ends_bind, test_files_ends; [eassumption|exact Hc2|]. intros k4 Hk4.
  assert (Hu : (user < 64)%nat) by exact (queue_head_range _ _ Hwf1). pose proof (qw_len _ _ Hwf2) as Hlen2.
  eapply ends_bind, (test_memory_ends user); [eassumption|exact Hc2| |].
  { rewrite upd_pcb_pcb, decide_True by (done || lia). cbn. by rewrite Hb2, Hb1. }
  intros k5 Hk5. say_step.
  eapply (exit_ends (tail rest) user); [eassumption| |exact Hc2|exact Hu|].
  { by repeat apply queue_wf_upd. }
  intros p6 k7 Hk7 Hc6 Hs6. apply ends_ret. exists p6.
  assert (Hcu : user ≠ c ∧ default 0%nat (head (tail rest)) ≠ c).
  { assert (Hcr : c ∉ rest) by by apply fork_queue_out. split.
    - by apply head_out.
    - apply head_out; [|done]. by apply tail_out. }
  split; [|split; [done|split]].
  - rewrite <- !app_assoc in *. eassumption.
  - intros Hne. rewrite Hs6. by rewrite decide_False, decide_True.
  - rewrite Hs6, !decide_False by (by destruct Hcu). rewrite !state_of_upd by (cbn; rewrite ?length_insert; lia).
    rewrite !decide_False by (by destruct Hcu). rewrite Hs2, decide_False by (by destruct Hcu).
    case_decide as Hd; [done|]. by apply Hs1.
Qed.

End TestRun.

(** ** Properties *)

Section Properties.
Context `{Hardware, PageAllocator, UserFrame}.

(** C16: The test program, run against the kernel from a process that has a pid and
    is not queued, always comes to its end, and shows exactly this transcript: its
    pid; for a child, whose slot [fork] found, the status 0, or that [fork] failed;
    that it slept for 0 ms; that /dev/tty is descriptor 0, without the greeting it
    writes to it; the memory break in hexadecimal and that the memory test passed.
    No process is switched: the calls after [wait] and [sleep] are charged to the
    processes that were next in the queue, the break is that of [user], it is
    [user] that [exit] terminates, and the program's own process stays blocked. *)
Theorem test_program_transcript fuel depth k q c
    (p := k_proc k) (slot := find_slot 64 0 (process_table p))
    (rest := fork_queue slot q) (user := default 0%nat (head rest))
    (heap := brk (pcb (process_table p) (fork_owner slot c user))) :
  forkable fuel q c p → c ∉ q → c ≠ 0%nat → test_frame_ok heap → literals_stored (k_mem k) →
  ends (direct fuel depth) test_start k (λ _ k',
    k_screen k' = shown (test_transcript (pid (pcb (process_table p) c)) slot heap) (k_screen k) ∧
    k_timer k' = k_timer k ∧
    (∀ a, in_space a 1 → outside (test_regions heap) a → ld8 (k_mem k') a = ld8 (k_mem k) a) ∧
    current_process (k_proc k') = Some (default 0%nat (head (tail rest))) ∧
    (user ≠ default 0%nat (head (tail rest)) → state_of (k_proc k') user = PROCESS_TERMINATED) ∧
    state_of (k_proc k') c = PROCESS_BLOCKED).
Proof.
  intros Hfk Hcq Hc0 Hframe Hlits.
  destruct (test_start_ends fuel depth heap k Hframe Hlits q c Hfk Hcq Hc0 eq_refl)
    as (u & k' & Hr & p' & [Hs Hm Ht Hp] & Hcur & Huser & Hst).
  exists u, k'. split; [exact Hr|]. split; [exact Hs|]. split; [exact Ht|]. split; [exact Hm|].
  rewrite Hp. split; [exact Hcur|]. split; [exact Huser|exact Hst].
Qed.

End Properties.

(** ** Witness: the literals in memory and three processes, 1 running *)

Definition test_kernel : kernel :=
  set_proc (upd_pcb 3 (set_brk 0x100000) proc_demo) (set_mem (mem_of test_literals) kernel_bss).

Lemma test_forkable : forkable 2 [2%nat; 3%nat] 1 (k_proc test_kernel).
Proof.
  split; [|reflexivity|lia|cbn; lia| |vm_compute; reflexivity|split; vm_compute; discriminate || reflexivity|vm_compute; split; reflexivity].
  - apply queue_wf_upd; [exact (rg_wf _ _ _ demo_ring)|lia|done].
  - repeat constructor; intros [H|H]; vm_compute in H; discriminate.
Qed.

Lemma test_program_transcript_witness :
  Userland.ends (@direct (typing []) alloc_frame_allocator 2 0) (@test_start (frame_of test_literals)) test_kernel
    (λ _ k', k_screen k' = shown (test_transcript 1 (Some 0%nat) 0x100000) (k_screen test_kernel) ∧
       current_process (k_proc k') = Some 0%nat ∧ state_of (k_proc k') 3 = PROCESS_TERMINATED).
Proof.
  eapply ends_mono; [|apply (@test_program_transcript (typing []) alloc_frame_allocator (frame_of test_literals)
    2 0 test_kernel [2%nat; 3%nat] 1 test_forkable)].
  - intros u k' (Hs & _ & _ & Hc & Hu & _). split; [exact Hs|]. split; [exact Hc|]. apply Hu. discriminate.
  - set_solver.
  - discriminate.
  - refine (conj _ (conj _ _)); [discriminate| |]; refine (bool_decide_unpack _ _); vm_compute; exact I.
  - intros s Hs. apply stored_check. revert s Hs. rewrite <- list.Forall_forall.
    refine (bool_decide_unpack _ _). vm_compute. exact I.
Defined.
